(* ===== verification/_CoqProject ===== *)
-Q . S2P
Prelude.v
GoStrings.v
GoUrl.v
Parsing.v
Lru.v
CacheInterface.v
Wire.v
Command.v
Operations.v
WireRef.v
ClientSettings.v
Router.v
RouterWitnesses.v
Pool.v
DistributedCache.v
Sessions.v
Caches.v
Mongo.v
RoundTrip.v
RoundTripFacts.v
RoundTripTransactions.v
RoundTripWitnesses.v
Topology.v
Handshake.v
Forwarder.v
CacheNode.v
Proxy.v
Listener.v
Connection.v
ConnectionFrame.v
ConnectionFacts.v
ConnectionRouting.v
ConnectionWitnesses.v
System.v
SystemFacts.v
SystemWitnesses.v
Config.v
ConfigFacts.v
Startup.v
StartupWitnesses.v
Metrics.v
Prometheus.v
