(* ===== verification/Prelude.v ===== *)
(** * MongoBouncer: a verification development

    MongoBouncer ([src/]) is a proxy in front of MongoDB servers.  At start-up
    the configuration ([src/config/]) becomes a routing table, a pool manager
    and a proxy, which [src/mongobouncer.go] runs until a signal stops it.  The
    proxy ([src/proxy/proxy.go]) accepts connections, each with a handler of its
    own.  A client connection ([src/proxy/connection.go]) reads wire
    messages, decodes them ([src/mongo/operations.go]), answers handshakes
    itself ([src/mongo/ismaster.go]), asks the router for the route of the
    database ([src/proxy/router.go]), may forward the request to another pod
    ([src/mongo/request_forwarder.go]), borrows a pooled connection from the
    pool manager ([src/pool/pool.go]) and sends the message through a MongoDB
    client ([src/mongo/mongo.go]), which follows sessions, transactions and
    cursors ([src/mongo/session_manager.go], [transaction_cache.go],
    [cursor_cache.go]) and shares them with other pods
    ([src/mongo/distributed_cache.go]).  The caches are [src/lruttl/lruttl.go];
    what happens is counted by [src/util/metrics.go].

    ** Files, and what they model

    - [Prelude.v]: outcomes of fallible Go functions, machine integers, shared
      tactics, the hint database [go] of functions that return.
    - [GoStrings.v]: what the program uses of Go's [strings], [fmt],
      [encoding/base64] and [regexp], on byte strings; case mapping outside
      ASCII and regular expressions outside the fragment the router builds are
      the class parameters [UnicodeCase] and [RegexpOther].
    - [GoUrl.v]: [net/url]'s [Parse] and [Query], and the few regular
      expressions of the connection handler.
    - [Parsing.v]: [util/parsing.go] and [util/helpers.go].
    - [Lru.v] (Module [Lru]): [lruttl.Cache] as a doubly linked list of elements
      with a key map; [contents] reads the list off as an abstract recency list.
    - [CacheInterface.v]: class [BoundedCache] with [BoundedCacheLaws], what the
      other components rely on of a cache, and the instance for [Lru.Cache].
    - [Wire.v]: the byte helpers of [operations.go]; classes [Wiremessage],
      [Bsoncore] and [DriverErrors] for the driver packages, with [WireLaws] and
      [BsonLaws] for what the codec relies on of them.
    - [Command.v]: [mongo/command.go].
    - [Operations.v]: [mongo/operations.go]; the Go interface [Operation] is a
      sum type, its method set the record [OperationMethods], one value per
      concrete type ([opQuery_methods] and so on).
    - [WireRef.v]: a concrete little-endian and BSON instance of the driver
      classes, proved to satisfy the laws; runs of the codec's theorems.
    - [ClientSettings.v]: [util/mongodb_client.go] and [util/types.go].
    - [Router.v], [RouterWitnesses.v]: [proxy/router.go], generic in the cache.
    - [Pool.v]: [pool/pool.go], with the heap of pooled connections, and the
      abstract ledger of checkouts and returns.
    - [DistributedCache.v]: [mongo/distributed_cache.go], generic in
      groupcache's groups and in the JSON encodings.
    - [Sessions.v]: [mongo/session_manager.go], with the heap of sessions; its
      Module [Locks] has the lock order of two operations.
    - [Caches.v]: [mongo/cursor_cache.go] and [mongo/transaction_cache.go].
    - [Mongo.v]: the MongoDB client of [mongo/mongo.go]: connecting, health, the
      pool monitor, the cache monitor, closing.  The driver is class [Driver]: a
      state [W] and the calls on it, each of which may answer anything.
    - [RoundTrip.v]: [Mongo.RoundTrip] and what it calls: the retry loop in a
      control monad with Go's [continue] and [return], the deferred calls as a
      stack of data, the driver calls as a trace.
    - [RoundTripFacts.v], [RoundTripTransactions.v], [RoundTripWitnesses.v]: its
      theorems outside and inside transactions, and runs against a concrete
      driver.
    - [Topology.v]: [mongo/topology_monitor.go].
    - [Handshake.v]: [mongo/ismaster.go], over the driver's [bson.Marshal].
    - [Forwarder.v]: [mongo/request_forwarder.go], over class [PodNet].
    - [CacheNode.v]: the set-up, stopping and statistics of the shared cache, over
      class [Groupcache] for groupcache's daemon and the cluster's discovery.
    - [Proxy.v]: the client registry and the shutdown of [proxy/proxy.go].
    - [Listener.v]: its accept loop and the goroutines around it, as a state with
      a program counter for each and the executable step function [fire].
    - [Connection.v]: [proxy/connection.go] in a state and error monad over the
      components above; what lies outside (the clock, dialling, a client's round
      trip) is class [World].
    - [ConnectionFrame.v]: what its steps leave alone, as the class [Frame] of
      relations that every step but the exchange with MongoDB keeps.
    - [ConnectionFacts.v], [ConnectionRouting.v], [ConnectionWitnesses.v]: its
      theorems on framing, the loop and the handshake, on routing and pooling,
      and runs of them.
    - [System.v], [SystemFacts.v], [SystemWitnesses.v]: the class [World]
      implemented by the clients of [Mongo.v] and [RoundTrip.v], a table of
      clients with one session manager; theorems from the client's bytes to the
      driver's calls.
    - [Config.v], [ConfigFacts.v]: [config/config.go] and the routes of
      [config/proxies.go], from the decoded TOML tree on.
    - [Startup.v], [StartupWitnesses.v]: [Config.Proxies] as a whole,
      [CreateLogger] and [src/mongobouncer.go]; a run from a configuration file
      to the request at the driver.
    - [Metrics.v]: [util/batched_metrics.go] and the translation of
      [util/metrics.go]; [Prometheus.v]: the vectors it declares and registers,
      and the effect of the calls on them.

    ** Conventions

    A method with a pointer receiver takes the state and returns it changed.
    [(T, error)] is [outcome T], or [result] where the error value matters;
    [(T, bool)] is an option or a pair.  Pointers that the program compares or
    shares are references into a heap that is part of the state; other objects
    are values.  Time is an argument [now] in nanoseconds or a part of the
    world, random bytes an argument.  A mutex-protected method is one atomic
    step; where two halves of a method are protected separately ([GetRoute])
    they are two steps.  Go maps that the program ranges over are lists in the
    order of the iteration.  Logging is left out.  Counters and wire fields are
    kept at their width ([int32], [int64]); [float64] metric values are exact.

    ** What the theorems show

    - Codec: decoding inverts encoding (C1) and returns on all bytes (C15);
      command recognition is sound and complete (C32).  [Encode_header]: what a
      header says; [Decode_Encode_delete]: where [OP_DELETE] fails.
    - Router: the cache in front of the routing table is transparent under all
      interleavings (C2); patterns mean their globs (C16).
    - LRU cache: it implements the recency list (C3).
    - Pool: every run is a run of the ledger (C4); bounds on the counters (C40);
      which connection each mode gives and when it comes back (C17 to C19).
    - Sessions: an invariant over all runs (C5); the start of a transaction on
      every branch (C33); a deadlock (C34).
    - The whole path, from a client's bytes to the driver: what is written are
      the client's messages, unchanged, in order and at most four times each, and
      what is opened is closed (C11); a transaction in progress stays on its
      server and connection over all requests of a connection (C6).
    - Round trips: a transaction is pinned at its start (C7) and released at its
      end (C8), whatever the driver answers; which errors are retried (C24);
      cursors stay on their server (C23).  [RoundTrip_bounded],
      [plain_connections_closed], [plain_request_keeps_sessions] and
      [pinned_request] are the lemmas behind C6 and C11.
    - MongoDB client: the pool monitor's counters (C36).
    - Connection handler: framing (C10) and its failures (C29); the loop ends
      and answers each message once (C9); what a handshake has proved (C21) and
      what later requests do not check (C22); the pool's stale client (C38).
    - Listener: a kill ends the proxy, whatever its clients do (C12); when [Run]
      returns no connection is left (C13); the wait group and the gauge's
      callbacks count the connections (C28).  Shutdown closes the registered
      clients (C39); what signals do (C26).
    - Handshake replies are well-formed answers (C31).  Forwarding happens only
      for a session with a known location (C37).  The topology comparison (C30).
      The set-up of the shared cache (C27).
    - Configuration: what validation accepts (C20), and that after start-up every
      database configured by name is served by its own route and client (C14).
    - Metrics: batches lose and reorder nothing (C35); no metric call panics
      (C25).

    Theorems without such a number state further behaviour of the same
    definitions, defects among them.

    ** Bounds and fuel

    Unrolled loops: the section loop of [decodeMsg], given the number of bytes
    left as fuel (every section takes at least a byte, see
    [returns_decodeMsg_loop]); the expiry loop of the LRU cache, given the
    length of its list (every iteration removes an element); [SplitN], bounded
    by the number of pieces; the message loop of [processMessages], given one
    turn more than the client's bytes (every message takes at least four; C9
    shows that the fuel is never used up).  The retry loop has its four attempts.
    C40 assumes fewer than 2^63 connections and C36 fewer than 2^63 events.
    Runs of the listener are lists of steps of any length; C12 bounds them after a
    kill.

    ** Not modelled, and the plan

    Libraries stay parameters: the TOML decoder, zap, the driver, groupcache and
    its discovery, Go's HTTP server and signal delivery.  A handler's steps are
    not interleaved with those of other handlers: [Connection.v] runs one handler
    on the shared state, and [Listener.v] interleaves the handlers' lives, not
    their requests.  The clocks of the monitors ([cacheMonitor], the expiry loop)
    appear as single ticks.

    Next: two handlers on one pool and session manager, interleaved per message;
    [extractHostFromRoute] against a grammar of connection strings; the sessions
    gauge over a whole connection; the aliasing of the tag slices that the
    batched metrics keep. *)

From stdpp Require Export base gmap list strings pretty.
From coqutil Require Export Byte.
From Stdlib Require Import ZArith Lia.
From Stdlib Require Strings.Byte.

(** ** Outcomes of Go functions

    A Go function that returns [(T, error)] is modelled by [outcome T]: [Ret]
    for a nil error, [Err e] for a non-nil error whose message is [e], and
    [Panic why] for a run-time panic (index out of range, nil dereference).
    [NoFuel] is not a Go outcome: it is what a bounded unrolling of a Go loop
    returns when its bound is used up; the theorems on such loops show that the
    bound given is never used up. *)

Inductive outcome (A : Type) : Type :=
| Ret (a : A)
| Err (e : string)
| Panic (why : string)
| NoFuel.
Arguments Ret {A} a.
Arguments Err {A} e.
Arguments Panic {A} why.
Arguments NoFuel {A}.

Definition obind {A B} (m : outcome A) (k : A -> outcome B) : outcome B :=
  match m with
  | Ret a => k a
  | Err e => Err e
  | Panic w => Panic w
  | NoFuel => NoFuel
  end.

(** [or_err o e]: the Go idiom [x, ok := f(); if !ok { return nil, errors.New(e) }]. *)
Definition or_err {A} (o : option A) (e : string) : outcome A :=
  match o with
  | Some a => Ret a
  | None => Err e
  end.

Declare Scope go_scope.
Delimit Scope go_scope with go.
Open Scope go_scope.

Notation "'let?' x := m 'in' k" := (obind m (fun x => k))
  (at level 10, x pattern, m at level 100, k at level 200,
   format "'[v' 'let?'  x  :=  m  'in' '/' k ']'") : go_scope.

(** The function returns: neither a panic nor a loop that was cut short. *)
Definition returns {A} (m : outcome A) : Prop :=
  match m with
  | Ret _ | Err _ => True
  | Panic _ | NoFuel => False
  end.

(** [go]: the outcomes that return, closed under the error idiom and sequencing. *)
Create HintDb go.

Lemma returns_Ret {A} (a : A) : returns (Ret a).
Proof. done. Qed.

Lemma returns_Err {A} e : returns (@Err A e).
Proof. done. Qed.

Lemma returns_or_err {A} (o : option A) e : returns (or_err o e).
Proof. by destruct o. Qed.

Lemma returns_bind {A B} (m : outcome A) (k : A -> outcome B) :
  returns m -> (forall a, m = Ret a -> returns (k a)) -> returns (obind m k).
Proof. destruct m; cbn; eauto. Qed.

#[export] Hint Resolve returns_Ret returns_Err returns_or_err : go.

(** ** Machine integers *)

(** The two's complement value of the low [w] bits of [z]. *)
Definition swrap (w z : Z) : Z := ((z + 2 ^ (w - 1)) mod 2 ^ w - 2 ^ (w - 1))%Z.

Definition int32 (z : Z) : Z := swrap 32 z.
Definition int64 (z : Z) : Z := swrap 64 z.
Definition uint32 (z : Z) : Z := (z mod 2 ^ 32)%Z.

Definition is_int32 (z : Z) : Prop := (- 2 ^ 31 <= z < 2 ^ 31)%Z.
Definition is_int64 (z : Z) : Prop := (- 2 ^ 63 <= z < 2 ^ 63)%Z.
Definition is_uint32 (z : Z) : Prop := (0 <= z < 2 ^ 32)%Z.

Lemma swrap_id w z : (0 < w)%Z -> (- 2 ^ (w - 1) <= z < 2 ^ (w - 1))%Z -> swrap w z = z.
Proof.
  intros Hw Hz. unfold swrap.
  assert (2 ^ w = 2 * 2 ^ (w - 1))%Z as Hp.
  { replace w with (Z.succ (w - 1)) at 1 by lia. rewrite Z.pow_succ_r by lia. done. }
  rewrite Z.mod_small by lia. lia.
Qed.

Lemma int32_id z : is_int32 z -> int32 z = z.
Proof. intros H. apply swrap_id; [lia | exact H]. Qed.

Lemma int64_id z : is_int64 z -> int64 z = z.
Proof. intros H. apply swrap_id; [lia | exact H]. Qed.

Lemma swrap_mod w z : (0 < w)%Z -> swrap w (z mod 2 ^ w) = swrap w z.
Proof.
  intros Hw. unfold swrap. f_equal.
  rewrite Z.add_mod_idemp_l by (apply Z.pow_nonzero; lia). done.
Qed.

Lemma swrap_range w z : (0 < w)%Z -> (- 2 ^ (w - 1) <= swrap w z < 2 ^ (w - 1))%Z.
Proof.
  intros Hw. unfold swrap.
  assert (2 ^ w = 2 * 2 ^ (w - 1))%Z as Hp.
  { replace w with (Z.succ (w - 1)) at 1 by lia. rewrite Z.pow_succ_r by lia. done. }
  pose proof (Z.mod_pos_bound (z + 2 ^ (w - 1)) (2 ^ w)) as Hb.
  assert (0 < 2 ^ (w - 1))%Z by (apply Z.pow_pos_nonneg; lia). lia.
Qed.

Lemma int32_range z : is_int32 (int32 z).
Proof. apply (swrap_range 32). lia. Qed.

Lemma int64_range z : is_int64 (int64 z).
Proof. apply (swrap_range 64). lia. Qed.

(** Truncation is a ring morphism: only the last truncation of a sum matters. *)
Lemma swrap_add w a b : (0 < w)%Z -> swrap w (swrap w a + swrap w b) = swrap w (a + b).
Proof.
  intros Hw. unfold swrap. f_equal.
  set (p := (2 ^ (w - 1))%Z). set (q := (2 ^ w)%Z).
  assert (q <> 0)%Z by (apply Z.pow_nonzero; lia).
  replace ((a + p) mod q - p + ((b + p) mod q - p) + p)%Z
    with ((a + p) mod q + ((b + p) mod q - p))%Z by lia.
  rewrite Z.add_mod_idemp_l by done.
  replace (a + p + ((b + p) mod q - p))%Z with ((b + p) mod q + a)%Z by lia.
  rewrite Z.add_mod_idemp_l by done. f_equal. lia.
Qed.

Lemma int32_add a b : int32 (int32 a + int32 b) = int32 (a + b).
Proof. apply swrap_add. lia. Qed.

#[export] Instance byte_eq_decision : EqDecision byte := Byte.byte_eq_dec.

(** ** Tactics *)

(** Case analysis on the scrutinee of every [match] and [if] of the goal. *)
Ltac case_all :=
  repeat (case_match; simplify_eq/=; try done).

(** Split conjunctions and existentials of the hypotheses. *)
Ltac split_hyps :=
  repeat match goal with
    | H : _ /\ _ |- _ => destruct H
    | H : exists _, _ |- _ => destruct H
    end.

(** A function built from fallible reads and sequencing returns. *)
Ltac go_returns :=
  repeat (apply returns_bind; [eauto with go|intros ? _]; repeat case_match); eauto with go.

(** Discharge the premises of [H] one by one, each evaluated on concrete arguments. *)
Ltac premise :=
  first [ vm_compute; reflexivity | vm_compute; repeat split; reflexivity | vm_compute; left; reflexivity
        | intros [? | ?]; vm_compute in *; congruence | vm_compute; congruence ].
Ltac discharge H :=
  repeat lazymatch type of H with
  | forall _ : ?P, _ =>
      lazymatch type of P with
      | Prop => let h := fresh "h" in assert (h : P) by premise; specialize (H h); clear h
      end
  end.

(** ** Lists *)

Lemma last_app_singleton {A} (l : list A) (x : A) : last (l ++ [x]) = Some x.
Proof. apply last_snoc. Qed.

Lemma list_snoc_inv {A} (l : list A) : l = [] \/ exists l' x, l = l' ++ [x].
Proof. induction l using rev_ind; eauto. Qed.
