(* ===== verification/GoStrings.v ===== *)
(** * The parts of Go's [strings], [fmt], [encoding/base64] and [regexp] packages
    that the program uses.

    A Go string is a sequence of bytes, modelled by [string] (one [ascii] per
    byte).  Functions keep their Go names and argument order; a result of [-1]
    is [None].  Case folding of non-ASCII text and the regular expressions
    outside the anchored literal/[.*] fragment are parameters (classes
    [UnicodeCase] and [RegexpOther]): no theorem depends on their value unless
    it says so. *)

From S2P Require Import Prelude.
From Stdlib Require Import ZArith Lia Ascii.
Local Open Scope string_scope.

(** ** Slices of strings *)

Fixpoint str_take (n : nat) (s : string) : string :=
  match n, s with
  | S n', String a s' => String a (str_take n' s')
  | _, _ => ""
  end.

Fixpoint str_drop (n : nat) (s : string) : string :=
  match n, s with
  | S n', String _ s' => str_drop n' s'
  | _, _ => s
  end.

(** ** Searching *)

Fixpoint HasPrefix (s prefix : string) {struct prefix} : bool :=
  match prefix, s with
  | "", _ => true
  | String a p', String b s' => bool_decide (a = b) && HasPrefix s' p'
  | String _ _, "" => false
  end.

Definition HasSuffix (s suffix : string) : bool :=
  (String.length suffix <=? String.length s)%nat
  && bool_decide (str_drop (String.length s - String.length suffix) s = suffix).

Fixpoint Index (s substr : string) : option nat :=
  if HasPrefix s substr then Some 0
  else match s with
       | "" => None
       | String _ s' => S <$> Index s' substr
       end.

Fixpoint LastIndex (s substr : string) : option nat :=
  match s with
  | "" => if HasPrefix s substr then Some 0 else None
  | String _ s' =>
      match LastIndex s' substr with
      | Some i => Some (S i)
      | None => if HasPrefix s substr then Some 0 else None
      end
  end.

Definition Contains (s substr : string) : bool := bool_decide (is_Some (Index s substr)).

(** ** Splitting, joining, trimming and replacing *)

(** [strings.SplitN] for [n > 0] and a non-empty separator. *)
Fixpoint SplitN (s sep : string) (n : nat) : list string :=
  match n with
  | O => []
  | S O => [s]
  | S n' =>
      match Index s sep with
      | None => [s]
      | Some i => str_take i s :: SplitN (str_drop (i + String.length sep) s) sep n'
      end
  end.

(** [strings.Split]: as many pieces as there are; [length s + 1] pieces are enough. *)
Definition Split (s sep : string) : list string := SplitN s sep (S (String.length s)).

Fixpoint Join (parts : list string) (sep : string) : string :=
  match parts with
  | [] => ""
  | [p] => p
  | p :: rest => p +:+ sep +:+ Join rest sep
  end.

Definition ReplaceAll (s old new : string) : string := Join (Split s old) new.

(** [strings.Replace(s, old, new, 1)]. *)
Definition Replace1 (s old new : string) : string :=
  match Index s old with
  | None => s
  | Some i => str_take i s +:+ new +:+ str_drop (i + String.length old) s
  end.

Definition TrimPrefix (s prefix : string) : string :=
  if HasPrefix s prefix then str_drop (String.length prefix) s else s.

Definition TrimSuffix (s suffix : string) : string :=
  if HasSuffix s suffix then str_take (String.length s - String.length suffix) s else s.

(** [strings.TrimLeft], [TrimRight] and [Trim] with a cutset of one byte. *)
Fixpoint TrimLeft (s : string) (c : ascii) : string :=
  match s with
  | "" => ""
  | String a s' => if bool_decide (a = c) then TrimLeft s' c else s
  end.

Fixpoint TrimRight (s : string) (c : ascii) : string :=
  match s with
  | "" => ""
  | String a s' =>
      match TrimRight s' c with
      | "" => if bool_decide (a = c) then "" else String a ""
      | t => String a t
      end
  end.

Definition Trim (s : string) (c : ascii) : string := TrimRight (TrimLeft s c) c.

(** ** Case *)

Fixpoint str_forall (P : ascii -> bool) (s : string) : bool :=
  match s with
  | "" => true
  | String a s' => P a && str_forall P s'
  end.

Fixpoint str_map (f : ascii -> ascii) (s : string) : string :=
  match s with
  | "" => ""
  | String a s' => String (f a) (str_map f s')
  end.

Definition is_ascii_byte (a : ascii) : bool := (N_of_ascii a <? 128)%N.
Definition isASCII (s : string) : bool := str_forall is_ascii_byte s.

Definition is_upper (a : ascii) : bool :=
  (65 <=? N_of_ascii a)%N && (N_of_ascii a <=? 90)%N.

Definition lower_byte (a : ascii) : ascii :=
  if is_upper a then ascii_of_N (N_of_ascii a + 32) else a.

(** [unicode_lower s] stands for [strings.Map(unicode.ToLower, s)] on strings
    with a byte outside ASCII. *)
Class UnicodeCase := { unicode_lower : string -> string }.

(** A concrete instance for runs on ASCII text: other strings are left alone. *)
Definition ascii_case : UnicodeCase := {| unicode_lower := fun s => s |}.

Definition ToLower `{UnicodeCase} (s : string) : string :=
  if isASCII s then str_map lower_byte s else unicode_lower s.

(** ** [fmt] verbs and base64 *)

(** [%d] of an integer. *)
Definition fmt_d (z : Z) : string := pretty z.

Definition hex_digit (n : Z) : ascii :=
  default "0"%char (String.get (Z.to_nat n) "0123456789abcdef").

(** [%x] of a byte slice. *)
Fixpoint fmt_x (bs : list byte) : string :=
  match bs with
  | [] => ""
  | b :: bs' =>
      String (hex_digit (byte.unsigned b / 16))
        (String (hex_digit (byte.unsigned b mod 16)) (fmt_x bs'))
  end.

(** [%v] of a bool. *)
Definition fmt_bool (b : bool) : string := if b then "true" else "false".

Definition b64_alphabet : string :=
  "ABCDEFGHIJKLMNOPQRSTUVWXYZabcdefghijklmnopqrstuvwxyz0123456789+/".

Definition b64_char (n : Z) : ascii := default "A"%char (String.get (Z.to_nat n) b64_alphabet).

(** [base64.StdEncoding.EncodeToString]: three bytes to four characters, [=] padding. *)
Fixpoint b64_EncodeToString (bs : list byte) : string :=
  match bs with
  | [] => ""
  | [b0] =>
      let v := (byte.unsigned b0 * 65536)%Z in
      String (b64_char (v / 262144)) (String (b64_char (v / 4096 mod 64)) "==")
  | [b0; b1] =>
      let v := (byte.unsigned b0 * 65536 + byte.unsigned b1 * 256)%Z in
      String (b64_char (v / 262144)) (String (b64_char (v / 4096 mod 64))
        (String (b64_char (v / 64 mod 64)) "="))
  | b0 :: b1 :: b2 :: rest =>
      let v := (byte.unsigned b0 * 65536 + byte.unsigned b1 * 256 + byte.unsigned b2)%Z in
      String (b64_char (v / 262144)) (String (b64_char (v / 4096 mod 64))
        (String (b64_char (v / 64 mod 64)) (String (b64_char (v mod 64))
          (b64_EncodeToString rest))))
  end.

(** ** [regexp.MatchString]

    The program only builds expressions [^...$] whose body is a database
    pattern with every [*] replaced by [.*].  When the rest of the body is
    literal the expression is matched here; any other expression is handed to
    [regexp_other] ([None]: the expression does not compile). *)

Class RegexpOther := { regexp_other : string -> string -> option bool }.

(** A concrete instance for runs that stay in the modelled fragment. *)
Definition no_other_regexp : RegexpOther := {| regexp_other := fun _ _ => None |}.

Inductive rtok :=
| RLit (a : ascii)
| RStar.

Definition newline : ascii := "010"%char.

(** ASCII bytes with no meaning of their own in the RE2 syntax. *)
Definition literal_byte (a : ascii) : bool :=
  is_ascii_byte a && negb (Contains "\.+*?()|[]{}^$" (String a "")).

Fixpoint parse_body (s : string) : option (list rtok) :=
  match s with
  | "" => None
  | "$" => Some []
  | String a s' =>
      if literal_byte a then cons (RLit a) <$> parse_body s'
      else match a, s' with
           | "."%char, String "*"%char s'' => cons RStar <$> parse_body s''
           | _, _ => None
           end
  end.

Definition parse_anchored (re : string) : option (list rtok) :=
  match re with
  | String "^"%char body => parse_body body
  | _ => None
  end.

(** [.*] matches any run of bytes without a newline (the [s] flag is off). *)
Fixpoint rmatch (ts : list rtok) (s : string) : bool :=
  match ts with
  | [] => bool_decide (s = "")
  | RLit a :: ts' =>
      match s with
      | String b s' => bool_decide (a = b) && rmatch ts' s'
      | "" => false
      end
  | RStar :: ts' =>
      (fix star (s : string) : bool :=
         rmatch ts' s ||
         match s with
         | String b s' => bool_decide (b <> newline) && star s'
         | "" => false
         end) s
  end.

Definition MatchString `{RegexpOther} (re s : string) : option bool :=
  match parse_anchored re with
  | Some ts => Some (rmatch ts s)
  | None => regexp_other re s
  end.

(** ** Lemmas on slices and searching *)

Lemma append_nil_l s : "" +:+ s = s.
Proof. done. Qed.

Lemma append_cons a s t : String a s +:+ t = String a (s +:+ t).
Proof. done. Qed.

Lemma append_nil_r s : s +:+ "" = s.
Proof. induction s as [|a s IH]; [done|]. by rewrite append_cons, IH. Qed.

Lemma append_assoc s t u : s +:+ t +:+ u = (s +:+ t) +:+ u.
Proof. induction s as [|a s IH]; [done|]. by rewrite !append_cons, IH. Qed.

Lemma append_inj_r s t u : s +:+ t = s +:+ u -> t = u.
Proof. induction s; intros; simplify_eq; auto. Qed.

Lemma length_append s t : String.length (s +:+ t) = String.length s + String.length t.
Proof. induction s as [|a s IH]; [done|]. rewrite append_cons. cbn. by rewrite IH. Qed.

Lemma take_drop_str n s : str_take n s +:+ str_drop n s = s.
Proof.
  revert s; induction n as [|n IH]; intros [|a s]; try done.
  cbn [str_take str_drop]. by rewrite append_cons, IH.
Qed.

Lemma str_take_append s t : str_take (String.length s) (s +:+ t) = s.
Proof. induction s as [|a s IH]; [done|]. rewrite append_cons. cbn. by rewrite IH. Qed.

Lemma str_drop_append s t : str_drop (String.length s) (s +:+ t) = t.
Proof. induction s as [|a s IH]; [done|]. rewrite append_cons. cbn. by rewrite IH. Qed.

Lemma str_drop_add i j s : str_drop (i + j) s = str_drop j (str_drop i s).
Proof. revert s; induction i as [|i IH]; intros [|a s]; try done; cbn; [by destruct j|apply IH]. Qed.

Lemma length_str_drop n s : String.length (str_drop n s) = String.length s - n.
Proof. revert s; induction n as [|n IH]; intros [|a s]; try done. cbn. apply IH. Qed.

Lemma HasPrefix_spec s p : HasPrefix s p = true <-> exists r, s = p +:+ r.
Proof.
  revert s; induction p as [|a p IH]; intros s.
  - split; [exists s; done | by destruct s].
  - destruct s as [|b s]; cbn [HasPrefix].
    + split; [done | by intros [r Hr]].
    + rewrite andb_true_iff, bool_decide_eq_true, IH. split.
      * intros [-> [r ->]]. by exists r.
      * intros [r Hr]. rewrite append_cons in Hr. simplify_eq. eauto.
Qed.

Lemma HasSuffix_spec s p : HasSuffix s p = true <-> exists r, s = r +:+ p.
Proof.
  unfold HasSuffix. rewrite andb_true_iff, Nat.leb_le, bool_decide_eq_true. split.
  - intros [_ Hs]. exists (str_take (String.length s - String.length p) s).
    pose proof (take_drop_str (String.length s - String.length p) s) as E.
    by rewrite Hs in E.
  - intros [r ->]. rewrite length_append. split; [lia|].
    replace (_ + _ - _)%nat with (String.length r) by lia. apply str_drop_append.
Qed.

Lemma HasPrefix_drop s p : HasPrefix s p = true -> s = p +:+ str_drop (String.length p) s.
Proof. intros [r ->]%HasPrefix_spec. by rewrite str_drop_append. Qed.

Lemma Index_Some s sub i :
  Index s sub = Some i -> s = str_take i s +:+ sub +:+ str_drop (i + String.length sub) s.
Proof.
  revert i; induction s as [|a s IH]; intros i; cbn [Index];
    destruct (HasPrefix _ sub) eqn:E; intros Hi; simplify_eq.
  1, 2: by apply HasPrefix_drop.
  apply fmap_Some in Hi as (j & Hj & ->). cbn [str_take str_drop Nat.add].
  rewrite append_cons. f_equal. by apply IH.
Qed.

Lemma Index_None s sub : Index s sub = None <-> forall p r, s <> p +:+ sub +:+ r.
Proof.
  induction s as [|a s IH]; cbn [Index]; destruct (HasPrefix _ sub) eqn:E.
  - apply HasPrefix_spec in E as [r Hr]. split; [done|]. intros H. by destruct (H "" r).
  - split; [|done]. intros _ p r Hp. destruct p as [|b p]; [|done].
    rewrite append_nil_l in Hp. enough (HasPrefix "" sub = true) by congruence.
    apply HasPrefix_spec. eauto.
  - apply HasPrefix_spec in E as [r Hr]. split; [done|]. intros H. by destruct (H "" r).
  - rewrite fmap_None, IH. split.
    + intros H [|b p] r Hp.
      * rewrite append_nil_l in Hp. enough (HasPrefix (String a s) sub = true) by congruence.
        apply HasPrefix_spec. eauto.
      * rewrite append_cons in Hp. simplify_eq. by eapply H.
    + intros H p r Hp. apply (H (String a p) r). by rewrite append_cons, <- Hp.
Qed.

Lemma Contains_spec s sub : Contains s sub = true <-> exists p r, s = p +:+ sub +:+ r.
Proof.
  unfold Contains. rewrite bool_decide_eq_true. split.
  - intros [i Hi]. eauto using Index_Some.
  - intros (p & r & Hs). destruct (Index s sub) eqn:E; [eauto|].
    rewrite Index_None in E. by destruct (E p r).
Qed.

(** The first occurrence is found: no shorter prefix ends in front of [sub]. *)
Lemma Index_first s sub i p r :
  Index s sub = Some i -> s = p +:+ sub +:+ r -> i <= String.length p.
Proof.
  revert i p; induction s as [|a s IH]; intros i p; cbn [Index];
    destruct (HasPrefix _ sub) eqn:E; intros Hi Hp; simplify_eq; try lia.
  apply fmap_Some in Hi as (j & Hj & ->). destruct p as [|b p].
  - exfalso. rewrite append_nil_l in Hp. rewrite Hp in E.
    enough (HasPrefix (sub +:+ r) sub = true) by congruence. apply HasPrefix_spec. eauto.
  - rewrite append_cons in Hp. simplify_eq. cbn. apply le_n_S. by eapply IH.
Qed.

(** ** Lemmas on splitting *)

Lemma Join_SplitN s sep n : Join (SplitN s sep (S n)) sep = s.
Proof.
  revert s; induction n as [|n IH]; intros s; [done|].
  cbn [SplitN]. destruct (Index s sep) as [i|] eqn:E; [|done].
  specialize (IH (str_drop (i + String.length sep) s)).
  remember (SplitN (str_drop (i + String.length sep) s) sep (S n)) as l eqn:El.
  destruct l as [|q l].
  { cbn [SplitN] in El. destruct n; [done|]. by destruct (Index (str_drop _ s) sep). }
  cbn [SplitN] in El. rewrite <- El. cbn [Join]. cbn [Join] in IH. rewrite IH.
  symmetry. by apply Index_Some.
Qed.

Lemma Join_Split s sep : Join (Split s sep) sep = s.
Proof. apply Join_SplitN. Qed.

(** [no_byte c s]: the byte [c] does not occur in [s]. *)
Definition no_byte (c : ascii) (s : string) : bool :=
  str_forall (fun a => bool_decide (a <> c)) s.

Lemma no_byte_cons c a s : no_byte c (String a s) = bool_decide (a <> c) && no_byte c s.
Proof. done. Qed.

Lemma no_byte_cons_ne c a s : a <> c -> no_byte c s = true -> no_byte c (String a s) = true.
Proof. intros Ha Hs. by rewrite no_byte_cons, Hs, bool_decide_true. Qed.

Lemma Index_byte c s r :
  no_byte c s = true -> Index (s +:+ String c r) (String c "") = Some (String.length s).
Proof.
  induction s as [|a s IH]; cbn [no_byte str_forall].
  - intros _. rewrite append_nil_l. cbn [Index HasPrefix]. rewrite bool_decide_true by done. done.
  - intros [Ha Hs]%andb_true_iff. rewrite bool_decide_eq_true in Ha.
    rewrite append_cons. cbn [Index HasPrefix].
    rewrite bool_decide_false by congruence. cbn [andb]. by rewrite (IH Hs).
Qed.

Lemma Index_byte_None c s : no_byte c s = true -> Index s (String c "") = None.
Proof.
  induction s as [|a s IH]; cbn [no_byte str_forall]; [done|].
  intros [Ha Hs]%andb_true_iff. rewrite bool_decide_eq_true in Ha.
  cbn [Index HasPrefix]. rewrite bool_decide_false by congruence. cbn [andb]. by rewrite (IH Hs).
Qed.

Lemma no_byte_split c s : no_byte c s = true \/ exists p r, no_byte c p = true /\ s = p +:+ String c r.
Proof.
  induction s as [|a s IH]; [by left|].
  destruct (decide (a = c)) as [->|Ha]; [by right; exists "", s|].
  destruct IH as [Hs|(p & r & Hp & ->)].
  - left. by apply no_byte_cons_ne.
  - right. exists (String a p), r. split; [by apply no_byte_cons_ne|done].
Qed.

Lemma SplitN_none c s n : no_byte c s = true -> SplitN s (String c "") (S n) = [s].
Proof. intros H. destruct n; [done|]. cbn [SplitN]. by rewrite Index_byte_None. Qed.

Lemma SplitN_byte c s r n :
  no_byte c s = true ->
  SplitN (s +:+ String c r) (String c "") (S (S n)) = s :: SplitN r (String c "") (S n).
Proof.
  intros H. cbn [SplitN]. rewrite Index_byte by done. rewrite str_take_append.
  cbn [String.length]. rewrite str_drop_add, str_drop_append. done.
Qed.

(** Enough pieces: more of them change nothing. *)
Lemma SplitN_fuel s sep n m :
  sep <> "" -> String.length s < n -> n <= m -> SplitN s sep m = SplitN s sep n.
Proof.
  intros Hsep. revert s m. induction n as [|n IH]; intros s m Hn Hm; [lia|].
  destruct m as [|m]; [lia|]. cbn [SplitN].
  destruct n as [|n]; destruct m as [|m]; try lia; [done| |].
  - assert (s = "") as -> by (destruct s; [done|cbn in Hn; lia]).
    by destruct sep.
  - destruct (Index s sep) as [i|] eqn:E; [|done]. f_equal. apply IH; [|lia].
    apply Index_Some in E. apply (f_equal String.length) in E.
    rewrite !length_append in E. rewrite length_str_drop in E.
    destruct sep; [done|]. rewrite length_str_drop. cbn in *. lia.
Qed.

Lemma Split_none c s : no_byte c s = true -> Split s (String c "") = [s].
Proof. apply SplitN_none. Qed.

Lemma Split_byte c s r :
  no_byte c s = true -> Split (s +:+ String c r) (String c "") = s :: Split r (String c "").
Proof.
  intros H. unfold Split. rewrite length_append. cbn [String.length]. rewrite Nat.add_succ_r.
  rewrite SplitN_byte by done. f_equal. apply SplitN_fuel; [done|lia|lia].
Qed.

Lemma Split_not_nil s c : Split s (String c "") <> [].
Proof.
  destruct (no_byte_split c s) as [H|(p & r & Hp & ->)];
    [by rewrite Split_none | by rewrite Split_byte].
Qed.

(** No piece of a split on one byte contains that byte. *)
Lemma Split_pieces c s : Forall (fun p => no_byte c p = true) (Split s (String c "")).
Proof.
  remember (String.length s) as n eqn:E. revert s E.
  induction n as [n IH] using lt_wf_ind. intros s ->.
  destruct (no_byte_split c s) as [H|(p & r & Hp & ->)].
  - rewrite Split_none by done. by constructor.
  - rewrite Split_byte by done. constructor; [done|]. eapply IH; [|done].
    rewrite length_append. cbn. lia.
Qed.

Lemma ReplaceAll_none c s new : no_byte c s = true -> ReplaceAll s (String c "") new = s.
Proof. intros H. unfold ReplaceAll. by rewrite Split_none. Qed.

Lemma ReplaceAll_byte c s r new :
  no_byte c s = true ->
  ReplaceAll (s +:+ String c r) (String c "") new = s +:+ new +:+ ReplaceAll r (String c "") new.
Proof.
  intros H. unfold ReplaceAll. rewrite Split_byte by done.
  destruct (Split r (String c "")) eqn:E; [by apply Split_not_nil in E|done].
Qed.

(** Replacing one byte, one character at a time. *)
Lemma ReplaceAll_hit c s new :
  ReplaceAll (String c s) (String c "") new = new +:+ ReplaceAll s (String c "") new.
Proof. by rewrite <- (append_nil_l (String c s)), ReplaceAll_byte. Qed.

Lemma ReplaceAll_miss c a s new :
  a <> c -> ReplaceAll (String a s) (String c "") new = String a (ReplaceAll s (String c "") new).
Proof.
  intros Ha. destruct (no_byte_split c s) as [H|(p & r & Hp & ->)].
  - rewrite !ReplaceAll_none; auto using no_byte_cons_ne.
  - rewrite <- append_cons, !ReplaceAll_byte; auto using no_byte_cons_ne.
Qed.

(** ** Lemmas on case *)

Lemma lower_byte_idem a : lower_byte (lower_byte a) = lower_byte a.
Proof. by destruct a as [[] [] [] [] [] [] [] []]. Qed.

Lemma lower_byte_ascii a : is_ascii_byte a = true -> is_ascii_byte (lower_byte a) = true.
Proof. by destruct a as [[] [] [] [] [] [] [] []]. Qed.

Lemma lower_byte_not_upper a : is_upper (lower_byte a) = false.
Proof. by destruct a as [[] [] [] [] [] [] [] []]. Qed.

Lemma lower_byte_star a : lower_byte a = "*"%char <-> a = "*"%char.
Proof. by destruct a as [[] [] [] [] [] [] [] []]. Qed.

Lemma str_forall_map P f s :
  (forall a, P a = true -> P (f a) = true) -> str_forall P s = true -> str_forall P (str_map f s) = true.
Proof.
  intros Hf. induction s as [|a s IH]; [done|]. cbn.
  rewrite !andb_true_iff. intros [Ha Hs]. auto.
Qed.

Lemma str_map_map f g s : str_map f (str_map g s) = str_map (fun a => f (g a)) s.
Proof. induction s; cbn; congruence. Qed.

Lemma str_map_ext f g s : (forall a, f a = g a) -> str_map f s = str_map g s.
Proof. intros H. induction s; cbn; congruence. Qed.

Lemma str_map_append f s t : str_map f (s +:+ t) = str_map f s +:+ str_map f t.
Proof. induction s as [|a s IH]; [done|]. rewrite append_cons. cbn. by rewrite IH. Qed.

Lemma str_forall_append P s t : str_forall P (s +:+ t) = str_forall P s && str_forall P t.
Proof.
  induction s as [|a s IH]; [done|]. rewrite append_cons. cbn. by rewrite IH, andb_assoc.
Qed.

Lemma isASCII_lower s : isASCII s = true -> isASCII (str_map lower_byte s) = true.
Proof. apply str_forall_map, lower_byte_ascii. Qed.

Section Lower.
Context `{UnicodeCase}.

Lemma ToLower_ascii s : isASCII s = true -> ToLower s = str_map lower_byte s.
Proof. intros Hs. unfold ToLower. by rewrite Hs. Qed.

Lemma ToLower_idem_ascii s : isASCII s = true -> ToLower (ToLower s) = ToLower s.
Proof.
  intros Hs. rewrite (ToLower_ascii s Hs), ToLower_ascii by by apply isASCII_lower.
  rewrite str_map_map. apply str_map_ext, lower_byte_idem.
Qed.

(** A lower-cased ASCII string has no upper-case letter. *)
Lemma ToLower_no_upper s :
  isASCII s = true -> str_forall (fun a => negb (is_upper a)) (ToLower s) = true.
Proof.
  intros Hs. rewrite ToLower_ascii by done. clear Hs.
  induction s as [|a s IH]; [done|]. cbn [str_map str_forall].
  by rewrite lower_byte_not_upper, IH.
Qed.

End Lower.

Lemma str_forall_weaken P Q s :
  (forall a, P a = true -> Q a = true) -> str_forall P s = true -> str_forall Q s = true.
Proof.
  intros HPQ. induction s as [|a s IH]; [done|]. cbn. rewrite !andb_true_iff. intros []. auto.
Qed.

(** ** Database patterns and the expressions built from them *)

(** The databases a pattern denotes: [*] stands for any run of bytes without newline. *)
Inductive Glob : string -> string -> Prop :=
| glob_nil : Glob "" ""
| glob_lit a p s : a <> "*"%char -> Glob p s -> Glob (String a p) (String a s)
| glob_star g p s : no_byte newline g = true -> Glob p s -> Glob (String "*" p) (g +:+ s).

(** Patterns whose bytes other than [*] are literal in a regular expression. *)
Definition literal_pattern (p : string) : bool :=
  str_forall (fun a => bool_decide (a = "*"%char) || literal_byte a) p.

Fixpoint glob_tokens (p : string) : list rtok :=
  match p with
  | "" => []
  | String a p' => (if bool_decide (a = "*"%char) then RStar else RLit a) :: glob_tokens p'
  end.

Lemma parse_body_lit a s :
  literal_byte a = true -> parse_body (String a s) = cons (RLit a) <$> parse_body s.
Proof. destruct a as [[] [] [] [] [] [] [] []]; intros E; by vm_compute in E. Qed.

Lemma parse_glob p :
  literal_pattern p = true ->
  parse_body (ReplaceAll p "*" ".*" +:+ "$") = Some (glob_tokens p).
Proof.
  induction p as [|a p IH]; [done|]. unfold literal_pattern. cbn [str_forall glob_tokens].
  intros [Ha Hp]%andb_true_iff. specialize (IH Hp).
  destruct (decide (a = "*"%char)) as [->|Hne].
  - rewrite ReplaceAll_hit. rewrite <- append_assoc.
    change (".*" +:+ ReplaceAll p "*" ".*" +:+ "$")
      with (String "."%char (String "*"%char (ReplaceAll p "*" ".*" +:+ "$"))).
    transitivity (cons RStar <$> parse_body (ReplaceAll p "*" ".*" +:+ "$")); [done|].
    by rewrite IH.
  - rewrite bool_decide_false in * by done. cbn [orb] in Ha.
    by rewrite ReplaceAll_miss, append_cons, parse_body_lit, IH.
Qed.

Lemma rmatch_glob p s : rmatch (glob_tokens p) s = true <-> Glob p s.
Proof.
  revert s; induction p as [|a p IH]; intros s; cbn [glob_tokens].
  - cbn. rewrite bool_decide_eq_true. split; [intros ->; constructor | by inversion 1].
  - destruct (decide (a = "*"%char)) as [->|Hne].
    + rewrite bool_decide_true by done. induction s as [|b s IHs].
      * cbn. rewrite orb_false_r, IH. split.
        -- intros Hg. rewrite <- (append_nil_l ""). by constructor.
        -- inversion 1 as [| |g ? s' Hg Hs Ep Es]; simplify_eq. by destruct g.
      * cbn [rmatch] in *. rewrite orb_true_iff, andb_true_iff, bool_decide_eq_true, IHs, IH. split.
        -- intros [Hg|[Hb Hg]].
           ++ rewrite <- (append_nil_l (String b s)). by constructor.
           ++ inversion Hg as [| |g ? s' Hn Hs Ep Es]; simplify_eq.
              rewrite <- append_cons. constructor; [by apply no_byte_cons_ne|done].
        -- inversion 1 as [| |g ? s' Hn Hs Ep Es]; simplify_eq.
           destruct g as [|b' g]; [by left; rewrite append_nil_l in Es; simplify_eq|].
           rewrite append_cons in Es. simplify_eq. rewrite no_byte_cons in Hn.
           apply andb_true_iff in Hn as [Hb Hn]. rewrite bool_decide_eq_true in Hb.
           right. split; [done|]. by constructor.
    + rewrite bool_decide_false by done. destruct s as [|b s]; cbn [rmatch].
      * split; [done|]. inversion 1; simplify_eq.
      * rewrite andb_true_iff, bool_decide_eq_true, IH. split.
        -- intros [-> Hg]. by constructor.
        -- inversion 1; simplify_eq. done.
Qed.

(** ** Lemmas on [%d], [%x] and base64 *)

Definition is_digit (a : ascii) : bool :=
  (48 <=? N_of_ascii a)%N && (N_of_ascii a <=? 57)%N.

Lemma append_byte_inj c u v s t :
  no_byte c u = true -> no_byte c v = true ->
  u +:+ String c s = v +:+ String c t -> u = v /\ s = t.
Proof.
  revert v; induction u as [|a u IH]; intros [|b v]; rewrite ?append_nil_l, ?append_cons,
    ?no_byte_cons, ?andb_true_iff, ?bool_decide_eq_true; intros Hu Hv E; simplify_eq; try done.
  - by destruct Hv.
  - by destruct Hu.
  - destruct Hu, Hv. by edestruct IH as [-> ->].
Qed.

Lemma pretty_N_go_digits x s :
  str_forall is_digit s = true -> str_forall is_digit (pretty_N_go x s) = true.
Proof.
  revert s. induction (N.lt_wf_0 x) as [x _ IH]; intros s Hs.
  assert (x = 0 \/ 0 < x)%N as [->|Hx] by lia; [by rewrite pretty_N_go_0|].
  rewrite pretty_N_go_step by done. apply IH; [by apply N.div_lt|].
  cbn [str_forall]. rewrite Hs, andb_true_r. unfold pretty_N_char. by repeat case_match.
Qed.

Lemma pretty_N_go_length x s : String.length s <= String.length (pretty_N_go x s).
Proof.
  revert s. induction (N.lt_wf_0 x) as [x _ IH]; intros s.
  assert (x = 0 \/ 0 < x)%N as [->|Hx] by lia; [by rewrite pretty_N_go_0|].
  rewrite pretty_N_go_step by done. etrans; [|by apply IH, N.div_lt]. cbn. lia.
Qed.

Lemma fmt_d_nonneg z :
  (0 <= z)%Z -> exists a s, fmt_d z = String a s /\ str_forall is_digit (String a s) = true.
Proof.
  intros Hz. unfold fmt_d. destruct z as [|p|p]; [by exists "0"%char, ""| |lia].
  change (pretty (Z.pos p)) with (pretty_N_go (N.pos p) "").
  pose proof (pretty_N_go_digits (N.pos p) "" eq_refl) as Hd.
  destruct (pretty_N_go (N.pos p) "") as [|a s] eqn:E; [|by exists a, s].
  rewrite pretty_N_go_step in E by lia.
  pose proof (pretty_N_go_length (N.pos p / 10)
    (String (pretty_N_char (N.pos p mod 10)) "")) as Hl. rewrite E in Hl. cbn in Hl. lia.
Qed.

Lemma fmt_d_neg z : (z < 0)%Z -> fmt_d z = String "-" (fmt_d (- z)).
Proof. intros Hz. by destruct z. Qed.

Lemma digits_no_byte c s : is_digit c = false -> str_forall is_digit s = true -> no_byte c s = true.
Proof.
  intros Hc. apply str_forall_weaken. intros a Ha. apply bool_decide_eq_true. congruence.
Qed.

(** [%d] followed by a byte that is no digit determines the number and the rest. *)
Lemma fmt_d_sep_inj c x y s t :
  is_digit c = false ->
  fmt_d x +:+ String c s = fmt_d y +:+ String c t -> x = y /\ s = t.
Proof.
  intros Hc.
  assert (forall x y s t, (0 <= x)%Z -> (0 <= y)%Z ->
    fmt_d x +:+ String c s = fmt_d y +:+ String c t -> x = y /\ s = t) as Hnn.
  { clear x y s t. intros x y s t Hx Hy E.
    destruct (fmt_d_nonneg x Hx) as (a & u & Ex & Hu), (fmt_d_nonneg y Hy) as (b & v & Ey & Hv).
    rewrite Ex, Ey in E. apply append_byte_inj in E as [E ->]; eauto using digits_no_byte.
    split; [|done]. apply (inj pretty). by unfold fmt_d in Ex, Ey; congruence. }
  assert (forall x y s t, (0 <= x)%Z -> (y < 0)%Z ->
    fmt_d x +:+ String c s <> fmt_d y +:+ String c t) as Hpm.
  { clear x y s t. intros x y s t Hx Hy E.
    destruct (fmt_d_nonneg x Hx) as (a & u & Ex & Hu).
    rewrite Ex, (fmt_d_neg y Hy), !append_cons in E. by simplify_eq/=. }
  destruct (Z.lt_ge_cases x 0), (Z.lt_ge_cases y 0); intros E.
  - rewrite (fmt_d_neg x), (fmt_d_neg y), !append_cons in E by done. simplify_eq.
    apply Hnn in E as [? ->]; [split; [lia|done]|lia|lia].
  - symmetry in E. by apply Hpm in E.
  - by apply Hpm in E.
  - by apply Hnn in E.
Qed.

Lemma byte_eq b c : byte.unsigned b = byte.unsigned c -> b = c.
Proof. apply byte.unsigned_inj. Qed.

Lemma byte_range b : (0 <= byte.unsigned b < 256)%Z.
Proof. apply byte.unsigned_range. Qed.

(** A table of distinct characters is injective on its indices. *)
Lemma table_inj (f : Z -> ascii) (n : nat) :
  NoDup (f ∘ Z.of_nat <$> seq 0 n) ->
  forall i j, (0 <= i < Z.of_nat n)%Z -> (0 <= j < Z.of_nat n)%Z -> f i = f j -> i = j.
Proof.
  intros Hnd i j Hi Hj E.
  assert (forall k, (0 <= k < Z.of_nat n)%Z ->
    (f ∘ Z.of_nat <$> seq 0 n) !! Z.to_nat k = Some (f k)) as Hl.
  { intros k Hk. rewrite list_lookup_fmap, lookup_seq_lt by lia. cbn. by rewrite Z2Nat.id by lia. }
  apply Z2Nat.inj; [lia|lia|]. eapply (NoDup_lookup _ _ _ (f i) Hnd); [by apply Hl|].
  rewrite E. by apply Hl.
Qed.

Lemma hex_digit_inj i j :
  (0 <= i < 16)%Z -> (0 <= j < 16)%Z -> hex_digit i = hex_digit j -> i = j.
Proof.
  apply (table_inj hex_digit 16). apply (bool_decide_unpack _). by vm_compute.
Qed.

Lemma b64_char_inj i j :
  (0 <= i < 64)%Z -> (0 <= j < 64)%Z -> b64_char i = b64_char j -> i = j.
Proof.
  apply (table_inj b64_char 64). apply (bool_decide_unpack _). by vm_compute.
Qed.

Lemma fmt_x_inj bs cs : fmt_x bs = fmt_x cs -> bs = cs.
Proof.
  revert cs; induction bs as [|b bs IH]; intros [|c cs]; cbn [fmt_x]; try done.
  intros [= H1 H2 H3]. f_equal; [|auto].
  pose proof (byte_range b). pose proof (byte_range c).
  apply hex_digit_inj in H1, H2; try (Z.to_euclidean_division_equations; lia).
  apply byte_eq. Z.to_euclidean_division_equations; lia.
Qed.

Lemma b64_char_not_pad n : b64_char n <> "="%char.
Proof.
  unfold b64_char. generalize (Z.to_nat n). clear n. intros n.
  do 64 (destruct n as [|n]; [done|]). done.
Qed.

Lemma b64_char_eq i j :
  b64_char i = b64_char j -> (0 <= i < 64)%Z -> (0 <= j < 64)%Z -> i = j.
Proof. eauto using b64_char_inj. Qed.

(** Goals [b = c] and [i = j] from equal base64 characters of bounded indices. *)
Ltac b64_solve :=
  repeat match goal with
    | H : b64_char ?i = b64_char ?j |- _ =>
        apply b64_char_eq in H; [|Z.to_euclidean_division_equations; lia..]
    end;
  Z.to_euclidean_division_equations; lia.

(** Two byte strings with the same base64 text are the same. *)
Lemma b64_inj bs cs : b64_EncodeToString bs = b64_EncodeToString cs -> bs = cs.
Proof.
  remember (length bs) as n eqn:E. revert bs cs E.
  induction n as [n IH] using lt_wf_ind.
  intros [|b0 [|b1 [|b2 bs]]] [|c0 [|c1 [|c2 cs]]] ->; cbn [b64_EncodeToString]; try done;
    intros H; injection H; clear H; intros; try (by destruct (b64_char_not_pad _));
    try (exfalso; by eapply b64_char_not_pad);
    try (pose proof (byte_range b0)); try (pose proof (byte_range b1));
    try (pose proof (byte_range b2)); try (pose proof (byte_range c0));
    try (pose proof (byte_range c1)); try (pose proof (byte_range c2)).
  - f_equal. apply byte_eq. b64_solve.
  - assert (byte.unsigned b0 = byte.unsigned c0 /\ byte.unsigned b1 = byte.unsigned c1)
      as [?%byte_eq ?%byte_eq] by b64_solve. by subst.
  - assert (byte.unsigned b0 = byte.unsigned c0 /\ byte.unsigned b1 = byte.unsigned c1 /\
      byte.unsigned b2 = byte.unsigned c2) as (?%byte_eq & ?%byte_eq & ?%byte_eq) by b64_solve.
    subst. do 3 f_equal. eapply IH; [|done|done]. cbn. lia.
Qed.
