(* ===== verification/Parsing.v ===== *)
(** * Name and connection-string parsing ([src/util/parsing.go], [src/util/helpers.go])

    Collection names, the credentials carried by the client's appName, MongoDB
    connection strings and topology names.  A slice index
    that Go checks at run time is an explicit [Panic]. *)

From S2P Require Import Prelude GoStrings.
From Stdlib Require Import ZArith Lia Ascii.
Local Open Scope string_scope.

(** ** Definitions *)

Record CollectionInfo := {
  ci_Database : string;
  ci_Collection : string;
  ci_FullName : string
}.

Record ConnectionStringInfo := {
  cs_Scheme : string;
  cs_Username : string;
  cs_Password : string;
  cs_Host : string;
  cs_Database : string;
  cs_Options : string
}.

Record AppNameInfo := {
  an_Database : string;
  an_Username : string;
  an_Password : string;
  an_AuthSource : string
}.

Definition empty_connection_info : ConnectionStringInfo :=
  {| cs_Scheme := ""; cs_Username := ""; cs_Password := "";
     cs_Host := ""; cs_Database := ""; cs_Options := "" |}.

Definition empty_app_name_info : AppNameInfo :=
  {| an_Database := ""; an_Username := ""; an_Password := ""; an_AuthSource := "" |}.

(** The kinds of [description.TopologyKind] the program distinguishes. *)
Inductive TopologyKind :=
| Single
| Sharded
| LoadBalanced
| OtherTopology (name : string).

Section Parsing.
Context `{UnicodeCase}.

Definition NormalizeDatabaseName (dbName : string) : string := ToLower dbName.

Definition ParseCollectionName (fullCollectionName : string) : CollectionInfo :=
  match SplitN fullCollectionName "." 2 with
  | [db; coll] =>
      {| ci_Database := NormalizeDatabaseName db; ci_Collection := coll;
         ci_FullName := fullCollectionName |}
  | [coll] =>
      {| ci_Database := ""; ci_Collection := coll; ci_FullName := fullCollectionName |}
  | _ =>
      {| ci_Database := ""; ci_Collection := ""; ci_FullName := fullCollectionName |}
  end.

(** The user-info half: [strings.Split(parts[0], "://")[1]] panics when there is no "://". *)
Definition parse_user_info (part0 : string) : outcome (string * string) :=
  match Split part0 "://" with
  | _ :: userInfo :: _ =>
      match Split userInfo ":" with
      | [user; password] => Ret (user, password)
      | _ => Ret ("", "")
      end
  | _ => Panic "index out of range [1]"
  end.

(** The host half: host, database and options of [host/db?options]. *)
Definition parse_host_part (hostPart : string) : string * string * string :=
  if Contains hostPart "/" then
    match SplitN hostPart "/" 2 with
    | [host; dbOptions] =>
        match SplitN dbOptions "?" 2 with
        | [db; opts] => (host, NormalizeDatabaseName db, opts)
        | [db] => (host, NormalizeDatabaseName db, "")
        | _ => (host, "", "")
        end
    | host :: _ => (host, "", "")
    | [] => ("", "", "")
    end
  else (hostPart, "", "").

Definition ParseConnectionString (connStr : string) : outcome ConnectionStringInfo :=
  match Split connStr "@" with
  | [part0; hostPart] =>
      let? (user, password) := parse_user_info part0 in
      let '(host, db, opts) := parse_host_part hostPart in
      Ret {| cs_Scheme := ""; cs_Username := user; cs_Password := password;
             cs_Host := host; cs_Database := db; cs_Options := opts |}
  | _ => Ret empty_connection_info
  end.

Definition ParseAppName (appName : string) : AppNameInfo :=
  match Split appName ":" with
  | [db; user; password; source] =>
      {| an_Database := NormalizeDatabaseName db; an_Username := user; an_Password := password;
         an_AuthSource :=
           if bool_decide (source = "use_db") then NormalizeDatabaseName db else source |}
  | [db; user; password] =>
      {| an_Database := NormalizeDatabaseName db; an_Username := user; an_Password := password;
         an_AuthSource := "admin" |}
  | _ => empty_app_name_info
  end.

(** [random] is what [rand.Read] fills the 16 bytes with; an error is a panic. *)
Definition GenerateRandomString (random : outcome (list byte)) : outcome string :=
  match random with
  | Ret b =>
      let hexStr := fmt_x b in
      let slice from to := str_take (to - from) (str_drop from hexStr) in
      Ret (Join [slice 0 8; slice 8 12; slice 12 16; slice 16 20; slice 20 32] "_")
  | Err e => Panic e
  | Panic why => Panic why
  | NoFuel => NoFuel
  end.

Definition GetTopology (topology : string) : outcome TopologyKind :=
  let t := ToLower topology in
  if bool_decide (t = "single") then Ret Single
  else if bool_decide (t = "sharded") then Ret Sharded
  else if bool_decide (t = "loadBalanced") then Ret LoadBalanced
  else Err ("invalid topology: " +:+ topology).

End Parsing.

(** ** Properties *)

(** ** Random strings *)

(** Sixteen random bytes make a string of 36 characters, and different bytes make different strings. *)
Lemma GenerateRandomString_inj b b' s :
  length b = 16 -> length b' = 16 -> GenerateRandomString (Ret b) = Ret s ->
  String.length s = 36 /\ (GenerateRandomString (Ret b') = Ret s -> b = b').
Proof.
  intros Hb Hb'. do 16 (destruct b as [|? b]; [done|]). destruct b; [|done]. do 16 (destruct b' as [|? b']; [done|]). destruct b'; [|done].
  cbn -[hex_digit Z.div Z.modulo]. intros [= <-]. split; [done|]. intros H. injection H. intros.
  apply fmt_x_inj. cbn -[hex_digit Z.div Z.modulo]. congruence.
Qed.

Section ParsingFacts.
Context `{UnicodeCase}.

(** The split of a collection name at its first dot. *)
Lemma ParseCollectionName_dot db coll :
  no_byte "." db = true ->
  ParseCollectionName (db +:+ String "." coll) =
    {| ci_Database := NormalizeDatabaseName db; ci_Collection := coll;
       ci_FullName := db +:+ String "." coll |}.
Proof. intros Hdb. unfold ParseCollectionName. by rewrite SplitN_byte. Qed.

Lemma ParseCollectionName_nodot full :
  no_byte "." full = true ->
  ParseCollectionName full = {| ci_Database := ""; ci_Collection := full; ci_FullName := full |}.
Proof. intros Hf. unfold ParseCollectionName. by rewrite SplitN_none. Qed.

Lemma Split_colons l :
  l <> [] -> Forall (fun p => no_byte ":" p = true) l -> Split (Join l ":") ":" = l.
Proof.
  intros Hl Hf. induction Hf as [|p l Hp Hf IH]; [done|].
  destruct l as [|q l]; [by apply Split_none|].
  change (Join (p :: q :: l) ":") with (p +:+ String ":" (Join (q :: l) ":")).
  rewrite Split_byte by done. by rewrite IH.
Qed.

(** [ParseCollectionName] cuts at the first dot and nowhere else: either there
    is no dot, the database is empty and the whole name is the collection, or
    the name is [db.collection] with no dot in [db], the database is the
    normalized [db], and the collection (dots included) is kept byte for byte. *)
Theorem ParseCollectionName_spec full :
  let info := ParseCollectionName full in
  ci_FullName info = full /\
  ((no_byte "." full = true /\ ci_Database info = "" /\ ci_Collection info = full) \/
   exists db, no_byte "." db = true /\ full = db +:+ "." +:+ ci_Collection info /\
     ci_Database info = NormalizeDatabaseName db).
Proof.
  cbn zeta. destruct (no_byte_split "." full) as [Hf|(db & coll & Hdb & ->)].
  - rewrite ParseCollectionName_nodot by done. eauto.
  - rewrite ParseCollectionName_dot by done. split; [done|]. right. by exists db.
Qed.

(** The appName credentials round-trip: joining a database, a user, a password
    and an authentication source (none of which contains a colon) with colons
    and parsing the result gives them back, the database normalized, and the
    source [use_db] standing for the database itself. *)
Theorem ParseAppName_roundtrip db user password source :
  no_byte ":" db = true -> no_byte ":" user = true ->
  no_byte ":" password = true -> no_byte ":" source = true ->
  ParseAppName (Join [db; user; password; source] ":") =
    {| an_Database := NormalizeDatabaseName db; an_Username := user; an_Password := password;
       an_AuthSource :=
         if bool_decide (source = "use_db") then NormalizeDatabaseName db else source |}.
Proof.
  intros. unfold ParseAppName. rewrite Split_colons; [done|done|by repeat constructor].
Qed.

(** For ASCII names [GetTopology] never returns [LoadBalanced]: the name is
    lower-cased before it is compared with [loadBalanced]. *)
Theorem GetTopology_never_load_balanced s :
  isASCII s = true -> GetTopology s <> Ret LoadBalanced.
Proof.
  intros Hs. pose proof (ToLower_no_upper s Hs) as Hu. unfold GetTopology.
  repeat case_bool_decide; try done.
  match goal with E : ToLower s = _ |- _ => rewrite E in Hu end. by cbn in Hu.
Qed.

End ParsingFacts.


(** ** Witnesses *)

Lemma ParseAppName_roundtrip_witness :
  ParseAppName (H := ascii_case) "App:alice:secret:use_db" =
    {| an_Database := "app"; an_Username := "alice"; an_Password := "secret"; an_AuthSource := "app" |}.
Proof.
  exact (ParseAppName_roundtrip (H := ascii_case) "App" "alice" "secret" "use_db" eq_refl eq_refl eq_refl eq_refl).
Defined.

Lemma GetTopology_never_load_balanced_witness : GetTopology (H := ascii_case) "loadBalanced" <> Ret LoadBalanced.
Proof. apply (GetTopology_never_load_balanced (H := ascii_case)). reflexivity. Defined.
