(* ===== verification/Lru.v ===== *)
(** * The LRU cache with expiry ([src/lruttl/lruttl.go])

    The Go cache is a doubly linked list of elements (front = most recently
    used) plus a map from keys to element pointers; an element's value is a
    mutable entry.  The model keeps that sharing: elements are identifiers in
    a store [elems], the list [ll] and the map [cache] hold identifiers only,
    and an entry changed through one is seen through the other.

    Every exported method of [Cache] takes the lock for its whole body, so a
    method is one atomic step; [now] is the clock reading of that step in
    nanoseconds.  The background [expireLoop] is the [expire_tick] step: one
    pass of its inner loop, whose iterations are [removeOldestExpired] steps.

    The abstract specification is the recency list of [(key, value, expiry)]
    triples; every operation refines the operation on that list. *)

From S2P Require Import Prelude.
From Stdlib Require Import ZArith Lia Sorted.

Module Lru.

Section Model.
Context {K V : Type} `{EqK : EqDecision K, CntK : !Countable K}.

Record entry := mk_entry {
  e_key : K;
  e_value : V;
  e_expiry : Z
}.

Record Cache := mk_cache {
  maxEntries : Z;
  expiry : Z;
  ll : list nat;
  elems : gmap nat entry;
  next_elem : nat;
  cache : gmap K nat
}.

(** [container/list]: the list of elements, front first. *)
Definition list_remove (e : nat) (l : list nat) : list nat := filter (fun x => x <> e) l.

Definition list_move_to_front (e : nat) (l : list nat) : list nat :=
  if decide (e ∈ l) then e :: list_remove e l else l.

Definition New (max exp : Z) : Cache :=
  {| maxEntries := max; expiry := exp; ll := []; elems := ∅; next_elem := 0; cache := ∅ |}.

Definition newEntry (key : K) (value : V) (exp now : Z) : entry :=
  {| e_key := key; e_value := value; e_expiry := now + exp |}.

Definition expired (now : Z) (e : entry) : bool := (e_expiry e <? now)%Z.

Definition touch (exp now : Z) (e : entry) : entry :=
  {| e_key := e_key e; e_value := e_value e; e_expiry := now + exp |}.

Definition set_value (v : V) (e : entry) : entry :=
  {| e_key := e_key e; e_value := v; e_expiry := e_expiry e |}.

Definition set_ll (l : list nat) (c : Cache) : Cache :=
  {| maxEntries := maxEntries c; expiry := expiry c; ll := l; elems := elems c;
     next_elem := next_elem c; cache := cache c |}.

Definition set_elems (m : gmap nat entry) (c : Cache) : Cache :=
  {| maxEntries := maxEntries c; expiry := expiry c; ll := ll c; elems := m;
     next_elem := next_elem c; cache := cache c |}.

Definition set_cache (m : gmap K nat) (c : Cache) : Cache :=
  {| maxEntries := maxEntries c; expiry := expiry c; ll := ll c; elems := elems c;
     next_elem := next_elem c; cache := m |}.

Definition Len (c : Cache) : nat := length (ll c).

(** [c.ll.Back()] with the entry it holds. *)
Definition Back (c : Cache) : option (nat * entry) :=
  match last (ll c) with
  | Some id => e ← elems c !! id; Some (id, e)
  | None => None
  end.

Definition Oldest (c : Cache) : option Z :=
  '(_, e) ← Back c; Some (e_expiry e - expiry c)%Z.

Definition Peek (key : K) (c : Cache) : option V :=
  id ← cache c !! key; e ← elems c !! id; Some (e_value e).

Definition Get (key : K) (now : Z) (c : Cache) : option V * Cache :=
  match cache c !! key with
  | Some id =>
      let c1 := set_ll (list_move_to_front id (ll c)) c in
      let c2 := set_elems (alter (touch (expiry c) now) id (elems c1)) c1 in
      (e_value <$> elems c2 !! id, c2)
  | None => (None, c)
  end.

Definition removeElement (id : nat) (c : Cache) : Cache :=
  let c1 := set_ll (list_remove id (ll c)) c in
  match elems c !! id with
  | Some e => set_cache (delete (e_key e) (cache c1)) c1
  | None => c1
  end.

Definition removeOldest (c : Cache) : bool * Cache :=
  match Back c with
  | Some (id, _) => (true, removeElement id c)
  | None => (false, c)
  end.

(** [ele := c.ll.PushFront(newEntry(...)); c.cache[key] = ele] *)
Definition pushed (c : Cache) (key : K) (value : V) (now : Z) : Cache :=
  {| maxEntries := maxEntries c; expiry := expiry c; ll := next_elem c :: ll c;
     elems := <[next_elem c := newEntry key value (expiry c) now]> (elems c);
     next_elem := S (next_elem c); cache := <[key := next_elem c]> (cache c) |}.

Definition Add (key : K) (value : V) (now : Z) (c : Cache) : Cache :=
  match cache c !! key with
  | Some id =>
      let c1 := set_ll (list_move_to_front id (ll c)) c in
      set_elems (alter (fun e => set_value value (touch (expiry c) now e)) id (elems c1)) c1
  | None =>
      let c1 := pushed c key value now in
      if bool_decide (maxEntries c <> 0%Z) && (maxEntries c <? Z.of_nat (length (ll c1)))%Z
      then snd (removeOldest c1) else c1
  end.

Definition Remove (key : K) (c : Cache) : Cache :=
  match cache c !! key with
  | Some id => removeElement id c
  | None => c
  end.

Definition Clear (c : Cache) : Cache := set_ll [] (set_cache ∅ c).

Definition oldestExpired (now : Z) (c : Cache) : bool :=
  match Back c with
  | Some (_, e) => expired now e
  | None => false
  end.

Definition removeOldestExpired (now : Z) (c : Cache) : bool * Cache :=
  match Back c with
  | Some (id, e) => if expired now e then (true, removeElement id c) else (false, c)
  | None => (false, c)
  end.

(** [for c.removeOldestExpired() {}], at most [fuel] iterations. *)
Fixpoint expire_while (fuel : nat) (now : Z) (c : Cache) : Cache :=
  match fuel with
  | O => c
  | S fuel' =>
      match removeOldestExpired now c with
      | (true, c') => expire_while fuel' now c'
      | (false, c') => c'
      end
  end.

(** One round of [expireLoop]; every iteration removes an element, so the
    length of the list is enough fuel ([expire_while_fuel]). *)
Definition expire_tick (now : Z) (c : Cache) : Cache :=
  if oldestExpired now c then expire_while (S (length (ll c))) now c else c.

(** Operations and their results, for sequences of steps. *)
Inductive op :=
| OpLen
| OpOldest
| OpPeek (k : K)
| OpGet (k : K)
| OpAdd (k : K) (v : V)
| OpRemove (k : K)
| OpClear
| OpExpire.

Inductive result :=
| RUnit
| RLen (n : nat)
| RTime (t : option Z)
| RValue (v : option V).

Definition run_op (o : op) (now : Z) (c : Cache) : result * Cache :=
  match o with
  | OpLen => (RLen (Len c), c)
  | OpOldest => (RTime (Oldest c), c)
  | OpPeek k => (RValue (Peek k c), c)
  | OpGet k => let '(v, c') := Get k now c in (RValue v, c')
  | OpAdd k v => (RUnit, Add k v now c)
  | OpRemove k => (RUnit, Remove k c)
  | OpClear => (RUnit, Clear c)
  | OpExpire => (RUnit, expire_tick now c)
  end.

Fixpoint run_ops (l : list (op * Z)) (c : Cache) : list result * Cache :=
  match l with
  | [] => ([], c)
  | (o, now) :: l' =>
      let '(r, c1) := run_op o now c in
      let '(rs, c2) := run_ops l' c1 in (r :: rs, c2)
  end.

(** ** The abstract cache: the list of live entries, most recently used first *)

Fixpoint a_find (k : K) (l : list entry) : option entry :=
  match l with
  | [] => None
  | e :: l' => if decide (e_key e = k) then Some e else a_find k l'
  end.

Definition a_remove (k : K) (l : list entry) : list entry := filter (fun e => e_key e <> k) l.

Definition a_get (exp : Z) (k : K) (now : Z) (l : list entry) : option V * list entry :=
  match a_find k l with
  | Some e => (Some (e_value e), touch exp now e :: a_remove k l)
  | None => (None, l)
  end.

Definition a_add (max exp : Z) (k : K) (v : V) (now : Z) (l : list entry) : list entry :=
  match a_find k l with
  | Some _ => newEntry k v exp now :: a_remove k l
  | None =>
      let l1 := newEntry k v exp now :: l in
      if bool_decide (max <> 0%Z) && (max <? Z.of_nat (length l1))%Z then removelast l1 else l1
  end.

(** Drop the expired entries at the back. *)
Fixpoint a_expire (now : Z) (l : list entry) : list entry :=
  match l with
  | [] => []
  | e :: l' =>
      match a_expire now l' with
      | [] => if expired now e then [] else [e]
      | r => e :: r
      end
  end.

Definition a_run_op (max exp : Z) (o : op) (now : Z) (l : list entry) : result * list entry :=
  match o with
  | OpLen => (RLen (length l), l)
  | OpOldest => (RTime ((fun e => e_expiry e - exp)%Z <$> last l), l)
  | OpPeek k => (RValue (e_value <$> a_find k l), l)
  | OpGet k => let '(v, l') := a_get exp k now l in (RValue v, l')
  | OpAdd k v => (RUnit, a_add max exp k v now l)
  | OpRemove k => (RUnit, a_remove k l)
  | OpClear => (RUnit, [])
  | OpExpire => (RUnit, a_expire now l)
  end.

Fixpoint a_run_ops (max exp : Z) (os : list (op * Z)) (l : list entry) : list result * list entry :=
  match os with
  | [] => ([], l)
  | (o, now) :: os' =>
      let '(r, l1) := a_run_op max exp o now l in
      let '(rs, l2) := a_run_ops max exp os' l1 in (r :: rs, l2)
  end.

(** ** Invariant and abstraction *)

(** Elements of [l] hold an entry, and the map sends the entry's key back to the element. *)
Definition linked (m : gmap nat entry) (cm : gmap K nat) (l : list nat) : Prop :=
  forall id, id ∈ l -> exists e, m !! id = Some e /\ cm !! e_key e = Some id.

Record wf (c : Cache) : Prop := {
  wf_nodup : NoDup (ll c);
  wf_linked : linked (elems c) (cache c) (ll c);
  wf_keys : forall k id, cache c !! k = Some id ->
    id ∈ ll c /\ exists e, elems c !! id = Some e /\ e_key e = k;
  wf_fresh : forall id, id ∈ ll c -> id < next_elem c
}.

(** The recency list a concrete cache stands for. *)
Definition entries (m : gmap nat entry) (l : list nat) : list entry := omap (fun id => m !! id) l.
Definition contents (c : Cache) : list entry := entries (elems c) (ll c).

Implicit Types (c : Cache) (m : gmap nat entry) (cm : gmap K nat).

Lemma wf_New max exp : wf (New max exp).
Proof. split; cbn; [constructor|..]; set_solver. Qed.

Lemma linked_cons m cm id l :
  linked m cm (id :: l) <->
  (exists e, m !! id = Some e /\ cm !! e_key e = Some id) /\ linked m cm l.
Proof. unfold linked. setoid_rewrite elem_of_cons. naive_solver. Qed.

Lemma linked_subseteq m cm l l' : l' ⊆ l -> linked m cm l -> linked m cm l'.
Proof. unfold linked. set_solver. Qed.

Lemma entries_cons m id e l : m !! id = Some e -> entries m (id :: l) = e :: entries m l.
Proof. intros E. unfold entries. cbn. by rewrite E. Qed.

Lemma entries_ext m m' l : (forall id, id ∈ l -> m !! id = m' !! id) -> entries m l = entries m' l.
Proof.
  intros E. unfold entries. induction l as [|id l IH]; [done|]. cbn.
  rewrite (E id) by set_solver. rewrite IH by set_solver. done.
Qed.

Lemma length_entries m cm l : linked m cm l -> length (entries m l) = length l.
Proof.
  induction l as [|id l IH]; [done|]. intros [(e & He & _) Hl]%linked_cons.
  rewrite (entries_cons _ _ e) by done. cbn. by rewrite IH.
Qed.

Lemma elem_of_list_remove x e l : x ∈ list_remove e l <-> x ∈ l /\ x <> e.
Proof. unfold list_remove. rewrite list_elem_of_filter. naive_solver. Qed.

Lemma list_remove_notin e l : e ∉ l -> list_remove e l = l.
Proof.
  intros He. unfold list_remove. induction l as [|x l IH]; [done|].
  rewrite filter_cons_True by set_solver. rewrite IH by set_solver. done.
Qed.

Lemma NoDup_list_remove e l : NoDup l -> NoDup (list_remove e l).
Proof. apply NoDup_filter. Qed.

Lemma list_remove_snoc e l : NoDup (l ++ [e]) -> list_remove e (l ++ [e]) = l.
Proof.
  intros Hn. apply NoDup_app in Hn as (_ & Hd & _). unfold list_remove.
  rewrite filter_app. rewrite filter_cons_False by tauto.
  rewrite app_nil_r. apply list_remove_notin. set_solver.
Qed.

Lemma a_find_entries m cm l k e :
  linked m cm l ->
  a_find k (entries m l) = Some e <->
  exists id, id ∈ l /\ m !! id = Some e /\ e_key e = k /\ cm !! k = Some id.
Proof.
  induction l as [|x l IH]; intros Hl.
  { cbn. split; [done|]. set_solver. }
  apply linked_cons in Hl as [(e' & He & Hx) Hl]. specialize (IH Hl).
  rewrite (entries_cons _ _ e') by done. cbn [a_find].
  destruct (decide (e_key e' = k)) as [<-|Hne].
  - split.
    + intros [= <-]. exists x. set_solver.
    + intros (id & _ & Hid & Hk & Hc). by simplify_eq.
  - rewrite IH. split.
    + intros (id & Hid & ?). exists id. set_solver.
    + intros (id & [->|Hid]%elem_of_cons & Hm & Hk & Hc); [by simplify_eq|by exists id].
Qed.

Lemma a_find_contents c k : wf c -> a_find k (contents c) = (id ← cache c !! k; elems c !! id).
Proof.
  intros Hwf. apply option_eq. intros e. unfold contents.
  rewrite (a_find_entries _ (cache c)) by apply Hwf. split.
  - intros (id & _ & Hm & _ & Hc). rewrite Hc. done.
  - intros (id & Hc & Hm)%bind_Some. destruct (wf_keys _ Hwf _ _ Hc) as (Hin & e' & He' & Hk).
    simplify_eq. eauto.
Qed.

(** Removing an element from the list removes its key from the contents. *)
Lemma entries_list_remove m cm l id e :
  linked m cm l -> m !! id = Some e -> cm !! e_key e = Some id ->
  entries m (list_remove id l) = a_remove (e_key e) (entries m l).
Proof.
  intros Hl He Hc. induction l as [|x l IH]; [done|].
  apply linked_cons in Hl as [(e' & He' & Hx) Hl]. specialize (IH Hl).
  rewrite (entries_cons _ _ e') by done. unfold list_remove, a_remove in *.
  rewrite !filter_cons. destruct (decide (x <> id)) as [Hxi|Hxi].
  - rewrite decide_True by congruence. rewrite (entries_cons _ _ e') by done. by rewrite IH.
  - rewrite decide_False by (apply dec_stable in Hxi; simplify_eq; tauto). done.
Qed.

Lemma wf_set_entry c id f :
  (forall e, e_key (f e) = e_key e) -> wf c -> wf (set_elems (alter f id (elems c)) c).
Proof.
  intros Hf [H1 H2 H3 H4]. split; cbn; [done| |  |done].
  - intros x Hx. destruct (H2 x Hx) as (e & He & Hc). rewrite lookup_alter.
    case_decide; subst; rewrite He; cbn; [|eauto]. eexists. split; [done|]. by rewrite Hf.
  - intros k x Hx. destruct (H3 k x Hx) as (Hin & e & He & Hk). split; [done|].
    rewrite lookup_alter. case_decide; subst; rewrite He; cbn; eauto.
Qed.

Lemma elem_of_move_to_front id l x : x ∈ list_move_to_front id l <-> x ∈ l.
Proof.
  unfold list_move_to_front. case_decide; [|done].
  rewrite elem_of_cons, elem_of_list_remove. destruct (decide (x = id)); set_solver.
Qed.

Lemma wf_move_to_front c id : wf c -> wf (set_ll (list_move_to_front id (ll c)) c).
Proof.
  intros [H1 H2 H3 H4]. split; cbn.
  - unfold list_move_to_front. case_decide; [|done]. constructor.
    + rewrite elem_of_list_remove. tauto.
    + by apply NoDup_list_remove.
  - intros x. rewrite elem_of_move_to_front. apply H2.
  - intros k x. rewrite elem_of_move_to_front. apply H3.
  - intros x. rewrite elem_of_move_to_front. apply H4.
Qed.

(** The list part of [Get] and of [Add] on a present key. *)
Lemma contents_move_front c k id e f :
  wf c -> cache c !! k = Some id -> elems c !! id = Some e ->
  entries (alter f id (elems c)) (list_move_to_front id (ll c)) = f e :: a_remove k (contents c).
Proof.
  intros Hwf Hc He. destruct (wf_keys _ Hwf _ _ Hc) as (Hin & e' & He' & Hk). simplify_eq.
  unfold list_move_to_front. rewrite decide_True by done.
  rewrite (entries_cons _ _ (f e)).
  2: { rewrite lookup_alter, decide_True by done. by rewrite He. }
  f_equal. rewrite (entries_ext _ (elems c)).
  - by apply (entries_list_remove _ (cache c)); [apply Hwf| |].
  - intros x [_ Hx]%elem_of_list_remove. rewrite lookup_alter, decide_False; congruence.
Qed.

Lemma length_contents c : wf c -> length (contents c) = length (ll c).
Proof. intros Hwf. apply (length_entries _ (cache c)), Hwf. Qed.

Lemma Back_last c : wf c ->
  match Back c with
  | Some (id, e) => exists l, ll c = l ++ [id] /\ elems c !! id = Some e /\
      cache c !! e_key e = Some id /\ contents c = entries (elems c) l ++ [e]
  | None => ll c = [] /\ contents c = []
  end.
Proof.
  intros Hwf. unfold Back, contents.
  destruct (list_snoc_inv (ll c)) as [E|(l & id & E)]; rewrite E; [by cbn|].
  rewrite last_app_singleton. destruct (wf_linked _ Hwf id) as (e & He & Hc);
    [rewrite E; set_solver|].
  rewrite He. cbn. exists l. split_and!; try done.
  unfold entries. rewrite omap_app. cbn. by rewrite He.
Qed.

Lemma Back_contents c : wf c -> last (contents c) = snd <$> Back c.
Proof.
  intros Hwf. pose proof (Back_last c Hwf) as HB.
  destruct (Back c) as [[id e]|]; [destruct HB as (l & _ & _ & _ & ->)|destruct HB as [_ ->]]; cbn;
    [apply last_app_singleton|done].
Qed.

Lemma removeElement_ok c id e :
  wf c -> elems c !! id = Some e -> cache c !! e_key e = Some id ->
  wf (removeElement id c) /\ contents (removeElement id c) = a_remove (e_key e) (contents c).
Proof.
  intros Hwf He Hc. unfold removeElement. rewrite He.
  split; [|unfold contents; cbn; by apply (entries_list_remove _ (cache c)); [apply Hwf| |]].
  destruct Hwf as [H1 H2 H3 H4]. split; cbn.
  - by apply NoDup_list_remove.
  - intros x [Hx Hxi]%elem_of_list_remove. destruct (H2 x Hx) as (e' & He' & Hc').
    exists e'. split; [done|]. rewrite lookup_delete_ne; [done|]. congruence.
  - intros k x [Hk Hx]%lookup_delete_Some. destruct (H3 k x Hx) as (Hin & e' & He' & Hk').
    rewrite elem_of_list_remove. split; [split; [done|]|by exists e']. intros ->. congruence.
  - intros x [Hx _]%elem_of_list_remove. by apply H4.
Qed.

(** Keys occur once. *)
Lemma keys_NoDup c : wf c -> NoDup (e_key <$> contents c).
Proof.
  intros [H1 H2 _ _]. unfold contents. revert H1 H2. generalize (ll c). intros l Hn Hl.
  induction Hn as [|x l Hx Hn IH]; [constructor|].
  apply linked_cons in Hl as [(e & He & Hc) Hl]. rewrite (entries_cons _ _ e) by done.
  cbn. constructor; [|auto]. intros (e' & Hk & Hin)%list_elem_of_fmap.
  apply list_elem_of_omap in Hin as (y & Hy & He'). destruct (Hl y Hy) as (e'' & He'' & Hc').
  simplify_eq. rewrite <- Hk in Hc'. by simplify_eq.
Qed.

Lemma a_remove_snoc l e : NoDup (e_key <$> l ++ [e]) -> a_remove (e_key e) (l ++ [e]) = l.
Proof.
  rewrite fmap_app. intros (_ & Hd & _)%NoDup_app. unfold a_remove. rewrite filter_app.
  rewrite filter_cons_False by tauto. rewrite app_nil_r.
  induction l as [|e' l IH]; [done|]. rewrite filter_cons_True.
  - rewrite IH; [done|]. cbn in Hd. set_solver.
  - specialize (Hd (e_key e')). cbn in Hd. set_solver.
Qed.

Lemma remove_back_ok c id e :
  wf c -> Back c = Some (id, e) ->
  wf (removeElement id c) /\ contents (removeElement id c) = removelast (contents c) /\
  exists l, contents c = l ++ [e].
Proof.
  intros Hwf HB. pose proof (Back_last c Hwf) as HL. rewrite HB in HL.
  destruct HL as (l & _ & He & Hc & E). destruct (removeElement_ok c id e Hwf He Hc) as [Hw Hr].
  split_and!; [done| |by eexists]. pose proof (keys_NoDup c Hwf) as Hn.
  rewrite Hr. rewrite E in Hn |- *. by rewrite a_remove_snoc, removelast_last.
Qed.

Lemma Get_ok c k now :
  wf c -> wf (snd (Get k now c)) /\
  (fst (Get k now c), contents (snd (Get k now c))) = a_get (expiry c) k now (contents c).
Proof.
  intros Hwf. unfold a_get. rewrite (a_find_contents c k Hwf). unfold Get.
  destruct (cache c !! k) as [id|] eqn:Hc; cbn [option_bind mbind]; [|done].
  destruct (wf_keys _ Hwf _ _ Hc) as (_ & e & He & Hk).
  split.
  - cbn [snd]. apply (wf_set_entry (set_ll (list_move_to_front id (ll c)) c)); [done|].
    by apply wf_move_to_front.
  - unfold contents at 1. cbn [fst snd set_elems set_ll elems ll].
    rewrite (contents_move_front c k id e) by done.
    rewrite lookup_alter, decide_True by done. by rewrite He.
Qed.

Lemma Add_present_ok c k v now id :
  wf c -> cache c !! k = Some id ->
  wf (Add k v now c) /\ contents (Add k v now c) = newEntry k v (expiry c) now :: a_remove k (contents c).
Proof.
  intros Hwf Hc. unfold Add. rewrite Hc.
  destruct (wf_keys _ Hwf _ _ Hc) as (_ & e & He & Hk). split.
  - apply (wf_set_entry (set_ll (list_move_to_front id (ll c)) c)); [done|].
    by apply wf_move_to_front.
  - unfold contents at 1. cbn [set_elems set_ll elems ll].
    rewrite (contents_move_front c k id e) by done.
    unfold set_value, touch, newEntry. cbn. by rewrite Hk.
Qed.

Lemma pushed_ok c k v now :
  wf c -> cache c !! k = None ->
  wf (pushed c k v now) /\ contents (pushed c k v now) = newEntry k v (expiry c) now :: contents c.
Proof.
  intros Hwf Hc. destruct Hwf as [H1 H2 H3 H4]. split; [split; cbn|].
  - constructor; [|done]. intros Hin%H4. lia.
  - apply linked_cons. split.
    { eexists. rewrite lookup_insert_eq. split; [done|]. cbn. by rewrite lookup_insert_eq. }
    intros x Hx. destruct (H2 x Hx) as (e & He & Hk). exists e.
    rewrite lookup_insert_ne by (specialize (H4 x Hx); lia). split; [done|].
    rewrite lookup_insert_ne; congruence.
  - intros k' x [[<- <-]|[Hne Hx]]%lookup_insert_Some.
    { split; [set_solver|]. rewrite lookup_insert_eq. by eexists. }
    destruct (H3 k' x Hx) as (Hin & e & He & Hk). split; [set_solver|]. exists e.
    rewrite lookup_insert_ne by (specialize (H4 x Hin); lia). done.
  - intros x [->|Hx%H4]%elem_of_cons; lia.
  - unfold contents. cbn [pushed ll elems].
    rewrite (entries_cons _ _ (newEntry k v (expiry c) now)) by apply lookup_insert_eq.
    f_equal. apply entries_ext. intros x Hx. rewrite lookup_insert_ne; [done|].
    specialize (H4 x Hx). lia.
Qed.

Lemma Add_ok c k v now :
  wf c -> wf (Add k v now c) /\
  contents (Add k v now c) = a_add (maxEntries c) (expiry c) k v now (contents c).
Proof.
  intros Hwf. unfold a_add. rewrite (a_find_contents c k Hwf).
  destruct (cache c !! k) as [id|] eqn:Hc; cbn [option_bind mbind].
  { destruct (wf_keys _ Hwf _ _ Hc) as (_ & e & He & _). rewrite He. by eapply Add_present_ok. }
  destruct (pushed_ok c k v now Hwf Hc) as [Hp Ep]. unfold Add. rewrite Hc.
  cbn zeta. rewrite <- (length_contents _ Hp), Ep.
  destruct (_ && _); [|by rewrite Ep]. unfold removeOldest.
  pose proof (Back_last _ Hp) as HB.
  destruct (Back (pushed c k v now)) as [[id e]|] eqn:EB.
  - destruct (remove_back_ok _ _ _ Hp EB) as (Hw & Hr & _). cbn [snd]. by rewrite Hr, Ep.
  - destruct HB as [HB _]. done.
Qed.

Lemma Remove_ok c k :
  wf c -> wf (Remove k c) /\ contents (Remove k c) = a_remove k (contents c).
Proof.
  intros Hwf. unfold Remove. destruct (cache c !! k) as [id|] eqn:Hc.
  - destruct (wf_keys _ Hwf _ _ Hc) as (_ & e & He & <-). by apply removeElement_ok.
  - split; [done|]. pose proof (a_find_contents c k Hwf) as Hf. rewrite Hc in Hf. cbn in Hf.
    unfold a_remove. induction (contents c) as [|e l IH]; [done|]. cbn in Hf.
    case_decide; [done|]. rewrite filter_cons_True by done. f_equal. auto.
Qed.

Lemma Clear_ok c : wf c -> wf (Clear c) /\ contents (Clear c) = [].
Proof. intros _. split; [|done]. split; cbn; [constructor|..]; set_solver. Qed.

Lemma a_expire_snoc now l e :
  a_expire now (l ++ [e]) = if expired now e then a_expire now l else l ++ [e].
Proof.
  induction l as [|x l IH]; [done|]. cbn [app a_expire]. rewrite IH.
  destruct (expired now e); [done|]. by destruct (l ++ [e]) eqn:E; [destruct l|].
Qed.

Lemma removeOldestExpired_ok c now :
  wf c -> wf (snd (removeOldestExpired now c)) /\
  if fst (removeOldestExpired now c)
  then exists e, expired now e = true /\ contents c = contents (snd (removeOldestExpired now c)) ++ [e]
  else snd (removeOldestExpired now c) = c /\ a_expire now (contents c) = contents c.
Proof.
  intros Hwf. unfold removeOldestExpired. pose proof (Back_last c Hwf) as HB.
  destruct (Back c) as [[id e]|] eqn:EB.
  - destruct (remove_back_ok c id e Hwf EB) as (Hw & Hr & l & El).
    destruct (expired now e) eqn:Ee; cbn [fst snd].
    + split; [done|]. exists e. split; [done|]. by rewrite Hr, El, removelast_last.
    + split_and!; [done|done|]. rewrite El, a_expire_snoc. by rewrite Ee.
  - destruct HB as [_ HB]. cbn. by rewrite HB.
Qed.

(** With as many iterations as there are elements the loop has reached its exit. *)
Lemma expire_while_ok fuel now c :
  wf c -> length (ll c) < fuel ->
  wf (expire_while fuel now c) /\ contents (expire_while fuel now c) = a_expire now (contents c).
Proof.
  revert c; induction fuel as [|fuel IH]; intros c Hwf Hf; [lia|]. cbn [expire_while].
  destruct (removeOldestExpired_ok c now Hwf) as [Hw HR].
  destruct (removeOldestExpired now c) as [[] c'] eqn:E; cbn in *.
  - destruct HR as (e & He & Ec). rewrite Ec, a_expire_snoc, He. apply IH; [done|].
    apply (f_equal length) in Ec. rewrite length_app in Ec. cbn in Ec.
    rewrite !length_contents in Ec by done. lia.
  - destruct HR as [-> ->]. done.
Qed.

Lemma expire_tick_ok now c :
  wf c -> wf (expire_tick now c) /\ contents (expire_tick now c) = a_expire now (contents c).
Proof.
  intros Hwf. unfold expire_tick, oldestExpired. pose proof (Back_last c Hwf) as HB.
  destruct (Back c) as [[id e]|] eqn:EB.
  - destruct (expired now e) eqn:Ee; [apply expire_while_ok; [done|lia]|].
    split; [done|]. destruct HB as (l & _ & _ & _ & ->). rewrite a_expire_snoc. by rewrite Ee.
  - split; [done|]. destruct HB as [_ ->]. done.
Qed.

(** The configuration never changes. *)
Lemma config_removeElement id c :
  maxEntries (removeElement id c) = maxEntries c /\ expiry (removeElement id c) = expiry c.
Proof. unfold removeElement. by destruct (elems c !! id). Qed.

Lemma config_expire_while fuel now c :
  maxEntries (expire_while fuel now c) = maxEntries c /\ expiry (expire_while fuel now c) = expiry c.
Proof.
  revert c; induction fuel as [|fuel IH]; intros c; [done|]. cbn [expire_while].
  unfold removeOldestExpired. destruct (Back c) as [[id e]|]; [|done].
  destruct (expired now e); [|done]. destruct (config_removeElement id c) as [<- <-]. apply IH.
Qed.

Lemma config_run_op o now c :
  maxEntries (snd (run_op o now c)) = maxEntries c /\ expiry (snd (run_op o now c)) = expiry c.
Proof.
  destruct o; cbn [run_op snd]; try done.
  - unfold Get. by destruct (cache c !! k).
  - unfold Add. destruct (cache c !! k); [done|]. cbn zeta. destruct (_ && _); [|done].
    unfold removeOldest. destruct (Back _) as [[id e]|]; [apply (config_removeElement _ (pushed c k v now))|done].
  - unfold Remove. destruct (cache c !! k); [apply config_removeElement|done].
  - unfold expire_tick. destruct (oldestExpired now c); [apply config_expire_while|done].
Qed.

Lemma run_op_ok o now c :
  wf c -> wf (snd (run_op o now c)) /\
  (fst (run_op o now c), contents (snd (run_op o now c))) =
    a_run_op (maxEntries c) (expiry c) o now (contents c).
Proof.
  intros Hwf. destruct o; cbn [run_op a_run_op].
  - cbn. by rewrite length_contents.
  - cbn. split; [done|]. rewrite Back_contents by done. unfold Oldest.
    by destruct (Back c) as [[]|].
  - cbn. split; [done|]. rewrite a_find_contents by done. unfold Peek.
    destruct (cache c !! k); [|done]. cbn. by destruct (elems c !! _).
  - destruct (Get_ok c k now Hwf) as [Hw HG]. destruct (Get k now c) as [v c']. cbn in *.
    by rewrite <- HG.
  - destruct (Add_ok c k v now Hwf) as [Hw HA]. cbn. by rewrite HA.
  - destruct (Remove_ok c k Hwf) as [Hw HR]. cbn. by rewrite HR.
  - destruct (Clear_ok c Hwf) as [Hw HC]. cbn [fst snd]. by rewrite HC.
  - destruct (expire_tick_ok now c Hwf) as [Hw HE]. cbn. by rewrite HE.
Qed.

Lemma run_ops_ok os c :
  wf c -> wf (snd (run_ops os c)) /\
  (fst (run_ops os c), contents (snd (run_ops os c))) =
    a_run_ops (maxEntries c) (expiry c) os (contents c).
Proof.
  revert c; induction os as [|[o now] os IH]; intros c Hwf; [done|].
  cbn [run_ops a_run_ops]. destruct (run_op_ok o now c Hwf) as [Hw Ho].
  pose proof (config_run_op o now c) as [Hm He].
  destruct (run_op o now c) as [r c1]. cbn in *. rewrite <- Ho.
  destruct (IH c1 Hw) as [Hw2 Hos]. rewrite Hm, He in Hos.
  destruct (run_ops os c1) as [rs c2]. cbn in *. by rewrite <- Hos.
Qed.

(** ** Facts about the abstract cache *)

Lemma a_remove_length k l : length (a_remove k l) <= length l.
Proof. apply length_filter. Qed.

Lemma a_find_remove_length k l e : a_find k l = Some e -> S (length (a_remove k l)) <= length l.
Proof.
  induction l as [|x l IH]; [done|]. cbn [a_find]. unfold a_remove in *. rewrite filter_cons.
  case_decide as Hk.
  - intros [= <-]. rewrite decide_False by tauto. cbn. pose proof (a_remove_length k l).
    unfold a_remove in *. lia.
  - intros Hf%IH. rewrite decide_True by done. cbn. lia.
Qed.

Lemma length_removelast_cons (x : entry) l : length (removelast (x :: l)) = length l.
Proof. revert x; induction l as [|y l IH]; intros x; [done|]. cbn in *. by rewrite IH. Qed.

Lemma a_expire_prefix now l : exists r, l = a_expire now l ++ r /\ Forall (fun e => expired now e = true) r.
Proof.
  induction l as [|e l (r & El & Hr)]; [by exists []|]. cbn [a_expire].
  destruct (a_expire now l) as [|x t] eqn:E.
  - cbn in El. subst r. destruct (expired now e) eqn:Ee; [exists (e :: l)|by exists l].
    split; [done|by constructor].
  - exists r. split; [by rewrite El at 1|done].
Qed.

Lemma a_run_op_bound max exp o now l :
  (0 < max)%Z -> (Z.of_nat (length l) <= max)%Z ->
  (Z.of_nat (length (snd (a_run_op max exp o now l))) <= max)%Z.
Proof.
  intros Hm Hl. destruct o; cbn [a_run_op snd]; try done.
  - unfold a_get. destruct (a_find k l) as [e|] eqn:E; [|done].
    apply a_find_remove_length in E. cbn. lia.
  - unfold a_add. destruct (a_find k l) as [e|] eqn:E.
    + apply a_find_remove_length in E. cbn. lia.
    + cbn zeta. rewrite bool_decide_true by lia. cbn [andb].
      destruct (Z.ltb_spec max (Z.of_nat (length (newEntry k v exp now :: l)))); [|cbn in *; lia].
      by rewrite length_removelast_cons.
  - pose proof (a_remove_length k l). lia.
  - cbn. lia.
  - destruct (a_expire_prefix now l) as (r & El & _). rewrite El in Hl.
    rewrite length_app in Hl. lia.
Qed.

(** Recency order: the expiry times never increase from front to back and
    none lies beyond [t + exp]. *)
Definition recent (exp t : Z) (l : list entry) : Prop :=
  Forall (fun e => e_expiry e <= t + exp)%Z l /\
  StronglySorted (fun e e' => e_expiry e' <= e_expiry e)%Z l.

Lemma Sorted_filter (P : entry -> Prop) `{!forall e, Decision (P e)} R l :
  StronglySorted R l -> StronglySorted R (filter P l).
Proof.
  induction 1 as [|e l Hs IH Hf]; [constructor|]. rewrite filter_cons. case_decide; [|done].
  constructor; [done|]. rewrite Forall_forall in *. intros x [_ Hx]%list_elem_of_filter. auto.
Qed.

Lemma Sorted_prefix {A} (R : A -> A -> Prop) l r :
  StronglySorted R (l ++ r) -> StronglySorted R l.
Proof.
  induction l as [|e l IH]; [constructor|]. inversion 1; simplify_eq/=. constructor; [auto|].
  rewrite Forall_app in *. tauto.
Qed.

Lemma recent_remove exp t k l : recent exp t l -> recent exp t (a_remove k l).
Proof.
  intros [Hf Hs]. split; [|by apply Sorted_filter]. rewrite Forall_forall in *.
  intros e [_ He]%list_elem_of_filter. auto.
Qed.

Lemma recent_cons exp t t' k v l :
  (t <= t')%Z -> recent exp t l -> recent exp t' (mk_entry k v (t' + exp)%Z :: l).
Proof.
  intros Ht [Hf Hs]. split.
  - constructor; [cbn; lia|]. eapply Forall_impl; [exact Hf|]. cbn. intros e He. cbn in He. lia.
  - constructor; [done|]. eapply Forall_impl; [exact Hf|]. cbn. intros e He. cbn in He. lia.
Qed.

Lemma recent_mono exp t t' l : (t <= t')%Z -> recent exp t l -> recent exp t' l.
Proof.
  intros Ht [Hf Hs]. split; [|done]. eapply Forall_impl; [exact Hf|]. cbn. intros e He. cbn in He. lia.
Qed.

Lemma recent_prefix exp t l r : recent exp t (l ++ r) -> recent exp t l.
Proof. intros [Hf Hs]. split; [by apply Forall_app in Hf as [? _]|by eapply Sorted_prefix]. Qed.

Lemma removelast_prefix (x : entry) l : exists y, x :: l = removelast (x :: l) ++ [y].
Proof. exists (List.last (x :: l) x). by apply app_removelast_last. Qed.

Lemma recent_run_op max exp o t now l :
  (t <= now)%Z -> recent exp t l -> recent exp now (snd (a_run_op max exp o now l)).
Proof.
  intros Ht Hl. assert (recent exp now l) as Hn by by eapply recent_mono.
  destruct o; cbn [a_run_op snd]; try done.
  - unfold a_get. destruct (a_find k l) as [e|]; [|done]. cbn.
    by eapply recent_cons, recent_remove.
  - unfold a_add. destruct (a_find k l) as [e|]; [by eapply recent_cons, recent_remove|].
    cbn zeta. destruct (_ && _); [|by eapply recent_cons].
    destruct (removelast_prefix (newEntry k v exp now) l) as [y Hy].
    apply (recent_prefix _ _ _ [y]). rewrite <- Hy. by eapply recent_cons.
  - by apply recent_remove.
  - by split; constructor.
  - destruct (a_expire_prefix now l) as (r & El & _). rewrite El in Hn. by eapply recent_prefix.
Qed.

Lemma filter_all_false (P : entry -> Prop) `{!forall e, Decision (P e)} l :
  Forall (fun e => ~ P e) l -> filter P l = [].
Proof. induction 1 as [|e l He Hl IH]; [done|]. by rewrite filter_cons_False. Qed.

(** On a list in recency order the expired entries are exactly those at the back. *)
Lemma a_expire_filter now l :
  StronglySorted (fun e e' => e_expiry e' <= e_expiry e)%Z l ->
  a_expire now l = filter (fun e => expired now e = false) l.
Proof.
  induction 1 as [|e l Hs IH Hf]; [done|]. cbn [a_expire]. rewrite IH, filter_cons.
  destruct (expired now e) eqn:Ee.
  - rewrite decide_False by done. assert (filter (fun e => expired now e = false) l = []) as ->; [|done].
    apply filter_all_false. eapply Forall_impl; [exact Hf|]. cbn. unfold expired in *. intros x Hx. lia.
  - rewrite decide_True by done. by destruct (filter _ l).
Qed.

Lemma Peek_contents c k : wf c -> Peek k c = e_value <$> a_find k (contents c).
Proof.
  intros Hwf. rewrite a_find_contents by done. unfold Peek.
  destruct (cache c !! k); [|done]. cbn. by destruct (elems c !! _).
Qed.

Lemma a_find_app k l r : a_find k (l ++ r) = match a_find k l with Some e => Some e | None => a_find k r end.
Proof. induction l as [|e l IH]; [done|]. cbn. by case_decide. Qed.

Lemma a_find_cons k e l : a_find k (e :: l) = if decide (e_key e = k) then Some e else a_find k l.
Proof. done. Qed.

Lemma a_find_remove k k' l :
  a_find k' (a_remove k l) = if decide (k' = k) then None else a_find k' l.
Proof.
  unfold a_remove. induction l as [|e l IH]; [by case_decide|]. rewrite filter_cons.
  destruct (decide (e_key e <> k)) as [Hk|Hk]; cbn [a_find].
  - rewrite IH. repeat case_decide; congruence.
  - apply dec_stable in Hk. rewrite IH. repeat case_decide; congruence.
Qed.

Lemma a_find_key k l e : a_find k l = Some e -> e_key e = k.
Proof. induction l as [|x l IH]; [done|]. cbn. case_decide; [intros [= <-]; done|auto]. Qed.

Lemma a_find_elem l e : NoDup (e_key <$> l) -> e ∈ l -> a_find (e_key e) l = Some e.
Proof.
  induction l as [|x l IH]; [set_solver|]. cbn. intros [Hx Hn]%NoDup_cons [->|He]%elem_of_cons.
  - by rewrite decide_True.
  - rewrite decide_False; [auto|]. intros Hk. apply Hx. rewrite Hk.
    apply list_elem_of_fmap. eauto.
Qed.

Lemma a_find_notin k l : a_find k l = None -> k ∉ e_key <$> l.
Proof. induction l as [|x l IH]; [set_solver|]. cbn. case_decide; [done|]. set_solver. Qed.

(** The times of a sequence of operations do not decrease and stay below [now]. *)
Definition clock_ordered (os : list (op * Z)) (now : Z) : Prop :=
  StronglySorted Z.le (os.*2 ++ [now]).

Lemma recent_run_ops max exp os t l :
  recent exp t l -> StronglySorted Z.le (t :: os.*2) ->
  StronglySorted (fun e e' => e_expiry e' <= e_expiry e)%Z (snd (a_run_ops max exp os l)).
Proof.
  revert t l; induction os as [|[o now] os IH]; intros t l Hl Hs; [apply Hl|].
  cbn [a_run_ops]. cbn in Hs. inversion Hs as [|? ? Hs' Hf]; simplify_eq.
  inversion Hf as [|? ? Ht _]; simplify_eq.
  pose proof (recent_run_op max exp o t now l Ht Hl) as Hr.
  destruct (a_run_op max exp o now l) as [r l1]. cbn in Hr.
  specialize (IH now l1 Hr Hs'). by destruct (a_run_ops max exp os l1).
Qed.

(** C3.
    The pointer-based cache implements its abstract specification: any
    sequence of method calls on a new cache returns the same results as the
    recency list does, ends in the contents of the recency list, and keeps the
    list and the key map consistent. *)
Theorem run_ops_refines max exp os :
  let '(rs, c) := run_ops os (New max exp) in
  wf c /\ (rs, contents c) = a_run_ops max exp os [].
Proof.
  destruct (run_ops_ok os (New max exp) (wf_New max exp)) as [Hw Ho].
  by destruct (run_ops os (New max exp)).
Qed.

(** A cache created with a positive limit never holds more entries than that
    limit, whatever calls were made. *)
Theorem Len_bounded max exp os :
  (0 < max)%Z -> (Z.of_nat (Len (snd (run_ops os (New max exp)))) <= max)%Z.
Proof.
  intros Hm. destruct (run_ops_ok os (New max exp) (wf_New max exp)) as [Hw Ho].
  unfold Len. rewrite <- length_contents by done.
  assert (contents (snd (run_ops os (New max exp))) = snd (a_run_ops max exp os [])) as ->.
  { by apply (f_equal snd) in Ho. }
  clear -Hm. assert (Z.of_nat (length (@nil entry)) <= max)%Z as Hl by (cbn; lia). revert Hl.
  generalize (@nil entry). induction os as [|[o now] os IH]; intros l Hl; [done|]. cbn [a_run_ops].
  pose proof (a_run_op_bound max exp o now l Hm Hl) as Hb.
  destruct (a_run_op max exp o now l) as [r l1]. specialize (IH l1 Hb).
  by destruct (a_run_ops max exp os l1).
Qed.

(** With a clock that does not go back, one pass of the expiry loop removes
    exactly the expired entries, although it only ever looks at the back of
    the list: no expired entry survives and no live entry is dropped. *)
Theorem expire_tick_exact max exp os now :
  clock_ordered os now ->
  let c := snd (run_ops os (New max exp)) in
  contents (expire_tick now c) = filter (fun e => expired now e = false) (contents c).
Proof.
  intros Hc. cbn zeta. destruct (run_ops_ok os (New max exp) (wf_New max exp)) as [Hw Ho].
  destruct (expire_tick_ok now _ Hw) as [_ ->]. apply a_expire_filter.
  apply (f_equal snd) in Ho. cbn in Ho. rewrite Ho.
  set (t := match os.*2 with [] => now | x :: _ => x end).
  apply (recent_run_ops _ _ _ t); [by split; constructor|].
  unfold clock_ordered in Hc. subst t.
  destruct (os.*2) as [|x l]; [by repeat constructor|]. cbn in Hc.
  inversion Hc as [|? ? Hs Hf]; simplify_eq. apply Forall_app in Hf as [Hf _].
  apply Sorted_prefix in Hs. constructor; [by constructor|]. constructor; [lia|done].
Qed.

(** Adding a new key to a full cache evicts the least recently used entry and
    nothing else: the last entry of the recency list disappears, every other
    entry keeps its value, and the new key is present. *)
Theorem Add_evicts_oldest c k v now :
  wf c -> (0 < maxEntries c)%Z -> Z.of_nat (Len c) = maxEntries c -> Peek k c = None ->
  exists front e, contents c = front ++ [e] /\
    Peek (e_key e) (Add k v now c) = None /\
    Peek k (Add k v now c) = Some v /\
    forall x, x ∈ front -> Peek (e_key x) (Add k v now c) = Some (e_value x).
Proof.
  intros Hwf Hm Hfull Hk. destruct (Add_ok c k v now Hwf) as [Hw HA].
  rewrite Peek_contents in Hk by done.
  destruct (a_find k (contents c)) eqn:Hf; [done|]. clear Hk.
  unfold Len in Hfull. rewrite <- length_contents in Hfull by done.
  pose proof (keys_NoDup c Hwf) as Hn. apply a_find_notin in Hf as Hnk.
  destruct (list_snoc_inv (contents c)) as [E|(front & e & E)]; [rewrite E in Hfull; cbn in Hfull; lia|].
  assert (contents (Add k v now c) = newEntry k v (expiry c) now :: front) as HC.
  { rewrite HA. unfold a_add. rewrite Hf. cbn zeta. rewrite bool_decide_true by lia. cbn [andb].
    assert (maxEntries c < Z.of_nat (length (newEntry k v (expiry c) now :: contents c)))%Z as Hlt
      by (cbn [length]; lia).
    apply Z.ltb_lt in Hlt as ->. rewrite E.
    rewrite (app_comm_cons front [e] (newEntry k v (expiry c) now)). apply removelast_last. }
  rewrite E, fmap_app in Hn, Hnk. apply NoDup_app in Hn as (Hnf & Hd & _).
  exists front, e. split; [done|]. rewrite !Peek_contents, HC by done. cbn [a_find e_key newEntry].
  split_and!.
  - rewrite decide_False by set_solver. destruct (a_find (e_key e) front) as [x|] eqn:Ex; [|done].
    apply a_find_key in Ex as Hx. exfalso. apply (Hd (e_key e)); [|set_solver].
    destruct (decide (e_key e ∈ e_key <$> front)); [done|].
    clear -Ex n. exfalso. induction front as [|y f IH]; [done|]. cbn in *. case_decide; set_solver.
  - by rewrite decide_True.
  - intros x Hx. rewrite Peek_contents, HC by done. cbn [a_find e_key newEntry].
    rewrite decide_False.
    + by rewrite a_find_elem.
    + intros ->. apply Hnk. apply elem_of_app. left. apply list_elem_of_fmap. eauto.
Qed.

End Model.

Arguments entry : clear implicits.
Arguments Cache K V {EqK CntK}.
Arguments op : clear implicits.
Arguments result : clear implicits.

(** Witnesses: a cache of capacity two used by three callers. *)

Definition demo_ops : list (op nat nat * Z) :=
  [(OpAdd 1 10, 0%Z); (OpAdd 2 20, 1%Z); (OpGet 1, 2%Z)].

Lemma Len_bounded_witness :
  (0 < 2)%Z /\ (Z.of_nat (Len (snd (run_ops demo_ops (New 2 5)))) <= 2)%Z.
Proof. split; [lia|]. apply (Len_bounded 2 5 demo_ops). lia. Defined.

Lemma expire_tick_exact_witness :
  clock_ordered demo_ops 7 /\
  contents (expire_tick 7 (snd (run_ops demo_ops (New 2 5)))) =
    filter (fun e => expired 7 e = false) (contents (snd (run_ops demo_ops (New 2 5)))).
Proof.
  assert (clock_ordered demo_ops 7) as H
    by (unfold clock_ordered; cbn; repeat first [apply SSorted_cons | apply SSorted_nil |
          apply List.Forall_cons | apply List.Forall_nil | lia]).
  split; [exact H|]. apply (expire_tick_exact 2 5 demo_ops 7 H).
Defined.

Lemma Add_evicts_oldest_witness :
  let c := snd (run_ops demo_ops (New 2 5)) in
  exists front e, contents c = front ++ [e] /\
    Peek (e_key e) (Add 3 30 3 c) = None /\ Peek 3 (Add 3 30 3 c) = Some 30 /\
    forall x, x ∈ front -> Peek (e_key x) (Add 3 30 3 c) = Some (e_value x).
Proof.
  cbn zeta. apply (Add_evicts_oldest (snd (run_ops demo_ops (New 2 5))) 3 30 3).
  - apply (run_ops_ok demo_ops (New 2 5) (wf_New 2 5)).
  - vm_compute. reflexivity.
  - vm_compute. reflexivity.
  - vm_compute. reflexivity.
Defined.

End Lru.
