(* ===== verification/CacheInterface.v ===== *)
(** * What the program's components rely on of their caches

    [BoundedCache] is the method set of [lruttl.Cache] that the router, the
    cursor cache and the transaction cache call; [BoundedCacheLaws] is what
    they may assume of it.  A bounded cache may forget (eviction, expiry), so
    the laws say that a hit is always a value stored for that key and not
    removed since, never that a stored value is still there.  [Lru.Cache]
    implements both. *)

From S2P Require Import Prelude Lru.
From Stdlib Require Import ZArith Lia.

Class BoundedCache (K V T : Type) := {
  bc_inv : T -> Prop;
  bc_len : T -> nat;
  bc_peek : K -> T -> option V;
  bc_get : K -> Z -> T -> option V * T;
  bc_add : K -> V -> Z -> T -> T;
  bc_remove : K -> T -> T;
  bc_clear : T -> T;
  bc_expire : Z -> T -> T
}.

Class BoundedCacheLaws (K V T : Type) `{BC : BoundedCache K V T} : Prop := {
  bc_inv_get k now (c : T) : bc_inv c -> bc_inv (snd (bc_get k now c));
  bc_inv_add k v now (c : T) : bc_inv c -> bc_inv (bc_add k v now c);
  bc_inv_remove k (c : T) : bc_inv c -> bc_inv (bc_remove k c);
  bc_inv_clear (c : T) : bc_inv c -> bc_inv (bc_clear c);
  bc_inv_expire now (c : T) : bc_inv c -> bc_inv (bc_expire now c);
  bc_get_peek k now (c : T) : bc_inv c -> fst (bc_get k now c) = bc_peek k c;
  bc_peek_get k k' now (c : T) : bc_inv c -> bc_peek k' (snd (bc_get k now c)) = bc_peek k' c;
  bc_peek_add k v now (c : T) : bc_inv c -> bc_peek k (bc_add k v now c) = Some v;
  bc_peek_add_ne k k' v w now (c : T) :
    bc_inv c -> k <> k' -> bc_peek k' (bc_add k v now c) = Some w -> bc_peek k' c = Some w;
  bc_peek_remove k (c : T) : bc_inv c -> bc_peek k (bc_remove k c) = None;
  bc_peek_remove_ne k k' (c : T) : bc_inv c -> k <> k' -> bc_peek k' (bc_remove k c) = bc_peek k' c;
  bc_peek_clear k (c : T) : bc_inv c -> bc_peek k (bc_clear c) = None;
  bc_peek_expire k v now (c : T) : bc_inv c -> bc_peek k (bc_expire now c) = Some v -> bc_peek k c = Some v
}.

Section LruInstance.
Context {K V : Type} `{EqK : EqDecision K, CntK : !Countable K}.

#[export] Instance lru_bounded_cache : BoundedCache K V (Lru.Cache K V) := {
  bc_inv c := Lru.wf c /\ (0 <= Lru.maxEntries c)%Z;
  bc_len := Lru.Len;
  bc_peek := Lru.Peek;
  bc_get := Lru.Get;
  bc_add := Lru.Add;
  bc_remove := Lru.Remove;
  bc_clear := Lru.Clear;
  bc_expire := Lru.expire_tick
}.

Implicit Types c : Lru.Cache K V.

Lemma lru_inv_step o now c :
  bc_inv c -> bc_inv (snd (Lru.run_op o now c)).
Proof.
  intros [Hw Hm]. split; [by apply Lru.run_op_ok|]. by destruct (Lru.config_run_op o now c) as [-> _].
Qed.

Lemma lru_peek_add k v now c : bc_inv c -> Lru.Peek k (Lru.Add k v now c) = Some v.
Proof.
  intros [Hw Hm]. destruct (Lru.Add_ok c k v now Hw) as [Hw' HA].
  rewrite Lru.Peek_contents, HA by done. unfold Lru.a_add.
  destruct (Lru.a_find k (Lru.contents c)) eqn:E; [by rewrite Lru.a_find_cons, decide_True|]. cbn zeta.
  destruct (_ && _) eqn:Hc; [|by rewrite Lru.a_find_cons, decide_True].
  apply andb_true_iff in Hc as [H1 H2]. rewrite bool_decide_eq_true in H1. apply Z.ltb_lt in H2.
  destruct (Lru.contents c) as [|x l]; [cbn [length] in H2; lia|]. cbn [removelast].
  by rewrite Lru.a_find_cons, decide_True.
Qed.

Lemma lru_peek_add_ne k k' v w now c :
  bc_inv c -> k <> k' -> Lru.Peek k' (Lru.Add k v now c) = Some w -> Lru.Peek k' c = Some w.
Proof.
  intros [Hw Hm] Hk. destruct (Lru.Add_ok c k v now Hw) as [Hw' HA].
  rewrite !Lru.Peek_contents, HA by done. unfold Lru.a_add.
  destruct (Lru.a_find k (Lru.contents c)) eqn:E; cbn zeta.
  - rewrite Lru.a_find_cons, decide_False, Lru.a_find_remove, decide_False by done. done.
  - destruct (_ && _); [|by rewrite Lru.a_find_cons, decide_False].
    destruct (Lru.removelast_prefix (Lru.newEntry k v (Lru.expiry c) now) (Lru.contents c)) as [y Hy].
    intros Hf. apply fmap_Some in Hf as (e & Hf & ->).
    assert (Lru.a_find k' (Lru.newEntry k v (Lru.expiry c) now :: Lru.contents c) = Some e) as Hf'.
    { rewrite Hy, Lru.a_find_app. by rewrite Hf. }
    rewrite Lru.a_find_cons, decide_False in Hf' by done. by rewrite Hf'.
Qed.

Lemma lru_peek_get k k' now c : bc_inv c -> Lru.Peek k' (snd (Lru.Get k now c)) = Lru.Peek k' c.
Proof.
  intros [Hw Hm]. destruct (Lru.Get_ok c k now Hw) as [Hw' HG].
  rewrite !Lru.Peek_contents by done. apply (f_equal snd) in HG. cbn [snd] in HG. rewrite HG.
  unfold Lru.a_get. destruct (Lru.a_find k (Lru.contents c)) as [e|] eqn:E; [|done]. cbn [snd].
  apply Lru.a_find_key in E as Hk. rewrite Lru.a_find_cons, Lru.a_find_remove. cbn [Lru.e_key Lru.touch].
  rewrite Hk. destruct (decide (k = k')) as [<-|]; [by rewrite E|]. by rewrite decide_False.
Qed.

#[export] Instance lru_bounded_cache_laws : BoundedCacheLaws K V (Lru.Cache K V).
Proof.
  split; cbn [bc_inv bc_peek bc_get bc_add bc_remove bc_clear bc_expire lru_bounded_cache].
  - intros k now c Hc. generalize (lru_inv_step (Lru.OpGet k) now c Hc). cbn. by destruct (Lru.Get k now c).
  - intros k v now c. apply (lru_inv_step (Lru.OpAdd k v) now).
  - intros k c. apply (lru_inv_step (Lru.OpRemove k) 0).
  - intros c. apply (lru_inv_step Lru.OpClear 0).
  - intros now c. apply (lru_inv_step Lru.OpExpire now).
  - intros k now c [Hw _]. destruct (Lru.Get_ok c k now Hw) as [_ HG].
    apply (f_equal fst) in HG. cbn [fst] in HG. rewrite HG, Lru.Peek_contents by done.
    unfold Lru.a_get. by destruct (Lru.a_find k (Lru.contents c)).
  - intros. by apply lru_peek_get.
  - intros. by apply lru_peek_add.
  - intros. by eapply lru_peek_add_ne.
  - intros k c [Hw _]. destruct (Lru.Remove_ok c k Hw) as [Hw' HR].
    rewrite Lru.Peek_contents, HR, Lru.a_find_remove by done. by rewrite decide_True.
  - intros k k' c [Hw _] Hk. destruct (Lru.Remove_ok c k Hw) as [Hw' HR].
    rewrite !Lru.Peek_contents, HR, Lru.a_find_remove by done. by rewrite decide_False.
  - intros k c _. unfold Lru.Peek. cbn. by rewrite lookup_empty.
  - intros k v now c [Hw _]. destruct (Lru.expire_tick_ok now c Hw) as [Hw' HE].
    rewrite !Lru.Peek_contents, HE by done. intros (e & Hf & ->)%fmap_Some.
    destruct (Lru.a_expire_prefix now (Lru.contents c)) as (r & El & _).
    rewrite El, Lru.a_find_app. by rewrite Hf.
Qed.

Lemma lru_new_inv max exp : (0 <= max)%Z -> bc_inv (Lru.New max exp : Lru.Cache K V).
Proof. intros Hm. split; [apply Lru.wf_New|done]. Qed.

Lemma lru_new_empty max exp k : bc_peek k (Lru.New max exp : Lru.Cache K V) = None.
Proof. cbn. unfold Lru.Peek. cbn. by rewrite lookup_empty. Qed.

End LruInstance.
