(* ===== verification/Wire.v ===== *)
(** * Bytes on the wire, and the driver packages the codec is built on

    First the four helpers of [src/mongo/operations.go] that read and write
    32-bit integers and C strings.  Then the interfaces of the driver packages
    [wiremessage] and [bsoncore] ([go.mongodb.org/mongo-driver/x/...]): they
    are not part of the repository, so they are class parameters, with the
    behaviour the codec relies on stated as laws in terms of what reading
    back an appended field gives. *)

From S2P Require Import Prelude GoStrings.
From Stdlib Require Import ZArith Lia Ascii.
From Stdlib Require String.

(** ** Strings as bytes *)

Definition string_bytes (s : string) : list byte := String.list_byte_of_string s.
Definition bytes_string (bs : list byte) : string := String.string_of_list_byte bs.

(** ** [appendi32], [appendCString], [readi32], [readCString] *)

Definition appendi32 (dst : list byte) (i32 : Z) : list byte :=
  dst ++ [byte.of_Z i32; byte.of_Z (Z.shiftr i32 8);
          byte.of_Z (Z.shiftr i32 16); byte.of_Z (Z.shiftr i32 24)].

Definition appendCString (b : list byte) (str : string) : list byte :=
  (b ++ string_bytes str) ++ [Byte.x00].

Definition readi32 (src : list byte) : option (Z * list byte) :=
  match src with
  | b0 :: b1 :: b2 :: b3 :: rest =>
      Some (Z.lor (Z.lor (Z.lor (byte.unsigned b0) (int32 (Z.shiftl (byte.unsigned b1) 8)))
              (int32 (Z.shiftl (byte.unsigned b2) 16)))
              (int32 (Z.shiftl (byte.unsigned b3) 24)), rest)
  | _ => None
  end.

(** [bytes.IndexByte] *)
Fixpoint IndexByte (src : list byte) (c : byte) : option nat :=
  match src with
  | [] => None
  | b :: src' => if decide (b = c) then Some 0 else S <$> IndexByte src' c
  end.

Definition readCString (src : list byte) : option (string * list byte) :=
  match IndexByte src Byte.x00 with
  | None => None
  | Some idx => Some (bytes_string (take idx src), drop (S idx) src)
  end.

(** ** The driver packages *)

Definition Document := list byte.

(** [wiremessage]: a [Read] function that reports [!ok] returns [None]. *)
Class Wiremessage := {
  OpReply : Z; OpUpdate : Z; OpInsert : Z; OpQuery : Z;
  OpGetMore : Z; OpDelete : Z; OpKillCursors : Z; OpMsg : Z;
  ChecksumPresent : Z; MoreToCome : Z;
  SingleDocument : Z; DocumentSequence : Z;
  ReadHeader : list byte -> option (Z * Z * Z * Z * list byte);
  AppendHeaderStart : list byte -> Z -> Z -> Z -> Z * list byte;
  ReadQueryFlags : list byte -> option (Z * list byte);
  AppendQueryFlags : list byte -> Z -> list byte;
  QueryFlag_String : Z -> string;
  OpCode_String : Z -> string;
  ReadQueryFullCollectionName : list byte -> option (string * list byte);
  AppendQueryFullCollectionName : list byte -> string -> list byte;
  ReadQueryNumberToSkip : list byte -> option (Z * list byte);
  AppendQueryNumberToSkip : list byte -> Z -> list byte;
  ReadQueryNumberToReturn : list byte -> option (Z * list byte);
  AppendQueryNumberToReturn : list byte -> Z -> list byte;
  ReadQueryQuery : list byte -> option (Document * list byte);
  ReadQueryReturnFieldsSelector : list byte -> option (Document * list byte);
  ReadMsgFlags : list byte -> option (Z * list byte);
  AppendMsgFlags : list byte -> Z -> list byte;
  ReadMsgChecksum : list byte -> option (Z * list byte);
  ReadMsgSectionType : list byte -> option (Z * list byte);
  AppendMsgSectionType : list byte -> Z -> list byte;
  ReadMsgSectionSingleDocument : list byte -> option (Document * list byte);
  ReadMsgSectionDocumentSequence : list byte -> option (string * list Document * list byte);
  ReadReplyFlags : list byte -> option (Z * list byte);
  AppendReplyFlags : list byte -> Z -> list byte;
  ReadReplyCursorID : list byte -> option (Z * list byte);
  AppendReplyCursorID : list byte -> Z -> list byte;
  ReadReplyStartingFrom : list byte -> option (Z * list byte);
  AppendReplyStartingFrom : list byte -> Z -> list byte;
  ReadReplyNumberReturned : list byte -> option (Z * list byte);
  AppendReplyNumberReturned : list byte -> Z -> list byte;
  ReadReplyDocuments : list byte -> option (list Document * list byte);
  ReadKillCursorsZero : list byte -> option (Z * list byte);
  AppendKillCursorsZero : list byte -> list byte;
  ReadKillCursorsNumberIDs : list byte -> option (Z * list byte);
  AppendKillCursorsNumberIDs : list byte -> Z -> list byte;
  ReadKillCursorsCursorIDs : list byte -> Z -> option (list Z * list byte);
  AppendKillCursorsCursorIDs : list byte -> list Z -> list byte;
  AppendGetMoreZero : list byte -> list byte;
  AppendGetMoreFullCollectionName : list byte -> string -> list byte;
  AppendGetMoreNumberToReturn : list byte -> Z -> list byte;
  AppendGetMoreCursorID : list byte -> Z -> list byte
}.

(** [bsoncore]: documents, and the typed accessors of their values.  An
    accessor returns the pair of Go's [(value, ok)]. *)
Class Bsoncore := {
  ReadDocument : list byte -> option (Document * list byte);
  UpdateLength : list byte -> Z -> Z -> list byte;
  Document_String : Document -> string;
  Value : Type;
  Lookup : Document -> list string -> Value;
  Value_Data_not_nil : Value -> bool;
  StringValueOK : Value -> string * bool;
  Int32OK : Value -> Z * bool;
  Int64OK : Value -> Z * bool;
  BooleanOK : Value -> bool * bool;
  BinaryOK : Value -> Z * list byte * bool
}.

(** [driver.ExtractErrorFromServerResponse] and its error type. *)
Class DriverErrors := {
  DriverError : Type;
  ExtractErrorFromServerResponse : Document -> option DriverError
}.

(** ** What the codec relies on *)

(** The empty-buffer append of a field, which every append extends. *)
Definition codec {A} (P : A -> Prop) (read : list byte -> option (A * list byte))
    (append : list byte -> A -> list byte) : Prop :=
  (forall dst v, append dst v = dst ++ append [] v) /\
  (forall v rest, P v -> read (append [] v ++ rest) = Some (v, rest)).

(** A C string has no NUL byte. *)
Definition cstring (s : string) : Prop := no_byte "000"%char s = true.

(** A complete document: the reader takes it whole off the front of any bytes. *)
Definition complete_doc `{Bsoncore} (d : Document) : Prop :=
  forall rest, ReadDocument (d ++ rest) = Some (d, rest).

Definition cursor_ids_ok (ids : list Z) : Prop :=
  Forall is_int64 ids /\ is_int32 (Z.of_nat (length ids)).

(** The body of a document-sequence section after its type byte. *)
Definition sequence_bytes (length : Z) (identifier : string) (msgs : list Document) : list byte :=
  appendCString (appendi32 [] length) identifier ++ concat msgs.

Class WireLaws `{WM : Wiremessage, BS : Bsoncore} : Prop := {
  opcodes_distinct : NoDup [OpReply; OpUpdate; OpInsert; OpQuery; OpGetMore; OpDelete; OpKillCursors; OpMsg];
  opcodes_int32 : Forall is_int32 [OpReply; OpUpdate; OpInsert; OpQuery; OpGetMore; OpDelete; OpKillCursors; OpMsg];
  section_types_distinct : SingleDocument <> DocumentSequence;
  header_index a b op : fst (AppendHeaderStart [] a b op) = 0%Z;
  header_length a b op : length (snd (AppendHeaderStart [] a b op)) = 16;
  header_roundtrip a b op n body :
    is_int32 a -> is_int32 b -> is_int32 op -> is_int32 n ->
    ReadHeader (UpdateLength (snd (AppendHeaderStart [] a b op) ++ body) 0 n) = Some (n, a, b, op, body);
  length_UpdateLength buf i n : length (UpdateLength buf i n) = length buf;
  query_flags : codec is_int32 ReadQueryFlags AppendQueryFlags;
  query_name : codec cstring ReadQueryFullCollectionName AppendQueryFullCollectionName;
  query_skip : codec is_int32 ReadQueryNumberToSkip AppendQueryNumberToSkip;
  query_return : codec is_int32 ReadQueryNumberToReturn AppendQueryNumberToReturn;
  query_query d rest : complete_doc d -> ReadQueryQuery (d ++ rest) = Some (d, rest);
  query_fields d rest : complete_doc d -> ReadQueryReturnFieldsSelector (d ++ rest) = Some (d, rest);
  msg_flags : codec is_uint32 ReadMsgFlags AppendMsgFlags;
  msg_checksum z rest : is_uint32 z -> ReadMsgChecksum (appendi32 [] (int32 z) ++ rest) = Some (z, rest);
  msg_checksum_shorter wm z rest : ReadMsgChecksum wm = Some (z, rest) -> length rest < length wm;
  msg_section_type_append dst t : AppendMsgSectionType dst t = dst ++ AppendMsgSectionType [] t;
  msg_section_type t rest :
    t = SingleDocument \/ t = DocumentSequence ->
    ReadMsgSectionType (AppendMsgSectionType [] t ++ rest) = Some (t, rest);
  msg_section_type_shorter wm t rest : ReadMsgSectionType wm = Some (t, rest) -> length rest < length wm;
  msg_single d rest : complete_doc d -> ReadMsgSectionSingleDocument (d ++ rest) = Some (d, rest);
  msg_single_shorter wm d rest : ReadMsgSectionSingleDocument wm = Some (d, rest) -> length rest <= length wm;
  msg_sequence n ident msgs rest :
    cstring ident -> Forall complete_doc msgs ->
    n = Z.of_nat (length (sequence_bytes n ident msgs)) -> is_int32 n ->
    ReadMsgSectionDocumentSequence (sequence_bytes n ident msgs ++ rest) = Some (ident, msgs, rest);
  msg_sequence_shorter wm i ds rest :
    ReadMsgSectionDocumentSequence wm = Some (i, ds, rest) -> length rest <= length wm;
  reply_flags : codec is_int32 ReadReplyFlags AppendReplyFlags;
  reply_cursor : codec is_int64 ReadReplyCursorID AppendReplyCursorID;
  reply_from : codec is_int32 ReadReplyStartingFrom AppendReplyStartingFrom;
  reply_number : codec is_int32 ReadReplyNumberReturned AppendReplyNumberReturned;
  reply_documents ds : Forall complete_doc ds -> ReadReplyDocuments (concat ds) = Some (ds, []);
  kill_zero_append dst : AppendKillCursorsZero dst = dst ++ AppendKillCursorsZero [];
  kill_zero rest : exists z, ReadKillCursorsZero (AppendKillCursorsZero [] ++ rest) = Some (z, rest);
  kill_number : codec is_int32 ReadKillCursorsNumberIDs AppendKillCursorsNumberIDs;
  kill_ids_append dst ids : AppendKillCursorsCursorIDs dst ids = dst ++ AppendKillCursorsCursorIDs [] ids;
  kill_ids ids rest :
    cursor_ids_ok ids ->
    ReadKillCursorsCursorIDs (AppendKillCursorsCursorIDs [] ids ++ rest) (Z.of_nat (length ids)) = Some (ids, rest);
  getmore_zero_append dst : AppendGetMoreZero dst = dst ++ AppendGetMoreZero [];
  getmore_zero rest : exists z, ReadKillCursorsZero (AppendGetMoreZero [] ++ rest) = Some (z, rest);
  getmore_name : codec cstring ReadQueryFullCollectionName AppendGetMoreFullCollectionName;
  getmore_return : codec is_int32 ReadQueryNumberToReturn AppendGetMoreNumberToReturn;
  getmore_cursor : codec is_int64 ReadReplyCursorID AppendGetMoreCursorID
}.

(** A missing key: no data, and every accessor answers with a zero value and [false]. *)
Class BsonLaws `{BS : Bsoncore} : Prop := {
  int32_not_ok v : snd (Int32OK v) = false -> fst (Int32OK v) = 0%Z;
  int64_not_ok v : snd (Int64OK v) = false -> fst (Int64OK v) = 0%Z;
  string_has_data v : snd (StringValueOK v) = true -> Value_Data_not_nil v = true
}.

(** ** Lemmas on the helpers *)

Lemma bytes_string_bytes s : bytes_string (string_bytes s) = s.
Proof. apply String.string_of_list_byte_of_string. Qed.

Lemma string_bytes_string bs : string_bytes (bytes_string bs) = bs.
Proof. apply String.list_byte_of_string_of_list_byte. Qed.

Lemma length_string_bytes s : length (string_bytes s) = String.length s.
Proof. induction s as [|a s IH]; [done|]. cbn. f_equal. exact IH. Qed.

Lemma appendi32_app dst i : appendi32 dst i = dst ++ appendi32 [] i.
Proof. done. Qed.

Lemma length_appendi32 dst i : length (appendi32 dst i) = length dst + 4.
Proof. unfold appendi32. rewrite length_app. done. Qed.

Lemma appendCString_app dst s : appendCString dst s = dst ++ appendCString [] s.
Proof. unfold appendCString. by rewrite <- app_assoc. Qed.

(** Disjoint bits add up. *)
Lemma lor_shiftl a b n : (0 <= n)%Z -> (0 <= a < 2 ^ n)%Z -> Z.lor a (Z.shiftl b n) = (a + b * 2 ^ n)%Z.
Proof.
  intros Hn Ha. rewrite <- Z.shiftl_mul_pow2 by done.
  rewrite <- Z.lxor_lor, <- Z.add_nocarry_lxor; try done.
  all: apply Z.bits_inj'; intros i Hi; rewrite Z.land_spec, Z.bits_0, Z.shiftl_spec by done.
  all: destruct (Z.lt_ge_cases i n);
    [rewrite (Z.testbit_neg_r b) by lia; apply andb_false_r|].
  all: assert (Z.testbit a i = false) as ->; [|done].
  all: destruct (decide (a = 0%Z)) as [->|]; [apply Z.bits_0|]; apply Z.bits_above_log2; [lia|];
    assert (Z.log2 a < n)%Z by (apply Z.log2_lt_pow2; lia); lia.
Qed.

Lemma int32_shiftl24 u : (0 <= u < 256)%Z -> int32 (Z.shiftl u 24) = Z.shiftl (swrap 8 u) 24.
Proof.
  intros Hu. rewrite !Z.shiftl_mul_pow2 by lia. unfold int32, swrap.
  change (2 ^ 24)%Z with 16777216%Z. change (2 ^ (32 - 1))%Z with 2147483648%Z.
  change (2 ^ 32)%Z with 4294967296%Z. change (2 ^ (8 - 1))%Z with 128%Z. change (2 ^ 8)%Z with 256%Z.
  Z.to_euclidean_division_equations. lia.
Qed.

Lemma readi32_appendi32 i rest : is_int32 i -> readi32 (appendi32 [] i ++ rest) = Some (i, rest).
Proof.
  intros Hi. unfold appendi32. cbn [app readi32]. do 2 f_equal.
  rewrite !byte.unsigned_of_Z. unfold byte.wrap. rewrite !Z.shiftr_div_pow2 by lia.
  rewrite int32_shiftl24 by (apply Z.mod_pos_bound; lia).
  rewrite !(int32_id (Z.shiftl _ _)).
  2, 3: rewrite Z.shiftl_mul_pow2 by lia; unfold is_int32; Z.to_euclidean_division_equations; lia.
  unfold is_int32 in Hi. rewrite (lor_shiftl _ _ 8) by (try lia; apply Z.mod_pos_bound; lia).
  rewrite (lor_shiftl _ _ 16) by (Z.to_euclidean_division_equations; lia).
  rewrite (lor_shiftl _ _ 24) by (Z.to_euclidean_division_equations; lia).
  unfold swrap. Z.to_euclidean_division_equations. lia.
Qed.

Lemma string_bytes_cons a s : string_bytes (String a s) = byte_of_ascii a :: string_bytes s.
Proof. done. Qed.

Lemma byte_of_ascii_zero a : byte_of_ascii a = Byte.x00 -> a = "000"%char.
Proof. intros H. rewrite <- (ascii_of_byte_of_ascii a), H. done. Qed.

Lemma IndexByte_cstring s rest :
  cstring s -> IndexByte (string_bytes s ++ Byte.x00 :: rest) Byte.x00 = Some (length (string_bytes s)).
Proof.
  unfold cstring. induction s as [|a s IH]; [done|].
  rewrite no_byte_cons, andb_true_iff, bool_decide_eq_true. intros [Ha Hs].
  rewrite string_bytes_cons. cbn [app IndexByte length].
  rewrite decide_False by (intros E; by apply Ha, byte_of_ascii_zero). by rewrite IH.
Qed.

Lemma readCString_appendCString s rest :
  cstring s -> readCString (appendCString [] s ++ rest) = Some (s, rest).
Proof.
  intros Hs. unfold appendCString. cbn [app]. rewrite <- app_assoc. cbn [app].
  unfold readCString. rewrite IndexByte_cstring by done.
  rewrite take_app_length, bytes_string_bytes. do 2 f_equal.
  rewrite drop_app_ge by lia. by replace (S _ - _) with 1 by lia.
Qed.

(** What is left after a C string is a proper suffix. *)
Lemma readCString_shorter src s rest : readCString src = Some (s, rest) -> length rest < length src.
Proof.
  unfold readCString. destruct (IndexByte src Byte.x00) as [i|] eqn:E; [|done].
  intros [= <- <-]. rewrite length_drop. destruct src; [done|]. cbn. lia.
Qed.
