(* ===== verification/Command.v ===== *)
(** * Commands ([src/mongo/command.go])

    Which command a BSON document is, which collection it names, and whether
    it is an [isMaster]-style handshake. *)

From S2P Require Import Prelude GoStrings Wire.
From Stdlib Require Import ZArith Lia.

(** [type Command string] *)
Notation Command := string (only parsing).

Definition Unknown : Command := "unknown".
Definition AbortTransaction : Command := "abortTransaction".
Definition Aggregate : Command := "aggregate".
Definition CommitTransaction : Command := "commitTransaction".
Definition Count : Command := "count".
Definition CreateIndexes : Command := "createIndexes".
Definition Delete : Command := "delete".
Definition Distinct : Command := "distinct".
Definition Drop : Command := "drop".
Definition DropDatabase : Command := "dropDatabase".
Definition DropIndexes : Command := "dropIndexes".
Definition EndSessions : Command := "endSessions".
Definition Find : Command := "find".
Definition FindAndModify : Command := "findAndModify".
Definition GetMore : Command := "getMore".
Definition Insert : Command := "insert".
Definition IsMaster : Command := "isMaster".
Definition Ismaster : Command := "ismaster".
Definition ListCollections : Command := "listCollections".
Definition ListIndexes : Command := "listIndexes".
Definition ListDatabases : Command := "listDatabases".
Definition MapReduce : Command := "mapReduce".
Definition Update : Command := "update".
Definition BuildInfo : Command := "buildInfo".
Definition AtlasVersion : Command := "atlasVersion".
Definition GetParameter : Command := "getParameter".

Definition collectionCommands : list Command :=
  [Aggregate; Count; CreateIndexes; Delete; Distinct; Drop; DropIndexes; Find; FindAndModify;
   Insert; ListIndexes; MapReduce; Update].
Definition int32Commands : list Command :=
  [AbortTransaction; Aggregate; CommitTransaction; DropDatabase; IsMaster; Ismaster;
   ListCollections; ListDatabases; BuildInfo; AtlasVersion; GetParameter].
Definition int64Commands : list Command := [GetMore].
Definition arrayCommands : list Command := [EndSessions].

Definition IsWrite (command : Command) : bool :=
  bool_decide (command ∈ [CommitTransaction; CreateIndexes; Delete; Drop; DropIndexes;
                          DropDatabase; FindAndModify; Insert; Update]).

Section Commands.
Context `{BS : Bsoncore}.

(** The first loop: a command whose value is a collection name. *)
Fixpoint first_collection_command (l : list Command) (msg : Document) : option (Command * string) :=
  match l with
  | [] => None
  | s :: l' =>
      match StringValueOK (Lookup msg [s]) with
      | (coll, true) => Some (s, coll)
      | (_, false) => first_collection_command l' msg
      end
  end.

(** The other loops: the first command of the list that is a key of the document. *)
Fixpoint first_present (l : list Command) (msg : Document) : option Command :=
  match l with
  | [] => None
  | s :: l' => if Value_Data_not_nil (Lookup msg [s]) then Some s else first_present l' msg
  end.

Definition CommandAndCollection (msg : Document) : Command * string :=
  match first_collection_command collectionCommands msg with
  | Some r => r
  | None =>
  match first_present int32Commands msg with
  | Some s => (s, "")
  | None =>
  match first_present int64Commands msg with
  | Some s =>
      match StringValueOK (Lookup msg ["collection"]) with
      | (coll, true) => (s, coll)
      | (_, false) => (s, "")
      end
  | None =>
  match first_present arrayCommands msg with
  | Some s => (s, "")
  | None => (Unknown, "")
  end end end end.

Definition IsIsMasterValueTruthy (val : Value) : bool :=
  let '(intValue, isInt) := Int32OK val in
  if (0 <? intValue)%Z then true
  else if negb isInt then
    let '(boolValue, isBool) := BooleanOK val in boolValue && isBool
  else false.

Definition IsIsMasterDoc (doc : Document) : bool :=
  let isMaster := Lookup doc [IsMaster] in
  let ismaster := Lookup doc [Ismaster] in
  let buildInfo := Lookup doc [BuildInfo] in
  IsIsMasterValueTruthy isMaster || IsIsMasterValueTruthy ismaster || IsIsMasterValueTruthy buildInfo.

(** ** Properties *)

Definition known_commands : list Command :=
  collectionCommands ++ int32Commands ++ int64Commands ++ arrayCommands.

Lemma first_collection_command_Some l msg s coll :
  first_collection_command l msg = Some (s, coll) ->
  exists l1 l2, l = l1 ++ s :: l2 /\ StringValueOK (Lookup msg [s]) = (coll, true) /\
    Forall (fun s' => snd (StringValueOK (Lookup msg [s'])) = false) l1.
Proof.
  induction l as [|x l IH]; [done|]. cbn.
  destruct (StringValueOK (Lookup msg [x])) as [c []] eqn:E; intros H; simplify_eq.
  - exists [], l. split_and!; [done|done|constructor].
  - destruct (IH H) as (l1 & l2 & -> & Hs & Hf). exists (x :: l1), l2.
    split_and!; [done|done|]. constructor; [cbn; by rewrite E|done].
Qed.

Lemma first_collection_command_None l msg :
  first_collection_command l msg = None <->
  Forall (fun s => snd (StringValueOK (Lookup msg [s])) = false) l.
Proof.
  induction l as [|x l IH]; [by split; constructor|]. cbn.
  destruct (StringValueOK (Lookup msg [x])) as [c []] eqn:E; rewrite ?Forall_cons; cbn; rewrite ?E; cbn.
  - split; [done|by intros []].
  - rewrite IH. tauto.
Qed.

Lemma first_present_Some l msg s :
  first_present l msg = Some s -> s ∈ l /\ Value_Data_not_nil (Lookup msg [s]) = true.
Proof.
  induction l as [|x l IH]; [done|]. cbn. destruct (Value_Data_not_nil (Lookup msg [x])) eqn:E.
  - intros H. simplify_eq. split; [set_solver|done].
  - intros H. destruct (IH H) as [? ?]. split; [set_solver|done].
Qed.

Lemma first_present_None l msg :
  first_present l msg = None <-> Forall (fun s => Value_Data_not_nil (Lookup msg [s]) = false) l.
Proof.
  induction l as [|x l IH]; [by split; constructor|]. cbn. rewrite Forall_cons.
  destruct (Value_Data_not_nil (Lookup msg [x])).
  - split; [done|by intros []].
  - rewrite IH. tauto.
Qed.

Lemma known_not_unknown : Unknown ∉ known_commands.
Proof. by apply (bool_decide_unpack _). Qed.

(** A recognised command, in a document that contradicts [P]. *)
Lemma known_hit (msg : Document) s (P : Prop) :
  s ∈ known_commands -> Value_Data_not_nil (Lookup msg [s]) = true -> ~ P ->
  (s <> Unknown -> s ∈ known_commands /\ Value_Data_not_nil (Lookup msg [s]) = true) /\
  (s = Unknown <-> P).
Proof.
  intros Hs Hd HP. split; [done|]. split; [|done]. intros ->. by apply known_not_unknown in Hs.
Qed.

Lemma present_known l msg s :
  l ⊆ known_commands -> first_present l msg = Some s ->
  s ∈ known_commands /\ Value_Data_not_nil (Lookup msg [s]) = true /\
  ~ Forall (fun s => Value_Data_not_nil (Lookup msg [s]) = false) l.
Proof.
  intros Hl E. apply first_present_Some in E as Hs. destruct Hs as [Hin Hd].
  split_and!; [set_solver|done|]. intros Hf%first_present_None. congruence.
Qed.

Lemma command_lists_known :
  collectionCommands ⊆ known_commands /\ int32Commands ⊆ known_commands /\
  int64Commands ⊆ known_commands /\ arrayCommands ⊆ known_commands.
Proof. unfold known_commands. set_solver. Qed.

(** C32.
    Recognition of commands is sound and complete: a known command is
    reported only for a document that has it as a key, and [Unknown] only for
    a document with none of the known commands as a key (a collection command
    counting only with a string value). *)
Theorem CommandAndCollection_sound_complete `{BL : !BsonLaws} (msg : Document) :
  let '(command, collection) := CommandAndCollection msg in
  (command <> Unknown -> command ∈ known_commands /\ Value_Data_not_nil (Lookup msg [command]) = true) /\
  (command = Unknown <->
    Forall (fun s => snd (StringValueOK (Lookup msg [s])) = false) collectionCommands /\
    Forall (fun s => Value_Data_not_nil (Lookup msg [s]) = false)
      (int32Commands ++ int64Commands ++ arrayCommands)).
Proof.
  unfold CommandAndCollection. destruct command_lists_known as (K1 & K2 & K3 & K4).
  destruct (first_collection_command collectionCommands msg) as [[s coll]|] eqn:E1.
  { apply first_collection_command_Some in E1 as Hs. destruct Hs as (l1 & l2 & El & Hs & _).
    apply known_hit; [apply K1; rewrite El; set_solver|apply string_has_data; by rewrite Hs|].
    intros [Hf%first_collection_command_None _]. congruence. }
  apply first_collection_command_None in E1.
  destruct (first_present int32Commands msg) as [s|] eqn:E2.
  { apply present_known in E2 as (? & ? & ?); [|done].
    apply known_hit; [done|done|]. rewrite !Forall_app. tauto. }
  apply first_present_None in E2.
  destruct (first_present int64Commands msg) as [s|] eqn:E3.
  { apply present_known in E3 as (? & ? & ?); [|done].
    destruct (StringValueOK _) as [coll []]; (apply known_hit; [done|done|];
      rewrite !Forall_app; tauto). }
  apply first_present_None in E3.
  destruct (first_present arrayCommands msg) as [s|] eqn:E4.
  { apply present_known in E4 as (? & ? & ?); [|done].
    apply known_hit; [done|done|]. rewrite !Forall_app. tauto. }
  apply first_present_None in E4. split; [done|]. rewrite !Forall_app. tauto.
Qed.

End Commands.
