(* ===== verification/Operations.v ===== *)
(** * Wire operations ([src/mongo/operations.go])

    The eight operation kinds and the unknown operation, their decoders and
    encoders, and the methods of the [Operation] interface.  Go's [Operation]
    interface is the sum type [Operation]; a method of the interface is a
    function by cases on it. *)

From S2P Require Import Prelude GoStrings Parsing Wire Command.
From Stdlib Require Import ZArith Lia.

Record TransactionDetails := {
  td_LsID : list byte;
  td_TxnNumber : Z;
  td_IsStartTransaction : bool;
  td_Autocommit : bool
}.

Record opUnknown := {
  unk_opCode : Z;
  unk_reqID : Z;
  unk_wm : list byte
}.

Record opQuery := {
  q_reqID : Z;
  q_flags : Z;
  q_fullCollectionName : string;
  q_numberToSkip : Z;
  q_numberToReturn : Z;
  q_query : Document;
  q_returnFieldsSelector : Document
}.

(** [opMsgSection]: a single document or a named sequence of documents. *)
Inductive opMsgSection :=
| opMsgSectionSingle (msg : Document)
| opMsgSectionSequence (identifier : string) (msgs : list Document).

Record opMsg := {
  m_reqID : Z;
  m_flags : Z;
  m_sections : list opMsgSection;
  m_checksum : Z
}.

Record opReply := {
  r_reqID : Z;
  r_flags : Z;
  r_cursorID : Z;
  r_startingFrom : Z;
  r_numReturned : Z;
  r_documents : list Document
}.

Record opGetMore := {
  g_reqID : Z;
  g_fullCollectionName : string;
  g_numberToReturn : Z;
  g_cursorID : Z
}.

Record opUpdate := {
  u_reqID : Z;
  u_fullCollectionName : string;
  u_flags : Z;
  u_selector : Document;
  u_update : Document
}.

Record opInsert := {
  i_reqID : Z;
  i_flags : Z;
  i_fullCollectionName : string;
  i_documents : list Document
}.

Record opDelete := {
  d_reqID : Z;
  d_fullCollectionName : string;
  d_flags : Z;
  d_selector : Document
}.

Record opKillCursors := {
  k_reqID : Z;
  k_cursorIDs : list Z
}.

Inductive Operation :=
| Op_unknown (o : opUnknown)
| Op_query (q : opQuery)
| Op_msg (m : opMsg)
| Op_reply (r : opReply)
| Op_getMore (g : opGetMore)
| Op_update (u : opUpdate)
| Op_insert (i : opInsert)
| Op_delete (d : opDelete)
| Op_killCursors (k : opKillCursors).

Section Operations.
Context `{UC : UnicodeCase, WM : Wiremessage, BS : Bsoncore, DE : DriverErrors}.

(** ** Decoding *)

Definition decodeQuery (reqID : Z) (wm : list byte) : outcome opQuery :=
  let? (flags, wm) := or_err (ReadQueryFlags wm) "malformed query message: missing OP_QUERY flags" in
  let? (name, wm) := or_err (ReadQueryFullCollectionName wm) "malformed query message: full collection name" in
  let? (skip, wm) := or_err (ReadQueryNumberToSkip wm) "malformed query message: number to skip" in
  let? (ret, wm) := or_err (ReadQueryNumberToReturn wm) "malformed query message: number to return" in
  let? (query, wm) := or_err (ReadQueryQuery wm) "malformed query message: query document" in
  let? selector :=
    match wm with
    | [] => Ret []
    | _ :: _ =>
        let? (sel, _) := or_err (ReadQueryReturnFieldsSelector wm)
                           "malformed query message: return fields selector" in
        Ret sel
    end in
  Ret {| q_reqID := reqID; q_flags := flags; q_fullCollectionName := name; q_numberToSkip := skip;
         q_numberToReturn := ret; q_query := query; q_returnFieldsSelector := selector |}.

Definition has_flag (flags flag : Z) : bool := (Z.land flags flag =? flag)%Z.

Definition add_section (m : opMsg) (s : opMsgSection) : opMsg :=
  {| m_reqID := m_reqID m; m_flags := m_flags m; m_sections := m_sections m ++ [s];
     m_checksum := m_checksum m |}.

Definition set_checksum (m : opMsg) (c : Z) : opMsg :=
  {| m_reqID := m_reqID m; m_flags := m_flags m; m_sections := m_sections m; m_checksum := c |}.

(** One section: its type, then its body. *)
Definition decodeSection (wm : list byte) : outcome (opMsgSection * list byte) :=
  let? (stype, wm) := or_err (ReadMsgSectionType wm)
                        "malformed wire message: insufficient bytes to read section type" in
  if (stype =? SingleDocument)%Z then
    let? (msg, wm) := or_err (ReadMsgSectionSingleDocument wm)
                        "malformed wire message: insufficient bytes to read single document" in
    Ret (opMsgSectionSingle msg, wm)
  else if (stype =? DocumentSequence)%Z then
    let? (identifier, msgs, wm) := or_err (ReadMsgSectionDocumentSequence wm)
                        "malformed wire message: insufficient bytes to read document sequence" in
    Ret (opMsgSectionSequence identifier msgs, wm)
  else Err ("malformed wire message: unknown section type " +:+ fmt_d stype).

(** [for len(wm) > 0 { ... }] *)
Fixpoint decodeMsg_loop (fuel : nat) (checksumPresent : bool) (m : opMsg) (wm : list byte) : outcome opMsg :=
  match wm with
  | [] => Ret m
  | _ :: _ =>
      match fuel with
      | O => NoFuel
      | S fuel' =>
          if checksumPresent && (length wm =? 4)%nat then
            let? (checksum, wm) := or_err (ReadMsgChecksum wm)
                  "malformed wire message: insufficient bytes to read checksum" in
            decodeMsg_loop fuel' checksumPresent (set_checksum m checksum) wm
          else
            let? (s, wm) := decodeSection wm in
            decodeMsg_loop fuel' checksumPresent (add_section m s) wm
      end
  end.

Definition decodeMsg (reqID : Z) (wm : list byte) : outcome opMsg :=
  let? (flags, wm) := or_err (ReadMsgFlags wm) "malformed wire message: missing OP_MSG flags" in
  let m := {| m_reqID := reqID; m_flags := flags; m_sections := []; m_checksum := 0 |} in
  decodeMsg_loop (length wm) (has_flag flags ChecksumPresent) m wm.

Definition decodeReply (reqID : Z) (wm : list byte) : outcome opReply :=
  let? (flags, wm) := or_err (ReadReplyFlags wm) "malformed reply message: missing OP_REPLY flags" in
  let? (cursorID, wm) := or_err (ReadReplyCursorID wm) "malformed reply message: cursor id" in
  let? (from, wm) := or_err (ReadReplyStartingFrom wm) "malformed reply message: starting from" in
  let? (num, wm) := or_err (ReadReplyNumberReturned wm) "malformed reply message: number returned" in
  let? (docs, _) := or_err (ReadReplyDocuments wm)
                      "malformed reply message: could not read documents from reply" in
  Ret {| r_reqID := reqID; r_flags := flags; r_cursorID := cursorID; r_startingFrom := from;
         r_numReturned := num; r_documents := docs |}.

Definition decodeGetMore (reqID : Z) (wm : list byte) : outcome opGetMore :=
  let? (_, wm) := or_err (ReadKillCursorsZero wm) "malformed get_more message: missing zero" in
  let? (name, wm) := or_err (ReadQueryFullCollectionName wm)
                       "malformed get_more message: missing full collection name" in
  let? (ret, wm) := or_err (ReadQueryNumberToReturn wm)
                      "malformed get_more message: missing number to return" in
  let? (cursorID, _) := or_err (ReadReplyCursorID wm) "malformed get_more message: missing cursorID" in
  Ret {| g_reqID := reqID; g_fullCollectionName := name; g_numberToReturn := ret; g_cursorID := cursorID |}.

Definition decodeUpdate (reqID : Z) (wm : list byte) : outcome opUpdate :=
  let? (name, wm) := or_err (readCString wm) "malformed update message: full collection name" in
  let? (flags, wm) := or_err (readi32 wm) "malformed update message: missing OP_UPDATE flags" in
  let? (selector, wm) := or_err (ReadDocument wm) "malformed update message: selector document" in
  let? (update, _) := or_err (ReadDocument wm) "malformed update message: update document" in
  Ret {| u_reqID := reqID; u_fullCollectionName := name; u_flags := flags; u_selector := selector;
         u_update := update |}.

Definition decodeInsert (reqID : Z) (wm : list byte) : outcome opInsert :=
  let? (flags, wm) := or_err (readi32 wm) "malformed insert message: missing OP_INSERT flags" in
  let? (name, wm) := or_err (readCString wm) "malformed insert message: full collection name" in
  let? (docs, _) := or_err (ReadReplyDocuments wm) "malformed insert message: could not read documents" in
  Ret {| i_reqID := reqID; i_flags := flags; i_fullCollectionName := name; i_documents := docs |}.

Definition decodeDelete (reqID : Z) (wm : list byte) : outcome opDelete :=
  let? (_, wm) := or_err (readi32 wm) "malformed delete message: missing zero" in
  let? (name, wm) := or_err (readCString wm) "malformed delete message: full collection name" in
  let? (flags, wm) := or_err (readi32 wm) "malformed delete message: missing OP_DELETE flags" in
  let? (selector, _) := or_err (ReadDocument wm) "malformed delete message: selector document" in
  Ret {| d_reqID := reqID; d_fullCollectionName := name; d_flags := flags; d_selector := selector |}.

Definition decodeKillCursors (reqID : Z) (wm : list byte) : outcome opKillCursors :=
  let? (_, wm) := or_err (ReadKillCursorsZero wm) "malformed kill_cursors message: missing zero" in
  let? (numIDs, wm) := or_err (ReadKillCursorsNumberIDs wm)
                         "malformed kill_cursors message: missing number of cursor IDs" in
  let? (ids, _) := or_err (ReadKillCursorsCursorIDs wm numIDs)
                     "malformed kill_cursors message: missing cursor IDs" in
  Ret {| k_reqID := reqID; k_cursorIDs := ids |}.

(** [op, err = decodeX(...)] of one case of the switch. *)
Definition as_op {A} (f : A -> Operation) (m : outcome A) : outcome Operation :=
  let? a := m in Ret (f a).

Definition Decode (wm : list byte) : outcome Operation :=
  match ReadHeader wm with
  | None => Err "malformed wire message: insufficient bytes"
  | Some (len, reqID, _, opCode, wmBody) =>
      if (Z.of_nat (length wm) <? len)%Z then Err "malformed wire message: insufficient bytes"
      else if (opCode =? OpQuery)%Z then as_op Op_query (decodeQuery reqID wmBody)
      else if (opCode =? OpMsg)%Z then as_op Op_msg (decodeMsg reqID wmBody)
      else if (opCode =? OpReply)%Z then as_op Op_reply (decodeReply reqID wmBody)
      else if (opCode =? OpGetMore)%Z then as_op Op_getMore (decodeGetMore reqID wmBody)
      else if (opCode =? OpUpdate)%Z then as_op Op_update (decodeUpdate reqID wmBody)
      else if (opCode =? OpInsert)%Z then as_op Op_insert (decodeInsert reqID wmBody)
      else if (opCode =? OpDelete)%Z then as_op Op_delete (decodeDelete reqID wmBody)
      else if (opCode =? OpKillCursors)%Z then as_op Op_killCursors (decodeKillCursors reqID wmBody)
      else Ret (Op_unknown {| unk_opCode := opCode; unk_reqID := reqID; unk_wm := wm |})
  end.

(** ** Encoding *)

(** The last statement of every encoder:
    [buffer = bsoncore.UpdateLength(buffer, idx, int32(len(buffer[idx:])))]. *)
Definition finish_message (idx : Z) (buffer : list byte) : list byte :=
  UpdateLength buffer idx (int32 (Z.of_nat (length (drop (Z.to_nat idx) buffer)))).

Definition append_docs (buffer : list byte) (docs : list Document) : list byte :=
  fold_left (fun buffer doc => buffer ++ doc) docs buffer.

Definition opQuery_Encode (q : opQuery) (responseTo : Z) : list byte :=
  let '(idx, buffer) := AppendHeaderStart [] 0 responseTo OpQuery in
  let buffer := AppendQueryFlags buffer (q_flags q) in
  let buffer := AppendQueryFullCollectionName buffer (q_fullCollectionName q) in
  let buffer := AppendQueryNumberToSkip buffer (q_numberToSkip q) in
  let buffer := AppendQueryNumberToReturn buffer (q_numberToReturn q) in
  let buffer := buffer ++ q_query q in
  let buffer :=
    if negb (length (q_returnFieldsSelector q) =? 0)%nat
    then buffer ++ q_returnFieldsSelector q else buffer in
  finish_message idx buffer.

Definition opMsgSectionSingle_append (msg : Document) (buffer : list byte) : list byte :=
  let buffer := AppendMsgSectionType buffer SingleDocument in
  buffer ++ msg.

Definition opMsgSectionSequence_append (identifier : string) (msgs : list Document) (buffer : list byte)
    : list byte :=
  let buffer := AppendMsgSectionType buffer DocumentSequence in
  let len := fold_left (fun len msg => int32 (len + int32 (Z.of_nat (length msg)))) msgs
               (int32 (Z.of_nat (String.length identifier) + 5)) in
  let buffer := appendi32 buffer len in
  let buffer := appendCString buffer identifier in
  append_docs buffer msgs.

Definition section_append (buffer : list byte) (s : opMsgSection) : list byte :=
  match s with
  | opMsgSectionSingle msg => opMsgSectionSingle_append msg buffer
  | opMsgSectionSequence identifier msgs => opMsgSectionSequence_append identifier msgs buffer
  end.

Definition opMsg_Encode (m : opMsg) (responseTo : Z) : list byte :=
  let '(idx, buffer) := AppendHeaderStart [] 0 responseTo OpMsg in
  let buffer := AppendMsgFlags buffer (m_flags m) in
  let buffer := fold_left section_append (m_sections m) buffer in
  let buffer :=
    if has_flag (m_flags m) ChecksumPresent then appendi32 buffer (int32 (m_checksum m)) else buffer in
  finish_message idx buffer.

Definition opReply_Encode (r : opReply) (responseTo : Z) : list byte :=
  let '(idx, buffer) := AppendHeaderStart [] 0 responseTo OpReply in
  let buffer := AppendReplyFlags buffer (r_flags r) in
  let buffer := AppendReplyCursorID buffer (r_cursorID r) in
  let buffer := AppendReplyStartingFrom buffer (r_startingFrom r) in
  let buffer := AppendReplyNumberReturned buffer (r_numReturned r) in
  let buffer := append_docs buffer (r_documents r) in
  finish_message idx buffer.

Definition opGetMore_Encode (g : opGetMore) (responseTo : Z) : list byte :=
  let '(idx, buffer) := AppendHeaderStart [] 0 responseTo OpGetMore in
  let buffer := AppendGetMoreZero buffer in
  let buffer := AppendGetMoreFullCollectionName buffer (g_fullCollectionName g) in
  let buffer := AppendGetMoreNumberToReturn buffer (g_numberToReturn g) in
  let buffer := AppendGetMoreCursorID buffer (g_cursorID g) in
  finish_message idx buffer.

Definition opUpdate_Encode (u : opUpdate) (responseTo : Z) : list byte :=
  let '(idx, buffer) := AppendHeaderStart [] 0 responseTo OpUpdate in
  let buffer := appendCString buffer (u_fullCollectionName u) in
  let buffer := appendi32 buffer (u_flags u) in
  let buffer := buffer ++ u_selector u in
  let buffer := buffer ++ u_update u in
  finish_message idx buffer.

Definition opInsert_Encode (i : opInsert) (responseTo : Z) : list byte :=
  let '(idx, buffer) := AppendHeaderStart [] 0 responseTo OpInsert in
  let buffer := appendi32 buffer (i_flags i) in
  let buffer := appendCString buffer (i_fullCollectionName i) in
  let buffer := append_docs buffer (i_documents i) in
  finish_message idx buffer.

Definition opDelete_Encode (d : opDelete) (responseTo : Z) : list byte :=
  let '(idx, buffer) := AppendHeaderStart [] 0 responseTo OpDelete in
  let buffer := appendCString buffer (d_fullCollectionName d) in
  let buffer := appendi32 buffer (d_flags d) in
  let buffer := buffer ++ d_selector d in
  finish_message idx buffer.

Definition opKillCursors_Encode (k : opKillCursors) (responseTo : Z) : list byte :=
  let '(idx, buffer) := AppendHeaderStart [] 0 responseTo OpKillCursors in
  let buffer := AppendKillCursorsZero buffer in
  let buffer := AppendKillCursorsNumberIDs buffer (int32 (Z.of_nat (length (k_cursorIDs k)))) in
  let buffer := AppendKillCursorsCursorIDs buffer (k_cursorIDs k) in
  finish_message idx buffer.

(** ** The methods of the sections of an [OP_MSG] *)

(** A section through its interface. *)
Record SectionMethods := {
  sec_cursorID : Z * bool;
  sec_isIsMaster : bool;
  sec_append : list byte -> list byte;
  sec_commandAndCollection : Command * string;
  sec_String : string
}.

Definition opMsgSectionSingle_methods (msg : Document) : SectionMethods := {|
  sec_cursorID :=
    match Int64OK (Lookup msg ["getMore"]) with
    | (getMore, true) => (getMore, true)
    | (_, false) => Int64OK (Lookup msg ["cursor"; "id"])
    end;
  sec_isIsMaster :=
    match StringValueOK (Lookup msg ["$db"]) with
    | (db, true) => if decide (db = "admin") then IsIsMasterDoc msg else false
    | (_, false) => false
    end;
  sec_append := opMsgSectionSingle_append msg;
  sec_commandAndCollection := CommandAndCollection msg;
  sec_String := "{ SectionSingle msg: " +:+ Document_String msg +:+ " }"
|}.

Definition opMsgSectionSequence_methods (identifier : string) (msgs : list Document) : SectionMethods := {|
  sec_cursorID := (0%Z, false);
  sec_isIsMaster := false;
  sec_append := opMsgSectionSequence_append identifier msgs;
  sec_commandAndCollection := (Unknown, "");
  sec_String := "{ SectionSingle identifier: " +:+ identifier +:+ ", msgs: [" +:+
                Join (map Document_String msgs) ", " +:+ "] }"
|}.

Definition section_methods (s : opMsgSection) : SectionMethods :=
  match s with
  | opMsgSectionSingle msg => opMsgSectionSingle_methods msg
  | opMsgSectionSequence identifier msgs => opMsgSectionSequence_methods identifier msgs
  end.

(** ** The methods of the operations *)

Fixpoint sections_IsIsMaster (l : list opMsgSection) : bool :=
  match l with
  | [] => false
  | s :: l' => if sec_isIsMaster (section_methods s) then true else sections_IsIsMaster l'
  end.

Fixpoint sections_CursorID (l : list opMsgSection) : Z * bool :=
  match l with
  | [] => (0%Z, false)
  | s :: l' =>
      match sec_cursorID (section_methods s) with
      | (cursorID, true) => (cursorID, true)
      | (_, false) => sections_CursorID l'
      end
  end.

Definition opMsg_Error (m : opMsg) : option DriverError :=
  match m_sections m with
  | [] => None
  | opMsgSectionSingle msg :: _ => ExtractErrorFromServerResponse msg
  | opMsgSectionSequence _ _ :: _ => None
  end.

Fixpoint sections_CommandAndCollection (l : list opMsgSection) : Command * string :=
  match l with
  | [] => (Unknown, "")
  | s :: l' =>
      let '(command, collection) := sec_commandAndCollection (section_methods s) in
      if decide (command = Unknown) then sections_CommandAndCollection l' else (command, collection)
  end.

Fixpoint sections_TransactionDetails (l : list opMsgSection) : option TransactionDetails :=
  match l with
  | [] => None
  | opMsgSectionSingle msg :: l' =>
      match BinaryOK (Lookup msg ["lsid"; "id"]) with
      | (_, _, false) => sections_TransactionDetails l'
      | (_, lsID, true) =>
      match Int64OK (Lookup msg ["txnNumber"]) with
      | (_, false) => sections_TransactionDetails l'
      | (txnNumber, true) =>
      match BooleanOK (Lookup msg ["autocommit"]) with
      | (_, false) => sections_TransactionDetails l'
      | (autocommit, true) =>
          let '(startTransaction, ok) := BooleanOK (Lookup msg ["startTransaction"]) in
          Some {| td_LsID := lsID; td_TxnNumber := txnNumber;
                  td_IsStartTransaction := ok && startTransaction; td_Autocommit := autocommit |}
      end end end
  | opMsgSectionSequence _ _ :: l' => sections_TransactionDetails l'
  end.

Fixpoint sections_DatabaseName (l : list opMsgSection) : string :=
  match l with
  | [] => ""
  | opMsgSectionSingle msg :: l' =>
      match StringValueOK (Lookup msg ["$db"]) with
      | (db, true) => db
      | (_, false) => sections_DatabaseName l'
      end
  | opMsgSectionSequence _ _ :: l' => sections_DatabaseName l'
  end.

Definition opMsg_String (m : opMsg) : string :=
  "{ OpMsg flags: " +:+ fmt_d (m_flags m) +:+ ", sections: [" +:+
  Join (map (fun s => sec_String (section_methods s)) (m_sections m)) ", " +:+
  "], checksum: " +:+ fmt_d (m_checksum m) +:+ " }".

Definition opReply_Error (r : opReply) : option DriverError :=
  match r_documents r with
  | [] => None
  | doc :: _ => ExtractErrorFromServerResponse doc
  end.

(** [info := util.ParseCollectionName(name); return info.Database] *)
Definition collection_database (fullCollectionName : string) : string :=
  ci_Database (ParseCollectionName fullCollectionName).

(** An operation through its interface. *)
Record OperationMethods := {
  om_String : string;
  om_OpCode : Z;
  om_Encode : Z -> list byte;
  om_IsIsMaster : bool;
  om_CursorID : Z * bool;
  om_RequestID : Z;
  om_Error : option DriverError;
  om_Unacknowledged : bool;
  om_CommandAndCollection : Command * string;
  om_TransactionDetails : option TransactionDetails;
  om_DatabaseName : string
}.

Definition opUnknown_methods (o : opUnknown) : OperationMethods := {|
  om_String := "{ OpUnknown opCode: " +:+ fmt_d (unk_opCode o) +:+ ", wm: " +:+ bytes_string (unk_wm o) +:+ " }";
  om_OpCode := unk_opCode o;
  om_Encode _ := unk_wm o;
  om_IsIsMaster := false;
  om_CursorID := (0%Z, false);
  om_RequestID := unk_reqID o;
  om_Error := None;
  om_Unacknowledged := false;
  om_CommandAndCollection := (Unknown, "");
  om_TransactionDetails := None;
  om_DatabaseName := ""
|}.

Definition opQuery_methods (q : opQuery) : OperationMethods := {|
  om_String :=
    "{ OpQuery flags: " +:+ QueryFlag_String (q_flags q) +:+
    ", fullCollectionName: " +:+ q_fullCollectionName q +:+
    ", numberToSkip: " +:+ fmt_d (q_numberToSkip q) +:+
    ", numberToReturn: " +:+ fmt_d (q_numberToReturn q) +:+
    ", query: " +:+ Document_String (q_query q) +:+
    ", returnFieldsSelector: " +:+ Document_String (q_returnFieldsSelector q) +:+ " }";
  om_OpCode := OpQuery;
  om_Encode := opQuery_Encode q;
  om_IsIsMaster :=
    if decide (q_fullCollectionName q <> "admin.$cmd") then false else IsIsMasterDoc (q_query q);
  om_CursorID := Int64OK (Lookup (q_query q) ["getMore"]);
  om_RequestID := q_reqID q;
  om_Error := None;
  om_Unacknowledged := false;
  om_CommandAndCollection := (Find, q_fullCollectionName q);
  om_TransactionDetails := None;
  om_DatabaseName := collection_database (q_fullCollectionName q)
|}.

Definition opMsg_methods (m : opMsg) : OperationMethods := {|
  om_String := opMsg_String m;
  om_OpCode := OpMsg;
  om_Encode := opMsg_Encode m;
  om_IsIsMaster := sections_IsIsMaster (m_sections m);
  om_CursorID := sections_CursorID (m_sections m);
  om_RequestID := m_reqID m;
  om_Error := opMsg_Error m;
  om_Unacknowledged := has_flag (m_flags m) MoreToCome;
  om_CommandAndCollection := sections_CommandAndCollection (m_sections m);
  om_TransactionDetails := sections_TransactionDetails (m_sections m);
  om_DatabaseName := sections_DatabaseName (m_sections m)
|}.

Definition opReply_methods (r : opReply) : OperationMethods := {|
  om_String :=
    "{ OpReply flags: " +:+ fmt_d (r_flags r) +:+ ", cursorID: " +:+ fmt_d (r_cursorID r) +:+
    ", startingFrom: " +:+ fmt_d (r_startingFrom r) +:+ ", numReturned: " +:+ fmt_d (r_numReturned r) +:+
    ", documents: [" +:+ Join (map Document_String (r_documents r)) ", " +:+ "] }";
  om_OpCode := OpReply;
  om_Encode := opReply_Encode r;
  om_IsIsMaster := false;
  om_CursorID := (r_cursorID r, true);
  om_RequestID := r_reqID r;
  om_Error := opReply_Error r;
  om_Unacknowledged := false;
  om_CommandAndCollection := (Find, "");
  om_TransactionDetails := None;
  om_DatabaseName := ""
|}.

Definition opGetMore_methods (g : opGetMore) : OperationMethods := {|
  om_String :=
    "{ OpGetMore fullCollectionName: " +:+ g_fullCollectionName g +:+
    ", numberToReturn: " +:+ fmt_d (g_numberToReturn g) +:+ ", cursorID: " +:+ fmt_d (g_cursorID g) +:+ " }";
  om_OpCode := OpGetMore;
  om_Encode := opGetMore_Encode g;
  om_IsIsMaster := false;
  om_CursorID := (g_cursorID g, true);
  om_RequestID := g_reqID g;
  om_Error := None;
  om_Unacknowledged := false;
  om_CommandAndCollection := (GetMore, g_fullCollectionName g);
  om_TransactionDetails := None;
  om_DatabaseName := collection_database (g_fullCollectionName g)
|}.

Definition opUpdate_methods (u : opUpdate) : OperationMethods := {|
  om_String :=
    "{ OpQuery fullCollectionName: " +:+ u_fullCollectionName u +:+ ", flags: " +:+ fmt_d (u_flags u) +:+
    ", selector: " +:+ Document_String (u_selector u) +:+ ", update: " +:+ Document_String (u_update u) +:+ " }";
  om_OpCode := OpUpdate;
  om_Encode := opUpdate_Encode u;
  om_IsIsMaster := false;
  om_CursorID := (0%Z, false);
  om_RequestID := u_reqID u;
  om_Error := None;
  om_Unacknowledged := false;
  om_CommandAndCollection := (Update, u_fullCollectionName u);
  om_TransactionDetails := None;
  om_DatabaseName := collection_database (u_fullCollectionName u)
|}.

Definition opInsert_methods (i : opInsert) : OperationMethods := {|
  om_String :=
    "{ OpInsert flags: " +:+ fmt_d (i_flags i) +:+ ", fullCollectionName: " +:+ i_fullCollectionName i +:+
    ", documents: " +:+ Join (map Document_String (i_documents i)) ", " +:+ " }";
  om_OpCode := OpInsert;
  om_Encode := opInsert_Encode i;
  om_IsIsMaster := false;
  om_CursorID := (0%Z, false);
  om_RequestID := i_reqID i;
  om_Error := None;
  om_Unacknowledged := false;
  om_CommandAndCollection := (Insert, i_fullCollectionName i);
  om_TransactionDetails := None;
  om_DatabaseName := collection_database (i_fullCollectionName i)
|}.

Definition opDelete_methods (d : opDelete) : OperationMethods := {|
  om_String :=
    "{ OpDelete fullCollectionName: " +:+ d_fullCollectionName d +:+ ", flags: " +:+ fmt_d (d_flags d) +:+
    ", selector: " +:+ Document_String (d_selector d) +:+ " }";
  om_OpCode := OpDelete;
  om_Encode := opDelete_Encode d;
  om_IsIsMaster := false;
  om_CursorID := (0%Z, false);
  om_RequestID := d_reqID d;
  om_Error := None;
  om_Unacknowledged := false;
  om_CommandAndCollection := (Delete, d_fullCollectionName d);
  om_TransactionDetails := None;
  om_DatabaseName := collection_database (d_fullCollectionName d)
|}.

Definition opKillCursors_methods (k : opKillCursors) : OperationMethods := {|
  om_String := "{ OpKillCursors cursorIDs: [" +:+ Join (map fmt_d (k_cursorIDs k)) " " +:+ "] }";
  om_OpCode := OpKillCursors;
  om_Encode := opKillCursors_Encode k;
  om_IsIsMaster := false;
  om_CursorID := (0%Z, false);
  om_RequestID := k_reqID k;
  om_Error := None;
  om_Unacknowledged := false;
  om_CommandAndCollection := (Unknown, "");
  om_TransactionDetails := None;
  om_DatabaseName := ""
|}.

(** Dynamic dispatch through the interface. *)
Definition op_methods (op : Operation) : OperationMethods :=
  match op with
  | Op_unknown o => opUnknown_methods o
  | Op_query q => opQuery_methods q
  | Op_msg m => opMsg_methods m
  | Op_reply r => opReply_methods r
  | Op_getMore g => opGetMore_methods g
  | Op_update u => opUpdate_methods u
  | Op_insert i => opInsert_methods i
  | Op_delete d => opDelete_methods d
  | Op_killCursors k => opKillCursors_methods k
  end.

(** ** The encoders, as bytes *)

Definition header (responseTo opCode : Z) : list byte := snd (AppendHeaderStart [] 0 responseTo opCode).

Definition message (responseTo opCode : Z) (body : list byte) : list byte :=
  finish_message 0 (header responseTo opCode ++ body).

Lemma append_docs_concat buffer docs : append_docs buffer docs = buffer ++ concat docs.
Proof.
  unfold append_docs. revert buffer. induction docs as [|d docs IH]; intros buffer; cbn.
  - by rewrite app_nil_r.
  - by rewrite IH, app_assoc.
Qed.

Section with_laws.
Context `{WL : !WireLaws}.

Definition query_body (q : opQuery) : list byte :=
  AppendQueryFlags [] (q_flags q) ++ AppendQueryFullCollectionName [] (q_fullCollectionName q) ++
  AppendQueryNumberToSkip [] (q_numberToSkip q) ++ AppendQueryNumberToReturn [] (q_numberToReturn q) ++
  q_query q ++ q_returnFieldsSelector q.

Definition checksum_bytes (m : opMsg) : list byte :=
  if has_flag (m_flags m) ChecksumPresent then appendi32 [] (int32 (m_checksum m)) else [].

Definition msg_body (m : opMsg) : list byte :=
  AppendMsgFlags [] (m_flags m) ++ concat (map (section_append []) (m_sections m)) ++ checksum_bytes m.

Definition reply_body (r : opReply) : list byte :=
  AppendReplyFlags [] (r_flags r) ++ AppendReplyCursorID [] (r_cursorID r) ++
  AppendReplyStartingFrom [] (r_startingFrom r) ++ AppendReplyNumberReturned [] (r_numReturned r) ++
  concat (r_documents r).

Definition getMore_body (g : opGetMore) : list byte :=
  AppendGetMoreZero [] ++ AppendGetMoreFullCollectionName [] (g_fullCollectionName g) ++
  AppendGetMoreNumberToReturn [] (g_numberToReturn g) ++ AppendGetMoreCursorID [] (g_cursorID g).

Definition update_body (u : opUpdate) : list byte :=
  appendCString [] (u_fullCollectionName u) ++ appendi32 [] (u_flags u) ++ u_selector u ++ u_update u.

Definition insert_body (i : opInsert) : list byte :=
  appendi32 [] (i_flags i) ++ appendCString [] (i_fullCollectionName i) ++ concat (i_documents i).

Definition delete_body (d : opDelete) : list byte :=
  appendCString [] (d_fullCollectionName d) ++ appendi32 [] (d_flags d) ++ d_selector d.

Definition killCursors_body (k : opKillCursors) : list byte :=
  AppendKillCursorsZero [] ++ AppendKillCursorsNumberIDs [] (int32 (Z.of_nat (length (k_cursorIDs k)))) ++
  AppendKillCursorsCursorIDs [] (k_cursorIDs k).

(** What follows the header of an encoded operation. *)
Definition op_body (op : Operation) : list byte :=
  match op with
  | Op_unknown o => []
  | Op_query q => query_body q
  | Op_msg m => msg_body m
  | Op_reply r => reply_body r
  | Op_getMore g => getMore_body g
  | Op_update u => update_body u
  | Op_insert i => insert_body i
  | Op_delete d => delete_body d
  | Op_killCursors k => killCursors_body k
  end.

Definition is_unknown (op : Operation) : bool :=
  match op with Op_unknown _ => true | _ => false end.

Lemma section_append_app buffer s : section_append buffer s = buffer ++ section_append [] s.
Proof.
  destruct s as [msg|ident msgs]; cbn; unfold opMsgSectionSingle_append, opMsgSectionSequence_append; cbn.
  - rewrite msg_section_type_append. by rewrite <- app_assoc.
  - rewrite !append_docs_concat, !(appendCString_app (appendi32 _ _)), !(appendi32_app (AppendMsgSectionType _ _)).
    rewrite (msg_section_type_append buffer). by rewrite <- !app_assoc.
Qed.

Lemma sections_append_app l buffer :
  fold_left section_append l buffer = buffer ++ concat (map (section_append []) l).
Proof.
  revert buffer. induction l as [|s l IH]; intros buffer; cbn; [by rewrite app_nil_r|].
  rewrite IH, section_append_app. by rewrite <- app_assoc.
Qed.

Lemma finish_header r op buffer :
  (let '(idx, b) := AppendHeaderStart [] 0 r op in finish_message idx (buffer b)) =
  finish_message 0 (buffer (header r op)).
Proof.
  unfold header. pose proof (header_index 0 r op) as E.
  destruct (AppendHeaderStart [] 0 r op) as [idx b]. cbn in *. by subst.
Qed.

(** Every encoder but the one of [opUnknown] writes a header with request id 0,
    then the fields of the operation. *)
Lemma Encode_message op r :
  is_unknown op = false -> om_Encode (op_methods op) r = message r (om_OpCode (op_methods op)) (op_body op).
Proof.
  intros Hu. destruct op as [o|q|m|rp|g|u|i|d|k]; [done|..]; cbn [op_methods op_body];
    (etransitivity; [apply finish_header with (buffer := fun b => _)|]); unfold message; cbn beta zeta; f_equal; cbn [om_OpCode].
  - cbn. unfold query_body. rewrite (proj1 query_return), (proj1 query_skip), (proj1 query_name), (proj1 query_flags).
    destruct (q_returnFieldsSelector q); cbn; rewrite <- ?app_assoc; by rewrite ?app_nil_r.
  - cbn. unfold msg_body, checksum_bytes. rewrite sections_append_app, (proj1 msg_flags).
    destruct (has_flag _ _); rewrite ?(appendi32_app (_ ++ _)); rewrite <- ?app_assoc; by rewrite ?app_nil_r.
  - cbn. unfold reply_body.
    rewrite append_docs_concat, (proj1 reply_number), (proj1 reply_from), (proj1 reply_cursor), (proj1 reply_flags).
    by rewrite <- !app_assoc.
  - cbn. unfold getMore_body.
    rewrite (proj1 getmore_cursor), (proj1 getmore_return), (proj1 getmore_name), getmore_zero_append.
    by rewrite <- !app_assoc.
  - cbn. unfold update_body, appendi32, appendCString. rewrite ?append_docs_concat. cbn. by rewrite <- ?app_assoc.
  - cbn. unfold insert_body, appendi32, appendCString. rewrite ?append_docs_concat. cbn. by rewrite <- ?app_assoc.
  - cbn. unfold delete_body, appendi32, appendCString. rewrite ?append_docs_concat. cbn. by rewrite <- ?app_assoc.
  - cbn. unfold killCursors_body. rewrite kill_ids_append, (proj1 kill_number), kill_zero_append.
    by rewrite <- !app_assoc.
Qed.

(** ** Reading a message back *)

Lemma length_message r op body : length (message r op body) = 16 + length body.
Proof. unfold message, finish_message, header. by rewrite length_UpdateLength, length_app, header_length. Qed.

Lemma ReadHeader_message r op body :
  is_int32 r -> is_int32 op -> is_int32 (Z.of_nat (16 + length body)) ->
  ReadHeader (message r op body) = Some (Z.of_nat (16 + length body), 0%Z, r, op, body).
Proof.
  intros Hr Hop Hn. unfold message, finish_message, header. change (Z.to_nat 0) with 0. rewrite drop_0.
  rewrite length_app, header_length. rewrite int32_id by done. by apply header_roundtrip.
Qed.

(** The opcodes in the order of the list of [WireLaws]. *)
Definition opcodes : list Z :=
  [OpReply; OpUpdate; OpInsert; OpQuery; OpGetMore; OpDelete; OpKillCursors; OpMsg].

Lemma opcode_eqb i j a b :
  opcodes !! i = Some a -> opcodes !! j = Some b -> (a =? b)%Z = (i =? j)%nat.
Proof.
  intros Ha Hb. apply eq_true_iff_eq. rewrite Z.eqb_eq, Nat.eqb_eq. split.
  - intros ->. eapply NoDup_lookup; [exact opcodes_distinct|exact Ha|exact Hb].
  - intros ->. congruence.
Qed.

Lemma opcode_int32 i a : opcodes !! i = Some a -> is_int32 a.
Proof. intros H. eapply Forall_lookup_1; [exact opcodes_int32|exact H]. Qed.

(** The decoder the switch of [Decode] selects. *)
Definition decode_as (op : Operation) (reqID : Z) (body : list byte) : outcome Operation :=
  match op with
  | Op_unknown o => Ret op
  | Op_query _ => as_op Op_query (decodeQuery reqID body)
  | Op_msg _ => as_op Op_msg (decodeMsg reqID body)
  | Op_reply _ => as_op Op_reply (decodeReply reqID body)
  | Op_getMore _ => as_op Op_getMore (decodeGetMore reqID body)
  | Op_update _ => as_op Op_update (decodeUpdate reqID body)
  | Op_insert _ => as_op Op_insert (decodeInsert reqID body)
  | Op_delete _ => as_op Op_delete (decodeDelete reqID body)
  | Op_killCursors _ => as_op Op_killCursors (decodeKillCursors reqID body)
  end.

Definition opcode_index (op : Operation) : nat :=
  match op with
  | Op_reply _ => 0 | Op_update _ => 1 | Op_insert _ => 2 | Op_query _ => 3
  | Op_getMore _ => 4 | Op_delete _ => 5 | Op_killCursors _ => 6 | Op_msg _ => 7
  | Op_unknown _ => 8
  end.

Lemma opcode_at op : is_unknown op = false -> opcodes !! opcode_index op = Some (om_OpCode (op_methods op)).
Proof. by destruct op. Qed.

Ltac opcode_case i op E :=
  rewrite (opcode_eqb (opcode_index op) i) by (first [exact E | reflexivity]); cbn [opcode_index Nat.eqb].

Lemma Decode_message op r body :
  is_unknown op = false -> is_int32 r -> is_int32 (Z.of_nat (16 + length body)) ->
  Decode (message r (om_OpCode (op_methods op)) body) = decode_as op 0 body.
Proof.
  intros Hu Hr Hn. pose proof (opcode_at op Hu) as E.
  unfold Decode. rewrite ReadHeader_message by (try done; by eapply opcode_int32).
  rewrite length_message, Z.ltb_irrefl.
  destruct op as [o|q|m|rp|g|u|i|d|k]; [done|..]; cbn [op_methods om_OpCode opQuery_methods opMsg_methods
    opReply_methods opGetMore_methods opUpdate_methods opInsert_methods opDelete_methods opKillCursors_methods] in *.
  - by opcode_case 3 (Op_query q) E.
  - opcode_case 3 (Op_msg m) E. by opcode_case 7 (Op_msg m) E.
  - opcode_case 3 (Op_reply rp) E. opcode_case 7 (Op_reply rp) E. by opcode_case 0 (Op_reply rp) E.
  - opcode_case 3 (Op_getMore g) E. opcode_case 7 (Op_getMore g) E. opcode_case 0 (Op_getMore g) E.
    by opcode_case 4 (Op_getMore g) E.
  - opcode_case 3 (Op_update u) E. opcode_case 7 (Op_update u) E. opcode_case 0 (Op_update u) E.
    opcode_case 4 (Op_update u) E. by opcode_case 1 (Op_update u) E.
  - opcode_case 3 (Op_insert i) E. opcode_case 7 (Op_insert i) E. opcode_case 0 (Op_insert i) E.
    opcode_case 4 (Op_insert i) E. opcode_case 1 (Op_insert i) E. by opcode_case 2 (Op_insert i) E.
  - opcode_case 3 (Op_delete d) E. opcode_case 7 (Op_delete d) E. opcode_case 0 (Op_delete d) E.
    opcode_case 4 (Op_delete d) E. opcode_case 1 (Op_delete d) E. opcode_case 2 (Op_delete d) E.
    by opcode_case 5 (Op_delete d) E.
  - opcode_case 3 (Op_killCursors k) E. opcode_case 7 (Op_killCursors k) E. opcode_case 0 (Op_killCursors k) E.
    opcode_case 4 (Op_killCursors k) E. opcode_case 1 (Op_killCursors k) E. opcode_case 2 (Op_killCursors k) E.
    opcode_case 5 (Op_killCursors k) E. by opcode_case 6 (Op_killCursors k) E.
Qed.

(** *** Well-formed operations: every field has its Go type's range, names are
    C strings, documents are whole. *)

Definition section_wf (s : opMsgSection) : Prop :=
  match s with
  | opMsgSectionSingle msg => complete_doc msg
  | opMsgSectionSequence identifier msgs =>
      cstring identifier /\ Forall complete_doc msgs /\
      is_int32 (Z.of_nat (length (sequence_bytes 0 identifier msgs)))
  end.

Definition op_wf (op : Operation) : Prop :=
  match op with
  | Op_unknown _ => True
  | Op_query q =>
      is_int32 (q_flags q) /\ cstring (q_fullCollectionName q) /\ is_int32 (q_numberToSkip q) /\
      is_int32 (q_numberToReturn q) /\ complete_doc (q_query q) /\
      (q_returnFieldsSelector q = [] \/ complete_doc (q_returnFieldsSelector q))
  | Op_msg m =>
      is_uint32 (m_flags m) /\ Forall section_wf (m_sections m) /\
      (if has_flag (m_flags m) ChecksumPresent then is_uint32 (m_checksum m) else m_checksum m = 0%Z)
  | Op_reply r =>
      is_int32 (r_flags r) /\ is_int64 (r_cursorID r) /\ is_int32 (r_startingFrom r) /\
      is_int32 (r_numReturned r) /\ Forall complete_doc (r_documents r)
  | Op_getMore g =>
      cstring (g_fullCollectionName g) /\ is_int32 (g_numberToReturn g) /\ is_int64 (g_cursorID g)
  | Op_update u =>
      cstring (u_fullCollectionName u) /\ is_int32 (u_flags u) /\ complete_doc (u_selector u) /\
      complete_doc (u_update u)
  | Op_insert i =>
      is_int32 (i_flags i) /\ cstring (i_fullCollectionName i) /\ Forall complete_doc (i_documents i)
  | Op_delete d =>
      cstring (d_fullCollectionName d) /\ is_int32 (d_flags d) /\ complete_doc (d_selector d)
  | Op_killCursors k => cursor_ids_ok (k_cursorIDs k)
  end.

(** The operation with another request id. *)
Definition with_reqID (op : Operation) (id : Z) : Operation :=
  match op with
  | Op_unknown o => Op_unknown {| unk_opCode := unk_opCode o; unk_reqID := id; unk_wm := unk_wm o |}
  | Op_query q => Op_query {| q_reqID := id; q_flags := q_flags q; q_fullCollectionName := q_fullCollectionName q;
      q_numberToSkip := q_numberToSkip q; q_numberToReturn := q_numberToReturn q; q_query := q_query q;
      q_returnFieldsSelector := q_returnFieldsSelector q |}
  | Op_msg m => Op_msg {| m_reqID := id; m_flags := m_flags m; m_sections := m_sections m; m_checksum := m_checksum m |}
  | Op_reply r => Op_reply {| r_reqID := id; r_flags := r_flags r; r_cursorID := r_cursorID r;
      r_startingFrom := r_startingFrom r; r_numReturned := r_numReturned r; r_documents := r_documents r |}
  | Op_getMore g => Op_getMore {| g_reqID := id; g_fullCollectionName := g_fullCollectionName g;
      g_numberToReturn := g_numberToReturn g; g_cursorID := g_cursorID g |}
  | Op_update u => Op_update {| u_reqID := id; u_fullCollectionName := u_fullCollectionName u; u_flags := u_flags u;
      u_selector := u_selector u; u_update := u_update u |}
  | Op_insert i => Op_insert {| i_reqID := id; i_flags := i_flags i;
      i_fullCollectionName := i_fullCollectionName i; i_documents := i_documents i |}
  | Op_delete d => Op_delete {| d_reqID := id; d_fullCollectionName := d_fullCollectionName d; d_flags := d_flags d;
      d_selector := d_selector d |}
  | Op_killCursors k => Op_killCursors {| k_reqID := id; k_cursorIDs := k_cursorIDs k |}
  end.

Lemma sequence_length_fold (msgs : list Document) n :
  fold_left (fun len msg => int32 (len + int32 (Z.of_nat (length msg)))) msgs (int32 n) =
  int32 (n + Z.of_nat (length (concat msgs))).
Proof.
  revert n. induction msgs as [|d msgs IH]; intros n; cbn.
  - f_equal. lia.
  - rewrite int32_add, IH, length_app. f_equal. lia.
Qed.

Lemma length_sequence_bytes n ident msgs :
  Z.of_nat (length (sequence_bytes n ident msgs)) =
  (Z.of_nat (String.length ident) + 5 + Z.of_nat (length (concat msgs)))%Z.
Proof.
  unfold sequence_bytes, appendCString. rewrite !length_app, length_appendi32, length_string_bytes. cbn. lia.
Qed.

Lemma section_append_sequence ident msgs :
  section_wf (opMsgSectionSequence ident msgs) ->
  section_append [] (opMsgSectionSequence ident msgs) =
  AppendMsgSectionType [] DocumentSequence ++
    sequence_bytes (Z.of_nat (length (sequence_bytes 0 ident msgs))) ident msgs.
Proof.
  intros (_ & _ & Hn). cbn [section_append]. unfold opMsgSectionSequence_append. cbn zeta.
  rewrite append_docs_concat, sequence_length_fold, <- (length_sequence_bytes 0), int32_id by done.
  unfold sequence_bytes at 3, appendi32, appendCString. cbn. by rewrite <- !app_assoc.
Qed.

Lemma decodeSection_append s rest :
  section_wf s -> decodeSection (section_append [] s ++ rest) = Ret (s, rest).
Proof.
  intros Hs. unfold decodeSection. destruct s as [msg|ident msgs].
  - cbn [section_append]. unfold opMsgSectionSingle_append. cbn zeta. rewrite <- app_assoc.
    rewrite msg_section_type by auto. cbn. rewrite Z.eqb_refl, msg_single by done. done.
  - rewrite section_append_sequence, <- app_assoc by done.
    rewrite msg_section_type by auto. cbn [or_err obind].
    rewrite (proj2 (Z.eqb_neq _ _)) by (pose proof section_types_distinct; congruence).
    rewrite Z.eqb_refl. destruct Hs as (Hi & Hm & Hn). by rewrite msg_sequence by (try done; by rewrite !length_sequence_bytes).
Qed.

Lemma section_append_nonempty s : 0 < length (section_append [] s).
Proof.
  assert (forall t, t = SingleDocument \/ t = DocumentSequence -> 0 < length (AppendMsgSectionType [] t)) as Ht.
  { intros t Ht. pose proof (msg_section_type t [] Ht) as E. apply msg_section_type_shorter in E.
    rewrite length_app in E. cbn in E. lia. }
  destruct s; cbn; unfold opMsgSectionSingle_append, opMsgSectionSequence_append; cbn zeta;
    rewrite ?append_docs_concat; unfold appendCString, appendi32; rewrite !length_app.
  - pose proof (Ht SingleDocument (or_introl eq_refl)). lia.
  - pose proof (Ht DocumentSequence (or_intror eq_refl)). lia.
Qed.

Lemma decodeMsg_loop_step fuel cs m wm :
  wm <> [] -> cs && (length wm =? 4)%nat = false ->
  decodeMsg_loop (S fuel) cs m wm =
  (let? (s, wm) := decodeSection wm in decodeMsg_loop fuel cs (add_section m s) wm).
Proof. intros Hne Hc. destruct wm; [done|]. cbn [decodeMsg_loop]. by rewrite Hc. Qed.

(** The trailer of the message: the checksum, when the flag announces one. *)
Lemma decodeMsg_loop_trailer fuel m c :
  4 <= fuel -> is_uint32 c ->
  decodeMsg_loop fuel true m (appendi32 [] (int32 c)) = Ret (set_checksum m c).
Proof.
  intros Hf Hc. destruct fuel; [lia|].
  pose proof (msg_checksum c [] Hc) as E. rewrite app_nil_r in E.
  unfold appendi32 in *. cbn [app decodeMsg_loop length Nat.eqb andb] in *.
  rewrite E. cbn. by destruct fuel.
Qed.

Lemma decodeMsg_loop_sections l cs m trailer fuel r :
  Forall section_wf l ->
  (trailer = [] \/ length trailer = 4) ->
  length (concat (map (section_append []) l) ++ trailer) <= fuel ->
  (forall fuel', length trailer <= fuel' -> decodeMsg_loop fuel' cs (fold_left add_section l m) trailer = r) ->
  (cs = true -> trailer <> []) ->
  decodeMsg_loop fuel cs m (concat (map (section_append []) l) ++ trailer) = r.
Proof.
  intros Hl Ht. revert m fuel. induction Hl as [|s l Hs Hl IH]; intros m fuel Hf Hr Hcs; cbn in *.
  - by apply Hr.
  - rewrite <- app_assoc in *. pose proof (section_append_nonempty s) as Hpos.
    destruct fuel; [rewrite length_app in Hf; lia|].
    rewrite decodeMsg_loop_step.
    + rewrite decodeSection_append by done. cbn. apply IH; [|done|done].
      rewrite length_app in Hf. lia.
    + intros E. apply (f_equal (@length byte)) in E. rewrite length_app in E. cbn in E. lia.
    + destruct cs; [|done]. apply Nat.eqb_neq. rewrite !length_app. destruct Ht; [by destruct (Hcs eq_refl)|lia].
Qed.

Lemma fold_add_section l m :
  fold_left add_section l m =
  {| m_reqID := m_reqID m; m_flags := m_flags m; m_sections := m_sections m ++ l; m_checksum := m_checksum m |}.
Proof.
  revert m. induction l as [|s l IH]; intros m; cbn; [rewrite app_nil_r; by destruct m|].
  rewrite IH. cbn. by rewrite <- app_assoc.
Qed.

Lemma decodeMsg_body m id :
  op_wf (Op_msg m) -> as_op Op_msg (decodeMsg id (msg_body m)) = Ret (with_reqID (Op_msg m) id).
Proof.
  intros (Hf & Hs & Hc). unfold decodeMsg, msg_body. rewrite (proj2 msg_flags) by done. cbn.
  unfold checksum_bytes. destruct (has_flag _ _) eqn:E.
  - erewrite decodeMsg_loop_sections; [..|done]; [|done|by right|done|].
    2: { intros fuel' Hf'. by apply decodeMsg_loop_trailer. }
    rewrite fold_add_section. by destruct m.
  - erewrite decodeMsg_loop_sections; [..|done]; [|done|by left|done|by intros []].
    rewrite fold_add_section, Hc. by destruct m.
Qed.

Lemma decode_as_body op id :
  is_unknown op = false -> (forall d, op <> Op_delete d) -> op_wf op ->
  decode_as op id (op_body op) = Ret (with_reqID op id).
Proof.
  intros Hu Hd Hwf. destruct op as [o|q|m|r|g|u|i|d|k]; cbn [decode_as op_body]; [done|..|by destruct (Hd d)|].
  - destruct Hwf as (H1 & H2 & H3 & H4 & H5 & H6). unfold query_body, decodeQuery.
    rewrite (proj2 query_flags) by done; cbn. rewrite (proj2 query_name) by done; cbn.
    rewrite (proj2 query_skip) by done; cbn. rewrite (proj2 query_return) by done; cbn.
    rewrite query_query by done; cbn. destruct (q_returnFieldsSelector q) as [|b sel] eqn:E; cbn; [done|].
    destruct H6 as [|H6]; [done|]. pose proof (query_fields _ [] H6) as E'. rewrite app_nil_r in E'.
    by rewrite E'.
  - by apply decodeMsg_body.
  - destruct Hwf as (H1 & H2 & H3 & H4 & H5). unfold reply_body, decodeReply.
    rewrite (proj2 reply_flags) by done; cbn. rewrite (proj2 reply_cursor) by done; cbn.
    rewrite (proj2 reply_from) by done; cbn. rewrite (proj2 reply_number) by done; cbn.
    by rewrite reply_documents.
  - destruct Hwf as (H1 & H2 & H3). unfold getMore_body, decodeGetMore.
    destruct (getmore_zero (AppendGetMoreFullCollectionName [] (g_fullCollectionName g) ++
      AppendGetMoreNumberToReturn [] (g_numberToReturn g) ++ AppendGetMoreCursorID [] (g_cursorID g))) as [z ->]. cbn.
    rewrite (proj2 getmore_name) by done; cbn. rewrite (proj2 getmore_return) by done; cbn.
    pose proof (proj2 getmore_cursor (g_cursorID g) [] H3) as E. rewrite app_nil_r in E. by rewrite E.
  - destruct Hwf as (H1 & H2 & H3 & H4). unfold update_body, decodeUpdate.
    rewrite readCString_appendCString by done; cbn [or_err obind]. rewrite readi32_appendi32 by done; cbn.
    rewrite H3. cbn. pose proof (H4 []) as E. rewrite app_nil_r in E. by rewrite E.
  - destruct Hwf as (H1 & H2 & H3). unfold insert_body, decodeInsert.
    rewrite readi32_appendi32 by done; cbn [or_err obind]. rewrite readCString_appendCString by done; cbn.
    by rewrite reply_documents.
  - unfold killCursors_body, decodeKillCursors.
    destruct (kill_zero (AppendKillCursorsNumberIDs [] (int32 (Z.of_nat (length (k_cursorIDs k)))) ++
      AppendKillCursorsCursorIDs [] (k_cursorIDs k))) as [z ->]. cbn.
    pose proof Hwf as [_ Hn]. rewrite int32_id by done. rewrite (proj2 kill_number) by done. cbn.
    pose proof (kill_ids _ [] Hwf) as E. rewrite app_nil_r in E. by rewrite E.
Qed.

Definition fits (op : Operation) : Prop := is_int32 (Z.of_nat (16 + length (op_body op))).

(** *** Decoding always returns *)

Lemma returns_as_op {A} (f : A -> Operation) (m : outcome A) : returns m -> returns (as_op f m).
Proof. intros H. apply returns_bind; [done|]. eauto with go. Qed.

Lemma returns_decodeSection wm : returns (decodeSection wm).
Proof. unfold decodeSection. go_returns. Qed.

Lemma decodeSection_shorter wm s rest : decodeSection wm = Ret (s, rest) -> length rest < length wm.
Proof.
  unfold decodeSection. destruct (ReadMsgSectionType wm) as [[t wm1]|] eqn:E1; [|done]. cbn.
  apply msg_section_type_shorter in E1.
  destruct (t =? SingleDocument)%Z.
  - destruct (ReadMsgSectionSingleDocument wm1) as [[d wm2]|] eqn:E2; [|done]. cbn. intros. simplify_eq.
    apply msg_single_shorter in E2. lia.
  - destruct (t =? DocumentSequence)%Z; [|done].
    destruct (ReadMsgSectionDocumentSequence wm1) as [[[i ds] wm2]|] eqn:E2; [|done]. cbn. intros. simplify_eq.
    apply msg_sequence_shorter in E2. lia.
Qed.

(** The loop uses up at least a byte per iteration. *)
Lemma returns_decodeMsg_loop fuel cs m wm : length wm <= fuel -> returns (decodeMsg_loop fuel cs m wm).
Proof.
  revert m wm. induction fuel as [|fuel IH]; intros m wm Hf; (destruct wm as [|b wm]; [done|]).
  - cbn in Hf. lia.
  - cbn [decodeMsg_loop]. case_match.
    + apply returns_bind; [eauto with go|]. intros [c rest] E. apply IH.
      destruct (ReadMsgChecksum (b :: wm)) as [[c' rest']|] eqn:E'; [|done]. cbn in E. simplify_eq.
      apply msg_checksum_shorter in E'. cbn in *. lia.
    + apply returns_bind; [apply returns_decodeSection|]. intros [s rest] E. apply IH.
      apply decodeSection_shorter in E. cbn in *. lia.
Qed.

Lemma returns_decodeMsg reqID wm : returns (decodeMsg reqID wm).
Proof.
  unfold decodeMsg. apply returns_bind; [eauto with go|]. intros [flags rest] _.
  by apply returns_decodeMsg_loop.
Qed.

Hint Resolve returns_decodeMsg returns_as_op : go.

(** C15.
    Decoding is total: on any bytes whatever a client or a server sends,
    [Decode] returns an operation or an error; it does not panic, and the loop
    over the sections of an [OP_MSG] ends. *)
Theorem Decode_returns (wm : list byte) : returns (Decode wm).
Proof.
  unfold Decode. repeat case_match; eauto with go; apply returns_as_op.
  - unfold decodeQuery. go_returns.
  - unfold decodeReply. go_returns.
  - unfold decodeGetMore. go_returns.
  - unfold decodeUpdate. go_returns.
  - unfold decodeInsert. go_returns.
  - unfold decodeDelete. go_returns.
  - unfold decodeKillCursors. go_returns.
Qed.

(** C1.
    Round trip: decoding the encoding of a well-formed operation gives the
    operation back with request id 0, for every operation kind but
    [OP_DELETE] (whose encoder and decoder disagree) and the unknown ones. *)
Theorem Decode_Encode (op : Operation) (r : Z) :
  is_unknown op = false -> (forall d, op <> Op_delete d) -> op_wf op -> fits op -> is_int32 r ->
  Decode (om_Encode (op_methods op) r) = Ret (with_reqID op 0).
Proof.
  intros Hu Hd Hwf Hfit Hr. rewrite Encode_message by done.
  rewrite Decode_message by done. by apply decode_as_body.
Qed.

(** The header of an encoded operation: its length field is the number of
    bytes of the message, its request id is 0 whatever the operation's own
    request id, and the argument of [Encode] is the response-to field. *)
Theorem Encode_header (op : Operation) (r : Z) :
  is_unknown op = false -> fits op -> is_int32 r ->
  exists body, ReadHeader (om_Encode (op_methods op) r) =
    Some (Z.of_nat (length (om_Encode (op_methods op) r)), 0%Z, r, om_OpCode (op_methods op), body).
Proof.
  intros Hu Hfit Hr. exists (op_body op). rewrite Encode_message, length_message by done.
  apply ReadHeader_message; [done| |done]. eapply opcode_int32, opcode_at. done.
Qed.

Lemma readi32_4 (bs rest : list byte) : length bs = 4 -> exists z, readi32 (bs ++ rest) = Some (z, rest).
Proof. intros H. do 4 (destruct bs as [|? bs]; [done|]). destruct bs; [|done]. by eexists. Qed.

Lemma string_bytes_app s t : string_bytes (s +:+ t) = string_bytes s ++ string_bytes t.
Proof.
  induction s as [|a s IH]; [done|].
  change (String a s +:+ t) with (String a (s +:+ t)). by rewrite !string_bytes_cons, IH.
Qed.

(** [opDelete.Encode] leaves out the reserved int32 that [decodeDelete] skips,
    so an encoded [OP_DELETE] reads back as a delete on another collection:
    the name without its first four bytes. *)
Theorem Decode_Encode_delete (id r flags : Z) (s4 name : string) (selector : Document) :
  let d coll id := {| d_reqID := id; d_fullCollectionName := coll; d_flags := flags; d_selector := selector |} in
  String.length s4 = 4 -> op_wf (Op_delete (d name id)) -> fits (Op_delete (d (s4 +:+ name) id)) -> is_int32 r ->
  Decode (om_Encode (op_methods (Op_delete (d (s4 +:+ name) id))) r) = Ret (Op_delete (d name 0%Z)).
Proof.
  intros d H4 (Hn & Hfl & Hsel) Hfit Hr. rewrite Encode_message by done.
  rewrite (Decode_message (Op_delete _)) by done. cbn [decode_as op_body]. unfold delete_body, decodeDelete. subst d.
  cbn [d_fullCollectionName d_flags d_selector]. unfold appendCString at 1. cbn [app].
  rewrite string_bytes_app, <- !app_assoc.
  destruct (readi32_4 (string_bytes s4) (string_bytes name ++ [Byte.x00] ++ appendi32 [] flags ++ selector)) as [z ->].
  { by rewrite length_string_bytes. }
  cbn [or_err obind].
  pose proof (readCString_appendCString name (appendi32 [] flags ++ selector) Hn) as E.
  unfold appendCString in E. cbn [app] in E. rewrite <- app_assoc in E. rewrite E. cbn [or_err obind].
  rewrite readi32_appendi32 by done. cbn [or_err obind].
  specialize (Hsel []). rewrite app_nil_r in Hsel. cbn in Hsel. by rewrite Hsel.
Qed.

End with_laws.

(** *** What the sections of a message say *)

Definition is_single (s : opMsgSection) : bool :=
  match s with opMsgSectionSingle _ => true | opMsgSectionSequence _ _ => false end.

(** The transaction a single document takes part in, if any. *)
Definition transaction_of (s : opMsgSection) : option TransactionDetails :=
  match s with
  | opMsgSectionSequence _ _ => None
  | opMsgSectionSingle msg =>
      let '(_, lsID, ok1) := BinaryOK (Lookup msg ["lsid"; "id"]) in
      let '(txn, ok2) := Int64OK (Lookup msg ["txnNumber"]) in
      let '(autocommit, ok3) := BooleanOK (Lookup msg ["autocommit"]) in
      let '(start, ok4) := BooleanOK (Lookup msg ["startTransaction"]) in
      if ok1 && ok2 && ok3 then
        Some {| td_LsID := lsID; td_TxnNumber := txn; td_IsStartTransaction := ok4 && start; td_Autocommit := autocommit |}
      else None
  end.

(** The transaction of a message is the one of its first single-document
    section that carries a session id, a transaction number and an
    autocommit field together. *)
Theorem opMsg_TransactionDetails_first (m : opMsg) :
  om_TransactionDetails (opMsg_methods m) = head (omap transaction_of (m_sections m)).
Proof.
  cbn. induction (m_sections m) as [|[msg|ident msgs] l IH]; [done| |by cbn].
  cbn. destruct (BinaryOK _) as [[? ?] []]; [|by rewrite IH; repeat case_match].
  destruct (Int64OK _) as [? []]; [|by rewrite IH; repeat case_match].
  destruct (BooleanOK (Lookup msg ["autocommit"])) as [? []]; [|by rewrite IH; repeat case_match].
  by destruct (BooleanOK _) as [? ?].
Qed.

(** Document sequences carry payload only: the handshake test, the cursor id,
    the command, the transaction and the database of a message are those of
    the message without its document sequences. *)
Theorem opMsg_methods_ignore_sequences (m : opMsg) :
  let m' := {| m_reqID := m_reqID m; m_flags := m_flags m; m_sections := List.filter is_single (m_sections m);
               m_checksum := m_checksum m |} in
  om_IsIsMaster (opMsg_methods m) = om_IsIsMaster (opMsg_methods m') /\
  om_CursorID (opMsg_methods m) = om_CursorID (opMsg_methods m') /\
  om_CommandAndCollection (opMsg_methods m) = om_CommandAndCollection (opMsg_methods m') /\
  om_TransactionDetails (opMsg_methods m) = om_TransactionDetails (opMsg_methods m') /\
  om_DatabaseName (opMsg_methods m) = om_DatabaseName (opMsg_methods m').
Proof.
  cbn. induction (m_sections m) as [|[msg|ident msgs] l IH]; [done| |].
  - cbn. destruct IH as (-> & -> & -> & -> & ->). done.
  - cbn. exact IH.
Qed.

End Operations.
