(* ===== verification/WireRef.v ===== *)
(** * A reference instance of the driver packages

    The codec of [Operations.v] is parametric in the driver packages
    [wiremessage] and [bsoncore].  This file gives one concrete instance, the
    little-endian layout of the documented MongoDB wire protocol with a small
    BSON reader, and proves that it satisfies [WireLaws] and [BsonLaws].  It
    is not a model of the driver's code: it shows that the laws can hold
    together, and it lets the witnesses of the codec's theorems run on
    concrete bytes. *)

From S2P Require Import Prelude GoStrings Parsing Wire Command Operations.
From Stdlib Require Import ZArith Lia.
From coqutil Require Import Word.LittleEndianList.

(** ** Fixed-width integers *)

Definition append_u32 (dst : list byte) (v : Z) : list byte := dst ++ le_split 4 v.
Definition read_u32 (src : list byte) : option (Z * list byte) :=
  if (length src <? 4)%nat then None else Some (le_combine (take 4 src), drop 4 src).

Definition append_i64 (dst : list byte) (v : Z) : list byte := dst ++ le_split 8 v.
Definition read_i64 (src : list byte) : option (Z * list byte) :=
  if (length src <? 8)%nat then None else Some (int64 (le_combine (take 8 src)), drop 8 src).

Fixpoint read_i64s (n : nat) (src : list byte) : option (list Z * list byte) :=
  match n with
  | O => Some ([], src)
  | S n' =>
      match read_i64 src with
      | None => None
      | Some (v, rest) =>
          match read_i64s n' rest with
          | None => None
          | Some (vs, rest') => Some (v :: vs, rest')
          end
      end
  end.

(** ** Documents *)

Definition read_doc (src : list byte) : option (list byte * list byte) :=
  match readi32 src with
  | None => None
  | Some (n, _) =>
      if ((5 <=? n) && (n <=? Z.of_nat (length src)))%Z
      then Some (take (Z.to_nat n) src, drop (Z.to_nat n) src) else None
  end.

(** Documents for as long as one can be read. *)
Fixpoint read_docs (fuel : nat) (src : list byte) : list (list byte) * list byte :=
  match fuel with
  | O => ([], src)
  | S fuel' =>
      match read_doc src with
      | None => ([], src)
      | Some (d, rest) => let '(ds, rest') := read_docs fuel' rest in (d :: ds, rest')
      end
  end.

Definition read_sequence (src : list byte) : option (string * list (list byte) * list byte) :=
  match readi32 src with
  | None => None
  | Some (n, rem) =>
      if ((4 <=? n) && (n <=? Z.of_nat (length src)))%Z then
        match readCString (take (Z.to_nat n - 4) rem) with
        | None => None
        | Some (ident, body) =>
            match read_docs (length body) body with
            | (ds, []) => Some (ident, ds, drop (Z.to_nat n - 4) rem)
            | (_, _ :: _) => None
            end
        end
      else None
  end.

Definition set_length (buf : list byte) (start n : Z) : list byte :=
  if ((0 <=? start) && (start + 4 <=? Z.of_nat (length buf)))%Z
  then take (Z.to_nat start) buf ++ appendi32 [] n ++ drop (Z.to_nat start + 4) buf else buf.

Definition read_header (wm : list byte) : option (Z * Z * Z * Z * list byte) :=
  match readi32 wm with None => None | Some (n, wm) =>
  match readi32 wm with None => None | Some (a, wm) =>
  match readi32 wm with None => None | Some (b, wm) =>
  match readi32 wm with None => None | Some (op, wm) => Some (n, a, b, op, wm) end end end end.

Definition append_header (dst : list byte) (a b op : Z) : Z * list byte :=
  (Z.of_nat (length dst), appendi32 (appendi32 (appendi32 (appendi32 dst 0) a) b) op).

Definition read_section_type (wm : list byte) : option (Z * list byte) :=
  match wm with [] => None | b :: rest => Some (byte.unsigned b, rest) end.

(** The opcodes, flags and section types of the protocol documentation. *)
#[export] Instance ref_wiremessage : Wiremessage := {|
  OpReply := 1; OpUpdate := 2001; OpInsert := 2002; OpQuery := 2004;
  OpGetMore := 2005; OpDelete := 2006; OpKillCursors := 2007; OpMsg := 2013;
  ChecksumPresent := 1; MoreToCome := 2; SingleDocument := 0; DocumentSequence := 1;
  ReadHeader := read_header; AppendHeaderStart := append_header;
  ReadQueryFlags := readi32; AppendQueryFlags := appendi32; QueryFlag_String := fmt_d; OpCode_String := fmt_d;
  ReadQueryFullCollectionName := readCString; AppendQueryFullCollectionName := appendCString;
  ReadQueryNumberToSkip := readi32; AppendQueryNumberToSkip := appendi32;
  ReadQueryNumberToReturn := readi32; AppendQueryNumberToReturn := appendi32;
  ReadQueryQuery := read_doc; ReadQueryReturnFieldsSelector := read_doc;
  ReadMsgFlags := read_u32; AppendMsgFlags := append_u32; ReadMsgChecksum := read_u32;
  ReadMsgSectionType := read_section_type;
  AppendMsgSectionType dst t := dst ++ [byte.of_Z t];
  ReadMsgSectionSingleDocument := read_doc; ReadMsgSectionDocumentSequence := read_sequence;
  ReadReplyFlags := readi32; AppendReplyFlags := appendi32;
  ReadReplyCursorID := read_i64; AppendReplyCursorID := append_i64;
  ReadReplyStartingFrom := readi32; AppendReplyStartingFrom := appendi32;
  ReadReplyNumberReturned := readi32; AppendReplyNumberReturned := appendi32;
  ReadReplyDocuments wm := Some (read_docs (length wm) wm);
  ReadKillCursorsZero := readi32; AppendKillCursorsZero dst := appendi32 dst 0;
  ReadKillCursorsNumberIDs := readi32; AppendKillCursorsNumberIDs := appendi32;
  ReadKillCursorsCursorIDs wm n := read_i64s (Z.to_nat n) wm;
  AppendKillCursorsCursorIDs dst ids := fold_left append_i64 ids dst;
  AppendGetMoreZero dst := appendi32 dst 0; AppendGetMoreFullCollectionName := appendCString;
  AppendGetMoreNumberToReturn := appendi32; AppendGetMoreCursorID := append_i64
|}.

(** ** A small BSON reader *)

Inductive ref_value :=
| VNone
| VString (s : string)
| VDoc (d : list byte)
| VBinary (subtype : Z) (data : list byte)
| VBool (b : bool)
| VInt32 (z : Z)
| VInt64 (z : Z).

(** The value of an element of the given BSON type, and what follows it. *)
Definition read_value (tag : Z) (src : list byte) : option (ref_value * list byte) :=
  match tag with
  | 2%Z => match readi32 src with
           | Some (n, rest) => match readCString rest with Some (s, rest') => Some (VString s, rest') | None => None end
           | None => None
           end
  | 3%Z => match read_doc src with Some (d, rest) => Some (VDoc d, rest) | None => None end
  | 5%Z => match readi32 src with
           | Some (n, b :: rest) =>
               Some (VBinary (byte.unsigned b) (take (Z.to_nat n) rest), drop (Z.to_nat n) rest)
           | _ => None
           end
  | 8%Z => match src with b :: rest => Some (VBool (negb (byte.unsigned b =? 0)%Z), rest) | [] => None end
  | 16%Z => match readi32 src with Some (z, rest) => Some (VInt32 z, rest) | None => None end
  | 18%Z => match read_i64 src with Some (z, rest) => Some (VInt64 z, rest) | None => None end
  | _ => None
  end.

Fixpoint read_element (fuel : nat) (key : string) (src : list byte) : ref_value :=
  match fuel with
  | O => VNone
  | S fuel' =>
      match src with
      | [] => VNone
      | tag :: rest =>
          match readCString rest with
          | None => VNone
          | Some (k, rest) =>
              match read_value (byte.unsigned tag) rest with
              | None => VNone
              | Some (v, rest) => if decide (k = key) then v else read_element fuel' key rest
              end
          end
      end
  end.

Fixpoint ref_lookup (doc : list byte) (path : list string) : ref_value :=
  match path with
  | [] => VNone
  | key :: path' =>
      let v := read_element (length doc) key (drop 4 doc) in
      match path', v with
      | [], _ => v
      | _ :: _, VDoc d => ref_lookup d path'
      | _ :: _, _ => VNone
      end
  end.

#[export] Instance ref_bsoncore : Bsoncore := {|
  ReadDocument := read_doc; UpdateLength := set_length;
  Document_String := bytes_string; Value := ref_value; Lookup := ref_lookup;
  Value_Data_not_nil v := match v with VNone => false | _ => true end;
  StringValueOK v := match v with VString s => (s, true) | _ => ("", false) end;
  Int32OK v := match v with VInt32 z => (z, true) | _ => (0%Z, false) end;
  Int64OK v := match v with VInt64 z => (z, true) | _ => (0%Z, false) end;
  BooleanOK v := match v with VBool b => (b, true) | _ => (false, false) end;
  BinaryOK v := match v with VBinary t d => (t, d, true) | _ => (0%Z, [], false) end
|}.

#[export] Instance ref_errors : DriverErrors := {|
  DriverError := unit;
  ExtractErrorFromServerResponse doc :=
    match ref_lookup doc ["ok"] with VInt32 0 => Some tt | _ => None end
|}.

(** ** The laws hold *)

#[export] Instance ref_bson_laws : BsonLaws.
Proof. split; intros []; cbn; done. Qed.

Lemma codec_i32 : codec is_int32 readi32 appendi32.
Proof. split; [done|apply readi32_appendi32]. Qed.

Lemma codec_cstring : codec cstring readCString appendCString.
Proof. split; [apply appendCString_app|apply readCString_appendCString]. Qed.

Lemma take_drop_split n z (rest : list byte) :
  take n (le_split n z ++ rest) = le_split n z /\ drop n (le_split n z ++ rest) = rest.
Proof.
  pose proof (length_le_split n z) as H.
  split; [by rewrite take_app_length'|by rewrite drop_app_length'].
Qed.

Lemma codec_u32 : codec is_uint32 read_u32 append_u32.
Proof.
  split; [done|]. intros v rest Hv. unfold append_u32. cbn [app]. unfold read_u32.
  rewrite length_app, length_le_split. cbn [Nat.ltb Nat.leb plus].
  destruct (take_drop_split 4 v rest) as [-> ->].
  rewrite le_combine_split. change (Z.of_nat 4 * 8)%Z with 32%Z. by rewrite Z.mod_small.
Qed.

Lemma codec_i64 : codec is_int64 read_i64 append_i64.
Proof.
  split; [done|]. intros v rest Hv. unfold append_i64. cbn [app]. unfold read_i64.
  rewrite length_app, length_le_split. cbn [Nat.ltb Nat.leb plus].
  destruct (take_drop_split 8 v rest) as [-> ->].
  rewrite le_combine_split. change (Z.of_nat 8 * 8)%Z with 64%Z.
  unfold int64. rewrite swrap_mod by lia. by rewrite swrap_id by (try lia; exact Hv).
Qed.

Lemma appendi32_le_split i : appendi32 [] i = le_split 4 i.
Proof. unfold appendi32, le_split. by rewrite !Z.shiftr_shiftr by lia. Qed.

Lemma read_u32_appendi32 z rest : is_uint32 z -> read_u32 (appendi32 [] (int32 z) ++ rest) = Some (z, rest).
Proof.
  intros Hz. rewrite appendi32_le_split. unfold read_u32. rewrite length_app, length_le_split.
  cbn [Nat.ltb Nat.leb plus]. destruct (take_drop_split 4 (int32 z) rest) as [-> ->].
  rewrite le_combine_split. change (Z.of_nat 4 * 8)%Z with 32%Z. do 2 f_equal.
  unfold int32, swrap, is_uint32 in *.
  change (2 ^ (32 - 1))%Z with 2147483648%Z. change (2 ^ 32)%Z with 4294967296%Z in *.
  Z.to_euclidean_division_equations. lia.
Qed.

Lemma read_u32_shorter wm z rest : read_u32 wm = Some (z, rest) -> length rest < length wm.
Proof.
  unfold read_u32. destruct (length wm <? 4)%nat eqn:E; [done|]. apply Nat.ltb_ge in E.
  intros. simplify_eq. rewrite length_drop. lia.
Qed.

Lemma read_doc_shorter wm d rest : read_doc wm = Some (d, rest) -> length rest < length wm.
Proof.
  unfold read_doc. destruct (readi32 wm) as [[n r]|]; [|done].
  destruct ((5 <=? n) && (n <=? Z.of_nat (length wm)))%Z eqn:E; [|done].
  apply andb_true_iff in E as [E1%Z.leb_le E2%Z.leb_le]. intros. simplify_eq.
  rewrite length_drop. lia.
Qed.

Lemma complete_doc_nonempty (d : Document) : complete_doc d -> 0 < length d.
Proof. intros H. destruct d; [by specialize (H [])|cbn; lia]. Qed.

Lemma read_docs_concat ds fuel :
  Forall complete_doc ds -> length (concat ds) <= fuel -> read_docs fuel (concat ds) = (ds, []).
Proof.
  intros Hds. revert fuel. induction Hds as [|d ds Hd Hds IH]; intros fuel Hf; cbn in *; [by destruct fuel|].
  rewrite length_app in Hf. apply complete_doc_nonempty in Hd as Hn.
  destruct fuel; [lia|]. cbn [read_docs]. unfold complete_doc in Hd. cbn in Hd.
  rewrite Hd, IH by lia. done.
Qed.

Lemma read_sequence_bytes n ident msgs rest :
  cstring ident -> Forall complete_doc msgs -> n = Z.of_nat (length (sequence_bytes n ident msgs)) -> is_int32 n ->
  read_sequence (sequence_bytes n ident msgs ++ rest) = Some (ident, msgs, rest).
Proof.
  intros Hi Hm Hn Hr. unfold read_sequence.
  assert (sequence_bytes n ident msgs = appendi32 [] n ++ (appendCString [] ident ++ concat msgs)) as E.
  { unfold sequence_bytes. rewrite appendCString_app. by rewrite <- app_assoc. }
  rewrite E, length_app, length_appendi32 in Hn. cbn [length plus] in Hn.
  rewrite E, <- app_assoc, readi32_appendi32 by done.
  replace ((4 <=? n) && _)%Z with true.
  2: { symmetry. apply andb_true_iff. rewrite !Z.leb_le, !length_app, length_appendi32.
       rewrite length_app in Hn. cbn [length]. lia. }
  replace (Z.to_nat n - 4) with (length (appendCString [] ident ++ concat msgs)) by lia.
  rewrite take_app_length, drop_app_length, readCString_appendCString by done.
  by rewrite read_docs_concat.
Qed.

Lemma readi32_shorter wm n rem : readi32 wm = Some (n, rem) -> length wm = 4 + length rem.
Proof. do 4 (destruct wm as [|? wm]; [done|]). intros. cbn in *. simplify_eq. lia. Qed.

Lemma read_sequence_shorter wm i ds rest : read_sequence wm = Some (i, ds, rest) -> length rest <= length wm.
Proof.
  unfold read_sequence. destruct (readi32 wm) as [[n rem]|] eqn:E; [|done]. apply readi32_shorter in E.
  case_match; [|done]. destruct (readCString _) as [[s body]|]; [|done].
  destruct (read_docs _ _) as [ds' []]; [|done]. intros. simplify_eq. rewrite length_drop. lia.
Qed.

Lemma append_i64s_app dst ids : fold_left append_i64 ids dst = dst ++ fold_left append_i64 ids [].
Proof.
  revert dst. induction ids as [|z ids IH]; intros dst; cbn [fold_left]; [by rewrite app_nil_r|].
  rewrite IH, (IH (append_i64 [] z)). unfold append_i64. by rewrite <- app_assoc.
Qed.

Lemma read_i64s_append ids rest :
  Forall is_int64 ids -> read_i64s (length ids) (fold_left append_i64 ids [] ++ rest) = Some (ids, rest).
Proof.
  induction 1 as [|z ids Hz Hids IH]; [done|]. cbn [fold_left length read_i64s].
  rewrite append_i64s_app, <- app_assoc, (proj2 codec_i64) by done. by rewrite IH.
Qed.

Lemma set_length_header a b op n body :
  set_length (snd (append_header [] a b op) ++ body) 0 n =
  appendi32 [] n ++ appendi32 [] a ++ appendi32 [] b ++ appendi32 [] op ++ body.
Proof.
  unfold set_length, append_header, appendi32. cbn [snd app length].
  replace ((0 <=? 0) && _)%Z with true by (symmetry; apply andb_true_iff; rewrite !Z.leb_le; lia). done.
Qed.

Lemma length_set_length buf i n : length (set_length buf i n) = length buf.
Proof.
  unfold set_length. destruct ((0 <=? i) && _)%Z eqn:E; [|done].
  apply andb_true_iff in E as [E1%Z.leb_le E2%Z.leb_le].
  rewrite !length_app, length_appendi32, length_take, length_drop. cbn. lia.
Qed.

Lemma read_section_type_append t rest :
  t = 0%Z \/ t = 1%Z -> read_section_type (([] ++ [byte.of_Z t]) ++ rest) = Some (t, rest).
Proof. by intros [-> | ->]. Qed.

#[export] Instance ref_wire_laws : WireLaws.
Proof.
  split; try exact codec_i32; try exact codec_cstring; try exact codec_u32; try exact codec_i64.
  - apply (bool_decide_unpack _). by vm_compute.
  - rewrite !Forall_cons, Forall_nil. unfold is_int32. cbn. lia.
  - done.
  - done.
  - done.
  - intros a b op n body Ha Hb Hop Hn.
    change (read_header (set_length (snd (append_header [] a b op) ++ body) 0 n) = Some (n, a, b, op, body)).
    rewrite set_length_header. unfold read_header.
    by rewrite !readi32_appendi32 by done.
  - apply length_set_length.
  - intros d rest H. apply H.
  - intros d rest H. apply H.
  - apply read_u32_appendi32.
  - apply read_u32_shorter.
  - done.
  - apply read_section_type_append.
  - intros [|b wm] t rest H; cbn in *; simplify_eq. lia.
  - intros d rest H. apply H.
  - intros wm d rest H%read_doc_shorter. lia.
  - apply read_sequence_bytes.
  - apply read_sequence_shorter.
  - intros ds H. cbn. by rewrite read_docs_concat.
  - done.
  - intros rest. eexists. by apply readi32_appendi32.
  - apply append_i64s_app.
  - intros ids rest [H _]. cbn. rewrite Nat2Z.id. by apply read_i64s_append.
  - done.
  - intros rest. eexists. by apply readi32_appendi32.
Qed.

(** ** Witnesses *)

Section Witnesses.

Definition mk_doc (body : list byte) : Document :=
  appendi32 [] (Z.of_nat (length body) + 5) ++ body ++ [Byte.x00].

Definition el_string (key v : string) : list byte :=
  appendCString (appendi32 (appendCString [Byte.x02] key) (Z.of_nat (String.length v) + 1)) v.
Definition el_int32 (key : string) (v : Z) : list byte := appendi32 (appendCString [Byte.x10] key) v.
Definition el_int64 (key : string) (v : Z) : list byte := append_i64 (appendCString [Byte.x12] key) v.
Definition el_bool (key : string) (v : bool) : list byte :=
  appendCString [Byte.x08] key ++ [if v then Byte.x01 else Byte.x00].
Definition el_binary (key : string) (v : list byte) : list byte :=
  appendi32 (appendCString [Byte.x05] key) (Z.of_nat (length v)) ++ [Byte.x04] ++ v.
Definition el_doc (key : string) (d : Document) : list byte := appendCString [Byte.x03] key ++ d.

Lemma complete_mk_doc body : is_int32 (Z.of_nat (length body) + 5) -> complete_doc (mk_doc body).
Proof.
  intros Hn rest. cbn [ReadDocument ref_bsoncore]. unfold read_doc.
  assert (length (mk_doc body) = length body + 5) as Hl.
  { unfold mk_doc. rewrite !length_app, length_appendi32. cbn. lia. }
  unfold mk_doc at 1. rewrite <- app_assoc, readi32_appendi32 by done.
  rewrite length_app, Hl.
  replace ((5 <=? _) && _)%Z with true by (symmetry; apply andb_true_iff; rewrite !Z.leb_le; lia).
  replace (Z.to_nat (Z.of_nat (length body) + 5)) with (length (mk_doc body)) by lia.
  by rewrite take_app_length, drop_app_length.
Qed.

(** [{insert: "users", $db: "app", lsid: {id: UUID}, txnNumber: 7, startTransaction: true, autocommit: false}] *)
Definition sample_insert : Document :=
  mk_doc (el_string "insert" "users" ++ el_string "$db" "app" ++
    el_doc "lsid" (mk_doc (el_binary "id" [Byte.x01; Byte.x02])) ++ el_int64 "txnNumber" 7 ++
    el_bool "startTransaction" true ++ el_bool "autocommit" false).
Definition sample_user : Document := mk_doc (el_int32 "n" (-1)).

Definition sample_msg : Operation :=
  Op_msg {| m_reqID := 42; m_flags := 1;
            m_sections := [opMsgSectionSingle sample_insert; opMsgSectionSequence "documents" [sample_user; sample_user]];
            m_checksum := 4000000000 |}.

Lemma sample_msg_wf : op_wf sample_msg.
Proof.
  split_and!; [by unfold is_uint32; cbn| |by unfold is_uint32; cbn].
  assert (complete_doc sample_user) by (apply complete_mk_doc; by vm_compute).
  constructor; [|constructor; [|constructor]].
  - apply complete_mk_doc. by vm_compute.
  - split_and!; [by vm_compute| |by vm_compute]. by repeat constructor.
Qed.

Lemma Decode_Encode_witness :
  Decode (om_Encode (op_methods (UC := ascii_case) sample_msg) 7) = Ret (with_reqID sample_msg 0).
Proof.
  apply (Decode_Encode (UC := ascii_case)); [done|done|exact sample_msg_wf|by vm_compute|by vm_compute].
Defined.

Lemma Decode_returns_witness : returns (Decode (om_Encode (op_methods (UC := ascii_case) sample_msg) 7)).
Proof. apply Decode_returns. Defined.

Lemma Encode_header_witness :
  exists body, ReadHeader (om_Encode (op_methods (UC := ascii_case) sample_msg) 42) =
    Some (Z.of_nat (length (om_Encode (op_methods (UC := ascii_case) sample_msg) 42)), 0%Z, 42%Z, om_OpCode (op_methods (UC := ascii_case) sample_msg), body).
Proof. apply (Encode_header (UC := ascii_case) sample_msg 42); [done|by vm_compute|by vm_compute]. Defined.

Lemma Decode_Encode_delete_witness :
  let d coll id := {| d_reqID := id; d_fullCollectionName := coll; d_flags := 0; d_selector := sample_user |} in
  Decode (om_Encode (op_methods (UC := ascii_case) (Op_delete (d "app.users" 5%Z))) 5) = Ret (Op_delete (d "users" 0%Z)).
Proof.
  apply (Decode_Encode_delete (UC := ascii_case) 5 5 0 "app." "users" sample_user);
    [done| |by vm_compute|by vm_compute].
  split_and!; [by vm_compute|by vm_compute|apply complete_mk_doc; by vm_compute].
Defined.

Lemma CommandAndCollection_sound_complete_witness :
  CommandAndCollection sample_insert = (Insert, "users") /\
  let '(command, _) := CommandAndCollection sample_insert in
  (command <> Unknown -> command ∈ known_commands /\ Value_Data_not_nil (Lookup sample_insert [command]) = true) /\
  (command = Unknown <->
    Forall (fun s => snd (StringValueOK (Lookup sample_insert [s])) = false) collectionCommands /\
    Forall (fun s => Value_Data_not_nil (Lookup sample_insert [s]) = false)
      (int32Commands ++ int64Commands ++ arrayCommands)).
Proof.
  split; [by vm_compute|].
  pose proof (CommandAndCollection_sound_complete sample_insert) as H.
  destruct (CommandAndCollection sample_insert) as [command collection]. exact H.
Defined.

End Witnesses.
