(* ===== verification/ClientSettings.v ===== *)
(** * MongoDB client settings ([src/util/mongodb_client.go], [src/util/types.go])

    How the defaults of the configuration and the overrides of a database
    combine into the options of a MongoDB client.  The driver's option setters
    are parameters. *)

From S2P Require Import Prelude GoStrings Parsing.
From Stdlib Require Import ZArith Lia.

(** A [time.Duration] is a number of nanoseconds. *)
Definition Second : Z := 1000000000.
Definition Minute : Z := 60 * Second.

Record MongoDBClientConfig := {
  cc_MaxPoolSize : Z;
  cc_MinPoolSize : Z;
  cc_MaxConnIdleTime : Z;
  cc_ServerSelectionTimeout : Z;
  cc_ConnectTimeout : Z;
  cc_SocketTimeout : Z;
  cc_HeartbeatInterval : Z;
  cc_RetryWrites : option bool;
  cc_Topology : option TopologyKind
}.

(** [options.ClientOptions] of the driver and the setters the program calls. *)
Class ClientOptionsOps := {
  ClientOptions : Type;
  SetMaxPoolSize : ClientOptions -> Z -> ClientOptions;
  SetMinPoolSize : ClientOptions -> Z -> ClientOptions;
  SetMaxConnIdleTime : ClientOptions -> Z -> ClientOptions;
  SetServerSelectionTimeout : ClientOptions -> Z -> ClientOptions;
  SetConnectTimeout : ClientOptions -> Z -> ClientOptions;
  SetSocketTimeout : ClientOptions -> Z -> ClientOptions;
  SetHeartbeatInterval : ClientOptions -> Z -> ClientOptions;
  SetRetryWrites : ClientOptions -> bool -> ClientOptions
}.

Section Settings.
Context `{CO : ClientOptionsOps}.

(** [if dbOverrides.F > 0 { x = dbOverrides.F }] *)
Definition override (dbOverrides : option MongoDBClientConfig) (field : MongoDBClientConfig -> Z) (x : Z) : Z :=
  match dbOverrides with
  | Some o => if (0 <? field o)%Z then field o else x
  | None => x
  end.

(** [if x == 0 { x = d }] *)
Definition default_if_zero (x d : Z) : Z := if (x =? 0)%Z then d else x.

Definition uint64 (z : Z) : Z := (z mod 2 ^ 64)%Z.

Definition ApplyMongoDBClientSettings (opts : ClientOptions) (dbName : string)
    (defaults : MongoDBClientConfig) (dbOverrides : option MongoDBClientConfig) : ClientOptions :=
  let maxPoolSize := override dbOverrides cc_MaxPoolSize (cc_MaxPoolSize defaults) in
  let minPoolSize := override dbOverrides cc_MinPoolSize (cc_MinPoolSize defaults) in
  let maxConnIdleTime := override dbOverrides cc_MaxConnIdleTime (cc_MaxConnIdleTime defaults) in
  let serverSelectionTimeout :=
    override dbOverrides cc_ServerSelectionTimeout (cc_ServerSelectionTimeout defaults) in
  let connectTimeout := override dbOverrides cc_ConnectTimeout (cc_ConnectTimeout defaults) in
  let socketTimeout := override dbOverrides cc_SocketTimeout (cc_SocketTimeout defaults) in
  let heartbeatInterval := override dbOverrides cc_HeartbeatInterval (cc_HeartbeatInterval defaults) in
  let retryWrites :=
    match dbOverrides with
    | Some {| cc_RetryWrites := Some b |} => Some b
    | _ => cc_RetryWrites defaults
    end in
  let maxPoolSize := default_if_zero maxPoolSize 10 in
  let minPoolSize := default_if_zero minPoolSize 1 in
  let maxConnIdleTime := default_if_zero maxConnIdleTime (30 * Second) in
  let serverSelectionTimeout := default_if_zero serverSelectionTimeout (30 * Second) in
  let connectTimeout := default_if_zero connectTimeout (30 * Second) in
  let socketTimeout := default_if_zero socketTimeout (30 * Second) in
  let heartbeatInterval := default_if_zero heartbeatInterval (10 * Second) in
  let opts := SetMaxPoolSize opts (uint64 maxPoolSize) in
  let opts := SetMinPoolSize opts (uint64 minPoolSize) in
  let opts := SetMaxConnIdleTime opts maxConnIdleTime in
  let opts := SetServerSelectionTimeout opts serverSelectionTimeout in
  let opts := SetConnectTimeout opts connectTimeout in
  let opts := SetSocketTimeout opts socketTimeout in
  let opts := SetHeartbeatInterval opts heartbeatInterval in
  match retryWrites with
  | Some b => SetRetryWrites opts b
  | None => opts
  end.

(** ** Properties *)

(** The value a setting ends up with: the first positive one among the
    override, the default and the built-in value. *)
Fixpoint first_positive (l : list Z) : Z :=
  match l with
  | [] => 0%Z
  | z :: l' => if (0 <? z)%Z then z else first_positive l'
  end.

Definition setting (ov : option MongoDBClientConfig) (defaults : MongoDBClientConfig)
    (field : MongoDBClientConfig -> Z) (builtin : Z) : Z :=
  first_positive (default 0%Z (field <$> ov) :: [field defaults; builtin]).

Lemma setting_eq ov defaults field builtin :
  (0 <= field defaults)%Z -> (0 < builtin)%Z ->
  default_if_zero (override ov field (field defaults)) builtin = setting ov defaults field builtin.
Proof.
  intros Hd Hb. unfold setting, default_if_zero, override. cbn.
  destruct ov as [o|]; cbn;
    repeat match goal with |- context [(?a <? ?b)%Z] => destruct (Z.ltb_spec a b) end;
    repeat match goal with |- context [(?a =? ?b)%Z] => destruct (Z.eqb_spec a b) end; lia.
Qed.

(** Every numeric default is a size or a duration, never negative. *)
Definition nonneg_defaults (d : MongoDBClientConfig) : Prop :=
  (0 <= cc_MaxPoolSize d)%Z /\ (0 <= cc_MinPoolSize d)%Z /\ (0 <= cc_MaxConnIdleTime d)%Z /\
  (0 <= cc_ServerSelectionTimeout d)%Z /\ (0 <= cc_ConnectTimeout d)%Z /\
  (0 <= cc_SocketTimeout d)%Z /\ (0 <= cc_HeartbeatInterval d)%Z.

(** With non-negative defaults, each option of a client is the database's
    override when positive, else the configured default when positive, else
    the built-in value; in particular no option is set to zero, and the retry
    policy of the database takes precedence over the default one. *)
Theorem ApplyMongoDBClientSettings_precedence opts name d ov :
  nonneg_defaults d ->
  ApplyMongoDBClientSettings opts name d ov =
  let opts := SetMaxPoolSize opts (uint64 (setting ov d cc_MaxPoolSize 10)) in
  let opts := SetMinPoolSize opts (uint64 (setting ov d cc_MinPoolSize 1)) in
  let opts := SetMaxConnIdleTime opts (setting ov d cc_MaxConnIdleTime (30 * Second)) in
  let opts := SetServerSelectionTimeout opts (setting ov d cc_ServerSelectionTimeout (30 * Second)) in
  let opts := SetConnectTimeout opts (setting ov d cc_ConnectTimeout (30 * Second)) in
  let opts := SetSocketTimeout opts (setting ov d cc_SocketTimeout (30 * Second)) in
  let opts := SetHeartbeatInterval opts (setting ov d cc_HeartbeatInterval (10 * Second)) in
  match head (omap (fun c => cc_RetryWrites c) (option_list ov ++ [d])) with
  | Some b => SetRetryWrites opts b
  | None => opts
  end.
Proof.
  intros (H1 & H2 & H3 & H4 & H5 & H6 & H7). unfold ApplyMongoDBClientSettings. cbn zeta.
  rewrite !setting_eq by (done || (unfold Second; lia)).
  destruct ov as [[? ? ? ? ? ? ? [b|] ?]|]; cbn; [done| |]; by destruct (cc_RetryWrites d).
Qed.

End Settings.

(** A concrete options type: the log of the calls made on it. *)
Definition option_log : ClientOptionsOps := {|
  ClientOptions := list (string * Z);
  SetMaxPoolSize o z := o ++ [("MaxPoolSize", z)];
  SetMinPoolSize o z := o ++ [("MinPoolSize", z)];
  SetMaxConnIdleTime o z := o ++ [("MaxConnIdleTime", z)];
  SetServerSelectionTimeout o z := o ++ [("ServerSelectionTimeout", z)];
  SetConnectTimeout o z := o ++ [("ConnectTimeout", z)];
  SetSocketTimeout o z := o ++ [("SocketTimeout", z)];
  SetHeartbeatInterval o z := o ++ [("HeartbeatInterval", z)];
  SetRetryWrites o b := o ++ [("RetryWrites", if b then 1%Z else 0%Z)]
|}.

Definition sample_defaults : MongoDBClientConfig := {|
  cc_MaxPoolSize := 20; cc_MinPoolSize := 0; cc_MaxConnIdleTime := 0; cc_ServerSelectionTimeout := 5 * Second;
  cc_ConnectTimeout := 0; cc_SocketTimeout := 0; cc_HeartbeatInterval := 0;
  cc_RetryWrites := Some true; cc_Topology := None |}.

Lemma ApplyMongoDBClientSettings_precedence_witness :
  nonneg_defaults sample_defaults /\
  ApplyMongoDBClientSettings (CO := option_log) [] "app" sample_defaults None =
    [("MaxPoolSize", 20); ("MinPoolSize", 1); ("MaxConnIdleTime", 30 * Second);
     ("ServerSelectionTimeout", 5 * Second); ("ConnectTimeout", 30 * Second); ("SocketTimeout", 30 * Second);
     ("HeartbeatInterval", 10 * Second); ("RetryWrites", 1)]%Z.
Proof.
  assert (nonneg_defaults sample_defaults) as H by (unfold nonneg_defaults; cbn; unfold Second; lia).
  split; [exact H|].
  rewrite (ApplyMongoDBClientSettings_precedence (CO := option_log) [] "app" sample_defaults None H).
  reflexivity.
Defined.
