(* ===== verification/Router.v ===== *)
(** * The database router ([src/proxy/router.go])

    Exact routes, pattern routes tried in the order they were added, the
    catch-all route, and the cache of resolutions in front of them.  A
    [*RouteConfig] is a reference into a heap of route configurations, since
    routes are shared and compared by identity.  The router's operations are
    written against [BoundedCache]; [NewDatabaseRouter] uses [Lru.Cache]. *)

From S2P Require Import Prelude GoStrings Parsing Lru CacheInterface Wire Command Operations ClientSettings.
From Stdlib Require Import ZArith Lia Ascii.

(** A pointer to a route configuration, and one to a MongoDB client. *)
Notation RouteRef := nat (only parsing).
Notation MongoRef := nat (only parsing).

Record RouteConfig := {
  rc_DatabaseName : string;
  rc_MongoClient : option MongoRef;
  rc_ConnectionString : string;
  rc_PoolMode : string;
  rc_MaxConnections : Z;
  rc_Label : string;
  rc_DatabaseConfig : option MongoDBClientConfig;
  rc_CredentialClients : option (Lru.Cache string MongoRef)
}.

Inductive PatternType := ExactMatch | PrefixMatch | SuffixMatch | ContainsMatch | WildcardMatch.

Record PatternRoute := {
  pr_Pattern : string;
  pr_PatternType : PatternType;
  pr_RouteConfig : RouteRef
}.

Record DatabaseRouter (C : Type) := {
  routes : gmap string RouteRef;
  wildcardRoute : option RouteRef;
  patternRoutes : list PatternRoute;
  routeCache : C
}.
Arguments routes {C}.
Arguments wildcardRoute {C}.
Arguments patternRoutes {C}.
Arguments routeCache {C}.

Definition NewDatabaseRouter : DatabaseRouter (Lru.Cache string RouteRef) := {|
  routes := ∅;
  wildcardRoute := None;
  patternRoutes := [];
  routeCache := Lru.New 1000 (5 * Minute)
|}.

(** [if r.CredentialClients == nil { r.CredentialClients = lruttl.New(...) }] *)
Definition InitCredentialClientsCache (r : RouteConfig) : RouteConfig :=
  match rc_CredentialClients r with
  | Some _ => r
  | None =>
      {| rc_DatabaseName := rc_DatabaseName r; rc_MongoClient := rc_MongoClient r;
         rc_ConnectionString := rc_ConnectionString r; rc_PoolMode := rc_PoolMode r;
         rc_MaxConnections := rc_MaxConnections r; rc_Label := rc_Label r;
         rc_DatabaseConfig := rc_DatabaseConfig r;
         rc_CredentialClients := Some (Lru.New 200 (30 * Minute)) |}
  end.

Section Router.
Context `{UC : UnicodeCase, RX : RegexpOther, WM : Wiremessage, BS : Bsoncore, DE : DriverErrors}.
Context {C : Type} `{BC : BoundedCache string RouteRef C}.
Implicit Types r : DatabaseRouter C.

(** ** Definitions *)

Definition with_cache (r : DatabaseRouter C) (c : C) : DatabaseRouter C :=
  {| routes := routes r; wildcardRoute := wildcardRoute r; patternRoutes := patternRoutes r; routeCache := c |}.

(** The pattern route [AddRoute] builds for a normalized pattern that has a [*]. *)
Definition make_pattern_route (normalizedPattern : string) (config : RouteRef) : PatternRoute :=
  if HasPrefix normalizedPattern "*" && HasSuffix normalizedPattern "*" then
    {| pr_Pattern := Trim normalizedPattern "*"; pr_PatternType := ContainsMatch; pr_RouteConfig := config |}
  else if HasPrefix normalizedPattern "*" then
    {| pr_Pattern := TrimPrefix normalizedPattern "*"; pr_PatternType := SuffixMatch; pr_RouteConfig := config |}
  else if HasSuffix normalizedPattern "*" then
    {| pr_Pattern := TrimSuffix normalizedPattern "*"; pr_PatternType := PrefixMatch; pr_RouteConfig := config |}
  else
    {| pr_Pattern := normalizedPattern; pr_PatternType := WildcardMatch; pr_RouteConfig := config |}.

Definition AddRoute (pattern : string) (config : RouteRef) (r : DatabaseRouter C) : DatabaseRouter C :=
  let cache := bc_clear (routeCache r) in
  let normalizedPattern := NormalizeDatabaseName pattern in
  if decide (normalizedPattern = "*") then
    {| routes := routes r; wildcardRoute := Some config; patternRoutes := patternRoutes r; routeCache := cache |}
  else if Contains normalizedPattern "*" then
    {| routes := routes r; wildcardRoute := wildcardRoute r;
       patternRoutes := patternRoutes r ++ [make_pattern_route normalizedPattern config]; routeCache := cache |}
  else
    {| routes := <[normalizedPattern := config]> (routes r); wildcardRoute := wildcardRoute r;
       patternRoutes := patternRoutes r; routeCache := cache |}.

Definition RemoveRoute (pattern : string) (r : DatabaseRouter C) : DatabaseRouter C :=
  let cache := bc_clear (routeCache r) in
  if decide (pattern = "*") then
    {| routes := routes r; wildcardRoute := None; patternRoutes := patternRoutes r; routeCache := cache |}
  else
    {| routes := delete pattern (routes r); wildcardRoute := wildcardRoute r;
       patternRoutes := filter (fun pr => pr_Pattern pr <> pattern) (patternRoutes r); routeCache := cache |}.

Definition matchesWildcard (dbName pattern : string) : bool :=
  let regexPattern := ReplaceAll pattern "*" ".*" in
  let regexPattern := "^" +:+ regexPattern +:+ "$" in
  match MatchString regexPattern dbName with
  | None => false
  | Some matched => matched
  end.

Definition matchesPattern (dbName : string) (pattern : PatternRoute) : bool :=
  match pr_PatternType pattern with
  | PrefixMatch => HasPrefix dbName (pr_Pattern pattern)
  | SuffixMatch => HasSuffix dbName (pr_Pattern pattern)
  | ContainsMatch => Contains dbName (pr_Pattern pattern)
  | WildcardMatch => matchesWildcard dbName (pr_Pattern pattern)
  | ExactMatch => false
  end.

(** [for _, pr := range r.patternRoutes { if matches { route = ...; break } }] *)
Fixpoint first_pattern (dbName : string) (l : list PatternRoute) : option RouteRef :=
  match l with
  | [] => None
  | pr :: l' => if matchesPattern dbName pr then Some (pr_RouteConfig pr) else first_pattern dbName l'
  end.

(** The part of [GetRoute] that runs under the read lock. *)
Definition GetRoute_locked (databaseName normalizedDbName : string) (now : Z) (r : DatabaseRouter C)
    : outcome RouteRef * DatabaseRouter C :=
  let route :=
    match routes r !! normalizedDbName with
    | Some exactRoute => Some exactRoute
    | None =>
        match first_pattern normalizedDbName (patternRoutes r) with
        | Some route => Some route
        | None => wildcardRoute r
        end
    end in
  match route with
  | None => (Err ("no route found for database: " +:+ databaseName), r)
  | Some route => (Ret route, with_cache r (bc_add normalizedDbName route now (routeCache r)))
  end.

Definition GetRoute (databaseName : string) (now : Z) (r : DatabaseRouter C)
    : outcome RouteRef * DatabaseRouter C :=
  let normalizedDbName := NormalizeDatabaseName databaseName in
  let '(cachedRoute, cache) := bc_get normalizedDbName now (routeCache r) in
  let r := with_cache r cache in
  match cachedRoute with
  | Some route => (Ret route, r)
  | None => GetRoute_locked databaseName normalizedDbName now r
  end.

(** The key a pattern route is listed under. *)
Definition route_key (pr : PatternRoute) : string :=
  match pr_PatternType pr with
  | PrefixMatch => pr_Pattern pr +:+ "*"
  | SuffixMatch => "*" +:+ pr_Pattern pr
  | ContainsMatch => "*" +:+ pr_Pattern pr +:+ "*"
  | ExactMatch | WildcardMatch => pr_Pattern pr
  end.

Definition GetAllRoutes (r : DatabaseRouter C) : gmap string RouteRef :=
  let result := fold_left (fun result pr => <[route_key pr := pr_RouteConfig pr]> result)
                  (patternRoutes r) (routes r) in
  match wildcardRoute r with
  | Some w => <["*" := w]> result
  | None => result
  end.

Definition ExtractDatabaseName (op : Operation) : outcome string :=
  let '(_, collection) := om_CommandAndCollection (op_methods op) in
  let collectionInfo := ParseCollectionName collection in
  if decide (collection <> "" /\ ci_Database collectionInfo <> "") then
    Ret (NormalizeDatabaseName (ci_Database collectionInfo))
  else if om_IsIsMaster (op_methods op) then Ret (NormalizeDatabaseName "admin")
  else Ret (NormalizeDatabaseName "admin").

(** The client of a route; [None] is a nil client. *)
Definition route_client (heap : gmap RouteRef RouteConfig) (route : RouteRef) : outcome (option MongoRef) :=
  match heap !! route with
  | Some config => Ret (rc_MongoClient config)
  | None => Panic "nil pointer dereference"
  end.

Definition RouteMessage (heap : gmap RouteRef RouteConfig) (op : Operation) (now : Z) (r : DatabaseRouter C)
    : outcome (option MongoRef) * DatabaseRouter C :=
  match ExtractDatabaseName op with
  | Ret dbName =>
      let '(route, r) := GetRoute dbName now r in
      (let? route := route in route_client heap route, r)
  | Err e =>
      match wildcardRoute r with
      | Some w => (route_client heap w, r)
      | None => (Err ("failed to extract database name: " +:+ e), r)
      end
  | Panic w => (Panic w, r)
  | NoFuel => (NoFuel, r)
  end.

Definition UpdateRoute (pattern : string) (config : RouteRef) (r : DatabaseRouter C) : DatabaseRouter C :=
  AddRoute pattern config r.

Record RouterStatistics := {
  rs_exact_routes : nat;
  rs_pattern_routes : nat;
  rs_has_wildcard : bool;
  rs_cache_size : nat;
  rs_routes : list (string * string * string)
}.

(** The route details come in the order the map is iterated. *)
Definition Router_Statistics (heap : gmap RouteRef RouteConfig) (r : DatabaseRouter C) : RouterStatistics := {|
  rs_exact_routes := size (routes r);
  rs_pattern_routes := length (patternRoutes r);
  rs_has_wildcard := bool_decide (is_Some (wildcardRoute r));
  rs_cache_size := bc_len (routeCache r);
  rs_routes := omap (fun '(db, route) => (fun config => (db, rc_Label config, rc_PoolMode config)) <$> heap !! route)
                 (map_to_list (routes r))
|}.

(** ** The routing table without its cache *)

Definition resolve (r : DatabaseRouter C) (db : string) : option RouteRef :=
  match routes r !! db with
  | Some route => Some route
  | None =>
      match first_pattern db (patternRoutes r) with
      | Some route => Some route
      | None => wildcardRoute r
      end
  end.

Definition answer (databaseName : string) (route : option RouteRef) : outcome RouteRef :=
  or_err route ("no route found for database: " +:+ databaseName).

(** The cache only holds answers of the table. *)
Definition coherent (r : DatabaseRouter C) : Prop :=
  bc_inv (routeCache r) /\ forall db route, bc_peek db (routeCache r) = Some route -> resolve r db = Some route.

(** The atomic steps of concurrent clients of the router: the write-locked
    [AddRoute] and [RemoveRoute], the two halves of [GetRoute] (the probe of the
    cache takes no router lock), and the tick of the cache's expiry. *)
Inductive router_step : DatabaseRouter C -> DatabaseRouter C -> Prop :=
| step_AddRoute r pattern config : router_step r (AddRoute pattern config r)
| step_RemoveRoute r pattern : router_step r (RemoveRoute pattern r)
| step_probe r db now : router_step r (with_cache r (snd (bc_get db now (routeCache r))))
| step_lookup r db now : router_step r (snd (GetRoute_locked db (NormalizeDatabaseName db) now r))
| step_expire r now : router_step r (with_cache r (bc_expire now (routeCache r))).

Lemma resolve_with_cache r c db : resolve (with_cache r c) db = resolve r db.
Proof. done. Qed.

Lemma GetRoute_locked_eq db name now r :
  GetRoute_locked db name now r =
  (answer db (resolve r name),
   match resolve r name with
   | Some route => with_cache r (bc_add name route now (routeCache r))
   | None => r
   end).
Proof. unfold GetRoute_locked, answer, resolve. repeat case_match; by simplify_eq/=. Qed.

Section with_laws.
Context `{BL : !BoundedCacheLaws string RouteRef C}.

(** A router whose cache was just cleared is coherent. *)
Lemma coherent_cleared r r' :
  bc_inv (routeCache r) -> routeCache r' = bc_clear (routeCache r) -> coherent r'.
Proof.
  intros Hc E. split; rewrite E; [by apply bc_inv_clear|].
  intros db route. by rewrite bc_peek_clear.
Qed.

Lemma AddRoute_cache p cfg r : routeCache (AddRoute p cfg r) = bc_clear (routeCache r).
Proof. unfold AddRoute. by repeat case_match. Qed.

Lemma RemoveRoute_cache p r : routeCache (RemoveRoute p r) = bc_clear (routeCache r).
Proof. unfold RemoveRoute. by repeat case_match. Qed.

Lemma coherent_probe r db now : coherent r -> coherent (with_cache r (snd (bc_get db now (routeCache r)))).
Proof.
  intros [Hi Hc]. split; cbn; [by apply bc_inv_get|].
  intros db' route. rewrite bc_peek_get by done. rewrite resolve_with_cache. apply Hc.
Qed.

Lemma coherent_locked r db name now : coherent r -> coherent (snd (GetRoute_locked db name now r)).
Proof.
  intros [Hi Hc]. rewrite GetRoute_locked_eq. cbn. destruct (resolve r name) as [route|] eqn:E; [|done].
  split; cbn; [by apply bc_inv_add|]. intros db' route'. rewrite resolve_with_cache.
  destruct (decide (name = db')) as [<-|Hne]; [rewrite bc_peek_add by done; congruence|].
  intros Hp. by apply Hc, (bc_peek_add_ne name db' route route' now).
Qed.

Lemma coherent_step r r' : router_step r r' -> coherent r -> coherent r'.
Proof.
  destruct 1 as [r p cfg|r p|r db now|r db now|r now]; intros Hr.
  - apply (coherent_cleared r); [apply Hr|apply AddRoute_cache].
  - apply (coherent_cleared r); [apply Hr|apply RemoveRoute_cache].
  - by apply coherent_probe.
  - by apply coherent_locked.
  - destruct Hr as [Hi Hc]. split; cbn; [by apply bc_inv_expire|].
    intros db route Hp. by eapply Hc, bc_peek_expire.
Qed.

Lemma coherent_reachable r r' : rtc router_step r r' -> coherent r -> coherent r'.
Proof. induction 1; eauto using coherent_step. Qed.

Lemma probe_resolves r db now route :
  coherent r -> fst (bc_get db now (routeCache r)) = Some route -> resolve r db = Some route.
Proof. intros [Hi Hc]. rewrite bc_get_peek by done. apply Hc. Qed.

Lemma GetRoute_coherent r db now :
  coherent r ->
  fst (GetRoute db now r) = answer db (resolve r (NormalizeDatabaseName db)) /\
  coherent (snd (GetRoute db now r)) /\ (forall k, resolve (snd (GetRoute db now r)) k = resolve r k).
Proof.
  intros Hr. unfold GetRoute.
  pose proof (probe_resolves r (NormalizeDatabaseName db) now) as Hp.
  pose proof (coherent_probe r (NormalizeDatabaseName db) now Hr) as Hc.
  destruct (bc_get (NormalizeDatabaseName db) now (routeCache r)) as [[route|] cache]; cbn in *.
  - rewrite (Hp route) by done. split_and!; [done|done|apply resolve_with_cache].
  - pose proof (coherent_locked _ db (NormalizeDatabaseName db) now Hc) as Hl.
    rewrite GetRoute_locked_eq in *. cbn in *. split_and!; [done|done|].
    intros k. by destruct (resolve _ _).
Qed.

(** The answer of a router reachable from a coherent one, whatever its cache holds. *)
Lemma GetRoute_reachable r0 r db now :
  coherent r0 -> rtc router_step r0 r -> fst (GetRoute db now r) = answer db (resolve r (NormalizeDatabaseName db)).
Proof. intros H0 Hr. by apply GetRoute_coherent, (coherent_reachable r0). Qed.

End with_laws.

(** ** How the operations change the table *)

Lemma first_pattern_app db l1 l2 :
  first_pattern db (l1 ++ l2) =
  match first_pattern db l1 with Some route => Some route | None => first_pattern db l2 end.
Proof. induction l1 as [|pr l1 IH]; [done|]. cbn. by destruct (matchesPattern db pr). Qed.

Definition is_star_pattern (p : string) : Prop :=
  NormalizeDatabaseName p <> "*" /\ Contains (NormalizeDatabaseName p) "*" = true.

Lemma resolve_AddRoute p cfg r db :
  resolve (AddRoute p cfg r) db =
  let np := NormalizeDatabaseName p in
  let specific := match routes r !! db with Some route => Some route | None => first_pattern db (patternRoutes r) end in
  if decide (np = "*") then match specific with Some route => Some route | None => Some cfg end
  else if Contains np "*" then
    match specific with
    | Some route => Some route
    | None => if matchesPattern db (make_pattern_route np cfg) then Some cfg else wildcardRoute r
    end
  else if decide (db = np) then Some cfg else resolve r db.
Proof.
  cbn zeta. unfold AddRoute, resolve. case_decide; cbn; [by repeat case_match|].
  destruct (Contains _ _) eqn:E; cbn.
  - destruct (routes r !! db); [done|]. rewrite first_pattern_app. cbn.
    destruct (first_pattern db _); [done|].
    unfold make_pattern_route. by repeat case_match.
  - case_decide; subst; [by rewrite lookup_insert_eq|]. by rewrite lookup_insert_ne.
Qed.

(** ** Patterns denote globs *)

Definition star : ascii := "*"%char.

(** The patterns of the documentation: one run of stars at one or both ends
    around a literal, or stars strictly inside. *)
Inductive simple_pattern : string -> Prop :=
| sp_prefix x : x <> "" -> no_byte star x = true -> simple_pattern (x +:+ "*")
| sp_suffix x : x <> "" -> no_byte star x = true -> simple_pattern ("*" +:+ x)
| sp_contains x : no_byte star x = true -> simple_pattern ("*" +:+ x +:+ "*")
| sp_inner p : HasPrefix p "*" = false -> HasSuffix p "*" = false -> simple_pattern p.

Lemma no_byte_append c s t : no_byte c (s +:+ t) = no_byte c s && no_byte c t.
Proof. apply str_forall_append. Qed.

Lemma HasPrefix_byte_free c x p : x <> "" -> no_byte c x = true -> HasPrefix (x +:+ p) (String c "") = false.
Proof.
  intros Hx Hn. destruct x as [|a x]; [done|]. rewrite no_byte_cons in Hn.
  apply andb_true_iff in Hn as [Ha%bool_decide_eq_true _].
  destruct (HasPrefix _ _) eqn:E; [|done]. apply HasPrefix_spec in E as [t E].
  rewrite !append_cons in E. by simplify_eq.
Qed.

Lemma HasSuffix_byte_free c p x : x <> "" -> no_byte c x = true -> HasSuffix (p +:+ x) (String c "") = false.
Proof.
  intros Hx Hn. unfold HasSuffix. destruct (_ && _) eqn:E; [|done].
  apply andb_true_iff in E as [_ E%bool_decide_eq_true]. rewrite length_append in E. cbn [String.length] in E.
  assert (0 < String.length x) by (destruct x; cbn; [done|lia]).
  replace (_ + _ - 1) with (String.length p + (String.length x - 1)) in E by lia.
  rewrite str_drop_add, str_drop_append in E.
  rewrite <- (take_drop_str (String.length x - 1) x), E, no_byte_append, no_byte_cons in Hn.
  by rewrite bool_decide_false, andb_false_r in Hn by auto.
Qed.

Lemma HasSuffix_append p x : HasSuffix (p +:+ x) x = true.
Proof. apply HasSuffix_spec. by exists p. Qed.

Lemma TrimRight_byte c x : no_byte c x = true -> TrimRight (x +:+ String c "") c = x.
Proof.
  induction x as [|a x IH]; [intros _; rewrite append_nil_l; cbn [TrimRight]; by rewrite bool_decide_true|].
  rewrite no_byte_cons. intros [Ha%bool_decide_eq_true Hx]%andb_true_iff.
  rewrite append_cons. cbn [TrimRight]. rewrite IH by done. destruct x; [by rewrite bool_decide_false|done].
Qed.

Lemma TrimLeft_byte c x p : no_byte c x = true -> x <> "" -> TrimLeft (x +:+ p) c = x +:+ p.
Proof.
  intros Hn Hx. destruct x as [|a x]; [done|]. rewrite no_byte_cons in Hn.
  apply andb_true_iff in Hn as [Ha%bool_decide_eq_true _]. rewrite append_cons. cbn. by rewrite bool_decide_false.
Qed.

Lemma Trim_star x : no_byte star x = true -> Trim ("*" +:+ x +:+ "*") star = x.
Proof.
  intros Hx. unfold Trim. rewrite append_cons, append_nil_l. cbn [TrimLeft].
  rewrite bool_decide_true by done. destruct (decide (x = "")) as [->|Hne]; [done|].
  rewrite TrimLeft_byte by done. by apply TrimRight_byte.
Qed.

(** What [AddRoute] makes of each documented shape. *)
Lemma make_prefix x cfg : x <> "" -> no_byte star x = true ->
  make_pattern_route (x +:+ "*") cfg = {| pr_Pattern := x; pr_PatternType := PrefixMatch; pr_RouteConfig := cfg |}.
Proof.
  intros Hne Hx. unfold make_pattern_route. rewrite HasPrefix_byte_free, HasSuffix_append by done. cbn.
  unfold TrimSuffix. rewrite HasSuffix_append, length_append. cbn.
  replace (_ + 1 - 1) with (String.length x) by lia. by rewrite str_take_append.
Qed.

Lemma make_suffix x cfg : x <> "" -> no_byte star x = true ->
  make_pattern_route ("*" +:+ x) cfg = {| pr_Pattern := x; pr_PatternType := SuffixMatch; pr_RouteConfig := cfg |}.
Proof.
  intros Hne Hx. unfold make_pattern_route. rewrite HasSuffix_byte_free by done.
  assert (HasPrefix ("*" +:+ x) "*" = true) as E by (apply HasPrefix_spec; by exists x).
  rewrite E. cbn [andb]. unfold TrimPrefix. by rewrite E.
Qed.

Lemma make_contains x cfg : no_byte star x = true ->
  make_pattern_route ("*" +:+ x +:+ "*") cfg = {| pr_Pattern := x; pr_PatternType := ContainsMatch; pr_RouteConfig := cfg |}.
Proof.
  intros Hx. unfold make_pattern_route.
  assert (HasPrefix ("*" +:+ x +:+ "*") "*" = true) as -> by (apply HasPrefix_spec; by eexists).
  rewrite append_assoc, HasSuffix_append. cbn [andb]. rewrite <- append_assoc. by rewrite Trim_star.
Qed.

(** Globs, by shape. *)
Lemma glob_literal x p s : no_byte star x = true -> Glob (x +:+ p) s <-> exists t, s = x +:+ t /\ Glob p t.
Proof.
  revert s. induction x as [|a x IH]; intros s Hx.
  - rewrite append_nil_l. split; [by exists s|by intros (t & -> & H)].
  - rewrite no_byte_cons in Hx. apply andb_true_iff in Hx as [Ha%bool_decide_eq_true Hx].
    rewrite append_cons. split.
    + inversion 1 as [|? ? s' Ha' Hg|]; simplify_eq. apply IH in Hg as (t & -> & Ht); [|done]. by exists t.
    + intros (t & -> & Ht). rewrite append_cons. constructor; [done|]. apply IH; eauto.
Qed.

Lemma glob_star_eq p s : Glob (String star p) s <-> exists g t, s = g +:+ t /\ no_byte newline g = true /\ Glob p t.
Proof.
  split; [inversion 1; simplify_eq; eauto|]. intros (g & t & -> & Hg & Ht). by constructor.
Qed.

Lemma glob_empty s : Glob "" s <-> s = "".
Proof. split; [by inversion 1|intros ->; constructor]. Qed.

Lemma glob_literal_end x s : no_byte star x = true -> Glob x s <-> s = x.
Proof.
  intros Hx. rewrite <- (append_nil_r x) at 1. rewrite glob_literal by done.
  split; [intros (t & -> & ->%glob_empty); apply append_nil_r|].
  intros ->. exists "". rewrite append_nil_r. split; [done|constructor].
Qed.

(** C16.
    Patterns mean what they say: for the documented shapes (literal text with
    a star at one or both ends, or stars inside), the route added for a
    pattern matches exactly the newline-free names the glob denotes. *)
Theorem pattern_matches_glob p cfg db :
  simple_pattern p -> literal_pattern p = true -> no_byte newline db = true ->
  matchesPattern db (make_pattern_route p cfg) = true <-> Glob p db.
Proof.
  intros Hp Hl Hdb. destruct Hp as [x Hne Hx|x Hne Hx|x Hx|p H1 H2].
  - rewrite make_prefix, glob_literal by done. cbn. rewrite HasPrefix_spec. split.
    + intros [t ->]. exists t. split; [done|]. rewrite no_byte_append in Hdb. apply andb_true_iff in Hdb as [_ Ht].
      apply glob_star_eq. exists t, "". rewrite append_nil_r. split_and!; [done|done|constructor].
    + intros (t & -> & _). by exists t.
  - rewrite make_suffix by done. cbn [matchesPattern pr_PatternType pr_Pattern].
    change ("*" +:+ x) with (String star x). rewrite HasSuffix_spec, glob_star_eq. split.
    + intros [g ->]. rewrite no_byte_append in Hdb. apply andb_true_iff in Hdb as [Hg _].
      exists g, x. split_and!; [done|done|]. by apply glob_literal_end.
    + intros (g & t & -> & _ & ->%glob_literal_end); [by exists g|done].
  - rewrite make_contains by done. cbn [matchesPattern pr_PatternType pr_Pattern].
    change ("*" +:+ x +:+ "*") with (String star (x +:+ "*")). rewrite Contains_spec, glob_star_eq. split.
    + intros (g & t & ->). rewrite !no_byte_append in Hdb. apply andb_true_iff in Hdb as [Hg [_ Ht]%andb_true_iff].
      exists g, (x +:+ t). split_and!; [done|done|]. apply glob_literal; [done|]. exists t. split; [done|].
      apply glob_star_eq. exists t, "". rewrite append_nil_r. split_and!; [done|done|constructor].
    + intros (g & t & -> & _ & Hg). apply glob_literal in Hg as (t' & -> & _); [|done]. by exists g, t'.
  - unfold make_pattern_route. rewrite H1, H2. cbn. unfold matchesWildcard, MatchString.
    change ("^" +:+ ?s) with (String "^" s). cbn [parse_anchored]. rewrite parse_glob by done. apply rmatch_glob.
Qed.

(** A pattern with a star at an end and another one inside is compared with
    its inner star as a plain byte: it matches no name without a star, so a
    pattern such as [*a*b] routes no database. *)
Theorem edge_pattern_inner_star p cfg db :
  HasPrefix p "*" || HasSuffix p "*" = true ->
  no_byte star (pr_Pattern (make_pattern_route p cfg)) = false -> no_byte star db = true ->
  matchesPattern db (make_pattern_route p cfg) = false.
Proof.
  intros Hp Hs Hdb. destruct (matchesPattern _ _) eqn:E; [exfalso|done].
  assert (exists s t, db = s +:+ pr_Pattern (make_pattern_route p cfg) +:+ t) as (s & t & ->).
  { unfold make_pattern_route in *. destruct (HasPrefix p "*"), (HasSuffix p "*"); cbn in *; try done.
    - by apply Contains_spec in E.
    - apply HasSuffix_spec in E as [s ->]. exists s, "". by rewrite append_nil_r.
    - apply HasPrefix_spec in E as [t ->]. by exists "", t. }
  rewrite !no_byte_append, Hs in Hdb. by rewrite andb_false_l, andb_false_r in Hdb.
Qed.

(** The key a documented pattern is listed under is the pattern. *)
Lemma route_key_simple p cfg : simple_pattern p -> route_key (make_pattern_route p cfg) = p.
Proof.
  destruct 1 as [x Hne Hx|x Hne Hx|x Hx|p H1 H2].
  - by rewrite make_prefix.
  - by rewrite make_suffix.
  - by rewrite make_contains.
  - unfold make_pattern_route. by rewrite H1, H2.
Qed.

(** [GetAllRoutes] lists a route just added under its normalized pattern, for
    the documented pattern shapes. *)
Theorem GetAllRoutes_AddRoute p cfg r :
  is_star_pattern p -> simple_pattern (NormalizeDatabaseName p) ->
  GetAllRoutes (AddRoute p cfg r) !! NormalizeDatabaseName p = Some cfg.
Proof.
  intros [H1 H2] Hs. unfold GetAllRoutes, AddRoute. rewrite decide_False, H2 by done. cbn.
  rewrite fold_left_app. cbn. rewrite route_key_simple by done.
  assert (pr_RouteConfig (make_pattern_route (NormalizeDatabaseName p) cfg) = cfg) as ->.
  { unfold make_pattern_route. by repeat case_match. }
  destruct (wildcardRoute r); [rewrite lookup_insert_ne by done|]; by rewrite lookup_insert_eq.
Qed.

Section operations_with_laws.
Context `{BL : !BoundedCacheLaws string RouteRef C}.

(** [GetRoute] right after [AddRoute], on every branch: an exact route
    answers for its own name in any case and for no other; a pattern route
    answers for the names it matches that no exact or earlier pattern route
    takes; the catch-all route for the names nothing else takes. *)
Theorem GetRoute_AddRoute p cfg r db now :
  coherent r ->
  let np := NormalizeDatabaseName p in
  let name := NormalizeDatabaseName db in
  let specific := match routes r !! name with
                  | Some route => Some route
                  | None => first_pattern name (patternRoutes r)
                  end in
  fst (GetRoute db now (AddRoute p cfg r)) =
  answer db
    (if decide (np = "*") then match specific with Some route => Some route | None => Some cfg end
     else if Contains np "*" then
       match specific with
       | Some route => Some route
       | None => if matchesPattern name (make_pattern_route np cfg) then Some cfg else wildcardRoute r
       end
     else if decide (name = np) then Some cfg else resolve r name).
Proof.
  intros Hr. cbn zeta. rewrite (proj1 (GetRoute_coherent _ db now (coherent_step _ _ (step_AddRoute r p cfg) Hr))).
  by rewrite resolve_AddRoute.
Qed.

(** Removing an exact route by its normalized name makes the name fall
    through to the patterns, provided no pattern route has that text, and
    changes no other name. *)
Theorem GetRoute_RemoveRoute p r db now :
  coherent r -> p <> "*" -> Forall (fun pr => pr_Pattern pr <> p) (patternRoutes r) ->
  let name := NormalizeDatabaseName db in
  fst (GetRoute db now (RemoveRoute p r)) =
  answer db (if decide (name = p) then
               match first_pattern name (patternRoutes r) with Some route => Some route | None => wildcardRoute r end
             else resolve r name).
Proof.
  intros Hr Hp Hpr. cbn zeta.
  rewrite (proj1 (GetRoute_coherent _ db now (coherent_step _ _ (step_RemoveRoute r p) Hr))).
  f_equal. unfold RemoveRoute. rewrite decide_False by done. unfold resolve. cbn.
  assert (filter (fun pr => pr_Pattern pr <> p) (patternRoutes r) = patternRoutes r) as ->.
  { induction Hpr as [|pr l Hpr _ IH]; [done|]. rewrite filter_cons_True by done. by rewrite IH. }
  case_decide as E; [rewrite E, lookup_delete_eq|rewrite lookup_delete_ne by done]; done.
Qed.

(** Removing a prefix pattern by the text it was added with does not remove
    it: every name still resolves as before the removal. *)
Theorem RemoveRoute_pattern_kept x cfg r db now :
  coherent r -> x <> "" -> no_byte star x = true -> NormalizeDatabaseName (x +:+ "*") = x +:+ "*" ->
  routes r !! (x +:+ "*") = None -> Forall (fun pr => pr_Pattern pr <> x +:+ "*") (patternRoutes r) ->
  fst (GetRoute db now (RemoveRoute (x +:+ "*") (AddRoute (x +:+ "*") cfg r))) =
  fst (GetRoute db now (AddRoute (x +:+ "*") cfg r)).
Proof.
  intros Hr Hne Hx Hn Hroutes Hpr. pose proof (coherent_step _ _ (step_AddRoute r (x +:+ "*") cfg) Hr) as Hr1.
  rewrite (proj1 (GetRoute_coherent _ db now (coherent_step _ _ (step_RemoveRoute _ (x +:+ "*")) Hr1))).
  rewrite (proj1 (GetRoute_coherent _ db now Hr1)). f_equal.
  assert (x +:+ "*" <> "*") as Hstar.
  { destruct x as [|a x]; [done|]. rewrite append_cons. intros [= _ E]. by destruct x. }
  assert (Contains (x +:+ "*") "*" = true) as Hc.
  { apply Contains_spec. exists x, "". done. }
  unfold RemoveRoute, AddRoute. rewrite Hn, !decide_False, Hc by done. unfold resolve. cbn [routes patternRoutes wildcardRoute].
  rewrite make_prefix by done. rewrite delete_id by done.
  assert (filter (fun pr => pr_Pattern pr <> x +:+ "*")
    (patternRoutes r ++ [{| pr_Pattern := x; pr_PatternType := PrefixMatch; pr_RouteConfig := cfg |}]) =
    patternRoutes r ++ [{| pr_Pattern := x; pr_PatternType := PrefixMatch; pr_RouteConfig := cfg |}]) as ->; [|done].
  rewrite filter_app, filter_cons_True; cbn.
  - f_equal. induction Hpr as [|pr l Hp _ IH]; [done|]. rewrite filter_cons_True by done. by rewrite IH.
  - intros E. rewrite E in Hx at 1. by rewrite no_byte_append, andb_false_r in Hx.
Qed.

Lemma matches_same p c1 c2 db : matchesPattern db (make_pattern_route p c1) = matchesPattern db (make_pattern_route p c2).
Proof. unfold make_pattern_route. by repeat case_match. Qed.

(** Updating a pattern route has no effect on any lookup: the new
    configuration is appended behind the one it was meant to replace. *)
Theorem UpdateRoute_pattern_ignored p c1 c2 r db now :
  coherent r -> is_star_pattern p ->
  fst (GetRoute db now (UpdateRoute p c2 (AddRoute p c1 r))) = fst (GetRoute db now (AddRoute p c1 r)).
Proof.
  intros Hr [H1 H2]. pose proof (coherent_step _ _ (step_AddRoute r p c1) Hr) as Hr1. unfold UpdateRoute.
  rewrite (proj1 (GetRoute_coherent _ db now (coherent_step _ _ (step_AddRoute _ p c2) Hr1))).
  rewrite (proj1 (GetRoute_coherent _ db now Hr1)). f_equal.
  rewrite resolve_AddRoute. cbn zeta. rewrite decide_False, H2 by done.
  unfold AddRoute, resolve. rewrite decide_False, H2 by done. cbn.
  destruct (routes r !! _); [done|]. rewrite !first_pattern_app. destruct (first_pattern _ _); [done|]. cbn.
  rewrite (matches_same _ c2 c1). by destruct (matchesPattern _ _).
Qed.

End operations_with_laws.

(** The database an [OP_MSG] names in its [$db] field plays no part in
    [ExtractDatabaseName]: unless the collection name has a dot, the answer is
    the admin database. *)
Theorem ExtractDatabaseName_msg m :
  no_byte "." (snd (om_CommandAndCollection (opMsg_methods m))) = true ->
  ExtractDatabaseName (Op_msg m) = Ret (NormalizeDatabaseName "admin").
Proof.
  intros Hn. unfold ExtractDatabaseName. cbn [op_methods].
  destruct (om_CommandAndCollection (opMsg_methods m)) as [command collection]. cbn [snd] in Hn.
  rewrite decide_False; [by case_match|]. intros [_ Hd]. apply Hd.
  unfold ParseCollectionName. by rewrite SplitN_none.
Qed.

End Router.

(** ** The router over the LRU cache *)

Lemma coherent_New `{UC : UnicodeCase, RX : RegexpOther} : coherent NewDatabaseRouter.
Proof.
  split; [by apply lru_new_inv|]. intros db route. cbn [routeCache NewDatabaseRouter].
  by rewrite lru_new_empty.
Qed.

(** C2.
    The route cache is transparent: however route changes, lookups of
    concurrent clients and expiry ticks interleave from a new router on, a
    cache hit and a full [GetRoute] both give what the routing table of that
    moment says: the exact route, else the first matching pattern, else the
    catch-all, else an error. *)
Theorem GetRoute_cache_transparent `{UC : UnicodeCase, RX : RegexpOther} r db now :
  rtc router_step NewDatabaseRouter r ->
  (forall name route, fst (Lru.Get name now (routeCache r)) = Some route -> resolve r name = Some route) /\
  fst (GetRoute db now r) = answer db (resolve r (NormalizeDatabaseName db)).
Proof.
  intros Hr. split.
  - intros name route. change (Lru.Get name now (routeCache r)) with (bc_get name now (routeCache r)).
    apply probe_resolves, (coherent_reachable NewDatabaseRouter); [done|apply coherent_New].
  - apply (GetRoute_reachable NewDatabaseRouter); [apply coherent_New|done].
Qed.
