(* ===== verification/RouterWitnesses.v ===== *)
(** * Runs of the router

    The theorems of [Router.v] applied to concrete routers, with the case
    mapping of ASCII, literal patterns and the reference wire format. *)

From S2P Require Import Prelude GoStrings Parsing Lru CacheInterface Wire Command Operations WireRef ClientSettings Router.
From Stdlib Require Import ZArith Lia Ascii.

#[local] Existing Instance ascii_case.
#[local] Existing Instance no_other_regexp.

(** [app], [analytics_*] and [*] added in this order. *)
Definition sample_router : DatabaseRouter (Lru.Cache string nat) :=
  AddRoute "*" 3 (AddRoute "analytics_*" 2 (AddRoute "App" 1 NewDatabaseRouter)).

Lemma sample_reachable : rtc router_step NewDatabaseRouter (snd (GetRoute_locked "Analytics_eu" "analytics_eu" 7 sample_router)).
Proof.
  eapply rtc_l; [apply (step_AddRoute _ "App" 1)|]. eapply rtc_l; [apply (step_AddRoute _ "analytics_*" 2)|].
  eapply rtc_l; [apply (step_AddRoute _ "*" 3)|]. apply rtc_once. apply (step_lookup _ "Analytics_eu" 7).
Qed.

Lemma GetRoute_cache_transparent_witness :
  fst (GetRoute "ANALYTICS_EU" 8 (snd (GetRoute_locked "Analytics_eu" "analytics_eu" 7 sample_router))) = Ret 2.
Proof.
  pose proof (GetRoute_cache_transparent _ "ANALYTICS_EU" 8 sample_reachable) as [_ H].
  rewrite H. by vm_compute.
Defined.

Lemma coherent_sample : coherent sample_router.
Proof.
  unfold sample_router.
  repeat (eapply coherent_step; [apply step_AddRoute|]). apply coherent_New.
Qed.

Lemma GetRoute_AddRoute_witness : fst (GetRoute "APP" 9 (AddRoute "aPP" 5 sample_router)) = Ret 5.
Proof. rewrite (GetRoute_AddRoute "aPP" 5 sample_router "APP" 9 coherent_sample). by vm_compute. Defined.

Lemma GetRoute_RemoveRoute_witness : fst (GetRoute "App" 9 (RemoveRoute "app" sample_router)) = Ret 3.
Proof.
  rewrite (GetRoute_RemoveRoute "app" sample_router "App" 9 coherent_sample); [by vm_compute|done|].
  vm_compute. by repeat constructor.
Defined.

Lemma RemoveRoute_pattern_kept_witness :
  fst (GetRoute "test_1" 9 (RemoveRoute "test_*" (AddRoute "test_*" 4 sample_router))) = Ret 4.
Proof.
  change "test_*" with ("test_" +:+ "*").
  rewrite (RemoveRoute_pattern_kept "test_" 4 sample_router "test_1" 9 coherent_sample);
    [by vm_compute|done|by vm_compute|by vm_compute|by vm_compute|].
  vm_compute. by repeat constructor.
Defined.

Lemma UpdateRoute_pattern_ignored_witness :
  fst (GetRoute "test_1" 9 (UpdateRoute "test_*" 5 (AddRoute "test_*" 4 sample_router))) = Ret 4.
Proof.
  rewrite (UpdateRoute_pattern_ignored "test_*" 4 5 sample_router "test_1" 9 coherent_sample); [by vm_compute|].
  split; by vm_compute.
Defined.

Lemma GetAllRoutes_AddRoute_witness :
  GetAllRoutes (AddRoute "Test_*" 4 sample_router) !! "test_*" = Some 4.
Proof.
  apply (GetAllRoutes_AddRoute "Test_*" 4 sample_router); [split; by vm_compute|].
  apply (sp_prefix "test_"); [done|by vm_compute].
Defined.

Lemma pattern_matches_glob_witness : Glob "analytics_*_v2" "analytics_tenant_v2".
Proof.
  apply (pattern_matches_glob "analytics_*_v2" 0 "analytics_tenant_v2");
    [apply sp_inner; by vm_compute|by vm_compute|by vm_compute|by vm_compute].
Defined.

Lemma edge_pattern_inner_star_witness :
  matchesPattern "xaxb" (make_pattern_route "*a*b" 0) = false.
Proof. apply (edge_pattern_inner_star "*a*b" 0 "xaxb"); by vm_compute. Defined.

Lemma ExtractDatabaseName_msg_witness : ExtractDatabaseName sample_msg = Ret "admin".
Proof. apply (ExtractDatabaseName_msg {| m_reqID := 42; m_flags := 1;
            m_sections := [opMsgSectionSingle sample_insert; opMsgSectionSequence "documents" [sample_user; sample_user]];
            m_checksum := 4000000000 |}). by vm_compute. Defined.
