(* ===== verification/Pool.v ===== *)
(** * The connection pool manager ([src/pool/pool.go])

    The manager's pools and clients, and the heap of pooled connections they
    point to.  Pools are created once per database name and never dropped, so
    a pool pointer is its name; a [*PooledConnection] is a reference into the
    heap, because the same connection is shared by the caller, by the client
    that holds it and by its own methods.  A client is only reached through
    [activeClients], so it is stored by value.  The metrics object, when there
    is one, is the log of the calls made on it.  [now] is the time read by an
    operation and [elapsed] the time a checkout takes, in nanoseconds; a nil
    connection is not a value of the model (every caller passes a non-nil one). *)

From S2P Require Import Prelude GoStrings ClientSettings.
From Stdlib Require Import ZArith Lia QArith_base.
Local Close Scope Q_scope.

(** [type PoolMode string] *)
Notation PoolMode := string (only parsing).
Definition SessionMode : PoolMode := "session".
Definition TransactionMode : PoolMode := "transaction".
Definition StatementMode : PoolMode := "statement".

Notation ConnRef := nat (only parsing).
Notation ClientRef := nat (only parsing).

Record PoolStats := {
  ps_TotalRequests : Z;
  ps_TotalWaitTime : Z;
  ps_SuccessfulRequests : Z;
  ps_FailedRequests : Z;
  ps_ConnectionErrors : Z;
  ps_ActiveConnections : Z
}.

Record ConnectionPool := {
  cp_name : string;
  cp_mode : PoolMode;
  cp_mongoClient : option ClientRef;
  cp_stats : PoolStats;
  cp_lastHealthCheck : Z;
  cp_isHealthy : bool;
  cp_healthCheckInterval : Z
}.

Record PooledConnection := {
  pc_ID : string;
  pc_MongoClient : option ClientRef;
  pc_Pool : string;
  pc_InUse : bool;
  pc_LastUsed : Z;
  pc_CreatedAt : Z;
  pc_TransactionID : string;
  pc_ClientID : string
}.

Record ClientConnection := {
  cl_ID : string;
  cl_Username : string;
  cl_Database : string;
  cl_PoolMode : PoolMode;
  cl_AssignedConn : option ConnRef;
  cl_TransactionConn : option ConnRef;
  cl_LastActivity : Z
}.

(** The calls on [util.MetricsInterface], all at sample rate 1. *)
Inductive MetricCall :=
| Incr (name : string) (tags : list string)
| Gauge (name : string) (value : Z) (tags : list string)
| Distribution (name : string) (nanoseconds : Z) (tags : list string)
| DistributionN (name : string) (value : Z) (tags : list string)
| GaugeQ (name : string) (value : Q) (tags : list string)
| Timing (name : string) (nanoseconds : Z) (tags : list string).

Record Manager := {
  metrics : option (list MetricCall);
  pools : gmap string ConnectionPool;
  defaultMode : PoolMode;
  minPoolSize : Z;
  maxPoolSize : Z;
  maxClientConn : Z;
  activeClients : gmap string ClientConnection;
  conns : gmap ConnRef PooledConnection;
  next_conn : ConnRef
}.

(** ** Field updates *)

Definition set_metrics (x : option (list MetricCall)) (m : Manager) : Manager :=
  {| metrics := x; pools := pools m; defaultMode := defaultMode m; minPoolSize := minPoolSize m;
     maxPoolSize := maxPoolSize m; maxClientConn := maxClientConn m; activeClients := activeClients m;
     conns := conns m; next_conn := next_conn m |}.

Definition set_pools (x : gmap string ConnectionPool) (m : Manager) : Manager :=
  {| metrics := metrics m; pools := x; defaultMode := defaultMode m; minPoolSize := minPoolSize m;
     maxPoolSize := maxPoolSize m; maxClientConn := maxClientConn m; activeClients := activeClients m;
     conns := conns m; next_conn := next_conn m |}.

Definition set_clients (x : gmap string ClientConnection) (m : Manager) : Manager :=
  {| metrics := metrics m; pools := pools m; defaultMode := defaultMode m; minPoolSize := minPoolSize m;
     maxPoolSize := maxPoolSize m; maxClientConn := maxClientConn m; activeClients := x;
     conns := conns m; next_conn := next_conn m |}.

Definition set_conns (x : gmap ConnRef PooledConnection) (n : ConnRef) (m : Manager) : Manager :=
  {| metrics := metrics m; pools := pools m; defaultMode := defaultMode m; minPoolSize := minPoolSize m;
     maxPoolSize := maxPoolSize m; maxClientConn := maxClientConn m; activeClients := activeClients m;
     conns := x; next_conn := n |}.

(** [if metrics != nil { _ = metrics.F(...) }] *)
Definition emit (c : MetricCall) (m : Manager) : Manager :=
  set_metrics ((fun log => log ++ [c]) <$> metrics m) m.

Definition set_stats (s : PoolStats) (p : ConnectionPool) : ConnectionPool :=
  {| cp_name := cp_name p; cp_mode := cp_mode p; cp_mongoClient := cp_mongoClient p; cp_stats := s;
     cp_lastHealthCheck := cp_lastHealthCheck p; cp_isHealthy := cp_isHealthy p;
     cp_healthCheckInterval := cp_healthCheckInterval p |}.

Definition set_health (healthy : bool) (now : Z) (p : ConnectionPool) : ConnectionPool :=
  {| cp_name := cp_name p; cp_mode := cp_mode p; cp_mongoClient := cp_mongoClient p; cp_stats := cp_stats p;
     cp_lastHealthCheck := now; cp_isHealthy := healthy;
     cp_healthCheckInterval := cp_healthCheckInterval p |}.

Definition with_stats (f : PoolStats -> PoolStats) (pool : string) (m : Manager) : Manager :=
  set_pools (alter (fun p => set_stats (f (cp_stats p)) p) pool (pools m)) m.

Definition with_client (f : ClientConnection -> ClientConnection) (clientID : string) (m : Manager) : Manager :=
  set_clients (alter f clientID (activeClients m)) m.

Definition set_AssignedConn (c : option ConnRef) (cl : ClientConnection) : ClientConnection :=
  {| cl_ID := cl_ID cl; cl_Username := cl_Username cl; cl_Database := cl_Database cl; cl_PoolMode := cl_PoolMode cl;
     cl_AssignedConn := c; cl_TransactionConn := cl_TransactionConn cl; cl_LastActivity := cl_LastActivity cl |}.

Definition set_TransactionConn (c : option ConnRef) (cl : ClientConnection) : ClientConnection :=
  {| cl_ID := cl_ID cl; cl_Username := cl_Username cl; cl_Database := cl_Database cl; cl_PoolMode := cl_PoolMode cl;
     cl_AssignedConn := cl_AssignedConn cl; cl_TransactionConn := c; cl_LastActivity := cl_LastActivity cl |}.

Definition set_LastActivity (now : Z) (cl : ClientConnection) : ClientConnection :=
  {| cl_ID := cl_ID cl; cl_Username := cl_Username cl; cl_Database := cl_Database cl; cl_PoolMode := cl_PoolMode cl;
     cl_AssignedConn := cl_AssignedConn cl; cl_TransactionConn := cl_TransactionConn cl; cl_LastActivity := now |}.

Definition set_TransactionID (id : string) (c : PooledConnection) : PooledConnection :=
  {| pc_ID := pc_ID c; pc_MongoClient := pc_MongoClient c; pc_Pool := pc_Pool c; pc_InUse := pc_InUse c;
     pc_LastUsed := pc_LastUsed c; pc_CreatedAt := pc_CreatedAt c; pc_TransactionID := id;
     pc_ClientID := pc_ClientID c |}.

(** [conn.InUse = false; conn.ClientID = ""; conn.TransactionID = ""; conn.LastUsed = now] *)
Definition release (now : Z) (c : PooledConnection) : PooledConnection :=
  {| pc_ID := pc_ID c; pc_MongoClient := pc_MongoClient c; pc_Pool := pc_Pool c; pc_InUse := false;
     pc_LastUsed := now; pc_CreatedAt := pc_CreatedAt c; pc_TransactionID := ""; pc_ClientID := "" |}.

(** ** Statistics *)

Definition zero_stats : PoolStats :=
  {| ps_TotalRequests := 0; ps_TotalWaitTime := 0; ps_SuccessfulRequests := 0; ps_FailedRequests := 0;
     ps_ConnectionErrors := 0; ps_ActiveConnections := 0 |}.

(** The counters are [int64]. *)
Definition succ64 (z : Z) : Z := int64 (z + 1).

Definition incrementRequests (s : PoolStats) : PoolStats :=
  {| ps_TotalRequests := succ64 (ps_TotalRequests s); ps_TotalWaitTime := ps_TotalWaitTime s;
     ps_SuccessfulRequests := ps_SuccessfulRequests s; ps_FailedRequests := ps_FailedRequests s;
     ps_ConnectionErrors := ps_ConnectionErrors s; ps_ActiveConnections := ps_ActiveConnections s |}.

Definition incrementSuccessfulRequests (s : PoolStats) : PoolStats :=
  {| ps_TotalRequests := ps_TotalRequests s; ps_TotalWaitTime := ps_TotalWaitTime s;
     ps_SuccessfulRequests := succ64 (ps_SuccessfulRequests s); ps_FailedRequests := ps_FailedRequests s;
     ps_ConnectionErrors := ps_ConnectionErrors s; ps_ActiveConnections := ps_ActiveConnections s |}.

Definition incrementFailedRequests (s : PoolStats) : PoolStats :=
  {| ps_TotalRequests := ps_TotalRequests s; ps_TotalWaitTime := ps_TotalWaitTime s;
     ps_SuccessfulRequests := ps_SuccessfulRequests s; ps_FailedRequests := succ64 (ps_FailedRequests s);
     ps_ConnectionErrors := ps_ConnectionErrors s; ps_ActiveConnections := ps_ActiveConnections s |}.

Definition incrementConnectionErrors (s : PoolStats) : PoolStats :=
  {| ps_TotalRequests := ps_TotalRequests s; ps_TotalWaitTime := ps_TotalWaitTime s;
     ps_SuccessfulRequests := ps_SuccessfulRequests s; ps_FailedRequests := ps_FailedRequests s;
     ps_ConnectionErrors := succ64 (ps_ConnectionErrors s); ps_ActiveConnections := ps_ActiveConnections s |}.

Definition set_active (z : Z) (s : PoolStats) : PoolStats :=
  {| ps_TotalRequests := ps_TotalRequests s; ps_TotalWaitTime := ps_TotalWaitTime s;
     ps_SuccessfulRequests := ps_SuccessfulRequests s; ps_FailedRequests := ps_FailedRequests s;
     ps_ConnectionErrors := ps_ConnectionErrors s; ps_ActiveConnections := z |}.

Definition incrementActiveConnections (s : PoolStats) : PoolStats :=
  set_active (succ64 (ps_ActiveConnections s)) s.

Definition decrementActiveConnections (s : PoolStats) : PoolStats :=
  if (0 <? ps_ActiveConnections s)%Z then set_active (ps_ActiveConnections s - 1) s else s.

(** Division of an [int64], which truncates towards zero. *)
Definition avgWaitTime (s : PoolStats) : Z :=
  if (ps_TotalRequests s =? 0)%Z then 0%Z else Z.quot (ps_TotalWaitTime s) (ps_TotalRequests s).

(** The exact quotient; the code rounds it to a [float64]. *)
Definition calculateSuccessRate (s : PoolStats) : Q :=
  if (ps_TotalRequests s =? 0)%Z then inject_Z 100
  else Qmult (Qdiv (inject_Z (ps_SuccessfulRequests s)) (inject_Z (ps_TotalRequests s))) (inject_Z 100).

Definition calculateUtilization : Q := inject_Z 0.

(** ** Pools *)

Definition database_tag (pool : string) : list string := ["database:" +:+ pool].

Definition pool_stats (pool : string) (m : Manager) : PoolStats :=
  default zero_stats (cp_stats <$> pools m !! pool).

Definition updatePoolUtilizationMetrics (pool : string) (m : Manager) : Manager :=
  emit (Gauge "pool_active_connections" (ps_ActiveConnections (pool_stats pool m)) (database_tag pool)) m.

Definition Checkout (pool clientID : string) (now elapsed : Z) (m : Manager) : ConnRef * Manager :=
  let m := with_stats incrementRequests pool m in
  let conn := {|
    pc_ID := pool +:+ "-" +:+ fmt_d now;
    pc_MongoClient := pools m !! pool ≫= cp_mongoClient;
    pc_Pool := pool; pc_InUse := true; pc_LastUsed := now; pc_CreatedAt := now;
    pc_TransactionID := ""; pc_ClientID := clientID |} in
  let ref := next_conn m in
  let m := set_conns (<[ref := conn]> (conns m)) (S ref) m in
  let m := with_stats incrementSuccessfulRequests pool m in
  let m := with_stats incrementActiveConnections pool m in
  let m := emit (Distribution "pool_checkout_duration" elapsed (database_tag pool)) m in
  let m := emit (Incr "pool_checkout_success" (database_tag pool)) m in
  (ref, updatePoolUtilizationMetrics pool m).

(** [p.Return(conn)] *)
Definition Return (pool : string) (ref : ConnRef) (now : Z) (m : Manager) : Manager :=
  match conns m !! ref with
  | None => m
  | Some conn =>
      if decide (pc_Pool conn <> pool) then m
      else
        let m := set_conns (<[ref := release now conn]> (conns m)) (next_conn m) m in
        let m := with_stats decrementActiveConnections pool m in
        updatePoolUtilizationMetrics pool m
  end.

(** [conn.Pool.Return(conn)] *)
Definition Return_own (ref : ConnRef) (now : Z) (m : Manager) : Manager :=
  match conns m !! ref with
  | None => m
  | Some conn => Return (pc_Pool conn) ref now m
  end.

Definition checkConnectionHealth (pool : string) (now : Z) (m : Manager) : outcome unit * Manager :=
  match pools m !! pool with
  | None => (Panic "nil pointer dereference", m)
  | Some p =>
      if (now - cp_lastHealthCheck p <? cp_healthCheckInterval p)%Z then
        (if cp_isHealthy p then Ret () else Err "connection marked as unhealthy", m)
      else
        match cp_mongoClient p with
        | None => (Err "MongoDB client is nil", set_pools (<[pool := set_health false now p]> (pools m)) m)
        | Some _ =>
            let m := set_pools (<[pool := set_health true now p]> (pools m)) m in
            (Ret (), emit (Incr "pool_health_check_success" (database_tag pool)) m)
        end
  end.

Definition markConnectionUnhealthy (pool : string) (now : Z) (m : Manager) : Manager :=
  let m := set_pools (alter (set_health false now) pool (pools m)) m in
  emit (Incr "pool_health_check_failure" (database_tag pool)) m.

Record StatsView := {
  sv_name : string; sv_mode : string; sv_total_requests : Z; sv_successful_requests : Z;
  sv_failed_requests : Z; sv_connection_errors : Z; sv_active_connections : Z; sv_success_rate : Q;
  sv_utilization : Q; sv_is_healthy : bool; sv_last_health_check : Z; sv_avg_wait_time_ms : Z;
  sv_in_use : Z; sv_max_size : Z; sv_total_connections : Z; sv_available : Z; sv_waiting_clients : Z
}.

Definition GetStats (p : ConnectionPool) : StatsView :=
  let inUse := ps_ActiveConnections (cp_stats p) in
  let maxSize := 10%Z in
  let available := int64 (maxSize - inUse) in
  let available := if (available <? 0)%Z then 0%Z else available in
  {| sv_name := cp_name p; sv_mode := cp_mode p;
     sv_total_requests := ps_TotalRequests (cp_stats p);
     sv_successful_requests := ps_SuccessfulRequests (cp_stats p);
     sv_failed_requests := ps_FailedRequests (cp_stats p);
     sv_connection_errors := ps_ConnectionErrors (cp_stats p);
     sv_active_connections := inUse;
     sv_success_rate := calculateSuccessRate (cp_stats p); sv_utilization := calculateUtilization;
     sv_is_healthy := cp_isHealthy p; sv_last_health_check := cp_lastHealthCheck p;
     sv_avg_wait_time_ms := Z.quot (avgWaitTime (cp_stats p)) 1000000;
     sv_in_use := inUse; sv_max_size := maxSize; sv_total_connections := inUse;
     sv_available := available; sv_waiting_clients := 0 |}.

(** ** The manager *)

Definition NewManager (metrics : option (list MetricCall)) (defaultMode : string)
    (minPoolSize maxPoolSize maxClientConn : Z) : Manager :=
  let mode :=
    if decide (defaultMode = "transaction") then TransactionMode
    else if decide (defaultMode = "statement") then StatementMode
    else SessionMode in
  emit (Gauge "max_client_connections" maxClientConn [])
    {| metrics := metrics; pools := ∅; defaultMode := mode; minPoolSize := minPoolSize;
       maxPoolSize := maxPoolSize; maxClientConn := maxClientConn; activeClients := ∅;
       conns := ∅; next_conn := 0 |}.

Definition GetDefaultMode (m : Manager) : PoolMode := defaultMode m.
Definition GetDefaultPoolSizes (m : Manager) : Z * Z := (minPoolSize m, maxPoolSize m).

(** The pool is returned by name. *)
Definition GetPool (database : string) (mongoClient : option ClientRef) (mode : PoolMode) (now : Z) (m : Manager)
    : string * Manager :=
  match pools m !! database with
  | Some _ => (database, m)
  | None =>
      let mode := if decide (mode = "") then defaultMode m else mode in
      let pool := {| cp_name := database; cp_mode := mode; cp_mongoClient := mongoClient; cp_stats := zero_stats;
                     cp_lastHealthCheck := now; cp_isHealthy := true; cp_healthCheckInterval := 30 * Second |} in
      (database, set_pools (<[database := pool]> (pools m)) m)
  end.

Definition RegisterClient (clientID username database : string) (poolMode : PoolMode) (now : Z) (m : Manager)
    : outcome ClientConnection * Manager :=
  match activeClients m !! clientID with
  | Some client => (Ret client, m)
  | None =>
      if ((0 <? maxClientConn m) && (maxClientConn m <=? Z.of_nat (size (activeClients m))))%Z then
        (Err "max client connections reached", m)
      else
        let client := {| cl_ID := clientID; cl_Username := username; cl_Database := database;
                         cl_PoolMode := poolMode; cl_AssignedConn := None; cl_TransactionConn := None;
                         cl_LastActivity := now |} in
        let m := set_clients (<[clientID := client]> (activeClients m)) m in
        (Ret client, emit (Incr "connection_opened" []) m)
  end.

Definition GetClient (clientID : string) (m : Manager) : option ClientConnection := activeClients m !! clientID.

(** [if c != nil { c.Pool.Return(c) }] *)
Definition return_held (c : option ConnRef) (now : Z) (m : Manager) : Manager :=
  match c with
  | Some ref => Return_own ref now m
  | None => m
  end.

Definition UnregisterClient (clientID : string) (now : Z) (m : Manager) : Manager :=
  match activeClients m !! clientID with
  | None => m
  | Some client =>
      let m := return_held (cl_AssignedConn client) now m in
      let m := return_held (cl_TransactionConn client) now m in
      let m := set_clients (delete clientID (activeClients m)) m in
      emit (Incr "connection_closed" []) m
  end.

(** The transaction id of the connection a client holds for its transaction. *)
Definition transaction_id (m : Manager) (client : ClientConnection) : option string :=
  cl_TransactionConn client ≫= fun ref => pc_TransactionID <$> conns m !! ref.

Definition GetConnection (clientID database : string) (mongoClient : option ClientRef) (isTransaction : bool)
    (transactionID : string) (now elapsed : Z) (m : Manager) : outcome ConnRef * Manager :=
  match activeClients m !! clientID with
  | None => (Err "client not registered", m)
  | Some client =>
      let m := with_client (set_LastActivity now) clientID m in
      let '(pool, m) := GetPool database mongoClient (cl_PoolMode client) now m in
      if decide (cl_PoolMode client = SessionMode) then
        match cl_AssignedConn client with
        | Some conn => (Ret conn, m)
        | None =>
            let '(conn, m) := Checkout pool clientID now elapsed m in
            (Ret conn, with_client (set_AssignedConn (Some conn)) clientID m)
        end
      else if decide (cl_PoolMode client = TransactionMode) then
        if isTransaction then
          match cl_TransactionConn client with
          | Some held =>
              if decide (transaction_id m client = Some transactionID) then (Ret held, m)
              else
                let m := Return pool held now m in
                let '(conn, m) := Checkout pool clientID now elapsed m in
                let m := set_conns (alter (set_TransactionID transactionID) conn (conns m)) (next_conn m) m in
                (Ret conn, with_client (set_TransactionConn (Some conn)) clientID m)
          | None =>
              let '(conn, m) := Checkout pool clientID now elapsed m in
              let m := set_conns (alter (set_TransactionID transactionID) conn (conns m)) (next_conn m) m in
              (Ret conn, with_client (set_TransactionConn (Some conn)) clientID m)
          end
        else let '(conn, m) := Checkout pool clientID now elapsed m in (Ret conn, m)
      else if decide (cl_PoolMode client = StatementMode) then
        let '(conn, m) := Checkout pool clientID now elapsed m in (Ret conn, m)
      else (Err ("unknown pool mode: " +:+ cl_PoolMode client), m)
  end.

Definition ReturnConnection (clientID : string) (conn : ConnRef) (isEndOfTransaction : bool) (now : Z) (m : Manager)
    : Manager :=
  match activeClients m !! clientID with
  | None => Return_own conn now m
  | Some client =>
      if decide (cl_PoolMode client = SessionMode) then
        if decide (Some conn <> cl_AssignedConn client) then Return_own conn now m else m
      else if decide (cl_PoolMode client = TransactionMode) then
        if isEndOfTransaction && bool_decide (cl_TransactionConn client = Some conn) then
          with_client (set_TransactionConn None) clientID (Return_own conn now m)
        else if negb isEndOfTransaction && bool_decide (Some conn <> cl_TransactionConn client) then
          Return_own conn now m
        else m
      else if decide (cl_PoolMode client = StatementMode) then Return_own conn now m
      else m
  end.

(** ** The ledger: an abstract account of checkouts and returns

    What the statistics are about: for every connection ever made, its pool
    and whether it is out, and for every pool its count of active connections. *)

Notation usage := (gmap nat (string * bool)) (only parsing).
Notation ledger := (gmap nat (string * bool) * gmap string Z)%type (only parsing).

Definition use_of (c : PooledConnection) : string * bool := (pc_Pool c, pc_InUse c).
Definition active_of (p : ConnectionPool) : Z := ps_ActiveConnections (cp_stats p).
Definition ledger_of (m : Manager) : ledger := (use_of <$> conns m, active_of <$> pools m).

Inductive ledger_step : ledger -> ledger -> Prop :=
| ls_pool u a p : a !! p = None -> ledger_step (u, a) (u, <[p := 0%Z]> a)
| ls_checkout u a p n ref :
    u !! ref = None -> a !! p = Some n -> ledger_step (u, a) (<[ref := (p, true)]> u, <[p := succ64 n]> a)
| ls_return u a p n b ref :
    u !! ref = Some (p, b) -> a !! p = Some n ->
    ledger_step (u, a) (<[ref := (p, false)]> u, <[p := if (0 <? n)%Z then (n - 1)%Z else n]> a).

(** Connections of a pool that are out. *)
Definition out (p : string) (u : usage) : nat := size (filter (fun '(_, x) => x = (p, true)) u).

Definition balanced (l : ledger) : Prop :=
  forall p n, snd l !! p = Some n -> (0 <= n <= Z.of_nat (out p (fst l)))%Z.

Lemma out_insert_fresh p q b ref u :
  u !! ref = None -> out p (<[ref := (q, b)]> u) = out p u + (if decide ((q, b) = (p, true)) then 1 else 0).
Proof.
  intros Hf. unfold out. case_decide as E.
  - rewrite map_filter_insert_True by done. rewrite map_size_insert_None; [lia|].
    apply map_lookup_filter_None. by left.
  - rewrite map_filter_insert_False, delete_id by done. lia.
Qed.

Lemma out_release p q b ref u :
  u !! ref = Some (q, b) ->
  out p (<[ref := (q, false)]> u) = out p u - (if decide ((q, b) = (p, true)) then 1 else 0).
Proof.
  intros Hf. unfold out. rewrite map_filter_insert_False by (by intros [=]). rewrite map_filter_delete.
  case_decide as E.
  - rewrite map_size_delete_Some; [lia|]. exists (q, b). apply map_lookup_filter_Some. by split.
  - rewrite delete_id; [lia|]. apply map_lookup_filter_None. right. intros x Hx. simplify_eq. done.
Qed.

Lemma out_size p u : out p u <= size u.
Proof. unfold out. apply map_size_filter. Qed.

Lemma out_pos p ref u : u !! ref = Some (p, true) -> 0 < out p u.
Proof.
  intros H. unfold out. destruct (decide (size (filter (fun '(_, x) => x = (p, true)) u) = 0)) as [E|]; [|lia].
  apply map_size_empty_inv in E. exfalso. apply (lookup_empty_Some ref (p, true)). rewrite <- E.
  apply map_lookup_filter_Some. by split.
Qed.

Lemma ledger_step_size l l' : ledger_step l l' -> size (fst l) <= size (fst l').
Proof.
  destruct 1 as [u a p Hp|u a p n ref Hu Ha|u a p n b ref Hu Ha]; cbn; [done| |].
  - rewrite map_size_insert_None by done. lia.
  - rewrite map_size_insert_Some by done. lia.
Qed.

(** No counter wraps before 2^63 connections were made. *)
Lemma balanced_step l l' :
  ledger_step l l' -> (Z.of_nat (size (fst l')) < 2 ^ 63)%Z -> balanced l -> balanced l'.
Proof.
  destruct 1 as [u a p Hp|u a p n ref Hu Ha|u a p n b ref Hu Ha]; cbn; intros Hs Hb q k; cbn.
  - rewrite lookup_insert. case_decide; [intros; simplify_eq; lia|apply Hb].
  - rewrite out_insert_fresh by done. rewrite map_size_insert_None in Hs by done.
    pose proof (Hb p n Ha) as Hn. cbn in Hn. pose proof (out_size p u).
    rewrite lookup_insert. destruct (decide (p = q)) as [<-|Hne].
    + intros [= <-]. rewrite decide_True by done. unfold succ64. rewrite int64_id; unfold is_int64; lia.
    + intros Hk. apply Hb in Hk. cbn in Hk. lia.
  - rewrite (out_release _ _ b) by done. pose proof (Hb p n Ha) as Hn. cbn in Hn.
    rewrite lookup_insert. destruct (decide (p = q)) as [<-|Hne].
    + intros [= <-]. destruct (Z.ltb_spec 0 n); case_decide; lia.
    + intros Hk. apply Hb in Hk. cbn in Hk. rewrite decide_False by congruence. lia.
Qed.

Lemma balanced_steps l l' :
  rtc ledger_step l l' -> (Z.of_nat (size (fst l')) < 2 ^ 63)%Z -> balanced l -> balanced l'.
Proof.
  induction 1 as [|l1 l2 l3 H1 H2 IH]; [done|]. intros Hs Hb. apply IH; [done|].
  apply (balanced_step l1); [done| |done].
  assert (size (fst l2) <= size (fst l3)); [|lia].
  clear -H2. induction H2; [done|]. etransitivity; [by apply ledger_step_size|done].
Qed.

(** ** The manager implements the ledger *)

(** References are handed out once, and every connection belongs to a pool. *)
Definition pool_wf (m : Manager) : Prop :=
  (forall ref, next_conn m <= ref -> conns m !! ref = None) /\
  (forall ref c, conns m !! ref = Some c -> is_Some (pools m !! pc_Pool c)).

(** [m'] has the clients and the limit of [m], and accounts for checkouts and returns as the ledger does. *)
Definition accounts (m m' : Manager) : Prop :=
  pool_wf m' /\ rtc ledger_step (ledger_of m) (ledger_of m').

Definition same_clients (m m' : Manager) : Prop :=
  activeClients m' = activeClients m /\ maxClientConn m' = maxClientConn m.

Lemma same_clients_trans m1 m2 m3 : same_clients m1 m2 -> same_clients m2 m3 -> same_clients m1 m3.
Proof. unfold same_clients. intros [] []. split; congruence. Qed.

Lemma accounts_refl m : pool_wf m -> accounts m m.
Proof. by split. Qed.

Lemma accounts_trans m1 m2 m3 : accounts m1 m2 -> accounts m2 m3 -> accounts m1 m3.
Proof. intros [H1 H2] [H3 H4]. split; [done|by etransitivity]. Qed.

(** An operation that changes neither connections nor pools. *)
Lemma accounts_frame m m' :
  pool_wf m -> conns m' = conns m -> next_conn m' = next_conn m -> pools m' = pools m -> accounts m m'.
Proof. intros Hwf E1 E2 E3. unfold accounts, pool_wf, ledger_of. by rewrite E1, E2, E3. Qed.

Lemma pools_with_stats f p q m :
  pools (with_stats f p m) !! q =
  (if decide (p = q) then (fun pl => set_stats (f (cp_stats pl)) pl) <$> pools m !! q else pools m !! q).
Proof. cbn. rewrite lookup_alter. case_decide; by subst. Qed.

(** The pools' counters after a change of the statistics of one pool. *)
Lemma active_with_stats f p m pl :
  pools m !! p = Some pl ->
  active_of <$> pools (with_stats f p m) = <[p := ps_ActiveConnections (f (cp_stats pl))]> (active_of <$> pools m).
Proof.
  intros Hp. apply map_eq. intros q. rewrite lookup_insert, !lookup_fmap, pools_with_stats.
  case_decide; [|done]. subst. by rewrite Hp.
Qed.

Lemma Checkout_eq p cid now e m pl :
  pools m !! p = Some pl ->
  exists m' c, Checkout p cid now e m = (next_conn m, m') /\
    conns m' = <[next_conn m := c]> (conns m) /\ next_conn m' = S (next_conn m) /\ same_clients m m' /\
    use_of c = (p, true) /\ pc_ClientID c = cid /\ pc_MongoClient c = cp_mongoClient pl /\ pc_TransactionID c = "" /\
    pools m' = alter (fun pl => set_stats (incrementActiveConnections (incrementSuccessfulRequests
                                  (incrementRequests (cp_stats pl)))) pl) p (pools m).
Proof.
  intros Hp. eexists _, _. split; [done|]. cbn. split_and!; try done.
  - rewrite lookup_alter, decide_True, Hp by done. done.
  - apply map_eq. intros q. rewrite !lookup_alter. repeat (case_decide; [|done]). by destruct (pools m !! p).
Qed.

Lemma Checkout_accounts p cid now e m :
  pool_wf m -> is_Some (pools m !! p) ->
  accounts m (snd (Checkout p cid now e m)) /\ same_clients m (snd (Checkout p cid now e m)).
Proof.
  intros [Hf Hp] [pl Hpl].
  destruct (Checkout_eq p cid now e m pl Hpl) as (m' & c & -> & Ec & En & Hs & Hu & _ & _ & _ & Ep). cbn.
  split; [|done]. split; [split|].
  - intros ref Hr. rewrite Ec, En in *. rewrite lookup_insert_ne by lia. apply Hf. lia.
  - intros ref c'. rewrite Ec, Ep, lookup_insert, lookup_alter_is_Some. case_decide.
    + intros [= <-]. unfold use_of in Hu. simplify_eq. by exists pl.
    + apply Hp.
  - apply rtc_once. unfold ledger_of. rewrite Ec, Ep, fmap_insert, Hu.
    replace (active_of <$> alter _ p (pools m)) with (<[p := succ64 (active_of pl)]> (active_of <$> pools m)).
    2: { apply map_eq. intros q. rewrite lookup_insert, !lookup_fmap, lookup_alter. case_decide; [|done].
         subst. by rewrite Hpl. }
    apply ls_checkout; [rewrite lookup_fmap, Hf by done; done|by rewrite lookup_fmap, Hpl].
Qed.

Lemma Return_accounts p ref now m :
  pool_wf m -> accounts m (Return p ref now m) /\ same_clients m (Return p ref now m).
Proof.
  intros Hwf. unfold Return. destruct (conns m !! ref) as [c|] eqn:Ec; [|by split; [apply accounts_refl|]].
  case_decide as Hne; [by split; [apply accounts_refl|]|]. subst p.
  split; [|done]. destruct Hwf as [Hf Hp]. destruct (Hp ref c Ec) as [pl Hpl]. split; [split|]; cbn.
  - intros r Hr. rewrite lookup_insert_ne; [by apply Hf|]. intros <-. rewrite Hf in Ec by done. done.
  - intros r c'. rewrite lookup_alter_is_Some, lookup_insert. case_decide; [|apply Hp].
    intros [= <-]. cbn. by exists pl.
  - apply rtc_once. unfold ledger_of. cbn. rewrite fmap_insert.
    change (use_of (release now c)) with (pc_Pool c, false).
    replace (active_of <$> alter _ (pc_Pool c) (pools m))
      with (<[pc_Pool c := if (0 <? active_of pl)%Z then (active_of pl - 1)%Z else active_of pl]> (active_of <$> pools m)).
    2: { apply map_eq. intros q. rewrite lookup_insert, !lookup_fmap, lookup_alter. case_decide; [|done].
         subst. rewrite Hpl. cbn. unfold active_of at 3, decrementActiveConnections. cbn.
         unfold active_of. by destruct (0 <? _)%Z. }
    apply (ls_return _ _ (pc_Pool c) (active_of pl) (pc_InUse c)); [by rewrite lookup_fmap, Ec|by rewrite lookup_fmap, Hpl].
Qed.

Lemma Return_own_accounts ref now m :
  pool_wf m -> accounts m (Return_own ref now m) /\ same_clients m (Return_own ref now m).
Proof.
  intros Hwf. unfold Return_own. destruct (conns m !! ref); [by apply Return_accounts|].
  by split; [apply accounts_refl|].
Qed.

Lemma return_held_accounts c now m :
  pool_wf m -> accounts m (return_held c now m) /\ same_clients m (return_held c now m).
Proof.
  intros Hwf. destruct c; [by apply Return_own_accounts|]. by split; [apply accounts_refl|].
Qed.

Lemma GetPool_accounts db c mode now m :
  pool_wf m ->
  fst (GetPool db c mode now m) = db /\ is_Some (pools (snd (GetPool db c mode now m)) !! db) /\
  accounts m (snd (GetPool db c mode now m)) /\ same_clients m (snd (GetPool db c mode now m)) /\
  conns (snd (GetPool db c mode now m)) = conns m.
Proof.
  intros [Hf Hp]. unfold GetPool. destruct (pools m !! db) as [pl|] eqn:E; cbn.
  - split_and!; try done; by apply accounts_refl.
  - split_and!; try done; [rewrite lookup_insert_eq; by eexists|]. split; [split; cbn; [done|]|].
    + intros ref c' Hc. rewrite lookup_insert. case_decide; [by eexists|eauto].
    + apply rtc_once. unfold ledger_of. cbn. rewrite fmap_insert. apply ls_pool. by rewrite lookup_fmap, E.
Qed.

Lemma accounts_with_client f cid m : pool_wf m -> accounts m (with_client f cid m).
Proof. intros. by apply accounts_frame. Qed.

Lemma accounts_transaction_id id ref m :
  pool_wf m -> accounts m (set_conns (alter (set_TransactionID id) ref (conns m)) (next_conn m) m).
Proof.
  intros [Hf Hp]. split; [split|].
  - intros r Hr. cbn in *. apply lookup_alter_None. by apply Hf.
  - intros r c. cbn. rewrite lookup_alter_Some. intros [(<- & c' & Hc & ->)|[_ Hc]]; cbn; by eapply Hp.
  - unfold ledger_of. cbn. replace (use_of <$> alter _ ref (conns m)) with (use_of <$> conns m); [done|].
    apply map_eq. intros r. rewrite !lookup_fmap, lookup_alter. case_decide; [|done]. subst.
    by destruct (conns m !! r).
Qed.

(** The clients' ids are those of [m]: only the data of the clients changed. *)
Definition same_ids (m m' : Manager) : Prop :=
  dom (activeClients m') = dom (activeClients m) /\ maxClientConn m' = maxClientConn m.

Lemma same_clients_ids m m' : same_clients m m' -> same_ids m m'.
Proof. intros [E1 E2]. split; [by rewrite E1|done]. Qed.

Lemma same_ids_with_client f cid m m' : same_ids m m' -> same_ids m (with_client f cid m').
Proof. intros [E1 E2]. split; [|done]. cbn. by rewrite dom_alter_L. Qed.

Lemma same_ids_trans m1 m2 m3 : same_ids m1 m2 -> same_ids m2 m3 -> same_ids m1 m3.
Proof. unfold same_ids. intros [] []. split; congruence. Qed.

(** Chain the accounting of two operations. *)
Lemma preserved_trans m1 m2 m3 :
  accounts m1 m2 /\ same_ids m1 m2 -> (pool_wf m2 -> accounts m2 m3 /\ same_ids m2 m3) ->
  accounts m1 m3 /\ same_ids m1 m3.
Proof.
  intros [A1 S1] H. destruct (H (proj1 A1)) as [A2 S2].
  split; [by eapply accounts_trans|by eapply same_ids_trans].
Qed.

Lemma preserved_Checkout p cid now e m :
  is_Some (pools m !! p) -> pool_wf m ->
  accounts m (snd (Checkout p cid now e m)) /\ same_ids m (snd (Checkout p cid now e m)).
Proof.
  intros Hp Hwf. destruct (Checkout_accounts p cid now e m Hwf Hp). split; [done|by apply same_clients_ids].
Qed.

Lemma preserved_with_client f cid m :
  pool_wf m -> accounts m (with_client f cid m) /\ same_ids m (with_client f cid m).
Proof. intros Hwf. split; [by apply accounts_with_client|by apply same_ids_with_client]. Qed.

Lemma preserved_transaction_id id ref m :
  pool_wf m ->
  let m' := set_conns (alter (set_TransactionID id) ref (conns m)) (next_conn m) m in
  accounts m m' /\ same_ids m m'.
Proof. intros Hwf. split; [by apply accounts_transaction_id|done]. Qed.

Lemma preserved_Return p ref now m :
  pool_wf m -> accounts m (Return p ref now m) /\ same_ids m (Return p ref now m).
Proof. intros Hwf. destruct (Return_accounts p ref now m Hwf). split; [done|by apply same_clients_ids]. Qed.

Lemma preserved_Return_own ref now m :
  pool_wf m -> accounts m (Return_own ref now m) /\ same_ids m (Return_own ref now m).
Proof. intros Hwf. destruct (Return_own_accounts ref now m Hwf). split; [done|by apply same_clients_ids]. Qed.

Lemma preserved_refl m : pool_wf m -> accounts m m /\ same_ids m m.
Proof. intros. by split; [apply accounts_refl|]. Qed.

Create HintDb pool.
Hint Resolve preserved_with_client preserved_transaction_id preserved_Return preserved_Return_own preserved_refl
  preserved_Checkout : pool.

(** Checking out for the transaction of a client. *)
Lemma preserved_Checkout_transaction p cid id now e m :
  is_Some (pools m !! p) -> pool_wf m ->
  let '(conn, m1) := Checkout p cid now e m in
  let m2 := set_conns (alter (set_TransactionID id) conn (conns m1)) (next_conn m1) m1 in
  let m3 := with_client (set_TransactionConn (Some conn)) cid m2 in
  accounts m m3 /\ same_ids m m3.
Proof.
  intros Hp Hwf. pose proof (preserved_Checkout p cid now e m Hp Hwf) as H.
  destruct (Checkout p cid now e m) as [conn m1]. cbn zeta.
  eapply preserved_trans; [|by apply preserved_with_client].
  eapply preserved_trans; [exact H|by apply preserved_transaction_id].
Qed.

Lemma pools_Return p ref now m q : is_Some (pools m !! q) -> is_Some (pools (Return p ref now m) !! q).
Proof.
  intros Hq. unfold Return. repeat case_match; try done. cbn. by rewrite lookup_alter_is_Some.
Qed.

Lemma preserved_GetConnection cid db c istxn id now e m :
  pool_wf m ->
  accounts m (snd (GetConnection cid db c istxn id now e m)) /\ same_ids m (snd (GetConnection cid db c istxn id now e m)).
Proof.
  intros Hwf. unfold GetConnection. destruct (activeClients m !! cid) as [cl|]; [|by apply preserved_refl].
  cbn zeta. eapply preserved_trans; [by apply (preserved_with_client (set_LastActivity now) cid)|]. intros Hwf1.
  pose proof (GetPool_accounts db c (cl_PoolMode cl) now _ Hwf1) as (Ep & Hp & Ha & Hs & _).
  destruct (GetPool _ _ _ _ _) as [pool m1]. cbn in Ep, Hp, Ha, Hs. subst pool.
  eapply preserved_trans; [split; [exact Ha|by apply same_clients_ids]|]. clear Ha Hs. intros Hwf2.
  case_decide.
  - destruct (cl_AssignedConn cl); [by apply preserved_refl|].
    pose proof (preserved_Checkout db cid now e m1 Hp Hwf2) as H'. destruct (Checkout _ _ _ _ m1) as [conn m2].
    eapply preserved_trans; [exact H'|by apply preserved_with_client].
  - case_decide; [|case_decide; [|by apply preserved_refl]].
    2: { pose proof (preserved_Checkout db cid now e m1 Hp Hwf2) as H'. by destruct (Checkout _ _ _ _ m1). }
    destruct istxn.
    2: { pose proof (preserved_Checkout db cid now e m1 Hp Hwf2) as H'. by destruct (Checkout _ _ _ _ m1). }
    destruct (cl_TransactionConn cl) as [held|].
    + case_decide; [by apply preserved_refl|]. cbn zeta.
      eapply preserved_trans; [by apply (preserved_Return db held now)|]. intros Hwf3.
      pose proof (preserved_Checkout_transaction db cid id now e _ (pools_Return db held now m1 db Hp) Hwf3) as H'.
      by destruct (Checkout _ _ _ _ (Return _ _ _ _)).
    + pose proof (preserved_Checkout_transaction db cid id now e m1 Hp Hwf2) as H'.
      by destruct (Checkout _ _ _ _ m1).
Qed.

Lemma preserved_ReturnConnection cid conn fin now m :
  pool_wf m ->
  accounts m (ReturnConnection cid conn fin now m) /\ same_ids m (ReturnConnection cid conn fin now m).
Proof.
  intros Hwf. unfold ReturnConnection. repeat case_match; auto with pool.
  eapply preserved_trans; [by apply preserved_Return_own|by apply preserved_with_client].
Qed.

(** ** Runs of the manager *)

(** A call on the manager; [ReturnConnection] is given any connection whatever. *)
Inductive pool_op :=
| ORegister (clientID username database : string) (mode : PoolMode)
| OUnregister (clientID : string)
| OGetPool (database : string) (client : option ClientRef) (mode : PoolMode)
| OGetConnection (clientID database : string) (client : option ClientRef) (isTransaction : bool) (id : string) (elapsed : Z)
| OReturnConnection (clientID : string) (conn : ConnRef) (isEndOfTransaction : bool)
| OCheckHealth (pool : string)
| OMarkUnhealthy (pool : string).

Definition run_pool_op (o : pool_op) (now : Z) (m : Manager) : Manager :=
  match o with
  | ORegister cid user db mode => snd (RegisterClient cid user db mode now m)
  | OUnregister cid => UnregisterClient cid now m
  | OGetPool db c mode => snd (GetPool db c mode now m)
  | OGetConnection cid db c istxn id e => snd (GetConnection cid db c istxn id now e m)
  | OReturnConnection cid conn fin => ReturnConnection cid conn fin now m
  | OCheckHealth p => snd (checkConnectionHealth p now m)
  | OMarkUnhealthy p => markConnectionUnhealthy p now m
  end.

Fixpoint run_pool (ops : list (Z * pool_op)) (m : Manager) : Manager :=
  match ops with
  | [] => m
  | (now, o) :: ops' => run_pool ops' (run_pool_op o now m)
  end.

(** At most [maxClientConn] clients, when there is a limit. *)
Definition within_limit (m : Manager) : Prop :=
  (0 < maxClientConn m -> Z.of_nat (size (activeClients m)) <= maxClientConn m)%Z.

Lemma size_dom_clients (c : gmap string ClientConnection) : size c = size (dom c).
Proof. by rewrite size_dom. Qed.

(** The limit itself is fixed, and stays respected. *)
Definition keeps_limit (m m' : Manager) : Prop :=
  maxClientConn m' = maxClientConn m /\ (within_limit m -> within_limit m').

Lemma same_ids_limit m m' : same_ids m m' -> keeps_limit m m'.
Proof. intros [E1 E2]. split; [done|]. unfold within_limit. rewrite !size_dom_clients, E1, E2. done. Qed.

Lemma RegisterClient_limit cid user db mode now m :
  keeps_limit m (snd (RegisterClient cid user db mode now m)).
Proof.
  unfold RegisterClient. destruct (activeClients m !! cid) eqn:E; [done|].
  destruct (_ && _) eqn:Hc; [done|]. cbn. split; [done|]. intros Hl. unfold within_limit in *. cbn.
  rewrite map_size_insert_None by done. intros Hpos. apply andb_false_iff in Hc as [Hc|Hc].
  - apply Z.ltb_ge in Hc. lia.
  - apply Z.leb_gt in Hc. lia.
Qed.

Lemma UnregisterClient_limit cid now m : pool_wf m -> keeps_limit m (UnregisterClient cid now m).
Proof.
  intros Hwf. unfold UnregisterClient. destruct (activeClients m !! cid) as [cl|]; [|done]. cbn zeta.
  destruct (return_held_accounts (cl_AssignedConn cl) now m Hwf) as [[Hwf1 _] S1].
  destruct (return_held_accounts (cl_TransactionConn cl) now _ Hwf1) as [_ S2].
  pose proof (same_clients_trans _ _ _ S1 S2) as [E1 E2].
  split; [done|]. intros Hl. unfold within_limit in *. cbn. rewrite E1, E2.
  intros Hp. specialize (Hl Hp). assert (size (delete cid (activeClients m)) <= size (activeClients m)); [|lia].
  rewrite map_size_delete. destruct (activeClients m !! cid); cbn; lia.
Qed.

Lemma UnregisterClient_accounts cid now m : pool_wf m -> accounts m (UnregisterClient cid now m).
Proof.
  intros Hwf. unfold UnregisterClient. destruct (activeClients m !! cid) as [cl|]; [|by apply accounts_refl]. cbn zeta.
  destruct (return_held_accounts (cl_AssignedConn cl) now m Hwf) as [A1 _].
  destruct (return_held_accounts (cl_TransactionConn cl) now _ (proj1 A1)) as [A2 _].
  eapply accounts_trans; [exact A1|]. eapply accounts_trans; [exact A2|]. by apply accounts_frame; [apply A2|..].
Qed.

(** A change of the health fields of a pool. *)
Lemma accounts_health m m' p b now pl :
  pool_wf m -> pools m !! p = Some pl -> conns m' = conns m -> next_conn m' = next_conn m ->
  pools m' = <[p := set_health b now pl]> (pools m) -> accounts m m'.
Proof.
  intros [Hf Hp] Hpl E1 E2 E3. split; [split|].
  - by rewrite E1, E2.
  - intros ref c. rewrite E1, E3. intros Hc. rewrite lookup_insert. case_decide; [by eexists|by eapply Hp].
  - unfold ledger_of. rewrite E1, E3, fmap_insert, insert_id; [done|]. by rewrite lookup_fmap, Hpl.
Qed.

Lemma pool_op_preserved o now m :
  pool_wf m -> accounts m (run_pool_op o now m) /\ keeps_limit m (run_pool_op o now m).
Proof.
  intros Hwf. destruct o as [cid user db mode|cid|db c mode|cid db c istxn id e|cid conn fin|p|p]; cbn [run_pool_op].
  - split; [|apply RegisterClient_limit]. unfold RegisterClient.
    repeat case_match; by apply accounts_frame.
  - split; [by apply UnregisterClient_accounts|by apply UnregisterClient_limit].
  - destruct (GetPool_accounts db c mode now m Hwf) as (_ & _ & Ha & Hs & _).
    split; [done|]. by apply same_ids_limit, same_clients_ids.
  - destruct (preserved_GetConnection cid db c istxn id now e m Hwf). split; [done|by apply same_ids_limit].
  - destruct (preserved_ReturnConnection cid conn fin now m Hwf). split; [done|by apply same_ids_limit].
  - unfold checkConnectionHealth. destruct (pools m !! p) as [pl|] eqn:Hp; [|split; [by apply accounts_refl|done]].
    case_match; [split; [by apply accounts_refl|done]|].
    destruct (cp_mongoClient pl); (split; [by eapply accounts_health|done]).
  - split; [|done]. destruct (pools m !! p) as [pl|] eqn:Hp.
    + apply (accounts_health m _ p false now pl); try done. cbn. apply map_eq. intros q.
      rewrite lookup_insert, lookup_alter. case_decide; [by rewrite Hp|done].
    + apply accounts_frame; try done. cbn. by apply alter_id'.
Qed.

Lemma run_pool_preserved ops m :
  pool_wf m -> accounts m (run_pool ops m) /\ keeps_limit m (run_pool ops m).
Proof.
  revert m. induction ops as [|[now o] ops IH]; intros m Hwf; cbn; [split; [by apply accounts_refl|done]|].
  destruct (pool_op_preserved o now m Hwf) as [A1 [E1 L1]]. destruct (IH _ (proj1 A1)) as [A2 [E2 L2]].
  split; [by eapply accounts_trans|]. split; [congruence|auto].
Qed.

Lemma pool_wf_New mt mode mn mx lim : pool_wf (NewManager mt mode mn mx lim).
Proof. split; cbn; intros *; by rewrite lookup_empty. Qed.

(** ** Properties *)

(** The client limit holds: whatever calls are made on a new manager with a
    positive limit, the number of registered clients never exceeds it. *)
Theorem clients_within_limit mt mode mn mx lim ops :
  (0 < lim)%Z -> (Z.of_nat (size (activeClients (run_pool ops (NewManager mt mode mn mx lim)))) <= lim)%Z.
Proof.
  intros Hl. destruct (run_pool_preserved ops _ (pool_wf_New mt mode mn mx lim)) as [_ [E H]].
  unfold within_limit in H. rewrite E in H. cbn in H. apply H; [|done]. intros _. rewrite map_size_empty. lia.
Qed.

(** C4.
    Refinement: every sequence of calls on a new manager is a sequence of
    ledger steps, that is, pools are opened once, a checkout books a fresh
    connection on its pool, and a return books a connection off the pool it
    belongs to, never another one. *)
Theorem manager_refines_ledger mt mode mn mx lim ops :
  rtc ledger_step (∅, ∅) (ledger_of (run_pool ops (NewManager mt mode mn mx lim))).
Proof.
  destruct (run_pool_preserved ops _ (pool_wf_New mt mode mn mx lim)) as [[_ Hr] _].
  unfold ledger_of at 1 in Hr. cbn in Hr. by rewrite !fmap_empty in Hr.
Qed.

(** C40.
    The active-connection count of a pool is never negative and never more
    than the number of its connections in use, as long as fewer than 2^63
    connections were made: returning a connection twice cannot drive it below zero. *)
Theorem active_connections_bounds mt mode mn mx lim ops p pl :
  let m := run_pool ops (NewManager mt mode mn mx lim) in
  (Z.of_nat (size (conns m)) < 2 ^ 63)%Z -> pools m !! p = Some pl ->
  (0 <= ps_ActiveConnections (cp_stats pl) <= Z.of_nat (out p (use_of <$> conns m)))%Z.
Proof.
  cbn zeta. intros Hs Hp.
  destruct (run_pool_preserved ops _ (pool_wf_New mt mode mn mx lim)) as [[_ Hr] _].
  apply (balanced_steps _ _ Hr).
  - cbn. by rewrite map_size_fmap.
  - intros q n. cbn. by rewrite fmap_empty, lookup_empty.
  - cbn [snd ledger_of]. by rewrite lookup_fmap, Hp.
Qed.

(** What [GetConnection] does before it looks at the mode. *)
Lemma GetConnection_unfold cid db c now m cl :
  activeClients m !! cid = Some cl ->
  exists m1, GetPool db c (cl_PoolMode cl) now (with_client (set_LastActivity now) cid m) = (db, m1) /\
    activeClients m1 !! cid = Some (set_LastActivity now cl) /\ conns m1 = conns m /\ next_conn m1 = next_conn m /\
    is_Some (pools m1 !! db) /\ (forall q pl, pools m !! q = Some pl -> pools m1 !! q = Some pl).
Proof.
  intros Hc. unfold GetPool. cbn. destruct (pools m !! db) eqn:E; eexists; (split; [done|]); cbn.
  - split_and!; try done. by rewrite lookup_alter_eq, Hc.
  - split_and!; try done; [by rewrite lookup_alter_eq, Hc|by rewrite lookup_insert_eq|].
    intros q pl Hq. rewrite lookup_insert_ne; [done|congruence].
Qed.

(** C17.
    Session stickiness: a session-mode client gets the same connection from
    every [GetConnection], whatever database it asks for, and handing it back
    with [ReturnConnection] changes nothing until the client unregisters. *)
Theorem session_connection_sticky cid cl db c istxn id now e m :
  activeClients m !! cid = Some cl -> cl_PoolMode cl = SessionMode ->
  let '(r1, m1) := GetConnection cid db c istxn id now e m in
  exists conn, r1 = Ret conn /\ (forall fin now', ReturnConnection cid conn fin now' m1 = m1) /\
    (forall db' c' istxn' id' now' e', fst (GetConnection cid db' c' istxn' id' now' e' m1) = Ret conn /\
       conns (snd (GetConnection cid db' c' istxn' id' now' e' m1)) = conns m1).
Proof.
  intros Hc Hmode.
  assert (forall m1 conn, (exists cl1, activeClients m1 !! cid = Some cl1 /\ cl_PoolMode cl1 = SessionMode /\
      cl_AssignedConn cl1 = Some conn) ->
    (forall fin now', ReturnConnection cid conn fin now' m1 = m1) /\
    (forall db' c' istxn' id' now' e', fst (GetConnection cid db' c' istxn' id' now' e' m1) = Ret conn /\
       conns (snd (GetConnection cid db' c' istxn' id' now' e' m1)) = conns m1)) as Hheld.
  { intros m1 conn (cl1 & Hc1 & Hm1 & Ha1). split.
    - intros. unfold ReturnConnection. rewrite Hc1, decide_True, Ha1 by done. by rewrite decide_False by auto.
    - intros. destruct (GetConnection_unfold cid db' c' now' m1 cl1 Hc1) as (m2 & E & Hc2 & Hconn & _).
      unfold GetConnection. rewrite Hc1, E, decide_True, Ha1 by done. done. }
  destruct (GetConnection_unfold cid db c now m cl Hc) as (m1 & E & Hc1 & Hconn & Hnext & [pl Hp] & _).
  unfold GetConnection at 1. rewrite Hc, E, decide_True by done.
  destruct (cl_AssignedConn cl) as [conn|] eqn:Ha.
  - exists conn. split; [done|]. apply Hheld. eauto.
  - destruct (Checkout_eq db cid now e m1 pl Hp) as (m2 & conn & -> & _ & _ & [Ecl _] & _).
    exists (next_conn m1). split; [done|]. apply Hheld. cbn. rewrite lookup_alter_eq, Ecl, Hc1. cbn. eauto.
Qed.

(** Handing a connection straight back restores the counters. *)
Lemma Checkout_Return_own p cid now e now' m pl :
  pools m !! p = Some pl -> (0 <= active_of pl < 2 ^ 63 - 1)%Z ->
  let m1 := snd (Checkout p cid now e m) in
  let m2 := Return_own (next_conn m) now' m1 in
  active_of <$> pools m2 = active_of <$> pools m /\
  pc_InUse <$> conns m2 !! next_conn m = Some false /\
  (forall ref, ref <> next_conn m -> conns m2 !! ref = conns m !! ref).
Proof.
  intros Hp Ha. cbn zeta. destruct (Checkout_eq p cid now e m pl Hp) as (m1 & c & -> & Ec & En & _ & Hu & _ & _ & _ & Ep).
  cbn [snd]. unfold use_of in Hu. injection Hu as Hpool Huse.
  unfold Return_own. rewrite Ec, lookup_insert_eq. unfold Return. rewrite Ec, lookup_insert_eq.
  rewrite decide_False by auto. cbn. rewrite Ep. split_and!.
  - rewrite Hpool, alter_alter_eq. apply map_eq. intros q. rewrite !lookup_fmap, lookup_alter.
    case_decide; [|done]. subst. rewrite Hp. cbn. f_equal. unfold decrementActiveConnections, active_of in *. cbn.
    unfold succ64. rewrite int64_id by (unfold is_int64; lia).
    destruct (Z.ltb_spec 0 (ps_ActiveConnections (cp_stats pl) + 1)); cbn; lia.
  - by rewrite lookup_insert_eq.
  - intros ref Hne. by rewrite !lookup_insert_ne by done.
Qed.

(** The client is not inside a transaction: it gets a connection for one statement. *)
Definition temporary (cl : ClientConnection) (istxn : bool) : Prop :=
  cl_PoolMode cl = StatementMode \/
  (cl_PoolMode cl = TransactionMode /\ istxn = false /\ cl_TransactionConn cl = None).

(** The active count of a database's pool, zero before the pool exists. *)
Definition active_at (db : string) (m : Manager) : Z := default 0%Z (active_of <$> pools m !! db).

Lemma GetPool_active db c mode now m m1 q :
  GetPool db c mode now m = (db, m1) -> active_at q m1 = active_at q m.
Proof.
  unfold GetPool, active_at. destruct (pools m !! db) eqn:E; intros; simplify_eq; [done|]. cbn.
  rewrite lookup_insert. case_decide; [|done]. subst. by rewrite E.
Qed.

Lemma active_at_eq m m' : active_of <$> pools m' = active_of <$> pools m -> forall q, active_at q m' = active_at q m.
Proof. intros E q. unfold active_at. by rewrite <- !lookup_fmap, E. Qed.

Lemma GetConnection_temporary cid cl db c istxn id now e m :
  activeClients m !! cid = Some cl -> temporary cl istxn ->
  exists m1 pl, GetConnection cid db c istxn id now e m =
      (let '(conn, m2) := Checkout db cid now e m1 in (Ret conn, m2)) /\
    pools m1 !! db = Some pl /\ (forall q, active_at q m1 = active_at q m) /\
    conns m1 = conns m /\ next_conn m1 = next_conn m /\ activeClients m1 !! cid = Some (set_LastActivity now cl) /\
    (forall q pl, pools m !! q = Some pl -> pools m1 !! q = Some pl).
Proof.
  intros Hc Ht. destruct (GetConnection_unfold cid db c now m cl Hc) as (m1 & E & Hc1 & Hconn & Hnext & [pl Hp] & Hq).
  exists m1, pl. split.
  - unfold GetConnection. rewrite Hc, E.
    destruct Ht as [Hm|(Hm & -> & Ht)]; rewrite !Hm; [by rewrite !decide_False, decide_True by done|].
    by rewrite decide_False, decide_True by done.
  - split_and!; try done. intros q. by rewrite (GetPool_active _ _ _ _ _ _ q E).
Qed.

(** C19.
    Outside a transaction a connection is borrowed and handed back exactly:
    after [GetConnection] and the matching [ReturnConnection] every pool's
    active count is what it was, the connection is free, and no other
    connection was touched. *)
Theorem statement_connection_balanced cid cl db c istxn id now e now' m :
  activeClients m !! cid = Some cl -> temporary cl istxn -> (0 <= active_at db m < 2 ^ 63 - 1)%Z ->
  let '(r, m1) := GetConnection cid db c istxn id now e m in
  exists conn, r = Ret conn /\
    let m2 := ReturnConnection cid conn false now' m1 in
    (forall q, active_at q m2 = active_at q m) /\ pc_InUse <$> conns m2 !! conn = Some false /\
    (forall ref, ref <> conn -> conns m2 !! ref = conns m !! ref).
Proof.
  intros Hc Ht Ha. destruct (GetConnection_temporary cid cl db c istxn id now e m Hc Ht)
    as (m1 & pl & -> & Hp & Hact & Hconn & Hnext & Hc1 & _).
  pose proof (Checkout_Return_own db cid now e now' m1 pl Hp) as H. cbn zeta in H.
  destruct (Checkout_eq db cid now e m1 pl Hp) as (m2 & pc & Eq & _ & _ & [Ecl _] & _). rewrite Eq in *. cbn [snd] in H.
  exists (next_conn m1). split; [done|]. cbn zeta.
  replace (ReturnConnection cid (next_conn m1) false now' m2) with (Return_own (next_conn m1) now' m2).
  2: { unfold ReturnConnection. rewrite Ecl, Hc1. cbn [cl_PoolMode cl_AssignedConn cl_TransactionConn set_LastActivity].
       destruct Ht as [Hm|(Hm & _ & ->)]; rewrite !Hm; [by rewrite !decide_False, decide_True by done|].
       rewrite decide_False, decide_True by done. cbn. by rewrite bool_decide_true. }
  destruct H as (H1 & H2 & H3).
  { rewrite <- (Hact db) in Ha. unfold active_at in Ha. by rewrite Hp in Ha. }
  split_and!; [|done|]; [intros q; by rewrite (active_at_eq _ _ H1), Hact|]. intros ref Hr. rewrite H3 by done. by rewrite Hconn.
Qed.

(** In transaction mode, a connection borrowed outside a transaction and
    handed back with the end-of-transaction flag is not taken back: the call
    changes nothing and the connection stays in use. *)
Theorem end_of_transaction_leak cid cl db c id now e now' m :
  activeClients m !! cid = Some cl -> cl_PoolMode cl = TransactionMode -> cl_TransactionConn cl = None ->
  let '(r, m1) := GetConnection cid db c false id now e m in
  exists conn, r = Ret conn /\ ReturnConnection cid conn true now' m1 = m1 /\
    pc_InUse <$> conns m1 !! conn = Some true.
Proof.
  intros Hc Hm Ht.
  destruct (GetConnection_temporary cid cl db c false id now e m Hc (or_intror (conj Hm (conj eq_refl Ht))))
    as (m1 & pl & -> & Hp & _ & _ & _ & Hc1 & _).
  destruct (Checkout_eq db cid now e m1 pl Hp) as (m2 & pc & -> & Ec & _ & [Ecl _] & Hu & _).
  exists (next_conn m1). split_and!; [done| |].
  - unfold ReturnConnection. rewrite Ecl, Hc1.
    cbn [cl_PoolMode cl_TransactionConn set_LastActivity]. rewrite Hm, decide_False, decide_True, Ht by done.
    by rewrite bool_decide_false.
  - rewrite Ec, lookup_insert_eq. unfold use_of in Hu. cbn. congruence.
Qed.

(** A pool keeps the MongoDB client it was created with: a connection
    borrowed for one statement wraps that client, not the one passed to
    [GetConnection]. *)
Theorem connection_uses_pool_client cid cl db c istxn id now e m pl :
  activeClients m !! cid = Some cl -> temporary cl istxn -> pools m !! db = Some pl ->
  let '(r, m1) := GetConnection cid db c istxn id now e m in
  exists conn, r = Ret conn /\ pc_MongoClient <$> conns m1 !! conn = Some (cp_mongoClient pl).
Proof.
  intros Hc Ht Hpl. destruct (GetConnection_temporary cid cl db c istxn id now e m Hc Ht)
    as (m1 & pl1 & -> & Hp & _ & _ & _ & _ & Hq).
  destruct (Checkout_eq db cid now e m1 pl1 Hp) as (m2 & pc & -> & Ec & _ & _ & _ & _ & Hmc & _).
  exists (next_conn m1). split; [done|]. rewrite Ec, lookup_insert_eq. cbn.
  rewrite Hmc. apply Hq in Hpl. congruence.
Qed.

(** A client inside the transaction [id], holding [conn]. *)
Definition in_transaction (cid id : string) (conn : ConnRef) (m : Manager) : Prop :=
  exists cl pc, activeClients m !! cid = Some cl /\ cl_PoolMode cl = TransactionMode /\
    cl_TransactionConn cl = Some conn /\ conns m !! conn = Some pc /\ pc_TransactionID pc = id.

Lemma in_transaction_get cid id conn db c now e m :
  in_transaction cid id conn m ->
  fst (GetConnection cid db c true id now e m) = Ret conn /\
  conns (snd (GetConnection cid db c true id now e m)) = conns m.
Proof.
  intros (cl & pc & Hc & Hm & Ht & Hconn & Hid).
  destruct (GetConnection_unfold cid db c now m cl Hc) as (m1 & E & _ & Hcs & _).
  unfold GetConnection. rewrite Hc, E, Hm, decide_False, decide_True, Ht by done.
  rewrite decide_True; [by cbn|]. unfold transaction_id. by rewrite Ht, Hcs; cbn; rewrite Hconn; cbn; rewrite Hid.
Qed.

Lemma in_transaction_return cid id conn now m :
  in_transaction cid id conn m -> ReturnConnection cid conn false now m = m.
Proof.
  intros (cl & pc & Hc & Hm & Ht & _). unfold ReturnConnection.
  rewrite Hc, Hm, decide_False, decide_True, Ht by done. cbn. by rewrite bool_decide_false by auto.
Qed.

Lemma in_transaction_end cid id conn now m :
  in_transaction cid id conn m ->
  let m' := ReturnConnection cid conn true now m in
  pc_InUse <$> conns m' !! conn = Some false /\
  (cl_TransactionConn <$> activeClients m' !! cid) = Some None.
Proof.
  intros (cl & pc & Hc & Hm & Ht & Hconn & _). unfold ReturnConnection.
  rewrite Hc, Hm, decide_False, decide_True, Ht by done. cbn. rewrite bool_decide_true by done. cbn.
  unfold Return_own. rewrite Hconn. unfold Return. rewrite Hconn, decide_False by auto. cbn.
  rewrite lookup_insert_eq, lookup_alter_eq, Hc. done.
Qed.

Lemma in_transaction_begin cid cl id db c now e m :
  activeClients m !! cid = Some cl -> cl_PoolMode cl = TransactionMode -> cl_TransactionConn cl = None ->
  let '(r, m1) := GetConnection cid db c true id now e m in
  exists conn, r = Ret conn /\ in_transaction cid id conn m1.
Proof.
  intros Hc Hm Ht. destruct (GetConnection_unfold cid db c now m cl Hc) as (m1 & E & Hc1 & Hcs & Hn & [pl Hp] & _).
  unfold GetConnection. rewrite Hc, E, Hm, decide_False, decide_True, Ht by done.
  destruct (Checkout_eq db cid now e m1 pl Hp) as (m2 & pc & -> & Ec & _ & [Ecl _] & _).
  exists (next_conn m1). split; [done|]. eexists _, _. cbn. rewrite Ecl, Ec.
  rewrite !lookup_alter_eq, lookup_insert_eq, Hc1. cbn. split_and!; done.
Qed.


(** Registration, on every branch: a known client is returned unchanged; a
    new one is refused exactly when a positive limit is reached, and is
    otherwise stored holding no connection. *)
Theorem RegisterClient_spec cid user db mode now m :
  let '(r, m') := RegisterClient cid user db mode now m in
  match activeClients m !! cid with
  | Some cl => r = Ret cl /\ m' = m
  | None =>
      if decide (0 < maxClientConn m <= Z.of_nat (size (activeClients m)))%Z then
        r = Err "max client connections reached" /\ m' = m
      else exists cl, r = Ret cl /\ activeClients m' = <[cid := cl]> (activeClients m) /\ GetClient cid m' = Some cl /\
        cl_PoolMode cl = mode /\ cl_AssignedConn cl = None /\ cl_TransactionConn cl = None /\
        ledger_of m' = ledger_of m
  end.
Proof.
  unfold RegisterClient, GetClient. destruct (activeClients m !! cid); [done|].
  destruct (_ && _) eqn:E.
  - apply andb_true_iff in E as [E1%Z.ltb_lt E2%Z.leb_le]. by rewrite decide_True.
  - rewrite decide_False.
    + eexists. split; [done|]. cbn. rewrite lookup_insert_eq. split_and!; done.
    + intros [H1 H2]. apply andb_false_iff in E as [E%Z.ltb_ge|E%Z.leb_gt]; lia.
Qed.

(** Returning a connection frees it, and keeps a free one free. *)
Lemma Return_own_frees ref now m pc : conns m !! ref = Some pc -> pc_InUse <$> conns (Return_own ref now m) !! ref = Some false.
Proof.
  intros Hc. unfold Return_own. rewrite Hc. unfold Return. rewrite Hc, decide_False by auto. cbn. by rewrite lookup_insert_eq.
Qed.

Lemma return_held_keeps_free c ref now m :
  pc_InUse <$> conns m !! ref = Some false -> pc_InUse <$> conns (return_held c now m) !! ref = Some false.
Proof.
  intros Hf. destruct c as [r|]; [|done]. cbn. unfold Return_own. destruct (conns m !! r) as [pc|] eqn:E; [|done].
  unfold Return. rewrite E, decide_False by auto. cbn. rewrite lookup_insert. by case_decide.
Qed.

Lemma return_held_dom c now m ref : is_Some (conns m !! ref) -> is_Some (conns (return_held c now m) !! ref).
Proof.
  intros Hr. destruct c as [r|]; [|done]. cbn. unfold Return_own. destruct (conns m !! r) as [pc|] eqn:E; [|done].
  unfold Return. rewrite E, decide_False by auto. cbn. rewrite lookup_insert. by case_decide.
Qed.

(** When a client unregisters, the connections it holds, for its session or
    its transaction, are released and the client is gone. *)
Theorem UnregisterClient_releases cid cl now m ref :
  activeClients m !! cid = Some cl -> is_Some (conns m !! ref) ->
  cl_AssignedConn cl = Some ref \/ cl_TransactionConn cl = Some ref ->
  pc_InUse <$> conns (UnregisterClient cid now m) !! ref = Some false /\
  GetClient cid (UnregisterClient cid now m) = None.
Proof.
  intros Hc Hr Hheld. unfold UnregisterClient. rewrite Hc. cbn. split; [|unfold GetClient; cbn; by rewrite lookup_delete_eq].
  destruct Hheld as [E|E]; rewrite E.
  - apply return_held_keeps_free. cbn. destruct Hr as [pc Hr]. by eapply Return_own_frees.
  - destruct (return_held_dom (cl_AssignedConn cl) now m ref Hr) as [pc Hpc]. cbn. by eapply Return_own_frees.
Qed.

(** [GetConnection] fails without making a connection for a client that is
    not registered and for one with an unknown pool mode, and in no other case. *)
Theorem GetConnection_errors cid db c istxn id now e m :
  let '(r, m') := GetConnection cid db c istxn id now e m in
  match activeClients m !! cid with
  | None => r = Err "client not registered" /\ m' = m
  | Some cl =>
      if decide (cl_PoolMode cl ∈ [SessionMode; TransactionMode; StatementMode]) then exists conn, r = Ret conn
      else r = Err ("unknown pool mode: " +:+ cl_PoolMode cl) /\ conns m' = conns m
  end.
Proof.
  unfold GetConnection. destruct (activeClients m !! cid) as [cl|] eqn:Hc; [|done].
  destruct (GetConnection_unfold cid db c now m cl Hc) as (m1 & -> & _ & Hcs & _).
  destruct (decide (cl_PoolMode cl ∈ _)) as [Hin|Hout]; [|rewrite !not_elem_of_cons in Hout; destruct Hout as (? & ? & ? & _)].
  - rewrite !elem_of_cons, elem_of_nil in Hin. repeat case_decide; [..|tauto]; repeat case_match; simplify_eq; eauto.
  - by rewrite !decide_False by done.
Qed.

(** ** Witnesses *)

(** A manager with one client per mode and a pool whose client is 7. *)
Definition sample_manager : Manager :=
  run_pool [(1%Z, ORegister "c1" "u" "app" SessionMode); (2%Z, ORegister "c2" "u" "app" TransactionMode);
            (3%Z, ORegister "c3" "u" "app" StatementMode); (4%Z, OGetPool "app" (Some 7) "");
            (5%Z, OGetConnection "c1" "app" (Some 7) false "" 0)]
    (NewManager (Some []) "session" 1 10 3).

Definition sample_client (cid : string) : ClientConnection :=
  default {| cl_ID := ""; cl_Username := ""; cl_Database := ""; cl_PoolMode := ""; cl_AssignedConn := None;
             cl_TransactionConn := None; cl_LastActivity := 0 |} (activeClients sample_manager !! cid).

Lemma clients_within_limit_witness : (Z.of_nat (size (activeClients sample_manager)) <= 3)%Z.
Proof. unfold sample_manager. apply (clients_within_limit (Some []) "session" 1 10 3). lia. Defined.

Lemma active_connections_bounds_witness :
  (0 <= active_at "app" sample_manager <= Z.of_nat (out "app" (use_of <$> conns sample_manager)))%Z.
Proof.
  destruct (pools sample_manager !! "app") as [pl|] eqn:E; [|by vm_compute in E].
  unfold active_at. rewrite E. cbn [fmap option_fmap option_map default].
  refine (active_connections_bounds (Some []) "session" 1 10 3 _ "app" pl _ E). by vm_compute.
Defined.

Lemma session_connection_sticky_witness :
  fst (GetConnection "c1" "other" (Some 8) false "" 9 0 (snd (GetConnection "c1" "app" (Some 7) false "" 8 0 sample_manager))) = Ret 0.
Proof.
  assert (activeClients sample_manager !! "c1" = Some (sample_client "c1")) as Hc by (by vm_compute).
  pose proof (session_connection_sticky "c1" _ "app" (Some 7) false "" 8 0 sample_manager Hc eq_refl) as H.
  assert (fst (GetConnection "c1" "app" (Some 7) false "" 8 0 sample_manager) = Ret 0) as E by (by vm_compute).
  destruct (GetConnection "c1" "app" (Some 7) false "" 8 0 sample_manager) as [r m1]. cbn [fst] in E.
  destruct H as (conn & Hr & _ & H). cbn [snd]. rewrite (proj1 (H "other" (Some 8) false "" 9%Z 0%Z)).
  congruence.
Defined.

Lemma statement_connection_balanced_witness :
  let m1 := snd (GetConnection "c3" "app" None false "" 8 0 sample_manager) in
  active_at "app" (ReturnConnection "c3" 1 false 9 m1) = 1%Z.
Proof.
  assert (activeClients sample_manager !! "c3" = Some (sample_client "c3")) as Hc by (by vm_compute).
  pose proof (statement_connection_balanced "c3" _ "app" None false "" 8 0 9 sample_manager Hc
    (or_introl eq_refl) ltac:(vm_compute; by split)) as H.
  assert (fst (GetConnection "c3" "app" None false "" 8 0 sample_manager) = Ret 1) as E by (by vm_compute).
  destruct (GetConnection "c3" "app" None false "" 8 0 sample_manager) as [r m1]. cbn [fst] in E.
  destruct H as (conn & Hr & H & _). cbn zeta. cbn [snd].
  assert (conn = 1) as -> by congruence. rewrite H. by vm_compute.
Defined.

Lemma end_of_transaction_leak_witness :
  let m1 := snd (GetConnection "c2" "app" None false "" 8 0 sample_manager) in
  ReturnConnection "c2" 1 true 9 m1 = m1.
Proof.
  assert (activeClients sample_manager !! "c2" = Some (sample_client "c2")) as Hc by (by vm_compute).
  pose proof (end_of_transaction_leak "c2" _ "app" None "" 8 0 9 sample_manager Hc eq_refl eq_refl) as H.
  assert (fst (GetConnection "c2" "app" None false "" 8 0 sample_manager) = Ret 1) as E by (by vm_compute).
  destruct (GetConnection "c2" "app" None false "" 8 0 sample_manager) as [r m1]. cbn [fst] in E.
  destruct H as (conn & Hr & H & _). cbn zeta. cbn [snd].
  assert (conn = 1) as -> by congruence. exact H.
Defined.

Lemma connection_uses_pool_client_witness :
  pc_MongoClient <$> conns (snd (GetConnection "c3" "app" (Some 99) false "" 8 0 sample_manager)) !! 1 = Some (Some 7).
Proof.
  assert (activeClients sample_manager !! "c3" = Some (sample_client "c3")) as Hc by (by vm_compute).
  assert (cp_mongoClient <$> pools sample_manager !! "app" = Some (Some 7)) as Hp by (by vm_compute).
  destruct (pools sample_manager !! "app") as [pl|] eqn:Ep; [|done]. cbn in Hp.
  pose proof (connection_uses_pool_client "c3" _ "app" (Some 99) false "" 8 0 sample_manager pl Hc (or_introl eq_refl) Ep) as H.
  assert (fst (GetConnection "c3" "app" (Some 99) false "" 8 0 sample_manager) = Ret 1) as E by (by vm_compute).
  destruct (GetConnection "c3" "app" (Some 99) false "" 8 0 sample_manager) as [r m1]. cbn [fst] in E.
  destruct H as (conn & Hr & H). cbn [snd].
  assert (conn = 1) as -> by congruence. congruence.
Defined.


Lemma UnregisterClient_releases_witness :
  pc_InUse <$> conns (UnregisterClient "c1" 9 sample_manager) !! 0 = Some false.
Proof.
  assert (activeClients sample_manager !! "c1" = Some (sample_client "c1")) as Hc by (by vm_compute).
  assert (cl_AssignedConn (sample_client "c1") = Some 0) as Ha by (by vm_compute).
  assert (is_Some (conns sample_manager !! 0)) as Hr by (apply (bool_decide_unpack _); by vm_compute).
  exact (proj1 (UnregisterClient_releases "c1" (sample_client "c1") 9 sample_manager 0 Hc Hr (or_introl Ha))).
Defined.
