(* ===== verification/DistributedCache.v ===== *)
(** * The distributed cache ([src/mongo/distributed_cache.go])

    The cache shared by the proxy's pods: what is stored for a session, a
    transaction, a cursor and the location of a session, under which key, and
    what comes back.  The groups are [groupcache]'s (class [GroupOps]), the
    JSON encodings of the four structs are class [Json].  Starting and
    stopping the daemon and discovering peers are network set-up and are not
    modelled: the state starts with the groups that were created. *)

From S2P Require Import Prelude GoStrings.
From Stdlib Require Import ZArith Lia Ascii.

(** Pointers behind the interfaces [driver.Server] and [driver.Connection]. *)
Notation ServerRef := nat (only parsing).
Notation DriverConnRef := nat (only parsing).

Inductive SessionState := SessionStateActive | SessionStateInactive | SessionStateEnded.

Inductive TransactionState :=
| TransactionStateNone
| TransactionStateStarting
| TransactionStateInProgress
| TransactionStateCommitted
| TransactionStateAborted.

#[export] Instance SessionState_eq_decision : EqDecision SessionState.
Proof. solve_decision. Defined.
#[export] Instance TransactionState_eq_decision : EqDecision TransactionState.
Proof. solve_decision. Defined.

Record Session := {
  s_ID : string;
  s_LsID : list byte;
  s_ClientID : string;
  s_State : SessionState;
  s_CreatedAt : Z;
  s_LastActivity : Z;
  s_TransactionState : TransactionState;
  s_CurrentTxnNumber : Z;
  s_PinnedServer : option ServerRef;
  s_PinnedConnection : option DriverConnRef
}.

Record SessionLocation := {
  loc_SessionID : string;
  loc_PodIP : string;
  loc_PodPort : Z;
  loc_CreatedAt : Z;
  loc_LastActivity : Z
}.

Record SessionData := {
  sd_ID : string;
  sd_LsID : list byte;
  sd_ClientID : string;
  sd_State : SessionState;
  sd_CreatedAt : Z;
  sd_LastActivity : Z;
  sd_TransactionState : TransactionState;
  sd_CurrentTxnNumber : Z;
  sd_PinnedServerID : string;
  sd_PinnedConnID : string
}.

Record TransactionData := {
  tx_LsID : list byte;
  tx_ServerID : string;
  tx_TransactionNum : Z;
  tx_CreatedAt : Z
}.

Record CursorData := {
  cu_CursorID : Z;
  cu_Collection : string;
  cu_ServerID : string;
  cu_DatabaseName : string;
  cu_CreatedAt : Z
}.

(** [transport.Group] of groupcache.  A group is shared with the other pods;
    reading may bring a value in from a peer. *)
Class GroupOps (G : Type) := {
  Group_Set : string -> list byte -> Z -> G -> outcome unit * G;
  Group_Get : string -> Z -> G -> outcome (list byte) * G;
  Group_Remove : string -> G -> outcome unit * G
}.

(** What a group promises: a hit is the value last set for that key. *)
Class GroupLaws (G : Type) `{GO : GroupOps G} : Prop := {
  group_get_set k v expire now (g g' : G) v' :
    Group_Set k v expire g = (Ret (), g') -> fst (Group_Get k now g') = Ret v' -> v' = v
}.

(** [encoding/json] on one struct type; [None] is an error. *)
Class Json (A : Type) := {
  Marshal : A -> option (list byte);
  Unmarshal : list byte -> option A
}.

(** Decoding what was encoded gives the struct back. *)
Class JsonLaws (A : Type) `{J : Json A} : Prop := {
  json_roundtrip a data : Marshal a = Some data -> Unmarshal data = Some a
}.

(** [%p] of an interface value: the run-time address, or the text for nil. *)
Class PointerFormat := { fmt_p : option nat -> string }.

Record DistributedCache (G : Type) := {
  dc_enabled : bool;
  dc_SessionExpiry : Z;
  dc_TransactionExpiry : Z;
  dc_CursorExpiry : Z;
  dc_sessionGroup : option G;
  dc_transactionGroup : option G;
  dc_cursorGroup : option G;
  dc_sessionLocationGroup : option G
}.
Arguments dc_enabled {G}.
Arguments dc_SessionExpiry {G}.
Arguments dc_TransactionExpiry {G}.
Arguments dc_CursorExpiry {G}.
Arguments dc_sessionGroup {G}.
Arguments dc_transactionGroup {G}.
Arguments dc_cursorGroup {G}.
Arguments dc_sessionLocationGroup {G}.

Section Distributed.
Context {G : Type} `{GO : GroupOps G}.
Context `{JS : Json SessionData, JT : Json TransactionData, JC : Json CursorData, JL : Json SessionLocation}.
Context `{PF : PointerFormat}.
Notation DC := (DistributedCache G).
Implicit Types dc : DC.

(** ** Group updates *)

Definition set_sessionGroup (g : G) (dc : DC) : DC :=
  {| dc_enabled := dc_enabled dc; dc_SessionExpiry := dc_SessionExpiry dc;
     dc_TransactionExpiry := dc_TransactionExpiry dc; dc_CursorExpiry := dc_CursorExpiry dc;
     dc_sessionGroup := Some g; dc_transactionGroup := dc_transactionGroup dc; dc_cursorGroup := dc_cursorGroup dc;
     dc_sessionLocationGroup := dc_sessionLocationGroup dc |}.

Definition set_transactionGroup (g : G) (dc : DC) : DC :=
  {| dc_enabled := dc_enabled dc; dc_SessionExpiry := dc_SessionExpiry dc;
     dc_TransactionExpiry := dc_TransactionExpiry dc; dc_CursorExpiry := dc_CursorExpiry dc;
     dc_sessionGroup := dc_sessionGroup dc; dc_transactionGroup := Some g; dc_cursorGroup := dc_cursorGroup dc;
     dc_sessionLocationGroup := dc_sessionLocationGroup dc |}.

Definition set_cursorGroup (g : G) (dc : DC) : DC :=
  {| dc_enabled := dc_enabled dc; dc_SessionExpiry := dc_SessionExpiry dc;
     dc_TransactionExpiry := dc_TransactionExpiry dc; dc_CursorExpiry := dc_CursorExpiry dc;
     dc_sessionGroup := dc_sessionGroup dc; dc_transactionGroup := dc_transactionGroup dc; dc_cursorGroup := Some g;
     dc_sessionLocationGroup := dc_sessionLocationGroup dc |}.

Definition set_sessionLocationGroup (g : G) (dc : DC) : DC :=
  {| dc_enabled := dc_enabled dc; dc_SessionExpiry := dc_SessionExpiry dc;
     dc_TransactionExpiry := dc_TransactionExpiry dc; dc_CursorExpiry := dc_CursorExpiry dc;
     dc_sessionGroup := dc_sessionGroup dc; dc_transactionGroup := dc_transactionGroup dc;
     dc_cursorGroup := dc_cursorGroup dc; dc_sessionLocationGroup := Some g |}.

(** [if !dc.enabled || dc.g == nil] guards every operation. *)
Definition usable (dc : DC) (g : option G) : option G := if dc_enabled dc then g else None.

Definition IsEnabled (dc : DC) : bool := dc_enabled dc.

(** ** Sessions *)

Definition sessionData_of (s : Session) : SessionData := {|
  sd_ID := s_ID s; sd_LsID := s_LsID s; sd_ClientID := s_ClientID s; sd_State := s_State s;
  sd_CreatedAt := s_CreatedAt s; sd_LastActivity := s_LastActivity s;
  sd_TransactionState := s_TransactionState s; sd_CurrentTxnNumber := s_CurrentTxnNumber s;
  sd_PinnedServerID := match s_PinnedServer s with Some p => "server_" +:+ fmt_p (Some p) | None => "" end;
  sd_PinnedConnID := match s_PinnedConnection s with Some p => "conn_" +:+ fmt_p (Some p) | None => "" end
|}.

Definition session_of_data (d : SessionData) : Session := {|
  s_ID := sd_ID d; s_LsID := sd_LsID d; s_ClientID := sd_ClientID d; s_State := sd_State d;
  s_CreatedAt := sd_CreatedAt d; s_LastActivity := sd_LastActivity d;
  s_TransactionState := sd_TransactionState d; s_CurrentTxnNumber := sd_CurrentTxnNumber d;
  s_PinnedServer := None; s_PinnedConnection := None
|}.

(** An error of [Set] is logged and dropped. *)
Definition StoreSession (s : Session) (now : Z) (dc : DC) : outcome unit * DC :=
  match usable dc (dc_sessionGroup dc) with
  | None => (Ret (), dc)
  | Some g =>
      match Marshal (sessionData_of s) with
      | None => (Err "failed to marshal session data", dc)
      | Some data =>
          let '(_, g) := Group_Set (s_ID s) data (now + dc_SessionExpiry dc) g in
          (Ret (), set_sessionGroup g dc)
      end
  end.

Definition DC_GetSession (sessionID : string) (now : Z) (dc : DC) : option Session * DC :=
  match usable dc (dc_sessionGroup dc) with
  | None => (None, dc)
  | Some g =>
      let '(r, g) := Group_Get sessionID now g in
      let dc := set_sessionGroup g dc in
      match r with
      | Ret data =>
          match Unmarshal data with
          | None => (None, dc)
          | Some sessionData => (Some (session_of_data sessionData), dc)
          end
      | _ => (None, dc)
      end
  end.

Definition RemoveSession (sessionID : string) (dc : DC) : outcome unit * DC :=
  match usable dc (dc_sessionGroup dc) with
  | None => (Ret (), dc)
  | Some g => let '(r, g) := Group_Remove sessionID g in (r, set_sessionGroup g dc)
  end.

(** ** Transactions *)

Definition txn_key (lsid : list byte) : string := "txn_" +:+ fmt_x lsid.

Definition StoreTransaction (lsid : list byte) (server : option ServerRef) (txnNumber now : Z) (dc : DC)
    : outcome unit * DC :=
  match usable dc (dc_transactionGroup dc) with
  | None => (Ret (), dc)
  | Some g =>
      match Marshal {| tx_LsID := lsid; tx_ServerID := "server_" +:+ fmt_p server;
                       tx_TransactionNum := txnNumber; tx_CreatedAt := now |} with
      | None => (Err "failed to marshal transaction data", dc)
      | Some data =>
          let '(_, g) := Group_Set (txn_key lsid) data (now + dc_TransactionExpiry dc) g in
          (Ret (), set_transactionGroup g dc)
      end
  end.

(** The server cannot be brought back: only whether the transaction is known. *)
Definition GetTransaction (lsid : list byte) (now : Z) (dc : DC) : option ServerRef * bool * DC :=
  match usable dc (dc_transactionGroup dc) with
  | None => (None, false, dc)
  | Some g =>
      let '(r, g) := Group_Get (txn_key lsid) now g in
      let dc := set_transactionGroup g dc in
      match r with
      | Ret data =>
          match (Unmarshal data : option TransactionData) with
          | None => (None, false, dc)
          | Some _ => (None, true, dc)
          end
      | _ => (None, false, dc)
      end
  end.

Definition RemoveTransaction (lsid : list byte) (dc : DC) : outcome unit * DC :=
  match usable dc (dc_transactionGroup dc) with
  | None => (Ret (), dc)
  | Some g => let '(r, g) := Group_Remove (txn_key lsid) g in (r, set_transactionGroup g dc)
  end.

(** ** Cursors *)

Definition cursor_key (cursorID : Z) (collection : string) : string :=
  "cursor_" +:+ fmt_d cursorID +:+ "_" +:+ collection.

Definition StoreCursor (cursorID : Z) (collection : string) (server : option ServerRef) (databaseName : string)
    (now : Z) (dc : DC) : outcome unit * DC :=
  match usable dc (dc_cursorGroup dc) with
  | None => (Ret (), dc)
  | Some g =>
      match Marshal {| cu_CursorID := cursorID; cu_Collection := collection; cu_ServerID := "server_" +:+ fmt_p server;
                       cu_DatabaseName := databaseName; cu_CreatedAt := now |} with
      | None => (Err "failed to marshal cursor data", dc)
      | Some data =>
          let '(_, g) := Group_Set (cursor_key cursorID collection) data (now + dc_CursorExpiry dc) g in
          (Ret (), set_cursorGroup g dc)
      end
  end.

Definition GetCursor (cursorID : Z) (collection : string) (now : Z) (dc : DC)
    : option ServerRef * string * bool * DC :=
  match usable dc (dc_cursorGroup dc) with
  | None => (None, "", false, dc)
  | Some g =>
      let '(r, g) := Group_Get (cursor_key cursorID collection) now g in
      let dc := set_cursorGroup g dc in
      match r with
      | Ret data =>
          match (Unmarshal data : option CursorData) with
          | None => (None, "", false, dc)
          | Some cursorData => (None, cu_DatabaseName cursorData, true, dc)
          end
      | _ => (None, "", false, dc)
      end
  end.

Definition RemoveCursor (cursorID : Z) (collection : string) (dc : DC) : outcome unit * DC :=
  match usable dc (dc_cursorGroup dc) with
  | None => (Ret (), dc)
  | Some g => let '(r, g) := Group_Remove (cursor_key cursorID collection) g in (r, set_cursorGroup g dc)
  end.

(** ** Session locations *)

Definition StoreSessionLocation (sessionID podIP : string) (podPort now : Z) (dc : DC) : outcome unit * DC :=
  match usable dc (dc_sessionLocationGroup dc) with
  | None => (Ret (), dc)
  | Some g =>
      match Marshal {| loc_SessionID := sessionID; loc_PodIP := podIP; loc_PodPort := podPort;
                       loc_CreatedAt := now; loc_LastActivity := now |} with
      | None => (Err "failed to marshal session location data", dc)
      | Some data =>
          let '(_, g) := Group_Set sessionID data (now + dc_SessionExpiry dc) g in
          (Ret (), set_sessionLocationGroup g dc)
      end
  end.

Definition GetSessionLocation (sessionID : string) (now : Z) (dc : DC) : option (string * Z) * DC :=
  match usable dc (dc_sessionLocationGroup dc) with
  | None => (None, dc)
  | Some g =>
      let '(r, g) := Group_Get sessionID now g in
      let dc := set_sessionLocationGroup g dc in
      match r with
      | Ret data =>
          match (Unmarshal data : option SessionLocation) with
          | None => (None, dc)
          | Some location => (Some (loc_PodIP location, loc_PodPort location), dc)
          end
      | _ => (None, dc)
      end
  end.

Definition RemoveSessionLocation (sessionID : string) (dc : DC) : outcome unit * DC :=
  match usable dc (dc_sessionLocationGroup dc) with
  | None => (Ret (), dc)
  | Some g => let '(r, g) := Group_Remove sessionID g in (r, set_sessionLocationGroup g dc)
  end.

(** The getters: a miss is an error, nothing is loaded on demand. *)
Definition sessionGetter (key : string) : outcome (list byte) := Err "session not found".
Definition transactionGetter (key : string) : outcome (list byte) := Err "transaction not found".
Definition cursorGetter (key : string) : outcome (list byte) := Err ("cursor not found: " +:+ key).
Definition sessionLocationGetter (key : string) : outcome (list byte) :=
  Err ("session location not found: " +:+ key).

(** ** Properties *)

(** A session as another pod sees it: its pinned resources do not travel. *)
Definition strip_pins (s : Session) : Session := {|
  s_ID := s_ID s; s_LsID := s_LsID s; s_ClientID := s_ClientID s; s_State := s_State s;
  s_CreatedAt := s_CreatedAt s; s_LastActivity := s_LastActivity s;
  s_TransactionState := s_TransactionState s; s_CurrentTxnNumber := s_CurrentTxnNumber s;
  s_PinnedServer := None; s_PinnedConnection := None
|}.

Lemma session_of_sessionData s : session_of_data (sessionData_of s) = strip_pins s.
Proof. done. Qed.

Lemma txn_key_inj l1 l2 : txn_key l1 = txn_key l2 -> l1 = l2.
Proof. unfold txn_key. intros H%append_inj_r. by apply fmt_x_inj. Qed.

Lemma cursor_key_inj i1 c1 i2 c2 : cursor_key i1 c1 = cursor_key i2 c2 -> i1 = i2 /\ c1 = c2.
Proof. unfold cursor_key. intros H%append_inj_r. by apply (fmt_d_sep_inj "_"%char) in H. Qed.

(** Keys of the shared cache do not collide: two transactions share a key
    only with the same session id, and two cursors only with the same cursor
    id and collection, whatever characters the collection name has. *)
Theorem distributed_keys_injective :
  (forall l1 l2, txn_key l1 = txn_key l2 -> l1 = l2) /\
  (forall i1 c1 i2 c2, cursor_key i1 c1 = cursor_key i2 c2 -> (i1, c1) = (i2, c2)).
Proof.
  split; [apply txn_key_inj|]. intros i1 c1 i2 c2 H. by destruct (cursor_key_inj _ _ _ _ H) as [-> ->].
Qed.

Section with_laws.
Context `{GL : !GroupLaws G, LS : !JsonLaws SessionData, LC : !JsonLaws CursorData, LL : !JsonLaws SessionLocation}.

(** What the group holds for a session just stored is the session. *)
Lemma StoreSession_GetSession s now now' dc g data s' :
  dc_enabled dc = true -> dc_sessionGroup dc = Some g -> Marshal (sessionData_of s) = Some data ->
  fst (Group_Set (s_ID s) data (now + dc_SessionExpiry dc) g) = Ret () ->
  fst (DC_GetSession (s_ID s) now' (snd (StoreSession s now dc))) = Some s' ->
  s' = strip_pins s.
Proof.
  intros He Hg Hd Hset. unfold StoreSession, usable. rewrite He, Hg, Hd.
  destruct (Group_Set _ _ _ g) as [r g'] eqn:E. cbn in Hset. subst r. cbn.
  unfold DC_GetSession, usable. cbn. rewrite He.
  destruct (Group_Get (s_ID s) now' g') as [[d| | |] g''] eqn:E'; cbn; try done.
  assert (d = data) as ->.
  { apply (group_get_set (s_ID s) data (now + dc_SessionExpiry dc) now' g g'); [done|]. by rewrite E'. }
  rewrite (json_roundtrip _ _ Hd). cbn. intros. by simplify_eq.
Qed.

(** Round trip of a session through the shared cache: if the group took the
    session and later has it, another pod gets it with the same state and
    transaction, without its pinned server and connection. *)
Theorem session_roundtrip s now now' dc g data s' :
  dc_enabled dc = true -> dc_sessionGroup dc = Some g -> Marshal (sessionData_of s) = Some data ->
  fst (Group_Set (s_ID s) data (now + dc_SessionExpiry dc) g) = Ret () ->
  fst (DC_GetSession (s_ID s) now' (snd (StoreSession s now dc))) = Some s' ->
  s' = strip_pins s.
Proof. apply StoreSession_GetSession. Qed.

(** Round trip of a cursor: a cursor that the group took and still has is
    found under its id and collection with its database, but never with a server. *)
Theorem cursor_roundtrip id coll server db now now' dc g data :
  let cd := {| cu_CursorID := id; cu_Collection := coll; cu_ServerID := "server_" +:+ fmt_p server;
               cu_DatabaseName := db; cu_CreatedAt := now |} in
  dc_enabled dc = true -> dc_cursorGroup dc = Some g -> Marshal cd = Some data ->
  fst (Group_Set (cursor_key id coll) data (now + dc_CursorExpiry dc) g) = Ret () ->
  let '(server', db', found, _) := GetCursor id coll now' (snd (StoreCursor id coll server db now dc)) in
  server' = None /\ (found = true -> db' = db).
Proof.
  cbn zeta. intros He Hg Hd Hset. unfold StoreCursor, usable. rewrite He, Hg, Hd.
  destruct (Group_Set _ _ _ g) as [r g'] eqn:E. cbn in Hset. subst r. cbn.
  unfold GetCursor, usable. cbn. rewrite He.
  destruct (Group_Get (cursor_key id coll) now' g') as [[d| | |] g''] eqn:E'; cbn; try done.
  assert (d = data) as ->.
  { apply (group_get_set (cursor_key id coll) data (now + dc_CursorExpiry dc) now' g g'); [done|]. by rewrite E'. }
  by rewrite (json_roundtrip _ _ Hd).
Qed.

End with_laws.

End Distributed.

(** ** A reference group, and encodings of one value *)

(** A single-pod group: an ordinary map, no expiry. *)
#[export] Instance map_group : GroupOps (gmap string (list byte)) := {
  Group_Set k v _ g := (Ret (), <[k := v]> g);
  Group_Get k _ g := (or_err (g !! k) "not found", g);
  Group_Remove k g := (Ret (), delete k g)
}.

#[export] Instance map_group_laws : GroupLaws (gmap string (list byte)).
Proof.
  split. intros k v expire now g g' v'. cbn. intros [= <-]. rewrite lookup_insert_eq. cbn. intros. by simplify_eq.
Qed.

(** An encoding that knows the values of a list, by their position. *)
Definition table_json {A} `{EqDecision A} (table : list A) : Json A := {|
  Marshal a := (fun '(i, _) => [byte.of_Z (Z.of_nat i)]) <$> list_find (fun b => b = a) (take 256 table);
  Unmarshal data := match data with [b] => take 256 table !! Z.to_nat (byte.unsigned b) | _ => None end
|}.

Lemma table_json_laws {A} `{EqDecision A} (table : list A) : JsonLaws A (J := table_json table).
Proof.
  split. intros a data. cbn. intros ([i b] & H & ->)%fmap_Some. apply list_find_Some in H as (Hi & -> & _).
  rewrite byte.unsigned_of_Z. apply lookup_lt_Some in Hi as Hl. rewrite length_take in Hl.
  unfold byte.wrap. rewrite Z.mod_small by lia. by rewrite Nat2Z.id.
Qed.

#[export] Instance SessionData_eq_decision : EqDecision SessionData.
Proof. solve_decision. Defined.
#[export] Instance CursorData_eq_decision : EqDecision CursorData.
Proof. solve_decision. Defined.
#[export] Instance TransactionData_eq_decision : EqDecision TransactionData.
Proof. solve_decision. Defined.
#[export] Instance SessionLocation_eq_decision : EqDecision SessionLocation.
Proof. solve_decision. Defined.

Definition decimal_pointers : PointerFormat :=
  {| fmt_p p := match p with Some n => fmt_d (Z.of_nat n) | None => "%!p(<nil>)" end |}.

Definition sample_dc : DistributedCache (gmap string (list byte)) :=
  {| dc_enabled := true; dc_SessionExpiry := 100; dc_TransactionExpiry := 100; dc_CursorExpiry := 100;
     dc_sessionGroup := Some ∅; dc_transactionGroup := Some ∅; dc_cursorGroup := Some ∅;
     dc_sessionLocationGroup := Some ∅ |}.

Definition sample_session : Session :=
  {| s_ID := "AQI="; s_LsID := [Byte.x01; Byte.x02]; s_ClientID := "c"; s_State := SessionStateActive;
     s_CreatedAt := 1; s_LastActivity := 2; s_TransactionState := TransactionStateInProgress;
     s_CurrentTxnNumber := 7; s_PinnedServer := Some 3; s_PinnedConnection := Some 4 |}.

Lemma session_roundtrip_witness :
  let J := table_json [sessionData_of (PF := decimal_pointers) sample_session] in
  fst (DC_GetSession (JS := J) "AQI=" 6 (snd (StoreSession (JS := J) (PF := decimal_pointers) sample_session 5 sample_dc))) =
  Some (strip_pins sample_session).
Proof.
  set (J := table_json [sessionData_of (PF := decimal_pointers) sample_session]). cbn zeta.
  destruct (fst (DC_GetSession (JS := J) "AQI=" 6
    (snd (StoreSession (JS := J) (PF := decimal_pointers) sample_session 5 sample_dc)))) as [s'|] eqn:E;
    [|by vm_compute in E].
  f_equal. apply (session_roundtrip (JS := J) (LS := table_json_laws _) (PF := decimal_pointers) sample_session 5 6
    sample_dc ∅ [Byte.x00] s'); [done|done|by vm_compute|done|exact E].
Defined.

Lemma cursor_roundtrip_witness :
  let cd := {| cu_CursorID := 9; cu_Collection := "users"; cu_ServerID := "server_3"; cu_DatabaseName := "app"; cu_CreatedAt := 5 |} in
  let J := table_json [cd] in
  let '(server, db, found, _) := GetCursor (JC := J) 9 "users" 6
    (snd (StoreCursor (JC := J) (PF := decimal_pointers) 9 "users" (Some 3) "app" 5 sample_dc)) in
  server = None /\ (found = true -> db = "app").
Proof.
  cbn zeta. apply (cursor_roundtrip (PF := decimal_pointers) (LC := table_json_laws _) 9 "users" (Some 3) "app" 5 6
    sample_dc ∅ [Byte.x00]); [done|done|by vm_compute|done].
Defined.
