(* ===== verification/Sessions.v ===== *)
(** * Sessions and their transactions ([src/mongo/session_manager.go])

    The session manager keeps pointers to sessions that its callers share, so
    sessions live in a heap; the map goes from the base64 of the logical
    session id to a reference.  Each operation is one definition; the errors
    of the shared cache are logged and dropped by the code and do not show.
    The random bytes of a new session id are an argument. *)

From S2P Require Import Prelude GoStrings DistributedCache.
From Stdlib Require Import ZArith Lia.

Notation SessRef := nat (only parsing).

Record SessionManager (G : Type) := {
  sm_sessions : gmap string SessRef;
  sm_heap : gmap SessRef Session;
  sm_next : SessRef;
  sm_dc : option (DistributedCache G)
}.
Arguments sm_sessions {G}.
Arguments sm_heap {G}.
Arguments sm_next {G}.
Arguments sm_dc {G}.

Section Sessions.
Context {G : Type} `{GO : GroupOps G}.
Context `{JS : Json SessionData, JT : Json TransactionData, PF : PointerFormat}.
Notation SM := (SessionManager G).
Implicit Types sm : SM.

(** ** Updates *)

Definition set_sessions (x : gmap string SessRef) (sm : SM) : SM :=
  {| sm_sessions := x; sm_heap := sm_heap sm; sm_next := sm_next sm; sm_dc := sm_dc sm |}.
Definition set_dc (x : option (DistributedCache G)) (sm : SM) : SM :=
  {| sm_sessions := sm_sessions sm; sm_heap := sm_heap sm; sm_next := sm_next sm; sm_dc := x |}.
Definition set_session (ref : SessRef) (s : Session) (sm : SM) : SM :=
  {| sm_sessions := sm_sessions sm; sm_heap := <[ref := s]> (sm_heap sm); sm_next := sm_next sm; sm_dc := sm_dc sm |}.
Definition alloc_session (s : Session) (sm : SM) : SessRef * SM :=
  (sm_next sm,
   {| sm_sessions := sm_sessions sm; sm_heap := <[sm_next sm := s]> (sm_heap sm); sm_next := S (sm_next sm);
      sm_dc := sm_dc sm |}).

(** [if sm.distributedCache != nil && sm.distributedCache.IsEnabled() { ... }] *)
Definition when_dc (f : DistributedCache G -> DistributedCache G) (sm : SM) : SM :=
  match sm_dc sm with
  | Some dc => if IsEnabled dc then set_dc (Some (f dc)) sm else sm
  | None => sm
  end.

(** The fields of a session that operations change. *)
Definition set_activity (now : Z) (s : Session) : Session :=
  {| s_ID := s_ID s; s_LsID := s_LsID s; s_ClientID := s_ClientID s; s_State := s_State s;
     s_CreatedAt := s_CreatedAt s; s_LastActivity := now; s_TransactionState := s_TransactionState s;
     s_CurrentTxnNumber := s_CurrentTxnNumber s; s_PinnedServer := s_PinnedServer s;
     s_PinnedConnection := s_PinnedConnection s |}.
Definition set_txn (ts : TransactionState) (n : Z) (s : Session) : Session :=
  {| s_ID := s_ID s; s_LsID := s_LsID s; s_ClientID := s_ClientID s; s_State := s_State s;
     s_CreatedAt := s_CreatedAt s; s_LastActivity := s_LastActivity s; s_TransactionState := ts;
     s_CurrentTxnNumber := n; s_PinnedServer := s_PinnedServer s; s_PinnedConnection := s_PinnedConnection s |}.
Definition set_pins (server : option ServerRef) (conn : option DriverConnRef) (s : Session) : Session :=
  {| s_ID := s_ID s; s_LsID := s_LsID s; s_ClientID := s_ClientID s; s_State := s_State s;
     s_CreatedAt := s_CreatedAt s; s_LastActivity := s_LastActivity s; s_TransactionState := s_TransactionState s;
     s_CurrentTxnNumber := s_CurrentTxnNumber s; s_PinnedServer := server; s_PinnedConnection := conn |}.
Definition set_ended (s : Session) : Session :=
  {| s_ID := s_ID s; s_LsID := s_LsID s; s_ClientID := s_ClientID s; s_State := SessionStateEnded;
     s_CreatedAt := s_CreatedAt s; s_LastActivity := s_LastActivity s; s_TransactionState := s_TransactionState s;
     s_CurrentTxnNumber := s_CurrentTxnNumber s; s_PinnedServer := s_PinnedServer s;
     s_PinnedConnection := s_PinnedConnection s |}.

(** Dereference of a session pointer. *)
Definition with_session {A} (ref : SessRef) (sm : SM) (k : Session -> outcome A * SM) : outcome A * SM :=
  match sm_heap sm !! ref with
  | Some s => k s
  | None => (Panic "nil pointer dereference", sm)
  end.

(** ** Operations *)

Definition NewSessionManager : SM := {| sm_sessions := ∅; sm_heap := ∅; sm_next := 0; sm_dc := None |}.
Definition NewSessionManagerWithDistributedCache (dc : option (DistributedCache G)) : SM :=
  {| sm_sessions := ∅; sm_heap := ∅; sm_next := 0; sm_dc := dc |}.

(** [random] is what [rand.Read] fills the 16 bytes with. *)
Definition GenerateLogicalSessionID (random : outcome (list byte)) : outcome (list byte) :=
  match random with
  | Ret lsid => Ret lsid
  | Err e => Err ("failed to generate logical session ID: " +:+ e)
  | Panic w => Panic w
  | NoFuel => NoFuel
  end.

Definition CreateSession (clientID : string) (random : outcome (list byte)) (now : Z) (sm : SM) : outcome SessRef * SM :=
  match GenerateLogicalSessionID random with
  | Ret lsid =>
      let sessionID := b64_EncodeToString lsid in
      let session :=
        {| s_ID := sessionID; s_LsID := lsid; s_ClientID := clientID; s_State := SessionStateActive;
           s_CreatedAt := now; s_LastActivity := now; s_TransactionState := TransactionStateNone;
           s_CurrentTxnNumber := 0; s_PinnedServer := None; s_PinnedConnection := None |} in
      let '(ref, sm) := alloc_session session sm in
      let sm := set_sessions (<[sessionID := ref]> (sm_sessions sm)) sm in
      let sm := when_dc (fun dc => snd (StoreSession session now dc)) sm in
      (Ret ref, sm)
  | Err e => (Err e, sm)
  | Panic w => (Panic w, sm)
  | NoFuel => (NoFuel, sm)
  end.

(** The session found locally and not ended. *)
Definition local_session (sessionID : string) (sm : SM) : option (SessRef * Session) :=
  match sm_sessions sm !! sessionID with
  | Some ref =>
      match sm_heap sm !! ref with
      | Some s => if decide (s_State s <> SessionStateEnded) then Some (ref, s) else None
      | None => None
      end
  | None => None
  end.

Definition SM_GetSession (lsid : list byte) (now : Z) (sm : SM) : option SessRef * SM :=
  let sessionID := b64_EncodeToString lsid in
  match local_session sessionID sm with
  | Some (ref, s) => (Some ref, set_session ref (set_activity now s) sm)
  | None =>
      match sm_dc sm with
      | Some dc =>
          if IsEnabled dc then
            let '(found, dc) := DC_GetSession sessionID now dc in
            let sm := set_dc (Some dc) sm in
            match found with
            | Some distributedSession =>
                let '(ref, sm) := alloc_session distributedSession sm in
                (Some ref, set_sessions (<[sessionID := ref]> (sm_sessions sm)) sm)
            | None => (None, sm)
            end
          else (None, sm)
      | None => (None, sm)
      end
  end.

Definition StartTransaction (ref : SessRef) (server : option ServerRef) (connection : option DriverConnRef)
    (txnNumber now : Z) (sm : SM) : outcome unit * SM :=
  with_session ref sm (fun s =>
    if decide (s_State s <> SessionStateActive) then (Err "cannot start transaction on inactive session", sm)
    else if decide (s_TransactionState s <> TransactionStateNone) then (Err "transaction already in progress", sm)
    else
      let s := set_activity now (set_pins server connection (set_txn TransactionStateInProgress txnNumber s)) in
      let sm := set_session ref s sm in
      let sm := when_dc (fun dc => snd (StoreSession s now (snd (StoreTransaction (s_LsID s) server txnNumber now dc)))) sm in
      (Ret (), sm)).

Definition SM_CommitTransaction (ref : SessRef) (now : Z) (sm : SM) : outcome unit * SM :=
  with_session ref sm (fun s =>
    if decide (s_TransactionState s <> TransactionStateInProgress) then
      (Err "no transaction in progress to commit", sm)
    else (Ret (), set_session ref (set_activity now (set_txn TransactionStateCommitted (s_CurrentTxnNumber s) s)) sm)).

Definition UnpinTransaction (ref : SessRef) (sm : SM) : outcome unit * SM :=
  with_session ref sm (fun s => (Ret (), set_session ref (set_pins None None s) sm)).

Definition ResetTransactionState (ref : SessRef) (sm : SM) : outcome unit * SM :=
  with_session ref sm (fun s => (Ret (), set_session ref (set_pins None None (set_txn TransactionStateNone 0 s)) sm)).

Definition SM_AbortTransaction (ref : SessRef) (now : Z) (sm : SM) : outcome unit * SM :=
  with_session ref sm (fun s =>
    if decide (s_TransactionState s <> TransactionStateInProgress) then
      (Err "no transaction in progress to abort", sm)
    else (Ret (), set_session ref (set_activity now (set_txn TransactionStateAborted (s_CurrentTxnNumber s) s)) sm)).

Definition EndSession (ref : SessRef) (now : Z) (sm : SM) : outcome unit * SM :=
  with_session ref sm (fun s =>
    if decide (s_State s = SessionStateEnded) then (Ret (), sm)
    else
      let s :=
        if decide (s_TransactionState s = TransactionStateInProgress)
        then set_pins None None (set_txn TransactionStateAborted (s_CurrentTxnNumber s) s) else s in
      let s := set_activity now (set_ended s) in
      let sm := set_session ref s sm in
      let sm := set_sessions (delete (s_ID s) (sm_sessions sm)) sm in
      (Ret (), when_dc (fun dc => snd (RemoveSession (s_ID s) dc)) sm)).

(** The state and activity of the session an entry of the map points to. *)
Definition entry_session (sm : SM) (ref : SessRef) : option Session := sm_heap sm !! ref.

Definition CleanupInactiveSessions (maxInactiveTime now : Z) (sm : SM) : SM :=
  let sessionsToRemove :=
    List.filter (fun '(_, ref) =>
      match entry_session sm ref with
      | Some s => bool_decide (s_State s = SessionStateEnded) || (maxInactiveTime <? now - s_LastActivity s)%Z
      | None => false
      end) (map_to_list (sm_sessions sm)) in
  set_sessions (fold_left (fun sessions '(sessionID, _) => delete sessionID sessions) sessionsToRemove (sm_sessions sm)) sm.

Definition CleanupExpiredSessions (maxAge now : Z) (sm : SM) : SM :=
  set_sessions
    (fold_left (fun sessions '(sessionID, ref) =>
       match entry_session sm ref with
       | Some s => if (maxAge <? now - s_LastActivity s)%Z then delete sessionID sessions else sessions
       | None => sessions
       end) (map_to_list (sm_sessions sm)) (sm_sessions sm)) sm.

Definition GetSessionCount (sm : SM) : nat := size (sm_sessions sm).

Definition GetPinnedServer (s : Session) : option ServerRef :=
  if decide (s_TransactionState s = TransactionStateInProgress) then s_PinnedServer s else None.

Definition GetPinnedConnection (s : Session) : option DriverConnRef :=
  if decide (s_TransactionState s = TransactionStateInProgress \/ s_TransactionState s = TransactionStateCommitted \/
             s_TransactionState s = TransactionStateAborted)
  then s_PinnedConnection s else None.

Definition IsTransactionActive (s : Session) : bool :=
  bool_decide (s_TransactionState s = TransactionStateInProgress).

Definition GetActiveTransactionCount (sm : SM) : Z :=
  fold_left (fun count '(_, ref) =>
      match entry_session sm ref with
      | Some s => if decide (s_TransactionState s = TransactionStateInProgress) then (count + 1)%Z else count
      | None => count
      end) (map_to_list (sm_sessions sm)) 0%Z.

(** ** Properties of one session *)

(** What holds of every session: no operation leaves a transaction starting
    or a session inactive, and a session outside any transaction has neither
    number nor pinned resources. *)
Definition session_ok (s : Session) : Prop :=
  s_TransactionState s <> TransactionStateStarting /\ s_State s <> SessionStateInactive /\
  (s_TransactionState s = TransactionStateNone ->
     s_CurrentTxnNumber s = 0%Z /\ s_PinnedServer s = None /\ s_PinnedConnection s = None).

Lemma with_session_hit {A} ref sm s (k : Session -> outcome A * SM) :
  sm_heap sm !! ref = Some s -> with_session ref sm k = k s.
Proof. intros H. unfold with_session. by rewrite H. Qed.

Lemma heap_when_dc f sm : sm_heap (when_dc f sm) = sm_heap sm /\ sm_sessions (when_dc f sm) = sm_sessions sm /\
  sm_next (when_dc f sm) = sm_next sm.
Proof. unfold when_dc. by repeat case_match. Qed.

(** C33.
    Starting a transaction, on every branch: it succeeds exactly on an active
    session with no transaction, and then the session carries the given
    number, server and connection; otherwise nothing changes. *)
Theorem StartTransaction_spec ref s server conn n now sm :
  sm_heap sm !! ref = Some s ->
  let '(r, sm') := StartTransaction ref server conn n now sm in
  if decide (s_State s = SessionStateActive /\ s_TransactionState s = TransactionStateNone) then
    r = Ret () /\ exists s', sm_heap sm' !! ref = Some s' /\ IsTransactionActive s' = true /\
      s_CurrentTxnNumber s' = n /\ GetPinnedServer s' = server /\ GetPinnedConnection s' = conn
  else (exists e, r = Err e) /\ sm' = sm.
Proof.
  intros Hs. unfold StartTransaction. rewrite (with_session_hit ref sm s) by done.
  destruct (decide (s_State s = SessionStateActive)) as [E1|E1].
  2: { rewrite (decide_True _ _ E1), decide_False by tauto. eauto. }
  rewrite decide_False by tauto. destruct (decide (s_TransactionState s = TransactionStateNone)) as [E2|E2].
  2: { rewrite (decide_True _ _ E2), decide_False by tauto. eauto. }
  rewrite decide_False, decide_True by tauto. split; [done|]. eexists.
  rewrite (proj1 (heap_when_dc _ _)). cbn. rewrite lookup_insert_eq. by split_and!.
Qed.

Lemma finish_transaction ref s ts now sm :
  sm_heap sm !! ref = Some s -> ts = TransactionStateCommitted \/ ts = TransactionStateAborted ->
  let s' := set_activity now (set_txn ts (s_CurrentTxnNumber s) s) in
  let sm' := set_session ref s' sm in
  GetPinnedServer s' = None /\ GetPinnedConnection s' = s_PinnedConnection s /\ IsTransactionActive s' = false /\
  (forall server conn n now', exists e, fst (StartTransaction ref server conn n now' sm') = Err e) /\
  (forall server conn n now', s_State s = SessionStateActive ->
     fst (StartTransaction ref server conn n now' (snd (ResetTransactionState ref sm'))) = Ret ()).
Proof.
  intros Hs Hts. cbn zeta. unfold GetPinnedServer, GetPinnedConnection, IsTransactionActive. cbn.
  split_and!.
  - by rewrite decide_False by (destruct Hts as [-> | ->]; done).
  - by rewrite decide_True by tauto.
  - apply bool_decide_false. by destruct Hts as [-> | ->].
  - intros. unfold StartTransaction. erewrite with_session_hit by apply lookup_insert_eq. cbn.
    case_decide; [by eexists|]. rewrite decide_True by (by destruct Hts as [-> | ->]). by eexists.
  - intros server conn n now' Ha. unfold ResetTransactionState. erewrite with_session_hit by apply lookup_insert_eq.
    cbn. unfold StartTransaction. erewrite with_session_hit by apply lookup_insert_eq. cbn.
    by rewrite Ha, !decide_False by auto.
Qed.

(** Finishing a transaction: committing succeeds only while the transaction
    is in progress; after it the session has no pinned server but still the
    connection, so the commit itself goes out on it; a new transaction is
    refused until the transaction state is reset, and is then accepted. *)
Theorem CommitTransaction_spec ref s now sm :
  sm_heap sm !! ref = Some s ->
  let '(r, sm') := SM_CommitTransaction ref now sm in
  if decide (s_TransactionState s = TransactionStateInProgress) then
    r = Ret () /\ exists s', sm_heap sm' !! ref = Some s' /\ GetPinnedServer s' = None /\
      GetPinnedConnection s' = s_PinnedConnection s /\ IsTransactionActive s' = false /\
      (forall server conn n now', exists e, fst (StartTransaction ref server conn n now' sm') = Err e) /\
      (forall server conn n now', s_State s = SessionStateActive ->
         fst (StartTransaction ref server conn n now' (snd (ResetTransactionState ref sm'))) = Ret ())
  else (exists e, r = Err e) /\ sm' = sm.
Proof.
  intros Hs. unfold SM_CommitTransaction. rewrite (with_session_hit ref sm s) by done.
  destruct (decide (s_TransactionState s = TransactionStateInProgress)) as [E|E].
  - rewrite decide_False by tauto. split; [done|]. eexists. split; [apply lookup_insert_eq|].
    apply finish_transaction; auto.
  - rewrite decide_True by done. eauto.
Qed.

(** Aborting a transaction has the same effect with the state [aborted], and
    is refused in every other state. *)
Theorem AbortTransaction_spec ref s now sm :
  sm_heap sm !! ref = Some s ->
  let '(r, sm') := SM_AbortTransaction ref now sm in
  if decide (s_TransactionState s = TransactionStateInProgress) then
    r = Ret () /\ exists s', sm_heap sm' !! ref = Some s' /\ s_TransactionState s' = TransactionStateAborted /\
      GetPinnedServer s' = None /\ GetPinnedConnection s' = s_PinnedConnection s /\
      (forall server conn n now', exists e, fst (StartTransaction ref server conn n now' sm') = Err e) /\
      (forall server conn n now', s_State s = SessionStateActive ->
         fst (StartTransaction ref server conn n now' (snd (ResetTransactionState ref sm'))) = Ret ())
  else (exists e, r = Err e) /\ sm' = sm.
Proof.
  intros Hs. unfold SM_AbortTransaction. rewrite (with_session_hit ref sm s) by done.
  destruct (decide (s_TransactionState s = TransactionStateInProgress)) as [E|E].
  - rewrite decide_False by tauto. split; [done|]. eexists. split; [apply lookup_insert_eq|]. split; [done|].
    pose proof (finish_transaction ref s TransactionStateAborted now sm Hs (or_intror eq_refl)) as (? & ? & _ & ? & ?).
    split_and!; done.
  - rewrite decide_True by done. eauto.
Qed.

(** An ended session is final: after [EndSession] no transaction can be
    started, committed or aborted on it, and ending it again changes nothing. *)
Theorem EndSession_final ref s now sm :
  sm_heap sm !! ref = Some s -> s_State s <> SessionStateEnded ->
  let '(r, sm') := EndSession ref now sm in
  r = Ret () /\
  (forall server conn n now', exists e, fst (StartTransaction ref server conn n now' sm') = Err e) /\
  (forall now', exists e, fst (SM_CommitTransaction ref now' sm') = Err e) /\
  (forall now', exists e, fst (SM_AbortTransaction ref now' sm') = Err e) /\
  (forall now', EndSession ref now' sm' = (Ret (), sm')).
Proof.
  intros Hs He. unfold EndSession at 1. rewrite (with_session_hit ref sm s), decide_False by done. cbn zeta.
  set (s1 := if decide (s_TransactionState s = TransactionStateInProgress) then _ else s).
  assert (s_TransactionState s1 <> TransactionStateInProgress) as Ht.
  { unfold s1. case_decide; [done|done]. }
  match goal with |- context [(Ret (), ?m)] => set (sm' := m) end.
  assert (sm_heap sm' !! ref = Some (set_activity now (set_ended s1))) as Hs'.
  { unfold sm'. rewrite (proj1 (heap_when_dc _ _)). cbn. apply lookup_insert_eq. }
  split_and!; [done|..]; intros.
  - unfold StartTransaction. rewrite (with_session_hit _ _ _ _ Hs'), decide_True by done. by eexists.
  - unfold SM_CommitTransaction. rewrite (with_session_hit _ _ _ _ Hs'), decide_True by done. by eexists.
  - unfold SM_AbortTransaction. rewrite (with_session_hit _ _ _ _ Hs'), decide_True by done. by eexists.
  - unfold EndSession. by rewrite (with_session_hit _ _ _ _ Hs'), decide_True.
Qed.

(** ** Properties of the manager *)

Inductive sess_op :=
| OCreate (clientID : string) (random : outcome (list byte))
| OGetSession (lsid : list byte)
| OStart (ref : SessRef) (server : option ServerRef) (conn : option DriverConnRef) (n : Z)
| OCommit (ref : SessRef)
| OAbort (ref : SessRef)
| OUnpin (ref : SessRef)
| OReset (ref : SessRef)
| OEnd (ref : SessRef)
| OCleanupInactive (maxInactive : Z)
| OCleanupExpired (maxAge : Z).

Definition run_sess_op (o : sess_op) (now : Z) (sm : SM) : SM :=
  match o with
  | OCreate cid random => snd (CreateSession cid random now sm)
  | OGetSession lsid => snd (SM_GetSession lsid now sm)
  | OStart ref server conn n => snd (StartTransaction ref server conn n now sm)
  | OCommit ref => snd (SM_CommitTransaction ref now sm)
  | OAbort ref => snd (SM_AbortTransaction ref now sm)
  | OUnpin ref => snd (UnpinTransaction ref sm)
  | OReset ref => snd (ResetTransactionState ref sm)
  | OEnd ref => snd (EndSession ref now sm)
  | OCleanupInactive d => CleanupInactiveSessions d now sm
  | OCleanupExpired d => CleanupExpiredSessions d now sm
  end.

Fixpoint run_sess (ops : list (Z * sess_op)) (sm : SM) : SM :=
  match ops with
  | [] => sm
  | (now, o) :: ops' => run_sess ops' (run_sess_op o now sm)
  end.

(** Without a shared cache: references are fresh, every session is well
    formed with the id its logical id has, and the map holds, under their own
    ids, sessions that have not ended. *)
Definition sm_ok (sm : SM) : Prop :=
  sm_dc sm = None /\
  (forall ref, sm_next sm <= ref -> sm_heap sm !! ref = None) /\
  (forall ref s, sm_heap sm !! ref = Some s -> session_ok s /\ s_ID s = b64_EncodeToString (s_LsID s)) /\
  (forall id ref, sm_sessions sm !! id = Some ref ->
     exists s, sm_heap sm !! ref = Some s /\ s_ID s = id /\ s_State s <> SessionStateEnded).

Lemma when_dc_None f sm : sm_dc sm = None -> when_dc f sm = sm.
Proof. unfold when_dc. by intros ->. Qed.

(** Replacing a session by one with the same ids that has not ended anew. *)
Lemma sm_ok_set_session ref s s' sm :
  sm_ok sm -> sm_heap sm !! ref = Some s -> session_ok s' -> s_ID s' = s_ID s -> s_LsID s' = s_LsID s ->
  s_State s' = s_State s -> sm_ok (set_session ref s' sm).
Proof.
  intros (Hd & Hf & Hh & Hm) Hs Hok Hid Hls Hst. split_and!; cbn; [done| | |].
  - intros r Hr. rewrite lookup_insert_ne; [by apply Hf|]. intros <-. rewrite Hf in Hs by done. done.
  - intros r t. rewrite lookup_insert. case_decide; [|apply Hh]. subst. intros [= <-].
    split; [done|]. rewrite Hid, Hls. by apply (Hh r s).
  - intros id r Hr. apply Hm in Hr as (t & Ht & Hi & He). rewrite lookup_insert. case_decide; [|eauto].
    subst. rewrite Hs in Ht. simplify_eq. exists s'. split_and!; congruence.
Qed.

(** Dropping entries of the map. *)
Lemma sm_ok_submap (sessions : gmap string SessRef) sm :
  sm_ok sm -> sessions ⊆ sm_sessions sm -> sm_ok (set_sessions sessions sm).
Proof.
  intros (Hd & Hf & Hh & Hm) Hsub. split_and!; cbn; [done|done|done|].
  intros id ref Hr. apply Hm. by eapply lookup_weaken.
Qed.

Lemma fold_delete_submap {A B} (l : list A) (key : A -> option string) (m : gmap string B) :
  fold_left (fun m a => match key a with Some k => delete k m | None => m end) l m ⊆ m.
Proof.
  revert m. induction l as [|a l IH]; intros m; cbn; [done|]. etransitivity; [apply IH|].
  destruct (key a); [apply delete_subseteq|done].
Qed.

(** The cleanups, as folds that delete. *)
Definition inactive_key (sm : SM) (d now : Z) (e : string * SessRef) : option string :=
  match entry_session sm (snd e) with
  | Some s => if bool_decide (s_State s = SessionStateEnded) || (d <? now - s_LastActivity s)%Z then Some (fst e) else None
  | None => None
  end.

Definition expired_key (sm : SM) (d now : Z) (e : string * SessRef) : option string :=
  match entry_session sm (snd e) with
  | Some s => if (d <? now - s_LastActivity s)%Z then Some (fst e) else None
  | None => None
  end.

Definition delete_keys (key : string * SessRef -> option string) (sessions : gmap string SessRef) : gmap string SessRef :=
  fold_left (fun m a => match key a with Some k => delete k m | None => m end) (map_to_list sessions) sessions.

Lemma CleanupInactive_eq d now sm :
  CleanupInactiveSessions d now sm = set_sessions (delete_keys (inactive_key sm d now) (sm_sessions sm)) sm.
Proof.
  unfold CleanupInactiveSessions, delete_keys. f_equal. cbn zeta.
  generalize (sm_sessions sm) at 2 4. generalize (map_to_list (sm_sessions sm)).
  intros l. induction l as [|[id ref] l IH]; intros g; cbn [fold_left List.filter]; [done|].
  assert (inactive_key sm d now (id, ref) = match entry_session sm ref with
    | Some s => if bool_decide (s_State s = SessionStateEnded) || (d <? now - s_LastActivity s)%Z then Some id else None
    | None => None end) as -> by done.
  destruct (entry_session sm ref) as [s|]; [|apply IH]. destruct (_ || _); cbn; apply IH.
Qed.

Lemma CleanupExpired_eq d now sm :
  CleanupExpiredSessions d now sm = set_sessions (delete_keys (expired_key sm d now) (sm_sessions sm)) sm.
Proof.
  unfold CleanupExpiredSessions, delete_keys. f_equal.
  generalize (sm_sessions sm) at 2 4. generalize (map_to_list (sm_sessions sm)).
  intros l. induction l as [|[id ref] l IH]; intros g; cbn [fold_left]; [done|].
  assert (expired_key sm d now (id, ref) = match entry_session sm ref with
    | Some s => if (d <? now - s_LastActivity s)%Z then Some id else None | None => None end) as -> by done.
  destruct (entry_session sm ref) as [s|]; [|apply IH]. destruct (_ <? _)%Z; apply IH.
Qed.

Lemma delete_keys_lookup key (m : gmap string SessRef) id :
  (forall e k, key e = Some k -> k = fst e) ->
  delete_keys key m !! id = match m !! id with Some ref => if key (id, ref) then None else Some ref | None => None end.
Proof.
  intros Hkey. unfold delete_keys.
  assert (forall l (g : gmap string SessRef), NoDup (fst <$> l) ->
    fold_left (fun m a => match key a with Some k => delete k m | None => m end) l g !! id =
    match list_find (fun e => e.1 = id) l with
    | Some (_, e) => if key e then None else g !! id
    | None => g !! id
    end) as Hfold.
  { induction l as [|[k r] l IH]; intros g Hnd; [done|]. cbn. apply NoDup_cons in Hnd as [Hni Hnd].
    rewrite IH by done. destruct (decide (k = id)) as [->|Hne].
    - assert (list_find (fun e : string * nat => e.1 = id) l = None) as ->.
      { apply list_find_None, Forall_forall. intros [k' r'] Hin Hk. cbn in Hk. subst k'. apply Hni. apply list_elem_of_fmap. by exists (id, r'). }
      destruct (key (id, r)) as [k|] eqn:E; [|done]. apply Hkey in E as ->. apply lookup_delete_eq.
    - destruct (list_find (fun e : string * nat => e.1 = id) l) as [[i e]|] eqn:E.
      + cbn. destruct (key e); [done|]. destruct (key (k, r)) eqn:E'; [|done]. apply Hkey in E' as ->. by apply lookup_delete_ne.
      + cbn. destruct (key (k, r)) eqn:E'; [|done]. apply Hkey in E' as ->. by apply lookup_delete_ne. }
  rewrite Hfold by apply NoDup_fst_map_to_list.
  destruct (list_find (fun e : string * nat => e.1 = id) (map_to_list m)) as [[i [k r]]|] eqn:E.
  - apply list_find_Some in E as (Hi & Hk & _). cbn in Hk. subst k. apply list_elem_of_lookup_2 in Hi.
    apply elem_of_map_to_list in Hi. by rewrite Hi.
  - apply list_find_None in E. destruct (m !! id) as [r|] eqn:Em; [|done]. exfalso.
    apply elem_of_map_to_list in Em. rewrite Forall_forall in E. by apply (E _ Em).
Qed.

Lemma delete_keys_submap key m : delete_keys key m ⊆ m.
Proof. apply fold_delete_submap. Qed.

(** A new session under a reference never used. *)
Lemma sm_ok_new id s sm :
  sm_ok sm -> session_ok s -> s_ID s = id -> id = b64_EncodeToString (s_LsID s) -> s_State s <> SessionStateEnded ->
  sm_ok (set_sessions (<[id := sm_next sm]> (sm_sessions sm)) (snd (alloc_session s sm))).
Proof.
  intros (Hd & Hf & Hh & Hm) Hok Hid Hls Hst. split_and!; cbn; [done| | |].
  - intros r Hr. rewrite lookup_insert_ne by lia. apply Hf. lia.
  - intros r t. rewrite lookup_insert. case_decide; [|apply Hh]. intros [= <-]. split; [done|]. congruence.
  - intros k r. rewrite lookup_insert. case_decide as E.
    + subst k. intros [= <-]. exists s. by rewrite lookup_insert_eq.
    + intros Hr. apply Hm in Hr as (t & Ht & Hi). exists t. split; [|done].
      rewrite lookup_insert_ne; [done|]. intros <-. by rewrite Hf in Ht.
Qed.

(** Ending a session drops it from the map. *)
Lemma sm_ok_end ref s s' sm :
  sm_ok sm -> sm_heap sm !! ref = Some s -> session_ok s' -> s_ID s' = s_ID s -> s_LsID s' = s_LsID s ->
  sm_ok (set_sessions (delete (s_ID s') (sm_sessions sm)) (set_session ref s' sm)).
Proof.
  intros (Hd & Hf & Hh & Hm) Hs Hok Hid Hls. split_and!; cbn; [done| | |].
  - intros r Hr. rewrite lookup_insert_ne; [by apply Hf|]. intros <-. rewrite Hf in Hs by done. done.
  - intros r t. rewrite lookup_insert. case_decide; [|apply Hh]. subst. intros [= <-].
    split; [done|]. rewrite Hid, Hls. by apply (Hh r s).
  - intros id r. rewrite lookup_delete_Some. intros [Hne Hr]. apply Hm in Hr as (t & Ht & Hi & He). exists t.
    rewrite lookup_insert_ne; [done|]. intros <-. rewrite Hs in Ht. simplify_eq.
Qed.

Lemma sm_ok_hit ref s sm : sm_ok sm -> sm_heap sm !! ref = Some s -> session_ok s.
Proof. intros (_ & _ & Hh & _) Hs. by apply (Hh ref s). Qed.

Lemma local_session_Some id sm ref s :
  local_session id sm = Some (ref, s) -> sm_sessions sm !! id = Some ref /\ sm_heap sm !! ref = Some s.
Proof.
  unfold local_session. destruct (sm_sessions sm !! id) as [r|]; [|done]. destruct (sm_heap sm !! r) as [t|] eqn:E; [|done].
  case_decide; [|done]. intros. by simplify_eq.
Qed.

Lemma sm_ok_op o now sm : sm_ok sm -> sm_ok (run_sess_op o now sm).
Proof.
  intros Hok. pose proof (proj1 Hok) as Hd.
  destruct o as [cid random|lsid|ref server conn n|ref|ref|ref|ref|ref|d|d]; cbn [run_sess_op].
  - unfold CreateSession. destruct (GenerateLogicalSessionID random) as [lsid| | |]; [|done..]. cbn zeta.
    destruct (alloc_session _ sm) as [r sm1] eqn:E. cbn [snd]. unfold alloc_session in E. simplify_eq.
    rewrite when_dc_None by done. cbn [sm_sessions].
    match goal with |- sm_ok (set_sessions _ {| sm_heap := <[_ := ?s]> _ |}) => apply (sm_ok_new _ s) end; done.
  - unfold SM_GetSession. destruct (local_session _ sm) as [[r s]|] eqn:E; cbn [snd].
    + apply local_session_Some in E as [_ Hs]. apply (sm_ok_set_session r s); try done. by apply (sm_ok_hit r s) in Hs.
    + by rewrite Hd.
  - unfold StartTransaction, with_session. destruct (sm_heap sm !! ref) as [s|] eqn:Hs; [|done].
    repeat case_decide; try done. cbn [snd]. rewrite when_dc_None by done.
    apply (sm_ok_set_session ref s); try done. apply (sm_ok_hit ref s) in Hs as (_ & H1 & _); [|done]. by split_and!.
  - unfold SM_CommitTransaction, with_session. destruct (sm_heap sm !! ref) as [s|] eqn:Hs; [|done].
    case_decide; [done|]. apply (sm_ok_set_session ref s); try done.
    apply (sm_ok_hit ref s) in Hs as (_ & H1 & _); [|done]. by split_and!.
  - unfold SM_AbortTransaction, with_session. destruct (sm_heap sm !! ref) as [s|] eqn:Hs; [|done].
    case_decide; [done|]. apply (sm_ok_set_session ref s); try done.
    apply (sm_ok_hit ref s) in Hs as (_ & H1 & _); [|done]. by split_and!.
  - unfold UnpinTransaction, with_session. destruct (sm_heap sm !! ref) as [s|] eqn:Hs; [|done].
    apply (sm_ok_set_session ref s); try done.
    apply (sm_ok_hit ref s) in Hs as (H0 & H1 & H2); [|done]. split_and!; [done|done|]. intros E. by apply H2 in E as (? & _).
  - unfold ResetTransactionState, with_session. destruct (sm_heap sm !! ref) as [s|] eqn:Hs; [|done].
    apply (sm_ok_set_session ref s); try done. apply (sm_ok_hit ref s) in Hs as (_ & H1 & _); [|done]. by split_and!.
  - unfold EndSession, with_session. destruct (sm_heap sm !! ref) as [s|] eqn:Hs; [|done].
    case_decide; [done|]. cbn zeta. cbn [snd]. rewrite when_dc_None by done.
    apply (sm_ok_hit ref s) in Hs as Hs'; [|done].
    match goal with |- sm_ok (set_sessions _ (set_session _ ?s' _)) => apply (sm_ok_end ref s s' sm) end;
      try done; case_decide; try done.
    destruct Hs' as (? & ? & ?). by split_and!.
  - rewrite CleanupInactive_eq. apply sm_ok_submap; [done|]. apply delete_keys_submap.
  - rewrite CleanupExpired_eq. apply sm_ok_submap; [done|]. apply delete_keys_submap.
Qed.

Lemma sm_ok_New : sm_ok NewSessionManager.
Proof. split_and!; cbn; [done|done|..]; intros *; by rewrite lookup_empty. Qed.

Lemma sm_ok_run ops sm : sm_ok sm -> sm_ok (run_sess ops sm).
Proof. revert sm. induction ops as [|[now o] ops IH]; intros sm H; cbn; [done|]. by apply IH, sm_ok_op. Qed.

(** C5.
    Whatever operations run on a new session manager, every session it knows
    is in a legal state (a session outside a transaction has no transaction
    number and nothing pinned), and the map leads from the base64 of a logical
    session id to the live session with that id, never to an ended one. *)
Theorem sessions_invariant ops :
  let sm := run_sess ops NewSessionManager in
  (forall ref s, sm_heap sm !! ref = Some s -> session_ok s) /\
  (forall id ref, sm_sessions sm !! id = Some ref ->
     exists s, sm_heap sm !! ref = Some s /\ id = b64_EncodeToString (s_LsID s) /\ s_State s <> SessionStateEnded).
Proof.
  cbn zeta. destruct (sm_ok_run ops _ sm_ok_New) as (_ & _ & Hh & Hm). split.
  - intros ref s Hs. by apply (Hh ref s).
  - intros id ref Hr. apply Hm in Hr as (s & Hs & Hi & He). exists s. split_and!; [done| |done].
    rewrite <- Hi. by apply (Hh ref s).
Qed.

(** A session just created is found under its logical id, and creating it
    hides no session with another id. *)
Theorem GetSession_CreateSession cid lsid lsid' now now' sm :
  sm_ok sm ->
  let '(r, sm') := CreateSession cid (Ret lsid) now sm in
  exists ref, r = Ret ref /\ fst (SM_GetSession lsid now' sm') = Some ref /\
    (lsid <> lsid' -> fst (SM_GetSession lsid' now' sm') = fst (SM_GetSession lsid' now' sm)).
Proof.
  intros Hok. pose proof Hok as (Hd & Hf & _ & Hm). unfold CreateSession. cbn [GenerateLogicalSessionID]. cbn zeta.
  destruct (alloc_session _ sm) as [ref sm1] eqn:E. unfold alloc_session in E. simplify_eq.
  rewrite when_dc_None by done. exists (sm_next sm). split; [done|]. split.
  - unfold SM_GetSession, local_session. cbn. rewrite !lookup_insert_eq. by rewrite decide_True.
  - intros Hne. unfold SM_GetSession, local_session. cbn. rewrite lookup_insert_ne by (by intros H%b64_inj).
    rewrite Hd. destruct (sm_sessions sm !! b64_EncodeToString lsid') as [ref|] eqn:Er; [|done].
    destruct (Hm _ _ Er) as (s & Hs & _). rewrite lookup_insert_ne; [by repeat case_match|].
    intros <-. by rewrite Hf in Hs.
Qed.

(** The cleanup of inactive sessions removes exactly the entries whose
    session has ended or has been idle for longer than the given time. *)
Theorem CleanupInactiveSessions_exact d now sm id :
  sm_sessions (CleanupInactiveSessions d now sm) !! id =
  match sm_sessions sm !! id with
  | Some ref =>
      match sm_heap sm !! ref with
      | Some s => if decide (s_State s = SessionStateEnded \/ (d < now - s_LastActivity s)%Z) then None else Some ref
      | None => Some ref
      end
  | None => None
  end.
Proof.
  rewrite CleanupInactive_eq. cbn. rewrite delete_keys_lookup.
  - destruct (sm_sessions sm !! id) as [ref|]; [|done]. unfold inactive_key, entry_session. cbn.
    destruct (sm_heap sm !! ref) as [s|]; [|done]. destruct (_ || _) eqn:E.
    + rewrite decide_True; [done|]. apply orb_true_iff in E as [E%bool_decide_eq_true|E%Z.ltb_lt]; auto.
    + rewrite decide_False; [done|]. apply orb_false_iff in E as [E1%bool_decide_eq_false E2%Z.ltb_ge]. intros []; [done|lia].
  - intros e k. unfold inactive_key. repeat case_match; intros; by simplify_eq.
Qed.

(** The active-transaction count is the number of map entries whose session
    has a transaction in progress. *)
Theorem GetActiveTransactionCount_spec sm :
  GetActiveTransactionCount sm =
  Z.of_nat (length (List.filter (fun e => from_option IsTransactionActive false (sm_heap sm !! snd e))
              (map_to_list (sm_sessions sm)))).
Proof.
  unfold GetActiveTransactionCount.
  assert (forall l z, fold_left (fun count '(_, ref) =>
      match entry_session sm ref with
      | Some s => if decide (s_TransactionState s = TransactionStateInProgress) then (count + 1)%Z else count
      | None => count
      end) l z =
    (z + Z.of_nat (length (List.filter (fun e : string * nat => from_option IsTransactionActive false (sm_heap sm !! snd e)) l)))%Z) as H.
  { induction l as [|[id ref] l IH]; intros z; cbn; [lia|]. rewrite IH. unfold entry_session.
    destruct (sm_heap sm !! ref) as [s|]; cbn; [|done]. unfold IsTransactionActive.
    case_decide as E; [rewrite bool_decide_true by done; cbn; lia|by rewrite bool_decide_false]. }
  by rewrite H.
Qed.

(** ** A second pod *)

(** Storing a transaction leaves the sessions' part of the shared cache alone. *)
Lemma StoreTransaction_frame lsid server n now (dc : DistributedCache G) :
  let dc' := snd (StoreTransaction lsid server n now dc) in
  dc_enabled dc' = dc_enabled dc /\ dc_sessionGroup dc' = dc_sessionGroup dc /\ dc_SessionExpiry dc' = dc_SessionExpiry dc.
Proof. unfold StoreTransaction. cbn zeta. by repeat (case_match; simplify_eq/=). Qed.

Lemma fst_local_None lsid now sm dc :
  local_session (b64_EncodeToString lsid) sm = None -> sm_dc sm = Some dc -> dc_enabled dc = true ->
  match fst (DC_GetSession (b64_EncodeToString lsid) now dc) with
  | None => fst (SM_GetSession lsid now sm) = None
  | Some s => exists ref, fst (SM_GetSession lsid now sm) = Some ref /\
      sm_heap (snd (SM_GetSession lsid now sm)) !! ref = Some s
  end.
Proof.
  intros Hl Hd He. unfold SM_GetSession. rewrite Hl, Hd. unfold IsEnabled. rewrite He.
  destruct (DC_GetSession _ now dc) as [[s|] dc']; cbn; [|done]. eexists. split; [done|]. apply lookup_insert_eq.
Qed.

(** Committing and resetting a transaction is not written to the shared
    cache: another pod that picks the session up there sees the transaction
    still in progress and refuses to start the next one. *)
Theorem remote_session_stuck `{GL : !GroupLaws G, LS : !JsonLaws SessionData}
    ref s server conn n now now2 now3 now4 sm dc g data smB refB server' conn' n' :
  let s1 := set_activity now (set_pins server conn (set_txn TransactionStateInProgress n s)) in
  let sm1 := snd (StartTransaction ref server conn n now sm) in
  let sm2 := snd (SM_CommitTransaction ref now2 sm1) in
  let sm3 := snd (ResetTransactionState ref sm2) in
  sm_heap sm !! ref = Some s -> s_State s = SessionStateActive -> s_TransactionState s = TransactionStateNone ->
  s_ID s = b64_EncodeToString (s_LsID s) ->
  sm_dc sm = Some dc -> dc_enabled dc = true -> dc_sessionGroup dc = Some g ->
  Marshal (sessionData_of s1) = Some data -> fst (Group_Set (s_ID s) data (now + dc_SessionExpiry dc) g) = Ret () ->
  sm_dc smB = sm_dc sm3 -> local_session (s_ID s) smB = None ->
  fst (SM_GetSession (s_LsID s) now3 smB) = Some refB ->
  fst (StartTransaction refB server' conn' n' now4 (snd (SM_GetSession (s_LsID s) now3 smB))) =
    Err "transaction already in progress".
Proof.
  cbn zeta. intros Hs Ha Ht Hid Hd He Hg Hm Hset HB Hl.
  destruct (StoreTransaction_frame (s_LsID s) server n now dc) as (E1 & E2 & E3).
  set (dc1 := snd (StoreTransaction (s_LsID s) server n now dc)) in *.
  set (s1 := set_activity now (set_pins server conn (set_txn TransactionStateInProgress n s))) in *.
  assert (sm_dc smB = Some (snd (StoreSession s1 now dc1))) as HdB.
  { rewrite HB. unfold StartTransaction at 1. rewrite (with_session_hit ref sm s), !decide_False by auto. cbn [snd].
    unfold when_dc. cbn [sm_dc set_session]. rewrite Hd. unfold IsEnabled. rewrite He.
    unfold SM_CommitTransaction. erewrite with_session_hit by apply lookup_insert_eq. cbn.
    unfold ResetTransactionState. erewrite with_session_hit by apply lookup_insert_eq. done. }
  assert (dc_enabled (snd (StoreSession s1 now dc1)) = true) as HeB.
  { unfold StoreSession, usable. rewrite E1, E2, He, Hg, Hm. destruct (Group_Set _ _ (now + dc_SessionExpiry dc1) g). exact (eq_trans E1 He). }
  rewrite Hid in Hl. pose proof (fst_local_None (s_LsID s) now3 smB _ Hl HdB HeB) as Hfetch.
  destruct (fst (DC_GetSession _ now3 _)) as [s'|] eqn:Eg; [|rewrite Hfetch; done].
  destruct Hfetch as (r & -> & Hr). intros [= ->].
  rewrite <- Hid in Eg. apply (StoreSession_GetSession s1 now now3 dc1 g data) in Eg; try congruence.
  2: { rewrite E3. exact Hset. }
  unfold StartTransaction. rewrite (with_session_hit _ _ _ _ Hr), Eg. cbn.
  rewrite decide_False by tauto. by rewrite decide_True.
Qed.

End Sessions.

(** ** Lock order

    The locks two of the operations take, in program order: the manager's
    mutex and the mutex of one session.  A [sync.RWMutex] admits one writer or
    any number of readers. *)

Module Locks.

Inductive mutex := SmMutex | SessionMutex.
Inductive action := Lock (l : mutex) | Unlock (l : mutex) | RLock (l : mutex) | RUnlock (l : mutex).

#[export] Instance mutex_eq_decision : EqDecision mutex.
Proof. solve_decision. Defined.

Record rwmutex := { writer : bool; readers : nat }.
Definition lock_state := mutex -> rwmutex.

Definition set_mutex (l : mutex) (x : rwmutex) (st : lock_state) : lock_state :=
  fun l' => if decide (l' = l) then x else st l'.

(** The state after an action, if it can run now. *)
Definition act (a : action) (st : lock_state) : option lock_state :=
  match a with
  | Lock l =>
      if writer (st l) || negb (readers (st l) =? 0)%nat then None
      else Some (set_mutex l {| writer := true; readers := 0 |} st)
  | Unlock l => Some (set_mutex l {| writer := false; readers := readers (st l) |} st)
  | RLock l =>
      if writer (st l) then None else Some (set_mutex l {| writer := false; readers := S (readers (st l)) |} st)
  | RUnlock l => Some (set_mutex l {| writer := writer (st l); readers := pred (readers (st l)) |} st)
  end.

(** [session.mutex.Lock(); ...; sm.mutex.Lock(); delete; sm.mutex.Unlock(); ...; session.mutex.Unlock()] *)
Definition EndSession_locks : list action := [Lock SessionMutex; Lock SmMutex; Unlock SmMutex; Unlock SessionMutex].

(** [sm.mutex.Lock(); for ... { session.mutex.RLock(); ...; session.mutex.RUnlock() }; sm.mutex.Unlock()],
    with the session in the map. *)
Definition CleanupInactiveSessions_locks : list action :=
  [Lock SmMutex; RLock SessionMutex; RUnlock SessionMutex; Unlock SmMutex].

(** Threads, each with the actions it has left. *)
Definition config : Type := list (list action) * lock_state.

Inductive lock_step : config -> config -> Prop :=
| run_thread ts i a rest st st' :
    ts !! i = Some (a :: rest) -> act a st = Some st' -> lock_step (ts, st) (<[i := rest]> ts, st').

Definition unlocked : lock_state := fun _ => {| writer := false; readers := 0 |}.

Definition stuck (c : config) : Prop := (forall c', ~ lock_step c c') /\ Exists (fun t => t <> []) (fst c).

End Locks.

(** C34.
    Ending a session and cleaning up inactive sessions take the two locks in
    opposite orders: running together they can reach a state in which both
    wait for the other for ever. *)
Theorem EndSession_Cleanup_deadlock :
  exists c, rtc Locks.lock_step ([Locks.EndSession_locks; Locks.CleanupInactiveSessions_locks], Locks.unlocked) c /\
    Locks.stuck c.
Proof.
  eexists. split.
  - eapply rtc_l; [eapply (Locks.run_thread _ 0); done|]. eapply rtc_l; [eapply (Locks.run_thread _ 1); done|]. apply rtc_refl.
  - split; [|cbn; by left]. intros c' Hstep. inversion Hstep as [ts i a rest st st' Hi Ha]; subst.
    destruct i as [|[|[|i]]]; cbn in Hi; simplify_eq; by vm_compute in Ha.
Qed.

(** ** Witnesses *)

Section Witnesses.
#[local] Existing Instance decimal_pointers.
#[local] Instance no_sessions : Json SessionData := table_json [].
#[local] Instance no_transactions : Json TransactionData := table_json [].
Notation group := (gmap string (list byte)).

(** A session for the logical id [01], and the manager while it is in transaction 7. *)
Definition sample_sm : SessionManager group := run_sess [(1%Z, OCreate "c" (Ret [Byte.x01]))] NewSessionManager.
Definition sample_sm_txn : SessionManager group := run_sess [(2%Z, OStart 0 (Some 3) (Some 4) 7)] sample_sm.

Definition heap_session (sm : SessionManager group) : Session := default sample_session (sm_heap sm !! 0).

Lemma heap_sample : sm_heap sample_sm !! 0 = Some (heap_session sample_sm).
Proof. by vm_compute. Qed.

Lemma heap_sample_txn : sm_heap sample_sm_txn !! 0 = Some (heap_session sample_sm_txn).
Proof. by vm_compute. Qed.

Lemma StartTransaction_spec_witness : fst (StartTransaction 0 (Some 3) (Some 4) 7 2 sample_sm) = Ret ().
Proof.
  pose proof (StartTransaction_spec 0 _ (Some 3) (Some 4) 7 2 sample_sm heap_sample) as H.
  destruct (StartTransaction 0 (Some 3) (Some 4) 7 2 sample_sm) as [r sm'].
  rewrite decide_True in H by (split; by vm_compute). apply H.
Defined.

Lemma CommitTransaction_spec_witness : fst (SM_CommitTransaction 0 3 sample_sm_txn) = Ret ().
Proof.
  pose proof (CommitTransaction_spec 0 _ 3 sample_sm_txn heap_sample_txn) as H.
  destruct (SM_CommitTransaction 0 3 sample_sm_txn) as [r sm'].
  rewrite decide_True in H by (by vm_compute). apply H.
Defined.

Lemma AbortTransaction_spec_witness : fst (SM_AbortTransaction 0 3 sample_sm_txn) = Ret ().
Proof.
  pose proof (AbortTransaction_spec 0 _ 3 sample_sm_txn heap_sample_txn) as H.
  destruct (SM_AbortTransaction 0 3 sample_sm_txn) as [r sm'].
  rewrite decide_True in H by (by vm_compute). apply H.
Defined.

Lemma EndSession_final_witness :
  exists e, fst (SM_CommitTransaction 0 9 (snd (EndSession 0 8 sample_sm_txn))) = Err e.
Proof.
  pose proof (EndSession_final 0 _ 8 sample_sm_txn heap_sample_txn ltac:(by vm_compute)) as H.
  destruct (EndSession 0 8 sample_sm_txn) as [r sm']. destruct H as (_ & _ & H & _). apply H.
Defined.

Lemma GetSession_CreateSession_witness :
  fst (SM_GetSession [Byte.x02] 9 (snd (CreateSession "d" (Ret [Byte.x02]) 8 sample_sm))) = Some 1.
Proof.
  pose proof (GetSession_CreateSession "d" [Byte.x02] [Byte.x01] 8 9 sample_sm (sm_ok_run _ _ sm_ok_New)) as H.
  assert (fst (CreateSession "d" (Ret [Byte.x02]) 8 sample_sm) = Ret 1) as E by (by vm_compute).
  destruct (CreateSession "d" (Ret [Byte.x02]) 8 sample_sm) as [r sm']. cbn [fst] in E.
  destruct H as (ref & Hr & H & _). cbn [snd]. congruence.
Defined.

End Witnesses.

(** The same session on a pod that shares its cache with a second one. *)
Definition shared_session : Session :=
  {| s_ID := "AQ=="; s_LsID := [Byte.x01]; s_ClientID := "c"; s_State := SessionStateActive; s_CreatedAt := 1;
     s_LastActivity := 1; s_TransactionState := TransactionStateNone; s_CurrentTxnNumber := 0;
     s_PinnedServer := None; s_PinnedConnection := None |}.

Definition shared_sm : SessionManager (gmap string (list byte)) :=
  {| sm_sessions := {["AQ==" := 0]}; sm_heap := {[0 := shared_session]}; sm_next := 1; sm_dc := Some sample_dc |}.

Lemma remote_session_stuck_witness :
  let JS := table_json [sessionData_of (PF := decimal_pointers)
              (set_activity 2 (set_pins (Some 3) (Some 4) (set_txn TransactionStateInProgress 7 shared_session)))] in
  let JT := table_json [] in
  let sm3 := snd (ResetTransactionState 0 (snd (SM_CommitTransaction 0 3
               (snd (StartTransaction (JS := JS) (JT := JT) (PF := decimal_pointers) 0 (Some 3) (Some 4) 7 2 shared_sm))))) in
  let smB := NewSessionManagerWithDistributedCache (sm_dc sm3) in
  fst (StartTransaction (JS := JS) (JT := JT) (PF := decimal_pointers) 0 None None 8 9
         (snd (SM_GetSession (JS := JS) [Byte.x01] 6 smB))) = Err "transaction already in progress".
Proof.
  cbn zeta.
  apply (remote_session_stuck (LS := table_json_laws _) (PF := decimal_pointers) 0 shared_session (Some 3) (Some 4) 7 2 3 6 9
    shared_sm sample_dc ∅ [Byte.x00]); by vm_compute.
Defined.
