(* ===== verification/Caches.v ===== *)
(** * Cursor and transaction caches ([src/mongo/cursor_cache.go], [src/mongo/transaction_cache.go])

    Which server a cursor or a transaction lives on.  The local cache is any
    [BoundedCache]; the shared cache is [DistributedCache.v]'s.  Errors of the
    shared cache are logged and dropped. *)

From S2P Require Import Prelude GoStrings Lru CacheInterface ClientSettings Pool DistributedCache.
From Stdlib Require Import ZArith Lia Ascii.

Record cursorInfo := {
  ci_server : option ServerRef;
  ci_databaseName : string
}.

Record cursorCache (C G : Type) := {
  cur_c : C;
  cur_metrics : option (list MetricCall);
  cur_dc : option (DistributedCache G)
}.
Arguments cur_c {C G}.
Arguments cur_metrics {C G}.
Arguments cur_dc {C G}.

Record transactionCache (C G : Type) := {
  tc_c : C;
  tc_dc : option (DistributedCache G)
}.
Arguments tc_c {C G}.
Arguments tc_dc {C G}.

Definition maxCursors : Z := 1024 * 1024.
Definition cursorExpiry : Z := 24 * (60 * Minute).
Definition maxTransactions : Z := 1024 * 1024.
Definition transactionExpiry : Z := 120 * Second.

Definition newCursorCacheWithDistributedCache {G} (dc : option (DistributedCache G))
    : cursorCache (Lru.Cache string cursorInfo) G :=
  {| cur_c := Lru.New maxCursors cursorExpiry; cur_metrics := None; cur_dc := dc |}.
Definition newCursorCache {G} : cursorCache (Lru.Cache string cursorInfo) G := newCursorCacheWithDistributedCache None.

Definition newTransactionCacheWithDistributedCache {G} (dc : option (DistributedCache G))
    : transactionCache (Lru.Cache string (option ServerRef)) G :=
  {| tc_c := Lru.New maxTransactions transactionExpiry; tc_dc := dc |}.
Definition newTransactionCache {G} : transactionCache (Lru.Cache string (option ServerRef)) G :=
  newTransactionCacheWithDistributedCache None.

Definition buildKey (cursorID : Z) (collection : string) : string := fmt_d cursorID +:+ "-" +:+ collection.

Section Caches.
Context {G : Type} `{GO : GroupOps G}.
Context `{JT : Json TransactionData, JC : Json CursorData, PF : PointerFormat}.

(** The shared cache, when there is one and it is enabled. *)
Definition enabled_dc (dc : option (DistributedCache G)) : option (DistributedCache G) :=
  match dc with
  | Some d => if IsEnabled d then Some d else None
  | None => None
  end.

Definition on_dc (f : DistributedCache G -> DistributedCache G) (dc : option (DistributedCache G))
    : option (DistributedCache G) :=
  match enabled_dc dc with
  | Some d => Some (f d)
  | None => dc
  end.

Section Cursors.
Context {C : Type} `{BC : BoundedCache string cursorInfo C}.
Notation CC := (cursorCache C G).
Implicit Types c : CC.

Definition setMetrics (metrics : option (list MetricCall)) (c : CC) : CC :=
  {| cur_c := cur_c c; cur_metrics := metrics; cur_dc := cur_dc c |}.

Definition cursor_count (c : CC) : nat := bc_len (cur_c c).

Definition cursor_peek (cursorID : Z) (collection : string) (now : Z) (c : CC) : option ServerRef * bool * CC :=
  match bc_peek (buildKey cursorID collection) (cur_c c) with
  | Some info => (ci_server info, true, c)
  | None =>
      match enabled_dc (cur_dc c) with
      | Some dc =>
          let '(_, _, found, dc) := GetCursor cursorID collection now dc in
          (None, found, {| cur_c := cur_c c; cur_metrics := cur_metrics c; cur_dc := Some dc |})
      | None => (None, false, c)
      end
  end.

Definition cursor_add (cursorID : Z) (collection : string) (server : option ServerRef) (databaseName : string)
    (now : Z) (c : CC) : CC :=
  let info := {| ci_server := server; ci_databaseName := databaseName |} in
  {| cur_c := bc_add (buildKey cursorID collection) info now (cur_c c);
     cur_metrics := cur_metrics c;
     cur_dc := on_dc (fun dc => snd (StoreCursor cursorID collection server databaseName now dc)) (cur_dc c) |}.

Definition cursor_remove (cursorID : Z) (collection : string) (c : CC) : CC :=
  let key := buildKey cursorID collection in
  let v := bc_peek key (cur_c c) in
  let cache := bc_remove key (cur_c c) in
  let metrics :=
    match v, cur_metrics c with
    | Some info, Some log =>
        let databaseName := if decide (ci_databaseName info = "") then "default" else ci_databaseName info in
        Some (log ++ [Incr "cursor_closed" ["database:" +:+ databaseName]])
    | _, m => m
    end in
  {| cur_c := cache; cur_metrics := metrics;
     cur_dc := on_dc (fun dc => snd (RemoveCursor cursorID collection dc)) (cur_dc c) |}.

End Cursors.

Section Transactions.
Context {C : Type} `{BC : BoundedCache string (option ServerRef) C}.
Notation TC := (transactionCache C G).
Implicit Types t : TC.

Definition transaction_count (t : TC) : nat := bc_len (tc_c t).

Definition transaction_peek (lsID : list byte) (now : Z) (t : TC) : option ServerRef * bool * TC :=
  match bc_peek (b64_EncodeToString lsID) (tc_c t) with
  | Some (Some server) => (Some server, true, t)
  | _ =>
      match enabled_dc (tc_dc t) with
      | Some dc =>
          let '(_, found, dc) := GetTransaction lsID now dc in
          (None, found, {| tc_c := tc_c t; tc_dc := Some dc |})
      | None => (None, false, t)
      end
  end.

Definition transaction_add (lsID : list byte) (server : option ServerRef) (now : Z) (t : TC) : TC :=
  {| tc_c := bc_add (b64_EncodeToString lsID) server now (tc_c t);
     tc_dc := on_dc (fun dc => snd (StoreTransaction lsID server 0 now dc)) (tc_dc t) |}.

Definition transaction_remove (lsID : list byte) (t : TC) : TC :=
  {| tc_c := bc_remove (b64_EncodeToString lsID) (tc_c t);
     tc_dc := on_dc (fun dc => snd (RemoveTransaction lsID dc)) (tc_dc t) |}.

End Transactions.

(** ** Properties *)

Lemma buildKey_inj i1 c1 i2 c2 : buildKey i1 c1 = buildKey i2 c2 -> i1 = i2 /\ c1 = c2.
Proof. unfold buildKey. intros H. by apply (fmt_d_sep_inj "-"%char) in H. Qed.

Section CursorTheorems.
Context {C : Type} `{BC : BoundedCache string cursorInfo C, BL : !BoundedCacheLaws string cursorInfo C}.

(** What the local cache says of a cursor. *)
Definition local_cursor (id : Z) (coll : string) (c : cursorCache C G) : option cursorInfo :=
  bc_peek (buildKey id coll) (cur_c c).

(** Recording a cursor: it is found at once on the server it was recorded
    for, and no other cursor, by id or by collection, comes to be found or
    changes server; at most one may have been evicted. *)
Theorem cursor_add_peek id coll server db id' coll' info now now' (c : cursorCache C G) :
  bc_inv (cur_c c) ->
  fst (cursor_peek id coll now' (cursor_add id coll server db now c)) = (server, true) /\
  ((id, coll) <> (id', coll') -> local_cursor id' coll' (cursor_add id coll server db now c) = Some info ->
   local_cursor id' coll' c = Some info).
Proof.
  intros Hi. split.
  - unfold cursor_peek. cbn. by rewrite bc_peek_add.
  - intros Hne. unfold local_cursor. cbn. apply bc_peek_add_ne; [done|].
    intros [-> ->]%buildKey_inj. done.
Qed.

(** Closing a cursor: it is no longer known locally, every other cursor is as
    before, and the closing is counted once, for the cursor's database, when
    the cursor was known and not at all otherwise. *)
Theorem cursor_remove_spec id coll id' coll' log (c : cursorCache C G) :
  bc_inv (cur_c c) -> cur_metrics c = Some log ->
  let c' := cursor_remove id coll c in
  local_cursor id' coll' c' = (if decide ((id, coll) = (id', coll')) then None else local_cursor id' coll' c) /\
  cur_metrics c' =
    match local_cursor id coll c with
    | Some info => Some (log ++ [Incr "cursor_closed"
        ["database:" +:+ (if decide (ci_databaseName info = "") then "default" else ci_databaseName info)]])
    | None => Some log
    end.
Proof.
  intros Hi Hm. cbn zeta. unfold local_cursor, cursor_remove. cbn. split.
  - case_decide as E; [simplify_eq; by apply bc_peek_remove|].
    apply bc_peek_remove_ne; [done|]. intros [-> ->]%buildKey_inj. done.
  - rewrite Hm. by destruct (bc_peek _ _).
Qed.

End CursorTheorems.

Section TransactionTheorems.
Context {C : Type} `{BC : BoundedCache string (option ServerRef) C, BL : !BoundedCacheLaws string (option ServerRef) C}.

(** The server of a transaction: found right after it is recorded; gone,
    without a shared cache, once removed; and recording or removing one
    session's transaction leaves every other session's alone. *)
Theorem transaction_cache_spec lsID lsID' server now now' (t : transactionCache C G) :
  bc_inv (tc_c t) -> tc_dc t = None ->
  fst (transaction_peek lsID now' (transaction_add lsID (Some server) now t)) = (Some server, true) /\
  fst (transaction_peek lsID now' (transaction_remove lsID t)) = (None, false) /\
  (lsID <> lsID' ->
     fst (transaction_peek lsID' now' (transaction_remove lsID t)) = fst (transaction_peek lsID' now' t) /\
     (forall s, fst (transaction_peek lsID' now' (transaction_add lsID (Some server) now t)) = (Some s, true) ->
        fst (transaction_peek lsID' now' t) = (Some s, true))).
Proof.
  intros Hi Hd. unfold transaction_peek. cbn. rewrite Hd. cbn. rewrite bc_peek_add, bc_peek_remove by done.
  split_and!; [done|done|]. intros Hne.
  assert (b64_EncodeToString lsID <> b64_EncodeToString lsID') as Hk by (by intros H%b64_inj).
  split; [rewrite bc_peek_remove_ne by done; by repeat case_match|]. intros s.
  destruct (bc_peek (b64_EncodeToString lsID') (bc_add _ _ _ _)) as [[s'|]|] eqn:E; cbn; [|done|done].
  apply bc_peek_add_ne in E; [|done|done]. by rewrite E.
Qed.

End TransactionTheorems.

(** A cursor known only to the shared cache is reported as found with no
    server: the answer of the shared cache never names one. *)
Theorem cursor_peek_remote_no_server {C : Type} `{BC : BoundedCache string cursorInfo C} id coll now (c : cursorCache C G) :
  local_cursor id coll c = None -> fst (fst (cursor_peek id coll now c)) = None.
Proof.
  unfold local_cursor, cursor_peek. intros ->. destruct (enabled_dc (cur_dc c)) as [dc|]; [|done].
  by destruct (GetCursor id coll now dc) as [[[? ?] ?] ?].
Qed.

End Caches.

(** ** Witnesses *)

Section Witnesses.
#[local] Existing Instance decimal_pointers.
#[local] Instance no_cursor_json : Json CursorData := table_json [].
#[local] Instance no_transaction_json : Json TransactionData := table_json [].
Notation group := (gmap string (list byte)).

Definition sample_cursors : cursorCache (Lru.Cache string cursorInfo) group :=
  cursor_add 9 "users" (Some 3) "app" 1 (setMetrics (Some []) newCursorCache).

Lemma inv_sample_cursors : bc_inv (cur_c sample_cursors).
Proof. cbn [cur_c sample_cursors]. apply bc_inv_add. by apply lru_new_inv. Qed.

Lemma cursor_add_peek_witness :
  fst (cursor_peek 10 "users" 3 (cursor_add 10 "users" (Some 4) "app" 2 sample_cursors)) = (Some 4, true).
Proof.
  exact (proj1 (cursor_add_peek 10 "users" (Some 4) "app" 9 "users" {| ci_server := Some 3; ci_databaseName := "app" |} 2 3
    sample_cursors inv_sample_cursors)).
Defined.

Lemma cursor_remove_spec_witness :
  cur_metrics (cursor_remove 9 "users" sample_cursors) = Some [Incr "cursor_closed" ["database:app"]].
Proof.
  pose proof (proj2 (cursor_remove_spec 9 "users" 9 "users" [] sample_cursors inv_sample_cursors eq_refl)) as H.
  rewrite H. by vm_compute.
Defined.

Lemma transaction_cache_spec_witness :
  fst (transaction_peek [Byte.x01] 3 (transaction_add [Byte.x01] (Some 5) 2
    (newTransactionCache (G := group)))) = (Some 5, true).
Proof.
  apply (transaction_cache_spec (G := group) [Byte.x01] [Byte.x02] 5 2 3 newTransactionCache);
    [by apply lru_new_inv|done].
Defined.

Lemma cursor_peek_remote_no_server_witness :
  fst (fst (cursor_peek 8 "users" 3 sample_cursors)) = None.
Proof. apply (cursor_peek_remote_no_server 8 "users" 3 sample_cursors). by vm_compute. Defined.

End Witnesses.
