(* ===== verification/Mongo.v ===== *)
(** * The MongoDB client ([src/mongo/mongo.go], all but the round trip)

    The client object, its connection-pool statistics, its health and its
    caches.  The driver below it is class [Driver]: an abstract state [W] with
    the calls the program makes, each of which may answer and change the state
    as it likes; the clock and [time.Sleep] are part of it.  Go's [error] is the
    type [DriverError] of class [DriverErrors], with the views the program
    takes of an error value in class [ErrorValues].

    The session manager, the two caches and the metrics are objects the client
    shares with others: the metrics log and the shared cache are kept once, in
    [mg_metrics] and [mg_dc], and lent to a component while one of its methods
    runs. *)

From S2P Require Import Prelude GoStrings Parsing Wire Operations Lru CacheInterface ClientSettings Pool.
From S2P Require Import DistributedCache Sessions Caches.
From Stdlib Require Import ZArith Lia QArith_base Ascii.
Local Close Scope Q_scope.

(** ** Errors *)

(** What a type assertion [err.(driver.Error)] gives the program. *)
Record driver_Error (E : Type) := {
  de_Code : Z;
  de_Labels : list string;
  de_Wrapped : option E;
  de_NodeIsRecovering : bool;
  de_NotPrimary : bool;
  de_NetworkError : bool
}.
Arguments de_Code {E}.
Arguments de_Labels {E}.
Arguments de_Wrapped {E}.
Arguments de_NodeIsRecovering {E}.
Arguments de_NotPrimary {E}.
Arguments de_NetworkError {E}.

(** [err.(driver.WriteConcernError)] *)
Record driver_WriteConcernError := {
  wce_Code : Z;
  wce_NodeIsRecovering : bool;
  wce_NotPrimary : bool
}.

(** Values of Go's [error] interface, and the views the program has of them.
    A view is [None] when the dynamic type is another one. *)
Class ErrorValues `{DE : DriverErrors} := {
  err_eq_dec : EqDecision DriverError;
  err_Error : DriverError -> string;
  errors_New : string -> DriverError;
  network_error : string -> DriverError -> DriverError;
  as_driver_Error : DriverError -> option (driver_Error DriverError);
  as_WriteConcernError : DriverError -> option driver_WriteConcernError;
  as_ConnectionError : DriverError -> option (option DriverError);
  as_net_Error_Timeout : DriverError -> option bool;
  context_Canceled : DriverError;
  context_DeadlineExceeded : DriverError
}.
#[export] Existing Instance err_eq_dec.

(** The result of a Go function that returns [(A, error)], with the error value kept. *)
Inductive result (E A : Type) :=
| Ok (a : A)
| Fail (e : E)
| Crash (why : string).
Arguments Ok {E A} a.
Arguments Fail {E A} e.
Arguments Crash {E A} why.

(** ** The driver *)

Class Driver (W : Type) `{EV : ErrorValues} := {
  SelectServer : W -> result DriverError (option ServerRef) * W;
  Server_Connection : ServerRef -> W -> result DriverError DriverConnRef * W;
  is_ErrorProcessor : ServerRef -> bool;
  ProcessError : ServerRef -> DriverError -> DriverConnRef -> W -> W;
  Conn_Address : DriverConnRef -> string;
  Conn_Close : DriverConnRef -> W -> option DriverError * W;
  WriteWireMessage : DriverConnRef -> list byte -> W -> option DriverError * W;
  ReadWireMessage : DriverConnRef -> W -> result DriverError (list byte) * W;
  Client_Ping : W -> option DriverError * W;
  Client_Disconnect : W -> option DriverError * W;
  time_Now : W -> Z;
  time_Sleep : Z -> W -> W
}.

(** ** Connection pool statistics *)

Record DriverPoolStats := {
  dps_activeConnections : Z;
  dps_totalConnections : Z;
  dps_maxPoolSize : Z;
  dps_checkoutCount : Z;
  dps_checkinCount : Z;
  dps_checkoutFailures : Z;
  dps_lastUpdated : Z
}.

Definition zero_pool_stats : DriverPoolStats :=
  {| dps_activeConnections := 0; dps_totalConnections := 0; dps_maxPoolSize := 0; dps_checkoutCount := 0;
     dps_checkinCount := 0; dps_checkoutFailures := 0; dps_lastUpdated := 0 |}.

(** [event.PoolEvent]: its type and, for a new pool, the maximum size of its options. *)
Record PoolEvent := {
  evt_Type : string;
  evt_MaxPoolSize : option Z
}.

(** The switch of the monitor's callback. *)
Definition pool_event (evt : PoolEvent) (now : Z) (s : DriverPoolStats) : DriverPoolStats :=
  let upd active total max out inn fail :=
    {| dps_activeConnections := active; dps_totalConnections := total; dps_maxPoolSize := max;
       dps_checkoutCount := out; dps_checkinCount := inn; dps_checkoutFailures := fail; dps_lastUpdated := now |} in
  let active := dps_activeConnections s in
  let total := dps_totalConnections s in
  let max := dps_maxPoolSize s in
  let out := dps_checkoutCount s in
  let inn := dps_checkinCount s in
  let fail := dps_checkoutFailures s in
  let clamp z := if (z <? 0)%Z then 0%Z else z in
  if decide (evt_Type evt = "ConnectionPoolCreated") then
    upd active total (match evt_MaxPoolSize evt with Some n => int64 n | None => max end) out inn fail
  else if decide (evt_Type evt = "ConnectionCreated") then upd active (int64 (total + 1)) max out inn fail
  else if decide (evt_Type evt = "ConnectionClosed") then upd active (clamp (int64 (total - 1))) max out inn fail
  else if decide (evt_Type evt = "ConnectionCheckedOut") then
    upd (int64 (active + 1)) total max (int64 (out + 1)) inn fail
  else if decide (evt_Type evt = "ConnectionCheckedIn") then
    upd (clamp (int64 (active - 1))) total max out (int64 (inn + 1)) fail
  else if decide (evt_Type evt = "ConnectionCheckOutFailed") then upd active total max out inn (int64 (fail + 1))
  else upd active total max out inn fail.

(** The exact quotient; the code rounds it to a [float64]. *)
Definition utilization (s : DriverPoolStats) : Q :=
  if (0 <? dps_maxPoolSize s)%Z then Qdiv (inject_Z (dps_activeConnections s)) (inject_Z (dps_maxPoolSize s))
  else inject_Z 0.

(** The seven gauges of the statistics. *)
Definition pool_gauges (databaseName : string) (s : DriverPoolStats) : list MetricCall :=
  let tags := ["database:" +:+ databaseName] in
  [Gauge "pool_active_connections" (dps_activeConnections s) tags;
   Gauge "pool_total_connections" (dps_totalConnections s) tags;
   Gauge "pool_max_connections" (dps_maxPoolSize s) tags;
   GaugeQ "pool_utilization_ratio" (utilization s) tags;
   Gauge "pool_checkout_total" (dps_checkoutCount s) tags;
   Gauge "pool_checkin_total" (dps_checkinCount s) tags;
   Gauge "pool_checkout_failures_total" (dps_checkoutFailures s) tags].

(** [if metrics != nil { ... }] on the log of metric calls. *)
Definition log_metrics (calls : list MetricCall) (log : option (list MetricCall)) : option (list MetricCall) :=
  (fun l => l ++ calls) <$> log.

(** The callback of [createPoolMonitor], on the statistics and the metrics. *)
Definition pool_monitor (databaseName : string) (evt : PoolEvent) (now : Z)
    (st : DriverPoolStats * option (list MetricCall)) : DriverPoolStats * option (list MetricCall) :=
  let s := pool_event evt now (fst st) in
  (s, if decide (databaseName <> "dynamic") then log_metrics (pool_gauges databaseName s) (snd st) else snd st).

(** ** The database name of a connection string *)

Definition extractDatabaseName (uri : string) : string :=
  if decide (uri = "") then "default"
  else if Contains uri "/" then
    let parts := Split uri "/" in
    if (2 <=? length parts)%nat then
      let dbPart := default "" (last parts) in
      let dbPart := if Contains dbPart "?" then default "" (head (Split dbPart "?")) else dbPart in
      if Contains dbPart ":" && negb (Contains dbPart ".") then "default"
      else if decide (dbPart <> "") then dbPart
      else "default"
    else "default"
  else "default".

(** ** The client *)

Record HealthStats (E : Type) := {
  hs_isHealthy : bool;
  hs_lastHealthCheck : option Z;
  hs_healthCheckCount : Z;
  hs_healthFailures : Z;
  hs_lastError : option E;
  hs_avgResponseTime : Z
}.
Arguments hs_isHealthy {E}.
Arguments hs_lastHealthCheck {E}.
Arguments hs_healthCheckCount {E}.
Arguments hs_healthFailures {E}.
Arguments hs_lastError {E}.
Arguments hs_avgResponseTime {E}.

Definition zero_health {E} : HealthStats E :=
  {| hs_isHealthy := false; hs_lastHealthCheck := None; hs_healthCheckCount := 0; hs_healthFailures := 0;
     hs_lastError := None; hs_avgResponseTime := 0 |}.

(** [mg_client] says whether [m.client] is non-nil. *)
Record Mongo (E CC TC G : Type) := {
  mg_databaseName : string;
  mg_client : bool;
  mg_metrics : option (list MetricCall);
  mg_dc : option (DistributedCache G);
  mg_sessions : SessionManager G;
  mg_cursors : cursorCache CC G;
  mg_transactions : transactionCache TC G;
  mg_poolStats : option DriverPoolStats;
  mg_healthStats : option (HealthStats E)
}.
Arguments mg_databaseName {E CC TC G}.
Arguments mg_client {E CC TC G}.
Arguments mg_metrics {E CC TC G}.
Arguments mg_dc {E CC TC G}.
Arguments mg_sessions {E CC TC G}.
Arguments mg_cursors {E CC TC G}.
Arguments mg_transactions {E CC TC G}.
Arguments mg_poolStats {E CC TC G}.
Arguments mg_healthStats {E CC TC G}.

Section Client.
Context `{DE : DriverErrors, EV : !ErrorValues} {W : Type} `{DR : !Driver W}.
Context {G : Type} `{GO : GroupOps G}.
Context `{JS : Json SessionData, JT : Json TransactionData, JC : Json CursorData, PF : PointerFormat}.
Context {CC TC : Type} `{BCC : BoundedCache string cursorInfo CC, BTC : BoundedCache string (option ServerRef) TC}.
Notation MG := (Mongo DriverError CC TC G).
Implicit Types m : MG.

Definition set_mg_metrics (x : option (list MetricCall)) (m : MG) : MG :=
  {| mg_databaseName := mg_databaseName m; mg_client := mg_client m; mg_metrics := x; mg_dc := mg_dc m;
     mg_sessions := mg_sessions m; mg_cursors := mg_cursors m; mg_transactions := mg_transactions m;
     mg_poolStats := mg_poolStats m; mg_healthStats := mg_healthStats m |}.
Definition set_mg_client (x : bool) (m : MG) : MG :=
  {| mg_databaseName := mg_databaseName m; mg_client := x; mg_metrics := mg_metrics m; mg_dc := mg_dc m;
     mg_sessions := mg_sessions m; mg_cursors := mg_cursors m; mg_transactions := mg_transactions m;
     mg_poolStats := mg_poolStats m; mg_healthStats := mg_healthStats m |}.
Definition set_mg_sessions (x : SessionManager G) (dc : option (DistributedCache G)) (m : MG) : MG :=
  {| mg_databaseName := mg_databaseName m; mg_client := mg_client m; mg_metrics := mg_metrics m; mg_dc := dc;
     mg_sessions := x; mg_cursors := mg_cursors m; mg_transactions := mg_transactions m;
     mg_poolStats := mg_poolStats m; mg_healthStats := mg_healthStats m |}.
Definition set_mg_cursors (x : cursorCache CC G) (log : option (list MetricCall)) (dc : option (DistributedCache G))
    (m : MG) : MG :=
  {| mg_databaseName := mg_databaseName m; mg_client := mg_client m; mg_metrics := log; mg_dc := dc;
     mg_sessions := mg_sessions m; mg_cursors := x; mg_transactions := mg_transactions m;
     mg_poolStats := mg_poolStats m; mg_healthStats := mg_healthStats m |}.
Definition set_mg_transactions (x : transactionCache TC G) (dc : option (DistributedCache G)) (m : MG) : MG :=
  {| mg_databaseName := mg_databaseName m; mg_client := mg_client m; mg_metrics := mg_metrics m; mg_dc := dc;
     mg_sessions := mg_sessions m; mg_cursors := mg_cursors m; mg_transactions := x;
     mg_poolStats := mg_poolStats m; mg_healthStats := mg_healthStats m |}.
Definition set_mg_health (x : HealthStats DriverError) (m : MG) : MG :=
  {| mg_databaseName := mg_databaseName m; mg_client := mg_client m; mg_metrics := mg_metrics m; mg_dc := mg_dc m;
     mg_sessions := mg_sessions m; mg_cursors := mg_cursors m; mg_transactions := mg_transactions m;
     mg_poolStats := mg_poolStats m; mg_healthStats := Some x |}.

Definition emit_mg (calls : list MetricCall) (m : MG) : MG := set_mg_metrics (log_metrics calls (mg_metrics m)) m.

(** The shared cache a component sees: the one object, if it has a pointer to it. *)
Definition lend (own shared : option (DistributedCache G)) : option (DistributedCache G) :=
  match own with
  | Some _ => shared
  | None => None
  end.
Definition give_back (own shared : option (DistributedCache G)) : option (DistributedCache G) :=
  match own with
  | Some dc => Some dc
  | None => shared
  end.

Definition with_sessions {A} (f : SessionManager G -> A * SessionManager G) (m : MG) : A * MG :=
  let sm := mg_sessions m in
  let '(a, sm) := f (set_dc (lend (sm_dc sm) (mg_dc m)) sm) in
  (a, set_mg_sessions sm (give_back (sm_dc sm) (mg_dc m)) m).

Definition with_cursors {A} (f : cursorCache CC G -> A * cursorCache CC G) (m : MG) : A * MG :=
  let c := mg_cursors m in
  let '(a, c) := f {| cur_c := cur_c c; cur_metrics := mg_metrics m; cur_dc := lend (cur_dc c) (mg_dc m) |} in
  (a, set_mg_cursors c (cur_metrics c) (give_back (cur_dc c) (mg_dc m)) m).

Definition with_transactions {A} (f : transactionCache TC G -> A * transactionCache TC G) (m : MG) : A * MG :=
  let t := mg_transactions m in
  let '(a, t) := f {| tc_c := tc_c t; tc_dc := lend (tc_dc t) (mg_dc m) |} in
  (a, set_mg_transactions t (give_back (tc_dc t) (mg_dc m)) m).

(** ** Connecting *)

(** [connected] and [ping] are what the driver's [Connect] and [Ping] answer
    ([ping] is [None] when no ping is asked for); the caches are new ones of
    the interface's implementation.  The program has one shared cache: the
    argument, or else the one the given session manager points to. *)
Definition ConnectWithDistributedCache (uri : string) (connected ping : option DriverError)
    (metrics : option (list MetricCall)) (cursors : CC) (transactions : TC)
    (sessionManager : option (SessionManager G)) (distributedCache : option (DistributedCache G))
    : result DriverError MG :=
  let databaseName := extractDatabaseName uri in
  let databaseName := if decide (databaseName = "default" \/ databaseName = "") then "dynamic" else databaseName in
  match connected with
  | Some err => Fail err
  | None =>
      match ping with
      | Some err => Fail err
      | None =>
          let dc := enabled_dc distributedCache in
          let sessions :=
            match sessionManager with
            | Some sm => sm
            | None => NewSessionManagerWithDistributedCache dc
            end in
          Ok {| mg_databaseName := databaseName; mg_client := true; mg_metrics := metrics;
                mg_dc := give_back distributedCache (sm_dc sessions); mg_sessions := sessions;
                mg_cursors := {| cur_c := cursors; cur_metrics := metrics; cur_dc := dc |};
                mg_transactions := {| tc_c := transactions; tc_dc := dc |};
                mg_poolStats := Some zero_pool_stats; mg_healthStats := Some zero_health |}
      end
  end.

(** [Connect] and [ConnectWithSessionManager] leave the shared cache, or both, to the defaults. *)
Definition ConnectWithSessionManager (uri : string) (connected ping : option DriverError) (metrics : option (list MetricCall))
    (cursors : CC) (transactions : TC) (sessionManager : option (SessionManager G)) : result DriverError MG :=
  ConnectWithDistributedCache uri connected ping metrics cursors transactions sessionManager None.
Definition Connect (uri : string) (connected ping : option DriverError) (metrics : option (list MetricCall)) (cursors : CC)
    (transactions : TC) : result DriverError MG :=
  ConnectWithSessionManager uri connected ping metrics cursors transactions None.

(** ** Health *)

(** [30*time.Second] of [IsHealthy]. *)
Definition maxHealthAge : Z := 30 * Second.

Definition IsHealthy (now : Z) (m : MG) : bool :=
  match mg_healthStats m with
  | None => false
  | Some hs =>
      match hs_lastHealthCheck hs with
      | None => false
      | Some last => if (maxHealthAge <? now - last)%Z then false else hs_isHealthy hs
      end
  end.

Definition CheckHealth (m : MG) (w : W) : option DriverError * MG * W :=
  match mg_healthStats m with
  | None => (Some (errors_New "health stats not initialized"), m, w)
  | Some hs =>
      let start := time_Now w in
      let count := int64 (hs_healthCheckCount hs + 1) in
      let '(err, w) := Client_Ping w in
      let responseTime := (time_Now w - start)%Z in
      match err with
      | Some e =>
          (Some e,
           set_mg_health {| hs_isHealthy := false; hs_lastHealthCheck := Some (time_Now w); hs_healthCheckCount := count;
                            hs_healthFailures := int64 (hs_healthFailures hs + 1); hs_lastError := Some e;
                            hs_avgResponseTime := hs_avgResponseTime hs |} m, w)
      | None =>
          let avg := if (hs_avgResponseTime hs =? 0)%Z then responseTime
                     else Z.quot (int64 (hs_avgResponseTime hs + responseTime)) 2 in
          (None,
           set_mg_health {| hs_isHealthy := true; hs_lastHealthCheck := Some (time_Now w); hs_healthCheckCount := count;
                            hs_healthFailures := hs_healthFailures hs; hs_lastError := None;
                            hs_avgResponseTime := avg |} m, w)
      end
  end.

(** ** Reading a client's state *)

Definition DatabaseName (m : MG) : string := mg_databaseName m.
Definition GetSessionManager (m : MG) : SessionManager G := mg_sessions m.

(** The value of an entry of the two maps below. *)
Inductive client_stat :=
| CSInt (z : Z)
| CSRatio (q : Q)
| CSBool (b : bool)
| CSTime (t : option Z)
| CSError (e : option DriverError).

Definition GetPoolStats (m : MG) : gmap string client_stat :=
  match mg_poolStats m with
  | None => ∅
  | Some s =>
      list_to_map
        [("active_connections", CSInt (dps_activeConnections s)); ("total_connections", CSInt (dps_totalConnections s));
         ("max_pool_size", CSInt (dps_maxPoolSize s)); ("utilization_ratio", CSRatio (utilization s));
         ("checkout_count", CSInt (dps_checkoutCount s)); ("checkin_count", CSInt (dps_checkinCount s));
         ("checkout_failures", CSInt (dps_checkoutFailures s)); ("last_updated", CSTime (Some (dps_lastUpdated s)))]
  end.

Definition GetHealthStats (m : MG) : gmap string client_stat :=
  match mg_healthStats m with
  | None => ∅
  | Some hs =>
      list_to_map
        [("is_healthy", CSBool (hs_isHealthy hs)); ("last_health_check", CSTime (hs_lastHealthCheck hs));
         ("health_check_count", CSInt (hs_healthCheckCount hs)); ("health_failures", CSInt (hs_healthFailures hs));
         ("last_error", CSError (hs_lastError hs)); ("avg_response_time", CSInt (hs_avgResponseTime hs))]
  end.

(** ** Monitoring and closing *)

Definition UpdatePoolMetricsForDatabase (databaseName : string) (m : MG) : MG :=
  match mg_poolStats m with
  | None => m
  | Some s => emit_mg (pool_gauges databaseName s) m
  end.

Definition cacheGauge (name : string) (count : Z) (m : MG) : MG :=
  emit_mg [Gauge name count ["database:" +:+ mg_databaseName m]] m.

(** The two cases of [cacheMonitor]'s loop. *)
Definition cacheMonitor_tick (m : MG) : MG :=
  let m := cacheGauge "cursors" (Z.of_nat (cursor_count (mg_cursors m))) m in
  let m := cacheGauge "transactions" (Z.of_nat (transaction_count (mg_transactions m))) m in
  cacheGauge "sessions" (Z.of_nat (GetSessionCount (mg_sessions m))) m.

Definition cacheMonitor_cleanup (now : Z) (m : MG) : MG :=
  snd (with_sessions (fun sm => ((), CleanupInactiveSessions (5 * Minute) now sm)) m).

Definition Mongo_Close (m : MG) (w : W) : MG * W :=
  if mg_client m then
    let '(_, w) := Client_Disconnect w in
    (set_mg_client false m, w)
  else (m, w).

End Client.

(** ** Properties *)

(** What the monitor makes of a sequence of events, each with its time. *)
Definition pool_events (evts : list (PoolEvent * Z)) : DriverPoolStats :=
  fold_left (fun s '(evt, now) => pool_event evt now s) evts zero_pool_stats.

Definition events_of (ty : string) (evts : list (PoolEvent * Z)) : Z :=
  Z.of_nat (length (filter (fun e => evt_Type (fst e) = ty) evts)).

(** No more connections checked in than were checked out, at any time. *)
Definition checkins_follow (evts : list (PoolEvent * Z)) : Prop :=
  forall n, (events_of "ConnectionCheckedIn" (take n evts) <= events_of "ConnectionCheckedOut" (take n evts))%Z.

Lemma events_of_snoc ty evts e :
  events_of ty (evts ++ [e]) = (events_of ty evts + (if decide (evt_Type (fst e) = ty) then 1 else 0))%Z.
Proof. unfold events_of. rewrite filter_app, length_app, filter_cons, filter_nil. case_decide; cbn; lia. Qed.

Lemma events_of_bounds ty evts : (0 <= events_of ty evts <= Z.of_nat (length evts))%Z.
Proof. unfold events_of. pose proof (length_filter (fun e => evt_Type (fst e) = ty) evts). lia. Qed.

Lemma pool_events_snoc evts evt now : pool_events (evts ++ [(evt, now)]) = pool_event evt now (pool_events evts).
Proof. unfold pool_events. by rewrite fold_left_app. Qed.

Lemma checkins_follow_app evts evts' : checkins_follow (evts ++ evts') -> checkins_follow evts.
Proof.
  intros H n. specialize (H (n `min` length evts)). rewrite !take_app_le in H by lia.
  destruct (decide (n <= length evts)); [by rewrite Nat.min_l in H|]. rewrite Nat.min_r in H by lia. by rewrite !take_ge in * by lia.
Qed.

(** C36.
    The statistics the driver's pool monitor keeps count the events, for any
    stream of fewer than 2^63 of them: the check-out, check-in and failure
    counters are the numbers of such events, the active and the total number of
    connections are never negative, and never above what was checked out or
    created.  Where every check-in follows its check-out, the active connections
    are the check-outs less the check-ins. *)
Theorem pool_monitor_counts evts (Hlen : (Z.of_nat (length evts) < 2 ^ 63)%Z) :
  let s := pool_events evts in
  dps_checkoutCount s = events_of "ConnectionCheckedOut" evts /\
  dps_checkinCount s = events_of "ConnectionCheckedIn" evts /\
  dps_checkoutFailures s = events_of "ConnectionCheckOutFailed" evts /\
  (0 <= dps_totalConnections s <= events_of "ConnectionCreated" evts)%Z /\
  (0 <= dps_activeConnections s <= events_of "ConnectionCheckedOut" evts)%Z /\
  (checkins_follow evts ->
   dps_activeConnections s = (events_of "ConnectionCheckedOut" evts - events_of "ConnectionCheckedIn" evts)%Z).
Proof.
  cbn zeta. induction evts as [|[evt now] evts IH] using rev_ind; [cbn; split_and!; try done; lia|].
  rewrite length_app in Hlen. cbn in Hlen. destruct IH as (E1 & E2 & E3 & B4 & B5 & E6); [lia|].
  rewrite pool_events_snoc, !events_of_snoc. cbn [fst].
  pose proof (fun ty => events_of_bounds ty evts) as B.
  pose proof (B "ConnectionCheckedOut"). pose proof (B "ConnectionCheckedIn"). pose proof (B "ConnectionCheckOutFailed").
  pose proof (B "ConnectionCreated").
  assert (checkins_follow (evts ++ [(evt, now)]) -> evt_Type evt = "ConnectionCheckedIn" ->
    (events_of "ConnectionCheckedIn" evts < events_of "ConnectionCheckedOut" evts)%Z) as Hin.
  { intros Hf Hty. specialize (Hf (length (evts ++ [(evt, now)]))). rewrite take_ge, !events_of_snoc in Hf by lia.
    cbn [fst] in Hf. repeat case_decide; try congruence; lia. }
  assert (checkins_follow (evts ++ [(evt, now)]) -> dps_activeConnections (pool_events evts) =
    (events_of "ConnectionCheckedOut" evts - events_of "ConnectionCheckedIn" evts)%Z) as E6'.
  { intros Hf. apply E6. by eapply checkins_follow_app. }
  clear E6 B. unfold pool_event. cbn zeta.
  repeat case_decide; try congruence; cbn; rewrite ?int64_id by (unfold is_int64; lia); repeat match goal with |- context [(?a <? ?b)%Z] => destruct (Z.ltb_spec a b) end;
    split_and!; try lia; intros Hf; specialize (E6' Hf); specialize (Hin Hf); try specialize (Hin ltac:(assumption)); lia.
Qed.

Lemma pool_monitor_counts_witness :
  let evts := map (fun ty => ({| evt_Type := ty; evt_MaxPoolSize := None |}, 0%Z))
    ["ConnectionCreated"; "ConnectionCheckedOut"; "ConnectionCreated"; "ConnectionCheckedOut"; "ConnectionCheckedIn"] in
  checkins_follow evts /\ dps_activeConnections (pool_events evts) = 1%Z.
Proof.
  cbn zeta. match goal with |- checkins_follow ?l /\ _ => set (evts := l) end.
  assert (checkins_follow evts) as Hf.
  { intros n. do 6 (destruct n as [|n]; [vm_compute; discriminate|]). vm_compute. discriminate. }
  split; [exact Hf|]. pose proof (pool_monitor_counts evts ltac:(vm_compute; reflexivity)) as H. cbn zeta in H.
  destruct H as (_ & _ & _ & _ & _ & H). etransitivity; [exact (H Hf)|]. vm_compute. reflexivity.
Defined.
