(* ===== verification/RoundTrip.v ===== *)
(** * The round trip ([Mongo.RoundTrip] of [src/mongo/mongo.go])

    One request sent to a server and its answer, with retries, the session and
    transaction bookkeeping and the cursor and transaction caches.  The body of
    the retry loop is in a control monad: a statement goes on with a value
    ([Next]), goes to the next attempt ([Retry], Go's [continue]) or returns
    ([Done]).  The calls deferred in the loop run when the function returns,
    last first, and are kept as data on a stack.  The calls on the driver are
    recorded in a trace. *)

From S2P Require Import Prelude GoStrings Parsing Wire Command Operations Lru CacheInterface ClientSettings.
From S2P Require Import Pool DistributedCache Sessions Caches Mongo.
From Stdlib Require Import ZArith Lia.

(** [mongo.Message]; a nil operation is [None]. *)
Record Message := {
  msg_Wm : list byte;
  msg_Op : option Operation
}.

(** A call on the driver. *)
Inductive event :=
| ESelect
| EOpen (server : ServerRef) (conn : DriverConnRef)
| EClose (conn : DriverConnRef)
| EWrite (conn : DriverConnRef) (wm : list byte)
| ERead (conn : DriverConnRef)
| EProcess (server : ServerRef) (conn : DriverConnRef) (changesTopology : bool)
| ESleep (delay : Z).

(** A deferred call: [defer m.sessions.UnpinTransaction(session)], and the
    function literal that closes the connection, with the variables it captures. *)
Inductive deferred :=
| DUnpin (session : SessRef)
| DClose (conn : DriverConnRef) (isCommitOrAbortCommand : bool).

(** How a statement of the loop ends. *)
Inductive ctl (R A : Type) :=
| Next (a : A)
| Retry
| Done (r : R).
Arguments Next {R A} a.
Arguments Retry {R A}.
Arguments Done {R A} r.

Definition Millisecond : Z := 1000000.

Definition maxRetries : nat := 3.
Definition baseDelay : Z := 100 * Millisecond.

(** [baseDelay * time.Duration(1<<uint(attempt))] *)
Definition delay (attempt : nat) : Z := baseDelay * 2 ^ Z.of_nat attempt.

Definition retryableErrors : list string :=
  ["connection refused"; "connection reset"; "connection timeout"; "network is unreachable"; "no route to host";
   "temporary failure"; "server selection error"; "context deadline exceeded"; "EOF"; "socket was unexpectedly closed"].

(** [databaseName := "default"; if collection != "" { info := util.ParseCollectionName(collection); ... }] *)
Definition parsed_database `{UnicodeCase} (collection : string) : string :=
  if decide (collection = "") then "default"
  else
    let db := ci_Database (ParseCollectionName collection) in
    if decide (db = "") then "default" else db.

(** The same with [strings.SplitN(collection, ".", 2)]. *)
Definition split_database (collection : string) : string :=
  if decide (collection = "") then "default"
  else
    match SplitN collection "." 2 with
    | db :: _ :: _ => db
    | _ => "default"
    end.

Definition database_tags (databaseName : string) : list string := ["database:" +:+ databaseName].
Definition error_tags (databaseName errorType : string) : list string :=
  ["database:" +:+ databaseName; "error_type:" +:+ errorType].

Section RoundTrip.
Context `{UC : UnicodeCase, WM : Wiremessage, BS : Bsoncore, DE : DriverErrors, EV : !ErrorValues}.
Context {W : Type} `{DR : !Driver W}.
Context {G : Type} `{GO : GroupOps G}.
Context `{JS : Json SessionData, JT : Json TransactionData, JC : Json CursorData, PF : PointerFormat}.
Context {CC TC : Type} `{BCC : BoundedCache string cursorInfo CC, BTC : BoundedCache string (option ServerRef) TC}.
Notation MG := (Mongo DriverError CC TC G).
Notation error := DriverError (only parsing).

(** ** Errors *)

Definition isRetryableError (err : error) : bool :=
  existsb (fun retryableErr => Contains (ToLower (err_Error err)) retryableErr) retryableErrors.

Definition wrapNetworkError (err : error) : error := network_error (err_Error err) err.

Definition unwrapConnectionError (err : error) : option error :=
  match as_ConnectionError err with
  | Some wrapped => wrapped
  | None =>
      match as_driver_Error err with
      | None => None
      | Some driverErr =>
          if negb (de_NetworkError driverErr) then None
          else
            match de_Wrapped driverErr with
            | None => None
            | Some inner =>
                match as_ConnectionError inner with
                | Some wrapped => wrapped
                | None => None
                end
            end
      end
  end.

Definition errorChangesTopology (err : error) : bool :=
  if match as_driver_Error err with
     | Some cerr => de_NodeIsRecovering cerr || de_NotPrimary cerr
     | None => false
     end then true
  else if match as_WriteConcernError err with
          | Some wcerr => wce_NodeIsRecovering wcerr || wce_NotPrimary wcerr
          | None => false
          end then true
  else
    match unwrapConnectionError err with
    | None => false
    | Some wrappedConnErr =>
        if default false (as_net_Error_Timeout wrappedConnErr) then false
        else if decide (wrappedConnErr = context_Canceled \/ wrappedConnErr = context_DeadlineExceeded) then false
        else true
    end.

(** ** The state of a running call *)

Record rt_state := {
  rt_m : MG;
  rt_w : W;
  rt_trace : list event;
  rt_defers : list deferred;
  rt_tags : list string
}.

Definition M (A : Type) : Type := rt_state -> ctl (result error Message) A * rt_state.

Definition mbind {A B} (c : M A) (k : A -> M B) : M B := fun st =>
  match c st with
  | (Next a, st) => k a st
  | (Retry, st) => (Retry, st)
  | (Done r, st) => (Done r, st)
  end.

Notation "'let!' x := m 'in' k" := (mbind m (fun x => k)) (at level 10, x pattern, m at level 100, k at level 200).

Definition go_on {A} (a : A) : M A := fun st => (Next a, st).
Definition fail_with {A} (err : error) : M A := fun st => (Done (Fail err), st).

Definition set_m (m : MG) (st : rt_state) : rt_state :=
  {| rt_m := m; rt_w := rt_w st; rt_trace := rt_trace st; rt_defers := rt_defers st; rt_tags := rt_tags st |}.
(** The world after a call, and the call in the trace. *)
Definition record_call (w : W) (e : list event) (st : rt_state) : rt_state :=
  {| rt_m := rt_m st; rt_w := w; rt_trace := rt_trace st ++ e; rt_defers := rt_defers st; rt_tags := rt_tags st |}.
Definition push_defer (d : deferred) (st : rt_state) : rt_state :=
  {| rt_m := rt_m st; rt_w := rt_w st; rt_trace := rt_trace st; rt_defers := d :: rt_defers st; rt_tags := rt_tags st |}.
Definition add_tag (tag : string) (st : rt_state) : rt_state :=
  {| rt_m := rt_m st; rt_w := rt_w st; rt_trace := rt_trace st; rt_defers := rt_defers st;
     rt_tags := rt_tags st ++ [tag] |}.

Definition now (st : rt_state) : Z := time_Now (rt_w st).

Definition emit_st (calls : list MetricCall) (st : rt_state) : rt_state := set_m (emit_mg calls (rt_m st)) st.
Definition do_metrics (calls : list MetricCall) : M unit := fun st => (Next (), emit_st calls st).

(** A method of the session manager, at the current time. *)
Definition on_sessions {A} (f : Z -> SessionManager G -> A * SessionManager G) (st : rt_state) : A * rt_state :=
  let '(a, m) := with_sessions (f (now st)) (rt_m st) in (a, set_m m st).

(** A session method that returns an error: [if err != nil { return nil, err }]. *)
Definition session_call (f : Z -> SessionManager G -> outcome unit * SessionManager G) : M unit := fun st =>
  let '(r, st) := on_sessions f st in
  match r with
  | Ret _ => (Next (), st)
  | Err e => (Done (Fail (errors_New e)), st)
  | Panic why => (Done (Crash why), st)
  | NoFuel => (Done (Crash ""), st)
  end.

(** The fields of the session behind a pointer. *)
Definition session_at (ref : SessRef) (st : rt_state) : option Session := sm_heap (mg_sessions (rt_m st)) !! ref.

Definition deref (ref : SessRef) : M Session := fun st =>
  match session_at ref st with
  | Some s => (Next s, st)
  | None => (Done (Crash "nil pointer dereference"), st)
  end.

Definition run_sleep (d : Z) (st : rt_state) : rt_state := record_call (time_Sleep d (rt_w st)) [ESleep d] st.

(** [if attempt < maxRetries { time.Sleep(delay); continue }; return nil, err] *)
Definition retry_or {A} (attempt : nat) (err : error) : M A := fun st =>
  if (attempt <? maxRetries)%nat then (Retry, run_sleep (delay attempt) st) else (Done (Fail err), st).

(** ** The steps of an attempt *)

Definition op_database (op : Operation) (collection : string) (fallback : string -> string) : string :=
  let dbName := om_DatabaseName (op_methods op) in
  if decide (dbName <> "") then dbName else fallback collection.

(** The deferred function of [selectServer]. *)
Definition finish_select (start : Z) (op : Operation) (collection : string) (r : result error (option ServerRef))
    (st : rt_state) : result error (option ServerRef) * rt_state :=
  (r, emit_st [Timing "server_selection" (now st - start)
                 ["success:" +:+ fmt_bool (match r with Ok _ => true | _ => false end);
                  "database:" +:+ op_database op collection split_database]] st).

(** [m.topology.SelectServer(m.roundTripCtx, selector)] *)
Definition select_from_topology (st : rt_state) : result error (option ServerRef) * rt_state :=
  let '(r, w) := SelectServer (rt_w st) in (r, record_call w [ESelect] st).

(** [m.cursors.peek(requestCursorID, collection)] *)
Definition peek_cursor (requestCursorID : Z) (collection : string) (st : rt_state) : option ServerRef * bool * rt_state :=
  let '((server, ok), m) := with_cursors (fun c =>
    let '(server, ok, c) := cursor_peek requestCursorID collection (now st) c in ((server, ok), c)) (rt_m st) in
  (server, ok, set_m m st).

(** [m.transactions.peek(transDetails.LsID)] *)
Definition peek_transaction (lsID : list byte) (st : rt_state) : option ServerRef * bool * rt_state :=
  let '((server, ok), m) := with_transactions (fun t =>
    let '(server, ok, t) := transaction_peek lsID (now st) t in ((server, ok), t)) (rt_m st) in
  (server, ok, set_m m st).

(** The pinned cursor, then the topology. *)
Definition select_cursor_or_topology (requestCursorID : Z) (collection : string) (st : rt_state)
    : result error (option ServerRef) * rt_state :=
  if (requestCursorID =? 0)%Z then select_from_topology st
  else
    let '(server, ok, st) := peek_cursor requestCursorID collection st in
    if ok then (Ok server, st) else select_from_topology st.

(** The server of the transaction first. *)
Definition selectServer (requestCursorID : Z) (collection : string) (transDetails : option TransactionDetails)
    (op : Operation) (st : rt_state) : result error (option ServerRef) * rt_state :=
  let start := now st in
  let '(r, st) :=
    match transDetails with
    | None => select_cursor_or_topology requestCursorID collection st
    | Some td =>
        let '(server, ok, st) := peek_transaction (td_LsID td) st in
        if ok then (Ok server, st) else select_cursor_or_topology requestCursorID collection st
    end in
  finish_select start op collection r st.

(** The deferred function of [checkoutConnection]. *)
Definition finish_checkout (start : Z) (databaseName : string) (r : result error DriverConnRef) (st : rt_state)
    : result error DriverConnRef * rt_state :=
  (r, emit_st [Timing "checkout_connection" (now st - start)
                 ["address:" +:+ match r with Ok conn => Conn_Address conn | _ => "" end;
                  "success:" +:+ fmt_bool (match r with Ok _ => true | _ => false end);
                  "database:" +:+ databaseName]] st).

(** [server.Connection(m.roundTripCtx)] *)
Definition open_connection (srv : ServerRef) (st : rt_state) : result error DriverConnRef * rt_state :=
  let '(r, w) := Server_Connection srv (rt_w st) in
  (r, record_call w (match r with Ok conn => [EOpen srv conn] | _ => [] end) st).

Definition checkoutConnection (server : option ServerRef) (databaseName : string) (session : option SessRef)
    (st : rt_state) : result error DriverConnRef * rt_state :=
  let start := now st in
  let '(r, st) :=
    match server with
    | None => (Fail (errors_New ("server is nil for database " +:+ databaseName)), st)
    | Some srv =>
        match session with
        | None => open_connection srv st
        | Some ref =>
            match session_at ref st with
            | None => (Crash "nil pointer dereference", st)
            | Some s =>
                match GetPinnedConnection s with
                | Some pinnedConn => (Ok pinnedConn, st)
                | None => open_connection srv st
                end
            end
        end
    end in
  finish_checkout start databaseName r st.

(** The deferred function of [roundTrip]. *)
Definition finish_exchange (start : Z) (req : list byte) (unacknowledged : bool) (r : result error (list byte))
    (st : rt_state) : result error (list byte) * rt_state :=
  let tags := rt_tags st ++ ["success:" +:+ fmt_bool (match r with Ok _ => true | _ => false end)] in
  let sizes :=
    match r with
    | Ok res => if unacknowledged then [] else [DistributionN "response_size" (Z.of_nat (length res)) tags]
    | _ => []
    end in
  (r, emit_st ([DistributionN "request_size" (Z.of_nat (length req)) tags] ++ sizes ++
               [Timing "round_trip" (now st - start) tags]) st).

Definition write_message (conn : DriverConnRef) (req : list byte) (st : rt_state) : option error * rt_state :=
  let '(err, w) := WriteWireMessage conn req (rt_w st) in (err, record_call w [EWrite conn req] st).

Definition read_message (conn : DriverConnRef) (st : rt_state) : result error (list byte) * rt_state :=
  let '(r, w) := ReadWireMessage conn (rt_w st) in (r, record_call w [ERead conn] st).

(** The exchange of messages on a connection. *)
Definition roundTrip (conn : DriverConnRef) (req : list byte) (unacknowledged : bool) (st : rt_state)
    : result error (list byte) * rt_state :=
  let start := now st in
  let '(r, st) :=
    match write_message conn req st with
    | (Some err, st) => (Fail (wrapNetworkError err), st)
    | (None, st) =>
        if unacknowledged then (Ok [], st)
        else
          match read_message conn st with
          | (Fail err, st) => (Fail (wrapNetworkError err), st)
          | other => other
          end
    end in
  finish_exchange start req unacknowledged r st.

Definition processError (err : error) (server : ServerRef) (conn : DriverConnRef) (st : rt_state) : rt_state :=
  record_call (ProcessError server err conn (rt_w st)) [EProcess server conn (errorChangesTopology err)] st.

(** [server, err = ...] at the start of an attempt, the pinned server first. *)
Definition choose_server (attempt : nat) (requestCursorID : Z) (collection : string)
    (transactionDetails : option TransactionDetails) (session : option SessRef) (op : Operation) : M (option ServerRef) :=
  match transactionDetails, session with
  | Some td, Some ref =>
      let! s := deref ref in
      match GetPinnedServer s with
      | Some pinnedServer => go_on (Some pinnedServer)
      | None => fun st =>
          match selectServer requestCursorID collection transactionDetails op st with
          | (Ok server, st) => (Next server, st)
          | (Fail err, st) => (Done (Fail err), st)
          | (Crash why, st) => (Done (Crash why), st)
          end
      end
  | _, _ => fun st =>
      match selectServer requestCursorID collection transactionDetails op st with
      | (Ok server, st) => (Next server, st)
      | (Fail err, st) =>
          mbind (do_metrics [Incr "error" (error_tags (parsed_database collection) "server_selection_error")])
            (fun _ => retry_or attempt err) st
      | (Crash why, st) => (Done (Crash why), st)
      end
  end.

Definition get_connection (attempt : nat) (server : ServerRef) (databaseName collection : string)
    (session : option SessRef) : M DriverConnRef := fun st =>
  match checkoutConnection (Some server) databaseName session st with
  | (Ok conn, st) => (Next conn, add_tag ("address:" +:+ Conn_Address conn) st)
  | (Fail err, st) =>
      mbind (do_metrics [Incr "error" (error_tags (split_database collection) "connection_checkout_error")])
        (fun _ => retry_or attempt err) st
  | (Crash why, st) => (Done (Crash why), st)
  end.

(** The transaction's bookkeeping; the value is [isCommitOrAbortCommand]. *)
Definition transaction_state (server : ServerRef) (conn : DriverConnRef) (requestCommand : Command)
    (transactionDetails : option TransactionDetails) (session : option SessRef) : M bool :=
  match session, transactionDetails with
  | Some ref, Some td =>
      let! _ :=
        (if td_IsStartTransaction td
         then session_call (fun now => StartTransaction ref (Some server) (Some conn) (td_TxnNumber td) now)
         else go_on ()) in
      if decide (requestCommand = "commitTransaction") then
        let! _ := session_call (fun now => SM_CommitTransaction ref now) in
        fun st => (Next true, push_defer (DUnpin ref) st)
      else if decide (requestCommand = "abortTransaction") then
        let! _ := session_call (fun now => SM_AbortTransaction ref now) in
        fun st => (Next true, push_defer (DUnpin ref) st)
      else if decide (requestCommand = "endSessions") then
        let! _ := session_call (fun now => EndSession ref now) in
        go_on false
      else go_on false
  | _, _ => go_on false
  end.

(** The exchange, and whether a failed one is tried again. *)
Definition exchange (attempt : nat) (server : ServerRef) (conn : DriverConnRef) (wm : list byte) (unacknowledged : bool)
    : M (list byte) := fun st =>
  match roundTrip conn wm unacknowledged st with
  | (Ok res, st) => (Next res, st)
  | (Fail err, st) =>
      let st := processError err server conn st in
      if (attempt <? maxRetries)%nat && isRetryableError err then (Retry, run_sleep (delay attempt) st)
      else (Done (Fail err), st)
  | (Crash why, st) => (Done (Crash why), st)
  end.

Definition decode_reply (attempt : nat) (wm : list byte) : M Operation :=
  match Decode wm with
  | Ret op => go_on op
  | Err e => retry_or attempt (errors_New e)
  | Panic why => fun st => (Done (Crash why), st)
  | NoFuel => fun st => (Done (Crash ""), st)
  end.

(** The cursors a reply opens or exhausts. *)
Definition track_cursor (reply : Operation) (server : ServerRef) (requestCursorID : Z) (collection : string)
    (st : rt_state) : rt_state :=
  let '(responseCursorID, ok) := om_CursorID (op_methods reply) in
  if negb ok then st
  else if (responseCursorID =? 0)%Z then
    if (requestCursorID =? 0)%Z then st
    else set_m (snd (with_cursors (fun c => ((), cursor_remove requestCursorID collection c)) (rt_m st))) st
  else
    let databaseName := parsed_database collection in
    let databaseName :=
      if decide (databaseName = "default" /\ mg_databaseName (rt_m st) <> "dynamic" /\
                 mg_databaseName (rt_m st) <> "default")
      then mg_databaseName (rt_m st) else databaseName in
    let m := snd (with_cursors (fun c =>
      ((), cursor_add responseCursorID collection (Some server) databaseName (now st) c)) (rt_m st)) in
    emit_st [Incr "cursor_opened" (database_tags databaseName)] (set_m m st).

(** The transactions a request starts or ends. *)
Definition track_transaction (op : Operation) (requestCommand : Command) (collection : string)
    (transactionDetails : option TransactionDetails) (server : ServerRef) (st : rt_state) : rt_state :=
  match transactionDetails with
  | None => st
  | Some td =>
      if td_IsStartTransaction td then
        set_m (snd (with_transactions (fun t => ((), transaction_add (td_LsID td) (Some server) (now st) t)) (rt_m st))) st
      else if decide (requestCommand = AbortTransaction \/ requestCommand = CommitTransaction) then
        let st := set_m (snd (with_transactions (fun t => ((), transaction_remove (td_LsID td) t)) (rt_m st))) st in
        let tags := database_tags (op_database op collection split_database) in
        emit_st [Incr (if decide (requestCommand = CommitTransaction) then "transaction_committed"
                       else "transaction_aborted") tags] st
      else st
  end.

(** From the deferred close on: the exchange and what is made of the reply. *)
Definition talk (attempt : nat) (server : ServerRef) (conn : DriverConnRef) (wm : list byte) (op : Operation)
    (transactionDetails : option TransactionDetails) : M Message :=
  let requestCursorID := fst (om_CursorID (op_methods op)) in
  let requestCommand := fst (om_CommandAndCollection (op_methods op)) in
  let collection := snd (om_CommandAndCollection (op_methods op)) in
  if negb (is_ErrorProcessor server) then retry_or attempt (errors_New "server ErrorProcessor type assertion failed")
  else
    let unacknowledged := om_Unacknowledged (op_methods op) in
    let! res := exchange attempt server conn wm unacknowledged in
    if unacknowledged then go_on {| msg_Wm := []; msg_Op := None |}
    else
      let! reply := decode_reply attempt res in
      fun st =>
        let st :=
          match om_Error (op_methods reply) with
          | Some opErr => processError opErr server conn st
          | None => st
          end in
        let st := track_cursor reply server requestCursorID collection st in
        let st := track_transaction op requestCommand collection transactionDetails server st in
        (Next {| msg_Wm := res; msg_Op := Some reply |}, st).

(** The body of the retry loop. *)
Definition attempt_once (attempt : nat) (wm : list byte) (op : Operation) (transactionDetails : option TransactionDetails)
    (session : option SessRef) : M Message :=
  let requestCursorID := fst (om_CursorID (op_methods op)) in
  let requestCommand := fst (om_CommandAndCollection (op_methods op)) in
  let collection := snd (om_CommandAndCollection (op_methods op)) in
  let! server := choose_server attempt requestCursorID collection transactionDetails session op in
  let databaseName := op_database op collection parsed_database in
  let! _ := do_metrics [Incr "server_selection" (database_tags databaseName)] in
  let! _ := (fun st => (Next (), set_m (UpdatePoolMetricsForDatabase databaseName (rt_m st)) st)) in
  match server with
  | None => fail_with (errors_New ("no server available for database " +:+ databaseName))
  | Some server =>
      let! conn := get_connection attempt server databaseName collection session in
      let! isCommitOrAbortCommand := transaction_state server conn requestCommand transactionDetails session in
      let! _ := (fun st => (Next (), push_defer (DClose conn isCommitOrAbortCommand) st)) in
      talk attempt server conn wm op transactionDetails
  end.

(** [for attempt := ...; attempt <= maxRetries; attempt++]; [tries] attempts remain. *)
Fixpoint retry_loop (tries attempt : nat) (body : nat -> M Message) (st : rt_state) : result error Message * rt_state :=
  match tries with
  | 0 => (Fail (errors_New "max retries exceeded"), st)
  | S tries =>
      match body attempt st with
      | (Next msg, st) => (Ok msg, st)
      | (Done r, st) => (r, st)
      | (Retry, st) => retry_loop tries (S attempt) body st
      end
  end.

(** ** The deferred calls *)

Definition close_conn (conn : DriverConnRef) (st : rt_state) : rt_state :=
  let '(_, w) := Conn_Close conn (rt_w st) in record_call w [EClose conn] st.

Definition run_deferred (session : option SessRef) (d : deferred) (st : rt_state) : rt_state :=
  match d with
  | DUnpin ref => snd (on_sessions (fun _ => UnpinTransaction ref) st)
  | DClose conn isCommitOrAbortCommand =>
      if (isCommitOrAbortCommand : bool) then
        let st := close_conn conn st in
        match session with
        | Some ref => snd (on_sessions (fun _ => ResetTransactionState ref) st)
        | None => st
        end
      else
        match session with
        | None => close_conn conn st
        | Some ref =>
            match session_at ref st with
            | Some s => if IsTransactionActive s then st else close_conn conn st
            | None => st
            end
        end
  end.

Definition run_defers (session : option SessRef) (ds : list deferred) (st : rt_state) : rt_state :=
  fold_left (fun st d => run_deferred session d st) ds st.

(** ** The call *)

(** The session of a request that has transaction details, made if need be. *)
Definition request_session (td : TransactionDetails) (st : rt_state) : SessRef * rt_state :=
  let '(found, st) := on_sessions (fun now => SM_GetSession (td_LsID td) now) st in
  match found with
  | Some ref => (ref, st)
  | None =>
      let sessionID := b64_EncodeToString (td_LsID td) in
      let session :=
        {| s_ID := sessionID; s_LsID := td_LsID td; s_ClientID := "unknown"; s_State := SessionStateActive;
           s_CreatedAt := now st; s_LastActivity := now st; s_TransactionState := TransactionStateNone;
           s_CurrentTxnNumber := 0; s_PinnedServer := None; s_PinnedConnection := None |} in
      on_sessions (fun _ sm =>
        let '(ref, sm) := alloc_session session sm in
        (ref, set_sessions (<[sessionID := ref]> (sm_sessions sm)) sm)) st
  end.

Definition start_session (transactionDetails : option TransactionDetails) (st : rt_state) : option SessRef * rt_state :=
  match transactionDetails with
  | None => (None, st)
  | Some td => let '(ref, st) := request_session td st in (Some ref, st)
  end.

(** The health check before an operation; its error is only logged. *)
Definition health_gate (st : rt_state) : rt_state :=
  if IsHealthy (now st) (rt_m st) then st
  else
    let '(_, m, w) := CheckHealth (rt_m st) (rt_w st) in
    set_m m (record_call w [] st).

(** The call from where the session is known, the deferred calls included. *)
Definition serve (wm : list byte) (op : Operation) (transactionDetails : option TransactionDetails)
    (session : option SessRef) (st : rt_state) : result error Message * rt_state :=
  let body attempt := attempt_once attempt wm op transactionDetails session in
  let '(r, st) := retry_loop (S maxRetries) 0 body st in
  (r, run_defers session (rt_defers st) st).

Definition start_state (m : MG) (w : W) (tags : list string) : rt_state :=
  {| rt_m := m; rt_w := w; rt_trace := []; rt_defers := []; rt_tags := tags |}.

(** A message without an operation is a nil dereference, also in the deferred function that logs an error. *)
Definition RoundTrip (msg : Message) (tags : list string) (m : MG) (w : W) : result error Message * rt_state :=
  let st := start_state m w tags in
  if negb (mg_client m) then
    (match msg_Op msg with
     | Some _ => Fail (errors_New "connection closed")
     | None => Crash "nil pointer dereference"
     end, st)
  else
    let st := health_gate st in
    match msg_Op msg with
    | None => (Crash "nil pointer dereference", st)
    | Some op =>
        let transactionDetails := om_TransactionDetails (op_methods op) in
        let '(session, st) := start_session transactionDetails st in
        serve (msg_Wm msg) op transactionDetails session st
    end.

End RoundTrip.
