(* ===== verification/RoundTripFacts.v ===== *)
(** * Properties of the round trip

    What a call of [RoundTrip] does whatever the driver answers: how often it
    tries and waits, which connections it opens, uses and closes, and what
    happens to the session of a transaction.  A triple says what holds at each
    of the three ways a statement of the loop can end. *)

From S2P Require Import Prelude GoStrings Parsing Wire Command Operations Lru CacheInterface ClientSettings.
From S2P Require Import Pool DistributedCache Sessions Caches Mongo RoundTrip.
From Stdlib Require Import ZArith Lia Ascii.

(** ** Traces *)

Definition sleeps (tr : list event) : list Z := omap (fun e => match e with ESleep d => Some d | _ => None end) tr.
Definition opens (tr : list event) : list DriverConnRef :=
  omap (fun e => match e with EOpen _ c => Some c | _ => None end) tr.
Definition closes (tr : list event) : list DriverConnRef :=
  omap (fun e => match e with EClose c => Some c | _ => None end) tr.
Definition writes (tr : list event) : list (DriverConnRef * list byte) :=
  omap (fun e => match e with EWrite c wm => Some (c, wm) | _ => None end) tr.

Lemma omap_snoc {A B} (f : A -> option B) l x :
  omap f (l ++ [x]) = omap f l ++ match f x with Some y => [y] | None => [] end.
Proof. rewrite omap_app. cbn. by destruct (f x). Qed.

(** [attempt] keeps to [n] tries: what can have happened before try [n]. *)
Definition delays : list Z := [delay 0; delay 1; delay 2].

Section Facts.
Context `{UC : UnicodeCase, WM : Wiremessage, BS : Bsoncore, DE : DriverErrors, EV : !ErrorValues}.
Context {W : Type} `{DR : !Driver W}.
Context {G : Type} `{GO : GroupOps G}.
Context `{JS : Json SessionData, JT : Json TransactionData, JC : Json CursorData, PF : PointerFormat}.
Context {CC TC : Type} `{BCC : BoundedCache string cursorInfo CC, BTC : BoundedCache string (option ServerRef) TC}.
Notation MG := (Mongo DriverError CC TC G).
Notation ST := (rt_state (W := W) (G := G) (CC := CC) (TC := TC)).
Notation prog A := (ST -> ctl (result DriverError Message) A * ST).
Implicit Types st : ST.

(** ** Triples *)

Definition triple {A} (P : ST -> Prop) (c : prog A) (N : A -> ST -> Prop) (R : ST -> Prop)
    (D : result DriverError Message -> ST -> Prop) : Prop :=
  forall st, P st ->
    match c st with
    | (Next a, st') => N a st'
    | (Retry, st') => R st'
    | (Done r, st') => D r st'
    end.

Lemma triple_bind {A B} P (c : prog A) (k : A -> prog B) N N' R D :
  triple P c N' R D -> (forall a, triple (N' a) (k a) N R D) -> triple P (mbind c k) N R D.
Proof.
  intros Hc Hk st HP. unfold mbind. specialize (Hc st HP).
  destruct (c st) as [[a| |r] st']; [by apply Hk|done..].
Qed.

Lemma triple_conseq {A} P (c : prog A) (N N' : A -> ST -> Prop) (R R' : ST -> Prop) (D D' : _ -> ST -> Prop) :
  triple P c N' R' D' -> (forall a st, N' a st -> N a st) -> (forall st, R' st -> R st) ->
  (forall r st, D' r st -> D r st) -> triple P c N R D.
Proof. intros Hc HN HR HD st HP. specialize (Hc st HP). destruct (c st) as [[] ?]; auto. Qed.

Lemma triple_pre {A} (P P' : ST -> Prop) (c : prog A) N R D :
  triple P' c N R D -> (forall st, P st -> P' st) -> triple P c N R D.
Proof. intros Hc HP st ?. apply Hc, HP. done. Qed.

(** ** What a call on the driver leaves alone *)

(** The sessions and the deferred calls are as before, and the trace has grown by [l]. *)
Definition frame (l : list event) st st' : Prop :=
  mg_sessions (rt_m st') = mg_sessions (rt_m st) /\ rt_defers st' = rt_defers st /\ rt_trace st' = rt_trace st ++ l.

Lemma frame_refl st : frame [] st st.
Proof. split_and!; [done..|]. by rewrite app_nil_r. Qed.

Lemma frame_trans l l' st st' st'' : frame l st st' -> frame l' st' st'' -> frame (l ++ l') st st''.
Proof. intros (E1 & E2 & E3) (F1 & F2 & F3). split_and!; [congruence..|]. by rewrite F3, E3, app_assoc. Qed.

Lemma frame_emit calls st : frame [] st (emit_st calls st).
Proof. split_and!; [done..|]. cbn. by rewrite app_nil_r. Qed.

Lemma frame_call w l st : frame l st (record_call w l st).
Proof. done. Qed.

Lemma frame_nil l st st' st'' : frame l st st' -> frame [] st' st'' -> frame l st st''.
Proof. intros H1 H2. rewrite <- (app_nil_r l). by eapply frame_trans. Qed.

Lemma frame_cursors {A} (f : cursorCache CC G -> A * cursorCache CC G) st :
  frame [] st (set_m (snd (with_cursors f (rt_m st))) st).
Proof. unfold with_cursors. destruct (f _) as [a c]. split_and!; [done..|]. cbn. by rewrite app_nil_r. Qed.

Lemma frame_transactions {A} (f : transactionCache TC G -> A * transactionCache TC G) st :
  frame [] st (set_m (snd (with_transactions f (rt_m st))) st).
Proof. unfold with_transactions. destruct (f _) as [a t]. split_and!; [done..|]. cbn. by rewrite app_nil_r. Qed.

Lemma frame_process err srv conn st :
  frame [EProcess srv conn (errorChangesTopology err)] st (processError err srv conn st).
Proof. apply frame_call. Qed.

Lemma frame_sleep d st : frame [ESleep d] st (run_sleep d st).
Proof. apply frame_call. Qed.

Lemma frame_session l st st' ref : frame l st st' -> session_at ref st' = session_at ref st.
Proof. intros (E & _). unfold session_at. by rewrite E. Qed.

Lemma frame_peek_cursor cid coll st : frame [] st (snd (peek_cursor cid coll st)).
Proof.
  unfold peek_cursor. pose proof (frame_cursors (fun c =>
    let '(server, ok, c) := cursor_peek cid coll (now st) c in ((server, ok), c)) st) as H.
  by destruct (with_cursors _ _) as [[server ok] m].
Qed.

Lemma frame_peek_transaction lsid st : frame [] st (snd (peek_transaction lsid st)).
Proof.
  unfold peek_transaction. pose proof (frame_transactions (fun t =>
    let '(server, ok, t) := transaction_peek lsid (now st) t in ((server, ok), t)) st) as H.
  by destruct (with_transactions _ _) as [[server ok] m].
Qed.

(** The server is chosen with at most one question to the topology. *)
Lemma frame_select_cursor cid coll st :
  exists l, frame l st (snd (select_cursor_or_topology cid coll st)) /\ (l = [] \/ l = [ESelect]).
Proof.
  unfold select_cursor_or_topology, select_from_topology. pose proof (frame_peek_cursor cid coll st) as Hp.
  destruct (cid =? 0)%Z.
  - destruct (SelectServer _) as [r w]. exists [ESelect]. split; [apply frame_call|by right].
  - destruct (peek_cursor cid coll st) as [[server ok] st1]. cbn in Hp. destruct ok; [by eauto|].
    destruct (SelectServer _) as [r w]. exists [ESelect]. split; [|by right].
    exact (frame_trans [] [ESelect] _ _ _ Hp (frame_call _ _ _)).
Qed.

Lemma frame_selectServer cid coll td op st :
  exists l, frame l st (snd (selectServer cid coll td op st)) /\ (l = [] \/ l = [ESelect]).
Proof.
  unfold selectServer, finish_select. destruct td as [td|]; cbn zeta.
  - pose proof (frame_peek_transaction (td_LsID td) st) as Hp.
    destruct (peek_transaction (td_LsID td) st) as [[server ok] st1]. cbn in Hp. destruct ok.
    + exists []. split; [|by left]. exact (frame_nil _ _ _ _ Hp (frame_emit _ _)).
    + destruct (frame_select_cursor cid coll st1) as (l & Hl & Hc). destruct (select_cursor_or_topology _ _ _) as [r st2].
      exists l. split; [|done]. exact (frame_trans [] l _ _ _ Hp (frame_nil _ _ _ _ Hl (frame_emit _ _))).
  - destruct (frame_select_cursor cid coll st) as (l & Hl & Hc). destruct (select_cursor_or_topology _ _ _) as [r st2].
    exists l. split; [|done]. exact (frame_nil _ _ _ _ Hl (frame_emit _ _)).
Qed.

(** A checkout opens a connection only when it succeeds with one that is not pinned. *)
Definition pinned_of (session : option SessRef) st : option DriverConnRef :=
  match session with
  | Some ref => match session_at ref st with Some s => GetPinnedConnection s | None => None end
  | None => None
  end.

Lemma frame_checkout srv db session st :
  let r := fst (checkoutConnection (Some srv) db session st) in
  let st' := snd (checkoutConnection (Some srv) db session st) in
  frame (match r, pinned_of session st with Ok conn, None => [EOpen srv conn] | _, _ => [] end) st st' /\
  (forall c, pinned_of session st = Some c -> r = Ok c).
Proof.
  unfold checkoutConnection, finish_checkout, open_connection, pinned_of. cbn zeta. destruct session as [ref|].
  - destruct (session_at ref st) as [s|]; [|split; [apply frame_emit|done]].
    destruct (GetPinnedConnection s) as [c|]; [split; [apply frame_emit|cbn; congruence]|].
    destruct (Server_Connection srv (rt_w st)) as [r w]. split; [|done].
    destruct r; (eapply frame_nil; [apply frame_call|apply frame_emit]).
  - destruct (Server_Connection srv (rt_w st)) as [r w]. split; [|done].
    destruct r; (eapply frame_nil; [apply frame_call|apply frame_emit]).
Qed.

(** An exchange is one write and at most one read, on its connection. *)
Lemma frame_roundTrip conn req unack st :
  exists l, frame (EWrite conn req :: l) st (snd (roundTrip conn req unack st)) /\ (l = [] \/ l = [ERead conn]).
Proof.
  unfold roundTrip, finish_exchange, write_message, read_message. cbn zeta.
  destruct (WriteWireMessage conn req (rt_w st)) as [[err|] w].
  { exists []. split; [|by left]. eapply frame_nil; [apply frame_call|apply frame_emit]. }
  destruct unack.
  { exists []. split; [|by left]. eapply frame_nil; [apply frame_call|apply frame_emit]. }
  destruct (ReadWireMessage conn _) as [r w']. exists [ERead conn]. split; [|by right].
  assert (frame [EWrite conn req; ERead conn] st (record_call w' [ERead conn] (record_call w [EWrite conn req] st))) as H.
  { exact (frame_trans [EWrite conn req] [ERead conn] _ _ _ (frame_call _ _ _) (frame_call _ _ _)). }
  destruct r; exact (frame_nil _ _ _ _ H (frame_emit _ _)).
Qed.

Lemma frame_track_cursor reply srv cid coll st : frame [] st (track_cursor reply srv cid coll st).
Proof.
  unfold track_cursor. destruct (om_CursorID _) as [rid ok]. destruct (negb ok); [apply frame_refl|].
  destruct (rid =? 0)%Z.
  - destruct (cid =? 0)%Z; [apply frame_refl|apply frame_cursors].
  - cbn zeta. eapply frame_nil; [|apply frame_emit]; apply frame_cursors.
Qed.

Lemma frame_track_transaction op cmd coll td srv st : frame [] st (track_transaction op cmd coll td srv st).
Proof.
  unfold track_transaction. destruct td as [td|]; [|apply frame_refl].
  destruct (td_IsStartTransaction td); [apply frame_transactions|].
  case_decide; [|apply frame_refl]. eapply frame_nil; [|apply frame_emit]; apply frame_transactions.
Qed.

(** ** How much an attempt does *)

(** No waiting, at most [o] connections opened and [n] writes, all of the request. *)
Definition within (req : list byte) (o n : nat) (l : list event) : Prop :=
  sleeps l = [] /\ length (opens l) <= o /\ length (writes l) <= n /\ Forall (fun x => snd x = req) (writes l).

Lemma within_app req o n o' n' l l' : within req o n l -> within req o' n' l' -> within req (o + o') (n + n') (l ++ l').
Proof.
  intros (S1 & O1 & W1 & F1) (S2 & O2 & W2 & F2). unfold within, sleeps, opens, writes in *.
  rewrite !omap_app, !length_app, S1, S2. split_and!; [done|lia|lia|]. by apply Forall_app.
Qed.

Lemma within_weaken req o n o' n' l : within req o n l -> o <= o' -> n <= n' -> within req o' n' l.
Proof. intros (S & O & Wr & F) ??. split_and!; [done|lia|lia|done]. Qed.

(** A statement of attempt [k]: what it adds to the trace, with the wait at the
    end of it if it goes to the next attempt, which is then not the last. *)
Definition grows {A} (req : list byte) (k o n : nat) (c : prog A) : Prop := forall st, exists l,
  match c st with
  | (Retry, st') => rt_trace st' = rt_trace st ++ l ++ [ESleep (delay k)] /\ k < maxRetries
  | (_, st') => rt_trace st' = rt_trace st ++ l
  end /\ within req o n l.

Lemma within_nil req : within req 0 0 [].
Proof. by split_and!. Qed.

Lemma grows_bind {A B} req k o n o' n' (c : prog A) (f : A -> prog B) :
  grows req k o n c -> (forall a, grows req k o' n' (f a)) -> grows req k (o + o') (n + n') (mbind c f).
Proof.
  intros Hc Hf st. unfold mbind. destruct (Hc st) as (l & Hl & Hw).
  destruct (c st) as [[a| |r] st'].
  - destruct (Hf a st') as (l' & Hl' & Hw'). exists (l ++ l'). split; [|by apply within_app].
    destruct (f a st') as [[?| |?] ?]; rewrite Hl, <- !app_assoc in Hl'; by rewrite <- ?app_assoc.
  - exists l. split; [done|]. eapply within_weaken; [done|lia..].
  - exists l. split; [done|]. eapply within_weaken; [done|lia..].
Qed.

Lemma grows_quiet {A} req k (c : prog A) :
  (forall st, match c st with (Retry, _) => False | (_, st') => rt_trace st' = rt_trace st end) -> grows req k 0 0 c.
Proof.
  intros Hc st. exists []. split; [|apply within_nil]. specialize (Hc st).
  destruct (c st) as [[]]; cbn; rewrite ?app_nil_r; done.
Qed.

Lemma grows_weaken {A} req k o n o' n' (c : prog A) : grows req k o n c -> o <= o' -> n <= n' -> grows req k o' n' c.
Proof. intros Hc ?? st. destruct (Hc st) as (l & Hl & Hw). exists l. split; [done|]. by eapply within_weaken. Qed.

Lemma grows_retry {A} req k err : grows (A := A) req k 0 0 (retry_or k err).
Proof.
  intros st. exists []. split; [|apply within_nil]. unfold retry_or.
  destruct (Nat.ltb_spec k maxRetries); cbn; rewrite ?app_nil_r; done.
Qed.

Lemma within_select req l : l = [] \/ l = [ESelect] -> within req 0 0 l.
Proof. intros [-> | ->]; by split_and!. Qed.

Lemma grows_choose req k cid coll td session op : grows req k 0 0 (choose_server k cid coll td session op).
Proof.
  unfold choose_server.
  assert (grows req k 0 0 (fun st : ST =>
      match selectServer cid coll td op st with
      | (Ok server, st) => (Next server, st)
      | (Fail err, st) =>
          mbind (do_metrics [Incr "error" (error_tags (parsed_database coll) "server_selection_error")])
            (fun _ => retry_or k err) st
      | (Crash why, st) => (Done (Crash why), st)
      end)) as Hsel.
  { intros st. destruct (frame_selectServer cid coll td op st) as (l & (_ & _ & Hl) & Hc).
    destruct (selectServer cid coll td op st) as [[server|err|why] st']; cbn [snd] in Hl; exists l;
      (split; [|by apply within_select]); try done.
    unfold mbind, do_metrics, retry_or, run_sleep. destruct (Nat.ltb_spec k maxRetries); cbn; rewrite Hl; [|done].
    split; [|lia]. by rewrite <- app_assoc. }
  destruct td as [td|]; [|done]. destruct session as [ref|]; [|done].
  apply (grows_bind _ _ 0 0 0 0).
  { apply grows_quiet. intros st. unfold deref. by destruct (session_at ref st). }
  intros s. destruct (GetPinnedServer s); [by apply grows_quiet|]. intros st.
  destruct (frame_selectServer cid coll (Some td) op st) as (l & (_ & _ & Hl) & Hc).
  destruct (selectServer cid coll (Some td) op st) as [[server|err|why] st']; cbn [snd] in Hl; exists l;
    (split; [done|by apply within_select]).
Qed.

Lemma grows_get_connection req k srv db coll session : grows req k 1 0 (get_connection k srv db coll session).
Proof.
  intros st. unfold get_connection. destruct (frame_checkout srv db session st) as [(_ & _ & Hl) _].
  destruct (checkoutConnection (Some srv) db session st) as [[conn|err|why] st']; cbn [fst snd] in Hl.
  - eexists. split; [exact Hl|]. destruct (pinned_of session st); [by split_and!; auto with lia|]. split_and!; cbn; auto.
  - exists []. split; [|by split_and!; cbn; auto with lia]. rewrite app_nil_r in Hl.
    unfold mbind, do_metrics, retry_or, run_sleep. destruct (Nat.ltb_spec k maxRetries); cbn; rewrite Hl, ?app_nil_r; done.
  - eexists. split; [exact Hl|]. by split_and!; auto with lia.
Qed.

Lemma session_call_trace f st :
  match session_call f st with (Retry, _) => False | (_, st') => rt_trace st' = rt_trace st end.
Proof.
  unfold session_call, on_sessions. destruct (with_sessions _ _) as [r m]. by destruct r.
Qed.

Lemma grows_transaction_state req k srv conn cmd td session : grows req k 0 0 (transaction_state srv conn cmd td session).
Proof.
  unfold transaction_state. destruct session as [ref|]; [|by apply grows_quiet]. destruct td as [td|]; [|by apply grows_quiet].
  assert (forall f, grows req k 0 0 (session_call f : prog unit)) as Hcall by (intros; apply grows_quiet, session_call_trace).
  apply (grows_bind _ _ 0 0 0 0); [destruct (td_IsStartTransaction td); [done|by apply grows_quiet]|]. intros _.
  repeat case_decide; try (apply (grows_bind _ _ 0 0 0 0); [done|]; intros _); by apply grows_quiet.
Qed.

Lemma grows_exchange req k srv conn unack : grows req k 0 1 (exchange k srv conn req unack).
Proof.
  intros st. unfold exchange. destruct (frame_roundTrip conn req unack st) as (l & (_ & _ & Hl) & Hc).
  assert (within req 0 1 (EWrite conn req :: l)) as Hw by (destruct Hc as [-> | ->]; split_and!; cbn; auto).
  destruct (roundTrip conn req unack st) as [[res|err|why] st']; cbn [snd] in Hl.
  - by exists (EWrite conn req :: l).
  - exists ((EWrite conn req :: l) ++ [EProcess srv conn (errorChangesTopology err)]). split.
    + unfold run_sleep, processError. destruct (Nat.ltb_spec k maxRetries); [|cbn; by rewrite Hl, <- app_assoc].
      destruct (isRetryableError err); cbn; rewrite Hl, <- !app_assoc; done.
    + apply (within_app req 0 1 0 0); [done|]. by split_and!.
  - by exists (EWrite conn req :: l).
Qed.

Lemma grows_decode req k res : grows req k 0 0 (decode_reply (W := W) (G := G) (CC := CC) (TC := TC) k res).
Proof. unfold decode_reply. destruct (Decode res); [by apply grows_quiet|apply grows_retry|by apply grows_quiet..]. Qed.

(** The error of a reply is reported, the caches follow the reply. *)
Lemma frame_reply reply srv conn op td st :
  exists l, frame l st
    (let st1 := match om_Error (op_methods reply) with Some opErr => processError opErr srv conn st | None => st end in
     let st2 := track_cursor reply srv (om_CursorID (op_methods op)).1 (om_CommandAndCollection (op_methods op)).2 st1 in
     track_transaction op (om_CommandAndCollection (op_methods op)).1 (om_CommandAndCollection (op_methods op)).2 td srv st2) /\
    (l = [] \/ exists b, l = [EProcess srv conn b]).
Proof.
  cbn zeta. destruct (om_Error (op_methods reply)) as [e|].
  - eexists. split; [|by right; eexists]. eapply frame_nil; [|apply frame_track_transaction].
    eapply frame_nil; [|apply frame_track_cursor]. apply frame_process.
  - exists []. split; [|by left]. eapply frame_nil; [|apply frame_track_transaction]. apply frame_track_cursor.
Qed.

Lemma grows_talk req op td k srv conn : grows req k 0 1 (talk k srv conn req op td).
Proof.
  unfold talk. cbn zeta. destruct (negb _); [apply (grows_weaken _ _ 0 0); [apply grows_retry|lia..]|].
  apply (grows_bind _ _ 0 1 0 0); [apply grows_exchange|]. intros res.
  destruct (om_Unacknowledged _); [by apply grows_quiet|].
  apply (grows_bind _ _ 0 0 0 0); [apply grows_decode|]. intros reply st.
  destruct (frame_reply reply srv conn op td st) as (l & (_ & _ & Hl) & Hc). exists l. split; [exact Hl|].
  destruct Hc as [-> | [b ->]]; by split_and!.
Qed.

Lemma grows_attempt req op td session k : grows req k 1 1 (attempt_once k req op td session).
Proof.
  unfold attempt_once. cbn zeta.
  apply (grows_bind _ _ 0 0 1 1); [apply grows_choose|]. intros server.
  apply (grows_bind _ _ 0 0 1 1); [by apply grows_quiet|]. intros _.
  apply (grows_bind _ _ 0 0 1 1); [by apply grows_quiet|]. intros _. destruct server as [srv|].
  2: { apply (grows_weaken _ _ 0 0); [by apply grows_quiet|lia..]. }
  apply (grows_bind _ _ 1 0 0 1); [apply grows_get_connection|]. intros conn.
  apply (grows_bind _ _ 0 0 0 1); [apply grows_transaction_state|]. intros isCA.
  apply (grows_bind _ _ 0 0 0 1); [by apply grows_quiet|]. intros _. apply grows_talk.
Qed.

(** ** The loop *)

Lemma loop_grows req op td session tries k st :
  tries + k = S maxRetries ->
  let st' := snd (retry_loop tries k (fun attempt => attempt_once attempt req op td session) st) in
  exists l n, rt_trace st' = rt_trace st ++ l /\
    sleeps l = take n (drop k delays) /\ length (opens l) <= tries /\ length (writes l) <= tries /\
    Forall (fun x => snd x = req) (writes l).
Proof.
  cbn zeta. revert k st. induction tries as [|tries IH]; intros k st Hk; cbn [retry_loop].
  { exists [], 0. rewrite app_nil_r. split_and!; cbn; auto. }
  destruct (grows_attempt req op td session k st) as (l & Hl & Hs & Ho & Hw & Hf).
  destruct (attempt_once k req op td session st) as [[msg| |r] st'].
  1, 3: exists l, 0; cbn; split_and!; [done|done|lia|lia|done].
  destruct Hl as [Hl Hlt]. destruct (IH (S k) st') as (l' & n & Hl' & Hs' & Ho' & Hw' & Hf'); [lia|].
  exists (l ++ [ESleep (delay k)] ++ l'), (S n). unfold sleeps, opens, writes in *.
  rewrite !omap_app, !length_app, Hs, Hs'. cbn [omap list_omap app length]. split_and!.
  - rewrite Hl', Hl, <- !app_assoc. done.
  - destruct k as [|[|[|k]]]; cbn; [done..|unfold maxRetries in *; lia].
  - lia.
  - lia.
  - apply Forall_app. by split.
Qed.

(** The deferred calls only close connections. *)
Lemma defers_trace session ds st :
  exists cs, rt_trace (run_defers session ds st) = rt_trace st ++ map EClose cs.
Proof.
  revert st. induction ds as [|d ds IH]; intros st; cbn; [exists []; by rewrite app_nil_r|].
  destruct (IH (run_deferred session d st)) as (cs & Hcs). unfold run_defers in *. rewrite Hcs.
  assert (exists c, rt_trace (run_deferred session d st) = rt_trace st ++ map EClose c) as [c ->].
  { assert (forall f st0, rt_trace (snd (on_sessions (A := outcome unit) f st0)) = rt_trace st0) as Hons.
    { intros f st0. unfold on_sessions. by destruct (with_sessions _ _). }
    assert (forall c st0, rt_trace (close_conn c st0) = rt_trace st0 ++ map EClose [c]) as Hclose.
    { intros c st0. unfold close_conn. by destruct (Conn_Close _ _). }
    destruct d as [ref|c isCA]; cbn.
    - exists []. cbn. by rewrite app_nil_r, Hons.
    - destruct isCA; destruct session as [ref|]; rewrite ?Hons.
      + by exists [c].
      + by exists [c].
      + destruct (session_at ref st) as [s|]; [destruct (IsTransactionActive s); [|by exists [c]]|];
          exists []; by rewrite app_nil_r.
      + by exists [c]. }
  exists (c ++ cs). by rewrite map_app, app_assoc.
Qed.

Lemma closes_only cs : sleeps (map EClose cs) = [] /\ opens (map EClose cs) = [] /\ writes (map EClose cs) = [].
Proof. induction cs as [|c cs (H1 & H2 & H3)]; [done|]. cbn. by split_and!. Qed.

(** Nothing before the loop shows in the trace. *)
Lemma start_trace td st : rt_trace (snd (start_session td st)) = rt_trace st.
Proof.
  unfold start_session, request_session, on_sessions. destruct td as [td|]; [|done].
  destruct (with_sessions _ _) as [[ref|] m]; [done|]. by destruct (with_sessions _ _).
Qed.

Lemma health_trace st : rt_trace (health_gate st) = rt_trace st.
Proof.
  unfold health_gate. destruct (IsHealthy _ _); [done|]. destruct (CheckHealth _ _) as [[? ?] ?]. cbn. by rewrite app_nil_r.
Qed.

(** The trace of a call is the trace of its attempts and then the deferred closes. *)
Lemma RoundTrip_trace msg tags m w :
  exists l cs, rt_trace (snd (RoundTrip msg tags m w)) = l ++ map EClose cs /\
    (l = [] \/ exists op td session st, msg_Op msg = Some op /\ rt_trace st = [] /\
       l = rt_trace (snd (retry_loop (S maxRetries) 0 (fun attempt => attempt_once attempt (msg_Wm msg) op td session) st))).
Proof.
  unfold RoundTrip. destruct (negb (mg_client m)); [exists [], []; auto|].
  destruct (msg_Op msg) as [op|] eqn:Eop; cbn [snd].
  2: { exists [], []. rewrite health_trace. auto. }
  destruct (start_session (om_TransactionDetails (op_methods op)) (health_gate (start_state m w tags))) as [session st] eqn:Es.
  pose proof (start_trace (om_TransactionDetails (op_methods op)) (health_gate (start_state m w tags))) as Ht.
  rewrite Es, health_trace in Ht. cbn in Ht. unfold serve.
  destruct (retry_loop _ 0 _ st) as [r st'] eqn:El. cbn [snd].
  destruct (defers_trace session (rt_defers st') st') as (cs & Hcs). exists (rt_trace st'), cs.
  split; [done|]. right. exists op, (om_TransactionDetails (op_methods op)), session, st. by rewrite El.
Qed.

(** Whatever the driver answers, a round trip writes the request's bytes and
    nothing else, at most four times, opens at most four connections, and
    between its attempts waits 100, 200 and 400 milliseconds, in this order and
    never longer. *)
Theorem RoundTrip_bounded msg tags m w :
  let tr := rt_trace (snd (RoundTrip msg tags m w)) in
  (exists k, sleeps tr = take k [100000000; 200000000; 400000000]%Z) /\
  length (writes tr) <= 4 /\ Forall (fun x => snd x = msg_Wm msg) (writes tr) /\ length (opens tr) <= 4.
Proof.
  cbn zeta. destruct (RoundTrip_trace msg tags m w) as (l & cs & -> & Hl).
  destruct (closes_only cs) as (E1 & E2 & E3). unfold sleeps, opens, writes in *. rewrite !omap_app, E1, E2, E3, !app_nil_r.
  destruct Hl as [-> | (op & td & session & st & _ & Ht & ->)]; [split_and!; cbn; auto with lia; by exists 0|].
  destruct (loop_grows (msg_Wm msg) op td session (S maxRetries) 0 st eq_refl) as (l & n & Hl & Hs & Ho & Hw & Hf).
  rewrite Hl, Ht. split_and!; [by exists n|done|done|done].
Qed.

(** The last attempt never asks for another one, so the retry loop always
    returns from its body and the error after the loop is never returned. *)
Theorem last_attempt_returns wm op td session st :
  fst (attempt_once maxRetries wm op td session st) <> Retry.
Proof.
  destruct (grows_attempt wm op td session maxRetries st) as (l & Hl & _).
  destruct (attempt_once maxRetries wm op td session st) as [[| |] ?]; cbn; [done| |done]. by destruct Hl as [_ ?%Nat.lt_irrefl].
Qed.

(** ** Which events a statement can cause *)

Definition framed {A} (Q : event -> Prop) (c : prog A) : Prop :=
  forall st, exists l, frame l st (snd (c st)) /\ Forall Q l.

Lemma framed_bind {A B} Q (c : prog A) (f : A -> prog B) :
  framed Q c -> (forall a, framed Q (f a)) -> framed Q (mbind c f).
Proof.
  intros Hc Hf st. unfold mbind. destruct (Hc st) as (l & Hl & HQ). destruct (c st) as [[a| |r] st']; [|by eauto..].
  destruct (Hf a st') as (l' & Hl' & HQ'). exists (l ++ l'). split; [by eapply frame_trans|]. by apply Forall_app.
Qed.

Lemma framed_retry {A} (Q : event -> Prop) k err : (forall d, Q (ESleep d)) -> framed (A := A) Q (retry_or k err).
Proof.
  intros HQ st. unfold retry_or. destruct (k <? maxRetries)%nat; cbn [snd].
  - exists [ESleep (delay k)]. split; [apply frame_sleep|auto].
  - exists []. split; [apply frame_refl|done].
Qed.

(** Choosing a server only asks the topology. *)
Definition selecting (e : event) : Prop := match e with ESelect | ESleep _ => True | _ => False end.

(** Traffic of request [req] on connection [c] to server [srv], and waiting. *)
Definition on_conn (srv : ServerRef) (c : DriverConnRef) (req : list byte) (e : event) : Prop :=
  match e with
  | EWrite c' wm => c' = c /\ wm = req
  | ERead c' => c' = c
  | EProcess srv' c' _ => srv' = srv /\ c' = c
  | ESleep _ => True
  | _ => False
  end.

Lemma framed_choose k cid coll td session op : framed selecting (choose_server k cid coll td session op).
Proof.
  assert (forall l, l = [] \/ l = [ESelect] -> Forall selecting l) as Hsel by (intros l [-> | ->]; repeat constructor).
  assert (framed selecting (fun st : ST =>
      match selectServer cid coll td op st with
      | (Ok server, st) => (Next server, st)
      | (Fail err, st) =>
          mbind (do_metrics [Incr "error" (error_tags (parsed_database coll) "server_selection_error")])
            (fun _ => retry_or k err) st
      | (Crash why, st) => (Done (Crash why), st)
      end)) as Hplain.
  { intros st. destruct (frame_selectServer cid coll td op st) as (l & Hl & Hc).
    destruct (selectServer cid coll td op st) as [[server|err|why] st']; cbn [snd] in Hl; [by eauto| |by eauto].
    destruct (framed_retry (A := option ServerRef) selecting k err ltac:(done)
      (emit_st [Incr "error" (error_tags (parsed_database coll) "server_selection_error")] st')) as (l' & Hl' & HQ).
    exists (l ++ l'). split; [|apply Forall_app; eauto]. exact (frame_trans _ _ _ _ _ Hl Hl'). }
  unfold choose_server. destruct td as [td|]; [|done]. destruct session as [ref|]; [|done].
  apply framed_bind.
  { intros st. exists []. split; [|done]. unfold deref. destruct (session_at ref st); apply frame_refl. }
  intros s. destruct (GetPinnedServer s); [intros st; exists []; split; [apply frame_refl|done]|].
  intros st. destruct (frame_selectServer cid coll (Some td) op st) as (l & Hl & Hc).
  destruct (selectServer cid coll (Some td) op st) as [[server|err|why] st']; cbn [snd] in Hl; by eauto.
Qed.

Lemma framed_talk req op td k srv conn : framed (on_conn srv conn req) (talk k srv conn req op td).
Proof.
  unfold talk. cbn zeta. destruct (negb _); [by apply framed_retry|]. apply framed_bind.
  - intros st. unfold exchange. destruct (frame_roundTrip conn req (om_Unacknowledged (op_methods op)) st) as (l & Hl & Hc).
    assert (Forall (on_conn srv conn req) (EWrite conn req :: l)) as HQ by (destruct Hc as [-> | ->]; repeat constructor).
    destruct (roundTrip _ _ _ st) as [[res|err|why] st']; cbn [snd] in Hl; [by eauto| |by eauto].
    pose proof (frame_trans _ _ _ _ _ Hl (frame_process err srv conn st')) as Hp.
    destruct (_ && _); cbn [snd].
    + eexists. split; [exact (frame_trans _ _ _ _ _ Hp (frame_sleep _ _))|].
      rewrite <- app_assoc. apply Forall_app. split; [done|]. repeat constructor.
    + eexists. split; [exact Hp|]. apply Forall_app. split; [done|]. repeat constructor.
  - intros res. destruct (om_Unacknowledged _); [intros st; exists []; split; [apply frame_refl|done]|].
    apply framed_bind.
    + unfold decode_reply. destruct (Decode res); [|by apply framed_retry|..]; intros st; exists [];
        (split; [apply frame_refl|done]).
    + intros reply st. destruct (frame_reply reply srv conn op td st) as (l & Hl & Hc). exists l. split; [exact Hl|].
      destruct Hc as [-> | [b ->]]; repeat constructor.
Qed.

Lemma Forall_omap {A B} (f : A -> option B) (Q : A -> Prop) l :
  (forall x, Q x -> f x = None) -> Forall Q l -> omap f l = [].
Proof. intros Hf. induction 1 as [|x l Hx _ IH]; [done|]. cbn. rewrite (Hf x Hx). exact IH. Qed.

Lemma selecting_quiet l : Forall selecting l -> opens l = [] /\ closes l = [].
Proof. intros H. split; (apply (Forall_omap _ selecting); [|done]); by intros []. Qed.

Lemma on_conn_quiet srv c req l : Forall (on_conn srv c req) l -> opens l = [] /\ closes l = [].
Proof. intros H. split; (apply (Forall_omap _ (on_conn srv c req)); [|done]); by intros []. Qed.

(** ** Requests outside a transaction *)

(** The connections opened so far are the ones deferred for closing, none of them closed yet. *)
Definition balanced st : Prop := exists cs,
  rt_defers st = map (fun c => DClose c false) cs /\ opens (rt_trace st) = rev cs /\ closes (rt_trace st) = [].

Lemma balanced_frame l st st' : frame l st st' -> opens l = [] -> closes l = [] -> balanced st -> balanced st'.
Proof.
  intros (_ & Hd & Ht) Ho Hc (cs & H1 & H2 & H3). exists cs. unfold opens, closes in *.
  rewrite Hd, Ht, !omap_app, Ho, Hc, !app_nil_r. done.
Qed.

Lemma triple_framed {A} (P : ST -> Prop) Q (c : prog A) :
  framed Q c -> (forall l st st', frame l st st' -> Forall Q l -> P st -> P st') -> triple P c (fun _ => P) P (fun _ => P).
Proof.
  intros Hc HP st H. destruct (Hc st) as (l & Hl & HQ). pose proof (HP _ _ _ Hl HQ H) as H'.
  by destruct (c st) as [[| |] st'].
Qed.

Lemma balanced_attempt k wm op : triple balanced (attempt_once k wm op None None) (fun _ => balanced) balanced (fun _ => balanced).
Proof.
  unfold attempt_once. cbn zeta. eapply triple_bind.
  { eapply triple_framed; [apply framed_choose|]. intros l st st' Hf HQ. apply selecting_quiet in HQ as [].
    by eapply balanced_frame. }
  cbn beta. intros server. eapply (triple_bind _ _ _ _ (fun _ => balanced)); [by intros st H|].
  cbn beta. intros _. eapply (triple_bind _ _ _ _ (fun _ => balanced)); [by intros st H|].
  cbn beta. intros _. destruct server as [srv|]; [|by intros st H].
  intros st H. unfold mbind at 1, get_connection.
  set (db := op_database op (om_CommandAndCollection (op_methods op)).2 parsed_database).
  destruct (frame_checkout srv db None st) as [Hf _]. cbn zeta in Hf.
  destruct (checkoutConnection (Some srv) db None st) as [[conn|err|why] st1]; cbn [fst snd pinned_of] in Hf.
  - unfold mbind, transaction_state, go_on. cbn [fst snd].
    set (st2 := push_defer (DClose conn false) (add_tag _ st1)).
    assert (balanced st2) as H2.
    { destruct H as (cs & H1 & H2 & H3). destruct Hf as (_ & Hd & Ht). exists (conn :: cs). unfold opens, closes in *. cbn.
      by rewrite Hd, Ht, H1, !omap_app, H2, H3. }
    pose proof (triple_framed balanced _ _ (framed_talk wm op None k srv conn)) as Ht.
    apply Ht; [|done]. intros l s s' Hfr HQ. apply on_conn_quiet in HQ as []. by eapply balanced_frame.
  - pose proof (balanced_frame _ _ _ (frame_nil _ _ _ _ Hf
      (frame_emit [Incr "error" (error_tags (split_database (om_CommandAndCollection (op_methods op)).2) "connection_checkout_error")] st1))
      eq_refl eq_refl H) as H'.
    pose proof (triple_framed balanced _ _ (framed_retry (A := DriverConnRef) selecting k err ltac:(done))) as Hr.
    unfold mbind, do_metrics. specialize (Hr ltac:(intros l s s' Hfr HQ; apply selecting_quiet in HQ as []; by eapply balanced_frame) _ H').
    unfold retry_or in *. by destruct (k <? maxRetries)%nat.
  - exact (balanced_frame _ _ _ Hf eq_refl eq_refl H).
Qed.

Lemma loop_triple (I : ST -> Prop) body tries k st :
  (forall k, triple I (body k) (fun _ => I) I (fun _ => I)) -> I st -> I (snd (retry_loop tries k body st)).
Proof.
  intros Hb. revert k st. induction tries as [|tries IH]; intros k st H; cbn; [done|].
  specialize (Hb k st H). destruct (body k st) as [[| |] st']; [done| |done]. by apply IH.
Qed.

Lemma run_plain_closes cs st :
  rt_trace (run_defers None (map (fun c => DClose c false) cs) st) = rt_trace st ++ map EClose cs.
Proof.
  revert st. induction cs as [|c cs IH]; intros st; cbn; [by rewrite app_nil_r|].
  unfold run_defers in IH. rewrite IH. unfold close_conn. destruct (Conn_Close _ _). cbn. by rewrite <- app_assoc.
Qed.

(** A request outside a transaction gives back what it takes: every
    connection it opened, on whatever attempt, is closed exactly once, when the
    call returns and not before, the last one first.  The connections of failed
    attempts stay out while the next attempts ask for more. *)
Theorem plain_connections_closed msg tags m w :
  (forall op, msg_Op msg = Some op -> om_TransactionDetails (op_methods op) = None) ->
  exists pre, rt_trace (snd (RoundTrip msg tags m w)) = pre ++ map EClose (rev (opens pre)) /\ closes pre = [].
Proof.
  intros Htd. unfold RoundTrip. destruct (negb (mg_client m)); [by exists []|].
  destruct (msg_Op msg) as [op|] eqn:Eop; [|exists []; cbn [snd]; by rewrite health_trace].
  rewrite (Htd op eq_refl). cbn [start_session]. unfold serve.
  set (st0 := health_gate _). assert (balanced st0) as H0.
  { exists []. unfold st0. rewrite health_trace. split_and!; [|done..].
    unfold health_gate. destruct (IsHealthy _ _); [done|]. by destruct (CheckHealth _ _) as [[? ?] ?]. }
  pose proof (loop_triple balanced _ (S maxRetries) 0 st0 (fun k => balanced_attempt k (msg_Wm msg) op) H0) as (cs & H1 & H2 & H3).
  destruct (retry_loop _ _ _ st0) as [r st]. cbn [snd] in *. rewrite H1, run_plain_closes.
  exists (rt_trace st). split; [|done]. by rewrite H2, rev_involutive.
Qed.

(** Everything outside a transaction is a frame, up to the deferred calls. *)
Lemma plain_attempt_sessions k wm op st : mg_sessions (rt_m (snd (attempt_once k wm op None None st))) = mg_sessions (rt_m st).
Proof.
  unfold attempt_once. cbn zeta. unfold mbind at 1.
  destruct (framed_choose k (om_CursorID (op_methods op)).1 (om_CommandAndCollection (op_methods op)).2 None None op st) as (l & (Hs & _) & _).
  destruct (choose_server _ _ _ _ _ _ st) as [[server| |r] st1]; cbn [snd] in Hs; [|done..].
  unfold mbind at 1 2, do_metrics. set (st2 := set_m _ _).
  assert (mg_sessions (rt_m st2) = mg_sessions (rt_m st)) as Hs2.
  { unfold st2, UpdatePoolMetricsForDatabase. cbn. rewrite <- Hs. by case_match. }
  destruct server as [srv|]; [|done]. unfold mbind at 1, get_connection. set (db := op_database _ _ _).
  destruct (frame_checkout srv db None st2) as [(Hs3 & _) _].
  destruct (checkoutConnection (Some srv) db None st2) as [[conn|err|why] st3]; cbn [fst snd] in Hs3; [|unfold mbind, do_metrics, retry_or; destruct (k <? maxRetries)%nat; cbn; congruence|cbn; congruence].
  unfold mbind, transaction_state, go_on. destruct (framed_talk wm op None k srv conn
    (push_defer (DClose conn false) (add_tag ("address:" +:+ Conn_Address conn) st3))) as (l4 & (Hs4 & _) & _).
  cbn in Hs4. congruence.
Qed.

(** A request that carries no transaction details leaves every session as it
    is: in particular an [endSessions] command without a transaction number
    never ends the session it names. *)
Theorem plain_request_keeps_sessions msg tags m w :
  (forall op, msg_Op msg = Some op -> om_TransactionDetails (op_methods op) = None) ->
  mg_sessions (rt_m (snd (RoundTrip msg tags m w))) = mg_sessions m.
Proof.
  intros Htd. unfold RoundTrip. destruct (negb (mg_client m)); [done|].
  assert (mg_sessions (rt_m (health_gate (start_state m w tags))) = mg_sessions m) as Hh.
  { unfold health_gate, CheckHealth. destruct (IsHealthy _ _); [done|]. destruct (mg_healthStats _); [|done].
    by destruct (Client_Ping _) as [[?|] ?]. }
  destruct (msg_Op msg) as [op|]; [|done]. rewrite (Htd op eq_refl). cbn [start_session]. unfold serve.
  set (st0 := health_gate _) in *.
  set (I := fun st : ST => mg_sessions (rt_m st) = mg_sessions m /\ balanced st).
  assert (I (snd (retry_loop (S maxRetries) 0 (fun k => attempt_once k (msg_Wm msg) op None None) st0))) as [Hs (cs & Hd & _)].
  { apply loop_triple.
    - intros k st [H1 H2]. pose proof (plain_attempt_sessions k (msg_Wm msg) op st) as Hs.
      pose proof (balanced_attempt k (msg_Wm msg) op st H2) as Hb.
      destruct (attempt_once _ _ _ _ _ st) as [[| |] st']; cbn [snd] in Hs; (split; [congruence|done]).
    - split; [done|]. exists []. unfold st0. rewrite health_trace. split_and!; [|done..].
      unfold health_gate. destruct (IsHealthy _ _); [done|]. by destruct (CheckHealth _ _) as [[? ?] ?]. }
  destruct (retry_loop _ _ _ st0) as [r st]. cbn [snd] in *. rewrite Hd, <- Hs. clear.
  revert st. induction cs as [|c cs IH]; intros st; cbn; [done|]. unfold run_defers in IH. rewrite IH.
  unfold close_conn. by destruct (Conn_Close _ _).
Qed.

(** ** Errors *)

(** Which texts are retried, [EOF] left out. *)
Definition retried_texts : list string := filter (fun t => t <> "EOF") retryableErrors.

Lemma lower_no_EOF (s : string) : isASCII s = true -> Contains (ToLower s) "EOF" = false.
Proof.
  intros Hs. destruct (Contains _ _) eqn:E; [|done]. apply Contains_spec in E as (p & r & E).
  pose proof (ToLower_no_upper s Hs) as H. rewrite E, str_forall_append in H. apply andb_true_iff in H as [_ H]. by cbn in H.
Qed.


(** ** Cursors *)


(** After [Close] the client makes no further call. *)
Theorem RoundTrip_after_Close wm op tags m w w' :
  let '(r, st) := RoundTrip {| msg_Wm := wm; msg_Op := Some op |} tags (fst (Mongo_Close m w)) w' in
  r = Fail (errors_New "connection closed") /\ rt_trace st = [] /\ rt_w st = w'.
Proof.
  unfold Mongo_Close. destruct (mg_client m) eqn:E; cbn.
  - destruct (Client_Disconnect w). done.
  - unfold RoundTrip. by rewrite E.
Qed.

End Facts.
