(* ===== verification/RoundTripTransactions.v ===== *)
(** * Transactions through the round trip

    What [RoundTrip] does with the session, the pinned server and the pinned
    connection of a transaction: while it is in progress, when it starts and
    when it is committed or aborted, whatever the driver answers. *)

From S2P Require Import Prelude GoStrings Parsing Wire Command Operations Lru CacheInterface ClientSettings.
From S2P Require Import Pool DistributedCache Sessions Caches Mongo RoundTrip RoundTripFacts.
From Stdlib Require Import ZArith Lia.

(** The commands that end a transaction, and what they do to the session. *)
Definition ends_transaction (cmd : Command) : Prop := cmd = "commitTransaction" \/ cmd = "abortTransaction".
Definition ended_state (cmd : Command) : TransactionState :=
  if decide (cmd = "commitTransaction") then TransactionStateCommitted else TransactionStateAborted.
Definition end_error (cmd : Command) : string :=
  if decide (cmd = "commitTransaction") then "no transaction in progress to commit" else "no transaction in progress to abort".

(** A session with a transaction in progress on server [srv] and connection [c]. *)
Definition in_transaction (s : Session) (srv : ServerRef) (c : DriverConnRef) : Prop :=
  s_TransactionState s = TransactionStateInProgress /\ s_PinnedServer s = Some srv /\ s_PinnedConnection s = Some c.

(** A session without one. *)
Definition no_transaction (s : Session) : Prop :=
  s_TransactionState s = TransactionStateNone /\ s_CurrentTxnNumber s = 0%Z /\ s_PinnedServer s = None /\
  s_PinnedConnection s = None.

Section Transactions.
Context `{UC : UnicodeCase, WM : Wiremessage, BS : Bsoncore, DE : DriverErrors, EV : !ErrorValues}.
Context {W : Type} `{DR : !Driver W}.
Context {G : Type} `{GO : GroupOps G}.
Context `{JS : Json SessionData, JT : Json TransactionData, JC : Json CursorData, PF : PointerFormat}.
Context {CC TC : Type} `{BCC : BoundedCache string cursorInfo CC, BTC : BoundedCache string (option ServerRef) TC}.
Notation MG := (Mongo DriverError CC TC G).
Notation ST := (rt_state (W := W) (G := G) (CC := CC) (TC := TC)).
Notation prog A := (ST -> ctl (result DriverError Message) A * ST).
Implicit Types st : ST.
Implicit Types m : MG.

Notation command op := (fst (om_CommandAndCollection (op_methods op))).
Notation collection op := (snd (om_CommandAndCollection (op_methods op))).

(** ** Session methods *)

(** Same trace, same deferred calls, same world. *)
Definition same_calls st st' : Prop :=
  rt_trace st' = rt_trace st /\ rt_defers st' = rt_defers st /\ rt_w st' = rt_w st.

(** A method that stores a session, seen from the running call. *)
Lemma session_call_store ref s' f st :
  (forall d, exists sm', f (now st) (set_dc d (mg_sessions (rt_m st))) = (Ret (), sm') /\ sm_heap sm' !! ref = Some s') ->
  exists st', session_call f st = (Next (), st') /\ session_at ref st' = Some s' /\ same_calls st st'.
Proof.
  intros Hf. unfold session_call, on_sessions, with_sessions.
  destruct (Hf (lend (sm_dc (mg_sessions (rt_m st))) (mg_dc (rt_m st)))) as (sm' & -> & Hs). eexists. by split_and!.
Qed.

(** A method that refuses, changing nothing. *)
Lemma session_call_refuse ref e f st :
  (forall d, f (now st) (set_dc d (mg_sessions (rt_m st))) = (Err e, set_dc d (mg_sessions (rt_m st)))) ->
  exists st', session_call f st = (Done (Fail (errors_New e)), st') /\ session_at ref st' = session_at ref st /\ same_calls st st'.
Proof. intros Hf. unfold session_call, on_sessions, with_sessions. rewrite Hf. eexists. by split_and!. Qed.

Definition ending (cmd : Command) (ref : SessRef) (now : Z) (sm : SessionManager G) : outcome unit * SessionManager G :=
  if decide (cmd = "commitTransaction") then SM_CommitTransaction ref now sm else SM_AbortTransaction ref now sm.

Lemma ending_ok cmd ref s st :
  session_at ref st = Some s -> s_TransactionState s = TransactionStateInProgress ->
  exists st' t, session_call (ending cmd ref) st = (Next (), st') /\
    session_at ref st' = Some (set_activity t (set_txn (ended_state cmd) (s_CurrentTxnNumber s) s)) /\ same_calls st st'.
Proof.
  intros Hs Hp. destruct (session_call_store ref (set_activity (now st) (set_txn (ended_state cmd) (s_CurrentTxnNumber s) s))
    (ending cmd ref) st) as (st' & H); [|by eauto]. intros d. unfold ending, ended_state.
  case_decide; unfold SM_CommitTransaction, SM_AbortTransaction; rewrite (with_session_hit ref _ s) by exact Hs;
    rewrite decide_False by tauto; (eexists; split; [done|apply lookup_insert_eq]).
Qed.

Lemma ending_refused cmd ref s st :
  session_at ref st = Some s -> s_TransactionState s <> TransactionStateInProgress ->
  exists st', session_call (ending cmd ref) st = (Done (Fail (errors_New (end_error cmd))), st') /\
    session_at ref st' = Some s /\ same_calls st st'.
Proof.
  intros Hs Hp. destruct (session_call_refuse ref (end_error cmd) (ending cmd ref) st) as (st' & H1 & H2 & H3).
  { intros d. unfold ending, end_error. case_decide; unfold SM_CommitTransaction, SM_AbortTransaction;
      rewrite (with_session_hit ref _ s) by exact Hs; by rewrite decide_True. }
  exists st'. rewrite H2. by split_and!.
Qed.

Lemma start_ok ref s srv c n st :
  session_at ref st = Some s -> s_State s = SessionStateActive -> s_TransactionState s = TransactionStateNone ->
  exists st' t, session_call (fun now => StartTransaction ref (Some srv) (Some c) n now) st = (Next (), st') /\
    session_at ref st' = Some (set_activity t (set_pins (Some srv) (Some c) (set_txn TransactionStateInProgress n s))) /\
    same_calls st st'.
Proof.
  intros Hs Ha Ht.
  destruct (session_call_store ref (set_activity (now st) (set_pins (Some srv) (Some c) (set_txn TransactionStateInProgress n s)))
    (fun now => StartTransaction ref (Some srv) (Some c) n now) st) as (st' & H); [|by eauto].
  intros d. unfold StartTransaction. rewrite (with_session_hit ref _ s) by exact Hs. rewrite !decide_False by tauto.
  eexists. split; [done|]. rewrite (proj1 (heap_when_dc _ _)). apply lookup_insert_eq.
Qed.

Lemma start_refused ref s srv c n st :
  session_at ref st = Some s -> s_State s = SessionStateActive -> s_TransactionState s <> TransactionStateNone ->
  exists st', session_call (fun now => StartTransaction ref (Some srv) (Some c) n now) st =
      (Done (Fail (errors_New "transaction already in progress")), st') /\
    session_at ref st' = Some s /\ same_calls st st'.
Proof.
  intros Hs Ha Ht.
  destruct (session_call_refuse ref "transaction already in progress"
    (fun now => StartTransaction ref (Some srv) (Some c) n now) st) as (st' & H1 & H2 & H3).
  { intros d. unfold StartTransaction. rewrite (with_session_hit ref _ s) by exact Hs.
    by rewrite decide_False, decide_True by tauto. }
  exists st'. rewrite H2. by split_and!.
Qed.

(** ** The first steps of an attempt *)

(** What follows the checkout of [conn]. *)
Definition after_checkout (k : nat) (wm : list byte) (op : Operation) (td : TransactionDetails) (ref : SessRef)
    (srv : ServerRef) (conn : DriverConnRef) : prog Message :=
  mbind (transaction_state srv conn (command op) (Some td) (Some ref)) (fun isCA =>
    mbind (fun st => (Next (), push_defer (DClose conn isCA) st)) (fun _ => talk k srv conn wm op (Some td))).

Lemma pinned_server s srv c : in_transaction s srv c -> GetPinnedServer s = Some srv.
Proof. intros (H1 & H2 & _). unfold GetPinnedServer. by rewrite H1. Qed.

Lemma pinned_connection s srv c : in_transaction s srv c -> GetPinnedConnection s = Some c.
Proof. intros (H1 & _ & H3). unfold GetPinnedConnection. rewrite decide_True by auto. done. Qed.

Lemma frame_pool_metrics db calls st :
  frame [] st (set_m (UpdatePoolMetricsForDatabase db (rt_m (emit_st calls st))) (emit_st calls st)).
Proof. unfold UpdatePoolMetricsForDatabase. split_and!; cbn; [by case_match|done|by rewrite app_nil_r]. Qed.

Lemma get_connection_pinned k srv db coll ref c st :
  pinned_of (Some ref) st = Some c ->
  exists st1, frame [] st st1 /\ rt_w st1 = rt_w st /\ get_connection k srv db coll (Some ref) st = (Next c, st1).
Proof.
  intros Hp. unfold get_connection. destruct (frame_checkout srv db (Some ref) st) as [Hc Hr]. rewrite Hp in Hc. specialize (Hr c Hp).
  assert (rt_w (snd (checkoutConnection (Some srv) db (Some ref) st)) = rt_w st) as Hw.
  { unfold checkoutConnection. unfold pinned_of in Hp. destruct (session_at ref st) as [s0|]; [by rewrite Hp|by cbn in Hp]. }
  destruct (checkoutConnection (Some srv) db (Some ref) st) as [r st1]. cbn [fst snd] in *. subst r.
  by exists (add_tag ("address:" +:+ Conn_Address c) st1).
Qed.

Lemma get_connection_open k srv db coll ref conn w st :
  session_at ref st <> None -> pinned_of (Some ref) st = None -> Server_Connection srv (rt_w st) = (Ok conn, w) ->
  exists st1, frame [EOpen srv conn] st st1 /\ rt_w st1 = w /\ get_connection k srv db coll (Some ref) st = (Next conn, st1).
Proof.
  intros Hs Hp Ho. unfold get_connection, checkoutConnection, open_connection. unfold pinned_of in Hp.
  destruct (session_at ref st) as [s0|]; [|by destruct Hs]. rewrite Hp, Ho. cbn. eexists. split; [|split; [|reflexivity]]; [|done].
  eapply frame_nil; [apply frame_call|apply frame_emit].
Qed.

(** In a transaction neither the topology nor a server's pool is asked. *)
Lemma attempt_pinned k wm op td ref s srv c st :
  session_at ref st = Some s -> in_transaction s srv c ->
  exists st1, frame [] st st1 /\ rt_w st1 = rt_w st /\
    attempt_once k wm op (Some td) (Some ref) st = after_checkout k wm op td ref srv c st1.
Proof.
  intros Hs Ht. unfold attempt_once, choose_server, deref, mbind at 1 2. rewrite Hs, (pinned_server s srv c) by done.
  cbn zeta. unfold go_on, mbind at 1 2, do_metrics.
  set (st0 := set_m _ _). assert (frame [] st st0) as Hf by apply frame_pool_metrics.
  set (db := op_database _ _ _). destruct (get_connection_pinned k srv db (collection op) ref c st0) as (st1 & Hf1 & Hw & Hg).
  { unfold pinned_of. rewrite (frame_session _ _ _ ref Hf), Hs. by eapply pinned_connection. }
  exists st1. split; [exact (frame_trans [] [] _ _ _ Hf Hf1)|]. split; [done|]. unfold mbind at 1. by rewrite Hg.
Qed.

(** Outside one, the server is selected. *)
Lemma attempt_unpinned k wm op td ref s st :
  session_at ref st = Some s -> GetPinnedServer s = None ->
  let sel := selectServer (fst (om_CursorID (op_methods op))) (collection op) (Some td) op st in
  let db := op_database op (collection op) parsed_database in
  exists st0, frame [] (snd sel) st0 /\ rt_w st0 = rt_w (snd sel) /\
    attempt_once k wm op (Some td) (Some ref) st =
    match fst sel with
    | Ok (Some srv) =>
        mbind (get_connection k srv db (collection op) (Some ref)) (fun conn => after_checkout k wm op td ref srv conn) st0
    | Ok None => (Done (Fail (errors_New ("no server available for database " +:+ db))), st0)
    | Fail err => (Done (Fail err), snd sel)
    | Crash why => (Done (Crash why), snd sel)
    end.
Proof.
  intros Hs Hn. cbn zeta. unfold attempt_once, choose_server, deref, mbind at 1 2. rewrite Hs, Hn. cbn zeta.
  destruct (selectServer _ _ _ op st) as [[server|err|why] st']; cbn [fst snd].
  - unfold mbind at 1 2, do_metrics. eexists. split; [apply (frame_pool_metrics (op_database op (collection op) parsed_database)
      [Incr "server_selection" (database_tags (op_database op (collection op) parsed_database))])|]. split; [done|].
    by destruct server.
  - exists st'. by split; [apply frame_refl|].
  - exists st'. by split; [apply frame_refl|].
Qed.

Lemma frame_same l st st' st'' : frame l st st' -> same_calls st' st'' -> rt_trace st'' = rt_trace st ++ l /\ rt_defers st'' = rt_defers st.
Proof. intros (_ & H1 & H2) (H3 & H4 & _). split; congruence. Qed.

Lemma transaction_state_end cmd td ref srv c st :
  td_IsStartTransaction td = false -> ends_transaction cmd ->
  transaction_state srv c cmd (Some td) (Some ref) st =
  match session_call (ending cmd ref) st with
  | (Next _, st1) => (Next true, push_defer (DUnpin ref) st1)
  | (Retry, st1) => (Retry, st1)
  | (Done r, st1) => (Done r, st1)
  end.
Proof.
  intros Hns Hcmd. unfold transaction_state, mbind, go_on. rewrite Hns.
  unfold session_call, on_sessions, with_sessions, ending. destruct (decide (cmd = "commitTransaction")); [done|].
  destruct Hcmd as [?|Habort]; [done|]. by rewrite decide_True.
Qed.

(** Ending a transaction that is in progress: the session is marked, the two calls are deferred. *)
Lemma after_checkout_end k wm op td ref s srv c st :
  session_at ref st = Some s -> s_TransactionState s = TransactionStateInProgress ->
  td_IsStartTransaction td = false -> ends_transaction (command op) ->
  exists st1 t, after_checkout k wm op td ref srv c st = talk k srv c wm op (Some td) st1 /\
    session_at ref st1 = Some (set_activity t (set_txn (ended_state (command op)) (s_CurrentTxnNumber s) s)) /\
    rt_trace st1 = rt_trace st /\ rt_defers st1 = DClose c true :: DUnpin ref :: rt_defers st /\ rt_w st1 = rt_w st.
Proof.
  intros Hs Hp Hns Hcmd. unfold after_checkout, mbind. rewrite transaction_state_end by done.
  destruct (ending_ok (command op) ref s st Hs Hp) as (st1 & t & -> & Hs1 & Ht & Hd & Hw).
  eexists _, t. split; [done|]. cbn. rewrite Hd. by split_and!.
Qed.

(** Ending a transaction that is not: the call returns, with nothing deferred for this connection. *)
Lemma after_checkout_end_refused k wm op td ref s srv c st :
  session_at ref st = Some s -> s_TransactionState s <> TransactionStateInProgress ->
  td_IsStartTransaction td = false -> ends_transaction (command op) ->
  exists st1, after_checkout k wm op td ref srv c st = (Done (Fail (errors_New (end_error (command op)))), st1) /\
    session_at ref st1 = Some s /\ same_calls st st1.
Proof.
  intros Hs Hp Hns Hcmd. unfold after_checkout, mbind. rewrite transaction_state_end by done.
  destruct (ending_refused (command op) ref s st Hs Hp) as (st1 & -> & H). by exists st1.
Qed.

(** ** Entering and leaving the call *)

Lemma health_frame st : frame [] st (health_gate st) /\ (IsHealthy (now st) (rt_m st) = true -> health_gate st = st).
Proof.
  unfold health_gate, CheckHealth. destruct (IsHealthy _ _); [split; [apply frame_refl|done]|].
  split; [|done]. destruct (mg_healthStats (rt_m st)) as [hs|]; [|by split_and!; cbn; rewrite ?app_nil_r].
  destruct (Client_Ping (rt_w st)) as [[e|] w]; (split_and!; [done..|cbn; by rewrite !app_nil_r]).
Qed.

Lemma RoundTrip_local msg op td ref s tags m w :
  mg_client m = true -> msg_Op msg = Some op -> om_TransactionDetails (op_methods op) = Some td ->
  local_session (b64_EncodeToString (td_LsID td)) (mg_sessions m) = Some (ref, s) ->
  exists st t, RoundTrip msg tags m w = serve (msg_Wm msg) op (Some td) (Some ref) st /\
    session_at ref st = Some (set_activity t s) /\ rt_trace st = [] /\ rt_defers st = [] /\
    sm_sessions (mg_sessions (rt_m st)) = sm_sessions (mg_sessions m) /\
    (IsHealthy (time_Now w) m = true -> rt_w st = w /\ mg_transactions (rt_m st) = mg_transactions m).
Proof.
  intros Hc Ho Htd Hl. unfold RoundTrip. rewrite Hc, Ho, Htd. cbn [negb start_session].
  destruct (health_frame (start_state m w tags)) as [(Hs & Hd & Ht) Hh]. cbn in Hs, Hd, Ht.
  set (st := health_gate _) in *. unfold request_session, on_sessions, with_sessions, SM_GetSession.
  assert (forall d, local_session (b64_EncodeToString (td_LsID td)) (set_dc d (mg_sessions (rt_m st))) = Some (ref, s)) as Hl'.
  { intros d. rewrite Hs. exact Hl. }
  rewrite Hl'. eexists _, (now st). split; [done|]. split_and!; [|exact Ht|exact Hd| |].
  - unfold session_at. cbn. apply lookup_insert_eq.
  - cbn. by rewrite Hs.
  - intros Hw. cbn. by rewrite (Hh Hw).
Qed.

Lemma on_sessions_store ref s s' (f : SessionManager G -> outcome unit * SessionManager G) st :
  session_at ref st = Some s ->
  (forall sm, sm_heap sm !! ref = Some s -> f sm = (Ret (), set_session ref s' sm)) ->
  let st' := snd (on_sessions (fun _ => f) st) in session_at ref st' = Some s' /\ same_calls st st'.
Proof.
  intros Hs Hf. cbn zeta. unfold on_sessions, with_sessions. rewrite Hf by exact Hs. split; [|done]. apply lookup_insert_eq.
Qed.

(** What is deferred when a transaction ends. *)
Lemma run_defers_end ref c s st :
  session_at ref st = Some s ->
  let st' := run_defers (Some ref) [DClose c true; DUnpin ref] st in
  rt_trace st' = rt_trace st ++ [EClose c] /\ exists s', session_at ref st' = Some s' /\ no_transaction s'.
Proof.
  intros Hs. cbn. assert (session_at ref (close_conn c st) = Some s /\ rt_trace (close_conn c st) = rt_trace st ++ [EClose c]) as [Hs0 Ht0].
  { unfold close_conn. by destruct (Conn_Close c (rt_w st)). }
  destruct (on_sessions_store ref s (set_pins None None (set_txn TransactionStateNone 0 s)) (ResetTransactionState ref) _ Hs0)
    as (Hs1 & Ht1 & _). { intros sm H. unfold ResetTransactionState. by rewrite (with_session_hit ref sm s). }
  destruct (on_sessions_store ref _ (set_pins None None (set_pins None None (set_txn TransactionStateNone 0 s))) (UnpinTransaction ref) _ Hs1)
    as (Hs2 & Ht2 & _). { intros sm H. unfold UnpinTransaction. by rewrite (with_session_hit ref sm _ _ H). }
  split; [congruence|]. eexists. split; [exact Hs2|]. done.
Qed.

(** ** The end of a transaction *)

(** A second attempt at ending a transaction gives up before it sends anything. *)
Lemma attempt_after_end k wm op td ref s c st :
  session_at ref st = Some s -> s_TransactionState s = ended_state (command op) -> s_PinnedConnection s = Some c ->
  td_IsStartTransaction td = false -> ends_transaction (command op) ->
  exists r st' l, attempt_once k wm op (Some td) (Some ref) st = (Done r, st') /\ (forall msg, r <> Ok msg) /\
    session_at ref st' = Some s /\ rt_trace st' = rt_trace st ++ l /\ Forall selecting l /\ rt_defers st' = rt_defers st /\
    (forall srv, fst (selectServer (fst (om_CursorID (op_methods op))) (collection op) (Some td) op st) = Ok (Some srv) ->
       r = Fail (errors_New (end_error (command op)))).
Proof.
  intros Hs Hts Hpc Hns Hcmd.
  assert (s_TransactionState s <> TransactionStateInProgress) as Hnp by (rewrite Hts; unfold ended_state; by case_decide).
  destruct (attempt_unpinned k wm op td ref s st Hs) as (st0 & Hf0 & _ & ->).
  { unfold GetPinnedServer. by rewrite decide_False. }
  destruct (frame_selectServer (fst (om_CursorID (op_methods op))) (collection op) (Some td) op st) as (l & Hf & Hl).
  assert (Forall selecting l) as HQ by (destruct Hl as [-> | ->]; repeat constructor).
  destruct (selectServer _ _ _ op st) as [[[srv|]|err|why] st']; cbn [fst snd] in *.
  2: { exists (Fail (errors_New ("no server available for database " +:+ op_database op (collection op) parsed_database))), st0, l.
       pose proof (frame_nil _ _ _ _ Hf Hf0) as Hf1. rewrite (frame_session _ _ _ ref Hf1). destruct Hf1 as (_ & ? & ?). by split_and!. }
  2, 3: eexists _, st', l; rewrite (frame_session _ _ _ ref Hf); destruct Hf as (_ & ? & ?); by split_and!.
  pose proof (frame_nil _ _ _ _ Hf Hf0) as Hf1.
  destruct (get_connection_pinned k srv (op_database op (collection op) parsed_database) (collection op) ref c st0) as (st1 & Hf2 & _ & Hg).
  { unfold pinned_of. rewrite (frame_session _ _ _ ref Hf1), Hs. unfold GetPinnedConnection. rewrite decide_True; [done|].
    rewrite Hts. unfold ended_state. case_decide; auto. }
  pose proof (frame_nil _ _ _ _ Hf1 Hf2) as Hf3. unfold mbind. rewrite Hg.
  destruct (after_checkout_end_refused k wm op td ref s srv c st1) as (st2 & -> & Hs2 & Hsame); try done.
  { by rewrite (frame_session _ _ _ ref Hf3). }
  destruct (frame_same _ _ _ _ Hf3 Hsame) as [Ht2 Hd2]. by eexists _, st2, l.
Qed.

Lemma loop_step body tries k st :
  snd (retry_loop (S tries) k body st) =
    match body k st with (Retry, st') => snd (retry_loop tries (S k) body st') | (_, st') => st' end /\
  fst (retry_loop (S tries) k body st) =
    match body k st with
    | (Next msg, _) => Ok msg | (Done r, _) => r | (Retry, st') => fst (retry_loop tries (S k) body st')
    end.
Proof. cbn. by destruct (body k st) as [[| |] st']. Qed.

Lemma opens_app l l' : opens (l ++ l') = opens l ++ opens l'.
Proof. apply omap_app. Qed.
Lemma closes_app l l' : closes (l ++ l') = closes l ++ closes l'.
Proof. apply omap_app. Qed.
Lemma writes_app l l' : writes (l ++ l') = writes l ++ writes l'.
Proof. apply omap_app. Qed.

Lemma selecting_writes l : Forall selecting l -> writes l = [].
Proof. apply Forall_omap. by intros []. Qed.

(** One try of the exchange writes the request once. *)
Lemma talk_writes k srv c wm op td st :
  exists l, frame l st (snd (talk k srv c wm op td st)) /\ Forall (on_conn srv c wm) l /\ (writes l = [] \/ writes l = [(c, wm)]).
Proof.
  destruct (framed_talk wm op td k srv c st) as (l & Hf & HQ). exists l. split_and!; [done|done|].
  destruct (grows_talk wm op td k srv c st) as (l' & Hl' & _ & _ & Hn & _).
  assert (writes l' = writes l) as E.
  { pose proof Hf as (_ & _ & Ht). destruct (talk k srv c wm op td st) as [[| |] st']; cbn [snd] in Ht; rewrite Ht in Hl'.
    - by apply app_inv_head in Hl' as ->.
    - destruct Hl' as [Hl' _]. apply app_inv_head in Hl' as ->. rewrite writes_app. by rewrite app_nil_r.
    - by apply app_inv_head in Hl' as ->. }
  rewrite E in Hn. assert (Forall (fun x => x = (c, wm)) (writes l)) as Hall.
  { clear -HQ. induction HQ as [|e l He _ IH]; [constructor|]. destruct e; cbn in *; try done. constructor; [|done]. by destruct He as [-> ->]. }
  destruct (writes l) as [|x [|y r]]; [by left| |cbn in Hn; lia]. right. by apply Forall_inv in Hall as ->.
Qed.

(** The attempts of a request that ends the transaction of its session. *)
Lemma end_loop wm op td ref s srv c st :
  session_at ref st = Some s -> in_transaction s srv c -> td_IsStartTransaction td = false -> ends_transaction (command op) ->
  let st' := snd (retry_loop (S maxRetries) 0 (fun k => attempt_once k wm op (Some td) (Some ref)) st) in
  exists l s', rt_trace st' = rt_trace st ++ l /\ opens l = [] /\ closes l = [] /\
    (writes l = [] \/ writes l = [(c, wm)]) /\ session_at ref st' = Some s' /\
    rt_defers st' = DClose c true :: DUnpin ref :: rt_defers st.
Proof.
  intros Hs Hin Hns Hcmd. cbn zeta. rewrite (proj1 (loop_step _ _ _ _)).
  destruct (attempt_pinned 0 wm op td ref s srv c st Hs Hin) as (st1 & Hf1 & _ & ->).
  destruct (after_checkout_end 0 wm op td ref s srv c st1) as (st2 & t & -> & Hs2 & Ht2 & Hd2 & _);
    [by rewrite (frame_session _ _ _ ref Hf1)|apply Hin|done|done|].
  destruct Hf1 as (_ & Hd1 & Ht1). rewrite app_nil_r in Ht1. rewrite Hd1 in Hd2. rewrite Ht1 in Ht2.
  destruct (talk_writes 0 srv c wm op (Some td) st2) as (l & Hf & HQ & Hw).
  pose proof (on_conn_quiet _ _ _ _ HQ) as [Ho Hc].
  pose proof (frame_session _ _ _ ref Hf) as Hs3. rewrite Hs2 in Hs3. destruct Hf as (_ & Hd3 & Ht3). rewrite Ht2 in Ht3. rewrite Hd2 in Hd3.
  destruct (talk 0 srv c wm op (Some td) st2) as [[msg| |r] st3]; cbn [snd] in *; [by eauto 10| |by eauto 10].
  change maxRetries with (S 2). rewrite (proj1 (loop_step _ _ _ _)).
  destruct (attempt_after_end 1 wm op td ref _ c st3 Hs3) as (r & st4 & l4 & -> & _ & Hs4 & Ht4 & HQ4 & Hd4 & _); try done.
  { by destruct Hin as (_ & _ & ?). }
  apply selecting_quiet in HQ4 as Hq4. apply selecting_writes in HQ4 as Hw4. destruct Hq4 as [Ho4 Hc4].
  exists (l ++ l4), (set_activity t (set_txn (ended_state (command op)) (s_CurrentTxnNumber s) s)).
  rewrite opens_app, closes_app, writes_app, Ho, Hc, Ho4, Hc4, Hw4, (app_nil_r (writes l)).
  split_and!; try done; [by rewrite Ht4, Ht3, app_assoc|congruence].
Qed.

(** C8.
    A commit or abort of the transaction in progress releases it whatever the
    driver answers and however the call ends: the request is written at most
    once, on the transaction's connection; no connection is opened; that
    connection is closed once; and the session is left without transaction,
    number, server or connection. *)
Theorem end_of_transaction_releases msg op td ref s srv c tags m w :
  mg_client m = true -> msg_Op msg = Some op -> om_TransactionDetails (op_methods op) = Some td ->
  td_IsStartTransaction td = false -> ends_transaction (command op) ->
  local_session (b64_EncodeToString (td_LsID td)) (mg_sessions m) = Some (ref, s) -> in_transaction s srv c ->
  let st := snd (RoundTrip msg tags m w) in
  (writes (rt_trace st) = [] \/ writes (rt_trace st) = [(c, msg_Wm msg)]) /\ opens (rt_trace st) = [] /\
  closes (rt_trace st) = [c] /\ exists s', session_at ref st = Some s' /\ no_transaction s'.
Proof.
  intros Hc Ho Htd Hns Hcmd Hl Hin. cbn zeta.
  destruct (RoundTrip_local msg op td ref s tags m w Hc Ho Htd Hl) as (st & t & -> & Hs & Ht & Hd & _). unfold serve.
  destruct (end_loop (msg_Wm msg) op td ref (set_activity t s) srv c st Hs Hin Hns Hcmd) as (l & s' & Ht' & Ho' & Hc' & Hw' & Hs' & Hd').
  destruct (retry_loop _ _ _ st) as [r st']. cbn [snd] in *. rewrite Hd, Ht in *. cbn in Ht', Hd'. rewrite Hd'.
  destruct (run_defers_end ref c s' st' Hs') as [Ht'' Hs'']. cbn zeta in *. rewrite Ht'', Ht'.
  rewrite opens_app, closes_app, writes_app, Ho', Hc'. cbn. rewrite app_nil_r. by split_and!.
Qed.

(** A request of a session with a transaction in progress, which neither starts nor ends one. *)
Lemma pinned_request msg op td ref s srv c tags m w :
  mg_client m = true -> msg_Op msg = Some op -> om_TransactionDetails (op_methods op) = Some td ->
  td_IsStartTransaction td = false -> ~ ends_transaction (command op) -> command op <> "endSessions" ->
  local_session (b64_EncodeToString (td_LsID td)) (mg_sessions m) = Some (ref, s) -> in_transaction s srv c ->
  let st := snd (RoundTrip msg tags m w) in
  Forall (on_conn srv c (msg_Wm msg)) (rt_trace st) /\ exists s',
    local_session (b64_EncodeToString (td_LsID td)) (mg_sessions (rt_m st)) = Some (ref, s') /\
    session_at ref st = Some s' /\ in_transaction s' srv c.
Proof.
  intros Hc Ho Htd Hns Hne Hes Hl Hin. cbn zeta.
  destruct (RoundTrip_local msg op td ref s tags m w Hc Ho Htd Hl) as (st & t & -> & Hs & Ht & Hd & Hsm & _). unfold serve.
  set (I := fun st' : ST => Forall (on_conn srv c (msg_Wm msg)) (rt_trace st') /\ mg_sessions (rt_m st') = mg_sessions (rt_m st) /\
    Forall (fun d => d = DClose c false) (rt_defers st')).
  assert (forall st', mg_sessions (rt_m st') = mg_sessions (rt_m st) -> session_at ref st' = Some (set_activity t s)) as Hat.
  { intros st' E. rewrite <- Hs. unfold session_at. by rewrite E. }
  assert (forall k, triple I (attempt_once k (msg_Wm msg) op (Some td) (Some ref)) (fun _ => I) I (fun _ => I)) as Hstep.
  { intros k st1 (H1 & H2 & H3).
    destruct (attempt_pinned k (msg_Wm msg) op td ref (set_activity t s) srv c st1 (Hat _ H2) Hin) as (st2 & Hf2 & _ & ->).
    unfold after_checkout, transaction_state, mbind, go_on. rewrite Hns.
    rewrite !decide_False by (unfold ends_transaction in Hne; tauto).
    destruct (framed_talk (msg_Wm msg) op (Some td) k srv c (push_defer (DClose c false) st2)) as (l & Hf3 & HQ).
    destruct Hf3 as (Hs3 & Hd3 & Ht3), Hf2 as (Hs2 & Hd2 & Ht2). cbn in Hs3, Hd3, Ht3.
    assert (I (snd (talk k srv c (msg_Wm msg) op (Some td) (push_defer (DClose c false) st2)))) as HI.
    { split_and!; [rewrite Ht3, Ht2, app_nil_r; by apply Forall_app|congruence|]. rewrite Hd3, Hd2. by constructor. }
    by destruct (talk k srv c (msg_Wm msg) op (Some td) _) as [[| |] st4]. }
  assert (I st) as HI by (split_and!; [by rewrite Ht|done|by rewrite Hd]).
  pose proof (loop_triple I _ (S maxRetries) 0 st Hstep HI) as (H1 & H2 & H3).
  destruct (retry_loop _ _ _ st) as [r st']. cbn [snd] in *.
  assert (run_defers (Some ref) (rt_defers st') st' = st') as ->.
  { revert H3. generalize (rt_defers st'). intros ds Hds. induction Hds as [|d ds -> _ IH]; [done|]. cbn. rewrite (Hat _ H2).
    unfold IsTransactionActive. destruct Hin as (Hp & _). cbn. by rewrite bool_decide_true. }
  split; [done|]. exists (set_activity t s). split_and!; [|by apply Hat|done].
  unfold local_session in *. rewrite H2, Hsm. destruct (_ !! b64_EncodeToString (td_LsID td)) as [ref'|]; [|done].
  destruct (sm_heap (mg_sessions m) !! ref') as [s0|]; [|done]. destruct (decide (s_State s0 <> SessionStateEnded)) as [He|]; [|done].
  injection Hl as -> ->. unfold session_at in Hs. rewrite Hs. by rewrite decide_True.
Qed.

(** While a transaction is in progress its requests stay on its server and
    connection: a request of the session that neither starts nor ends a
    transaction asks neither the topology nor a pool for anything, writes only
    on the pinned connection, closes nothing, and leaves the transaction in
    progress there, however often it is retried. *)
Theorem transaction_request_pinned msg op td ref s srv c tags m w :
  mg_client m = true -> msg_Op msg = Some op -> om_TransactionDetails (op_methods op) = Some td ->
  td_IsStartTransaction td = false -> ~ ends_transaction (command op) -> command op <> "endSessions" ->
  local_session (b64_EncodeToString (td_LsID td)) (mg_sessions m) = Some (ref, s) -> in_transaction s srv c ->
  let st := snd (RoundTrip msg tags m w) in
  Forall (on_conn srv c (msg_Wm msg)) (rt_trace st) /\ exists s', session_at ref st = Some s' /\ in_transaction s' srv c.
Proof.
  intros Hc Ho Htd Hns Hne Hes Hl Hin. cbn zeta.
  destruct (pinned_request msg op td ref s srv c tags m w Hc Ho Htd Hns Hne Hes Hl Hin) as (H & s' & _ & H'). by eauto.
Qed.

(** ** The start of a transaction, and an end without one *)

(** An attempt of a session with nothing pinned either gives up or comes to a new connection. *)
Lemma attempt_fresh k wm op td ref s st :
  session_at ref st = Some s -> s_TransactionState s = TransactionStateNone ->
  (exists x st' l, attempt_once k wm op (Some td) (Some ref) st = (x, st') /\ (forall msg, x <> Next msg) /\
     frame l st st' /\ Forall selecting l) \/
  (exists srv c st1 l, frame (l ++ [EOpen srv c]) st st1 /\ Forall selecting l /\
     attempt_once k wm op (Some td) (Some ref) st = after_checkout k wm op td ref srv c st1).
Proof.
  intros Hs Hn. destruct (attempt_unpinned k wm op td ref s st Hs) as (st0 & Hf0 & _ & ->).
  { unfold GetPinnedServer. by rewrite Hn. }
  destruct (frame_selectServer (fst (om_CursorID (op_methods op))) (collection op) (Some td) op st) as (l & Hf & Hl).
  assert (Forall selecting l) as HQ by (destruct Hl as [-> | ->]; repeat constructor).
  destruct (selectServer _ _ _ op st) as [[[srv|]|err|why] st']; cbn [fst snd] in *; pose proof (frame_nil _ _ _ _ Hf Hf0) as Hf1.
  2: left; by eexists _, st0, l.
  2, 3: left; by eexists _, st', l.
  assert (pinned_of (Some ref) st0 = None) as Hp.
  { unfold pinned_of. rewrite (frame_session _ _ _ ref Hf1), Hs. unfold GetPinnedConnection. by rewrite Hn. }
  unfold mbind, get_connection. set (db := op_database _ _ _).
  destruct (frame_checkout srv db (Some ref) st0) as [Hc _]. rewrite Hp in Hc.
  destruct (checkoutConnection (Some srv) db (Some ref) st0) as [[c|err|why] st2]; cbn [fst snd] in Hc.
  - right. exists srv, c, (add_tag ("address:" +:+ Conn_Address c) st2), l. split; [exact (frame_trans _ _ _ _ _ Hf1 Hc)|done].
  - left. pose proof (frame_nil _ _ _ _ Hf1 Hc) as Hf2. unfold mbind, do_metrics.
    destruct (framed_retry (A := DriverConnRef) selecting k err ltac:(done)
      (emit_st [Incr "error" (error_tags (split_database (collection op)) "connection_checkout_error")] st2)) as (l' & Hl' & HQ').
    unfold retry_or in *. destruct (k <? maxRetries)%nat; cbn [snd] in Hl'; eexists _, _, (l ++ l'); (split; [done|]);
      (split; [done|]); (split; [|by apply Forall_app]); exact (frame_trans _ _ _ _ _ Hf2 Hl').
  - left. eexists _, _, l. split; [done|]. split; [done|]. split; [exact (frame_nil _ _ _ _ Hf1 Hc)|done].
Qed.

Lemma loop_result (I : ST -> Prop) (D : result DriverError Message -> ST -> Prop) body tries k st :
  (forall k, triple I (body k) (fun msg => D (Ok msg)) I D) ->
  (forall st, I st -> D (Fail (errors_New "max retries exceeded")) st) -> I st ->
  D (fst (retry_loop tries k body st)) (snd (retry_loop tries k body st)).
Proof.
  intros Hb Hend. revert k st. induction tries as [|tries IH]; intros k st H; cbn; [by apply Hend|].
  specialize (Hb k st H). destruct (body k st) as [[| |] st']; [done| |done]. by apply IH.
Qed.

(** Nothing done yet but looking for a server. *)
Definition untouched (ref : SessRef) (s : Session) st : Prop :=
  session_at ref st = Some s /\ Forall selecting (rt_trace st) /\ rt_defers st = [].

Lemma untouched_frame ref s l st st' : frame l st st' -> Forall selecting l -> untouched ref s st -> untouched ref s st'.
Proof.
  intros Hf HQ (H1 & H2 & H3). split_and!; [by rewrite (frame_session _ _ _ ref Hf)|..]; destruct Hf as (_ & Hd & Ht).
  - rewrite Ht. by apply Forall_app.
  - congruence.
Qed.

Lemma untouched_open ref s l srv c st st' :
  frame (l ++ [EOpen srv c]) st st' -> Forall selecting l -> untouched ref s st ->
  session_at ref st' = Some s /\ rt_defers st' = [] /\ opens (rt_trace st') = [c] /\ closes (rt_trace st') = [] /\ writes (rt_trace st') = [].
Proof.
  intros Hf HQ (H1 & H2 & H3). rewrite (frame_session _ _ _ ref Hf). destruct Hf as (_ & -> & ->).
  rewrite !opens_app, !closes_app, !writes_app.
  destruct (selecting_quiet _ HQ) as [-> ->], (selecting_quiet _ H2) as [-> ->].
  by rewrite (selecting_writes _ HQ), (selecting_writes _ H2).
Qed.

(** A commit or abort without a transaction in progress is never sent, and
    leaks: if the call comes to open a connection, it returns the session
    manager's refusal and the connection is never closed. *)
Theorem end_without_transaction_leaks msg op td ref s tags m w :
  mg_client m = true -> msg_Op msg = Some op -> om_TransactionDetails (op_methods op) = Some td ->
  td_IsStartTransaction td = false -> ends_transaction (command op) ->
  local_session (b64_EncodeToString (td_LsID td)) (mg_sessions m) = Some (ref, s) ->
  s_TransactionState s = TransactionStateNone ->
  let r := fst (RoundTrip msg tags m w) in
  let tr := rt_trace (snd (RoundTrip msg tags m w)) in
  writes tr = [] /\ closes tr = [] /\
  (opens tr = [] \/ exists c, opens tr = [c] /\ r = Fail (errors_New (end_error (command op)))).
Proof.
  intros Hc Ho Htd Hns Hcmd Hl Hnone. cbn zeta.
  destruct (RoundTrip_local msg op td ref s tags m w Hc Ho Htd Hl) as (st & t & -> & Hs & Ht & Hd & _). unfold serve.
  set (D := fun (r : result DriverError Message) (st' : ST) => rt_defers st' = [] /\ writes (rt_trace st') = [] /\ closes (rt_trace st') = [] /\
    (opens (rt_trace st') = [] \/ exists c, opens (rt_trace st') = [c] /\ r = Fail (errors_New (end_error (command op))))).
  assert (forall r st', untouched ref (set_activity t s) st' -> D r st') as HuD.
  { intros r st' (_ & H2 & H3). destruct (selecting_quiet _ H2). split_and!; [done|by apply selecting_writes|done|by left]. }
  pose proof (loop_result (untouched ref (set_activity t s)) D
    (fun k => attempt_once k (msg_Wm msg) op (Some td) (Some ref)) (S maxRetries) 0 st) as Hloop.
  destruct (retry_loop _ _ _ st) as [r st']. cbn [fst snd] in *. destruct Hloop as (H1 & H2 & H3 & H4).
  - intros k st1 Hu. destruct (attempt_fresh k (msg_Wm msg) op td ref (set_activity t s) st1) as
      [(x & st2 & l & -> & Hx & Hf & HQ) | (srv & c & st2 & l & Hf & HQ & ->)]; [apply Hu|done|..].
    + pose proof (untouched_frame _ _ _ _ _ Hf HQ Hu). destruct x; [by destruct (Hx a)|done|by apply HuD].
    + destruct (untouched_open _ _ _ _ _ _ _ Hf HQ Hu) as (H1 & H2 & H3 & H4 & H5).
      destruct (after_checkout_end_refused k (msg_Wm msg) op td ref (set_activity t s) srv c st2) as (st3 & -> & _ & (E1 & E2 & _)); try done.
      { cbn. by rewrite Hnone. }
      unfold D. rewrite E1, E2. split_and!; try done. right. by exists c.
  - intros st1. apply HuD.
  - split_and!; [done|by rewrite Ht|done].
  - by rewrite H1.
Qed.

(** Starting the transaction of a session that has none. *)
Lemma after_checkout_start k wm op td ref s srv c st :
  session_at ref st = Some s -> s_State s = SessionStateActive -> s_TransactionState s = TransactionStateNone ->
  td_IsStartTransaction td = true -> ~ ends_transaction (command op) -> command op <> "endSessions" ->
  exists st1 s1, after_checkout k wm op td ref srv c st = talk k srv c wm op (Some td) st1 /\
    session_at ref st1 = Some s1 /\ in_transaction s1 srv c /\ s_CurrentTxnNumber s1 = td_TxnNumber td /\
    s_State s1 = SessionStateActive /\ rt_trace st1 = rt_trace st /\ rt_defers st1 = DClose c false :: rt_defers st /\
    rt_w st1 = rt_w st.
Proof.
  intros Hs Ha Hn Hst Hne Hes. unfold after_checkout, transaction_state, mbind. rewrite Hst.
  destruct (start_ok ref s srv c (td_TxnNumber td) st Hs Ha Hn) as (st1 & t & -> & Hs1 & Ht & Hd & Hw).
  rewrite !decide_False by (unfold ends_transaction in Hne; tauto). unfold go_on.
  eexists _, _. split; [done|]. split; [exact Hs1|]. cbn. rewrite Hd. by split_and!.
Qed.

(** Starting it again while it is in progress. *)
Lemma after_checkout_restart k wm op td ref s srv c st :
  session_at ref st = Some s -> s_State s = SessionStateActive -> s_TransactionState s <> TransactionStateNone ->
  td_IsStartTransaction td = true ->
  exists st1, after_checkout k wm op td ref srv c st = (Done (Fail (errors_New "transaction already in progress")), st1) /\
    session_at ref st1 = Some s /\ same_calls st st1.
Proof.
  intros Hs Ha Hn Hst. unfold after_checkout, transaction_state, mbind. rewrite Hst.
  destruct (start_refused ref s srv c (td_TxnNumber td) st Hs Ha Hn) as (st1 & -> & H). by exists st1.
Qed.

(** The transaction has been started on [srv] and [c], the connection is out, the request sent at most once. *)
Definition started (ref : SessRef) (n : Z) (wm : list byte) st : Prop := exists srv c s,
  session_at ref st = Some s /\ in_transaction s srv c /\ s_CurrentTxnNumber s = n /\ s_State s = SessionStateActive /\
  opens (rt_trace st) = [c] /\ closes (rt_trace st) = [] /\ (writes (rt_trace st) = [] \/ writes (rt_trace st) = [(c, wm)]) /\
  rt_defers st = [DClose c false].

Lemma start_step k wm op td ref s st :
  untouched ref s st -> s_State s = SessionStateActive -> s_TransactionState s = TransactionStateNone ->
  td_IsStartTransaction td = true -> ~ ends_transaction (command op) -> command op <> "endSessions" ->
  let st' := snd (attempt_once k wm op (Some td) (Some ref) st) in
  (forall msg, fst (attempt_once k wm op (Some td) (Some ref) st) <> Next msg) /\ untouched ref s st' \/
  started ref (td_TxnNumber td) wm st'.
Proof.
  intros Hu Ha Hn Hst Hne Hes. cbn zeta.
  destruct (attempt_fresh k wm op td ref s st) as [(x & st2 & l & -> & Hx & Hf & HQ) | (srv & c & st2 & l & Hf & HQ & ->)];
    [apply Hu|done|..].
  { left. split; [done|]. exact (untouched_frame _ _ _ _ _ Hf HQ Hu). }
  right. destruct (untouched_open _ _ _ _ _ _ _ Hf HQ Hu) as (H1 & H2 & H3 & H4 & H5).
  destruct (after_checkout_start k wm op td ref s srv c st2) as (st3 & s3 & -> & Hs3 & Hin & Hnum & Hact & Ht3 & Hd3 & _); try done.
  destruct (talk_writes k srv c wm op (Some td) st3) as (l3 & Hf3 & HQ3 & Hw3). apply on_conn_quiet in HQ3 as [Ho3 Hc3].
  exists srv, c, s3. rewrite (frame_session _ _ _ ref Hf3). destruct Hf3 as (_ & -> & ->).
  rewrite opens_app, closes_app, writes_app, Ht3, H3, H4, H5, Ho3, Hc3, Hd3, H2. by split_and!.
Qed.

(** C7.
    A request that starts a transaction, on a session without one: either the
    call gives up before it has a connection and the session is as it was, or
    the session is left with the transaction in progress, carrying its number,
    on the one server and connection that were opened; the connection stays
    open, and the request is sent at most once, since a retry is refused as a
    second start. *)
Theorem start_of_transaction_pins msg op td ref s tags m w :
  mg_client m = true -> msg_Op msg = Some op -> om_TransactionDetails (op_methods op) = Some td ->
  td_IsStartTransaction td = true -> ~ ends_transaction (command op) -> command op <> "endSessions" ->
  local_session (b64_EncodeToString (td_LsID td)) (mg_sessions m) = Some (ref, s) ->
  s_State s = SessionStateActive -> s_TransactionState s = TransactionStateNone ->
  let st := snd (RoundTrip msg tags m w) in
  closes (rt_trace st) = [] /\
  ((exists t, session_at ref st = Some (set_activity t s)) /\ opens (rt_trace st) = [] /\ writes (rt_trace st) = [] \/
   exists srv c s', session_at ref st = Some s' /\ in_transaction s' srv c /\ s_CurrentTxnNumber s' = td_TxnNumber td /\
     opens (rt_trace st) = [c] /\ (writes (rt_trace st) = [] \/ writes (rt_trace st) = [(c, msg_Wm msg)])).
Proof.
  intros Hc Ho Htd Hst Hne Hes Hl Ha Hn. cbn zeta.
  destruct (RoundTrip_local msg op td ref s tags m w Hc Ho Htd Hl) as (st & t & -> & Hs & Ht & Hd & _). unfold serve.
  set (I := fun st' : ST => untouched ref (set_activity t s) st' \/ started ref (td_TxnNumber td) (msg_Wm msg) st').
  assert (forall k, triple I (attempt_once k (msg_Wm msg) op (Some td) (Some ref)) (fun _ => I) I (fun _ => I)) as Hstep.
  { intros k st1 [Hu | (srv & c & s1 & Hs1 & Hin & Hnum & Hact & Hrest)].
    - pose proof (start_step k (msg_Wm msg) op td ref (set_activity t s) st1 Hu Ha Hn Hst Hne Hes) as Hstep.
      destruct (attempt_once _ _ _ _ _ st1) as [[a| |r] st2]; cbn [fst snd] in Hstep; destruct Hstep as [[_ H]|H]; unfold I; auto.
    - destruct (attempt_pinned k (msg_Wm msg) op td ref s1 srv c st1 Hs1 Hin) as (st2 & Hf2 & _ & ->).
      destruct (after_checkout_restart k (msg_Wm msg) op td ref s1 srv c st2) as (st3 & -> & Hs3 & Hsame); try done.
      { by rewrite (frame_session _ _ _ ref Hf2). } { destruct Hin as (Hp & _). by rewrite Hp. }
      right. exists srv, c, s1. destruct (frame_same _ _ _ _ Hf2 Hsame) as [-> ->]. rewrite app_nil_r. by split_and!; try apply Hrest. }
  assert (I st) as HI by (left; split_and!; [done|by rewrite Ht|done]).
  pose proof (loop_triple I _ (S maxRetries) 0 st Hstep HI) as HI'.
  destruct (retry_loop _ _ _ st) as [r st']. cbn [snd] in *.
  destruct HI' as [(H1 & H2 & H3) | (srv & c & s1 & Hs1 & Hin & Hnum & _ & Hop & Hcl & Hwr & Hdef)].
  - rewrite H3. cbn. destruct (selecting_quiet _ H2) as [Hop Hcl]. split; [done|]. left. rewrite (selecting_writes _ H2). by eauto.
  - rewrite Hdef. cbn. rewrite Hs1. unfold IsTransactionActive. rewrite bool_decide_true by apply Hin. split; [done|]. right.
    exists srv, c, s1. by split_and!.
Qed.

(** A transaction the caches do not know goes to the server the topology names. *)
Lemma selectServer_topology coll td op st srv w :
  bc_peek (b64_EncodeToString (td_LsID td)) (tc_c (mg_transactions (rt_m st))) = None ->
  tc_dc (mg_transactions (rt_m st)) = None -> SelectServer (rt_w st) = (Ok (Some srv), w) ->
  let sel := selectServer 0 coll (Some td) op st in fst sel = Ok (Some srv) /\ rt_w (snd sel) = w.
Proof.
  intros Hp Hd Hsel. cbn zeta. unfold selectServer, peek_transaction, with_transactions, transaction_peek.
  cbn [tc_c tc_dc]. rewrite Hp, Hd. cbn. unfold select_cursor_or_topology, select_from_topology. cbn. by rewrite Hsel.
Qed.

(** A failed write that is to be retried. *)
Lemma talk_write_fails k srv c wm op td st err w :
  is_ErrorProcessor srv = true -> WriteWireMessage c wm (rt_w st) = (Some err, w) ->
  isRetryableError (wrapNetworkError err) = true -> k < maxRetries ->
  fst (talk k srv c wm op td st) = Retry.
Proof.
  intros Hep Hw Hr Hk. unfold talk. rewrite Hep. cbn [negb]. unfold mbind, exchange, roundTrip, write_message, finish_exchange. rewrite Hw.
  cbn -[maxRetries Nat.ltb isRetryableError]. rewrite Hr. by destruct (Nat.ltb_spec k maxRetries); [|lia].
Qed.

(** The retry of a starting request hides its real error: when the first write
    fails with an error that is retried, the second attempt finds the
    transaction already in progress and the call returns that instead, with
    the transaction left in progress. *)
Theorem start_retry_hides_error msg op td ref s tags m w srv c w1 w2 w3 err :
  mg_client m = true -> msg_Op msg = Some op -> om_TransactionDetails (op_methods op) = Some td ->
  td_IsStartTransaction td = true -> ~ ends_transaction (command op) -> command op <> "endSessions" ->
  local_session (b64_EncodeToString (td_LsID td)) (mg_sessions m) = Some (ref, s) ->
  s_State s = SessionStateActive -> s_TransactionState s = TransactionStateNone ->
  IsHealthy (time_Now w) m = true -> fst (om_CursorID (op_methods op)) = 0%Z ->
  bc_peek (b64_EncodeToString (td_LsID td)) (tc_c (mg_transactions m)) = None -> tc_dc (mg_transactions m) = None ->
  SelectServer w = (Ok (Some srv), w1) -> Server_Connection srv w1 = (Ok c, w2) -> is_ErrorProcessor srv = true ->
  WriteWireMessage c (msg_Wm msg) w2 = (Some err, w3) -> isRetryableError (wrapNetworkError err) = true ->
  fst (RoundTrip msg tags m w) = Fail (errors_New "transaction already in progress") /\
  exists s', session_at ref (snd (RoundTrip msg tags m w)) = Some s' /\ in_transaction s' srv c.
Proof.
  intros Hc Ho Htd Hst Hne Hes Hl Ha Hn Hh Hcid Hp Hdc Hsel Hconn Hep Hw Hr.
  destruct (RoundTrip_local msg op td ref s tags m w Hc Ho Htd Hl) as (st & t & -> & Hs & Ht & Hd & _ & Hhw).
  destruct (Hhw Hh) as [Ew Etc]. unfold serve.
  destruct (loop_step (fun k => attempt_once k (msg_Wm msg) op (Some td) (Some ref)) maxRetries 0 st) as [Hsnd Hfst].
  destruct (retry_loop (S maxRetries) 0 _ st) as [r st'].
  destruct (attempt_unpinned 0 (msg_Wm msg) op td ref (set_activity t s) st Hs) as (st0 & Hf0 & Hw0 & Eatt).
  { unfold GetPinnedServer. rewrite decide_False; [done|]. cbn. by rewrite Hn. }
  rewrite Hcid in Eatt, Hf0, Hw0. destruct (selectServer_topology (collection op) td op st srv w1) as [Es Esw]; [by rewrite Etc|by rewrite Etc|by rewrite Ew|].
  destruct (frame_selectServer 0 (collection op) (Some td) op st) as (l & Hf & _). rewrite Es in Eatt. rewrite Esw in Hw0.
  assert (session_at ref st0 = Some (set_activity t s)) as Hs0.
  { by rewrite (frame_session _ _ _ ref Hf0), (frame_session _ _ _ ref Hf). }
  destruct (get_connection_open 0 srv (op_database op (collection op) parsed_database) (collection op) ref c w2 st0) as (st1 & Hf1 & Hw1 & Eg).
  { by rewrite Hs0. } { unfold pinned_of. rewrite Hs0. unfold GetPinnedConnection. rewrite decide_False; [done|]. cbn. rewrite Hn. naive_solver. } { by rewrite Hw0. }
  unfold mbind in Eatt. rewrite Eg in Eatt.
  destruct (after_checkout_start 0 (msg_Wm msg) op td ref (set_activity t s) srv c st1) as
    (st2 & s2 & Eac & Hs2 & Hin & _ & Hact & _ & Hd2 & Hw2); try done.
  { by rewrite (frame_session _ _ _ ref Hf1). }
  rewrite Eac in Eatt. rewrite Eatt in Hsnd, Hfst.
  pose proof (talk_write_fails 0 srv c (msg_Wm msg) op (Some td) st2 err w3 Hep ltac:(by rewrite Hw2, Hw1) Hr ltac:(unfold maxRetries; lia)) as Hretry.
  destruct (framed_talk (msg_Wm msg) op (Some td) 0 srv c st2) as (l3 & Hf3 & _).
  destruct (talk 0 srv c (msg_Wm msg) op (Some td) st2) as [x st3]. cbn [fst snd] in *. subst x.
  destruct (attempt_pinned 1 (msg_Wm msg) op td ref s2 srv c st3) as (st4 & Hf4 & _ & E4); [by rewrite (frame_session _ _ _ ref Hf3)|done|].
  destruct (after_checkout_restart 1 (msg_Wm msg) op td ref s2 srv c st4) as (st5 & E5 & Hs5 & Hsame5); try done.
  { by rewrite (frame_session _ _ _ ref Hf4), (frame_session _ _ _ ref Hf3). } { destruct Hin as (Hip & _). by rewrite Hip. }
  cbn in Hsnd, Hfst. rewrite E4, E5 in Hsnd, Hfst. cbn in Hsnd, Hfst. subst r st'. split; [done|].
  assert (rt_defers st5 = [DClose c false]) as ->.
  { destruct Hsame5 as (_ & -> & _), Hf4 as (_ & -> & _), Hf3 as (_ & -> & _). rewrite Hd2.
    destruct Hf1 as (_ & -> & _), Hf0 as (_ & -> & _), Hf as (_ & -> & _). by rewrite Hd. }
  cbn. rewrite Hs5. unfold IsTransactionActive. rewrite bool_decide_true by apply Hin. by eauto.
Qed.

End Transactions.
