(* ===== verification/RoundTripWitnesses.v ===== *)
(** * Runs of the round trip

    A scripted driver, with which the theorems on [RoundTrip] are applied to
    concrete requests: the topology always names server 7, connections are
    numbered, the first [w_broken] writes fail, and every read returns the same
    reply. *)

From S2P Require Import Prelude GoStrings Parsing Wire Command Operations WireRef Lru CacheInterface.
From S2P Require Import ClientSettings Pool DistributedCache Sessions Caches Mongo RoundTrip RoundTripFacts.
From S2P Require Import RoundTripTransactions.
From Stdlib Require Import ZArith Lia.

Inductive sample_error :=
| SText (text : string)
| SNetwork (text : string) (wrapped : sample_error).

Record script := {
  w_clock : Z;
  w_next : nat;
  w_broken : nat;
  w_text : string;
  w_reply : list byte
}.

Section Witnesses.

#[local] Existing Instance ascii_case.
#[local] Existing Instance decimal_pointers.
#[local] Instance no_session_json : Json SessionData := table_json [].
#[local] Instance no_transaction_json : Json TransactionData := table_json [].
#[local] Instance no_cursor_json : Json CursorData := table_json [].
#[local] Instance sample_errors : DriverErrors :=
  {| DriverError := sample_error; ExtractErrorFromServerResponse _ := None |}.

Fixpoint sample_text (e : sample_error) : string :=
  match e with
  | SText t => t
  | SNetwork t _ => t
  end.

#[local] Instance sample_error_eq : EqDecision sample_error.
Proof. solve_decision. Defined.

#[local] Instance sample_error_values : ErrorValues := {|
  err_eq_dec := sample_error_eq;
  err_Error := sample_text;
  errors_New := SText;
  network_error := SNetwork;
  as_driver_Error e :=
    match e with
    | SNetwork _ inner =>
        Some {| de_Code := 0; de_Labels := ["NetworkError"]; de_Wrapped := Some inner; de_NodeIsRecovering := false;
                de_NotPrimary := false; de_NetworkError := true |}
    | SText _ => None
    end;
  as_WriteConcernError _ := None;
  as_ConnectionError _ := None;
  as_net_Error_Timeout _ := None;
  context_Canceled := SText "context canceled";
  context_DeadlineExceeded := SText "context deadline exceeded"
|}.

Definition next_w (w : script) (next broken : nat) : script :=
  {| w_clock := w_clock w; w_next := next; w_broken := broken; w_text := w_text w; w_reply := w_reply w |}.

#[local] Instance scripted : Driver script := {|
  SelectServer w := (Ok (Some 7), w);
  Server_Connection _ w := (Ok (w_next w), next_w w (S (w_next w)) (w_broken w));
  is_ErrorProcessor _ := true;
  ProcessError _ _ _ w := w;
  Conn_Address _ := "db1:27017";
  Conn_Close _ w := (None, w);
  WriteWireMessage _ _ w :=
    match w_broken w with
    | 0 => (None, w)
    | S n => (Some (SText (w_text w)), next_w w (w_next w) n)
    end;
  ReadWireMessage _ w := (Ok (w_reply w), w);
  Client_Ping w := (None, w);
  Client_Disconnect w := (None, w);
  time_Now w := w_clock w;
  time_Sleep d w := {| w_clock := (w_clock w + d)%Z; w_next := w_next w; w_broken := w_broken w; w_text := w_text w;
                       w_reply := w_reply w |}
|}.

Notation group := (gmap string (list byte)).
Notation client := (Mongo DriverError (Lru.Cache string cursorInfo) (Lru.Cache string (option nat)) group).

Definition msg_of (d : Document) : Message :=
  let op := Op_msg {| m_reqID := 1; m_flags := 0; m_sections := [opMsgSectionSingle d]; m_checksum := 0 |} in
  {| msg_Wm := om_Encode (op_methods op) 0; msg_Op := Some op |}.

(** Requests of session [01 02]: the first of its transaction 7, a later one, the commit; and one outside. *)
Definition txn_elements : list byte :=
  el_string "$db" "app" ++ el_doc "lsid" (mk_doc (el_binary "id" [Byte.x01; Byte.x02])) ++ el_int64 "txnNumber" 7 ++
  el_bool "autocommit" false.
Definition start_request : Message := msg_of sample_insert.
Definition next_request : Message := msg_of (mk_doc (el_string "find" "users" ++ txn_elements)).
Definition commit_request : Message := msg_of (mk_doc (el_int32 "commitTransaction" 1 ++ txn_elements)).
Definition plain_request : Message := msg_of (mk_doc (el_string "find" "users" ++ el_string "$db" "app")).

Definition ok_reply : list byte := msg_Wm (msg_of (mk_doc (el_int32 "ok" 1))).

Definition calm : script := {| w_clock := 5; w_next := 10; w_broken := 0; w_text := ""; w_reply := ok_reply |}.
Definition stormy (text : string) : script :=
  {| w_clock := 5; w_next := 10; w_broken := 1; w_text := text; w_reply := ok_reply |}.

(** A client checked healthy at time 5, with session [01 02] known to its manager. *)
Definition sample_client : client :=
  let sm := run_sess [(1%Z, OCreate "c" (Ret [Byte.x01; Byte.x02]))] NewSessionManager in
  match ConnectWithDistributedCache "mongodb://db1:27017/app" None None (Some []) (Lru.New 100 1000) (Lru.New 100 1000)
          (Some sm) None with
  | Ok m => snd (fst (CheckHealth m calm))
  | _ => {| mg_databaseName := ""; mg_client := false; mg_metrics := None; mg_dc := None; mg_sessions := sm;
            mg_cursors := newCursorCache; mg_transactions := newTransactionCache; mg_poolStats := None;
            mg_healthStats := None |}
  end.

(** The same client in the middle of transaction 7. *)
Definition busy_client : client := rt_m (snd (RoundTrip start_request [] sample_client calm)).

Definition details (msg : Message) : TransactionDetails :=
  default {| td_LsID := []; td_TxnNumber := 0; td_IsStartTransaction := false; td_Autocommit := false |}
    (msg_Op msg ≫= fun op => om_TransactionDetails (op_methods op)).
Definition operation (msg : Message) : Operation :=
  default (Op_unknown {| unk_opCode := 0; unk_reqID := 0; unk_wm := [] |}) (msg_Op msg).
Definition session_in (m : client) : Session := default sample_session (sm_heap (mg_sessions m) !! 0).

Lemma start_of_transaction_pins_witness :
  exists srv c s, session_at 0 (snd (RoundTrip start_request [] sample_client calm)) = Some s /\ in_transaction s srv c.
Proof.
  pose proof (start_of_transaction_pins start_request (operation start_request) (details start_request) 0
    (session_in sample_client) [] sample_client calm) as H.
  discharge H. destruct H as [_ [(_ & H & _) | (srv & c & s & H1 & H2 & _)]].
  - vm_compute in H. discriminate H.
  - exists srv, c, s. split; [exact H1|exact H2].
Defined.

Lemma end_of_transaction_releases_witness :
  closes (rt_trace (snd (RoundTrip commit_request [] busy_client calm))) = [10].
Proof.
  pose proof (end_of_transaction_releases commit_request (operation commit_request) (details commit_request) 0
    (session_in busy_client) 7 10 [] busy_client calm) as H.
  discharge H. exact (proj1 (proj2 (proj2 H))).
Defined.

Lemma transaction_request_pinned_witness :
  Forall (on_conn 7 10 (msg_Wm next_request))
    (rt_trace (snd (RoundTrip next_request [] busy_client (stormy "connection reset by peer")))).
Proof.
  pose proof (transaction_request_pinned next_request (operation next_request) (details next_request) 0
    (session_in busy_client) 7 10 [] busy_client (stormy "connection reset by peer")) as H.
  discharge H. exact (proj1 H).
Defined.

Lemma end_without_transaction_leaks_witness :
  closes (rt_trace (snd (RoundTrip commit_request [] sample_client calm))) = [] /\
  opens (rt_trace (snd (RoundTrip commit_request [] sample_client calm))) = [10].
Proof.
  pose proof (end_without_transaction_leaks commit_request (operation commit_request) (details commit_request) 0
    (session_in sample_client) [] sample_client calm) as H.
  discharge H. split; [exact (proj1 (proj2 H))|vm_compute; reflexivity].
Defined.

Lemma start_retry_hides_error_witness :
  fst (RoundTrip start_request [] sample_client (stormy "connection reset by peer")) =
    Fail (SText "transaction already in progress").
Proof.
  pose proof (start_retry_hides_error start_request (operation start_request) (details start_request) 0
    (session_in sample_client) [] sample_client (stormy "connection reset by peer") 7 10
    (stormy "connection reset by peer") (next_w (stormy "connection reset by peer") 11 1)
    (next_w (stormy "connection reset by peer") 11 0) (SText "connection reset by peer")) as H.
  discharge H. exact (proj1 H).
Defined.

(** A first write that fails: two connections are open at once, and both are closed. *)
Lemma plain_connections_closed_witness :
  (exists pre, rt_trace (snd (RoundTrip plain_request [] sample_client (stormy "connection reset by peer"))) =
     pre ++ map EClose (rev (opens pre)) /\ closes pre = []) /\
  opens (rt_trace (snd (RoundTrip plain_request [] sample_client (stormy "connection reset by peer")))) = [10; 11].
Proof.
  split; [|by vm_compute].
  apply (plain_connections_closed plain_request [] sample_client (stormy "connection reset by peer")).
  intros op [= <-]. by vm_compute.
Defined.

Lemma plain_request_keeps_sessions_witness :
  mg_sessions (rt_m (snd (RoundTrip plain_request [] busy_client calm))) = mg_sessions busy_client.
Proof. apply (plain_request_keeps_sessions plain_request [] busy_client calm). intros op [= <-]. by vm_compute. Defined.

Definition eof_error : @DriverError sample_errors := SText "unexpected EOF".


(** A reply that opens cursor 99, and the [getMore] after it. *)
Definition cursor_reply : Operation :=
  Op_msg {| m_reqID := 1; m_flags := 0; m_checksum := 0;
            m_sections := [opMsgSectionSingle (mk_doc (el_doc "cursor" (mk_doc (el_int64 "id" 99))))] |}.


End Witnesses.
