(* ===== verification/Topology.v ===== *)
(** * The topology monitor ([src/mongo/topology_monitor.go])

    Every five seconds the monitor compares the driver's description of the
    deployment with the last one and logs a difference.  The driver's kinds
    and addresses are opaque but for their printing, class [Descriptions]; a
    server kind is an unsigned number whose zero is the kind [Unknown]. *)

From S2P Require Import Prelude Parsing.
From stdpp Require Import sorting.
From Stdlib Require Import ZArith Lia.

Notation ServerKind := N (only parsing).
Definition UnknownKind : ServerKind := 0%N.

(** [description.Server], the fields used. *)
Record Server := {
  srv_Addr : string;
  srv_Kind : ServerKind
}.

(** [description.Topology], the fields used. *)
Record TopologyDescription := {
  td_Kind : TopologyKind;
  td_Servers : list Server
}.

#[export] Instance TopologyKind_eq_decision : EqDecision TopologyKind.
Proof. solve_decision. Defined.
#[export] Instance Server_eq_decision : EqDecision Server.
Proof. solve_decision. Defined.

Class Descriptions := {
  Addr_String : string -> string;
  ServerKind_String : ServerKind -> string;
  TopologyKind_String : TopologyKind -> string
}.

Section Monitor.
Context `{DS : Descriptions}.

(** [s := make(map[string]description.ServerKind); for _, s := range d.Servers { s1[s.Addr.String()] = s.Kind }] *)
Definition server_kinds (servers : list Server) : gmap string ServerKind :=
  fold_left (fun m s => <[Addr_String (srv_Addr s) := srv_Kind s]> m) servers ∅.

(** A missing key reads as the zero kind. *)
Definition topologyDescriptionEqual (d1 d2 : TopologyDescription) : bool :=
  if decide (td_Kind d1 <> td_Kind d2) then false
  else
    let s1 := server_kinds (td_Servers d1) in
    let s2 := server_kinds (td_Servers d2) in
    if decide (size s1 <> size s2) then false
    else forallb (fun '(k, v) => bool_decide (default UnknownKind (s2 !! k) = v)) (map_to_list s1).

(** [sort.Slice] orders slices of up to twelve elements by insertion; on longer
    ones the order of servers with equal addresses may differ. *)
Fixpoint insert_server (x : Server) (l : list Server) : list Server :=
  match l with
  | [] => [x]
  | y :: l' => if String.ltb (srv_Addr x) (srv_Addr y) then x :: y :: l' else y :: insert_server x l'
  end.

Definition sortServers (s : list Server) : list Server := fold_left (fun r x => insert_server x r) s [].

(** [fmt.Sprintf("%d", i)] of an index. *)
Definition server_fields (age : string) (servers : list Server) : list (string * string) :=
  concat (imap (fun i s => [(age +:+ "_address_" +:+ pretty i, Addr_String (srv_Addr s));
                            (age +:+ "_kind_" +:+ pretty i, ServerKind_String (srv_Kind s))]) servers).

Definition topologyChangedFields (last desc : TopologyDescription) : list (string * string) :=
  [("old_kind", TopologyKind_String (td_Kind last)); ("new_kind", TopologyKind_String (td_Kind desc))] ++
  server_fields "old" (sortServers (td_Servers last)) ++ server_fields "new" (sortServers (td_Servers desc)).

(** One turn of the loop of [topologyMonitor]: what is logged, and the next [last]. *)
Definition monitor_step (last desc : TopologyDescription) : option (list (string * string)) * TopologyDescription :=
  (if topologyDescriptionEqual last desc then None else Some (topologyChangedFields last desc), desc).

(** The monitor on the descriptions it reads. *)
Fixpoint topologyMonitor (last : TopologyDescription) (descs : list TopologyDescription)
    : list (option (list (string * string))) :=
  match descs with
  | [] => []
  | desc :: descs =>
      let '(logged, last) := monitor_step last desc in logged :: topologyMonitor last descs
  end.

(** ** Comparing descriptions *)

Lemma forallb_map_to_list (f : string * ServerKind -> bool) (m : gmap string ServerKind) :
  forallb f (map_to_list m) = true <-> forall k v, m !! k = Some v -> f (k, v) = true.
Proof.
  rewrite forallb_forall. split.
  - intros H k v Hk. apply H, list_elem_of_In, elem_of_map_to_list, Hk.
  - intros H [k v] Hx. apply H, elem_of_map_to_list, list_elem_of_In, Hx.
Qed.

Lemma equal_iff d1 d2 :
  topologyDescriptionEqual d1 d2 = true <->
  td_Kind d1 = td_Kind d2 /\ size (server_kinds (td_Servers d1)) = size (server_kinds (td_Servers d2)) /\
  forall k v, server_kinds (td_Servers d1) !! k = Some v ->
    default UnknownKind (server_kinds (td_Servers d2) !! k) = v.
Proof.
  unfold topologyDescriptionEqual. do 2 (case_decide; [split; [done|tauto]|]).
  rewrite forallb_map_to_list. setoid_rewrite bool_decide_eq_true. split.
  - done.
  - by intros (_ & _ & Hk).
Qed.

Lemma map_values {B} (m1 m2 : gmap string B) :
  size m1 = size m2 -> (forall k v, m1 !! k = Some v -> m2 !! k = Some v) -> m1 = m2.
Proof.
  intros Hs Hsub. apply map_subseteq_size_eq; [by apply map_subseteq_spec|lia].
Qed.

(** C30.
    The monitor's comparison of two descriptions: it never takes equal ones
    for different, whatever order the servers are listed in, and it takes
    different ones for equal only when a server of the old description has kind
    [Unknown]; otherwise it is equality of the kind and of the kind of every
    address. *)
Theorem topologyDescriptionEqual_spec d1 d2 :
  let same := td_Kind d1 = td_Kind d2 /\ server_kinds (td_Servers d1) = server_kinds (td_Servers d2) in
  (same -> topologyDescriptionEqual d1 d2 = true) /\
  (topologyDescriptionEqual d1 d2 = true ->
   same \/ exists k, server_kinds (td_Servers d1) !! k = Some UnknownKind /\ server_kinds (td_Servers d2) !! k = None).
Proof.
  cbn zeta. rewrite equal_iff. split.
  { intros [-> ->]. split_and!; [done..|]. by intros k v ->. }
  intros (Hk & Hs & Hv).
  destruct (decide (map_Forall (fun k _ => is_Some (server_kinds (td_Servers d2) !! k)) (server_kinds (td_Servers d1))))
    as [Hall | (k & v & H1 & H2)%map_not_Forall]; [..|typeclasses eauto].
  - left. split; [done|]. apply map_values; [done|]. intros k v H1. specialize (Hv k v H1).
    destruct (Hall k v H1) as [v' E]. rewrite E in *. cbn in Hv. by rewrite Hv.
  - right. exists k. specialize (Hv k v H1). apply eq_None_not_Some in H2. rewrite H2 in *. cbn in Hv. by subst v.
Qed.

(** A server that was [Unknown] is replaced by a primary at another address, unnoticed. *)
Theorem topology_change_missed (a b : string) (primary : ServerKind) :
  Addr_String a <> Addr_String b ->
  let d1 := {| td_Kind := Single; td_Servers := [{| srv_Addr := a; srv_Kind := UnknownKind |}] |} in
  let d2 := {| td_Kind := Single; td_Servers := [{| srv_Addr := b; srv_Kind := primary |}] |} in
  topologyDescriptionEqual d1 d2 = true /\ server_kinds (td_Servers d1) <> server_kinds (td_Servers d2).
Proof.
  intros Hne. cbn zeta. unfold server_kinds. cbn. split.
  - apply equal_iff. cbn. rewrite !insert_empty, !map_size_singleton. split_and!; [done..|].
    intros k v [<- <-]%lookup_singleton_Some. by rewrite lookup_singleton_ne.
  - intros E%(f_equal (lookup (Addr_String a))). by rewrite lookup_insert_eq, lookup_insert_ne in E.
Qed.

(** ** Sorting *)

Definition addr_le (x y : Server) : Prop := String.le (srv_Addr x) (srv_Addr y).

#[local] Instance addr_le_trans : Transitive addr_le.
Proof. intros x y z. unfold addr_le. by intros ->. Qed.

Lemma not_ltb x y : String.ltb (srv_Addr x) (srv_Addr y) = false -> addr_le y x.
Proof.
  unfold addr_le, String.le, String.ltb, String.leb. rewrite (String.compare_antisym (srv_Addr y)).
  by destruct (String.compare _ _).
Qed.

Lemma ltb_le x y : String.ltb (srv_Addr x) (srv_Addr y) = true -> addr_le x y.
Proof. unfold addr_le, String.le, String.ltb, String.leb. by destruct (String.compare _ _). Qed.

Lemma insert_permutation x l : insert_server x l ≡ₚ x :: l.
Proof.
  induction l as [|y l IH]; cbn; [done|]. destruct (String.ltb _ _); [done|]. rewrite IH. apply Permutation_swap.
Qed.

Lemma insert_sorted x l : StronglySorted addr_le l -> StronglySorted addr_le (insert_server x l).
Proof.
  induction l as [|y l IH]; intros Hl; cbn; [repeat constructor|]. inversion_clear Hl as [|? ? Hs Hf].
  destruct (String.ltb _ _) eqn:E.
  - constructor; [by constructor|]. apply ltb_le in E. constructor; [done|].
    eapply Forall_impl; [exact Hf|]. intros z. by apply addr_le_trans.
  - constructor; [by apply IH|]. rewrite insert_permutation. constructor; [by apply not_ltb|done].
Qed.

Lemma sort_from r s :
  fold_left (fun r x => insert_server x r) s r ≡ₚ r ++ s /\
  (StronglySorted addr_le r -> StronglySorted addr_le (fold_left (fun r x => insert_server x r) s r)).
Proof.
  revert r. induction s as [|x s IH]; intros r; cbn; [by rewrite app_nil_r|].
  destruct (IH (insert_server x r)) as [Hp Hs]. split.
  - rewrite Hp, insert_permutation. cbn. apply Permutation_middle.
  - intros Hr. by apply Hs, insert_sorted.
Qed.

Lemma addr_unique (s : list Server) x y : NoDup (srv_Addr <$> s) -> x ∈ s -> y ∈ s -> srv_Addr x = srv_Addr y -> x = y.
Proof.
  induction s as [|z s IH]; cbn; [set_solver|]. rewrite NoDup_cons, !list_elem_of_fmap, !elem_of_cons.
  intros [Hn Hd] [->|Hx] [->|Hy] E; [done|exfalso; eauto..|by apply IH].
Qed.

Lemma sortServers_facts s : StronglySorted addr_le (sortServers s) /\ sortServers s ≡ₚ s.
Proof. destruct (sort_from [] s) as [Hp Hs]. split; [by apply Hs; constructor|exact Hp]. Qed.

(** [sortServers] returns the servers in the order of their addresses and loses
    or invents none; when the addresses are distinct, as a topology's are, that
    determines the result, so the sorting algorithm does not matter. *)
Theorem sortServers_spec (s : list Server) :
  StronglySorted addr_le (sortServers s) /\ sortServers s ≡ₚ s /\
  (NoDup (srv_Addr <$> s) -> forall r, StronglySorted addr_le r -> r ≡ₚ s -> r = sortServers s).
Proof.
  destruct (sortServers_facts s) as [Hs Hp]. split_and!; [done..|].
  intros Hd r Hr Hrs. apply (StronglySorted_unique_strong addr_le); [|done|done|by rewrite Hrs, Hp].
  intros x y Hx Hy Hxy Hyx. apply (addr_unique s); [done|by rewrite <- Hrs|by rewrite <- Hp|].
  by apply (anti_symm String.le).
Qed.

(** ** The monitor *)

Lemma monitor_lookup last descs i :
  topologyMonitor last descs !! i =
    (fun '(d1, d2) => fst (monitor_step d1 d2)) <$> (zip (last :: descs) descs !! i).
Proof.
  revert last i. induction descs as [|d descs IH]; intros last [|i]; try done. cbn. by rewrite IH.
Qed.

Lemma server_fields_length age l : length (server_fields age l) = 2 * length l.
Proof.
  unfold server_fields. rewrite length_concat, fmap_imap.
  assert (forall (f : nat -> Server -> list (string * string)), (forall i s, length (f i s) = 2) ->
    sum_list (imap (fun i s => length (f i s)) l) = 2 * length l) as H.
  { induction l as [|s l IH]; intros f Hf; cbn; [done|]. rewrite Hf. unfold compose. rewrite IH; [lia|]. intros. apply Hf. }
  by apply H.
Qed.

Lemma server_fields_addr age l s : s ∈ l -> Addr_String (srv_Addr s) ∈ (server_fields age l).*2.
Proof.
  intros [i Hi]%list_elem_of_lookup. unfold server_fields.
  apply list_elem_of_fmap. exists (age +:+ "_address_" +:+ pretty i, Addr_String (srv_Addr s)). split; [done|].
  apply list_elem_of_In, in_concat. eexists. split.
  - apply list_elem_of_In, list_elem_of_lookup. exists i. by rewrite list_lookup_imap, Hi.
  - by left.
Qed.

(** The monitor reports exactly the changes between consecutive descriptions:
    its [i]-th turn logs if and only if the comparison tells the [i]-th
    description from the one before it, and what it logs names both kinds and
    the address of every server, old and new. *)
Theorem topologyMonitor_spec last descs i d1 d2 :
  (last :: descs) !! i = Some d1 -> descs !! i = Some d2 ->
  exists logged, topologyMonitor last descs !! i = Some logged /\
    (logged = None <-> topologyDescriptionEqual d1 d2 = true) /\
    (forall fields, logged = Some fields ->
       length fields = 2 + 2 * length (td_Servers d1) + 2 * length (td_Servers d2) /\
       forall s, s ∈ td_Servers d1 \/ s ∈ td_Servers d2 -> Addr_String (srv_Addr s) ∈ fields.*2).
Proof.
  intros H1 H2. exists (fst (monitor_step d1 d2)). split_and!.
  - rewrite monitor_lookup.
    assert (zip (last :: descs) descs !! i = Some (d1, d2)) as -> by (apply lookup_zip_with_Some; eauto). done.
  - unfold monitor_step. by destruct (topologyDescriptionEqual d1 d2).
  - unfold monitor_step. destruct (topologyDescriptionEqual d1 d2); [done|]. intros fields [= <-].
    destruct (sortServers_facts (td_Servers d1)) as [_ P1], (sortServers_facts (td_Servers d2)) as [_ P2].
    split; [unfold topologyChangedFields; rewrite !length_app, !server_fields_length, P1, P2; cbn; lia|].
    intros s Hs. unfold topologyChangedFields. rewrite !fmap_app, !elem_of_app.
    destruct Hs as [Hs|Hs]; right; [left|right]; apply server_fields_addr; [by rewrite P1|by rewrite P2].
Qed.

End Monitor.

(** ** Examples *)

Section Examples.

#[local] Instance plain_descriptions : Descriptions :=
  {| Addr_String a := a; ServerKind_String k := pretty k;
     TopologyKind_String k := match k with Single => "Single" | Sharded => "Sharded" | LoadBalanced => "LoadBalanced"
                              | OtherTopology n => n end |}.

Definition one_server (a : string) (k : ServerKind) : TopologyDescription :=
  {| td_Kind := Single; td_Servers := [{| srv_Addr := a; srv_Kind := k |}] |}.

Lemma topologyDescriptionEqual_spec_witness : topologyDescriptionEqual (one_server "a" 1) (one_server "a" 1) = true.
Proof. apply (topologyDescriptionEqual_spec (one_server "a" 1) (one_server "a" 1)). done. Defined.

Lemma topologyMonitor_spec_witness :
  exists logged, topologyMonitor (one_server "a" 1) [one_server "a" 2] !! 0 = Some logged /\ logged <> None.
Proof.
  destruct (topologyMonitor_spec (one_server "a" 1) [one_server "a" 2] 0 (one_server "a" 1) (one_server "a" 2) eq_refl eq_refl)
    as (logged & H & E & _).
  exists logged. split; [exact H|]. intros [=]%E.
Defined.

Lemma topology_change_missed_witness :
  topologyDescriptionEqual (one_server "a" 0) (one_server "b" 1) = true.
Proof. apply (topology_change_missed "a" "b" 1). done. Defined.

End Examples.
