(* ===== verification/Handshake.v ===== *)
(** * Handshake replies ([src/mongo/ismaster.go])

    The answers the proxy gives itself, without a server.  Documents are
    [bson.D] values; [bson.Marshal], which turns one into bytes, is class
    [BsonMarshal].  [now] is [time.Now().UnixNano()] and [objectID] the fresh
    identifier of [primitive.NewObjectID]. *)

From S2P Require Import Prelude GoStrings Parsing Wire Command Operations WireRef Topology RoundTrip.
From Stdlib Require Import ZArith Lia QArith_base.
Local Close Scope Q_scope.

(** The Go values the replies are made of; an untyped integer constant is an [int]. *)
Inductive bson_value :=
| BBool (b : bool)
| BInt (z : Z)
| BInt64 (z : Z)
| BDouble (q : Q)
| BString (s : string)
| BObjectID (id : list byte)
| BDoc (d : list (string * bson_value))
| BArray (a : list bson_value).

Notation bson_D := (list (string * bson_value)) (only parsing).

Class BsonMarshal := { bson_Marshal : bson_D -> outcome Document }.

(** [bson.Marshal] returns whole documents. *)
Class MarshalLaws `{BS : Bsoncore, BM : BsonMarshal} : Prop := {
  bson_Marshal_complete d b : bson_Marshal d = Ret b -> complete_doc b
}.

Definition resultFlagAwaitCapable : Z := 8.

Section Handshake.
Context `{WM : Wiremessage, BS : Bsoncore, BM : BsonMarshal, DS : Descriptions}.

(** [bson.D{{Key: "$date", Value: ms}}] *)
Definition local_time (now : Z) : bson_value := BDoc [("$date", BInt64 (Z.quot now 1000000))].

Definition isMasterDocument (kind : TopologyKind) (now : Z) (objectID : list byte) : outcome Document :=
  match kind with
  | Single =>
      bson_Marshal [("ismaster", BBool true); ("maxBsonObjectSize", BInt 16777216); ("maxMessageSizeBytes", BInt 48000000);
               ("maxWriteBatchSize", BInt 100000); ("localTime", local_time now);
               ("logicalSessionTimeoutMinutes", BInt 30); ("maxWireVersion", BInt 25); ("minWireVersion", BInt 0);
               ("readOnly", BBool false); ("ok", BDouble (inject_Z 1))]
  | Sharded =>
      bson_Marshal [("ismaster", BBool true); ("msg", BString "isdbgrid"); ("maxBsonObjectSize", BInt 16777216);
               ("maxMessageSizeBytes", BInt 48000000); ("maxWriteBatchSize", BInt 100000); ("localTime", local_time now);
               ("logicalSessionTimeoutMinutes", BInt 30); ("minWireVersion", BInt 0); ("maxWireVersion", BInt 25);
               ("saslSupportedMechs", BArray []); ("ok", BDouble (inject_Z 1))]
  | LoadBalanced =>
      bson_Marshal [("ismaster", BBool true); ("msg", BString "isdbgrid"); ("serviceId", BObjectID objectID);
               ("maxBsonObjectSize", BInt 16777216); ("maxMessageSizeBytes", BInt 48000000);
               ("maxWriteBatchSize", BInt 100000); ("localTime", local_time now);
               ("logicalSessionTimeoutMinutes", BInt 30); ("minWireVersion", BInt 0); ("maxWireVersion", BInt 25);
               ("ok", BDouble (inject_Z 1))]
  | OtherTopology _ => Err ("unsupported topology kind: " +:+ TopologyKind_String kind)
  end.

(** [reply := opReply{flags: flags, numReturned: 1, documents: ...}] and its message. *)
Definition reply_message (flags : Z) (doc : Document) (responseTo : Z) : Message :=
  let reply := {| r_reqID := 0; r_flags := flags; r_cursorID := 0; r_startingFrom := 0; r_numReturned := 1;
                  r_documents := [doc] |} in
  {| msg_Wm := opReply_Encode reply responseTo; msg_Op := Some (Op_reply reply) |}.

Definition IsMasterResponse (responseTo : Z) (topologyKind : TopologyKind) (now : Z) (objectID : list byte)
    : outcome Message :=
  let? imd := isMasterDocument topologyKind now objectID in
  Ret (reply_message resultFlagAwaitCapable imd responseTo).

Definition BuildInfoResponse (responseTo now : Z) : outcome Message :=
  let? docBytes := bson_Marshal
    [("ismaster", BBool true); ("msg", BString "isdbgrid"); ("maxBsonObjectSize", BInt 16777216);
     ("maxMessageSizeBytes", BInt 48000000); ("maxWriteBatchSize", BInt 100000); ("localTime", local_time now);
     ("logicalSessionTimeoutMinutes", BInt 30); ("minWireVersion", BInt 0); ("maxWireVersion", BInt 25);
     ("ok", BDouble (inject_Z 1))] in
  Ret (reply_message resultFlagAwaitCapable docBytes responseTo).

Definition ErrorResponse (responseTo : Z) (errmsg codeName : string) : outcome Message :=
  let? docBytes := bson_Marshal
    [("ok", BDouble (inject_Z 0)); ("errmsg", BString errmsg); ("code", BInt 59); ("codeName", BString codeName)] in
  Ret (reply_message 0 docBytes responseTo).

Definition GetParameterResponse (responseTo : Z) : outcome Message :=
  let? docBytes := bson_Marshal
    [("featureCompatibilityVersion", BDoc [("version", BString "6.0")]); ("ok", BDouble (inject_Z 1))] in
  Ret (reply_message resultFlagAwaitCapable docBytes responseTo).

Definition EmptyCursorResponse (responseTo : Z) : outcome Message :=
  let? docBytes := bson_Marshal
    [("cursor", BDoc [("firstBatch", BArray []); ("id", BInt64 0); ("ns", BString "admin.atlascli")]);
     ("ok", BDouble (inject_Z 1))] in
  Ret (reply_message resultFlagAwaitCapable docBytes responseTo).

Definition TransactionResponse (responseTo : Z) (transactionType : string) : outcome Message :=
  let? docBytes := bson_Marshal [("ok", BDouble (inject_Z 1))] in
  Ret (reply_message resultFlagAwaitCapable docBytes responseTo).

(** The replies there are, for any arguments. *)
Inductive handshake_reply (responseTo : Z) : outcome Message -> Prop :=
| hr_isMaster kind now id : handshake_reply responseTo (IsMasterResponse responseTo kind now id)
| hr_buildInfo now : handshake_reply responseTo (BuildInfoResponse responseTo now)
| hr_error errmsg codeName : handshake_reply responseTo (ErrorResponse responseTo errmsg codeName)
| hr_getParameter : handshake_reply responseTo (GetParameterResponse responseTo)
| hr_emptyCursor : handshake_reply responseTo (EmptyCursorResponse responseTo)
| hr_transaction typ : handshake_reply responseTo (TransactionResponse responseTo typ).

Lemma bind_reply d flags responseTo msg :
  (let? doc := d in Ret (reply_message flags doc responseTo)) = Ret msg ->
  exists doc, d = Ret doc /\ msg = reply_message flags doc responseTo.
Proof. destruct d; intros [= <-]; eauto. Qed.

Lemma isMasterDocument_marshals kind now id doc : isMasterDocument kind now id = Ret doc -> exists d, bson_Marshal d = Ret doc.
Proof. destruct kind; cbn; [eauto..|done]. Qed.

Lemma handshake_reply_inv responseTo r msg :
  handshake_reply responseTo r -> r = Ret msg ->
  exists flags d doc, (flags = 0%Z \/ flags = resultFlagAwaitCapable) /\ bson_Marshal d = Ret doc /\
    msg = reply_message flags doc responseTo.
Proof.
  intros [] H; apply bind_reply in H as (doc & Hd & ->); [apply isMasterDocument_marshals in Hd as [d Hd]|..];
    eexists _, _, doc; (split; [|by split; [exact Hd|]]); auto.
Qed.

Section with_laws.
Context `{UC : UnicodeCase, DE : DriverErrors, WL : !WireLaws, ML : !MarshalLaws}.

(** C31.
    Every reply the proxy makes up itself is a well-formed message: its header
    carries the message's own length and answers the request it was made for,
    and decoding its bytes gives back exactly the operation kept beside them. *)
Theorem handshake_reply_answers responseTo r msg :
  handshake_reply responseTo r -> r = Ret msg -> is_int32 responseTo ->
  exists op, msg_Op msg = Some op /\
    (fits op ->
     (exists body, ReadHeader (msg_Wm msg) = Some (Z.of_nat (length (msg_Wm msg)), 0%Z, responseTo, OpReply, body)) /\
     Decode (msg_Wm msg) = Ret op).
Proof.
  intros Hr E Hto. destruct (handshake_reply_inv _ _ _ Hr E) as (flags & d & doc & Hf & Hd & ->).
  eexists. split; [done|]. intros Hfit. cbn [msg_Wm reply_message].
  set (reply := {| r_reqID := 0; r_flags := flags; r_cursorID := 0; r_startingFrom := 0; r_numReturned := 1; r_documents := [doc] |}) in *.
  change (opReply_Encode reply responseTo) with (om_Encode (op_methods (Op_reply reply)) responseTo). split.
  - rewrite Encode_message, length_message by done. exists (op_body (Op_reply reply)).
    apply ReadHeader_message; [done| |done]. eapply opcode_int32, (opcode_at (Op_reply reply)). done.
  - rewrite Encode_message, Decode_message by done. rewrite decode_as_body; [done..|].
    cbn. split_and!; [|done..|]; [by destruct Hf as [-> | ->]|]. repeat constructor. by eapply bson_Marshal_complete.
Qed.

End with_laws.

End Handshake.

(** ** Example *)

Section Example.

#[local] Existing Instance ascii_case.
#[local] Instance plain_kinds : Descriptions := plain_descriptions.

(** A marshaller of the one document [{ok: 1}]. *)
#[local] Instance ok_marshal : BsonMarshal :=
  {| bson_Marshal d := match d with [("ok", _)] => Ret (mk_doc (el_int32 "ok" 1)) | _ => Err "unsupported" end |}.

#[local] Instance ok_marshal_laws : MarshalLaws.
Proof.
  constructor. intros d b H. unfold bson_Marshal, ok_marshal in H. repeat case_match; simplify_eq. apply complete_mk_doc. by vm_compute.
Qed.

Lemma handshake_reply_answers_witness :
  exists msg op, TransactionResponse 7 "commit" = Ret msg /\ msg_Op msg = Some op /\ Decode (msg_Wm msg) = Ret op.
Proof.
  destruct (TransactionResponse 7 "commit") as [msg|e|why|] eqn:E; try (by vm_compute in E).
  destruct (handshake_reply_answers 7 _ msg (hr_transaction 7 "commit") E) as (op & Hop & H); [by vm_compute|].
  exists msg, op. split_and!; [done..|]. apply H. vm_compute in E. injection E as <-. injection Hop as <-. by vm_compute.
Defined.

End Example.
