(* ===== verification/Forwarder.v ===== *)
(** * Request forwarding between pods ([src/mongo/request_forwarder.go])

    The forwarder's connections to other pods and the forwarding of a request
    to the pod a session lives on.  The network below it is class [PodNet]: an
    abstract state [X] with dialling, writing and reading.  A [Read] that
    returns an error is [Err], whatever it may have read before; a read
    deadline is an argument of the read it applies to.  A [*PodConnection] is
    only reached through [connections], so it is stored there by value. *)

From S2P Require Import Prelude GoStrings ClientSettings DistributedCache.
From Stdlib Require Import ZArith Lia.

(** A [net.Conn]. *)
Notation NetRef := nat (only parsing).

Class PodNet (X : Type) := {
  net_Dial : string -> Z -> X -> outcome NetRef * X;
  net_SetKeepAlive : NetRef -> Z -> X -> X;
  net_Write : NetRef -> list byte -> X -> outcome unit * X;
  net_Read : NetRef -> option Z -> nat -> X -> outcome (list byte) * X;
  net_Now : X -> Z
}.

(** A [Read] into a buffer returns no more than the buffer holds. *)
Class PodNetLaws (X : Type) `{PN : PodNet X} : Prop := {
  net_Read_length conn deadline n x bs x' : net_Read conn deadline n x = (Ret bs, x') -> length bs <= n
}.

Record RequestForwarderConfig := {
  rfc_MaxConnections : Z;
  rfc_ConnectionTimeout : Z;
  rfc_KeepAlive : bool;
  rfc_KeepAliveInterval : Z
}.

Record PodConnection := {
  pod_podIP : string;
  pod_podPort : Z;
  pod_conn : option NetRef;
  pod_lastUsed : Z;
  pod_createdAt : Z;
  pod_requestCount : Z
}.

Record RequestForwarder (G : Type) := {
  rf_distributedCache : option (DistributedCache G);
  rf_connections : gmap string PodConnection;
  rf_config : RequestForwarderConfig
}.
Arguments rf_distributedCache {G}.
Arguments rf_connections {G}.
Arguments rf_config {G}.

Section Forwarder.
Context {X : Type} `{PN : PodNet X}.
Context {G : Type} `{GO : GroupOps G} `{JL : Json SessionLocation}.
Notation RF := (RequestForwarder G).

Definition set_rf_dc (dc : option (DistributedCache G)) (rf : RF) : RF :=
  {| rf_distributedCache := dc; rf_connections := rf_connections rf; rf_config := rf_config rf |}.
Definition set_rf_connections (m : gmap string PodConnection) (rf : RF) : RF :=
  {| rf_distributedCache := rf_distributedCache rf; rf_connections := m; rf_config := rf_config rf |}.

Definition NewRequestForwarder (config : RequestForwarderConfig) (distributedCache : option (DistributedCache G)) : RF :=
  {| rf_distributedCache := distributedCache; rf_connections := ∅; rf_config := config |}.

(** [fmt.Sprintf("%s:%d", podIP, podPort)] *)
Definition pod_key (podIP : string) (podPort : Z) : string := podIP +:+ ":" +:+ fmt_d podPort.

(** [rf.distributedCache != nil && rf.distributedCache.IsEnabled()] *)
Definition cache_enabled (rf : RF) : bool :=
  match rf_distributedCache rf with
  | Some dc => IsEnabled dc
  | None => false
  end.

(** A one-byte read with a deadline of one second. *)
Definition isHealthy (pc : PodConnection) (x : X) : bool * X :=
  match pod_conn pc with
  | None => (false, x)
  | Some conn =>
      let '(r, x) := net_Read conn (Some (net_Now x + Second)%Z) 1 x in
      (match r with Ret _ => false | _ => true end, x)
  end.

Definition createConnection (podIP : string) (podPort : Z) (rf : RF) (x : X) : outcome PodConnection * X :=
  let address := pod_key podIP podPort in
  let '(r, x) := net_Dial address (rfc_ConnectionTimeout (rf_config rf)) x in
  match r with
  | Err e => (Err ("failed to connect to " +:+ address +:+ ": " +:+ e), x)
  | Panic why => (Panic why, x)
  | NoFuel => (NoFuel, x)
  | Ret conn =>
      let x := if rfc_KeepAlive (rf_config rf) then net_SetKeepAlive conn (rfc_KeepAliveInterval (rf_config rf)) x else x in
      (Ret {| pod_podIP := podIP; pod_podPort := podPort; pod_conn := Some conn; pod_lastUsed := net_Now x;
              pod_createdAt := net_Now x; pod_requestCount := 0 |}, x)
  end.

(** [if conn, exists := rf.connections[key]; exists && conn.isHealthy() { return conn }] *)
Definition healthy_connection (key : string) (rf : RF) (x : X) : option PodConnection * X :=
  match rf_connections rf !! key with
  | None => (None, x)
  | Some conn => let '(healthy, x) := isHealthy conn x in (if healthy then Some conn else None, x)
  end.

(** The second look is under the write lock. *)
Definition getPodConnection (podIP : string) (podPort : Z) (rf : RF) (x : X) : outcome PodConnection * RF * X :=
  let key := pod_key podIP podPort in
  let '(found, x) := healthy_connection key rf x in
  match found with
  | Some conn => (Ret conn, rf, x)
  | None =>
      let '(found, x) := healthy_connection key rf x in
      match found with
      | Some conn => (Ret conn, rf, x)
      | None =>
          let '(r, x) := createConnection podIP podPort rf x in
          match r with
          | Ret newConn => (Ret newConn, set_rf_connections (<[key := newConn]> (rf_connections rf)) rf, x)
          | other => (other, rf, x)
          end
      end
  end.

(** [1024*1024] *)
Definition responseBuffer : nat := Z.to_nat 1048576.

(** [conn.lastUsed = time.Now(); conn.requestCount++] *)
Definition count_request (now : Z) (pc : PodConnection) : PodConnection :=
  {| pod_podIP := pod_podIP pc; pod_podPort := pod_podPort pc; pod_conn := pod_conn pc; pod_lastUsed := now;
     pod_createdAt := pod_createdAt pc; pod_requestCount := int64 (pod_requestCount pc + 1) |}.

Definition forwardToPod (sessionID : string) (request : list byte) (podIP : string) (podPort : Z) (clientIP : string)
    (rf : RF) (x : X) : outcome (option (list byte)) * RF * X :=
  let '(r, rf, x) := getPodConnection podIP podPort rf x in
  match r with
  | Err e => (Err ("failed to get connection to pod " +:+ pod_key podIP podPort +:+ ": " +:+ e), rf, x)
  | Panic why => (Panic why, rf, x)
  | NoFuel => (NoFuel, rf, x)
  | Ret pc =>
      match pod_conn pc with
      | None => (Panic "nil pointer dereference", rf, x)
      | Some conn =>
          let '(r, x) := net_Write conn request x in
          match r with
          | Err e => (Err ("failed to send request data: " +:+ e), rf, x)
          | Panic why => (Panic why, rf, x)
          | NoFuel => (NoFuel, rf, x)
          | Ret _ =>
              let rf := set_rf_connections (alter (count_request (net_Now x)) (pod_key podIP podPort) (rf_connections rf)) rf in
              let '(r, x) := net_Read conn None responseBuffer x in
              match r with
              | Err e => (Err ("failed to read response data: " +:+ e), rf, x)
              | Panic why => (Panic why, rf, x)
              | NoFuel => (NoFuel, rf, x)
              | Ret response => (Ret (Some response), rf, x)
              end
          end
      end
  end.

Definition getSessionLocation (sessionID : string) (rf : RF) (x : X) : option (string * Z) * RF :=
  match rf_distributedCache rf with
  | None => (None, rf)
  | Some dc =>
      if negb (IsEnabled dc) then (None, rf)
      else let '(location, dc) := GetSessionLocation sessionID (net_Now x) dc in (location, set_rf_dc (Some dc) rf)
  end.

Definition hasLocalSession (sessionID : string) (rf : RF) : bool :=
  if negb (cache_enabled rf) then false else false.

(** [nil, nil] is [Ret None]: the request is to be processed here. *)
Definition ForwardRequest (sessionID : string) (request : list byte) (clientIP : string) (rf : RF) (x : X)
    : outcome (option (list byte)) * RF * X :=
  if cache_enabled rf && hasLocalSession sessionID rf then (Ret None, rf, x)
  else
    let '(location, rf) := getSessionLocation sessionID rf x in
    match location with
    | None => (Ret None, rf, x)
    | Some (podIP, podPort) => forwardToPod sessionID request podIP podPort clientIP rf x
    end.

Definition RF_StoreSessionLocation (sessionID podIP : string) (podPort : Z) (rf : RF) (x : X) : outcome unit * RF :=
  match rf_distributedCache rf with
  | None => (Ret (), rf)
  | Some dc =>
      if negb (IsEnabled dc) then (Ret (), rf)
      else
        let '(r, dc) := StoreSessionLocation sessionID podIP podPort (net_Now x) dc in (r, set_rf_dc (Some dc) rf)
  end.

Record PodStats := {
  pst_pod : string;
  pst_created_at : Z;
  pst_last_used : Z;
  pst_request_count : Z;
  pst_healthy : bool
}.

(** The connections in the order the map is iterated, each asked for its health. *)
Definition GetStats (rf : RF) (x : X) : bool * nat * list PodStats * X :=
  let '(details, x) := fold_left (fun '(acc, x) '(key, conn) =>
    let '(healthy, x) := isHealthy conn x in
    (acc ++ [{| pst_pod := key; pst_created_at := pod_createdAt conn; pst_last_used := pod_lastUsed conn;
                pst_request_count := pod_requestCount conn; pst_healthy := healthy |}], x))
    (map_to_list (rf_connections rf)) ([], x) in
  (cache_enabled rf, size (rf_connections rf), details, x).

(** ** Properties *)

Lemma healthy_hit key rf x pc conn e x1 :
  rf_connections rf !! key = Some pc -> pod_conn pc = Some conn ->
  net_Read conn (Some (net_Now x + Second)%Z) 1 x = (Err e, x1) -> healthy_connection key rf x = (Some pc, x1).
Proof. intros H1 H2 H3. unfold healthy_connection, isHealthy. by rewrite H1, H2, H3. Qed.

Lemma healthy_miss key rf x pc conn bs x1 :
  rf_connections rf !! key = Some pc -> pod_conn pc = Some conn ->
  net_Read conn (Some (net_Now x + Second)%Z) 1 x = (Ret bs, x1) -> healthy_connection key rf x = (None, x1).
Proof. intros H1 H2 H3. unfold healthy_connection, isHealthy. by rewrite H1, H2, H3. Qed.

(** C37.
    A request is forwarded only if the cache is enabled and knows a location
    for its session; otherwise the caller is told to process it here and the
    network is not touched. *)
Theorem ForwardRequest_local sessionID request clientIP rf x :
  (forall dc, rf_distributedCache rf = Some dc -> IsEnabled dc = true ->
     fst (GetSessionLocation sessionID (net_Now x) dc) = None) ->
  let '(r, rf', x') := ForwardRequest sessionID request clientIP rf x in
  r = Ret None /\ x' = x /\ rf_connections rf' = rf_connections rf.
Proof.
  intros H. unfold ForwardRequest, hasLocalSession. replace (cache_enabled rf && _) with false by (by destruct (cache_enabled rf)).
  unfold getSessionLocation. destruct (rf_distributedCache rf) as [dc|]; [|done].
  destruct (IsEnabled dc) eqn:E; [|done]. cbn. specialize (H dc eq_refl E).
  destruct (GetSessionLocation _ _ _) as [location dc']. cbn in H. by subst.
Qed.

(** A connection to a pod is kept exactly when a read on it fails: a dead one
    (whose reads end in an error) is returned for the next request without
    dialling, while one with bytes to read loses two of them and is replaced,
    never closed. *)
Theorem getPodConnection_inverted podIP podPort rf x pc conn :
  rf_connections rf !! pod_key podIP podPort = Some pc -> pod_conn pc = Some conn ->
  (forall e x1, net_Read conn (Some (net_Now x + Second)%Z) 1 x = (Err e, x1) ->
     getPodConnection podIP podPort rf x = (Ret pc, rf, x1)) /\
  (forall b1 x1 b2 x2 fresh x3,
     net_Read conn (Some (net_Now x + Second)%Z) 1 x = (Ret b1, x1) ->
     net_Read conn (Some (net_Now x1 + Second)%Z) 1 x1 = (Ret b2, x2) ->
     createConnection podIP podPort rf x2 = (Ret fresh, x3) ->
     getPodConnection podIP podPort rf x =
       (Ret fresh, set_rf_connections (<[pod_key podIP podPort := fresh]> (rf_connections rf)) rf, x3)).
Proof.
  intros H1 H2. split.
  - intros e x1 H3. unfold getPodConnection. by rewrite (healthy_hit _ _ _ _ _ _ _ H1 H2 H3).
  - intros b1 x1 b2 x2 fresh x3 H3 H4 H5. unfold getPodConnection.
    by rewrite (healthy_miss _ _ _ _ _ _ _ H1 H2 H3), (healthy_miss _ _ _ _ _ _ _ H1 H2 H4), H5.
Qed.

(** A forwarded request is answered by a single read of at most one megabyte:
    a longer reply, or one that arrives in parts, is cut where the read ended
    and returned as the whole reply. *)
Theorem forwardToPod_cuts_reply `{PL : !PodNetLaws X} sessionID request podIP podPort clientIP rf x response rf' x' :
  forwardToPod sessionID request podIP podPort clientIP rf x = (Ret (Some response), rf', x') ->
  length response <= responseBuffer /\
  exists pc rf1 x1 conn x2, getPodConnection podIP podPort rf x = (Ret pc, rf1, x1) /\ pod_conn pc = Some conn /\
    net_Write conn request x1 = (Ret (), x2) /\ net_Read conn None responseBuffer x2 = (Ret response, x').
Proof.
  unfold forwardToPod. destruct (getPodConnection podIP podPort rf x) as [[[pc|e|why|] rf1] x1] eqn:E1; try done.
  destruct (pod_conn pc) as [conn|] eqn:E2; [|done].
  destruct (net_Write conn request x1) as [[[]|e|why|] x2] eqn:E3; try done.
  destruct (net_Read conn None responseBuffer x2) as [[bs|e|why|] x3] eqn:E4; try done.
  intros [= -> <- <-]. split; [by eapply net_Read_length|]. eexists _, _, _, _, _. by split_and!.
Qed.

End Forwarder.

(** ** Examples *)

Section Examples.

(** A network whose state is the bytes waiting to be read, or [None] if the peer is gone. *)
#[local] Instance sample_net : PodNet (option (list byte)) := {|
  net_Dial _ _ x := (Ret 6, Some [Byte.x0a; Byte.x0b]);
  net_SetKeepAlive _ _ x := x;
  net_Write _ _ x := (match x with Some _ => Ret () | None => Err "broken pipe" end, x);
  net_Read _ _ n x :=
    match x with
    | None => (Err "EOF", None)
    | Some [] => (Err "i/o timeout", Some [])
    | Some bs => (Ret (take n bs), Some (drop n bs))
    end;
  net_Now _ := 0%Z
|}.

#[local] Instance sample_net_laws : PodNetLaws (option (list byte)).
Proof. constructor. intros conn d n [[|b bs]|] l x'; cbn; try done. intros [= <- _]. rewrite length_take. lia. Qed.

#[local] Instance location_json : Json SessionLocation := table_json [].

Definition sample_pod : PodConnection :=
  {| pod_podIP := "10.0.0.7"; pod_podPort := 27017; pod_conn := Some 5; pod_lastUsed := 0; pod_createdAt := 0;
     pod_requestCount := 0 |}.
Definition sample_forwarder : RequestForwarder (gmap string (list byte)) :=
  {| rf_distributedCache := Some sample_dc; rf_connections := {[ "10.0.0.7:27017" := sample_pod ]};
     rf_config := {| rfc_MaxConnections := 10; rfc_ConnectionTimeout := Second; rfc_KeepAlive := true;
                     rfc_KeepAliveInterval := Second |} |}.

Lemma ForwardRequest_local_witness :
  fst (fst (ForwardRequest "s" [] "c" sample_forwarder (Some []))) = Ret None.
Proof.
  pose proof (ForwardRequest_local "s" [] "c" sample_forwarder (Some [])) as H.
  destruct (ForwardRequest "s" [] "c" sample_forwarder (Some [])) as [[r rf'] x']. apply H.
  intros dc [= <-] _. by vm_compute.
Defined.

(** The peer is gone, and its connection is used again. *)
Lemma getPodConnection_inverted_witness :
  getPodConnection "10.0.0.7" 27017 sample_forwarder None = (Ret sample_pod, sample_forwarder, None).
Proof. by apply (getPodConnection_inverted "10.0.0.7" 27017 sample_forwarder None sample_pod 5 eq_refl eq_refl) with (e := "EOF"). Defined.

(** A pod without a connection yet: it is dialled, and what has arrived by the first read is the reply. *)
Lemma forwardToPod_cuts_reply_witness :
  exists rf' x', forwardToPod "s" [] "10.0.0.8" 27017 "c" sample_forwarder (Some []) =
    (Ret (Some [Byte.x0a; Byte.x0b]), rf', x') /\ length [Byte.x0a; Byte.x0b] <= responseBuffer.
Proof.
  destruct (forwardToPod "s" [] "10.0.0.8" 27017 "c" sample_forwarder (Some [])) as [[r rf'] x'] eqn:E.
  assert (r = Ret (Some [Byte.x0a; Byte.x0b])) as ->.
  { change r with (fst (fst (r, rf', x'))). rewrite <- E. reflexivity. }
  exists rf', x'. split; [done|]. apply (forwardToPod_cuts_reply _ _ _ _ _ _ _ _ _ _ E).
Defined.

End Examples.
