(* ===== verification/CacheNode.v ===== *)
(** * Setting up the shared cache ([src/mongo/distributed_cache.go])

    How a pod joins the cache its peers share: the daemon, the discovery of the
    peers or their manual configuration, the four groups and the request
    forwarder.  The daemon is [groupcache]'s and the discovery [kubegroup]'s:
    class [Groupcache], on an outside state [X].  [DistributedCache.v] holds the
    operations on the groups, this file the life of the object around them. *)

From S2P Require Import Prelude GoStrings ClientSettings DistributedCache Forwarder.
From Stdlib Require Import ZArith Lia.

(** [peer.Info] *)
Record PeerInfo := { peer_Address : string; peer_IsSelf : bool }.

(** Handles of [groupcache.Daemon] and [kubegroup.Group]. *)
Notation DaemonRef := nat (only parsing).
Notation DiscoveryRef := nat (only parsing).
Notation KubeRef := nat (only parsing).

Class Groupcache (X G : Type) := {
  groupcache_ListenAndServe : string -> X -> outcome DaemonRef * X;
  daemon_SetPeers : DaemonRef -> list PeerInfo -> X -> outcome unit * X;
  daemon_NewGroup : DaemonRef -> string -> Z -> X -> outcome G * X;
  daemon_Shutdown : DaemonRef -> X -> X;
  kubeclient_New : bool -> X -> outcome KubeRef * X;
  kubegroup_UpdatePeers : KubeRef -> DaemonRef -> string -> string -> bool -> X -> outcome DiscoveryRef * X;
  discovery_Close : DiscoveryRef -> X -> X;
  group_Name : G -> string;
  group_UsedBytes : G -> Z * Z
}.

Record DistributedCacheConfig := {
  dcc_Enabled : bool;
  dcc_ListenAddr : string;
  dcc_ListenPort : Z;
  dcc_CacheSizeBytes : Z;
  dcc_SessionExpiry : Z;
  dcc_TransactionExpiry : Z;
  dcc_CursorExpiry : Z;
  dcc_Debug : bool;
  dcc_LabelSelector : string;
  dcc_PeerURLs : list string;
  dcc_RequestForwarding : RequestForwarderConfig
}.

(** The object: its groups are [cn_dc], which the forwarder shares. *)
Record cache_node (G : Type) := {
  cn_config : DistributedCacheConfig;
  cn_dc : DistributedCache G;
  cn_daemon : option DaemonRef;
  cn_discoveryGroup : option DiscoveryRef;
  cn_myAddress : string;
  cn_requestForwarder : option (RequestForwarder G)
}.
Arguments cn_config {G}.
Arguments cn_dc {G}.
Arguments cn_daemon {G}.
Arguments cn_discoveryGroup {G}.
Arguments cn_myAddress {G}.
Arguments cn_requestForwarder {G}.

(** The value of an entry of [GetStats]. *)
Inductive stat :=
| StatBool (b : bool)
| StatString (s : string)
| StatGroup (name : string) (used_bytes total_bytes : Z).

Section Node.
Context {X G : Type} `{GC : Groupcache X G}.
Implicit Types (n : cache_node G) (x : X).

(** [&DistributedCache{config: config, logger: logger, enabled: enabled}] *)
Definition bare_cache (config : DistributedCacheConfig) (enabled : bool) : DistributedCache G :=
  {| dc_enabled := enabled; dc_SessionExpiry := dcc_SessionExpiry config; dc_TransactionExpiry := dcc_TransactionExpiry config;
     dc_CursorExpiry := dcc_CursorExpiry config; dc_sessionGroup := None; dc_transactionGroup := None; dc_cursorGroup := None;
     dc_sessionLocationGroup := None |}.

Definition disabled_node (config : DistributedCacheConfig) : cache_node G :=
  {| cn_config := config; cn_dc := bare_cache config false; cn_daemon := None; cn_discoveryGroup := None; cn_myAddress := "";
     cn_requestForwarder := None |}.

(** [if len(peerAddr) > 7 && peerAddr[:7] == "http://" { peerAddr = peerAddr[7:] }] *)
Definition peer_address (peerURL : string) : string :=
  if (7 <? String.length peerURL)%nat && HasPrefix peerURL "http://"
  then str_drop 7 peerURL else peerURL.

Definition manual_peers (myAddress : string) (peerURLs : list string) : list PeerInfo :=
  {| peer_Address := myAddress; peer_IsSelf := true |} ::
  map (fun url => {| peer_Address := peer_address url; peer_IsSelf := false |}) peerURLs.

Definition default_selector : string := "app.kubernetes.io/name=mongobouncer".

(** Discovery by Kubernetes; its failures are only logged. *)
Definition start_discovery (config : DistributedCacheConfig) (daemon : DaemonRef) x : option DiscoveryRef * X :=
  match kubeclient_New (dcc_Debug config) x with
  | (Ret clientset, x) =>
      let labelSelector := if decide (dcc_LabelSelector config = "") then default_selector else dcc_LabelSelector config in
      match kubegroup_UpdatePeers clientset daemon labelSelector (":" +:+ fmt_d (dcc_ListenPort config)) (dcc_Debug config) x with
      | (Ret group, x) => (Some group, x)
      | (_, x) => (None, x)
      end
  | (_, x) => (None, x)
  end.

Definition join_peers (config : DistributedCacheConfig) (myAddress : string) (daemon : DaemonRef) x : option DiscoveryRef * X :=
  match dcc_PeerURLs config with
  | [] => start_discovery config daemon x
  | peerURLs => let '(_, x) := daemon_SetPeers daemon (manual_peers myAddress peerURLs) x in (None, x)
  end.

(** Go's [/] on [int64] truncates towards zero. *)
Definition group_size (config : DistributedCacheConfig) : Z := (dcc_CacheSizeBytes config ÷ 3)%Z.

Definition createGroup (config : DistributedCacheConfig) (daemon : DaemonRef) (name : string) x : option G * X :=
  match daemon_NewGroup daemon name (group_size config) x with
  | (Ret group, x) => (Some group, x)
  | (_, x) => (None, x)
  end.

Definition NewDistributedCache (config : DistributedCacheConfig) x : cache_node G * X :=
  if negb (dcc_Enabled config) then (disabled_node config, x)
  else
    let myAddress := dcc_ListenAddr config +:+ ":" +:+ fmt_d (dcc_ListenPort config) in
    match groupcache_ListenAndServe myAddress x with
    | (Ret daemon, x) =>
        let '(discoveryGroup, x) := join_peers config myAddress daemon x in
        let '(sessionGroup, x) := createGroup config daemon "sessions" x in
        let '(transactionGroup, x) := createGroup config daemon "transactions" x in
        let '(cursorGroup, x) := createGroup config daemon "cursors" x in
        let '(sessionLocationGroup, x) := createGroup config daemon "session_locations" x in
        let dc :=
          {| dc_enabled := true; dc_SessionExpiry := dcc_SessionExpiry config; dc_TransactionExpiry := dcc_TransactionExpiry config;
             dc_CursorExpiry := dcc_CursorExpiry config; dc_sessionGroup := sessionGroup; dc_transactionGroup := transactionGroup;
             dc_cursorGroup := cursorGroup; dc_sessionLocationGroup := sessionLocationGroup |} in
        ({| cn_config := config; cn_dc := dc; cn_daemon := Some daemon; cn_discoveryGroup := discoveryGroup;
            cn_myAddress := myAddress;
            cn_requestForwarder := Some (NewRequestForwarder (dcc_RequestForwarding config) (Some dc)) |}, x)
    | (_, x) => (disabled_node config, x)
    end.

(** [Start] only logs. *)
Definition Start n : option string := None.

Definition Stop n x : option string * X :=
  if negb (dc_enabled (cn_dc n)) then (None, x)
  else
    let x := match cn_discoveryGroup n with Some group => discovery_Close group x | None => x end in
    let x := match cn_daemon n with Some daemon => daemon_Shutdown daemon x | None => x end in
    (None, x).

Definition GetRequestForwarder n : option (RequestForwarder G) := cn_requestForwarder n.

Definition IsRequestForwardingEnabled n : bool :=
  dc_enabled (cn_dc n) && match cn_requestForwarder n with Some _ => true | None => false end.

(** [if dc.g != nil { stats[key] = ... }] *)
Definition add_group_stat (key : string) (g : option G) (stats : gmap string stat) : gmap string stat :=
  match g with
  | None => stats
  | Some g => let '(usedBytes, totalBytes) := group_UsedBytes g in <[key := StatGroup (group_Name g) usedBytes totalBytes]> stats
  end.

Definition DC_GetStats n : gmap string stat :=
  if negb (dc_enabled (cn_dc n)) then {[ "enabled" := StatBool false ]}
  else
    add_group_stat "cursor_group" (dc_cursorGroup (cn_dc n))
      (add_group_stat "transaction_group" (dc_transactionGroup (cn_dc n))
        (add_group_stat "session_group" (dc_sessionGroup (cn_dc n))
          (<["my_address" := StatString (cn_myAddress n)]> {[ "enabled" := StatBool true ]}))).

(** ** Properties *)

(** A node is consistent: enabled exactly when it has a daemon and a forwarder, which shares its groups. *)
Definition node_ok n : Prop :=
  if dc_enabled (cn_dc n)
  then (exists daemon, cn_daemon n = Some daemon) /\
       exists rf, cn_requestForwarder n = Some rf /\ rf_distributedCache rf = Some (cn_dc n) /\ rf_connections rf = ∅ /\
         rf_config rf = dcc_RequestForwarding (cn_config n)
  else n = disabled_node (cn_config n).

(** C27.
    Whatever the daemon and the cluster answer, set-up returns a consistent
    node: enabled, with a forwarder on the same groups and the expiries of the
    configuration, exactly when the cache is configured and the daemon listens;
    otherwise without daemon, groups and forwarder.  No failure stops it. *)
Theorem NewDistributedCache_spec config x :
  let '(n, _) := NewDistributedCache config x in
  node_ok n /\ cn_config n = config /\ dc_SessionExpiry (cn_dc n) = dcc_SessionExpiry config /\
  dc_TransactionExpiry (cn_dc n) = dcc_TransactionExpiry config /\ dc_CursorExpiry (cn_dc n) = dcc_CursorExpiry config /\
  (dc_enabled (cn_dc n) = true <-> dcc_Enabled config = true /\
     exists daemon, fst (groupcache_ListenAndServe (dcc_ListenAddr config +:+ ":" +:+ fmt_d (dcc_ListenPort config)) x) = Ret daemon) /\
  IsRequestForwardingEnabled n = dc_enabled (cn_dc n).
Proof.
  unfold NewDistributedCache. destruct (dcc_Enabled config) eqn:Ee; cbn [negb]; [|by split_and!; try split; naive_solver].
  destruct (groupcache_ListenAndServe _ x) as [[daemon|e|why|] x1]; [|by split_and!; try split; naive_solver..].
  destruct (join_peers _ _ _ x1) as [discovery x2].
  do 4 (destruct (createGroup config daemon _ _) as [? ?]).
  cbn. split_and!; try done; naive_solver.
Qed.

(** A peer given by URL is addressed by what follows [http://]; anything else is taken as it is. *)
Lemma peer_address_spec :
  (forall address, address <> "" -> peer_address ("http://" +:+ address) = address) /\
  (forall url, HasPrefix url "http://" = false -> peer_address url = url).
Proof.
  split; intros s H; unfold peer_address.
  - destruct s as [|c s]; [done|]. assert (HasPrefix ("http://" +:+ String c s) "http://" = true) as -> by (apply HasPrefix_spec; eauto).
    change (7 <? String.length ("http://" +:+ String c s)) with true. apply (str_drop_append "http://").
  - by rewrite H, andb_false_r.
Qed.

(** Each of the four groups gets a third of the configured size, so together they may hold more than it. *)
Theorem groups_exceed_size config :
  (9 <= dcc_CacheSizeBytes config)%Z -> (dcc_CacheSizeBytes config < 4 * group_size config)%Z.
Proof.
  intros H. unfold group_size. rewrite Z.quot_div_nonneg by lia.
  pose proof (Z.mod_pos_bound (dcc_CacheSizeBytes config) 3). pose proof (Z.div_mod (dcc_CacheSizeBytes config) 3). lia.
Qed.

(** The statistics of an enabled node show its address and three of the four groups; the session locations never appear. *)
Lemma stats_keys n key :
  is_Some (DC_GetStats n !! key) -> key ∈ ["enabled"; "my_address"; "session_group"; "transaction_group"; "cursor_group"].
Proof.
  intros [v H]. unfold DC_GetStats, add_group_stat in H.
  repeat case_match; rewrite ?lookup_insert_Some, ?lookup_singleton_Some in H; set_solver.
Qed.

End Node.
