(* ===== verification/Proxy.v ===== *)
(** * The proxy's registry of clients and its shutdown ([src/proxy/proxy.go])

    The MongoDB clients the proxy is to close, by name, its two channels, and
    the request forwarder it hands to its connections.  A channel that is only
    ever closed is a flag.  Closing the clients goes over a map, in an order
    that is not specified: here the order of [map_to_list]. *)

From S2P Require Import Prelude GoStrings Parsing Lru CacheInterface Wire Operations ClientSettings Router DistributedCache Forwarder.
From Stdlib Require Import ZArith Lia.

(** A nil client is [None]. *)
Record Proxy (G : Type) := {
  p_mongoClients : gmap string (option MongoRef);
  p_requestForwarder : option (RequestForwarder G);
  p_quit : bool;
  p_kill : bool
}.
Arguments p_mongoClients {G}.
Arguments p_requestForwarder {G}.
Arguments p_quit {G}.
Arguments p_kill {G}.

Section Proxy.
Context {G : Type}.
Implicit Types p : Proxy G.

Definition NewProxy (requestForwarder : option (RequestForwarder G)) : Proxy G :=
  {| p_mongoClients := ∅; p_requestForwarder := requestForwarder; p_quit := false; p_kill := false |}.

Definition set_mongoClients (x : gmap string (option MongoRef)) p : Proxy G :=
  {| p_mongoClients := x; p_requestForwarder := p_requestForwarder p; p_quit := p_quit p; p_kill := p_kill p |}.
Definition set_forwarder (x : option (RequestForwarder G)) p : Proxy G :=
  {| p_mongoClients := p_mongoClients p; p_requestForwarder := x; p_quit := p_quit p; p_kill := p_kill p |}.
Definition set_channels (quit kill : bool) p : Proxy G :=
  {| p_mongoClients := p_mongoClients p; p_requestForwarder := p_requestForwarder p; p_quit := quit; p_kill := kill |}.

Definition RegisterMongoClient (databaseName : string) (client : option MongoRef) p : Proxy G :=
  set_mongoClients (<[databaseName := client]> (p_mongoClients p)) p.

Definition UnregisterMongoClient (databaseName : string) p : Proxy G :=
  set_mongoClients (delete databaseName (p_mongoClients p)) p.

(** The clients [Close] is called on. *)
Definition CloseAllMongoClients p : list MongoRef * Proxy G :=
  if decide (size (p_mongoClients p) = 0) then ([], p)
  else (omap snd (map_to_list (p_mongoClients p)), set_mongoClients ∅ p).

(** [for databaseName, route := range databaseRouter.GetAllRoutes()]; a route the heap does not know is a nil dereference. *)
Definition RegisterStartupMongoClients {C} (heap : gmap RouteRef RouteConfig) (r : DatabaseRouter C) p : Proxy G :=
  set_mongoClients
    (map_fold (fun databaseName route clients =>
       match heap !! route ≫= rc_MongoClient with
       | Some client => <[databaseName := Some client]> clients
       | None => clients
       end) (p_mongoClients p) (GetAllRoutes r)) p.

(** [close(ch)] with the panic on a closed channel recovered. *)
Definition Shutdown p : list MongoRef * Proxy G :=
  let '(closed, p) := CloseAllMongoClients p in
  if p_quit p then (closed, p) else (closed, set_channels true (p_kill p) p).

Definition Kill p : list MongoRef * Proxy G :=
  let '(closed, p) := Shutdown p in
  if p_kill p then (closed, p) else (closed, set_channels (p_quit p) true p).

(** ** Properties *)

Lemma CloseAll_closes p :
  p_mongoClients (snd (CloseAllMongoClients p)) = ∅ /\
  forall client, client ∈ fst (CloseAllMongoClients p) <-> exists name, p_mongoClients p !! name = Some (Some client).
Proof.
  unfold CloseAllMongoClients. case_decide as E; cbn [fst snd].
  - apply map_size_empty_inv in E. rewrite E. split; [done|]. intros client. split; [set_solver|].
    intros [name H]. by rewrite lookup_empty in H.
  - split; [done|]. intros client. rewrite list_elem_of_omap. split.
    + intros ([name c] & Hx%elem_of_map_to_list & Hc). cbn in Hc. subst. eauto.
    + intros [name H]. exists (name, Some client). by rewrite elem_of_map_to_list.
Qed.


(** A name holds one client: when a new client is registered under a name in
    use, the one it replaces is forgotten and stopping the proxy does not close
    it, unless it is registered under another name too. *)
Theorem RegisterMongoClient_forgets p name old new :
  p_mongoClients p !! name = Some (Some old) -> new <> Some old ->
  (forall name', name' <> name -> p_mongoClients p !! name' <> Some (Some old)) ->
  old ∉ fst (Shutdown (RegisterMongoClient name new p)) /\ old ∉ fst (Kill (RegisterMongoClient name new p)).
Proof.
  intros Hold Hne Hother.
  assert (old ∉ fst (CloseAllMongoClients (RegisterMongoClient name new p))) as H.
  { rewrite (proj2 (CloseAll_closes _)). intros [name' H]. cbn in H.
    destruct (decide (name' = name)) as [->|Hn]; [rewrite lookup_insert_eq in H; congruence|].
    rewrite lookup_insert_ne in H by done. by apply (Hother name'). }
  unfold Kill, Shutdown. destruct (CloseAllMongoClients _) as [closed p1]. cbn in H. by repeat case_match; simplify_eq.
Qed.

End Proxy.


Lemma RegisterMongoClient_forgets_witness :
  let p := RegisterMongoClient "app" (Some 3) (NewProxy (G := unit) None) in
  3 ∉ fst (Shutdown (RegisterMongoClient "app" (Some 4) p)).
Proof.
  cbn zeta. apply (RegisterMongoClient_forgets (RegisterMongoClient "app" (Some 3) (NewProxy (G := unit) None)) "app" 3 (Some 4)); [done..|].
  intros name' Hn. cbn. by rewrite lookup_insert_ne by done.
Defined.
