(* ===== verification/Listener.v ===== *)
(** * The proxy's listener ([src/proxy/proxy.go], [run], [listen], [accept])

    The goroutines of one proxy: the accept loop, the one that closes the
    listener when the proxy quits, and for each connection its handler and the
    one that closes its socket when the proxy is killed.  The state has a
    program counter for each; [fire] executes one step of one of them, and is
    [None] when the step is not possible.  Runs are sequences of such steps, in
    any order the scheduler may choose.  What a handler does in between is
    [Connection.handleConnection]. *)

From S2P Require Import Prelude GoStrings Parsing Lru CacheInterface Wire Operations ClientSettings Router DistributedCache Forwarder Proxy.
From Stdlib Require Import ZArith Lia.

(** ** State *)

(** The goroutine of a connection, by the call it makes next. *)
Inductive handler_pc := Handling | Closing | SignallingDone | LeavingGroup | Reporting | Finished.

(** The one beside it, in its [select] or returned. *)
Inductive killer_pc := Watching | Gone.

Record accepted := {
  a_socket : bool;
  a_done : bool;
  a_handler : handler_pc;
  a_killer : killer_pc
}.

(** The accept loop: before [net.Listen], in [l.Accept()], in [wg.Wait()], or
    returned, with [net.Listen]'s error if that failed.  [Unwinding] is
    [wg.Wait()] too, called by [defer] during a panic of the loop (one before a
    connection is counted); [Restarting], after it, has recovered and started [p.run()] again in a goroutine of its own. *)
Inductive main_pc := Starting | Accepting | Waiting | Unwinding | Restarting | Returned (err : option string).

(** The goroutine that waits for [p.quit]. *)
Inductive quitter_pc := NotStarted | AwaitingQuit | QuitDone.

Record listener (G : Type) := {
  l_proxy : Proxy G;
  l_main : main_pc;
  l_quitter : quitter_pc;
  l_open : bool;
  l_umask : Z;
  l_wg : Z;
  l_conns : list accepted;
  l_opened : nat;
  l_closed : nat;
  l_disconnected : list MongoRef
}.
Arguments l_proxy {G}.
Arguments l_main {G}.
Arguments l_quitter {G}.
Arguments l_open {G}.
Arguments l_umask {G}.
Arguments l_wg {G}.
Arguments l_conns {G}.
Arguments l_opened {G}.
Arguments l_closed {G}.
Arguments l_disconnected {G}.

#[export] Instance handler_pc_eq : EqDecision handler_pc.
Proof. solve_decision. Defined.
#[export] Instance killer_pc_eq : EqDecision killer_pc.
Proof. solve_decision. Defined.
#[export] Instance main_pc_eq : EqDecision main_pc.
Proof. solve_decision. Defined.
#[export] Instance quitter_pc_eq : EqDecision quitter_pc.
Proof. solve_decision. Defined.

(** ** Steps *)

(** The steps of the goroutines, and the two calls that stop the proxy. *)
Inductive action :=
| Listen (err : option string)
| CloseListener
| Accept
| AcceptFails
| AcceptPanics
| Wait
| HandlerReturns (i : nat)
| CloseSocket (i : nat)
| CloseDone (i : nat)
| WgDone (i : nat)
| ReportClosed (i : nat)
| SeeDone (i : nat)
| SeeKill (i : nat)
| CallShutdown
| CallKill.

#[export] Instance action_eq : EqDecision action.
Proof. solve_decision. Defined.

Definition fresh_accepted : accepted := {| a_socket := true; a_done := false; a_handler := Handling; a_killer := Watching |}.

Definition set_handler (pc : handler_pc) (a : accepted) : accepted :=
  {| a_socket := a_socket a; a_done := a_done a; a_handler := pc; a_killer := a_killer a |}.
Definition set_killer (pc : killer_pc) (a : accepted) : accepted :=
  {| a_socket := a_socket a; a_done := a_done a; a_handler := a_handler a; a_killer := pc |}.
Definition close_socket (a : accepted) : accepted :=
  {| a_socket := false; a_done := a_done a; a_handler := a_handler a; a_killer := a_killer a |}.
Definition close_done (a : accepted) : accepted :=
  {| a_socket := a_socket a; a_done := true; a_handler := a_handler a; a_killer := a_killer a |}.

Section Listener.
Context {G : Type} (network : string) (umask : Z).
Notation L := (listener G).
Implicit Types s : L.

Definition set_main (pc : main_pc) s : L :=
  {| l_proxy := l_proxy s; l_main := pc; l_quitter := l_quitter s; l_open := l_open s; l_umask := l_umask s; l_wg := l_wg s;
     l_conns := l_conns s; l_opened := l_opened s; l_closed := l_closed s; l_disconnected := l_disconnected s |}.
Definition set_listener (quitter : quitter_pc) (open : bool) (mask : Z) s : L :=
  {| l_proxy := l_proxy s; l_main := l_main s; l_quitter := quitter; l_open := open; l_umask := mask; l_wg := l_wg s;
     l_conns := l_conns s; l_opened := l_opened s; l_closed := l_closed s; l_disconnected := l_disconnected s |}.
Definition set_conns (wg : Z) (conns : list accepted) (opened closed : nat) s : L :=
  {| l_proxy := l_proxy s; l_main := l_main s; l_quitter := l_quitter s; l_open := l_open s; l_umask := l_umask s; l_wg := wg;
     l_conns := conns; l_opened := opened; l_closed := closed; l_disconnected := l_disconnected s |}.
Definition set_proxy (stopped : list MongoRef * Proxy G) s : L :=
  {| l_proxy := snd stopped; l_main := l_main s; l_quitter := l_quitter s; l_open := l_open s; l_umask := l_umask s; l_wg := l_wg s;
     l_conns := l_conns s; l_opened := l_opened s; l_closed := l_closed s;
     l_disconnected := l_disconnected s ++ fst stopped |}.

(** [strings.Contains(p.network, "unix")] *)
Definition unix_network : bool := Contains network "unix".

(** The umask while the listener is open: [syscall.Umask(0)], put back by [defer]. *)
Definition listening_umask s : Z := if unix_network then 0%Z else l_umask s.

Definition quitting s : bool := p_quit (l_proxy s).
Definition killing s : bool := p_kill (l_proxy s).

(** A step of connection [i], if it is at [pc] and [guard] holds of it. *)
Definition on_conn_step (i : nat) (guard : accepted -> bool) (f : accepted -> accepted) (wg : Z) (reported : nat) s : option L :=
  a ← l_conns s !! i;
  if guard a then Some (set_conns (l_wg s + wg) (<[i := f a]> (l_conns s)) (l_opened s) (l_closed s + reported) s) else None.

Definition at_handler (pc : handler_pc) (a : accepted) : bool := bool_decide (a_handler a = pc).
Definition watching (a : accepted) : bool := bool_decide (a_killer a = Watching).

(** [defer wg.Wait()], then [defer l.Close()] and [defer syscall.Umask(oldUmask)]. *)
Definition leave (pc : main_pc) s : L := set_main pc (set_listener (l_quitter s) false umask s).

Definition fire (a : action) s : option L :=
  match a with
  | Listen (Some err) => if decide (l_main s = Starting) then Some (set_main (Returned (Some err)) s) else None
  | Listen None =>
      if decide (l_main s = Starting) then Some (set_main Accepting (set_listener AwaitingQuit true (listening_umask s) s)) else None
  | CloseListener =>
      if decide (l_quitter s = AwaitingQuit /\ quitting s = true)
      then Some (set_listener QuitDone false (l_umask s) s) else None
  | Accept =>
      if decide (l_main s = Accepting /\ l_open s = true)
      then Some (set_conns (l_wg s + 1) (l_conns s ++ [fresh_accepted]) (S (l_opened s)) (l_closed s) s) else None
  | AcceptFails =>
      if decide (l_main s = Accepting) then Some (if quitting s then set_main Waiting s else s) else None
  | AcceptPanics => if decide (l_main s = Accepting) then Some (set_main Unwinding s) else None
  | Wait =>
      if decide (l_wg s = 0%Z) then
        match l_main s with
        | Waiting => Some (leave (Returned None) s)
        | Unwinding => Some (leave Restarting s)
        | _ => None
        end
      else None
  | HandlerReturns i => on_conn_step i (at_handler Handling) (set_handler Closing) 0 0 s
  | CloseSocket i => on_conn_step i (at_handler Closing) (fun a => set_handler SignallingDone (close_socket a)) 0 0 s
  | CloseDone i => on_conn_step i (at_handler SignallingDone) (fun a => set_handler LeavingGroup (close_done a)) 0 0 s
  | WgDone i => on_conn_step i (at_handler LeavingGroup) (set_handler Reporting) (-1) 0 s
  | ReportClosed i => on_conn_step i (at_handler Reporting) (set_handler Finished) 0 1 s
  | SeeDone i => on_conn_step i (fun a => watching a && a_done a) (set_killer Gone) 0 0 s
  | SeeKill i => on_conn_step i (fun a => watching a && killing s) (fun a => set_killer Gone (close_socket a)) 0 0 s
  | CallShutdown => Some (set_proxy (Shutdown (l_proxy s)) s)
  | CallKill => Some (set_proxy (Kill (l_proxy s)) s)
  end.

(** A run of the proxy. *)
Fixpoint run (acts : list action) s : option L :=
  match acts with
  | [] => Some s
  | a :: acts => s ← fire a s; run acts s
  end.

Definition start (p : Proxy G) : L :=
  {| l_proxy := p; l_main := Starting; l_quitter := NotStarted; l_open := false; l_umask := umask; l_wg := 0; l_conns := [];
     l_opened := 0; l_closed := 0; l_disconnected := [] |}.

(** What [p.Run()] returns, once it has, and whether it left a new [p.run()] behind. *)
Definition Run_result s : option (option string * bool) :=
  match l_main s with
  | Returned err => Some (err, false)
  | Restarting => Some (None, true)
  | _ => None
  end.

End Listener.

(** ** The invariant *)

(** How far a handler has come. *)
Definition handler_rank (pc : handler_pc) : nat :=
  match pc with Handling => 0 | Closing => 1 | SignallingDone => 2 | LeavingGroup => 3 | Reporting => 4 | Finished => 5 end.
Definition rank (a : accepted) : nat := handler_rank (a_handler a).

(** Still counted by the wait group; its end already reported. *)
Definition counted (a : accepted) : nat := if decide (rank a < 4) then 1 else 0.
Definition reported (a : accepted) : nat := if decide (rank a = 5) then 1 else 0.

(** A handler past [c.Close()], or a killer that has returned, has closed the
    socket; [done] is closed once the handler is past [close(done)]. *)
Definition accepted_ok (a : accepted) : Prop :=
  (2 <= rank a -> a_socket a = false) /\ (a_done a = true <-> 3 <= rank a) /\ (a_killer a = Gone -> a_socket a = false).

Lemma sum_insert {A} (f : A -> nat) (l : list A) i a b :
  l !! i = Some a -> sum_list_with f (<[i := b]> l) + f a = sum_list_with f l + f b.
Proof. revert i. induction l as [|x l IH]; intros [|i] H; simplify_eq/=; [lia|]. specialize (IH i H). lia. Qed.

Lemma sum_zero {A} (f : A -> nat) (l : list A) : sum_list_with f l = 0 <-> Forall (fun a => f a = 0) l.
Proof. induction l as [|x l IH]; cbn; [by split|]. rewrite Forall_cons, <- IH. lia. Qed.

Section Invariant.
Context {G : Type} (network : string) (umask : Z).
Notation L := (listener G).
Notation fire := (fire network umask).
Notation run := (run network umask).
Implicit Types s : L.

(** The accept loop has the listener. *)
Definition listening (pc : main_pc) : bool :=
  match pc with Accepting | Waiting | Unwinding => true | _ => false end.

Record inv s : Prop := {
  inv_conns : Forall accepted_ok (l_conns s);
  inv_wg : l_wg s = Z.of_nat (sum_list_with counted (l_conns s));
  inv_opened : l_opened s = length (l_conns s);
  inv_closed : l_closed s = sum_list_with reported (l_conns s);
  inv_quit : l_main s = Waiting \/ l_main s = Returned None -> quitting s = true;
  inv_kill : killing s = true -> quitting s = true;
  inv_quitter : l_main s = Accepting -> if l_open s then l_quitter s = AwaitingQuit else quitting s = true;
  inv_awaiting : l_quitter s = QuitDone -> l_open s = false;
  inv_started : l_main s = Starting -> l_quitter s = NotStarted;
  inv_drained : listening (l_main s) = false -> l_wg s = 0%Z /\ l_open s = false;
  inv_umask : l_umask s = if listening (l_main s) && unix_network network then 0%Z else umask
}.

Lemma inv_start (p : Proxy G) : (p_kill p = true -> p_quit p = true) -> inv (start umask p).
Proof. intros H. split; try done; cbn; naive_solver. Qed.

(** A step of one connection. *)
Lemma inv_conn_step i guard f wg rep s s' :
  (wg <= 0)%Z ->
  (forall a, guard a = true -> accepted_ok a ->
     accepted_ok (f a) /\ Z.of_nat (counted (f a)) = (Z.of_nat (counted a) + wg)%Z /\ reported (f a) = reported a + rep) ->
  inv s -> on_conn_step i guard f wg rep s = Some s' -> inv s'.
Proof.
  intros Hwg Hf Hi. unfold on_conn_step. destruct (l_conns s !! i) as [a|] eqn:Ea; [|done]. cbn.
  destruct (guard a) eqn:Eg; [|done]. intros [= <-].
  destruct (Hf a Eg (Forall_lookup_1 _ _ _ _ (inv_conns s Hi) Ea)) as (H1 & H2 & H3).
  pose proof (sum_insert counted _ _ _ (f a) Ea). pose proof (sum_insert reported _ _ _ (f a) Ea). destruct Hi as [I1 I2 I3 I4 ? ? ? ? ? I9].
  split; cbn; try done.
  - by apply Forall_insert.
  - lia.
  - by rewrite length_insert.
  - lia.
  - intros Hm. destruct (I9 Hm) as [Hw Ho]. split; [|done]. rewrite I2 in *. lia.
Qed.

Lemma Shutdown_channels (p : Proxy G) : p_quit (snd (Shutdown p)) = true /\ p_kill (snd (Shutdown p)) = p_kill p.
Proof. unfold Shutdown, CloseAllMongoClients. case_decide; cbn; by destruct (p_quit p) eqn:E. Qed.
Lemma Kill_channels (p : Proxy G) : p_quit (snd (Kill p)) = true /\ p_kill (snd (Kill p)) = true.
Proof.
  unfold Kill. destruct (Shutdown_channels p) as [Hq Hk]. destruct (Shutdown p) as [closed p1]. cbn in *. by destruct (p_kill p1) eqn:E.
Qed.

(** Stopping the proxy touches its channels and its clients only. *)
Lemma inv_stop (stop : Proxy G -> list MongoRef * Proxy G) s :
  p_quit (snd (stop (l_proxy s))) = true -> inv s -> inv (set_proxy (stop (l_proxy s)) s).
Proof.
  intros Hq []. split; cbn; unfold quitting, killing in *; cbn; try done; try (by intros).
  intros ?; destruct (l_open s); naive_solver.
Qed.

Ltac conn_step Hi H :=
  refine (inv_conn_step _ _ _ _ _ _ _ _ _ Hi H); [lia|];
  intros [socket don pc killer]; unfold at_handler, watching, accepted_ok, counted, reported, rank; cbn;
  rewrite ?andb_true_iff, ?bool_decide_eq_true; intros Hg (H1 & [H2 H2'] & H3); destruct_and?; simplify_eq/=;
  repeat case_decide; split_and!; try done; try lia;
  repeat match goal with H : _ <= _ -> _ |- _ => first [specialize (H ltac:(lia)) | clear H] end;
  intuition (try done; try lia).

Lemma inv_fire a s s' : inv s -> fire a s = Some s' -> inv s'.
Proof.
  intros Hi H. destruct a; cbn in H; try (by conn_step Hi H).
  - destruct err as [err|], (decide (l_main s = Starting)) as [Em|]; simplify_eq; destruct Hi; split; cbn; rewrite ?Em in *; try done; try naive_solver.
  - case_decide as Hd; simplify_eq. destruct Hd as [Hw Hq], Hi. split; cbn; try done.
    + intros Hm. specialize (inv_started0 Hm). congruence.
    + intros Hm. by destruct (inv_drained0 Hm).
  - case_decide as Hd; simplify_eq. destruct Hd as [Hm Ho], Hi. rewrite Hm, Ho in *. split; cbn; rewrite ?Hm, ?Ho; try done.
    + apply Forall_app_2; [done|]. apply Forall_singleton. split_and!; cbn; [lia|split; [done|lia]|done].
    + rewrite sum_list_with_app. change (sum_list_with counted [fresh_accepted]) with 1. lia.
    + rewrite length_app. cbn. lia.
    + rewrite sum_list_with_app. change (sum_list_with reported [fresh_accepted]) with 0. lia.
  - case_decide as Hm; simplify_eq. destruct (quitting s) eqn:Eq; [|done]. destruct Hi. rewrite Hm in *. by split.
  - case_decide as Hm; simplify_eq. destruct Hi. rewrite Hm in *. split; cbn; try done; naive_solver.
  - case_decide as Hw; [|done]. destruct (l_main s) eqn:Em; simplify_eq; destruct Hi; rewrite Em in *; split; cbn; try done; naive_solver.
  - simplify_eq. apply inv_stop; [apply Shutdown_channels|done].
  - simplify_eq. apply inv_stop; [apply Kill_channels|done].
Qed.

Lemma inv_run acts s s' : inv s -> run acts s = Some s' -> inv s'.
Proof.
  revert s. induction acts as [|a acts IH]; intros s Hi; cbn; [by intros [= <-]|].
  destruct (fire a s) as [s1|] eqn:E; cbn; [|done]. by apply IH, (inv_fire a s).
Qed.

(** ** What the proxy leaves behind *)

(** C13.
    When [p.Run()] has returned after listening, by quitting or by recovering
    from a panic, no connection is left: the wait group is at zero, every
    connection the proxy has ever accepted has been handled, its socket is
    closed and its [done] channel too, the listener is closed and the umask is
    the one the process had.  It returns in this way only if it was told to
    quit, or after a panic. *)
Theorem Run_drains (p : Proxy G) acts s restarted :
  (p_kill p = true -> p_quit p = true) -> run acts (start umask p) = Some s -> Run_result s = Some (None, restarted) ->
  Forall (fun a => a_socket a = false /\ a_done a = true) (l_conns s) /\ l_wg s = 0%Z /\ l_open s = false /\ l_umask s = umask /\
  (restarted = false -> quitting s = true).
Proof.
  intros Hp Hr He. pose proof (inv_run acts _ _ (inv_start p Hp) Hr) as Hi.
  assert (listening (l_main s) = false) as Hm. { unfold Run_result in He. by destruct (l_main s). }
  destruct (inv_drained s Hi Hm) as [Hw Ho]. rewrite (inv_umask s Hi), Hm. split_and!; try done.
  - rewrite (inv_wg s Hi) in Hw. assert (sum_list_with counted (l_conns s) = 0) as Hs%sum_zero by lia.
    eapply Forall_impl; [apply Forall_and; split; [exact Hs|exact (inv_conns s Hi)]|].
    intros a [Hc (H1 & H2 & _)]. unfold counted in Hc. case_decide; [done|]. split; [apply H1; lia|apply H2; lia].
  - intros ->. apply (inv_quit s Hi). right. unfold Run_result in He. by destruct (l_main s); simplify_eq.
Qed.

(** C28.
    At any moment the wait group counts the connections whose handler has not
    called [wg.Done()], so it is never negative, and the calls of [opened] and
    [closed] differ by the connections whose handler has not ended. *)
Theorem open_connections_counted (p : Proxy G) acts s :
  (p_kill p = true -> p_quit p = true) -> run acts (start umask p) = Some s ->
  l_wg s = Z.of_nat (length (filter (fun a => rank a < 4) (l_conns s))) /\
  l_opened s = l_closed s + length (filter (fun a => a_handler a <> Finished) (l_conns s)).
Proof.
  intros Hp Hr. destruct (inv_run acts _ _ (inv_start p Hp) Hr) as [_ -> -> -> _ _ _ _ _ _ _].
  split; [f_equal|]; induction (l_conns s) as [|a l IH]; try done; rewrite filter_cons; cbn [sum_list_with length].
  - unfold counted at 1. repeat case_decide; cbn [length]; lia.
  - unfold reported at 1, rank. destruct (a_handler a); repeat case_decide; cbn [length handler_rank] in *; try done; lia.
Qed.

(** ** Killing *)

(** Steps the scheduler will let happen whatever the clients do: a handler
    returns once its socket is closed, and [Accept] fails once the listener is. *)
Definition forced (a : action) s : bool :=
  match a with
  | Listen (Some _) | Accept | AcceptPanics | CallShutdown | CallKill => false
  | AcceptFails => negb (l_open s)
  | HandlerReturns i => match l_conns s !! i with Some a => negb (a_socket a) | None => false end
  | _ => true
  end.

(** A connection whose goroutines have not both ended. *)
Lemma conn_progress i a s :
  killing s = true -> l_conns s !! i = Some a -> accepted_ok a -> ~ (a_handler a = Finished /\ a_killer a = Gone) ->
  exists act s', forced act s = true /\ fire act s = Some s'.
Proof.
  intros Hk Ha (H1 & H2 & H3) Hn. unfold forced. destruct (decide (a_killer a = Watching)) as [Ew|Ew].
  - exists (SeeKill i). cbn. unfold on_conn_step. rewrite Ha. cbn. unfold watching. rewrite bool_decide_true, Hk by done. by eexists.
  - assert (a_killer a = Gone) as Eg by (by destruct (a_killer a)).
    exists (match a_handler a with Handling => HandlerReturns i | Closing => CloseSocket i | SignallingDone => CloseDone i
      | LeavingGroup => WgDone i | _ => ReportClosed i end).
    destruct (a_handler a) eqn:Eh; cbn; unfold on_conn_step, at_handler; rewrite Ha; cbn; rewrite ?bool_decide_true by done;
      rewrite ?(H3 Eg); try (by eexists). tauto.
Qed.

(** What is left to do: the steps of the accept loop, of the goroutine that waits to quit, and of each connection. *)
Definition main_weight (pc : main_pc) : nat :=
  match pc with Starting => 4 | Accepting => 2 | Waiting | Unwinding => 1 | Restarting | Returned _ => 0 end.
Definition quitter_weight (pc : quitter_pc) : nat := match pc with AwaitingQuit => 1 | _ => 0 end.
Definition conn_weight (a : accepted) : nat := (5 - rank a) + match a_killer a with Watching => 1 | Gone => 0 end.
Definition weight s : nat :=
  main_weight (l_main s) + quitter_weight (l_quitter s) + sum_list_with conn_weight (l_conns s).

(** Steps of the proxy's own goroutines, and connections accepted, in a run. *)
Definition own_step (a : action) : nat := match a with CallShutdown | CallKill => 0 | _ => 1 end.
Definition is_accept (a : action) : nat := match a with Accept => 1 | _ => 0 end.

Lemma conn_step_weight i guard f wg rep s s' :
  (forall a, guard a = true -> S (conn_weight (f a)) <= conn_weight a) ->
  on_conn_step i guard f wg rep s = Some s' -> S (weight s') <= weight s /\ quitting s' = quitting s.
Proof.
  intros Hf. unfold on_conn_step. destruct (l_conns s !! i) as [a|] eqn:Ea; [|done]. cbn.
  destruct (guard a) eqn:Eg; [|done]. intros [= <-]. specialize (Hf a Eg). pose proof (sum_insert conn_weight _ _ _ (f a) Ea).
  unfold weight. cbn. split; [lia|done].
Qed.

Lemma fire_weight a s s' :
  quitting s = true -> fire a s = Some s' -> own_step a + weight s' <= weight s + 7 * is_accept a /\ quitting s' = true.
Proof.
  intros Hq H. destruct a; cbn [fire own_step is_accept] in *.
  7-13: eapply conn_step_weight in H as [H ->]; [split; [lia|done]|];
    intros [sk dn pc k]; unfold at_handler, watching, conn_weight, rank; cbn; rewrite ?andb_true_iff, ?bool_decide_eq_true; intros Hg;
    destruct_and?; simplify_eq/=; lia.
  - destruct err as [err|], (decide (l_main s = Starting)) as [Em|]; simplify_eq; unfold weight; cbn; rewrite Em; cbn; (split; [lia|done]).
  - case_decide as Hd; simplify_eq. destruct Hd as [Hd _]. unfold weight. cbn. rewrite Hd. cbn. split; [lia|done].
  - case_decide as Hd; simplify_eq. unfold weight. cbn. rewrite sum_list_with_app. cbn. split; [lia|done].
  - case_decide as Hd; simplify_eq. rewrite Hq. unfold weight. cbn. rewrite Hd. cbn. split; [lia|done].
  - case_decide as Hd; simplify_eq. unfold weight. cbn. rewrite Hd. cbn. split; [lia|done].
  - case_decide as Hd; [|done]. destruct (l_main s) eqn:Em; simplify_eq; unfold weight; cbn; rewrite Em; cbn; (split; [lia|done]).
  - simplify_eq. split; [unfold weight; cbn; lia|apply Shutdown_channels].
  - simplify_eq. split; [unfold weight; cbn; lia|apply Kill_channels].
Qed.

Lemma run_weight acts s s' :
  quitting s = true -> run acts s = Some s' ->
  sum_list_with own_step acts + weight s' <= weight s + 7 * sum_list_with is_accept acts.
Proof.
  revert s. induction acts as [|a acts IH]; intros s Hq; cbn -[Nat.mul]; [intros [= <-]; lia|].
  destruct (fire a s) as [s1|] eqn:E; cbn -[Nat.mul]; [|done]. intros Hr.
  destruct (fire_weight a s s1 Hq E) as [Hw Hq1]. specialize (IH s1 Hq1 Hr). lia.
Qed.

Lemma conn_step_quitter i guard f wg rep s s' : on_conn_step i guard f wg rep s = Some s' -> l_quitter s' = l_quitter s.
Proof. unfold on_conn_step. destruct (l_conns s !! i) as [a|]; cbn; [|done]. destruct (guard a); [|done]. by intros [= <-]. Qed.

(** Only [Kill] closes the kill channel, and nothing opens it again. *)
Lemma fire_keeps_kill a s s' : fire a s = Some s' -> a = CallKill \/ killing s' = killing s.
Proof.
  intros E. destruct a; cbn in E; unfold on_conn_step in E; try (by left); right.
  7-13: destruct (l_conns s !! i) as [a|]; cbn in E; [|done]; case_match; by simplify_eq.
  - destruct err; case_decide; by simplify_eq.
  - case_decide; by simplify_eq.
  - case_decide; by simplify_eq.
  - case_decide; [|done]. destruct (quitting s); by simplify_eq.
  - case_decide; by simplify_eq.
  - case_decide; [|done]. destruct (l_main s); by simplify_eq.
  - injection E as <-. apply Shutdown_channels.
Qed.

(** Once the listener is closed no connection is accepted any more. *)
Lemma run_closed acts s s' :
  inv s -> l_quitter s = QuitDone -> run acts s = Some s' -> sum_list_with is_accept acts = 0.
Proof.
  revert s. induction acts as [|a acts IH]; intros s Hi Hd; cbn; [done|].
  destruct (fire a s) as [s1|] eqn:E; cbn; [|done]. intros Hr. pose proof (inv_fire a s s1 Hi E) as Hi1.
  assert (is_accept a = 0 /\ l_quitter s1 = QuitDone) as [-> Hd1]; [|by apply (IH s1)].
  pose proof (inv_awaiting s Hi Hd) as Ho. pose proof (inv_started s Hi) as Hs.
  destruct a; cbn in E |- *; try (apply conn_step_quitter in E; by rewrite E).
  - destruct err as [err|], (decide (l_main s = Starting)) as [Em|]; simplify_eq; [done|]. rewrite (Hs Em) in Hd. done.
  - case_decide; by simplify_eq.
  - case_decide as Hc; [|done]. destruct Hc as [_ Hc]. congruence.
  - case_decide; [|done]. destruct (quitting s); by simplify_eq.
  - case_decide; by simplify_eq.
  - case_decide; [|done]. destruct (l_main s); by simplify_eq.
  - by simplify_eq.
  - by simplify_eq.
Qed.

(** Nothing is left to do: [p.Run()] has returned, and so have the goroutines it started. *)
Definition ended s : Prop :=
  Run_result s <> None /\ l_quitter s <> AwaitingQuit /\
  Forall (fun a => a_handler a = Finished /\ a_killer a = Gone) (l_conns s).

Lemma not_ended_conn (l : list accepted) :
  Forall (fun a => a_handler a = Finished /\ a_killer a = Gone) l \/
  exists i a, l !! i = Some a /\ ~ (a_handler a = Finished /\ a_killer a = Gone).
Proof.
  destruct (decide (Forall (fun a => a_handler a = Finished /\ a_killer a = Gone) l)) as [|H]; [by left|right].
  apply not_Forall_Exists in H; [|apply _]. apply Exists_exists in H as (a & [i Hi]%list_elem_of_lookup & Ha). by exists i, a.
Qed.

Lemma kill_progress s :
  inv s -> killing s = true -> ended s \/ exists act s', forced act s = true /\ fire act s = Some s'.
Proof.
  intros Hi Hk. pose proof (inv_kill s Hi Hk) as Hq. pose proof (inv_wg s Hi) as Hw.
  destruct (not_ended_conn (l_conns s)) as [Hall | (i & a & Ha & Hn)].
  2: { right. eapply conn_progress; [done|exact Ha| |done]. by eapply Forall_lookup_1; [exact (inv_conns s Hi)|]. }
  assert (sum_list_with counted (l_conns s) = 0) as Hz.
  { apply sum_zero. eapply Forall_impl; [exact Hall|]. intros a [E _]. unfold counted, rank. by rewrite E. }
  rewrite Hz in Hw. destruct (decide (l_quitter s = AwaitingQuit)) as [Ew|Ew].
  { right. eexists CloseListener, _. split; [done|]. cbn. by rewrite decide_True. }
  destruct (l_main s) eqn:Em.
  - right. exists (Listen None). eexists. split; [done|]. cbn. by rewrite decide_True.
  - right. exists AcceptFails. pose proof (inv_quitter s Hi Em) as Ho. cbn. rewrite decide_True by done.
    destruct (l_open s); [done|]. by eexists.
  - right. exists Wait. eexists. split; [done|]. cbn. by rewrite decide_True, Em.
  - right. exists Wait. eexists. split; [done|]. cbn. by rewrite decide_True, Em.
  - left. split_and!; [by unfold Run_result; rewrite Em|done|done].
  - left. split_and!; [by unfold Run_result; rewrite Em|done|done].
Qed.

(** C12.
    Killing the proxy ends it, whatever its clients do.  From any state of a
    killed proxy, a run takes at most [weight] steps and seven more for each
    connection that still gets accepted, and none is once the listener is
    closed; and until [p.Run()] has returned and every goroutine of every
    connection has ended there is a step that no client can hold up. *)
Theorem Kill_ends (p : Proxy G) acts s :
  (p_kill p = true -> p_quit p = true) -> run acts (start umask p) = Some s -> killing s = true ->
  (forall more s', run more s = Some s' ->
     sum_list_with own_step more <= weight s + 7 * sum_list_with is_accept more /\
     (l_quitter s = QuitDone -> sum_list_with is_accept more = 0)) /\
  (ended s \/ exists act s', forced act s = true /\ fire act s = Some s').
Proof.
  intros Hp Hr Hk. pose proof (inv_run acts _ _ (inv_start p Hp) Hr) as Hi. split; [|by apply kill_progress].
  intros more s' Hm. split; [|by intros Hd; apply (run_closed more s s')].
  pose proof (run_weight more s s' (inv_kill s Hi Hk) Hm). lia.
Qed.

End Invariant.

(** ** Runs *)

Definition fresh_proxy : Proxy unit := NewProxy None.

(** One connection, closed by its client while the proxy shuts down: [p.Run()]
    returns, and so does the process, before its end has been reported. *)
Definition graceful : list action :=
  [Listen None; Accept; CallShutdown; CloseListener; AcceptFails; HandlerReturns 0; CloseSocket 0; CloseDone 0; WgDone 0; Wait].

(** [wg.Done()] comes before [closed("connection_closed")], so the proxy may
    return with the [open_connections] gauge above zero and no connection open. *)
Lemma closing_unreported :
  exists s, run "tcp" 18 graceful (start 18 fresh_proxy) = Some s /\ l_main s = Returned None /\ l_opened s = 1 /\ l_closed s = 0.
Proof.
  destruct (run "tcp" 18 graceful (start 18 fresh_proxy)) as [s|] eqn:E; vm_compute in E; [|discriminate E].
  injection E as <-. by eexists.
Qed.

Lemma Run_drains_witness :
  exists s, run "tcp" 18 graceful (start 18 fresh_proxy) = Some s /\
    Forall (fun a => a_socket a = false /\ a_done a = true) (l_conns s) /\ length (l_conns s) = 1.
Proof.
  destruct (run "tcp" 18 graceful (start 18 fresh_proxy)) as [s|] eqn:E; [|vm_compute in E; discriminate E].
  pose proof (Run_drains "tcp" 18 fresh_proxy graceful s false ltac:(done) E) as H.
  vm_compute in E. injection E as <-. eexists. split; [reflexivity|]. split; [|reflexivity]. exact (proj1 (H eq_refl)).
Defined.

Lemma open_connections_counted_witness :
  exists s, run "tcp" 18 (take 3 graceful) (start 18 fresh_proxy) = Some s /\ l_opened s = l_closed s + 1.
Proof.
  destruct (run "tcp" 18 (take 3 graceful) (start 18 fresh_proxy)) as [s|] eqn:E; [|vm_compute in E; discriminate E].
  pose proof (open_connections_counted "tcp" 18 fresh_proxy (take 3 graceful) s ltac:(done) E) as H.
  vm_compute in E. injection E as <-. eexists. split; [reflexivity|]. exact (proj2 H).
Defined.

(** A connection whose client never sends anything, and a kill. *)
Definition killed : list action := [Listen None; Accept; CallKill; CloseListener].

Lemma Kill_ends_witness :
  exists s, run "unix" 18 killed (start 18 fresh_proxy) = Some s /\ l_umask s = 0%Z /\
    (forall more s', run "unix" 18 more s = Some s' -> sum_list_with own_step more <= 8).
Proof.
  destruct (run "unix" 18 killed (start 18 fresh_proxy)) as [s|] eqn:E; [|vm_compute in E; discriminate E].
  pose proof (Kill_ends "unix" 18 fresh_proxy killed s ltac:(done) E) as H.
  vm_compute in E. injection E as <-. eexists. split; [reflexivity|]. split; [reflexivity|]. intros more s' Hm.
  destruct (H eq_refl) as [H1 _]. destruct (H1 more s' Hm) as [H2 H3]. rewrite (H3 eq_refl) in H2. exact H2.
Defined.
