(* ===== verification/Connection.v ===== *)
(** * The client connection handler ([src/proxy/connection.go])

    One client's connection: reading its messages, answering handshakes,
    checking credentials, routing each request to a MongoDB client and through
    the pool, and writing the replies.

    What a handler touches is the record [cstate]: its own fields, the metrics,
    the pool manager, the router, the heap of routes and the proxy, all shared,
    and the outside [X].  The bytes the client sends over the life of the
    connection are [s_in], and the error that reading past them gives is
    [s_end].  Class [World] is what lies below: [RoundTrip] on a MongoDB client
    (a reference), connecting one, and writing to the client.  Statements are
    in a state and error monad; a Go panic is [Crash], recovered by
    [handleConnection] alone. *)

From S2P Require Import Prelude GoStrings GoUrl Parsing Wire Command Operations Lru CacheInterface.
From S2P Require Import ClientSettings Router Pool DistributedCache Sessions Caches Mongo RoundTrip Topology.
From S2P Require Import Handshake Forwarder Proxy.
From Stdlib Require Import ZArith Lia Ascii.

(** ** The outside *)

Class World (X : Type) `{EV : ErrorValues} `{CO : ClientOptionsOps} := {
  mongo_RoundTrip : MongoRef -> Message -> list string -> X -> result DriverError Message * X;
  mongo_Connect : ClientOptions -> X -> result DriverError MongoRef * X;
  ApplyURI : string -> ClientOptions;
  conn_Write : list byte -> X -> option DriverError * X;
  checkout_time : X -> Z;
  NewObjectID : X -> list byte;
  io_EOF : DriverError;
  io_ErrUnexpectedEOF : DriverError
}.

(** The handler's own fields; of [buffer] only the capacity matters between messages. *)
Record connection := {
  c_address : string;
  c_buffer_cap : Z;
  c_clientID : string;
  c_intendedDatabase : string;
  c_routeConfig : option RouteRef;
  c_clientUsername : string;
  c_clientPassword : string;
  c_clientAuthSource : string;
  c_authEnabled : bool;
  c_regexCredentialPassthrough : bool;
  c_mongodbDefaults : MongoDBClientConfig;
  c_databaseUsed : string;
  c_isUsingCredentialPassthrough : bool
}.

Definition set_buffer_cap (n : Z) (c : connection) : connection :=
  {| c_address := c_address c; c_buffer_cap := n; c_clientID := c_clientID c; c_intendedDatabase := c_intendedDatabase c;
     c_routeConfig := c_routeConfig c; c_clientUsername := c_clientUsername c; c_clientPassword := c_clientPassword c;
     c_clientAuthSource := c_clientAuthSource c; c_authEnabled := c_authEnabled c;
     c_regexCredentialPassthrough := c_regexCredentialPassthrough c; c_mongodbDefaults := c_mongodbDefaults c;
     c_databaseUsed := c_databaseUsed c; c_isUsingCredentialPassthrough := c_isUsingCredentialPassthrough c |}.
Definition set_databases (used intended : string) (c : connection) : connection :=
  {| c_address := c_address c; c_buffer_cap := c_buffer_cap c; c_clientID := c_clientID c; c_intendedDatabase := intended;
     c_routeConfig := c_routeConfig c; c_clientUsername := c_clientUsername c; c_clientPassword := c_clientPassword c;
     c_clientAuthSource := c_clientAuthSource c; c_authEnabled := c_authEnabled c;
     c_regexCredentialPassthrough := c_regexCredentialPassthrough c; c_mongodbDefaults := c_mongodbDefaults c;
     c_databaseUsed := used; c_isUsingCredentialPassthrough := c_isUsingCredentialPassthrough c |}.
Definition set_credentials (username password authSource : string) (c : connection) : connection :=
  {| c_address := c_address c; c_buffer_cap := c_buffer_cap c; c_clientID := c_clientID c;
     c_intendedDatabase := c_intendedDatabase c; c_routeConfig := c_routeConfig c; c_clientUsername := username;
     c_clientPassword := password; c_clientAuthSource := authSource; c_authEnabled := c_authEnabled c;
     c_regexCredentialPassthrough := c_regexCredentialPassthrough c; c_mongodbDefaults := c_mongodbDefaults c;
     c_databaseUsed := c_databaseUsed c; c_isUsingCredentialPassthrough := c_isUsingCredentialPassthrough c |}.
Definition set_route (route : RouteRef) (intended : string) (passthrough : bool) (c : connection) : connection :=
  {| c_address := c_address c; c_buffer_cap := c_buffer_cap c; c_clientID := c_clientID c; c_intendedDatabase := intended;
     c_routeConfig := Some route; c_clientUsername := c_clientUsername c; c_clientPassword := c_clientPassword c;
     c_clientAuthSource := c_clientAuthSource c; c_authEnabled := c_authEnabled c;
     c_regexCredentialPassthrough := c_regexCredentialPassthrough c; c_mongodbDefaults := c_mongodbDefaults c;
     c_databaseUsed := c_databaseUsed c; c_isUsingCredentialPassthrough := passthrough |}.

Definition set_MongoClient (client : option MongoRef) (r : RouteConfig) : RouteConfig :=
  {| rc_DatabaseName := rc_DatabaseName r; rc_MongoClient := client; rc_ConnectionString := rc_ConnectionString r;
     rc_PoolMode := rc_PoolMode r; rc_MaxConnections := rc_MaxConnections r; rc_Label := rc_Label r;
     rc_DatabaseConfig := rc_DatabaseConfig r; rc_CredentialClients := rc_CredentialClients r |}.
Definition set_CredentialClients (cache : option (Lru.Cache string MongoRef)) (r : RouteConfig) : RouteConfig :=
  {| rc_DatabaseName := rc_DatabaseName r; rc_MongoClient := rc_MongoClient r; rc_ConnectionString := rc_ConnectionString r;
     rc_PoolMode := rc_PoolMode r; rc_MaxConnections := rc_MaxConnections r; rc_Label := rc_Label r;
     rc_DatabaseConfig := rc_DatabaseConfig r; rc_CredentialClients := cache |}.

(** ** Pure helpers *)

Definition quote : string := String "034"%char "".

(** The patterns looked for in an operation's text, in order. *)
Definition database_patterns : list (string -> option string) :=
  [match_numbered "sustained_db_"; match_numbered "longrun_db_"; match_numbered "test_db_"; match_numbered "burst_db_";
   match_numbered "storm_db_"; match_numbered "concurrent_db_"; match_numbered "random_db_"; match_literal "webapp_test";
   match_literal "background_test"; match_literal "analytics_test"; match_generic].

Fixpoint first_match (patterns : list (string -> option string)) (opString : string) : string :=
  match patterns with
  | [] => ""
  | pattern :: patterns =>
      let match_ := FindString pattern opString in
      if decide (match_ <> "") then match_ else first_match patterns opString
  end.

Definition extractHostAndPort (hostPort : string) : string * string :=
  if HasPrefix hostPort "[" then
    match Index hostPort "]" with
    | None => ("", "")
    | Some closeBracket =>
        let host := str_drop 1 (str_take closeBracket hostPort) in
        if HasPrefix (str_drop (S closeBracket) hostPort) ":" then (host, str_drop (closeBracket + 2) hostPort)
        else (host, "27017")
    end
  else
    match LastIndex hostPort ":" with
    | None => (hostPort, "27017")
    | Some colonIndex => (str_take colonIndex hostPort, str_drop (S colonIndex) hostPort)
    end.

Definition extractHostFromRoute (connectionString : string) : string * string :=
  if decide (connectionString = "") then ("", "")
  else if negb (HasPrefix connectionString "mongodb://") then ("", "")
  else
    let withoutScheme := TrimPrefix connectionString "mongodb://" in
    let hostPortPart :=
      match Index withoutScheme "@" with
      | Some atIndex => str_drop (S atIndex) withoutScheme
      | None => withoutScheme
      end in
    match Index hostPortPart "/" with
    | None => extractHostAndPort hostPortPart
    | Some slashIndex => extractHostAndPort (str_take slashIndex hostPortPart)
    end.

Definition isWildcardOrRegexMatch (targetDatabase : string) (route : RouteConfig) : bool :=
  let routePattern := rc_DatabaseName route in
  if Contains routePattern "*" then true
  else if decide (routePattern = "*") then true
  else if decide (routePattern <> targetDatabase) then true
  else false.

Definition connectionErrorPatterns : list string :=
  ["connection refused"; "connection reset"; "connection timeout"; "network is unreachable"; "no such host";
   "context deadline exceeded"; "server selection error"; "topology closed"; "connection pool closed";
   "connection not available"].

Definition sanitizeConnectionString `{UnicodeCase} (connStr : string) : outcome string :=
  let? connInfo := ParseConnectionString connStr in
  if decide (cs_Username connInfo <> "" /\ cs_Password connInfo <> "") then
    Ret (Replace1 connStr (cs_Username connInfo +:+ ":" +:+ cs_Password connInfo) (cs_Username connInfo +:+ ":***"))
  else Ret connStr.

Definition extractCredentialsFromConnectionString `{GoQuote} (connStr : string) : outcome (string * string) :=
  match url_Parse connStr with
  | Err e => Err ("failed to parse connection string: " +:+ e)
  | Panic why => Panic why
  | NoFuel => NoFuel
  | Ret parsedURL =>
      match url_User parsedURL with
      | None => Ret ("", "")
      | Some user => Ret (ui_Username user, default "" (ui_Password user))
      end
  end.

(** The value between the first [name] key and the next quote. *)
Definition appName_of (opStr : string) : string :=
  if Contains opStr "application" && Contains opStr "name" then
    match Index opStr (quote +:+ "name" +:+ quote +:+ ": " +:+ quote) with
    | None => ""
    | Some start =>
        let tail := str_drop (start + 9) opStr in
        match Index tail quote with
        | None => ""
        | Some end_ => str_take end_ tail
        end
    end
  else "".

Definition parseAppNameCredentials `{UnicodeCase, GoQuote} (appName : string)
    : outcome (string * string * string * string) :=
  let appInfo := ParseAppName appName in
  if decide (an_Database appInfo <> "" /\ an_Username appInfo <> "" /\ an_Password appInfo <> "") then
    let database := TrimSpace (an_Database appInfo) in
    let username := TrimSpace (an_Username appInfo) in
    let password := TrimSpace (an_Password appInfo) in
    let authSource := TrimSpace (an_AuthSource appInfo) in
    if decide (database = "" \/ username = "" \/ password = "") then
      Err "database, username and password cannot be empty"
    else Ret (database, username, password, authSource)
  else
    Err ("appName must be in format 'database:username:password:authSource' or 'database:username:password', got: " +:+
         appName).

(** ** The state of a handler *)

Section Connection.
Context `{UC : UnicodeCase, RX : RegexpOther, GQ : GoQuote, WM : Wiremessage, BS : Bsoncore, BM : BsonMarshal, DS : Descriptions}.
Context `{DE : DriverErrors, EV : !ErrorValues, CO : ClientOptionsOps}.
Context {X : Type} `{WD : !World X} `{PN : !PodNet X}.
Context {G : Type} `{GO : GroupOps G} `{JL : Json SessionLocation}.
Context {RC : Type} `{BRC : BoundedCache string RouteRef RC}.
Notation error := DriverError (only parsing).

Record cstate := {
  s_c : connection;
  s_metrics : option (list MetricCall);
  s_pool : option Manager;
  s_router : option (DatabaseRouter RC);
  s_routes : gmap RouteRef RouteConfig;
  s_proxy : option (Proxy G);
  s_in : list byte;
  s_end : error;
  s_sent : list (list byte);
  s_x : X
}.

Definition upd_c (f : connection -> connection) (st : cstate) : cstate :=
  {| s_c := f (s_c st); s_metrics := s_metrics st; s_pool := s_pool st; s_router := s_router st; s_routes := s_routes st;
     s_proxy := s_proxy st; s_in := s_in st; s_end := s_end st; s_sent := s_sent st; s_x := s_x st |}.
Definition set_cmetrics (l : option (list MetricCall)) (st : cstate) : cstate :=
  {| s_c := s_c st; s_metrics := l; s_pool := s_pool st; s_router := s_router st; s_routes := s_routes st;
     s_proxy := s_proxy st; s_in := s_in st; s_end := s_end st; s_sent := s_sent st; s_x := s_x st |}.
Definition set_cpool (m : option Manager) (st : cstate) : cstate :=
  {| s_c := s_c st; s_metrics := s_metrics st; s_pool := m; s_router := s_router st; s_routes := s_routes st;
     s_proxy := s_proxy st; s_in := s_in st; s_end := s_end st; s_sent := s_sent st; s_x := s_x st |}.
Definition set_crouter (r : option (DatabaseRouter RC)) (st : cstate) : cstate :=
  {| s_c := s_c st; s_metrics := s_metrics st; s_pool := s_pool st; s_router := r; s_routes := s_routes st;
     s_proxy := s_proxy st; s_in := s_in st; s_end := s_end st; s_sent := s_sent st; s_x := s_x st |}.
Definition set_croutes (m : gmap RouteRef RouteConfig) (st : cstate) : cstate :=
  {| s_c := s_c st; s_metrics := s_metrics st; s_pool := s_pool st; s_router := s_router st; s_routes := m;
     s_proxy := s_proxy st; s_in := s_in st; s_end := s_end st; s_sent := s_sent st; s_x := s_x st |}.
Definition set_cproxy (p : option (Proxy G)) (st : cstate) : cstate :=
  {| s_c := s_c st; s_metrics := s_metrics st; s_pool := s_pool st; s_router := s_router st; s_routes := s_routes st;
     s_proxy := p; s_in := s_in st; s_end := s_end st; s_sent := s_sent st; s_x := s_x st |}.
Definition set_cx (x : X) (st : cstate) : cstate :=
  {| s_c := s_c st; s_metrics := s_metrics st; s_pool := s_pool st; s_router := s_router st; s_routes := s_routes st;
     s_proxy := s_proxy st; s_in := s_in st; s_end := s_end st; s_sent := s_sent st; s_x := x |}.
Definition set_cin (l : list byte) (st : cstate) : cstate :=
  {| s_c := s_c st; s_metrics := s_metrics st; s_pool := s_pool st; s_router := s_router st; s_routes := s_routes st;
     s_proxy := s_proxy st; s_in := l; s_end := s_end st; s_sent := s_sent st; s_x := s_x st |}.
Definition add_sent (wm : list byte) (st : cstate) : cstate :=
  {| s_c := s_c st; s_metrics := s_metrics st; s_pool := s_pool st; s_router := s_router st; s_routes := s_routes st;
     s_proxy := s_proxy st; s_in := s_in st; s_end := s_end st; s_sent := s_sent st ++ [wm]; s_x := s_x st |}.

(** [if c.metrics != nil { ... }] *)
Definition emit_c (calls : list MetricCall) (st : cstate) : cstate := set_cmetrics (log_metrics calls (s_metrics st)) st.

Definition cnow (st : cstate) : Z := net_Now (s_x st).

(** *** The monad *)

Definition CM (A : Type) : Type := cstate -> result error A * cstate.

Definition cret {A} (a : A) : CM A := fun st => (Ok a, st).
Definition cbind {A B} (m : CM A) (k : A -> CM B) : CM B := fun st =>
  match m st with
  | (Ok a, st) => k a st
  | (Fail e, st) => (Fail e, st)
  | (Crash why, st) => (Crash why, st)
  end.
Definition cfail {A} (text : string) : CM A := fun st => (Fail (errors_New text), st).
Definition ccrash {A} : CM A := fun st => (Crash "nil pointer dereference", st).
Definition modify (f : cstate -> cstate) : CM unit := fun st => (Ok (), f st).

Notation "'do!' x := m 'in' k" := (cbind m (fun x => k)) (at level 10, x pattern, m at level 100, k at level 200).

(** An [outcome], its error wrapped as [fmt.Errorf] does. *)
Definition clift {A} (wrap : string -> string) (o : outcome A) : CM A := fun st =>
  match o with
  | Ret a => (Ok a, st)
  | Err e => (Fail (errors_New (wrap e)), st)
  | Panic why => (Crash why, st)
  | NoFuel => (Crash "", st)
  end.

(** The configuration behind a route pointer. *)
Definition deref_route (route : RouteRef) : CM RouteConfig := fun st =>
  match s_routes st !! route with
  | Some r => (Ok r, st)
  | None => (Crash "nil pointer dereference", st)
  end.
Definition upd_route (route : RouteRef) (f : RouteConfig -> RouteConfig) (st : cstate) : cstate :=
  set_croutes (alter f route (s_routes st)) st.

(** [c.databaseRouter.GetRoute(db)], a panic when there is no router. *)
Definition lookup_route (db : string) (st : cstate) : outcome RouteRef * cstate :=
  match s_router st with
  | None => (Panic "nil pointer dereference", st)
  | Some r => let '(route, r) := GetRoute db (cnow st) r in (route, set_crouter (Some r) st)
  end.
Definition get_route (db : string) (wrap : string -> string) : CM RouteRef := fun st =>
  let '(route, st) := lookup_route db st in clift wrap route st.

(** A method of the pool manager, which has the same metrics object. *)
Definition on_pool {A} (f : Manager -> A * Manager) (m : Manager) (st : cstate) : A * cstate :=
  let lent := match metrics m with Some _ => s_metrics st | None => None end in
  let '(a, m) := f (Pool.set_metrics lent m) in
  (a, set_cpool (Some m) (match metrics m with Some log => set_cmetrics (Some log) st | None => st end)).

(** ** The database of an operation *)

(** The name found in the operation, or else the one in use on the connection. *)
Definition database_of (op : Operation) (intendedDatabase : string) : string :=
  let collection := snd (om_CommandAndCollection (op_methods op)) in
  let databaseName :=
    if decide (collection <> "") then ci_Database (ParseCollectionName collection) else "" in
  let databaseName := if decide (databaseName = "") then om_DatabaseName (op_methods op) else databaseName in
  let databaseName :=
    if decide (databaseName = "") then first_match database_patterns (om_String (op_methods op)) else databaseName in
  if decide (databaseName = "") then
    if om_IsIsMaster (op_methods op) then "admin"
    else if decide (intendedDatabase <> "") then intendedDatabase
    else "default"
  else databaseName.

Definition extractDatabaseName (op : Operation) (st : cstate) : string * cstate :=
  let databaseName := database_of op (c_intendedDatabase (s_c st)) in
  let st :=
    if decide (c_databaseUsed (s_c st) = "" /\ databaseName <> "default") then
      emit_c [Gauge "sessions_active" 1 ["database:" +:+ databaseName]] st
    else st in
  (NormalizeDatabaseName databaseName, upd_c (set_databases databaseName databaseName) st).

Definition extract_database (op : Operation) : CM string := fun st =>
  let '(db, st) := extractDatabaseName op st in (Ok db, st).

Definition isConnectionError (err : error) : bool :=
  existsb (fun pattern => Contains (ToLower (err_Error err)) pattern) connectionErrorPatterns.

Definition isEndOfTransaction (op : Operation) : bool :=
  let command := fst (om_CommandAndCollection (op_methods op)) in
  if bool_decide (command ∈ ["commitTransaction"; "abortTransaction"; "endSessions"]) then true
  else
    match om_TransactionDetails (op_methods op) with
    | None => false
    | Some td =>
        if td_Autocommit td then true
        else if decide (command = "commitTransaction" \/ command = "abortTransaction") then true
        else false
    end.

(** ** Credentials *)

Definition validateCredentialsAgainstDatabase (username password targetDatabase appDatabase : string) : CM unit :=
  do! route := get_route targetDatabase (fun e => "database " +:+ targetDatabase +:+ " is not supported: " +:+ e) in
  do! config := deref_route route in
  fun st =>
    let store := upd_c (fun c => set_credentials username password (c_clientAuthSource c) c) in
    if c_regexCredentialPassthrough (s_c st) && isWildcardOrRegexMatch targetDatabase config then (Ok (), store st)
    else
      cbind (clift (fun e => "failed to extract route credentials: " +:+ e)
               (extractCredentialsFromConnectionString (rc_ConnectionString config)))
        (fun '(routeUsername, routePassword) =>
           if decide (username <> routeUsername \/ password <> routePassword) then
             cfail "authentication failed: invalid credentials"
           else if decide (appDatabase <> "" /\ appDatabase <> targetDatabase) then
             cfail ("authentication failed: database mismatch - appName specifies '" +:+ appDatabase +:+
                    "' but connecting to '" +:+ targetDatabase +:+ "'")
           else modify store) st.

(** [return nil, fmt.Errorf("authentication failed: %v", err)] on an error. *)
Definition wrap_failure {A} (prefix : string) (m : CM A) : CM A := fun st =>
  match m st with
  | (Fail e, st) => (Fail (errors_New (prefix +:+ err_Error e)), st)
  | other => other
  end.

(** The credentials in the application name of a handshake; the value is the topology to answer with. *)
Definition authenticate (op : Operation) : CM TopologyKind := fun st =>
  if negb (c_authEnabled (s_c st) && bool_decide (c_clientUsername (s_c st) = "")) then (Ok Sharded, st)
  else
    let appName := appName_of (om_String (op_methods op)) in
    if decide (appName = "") then
      (Fail (errors_New "authentication required: appName parameter must be provided"), st)
    else
      cbind (clift id (parseAppNameCredentials appName)) (fun '(appDatabase, username, password, authSource) =>
        do! route := get_route appDatabase (fun e => "database " +:+ appDatabase +:+ " is not supported: " +:+ e) in
        do! config := deref_route route in
        match rc_DatabaseConfig config with
        | None => ccrash
        | Some dbConfig =>
            let topology := default Sharded (cc_Topology dbConfig) in
            do! _ :=
              (if decide (rc_DatabaseName config = appDatabase) then
                 wrap_failure "authentication failed: "
                   (validateCredentialsAgainstDatabase username password appDatabase appDatabase)
               else modify (upd_c (set_credentials username password authSource))) in
            cret topology
        end) st.

(** ** Handshakes *)

Definition is_handshake (op : Operation) (isMaster : bool) : bool :=
  let '(command, collection) := om_CommandAndCollection (op_methods op) in
  isMaster || bool_decide (command = BuildInfo) || bool_decide (command = AtlasVersion) ||
  bool_decide (command = GetParameter) || (bool_decide (command = Aggregate) && bool_decide (collection = "atlascli")).

Definition handshake_answer (op : Operation) (isMaster : bool) (topology : TopologyKind) (x : X) : outcome Message :=
  let '(command, collection) := om_CommandAndCollection (op_methods op) in
  let requestID := om_RequestID (op_methods op) in
  if isMaster then IsMasterResponse requestID topology (net_Now x) (NewObjectID x)
  else if decide (command = BuildInfo) then BuildInfoResponse requestID (net_Now x)
  else if decide (command = AtlasVersion) then ErrorResponse requestID "no such command: 'atlasVersion'" "CommandNotFound"
  else if decide (command = GetParameter) then GetParameterResponse requestID
  else if decide (command = Aggregate /\ collection = "atlascli") then EmptyCursorResponse requestID
  else IsMasterResponse requestID topology (net_Now x) (NewObjectID x).

(** ** MongoDB clients *)

(** [mongo.ConnectWithSessionManager] *)
Definition connect (opts : ClientOptions) (wrap : string -> string) : CM MongoRef := fun st =>
  match mongo_Connect opts (s_x st) with
  | (Ok client, x) => (Ok client, set_cx x st)
  | (Fail e, x) => (Fail (errors_New (wrap (err_Error e))), set_cx x st)
  | (Crash why, x) => (Crash why, set_cx x st)
  end.

Definition register_client (name : string) (client : MongoRef) : CM unit :=
  modify (fun st => set_cproxy (RegisterMongoClient name (Some client) <$> s_proxy st) st).

(** The second check is under the route's lock. *)
Definition createLazyMongoClient (route : RouteRef) (targetDatabase : string) : CM MongoRef :=
  do! config := deref_route route in
  match rc_MongoClient config with
  | Some client => cret client
  | None => fun st =>
      let opts := ApplyURI (rc_ConnectionString config) in
      let opts := ApplyMongoDBClientSettings opts targetDatabase (c_mongodbDefaults (s_c st)) (rc_DatabaseConfig config) in
      cbind (connect opts (fun e => "failed to create lazy MongoDB client: " +:+ e)) (fun mongoClient =>
        do! _ := modify (upd_route route (set_MongoClient (Some mongoClient))) in
        do! _ := register_client targetDatabase mongoClient in
        cret mongoClient) st
  end.

Definition credential_key (c : connection) : string := c_clientUsername c +:+ ":" +:+ c_clientPassword c.

(** [route.InitCredentialClientsCache(); route.CredentialClients.Get(credentialKey)] *)
Definition cached_client (route : RouteRef) : CM (option MongoRef) :=
  do! _ := modify (upd_route route InitCredentialClientsCache) in
  do! config := deref_route route in
  fun st =>
    match rc_CredentialClients config with
    | None => (Crash "nil pointer dereference", st)
    | Some cache =>
        let '(found, cache) := Lru.Get (credential_key (s_c st)) (cnow st) cache in
        (Ok found, upd_route route (set_CredentialClients (Some cache)) st)
    end.

(** The query parameters of the route but [authSource], appended in the order of the map's iteration. *)
Definition append_query (query : list (string * list string)) (uri : string) : string :=
  fold_left (fun uri '(key, values) =>
    if decide (key = "authSource") then uri
    else fold_left (fun uri value =>
      uri +:+ (if Contains uri "?" then "&" else "?") +:+ key +:+ "=" +:+ value) values uri) query uri.

Definition credential_uri (c : connection) (host port : string) (parsedURI : URL) : string :=
  if decide (c_clientUsername c <> "" /\ c_clientPassword c <> "") then
    let uri := "mongodb://" +:+ c_clientUsername c +:+ ":" +:+ c_clientPassword c +:+ "@" +:+ host +:+ ":" +:+ port +:+
               "/" +:+ c_intendedDatabase c in
    let uri := uri +:+ "?authSource=" +:+
               (if decide (c_clientAuthSource c <> "") then c_clientAuthSource c else "admin") in
    append_query (Query (url_RawQuery parsedURI)) uri
  else
    let uri := "mongodb://" +:+ host +:+ ":" +:+ port +:+ "/" in
    if decide (url_RawQuery parsedURI <> "") then uri +:+ "?" +:+ url_RawQuery parsedURI else uri.

(** The text of the new connection string is also sanitized for the log, which may panic. *)
Definition createMongoClientWithCredentials (route : RouteRef) : CM MongoRef :=
  do! cached := cached_client route in
  match cached with
  | Some mongoClient => cret mongoClient
  | None =>
      do! config := deref_route route in
      let '(host, port) := extractHostFromRoute (rc_ConnectionString config) in
      if decide (host = "" \/ port = "") then cfail "failed to extract host/port from route connection string"
      else
        do! parsedURI := clift (fun e => "failed to parse route connection string: " +:+ e)
                           (url_Parse (rc_ConnectionString config)) in
        fun st =>
          let c := s_c st in
          let uri := credential_uri c host port parsedURI in
          cbind (clift id (sanitizeConnectionString uri)) (fun _ =>
            let opts := ApplyMongoDBClientSettings (ApplyURI uri) (c_intendedDatabase c) (c_mongodbDefaults c)
                          (rc_DatabaseConfig config) in
            do! mongoClient := connect opts (fun e => "failed to create MongoDB client with client credentials: " +:+ e) in
            do! _ := modify (fun st => upd_route route (fun r =>
              set_CredentialClients (Lru.Add (credential_key c) mongoClient (cnow st) <$> rc_CredentialClients r) r) st) in
            do! _ := register_client (credential_key c) mongoClient in
            cret mongoClient) st
  end.

Definition database_metric (name : string) (st : cstate) : MetricCall :=
  Incr name ["database:" +:+ c_intendedDatabase (s_c st)].

Definition getOrCreateCredentialClient (route : RouteRef) : CM MongoRef :=
  do! cached := cached_client route in
  match cached with
  | Some mongoClient =>
      do! _ := modify (fun st => emit_c [database_metric "credential_client_cache_hit" st] st) in
      cret mongoClient
  | None =>
      do! client := wrap_failure "failed to create MongoDB client with client credentials: "
                      (createMongoClientWithCredentials route) in
      do! config := deref_route route in
      do! _ := modify (fun st => emit_c ([database_metric "credential_client_cache_miss" st] ++
        match rc_CredentialClients config with
        | Some cache => [Gauge "credential_client_cache_size" (Z.of_nat (Lru.Len cache))
                           ["database:" +:+ c_intendedDatabase (s_c st)]]
        | None => []
        end) st) in
      cret client
  end.

(** ** A request *)

(** [mongoClient.RoundTrip(msg, tags)]; a nil client is a nil dereference. *)
Definition client_RoundTrip (client : option MongoRef) (msg : Message) (tags : list string) : CM Message := fun st =>
  match client with
  | None => (Crash "nil pointer dereference", st)
  | Some client => let '(r, x) := mongo_RoundTrip client msg tags (s_x st) in (r, set_cx x st)
  end.

(** The request offered to the forwarder; [None] if it is to be processed here. *)
Definition try_forward (op : Operation) : CM (option Message) := fun st =>
  match s_proxy st ≫= p_requestForwarder with
  | None => (Ok None, st)
  | Some rf =>
      let sessionID := match om_TransactionDetails (op_methods op) with Some td => fmt_x (td_LsID td) | None => "" end in
      if decide (sessionID = "") then (Ok None, st)
      else
        let rawRequest := om_Encode (op_methods op) (om_RequestID (op_methods op)) in
        let '(r, rf, x) := ForwardRequest sessionID rawRequest (c_address (s_c st)) rf (s_x st) in
        let st := set_cx x (set_cproxy (set_forwarder (Some rf) <$> s_proxy st) st) in
        match r with
        | Ret None | Err _ => (Ok None, st)
        | Ret (Some response) =>
            cbind (clift id (Decode response)) (fun responseOp =>
              cret (Some {| msg_Wm := []; msg_Op := Some responseOp |})) st
        | Panic why => (Crash why, st)
        | NoFuel => (Crash "", st)
        end
  end.

(** [c.poolManager.RegisterClient(...)] for the database of the request. *)
Definition register_with_pool (actualDatabaseName : string) : CM unit := fun st =>
  match s_pool st with
  | None => (Ok (), st)
  | Some m =>
      let username := if decide (c_clientUsername (s_c st) = "") then "default" else c_clientUsername (s_c st) in
      let '(r, st) := on_pool (RegisterClient (c_clientID (s_c st)) username actualDatabaseName (GetDefaultMode m) (cnow st)) m st in
      match r with
      | Ret _ => (Ok (), st)
      | Err e => (Fail (errors_New e), st)
      | Panic why => (Crash why, st)
      | NoFuel => (Crash "", st)
      end
  end.

Definition unregister_from_pool (st : cstate) : cstate :=
  match s_pool st with
  | None => st
  | Some m => snd (on_pool (fun m => ((), UnregisterClient (c_clientID (s_c st)) (cnow st) m)) m st)
  end.

(** The client's registration with the pool, renewed when the database changes. *)
Definition ensure_registered (actualDatabaseName : string) : CM unit := fun st =>
  match s_pool st with
  | None => (Ok (), st)
  | Some m =>
      match GetClient (c_clientID (s_c st)) m with
      | None => register_with_pool actualDatabaseName st
      | Some client =>
          if decide (cl_Database client = actualDatabaseName) then (Ok (), st)
          else register_with_pool actualDatabaseName (unregister_from_pool st)
      end
  end.

(** [c.poolManager.GetConnection(...)], with the MongoDB client of the connection it returns. *)
Definition pool_connection (actualDatabaseName : string) (mongoClient : MongoRef) (isTransaction : bool)
    (transactionID : string) : CM (ConnRef * option ClientRef) := fun st =>
  match s_pool st with
  | None => (Crash "nil pointer dereference", st)
  | Some m =>
      let '(r, st) := on_pool (GetConnection (c_clientID (s_c st)) actualDatabaseName (Some mongoClient) isTransaction
                                 transactionID (cnow st) (checkout_time (s_x st))) m st in
      match r with
      | Ret conn => (Ok (conn, s_pool st ≫= fun m => conns m !! conn ≫= pc_MongoClient), st)
      | Err e => (Fail (errors_New e), st)
      | Panic why => (Crash why, st)
      | NoFuel => (Crash "", st)
      end
  end.

Definition return_connection (conn : ConnRef) (isEnd : bool) (st : cstate) : cstate :=
  match s_pool st with
  | None => st
  | Some m => snd (on_pool (fun m => ((), ReturnConnection (c_clientID (s_c st)) conn isEnd (cnow st) m)) m st)
  end.

(** The connection is returned whether the exchange fails or not, but not when it panics. *)
Definition pooled_exchange (op : Operation) (msg : Message) (conn : ConnRef) (client : option ClientRef)
    (tags : list string) : CM Message := fun st =>
  match client_RoundTrip client msg tags st with
  | (Crash why, st) => (Crash why, st)
  | (r, st) => (r, return_connection conn (isEndOfTransaction op) st)
  end.

Definition roundTripWithPool (op : Operation) (msg : Message) (databaseName : string) (mongoClient : MongoRef)
    (tags : list string) : CM Message :=
  let actualDatabaseName := if decide (databaseName = "") then "default" else databaseName in
  do! forwarded := try_forward op in
  match forwarded with
  | Some responseMsg => cret responseMsg
  | None =>
      do! _ := ensure_registered actualDatabaseName in
      let transactionDetails := om_TransactionDetails (op_methods op) in
      let isTransaction := match transactionDetails with Some td => negb (td_Autocommit td) | None => false end in
      let transactionID :=
        match transactionDetails with
        | Some td => fmt_x (td_LsID td) +:+ "-" +:+ fmt_d (td_TxnNumber td)
        | None => ""
        end in
      do! (conn, client) := pool_connection actualDatabaseName mongoClient isTransaction transactionID in
      pooled_exchange op msg conn client tags
  end.

(** [useCredentialPassthrough] *)
Definition use_passthrough (targetDatabase : string) (config : RouteConfig) (c : connection) : outcome bool :=
  if c_regexCredentialPassthrough c && bool_decide (c_clientUsername c <> "") then
    if isWildcardOrRegexMatch targetDatabase config then Ret true
    else
      match rc_MongoClient config with
      | None => Ret false
      | Some _ =>
          match extractCredentialsFromConnectionString (rc_ConnectionString config) with
          | Ret (routeUsername, routePassword) =>
              Ret (bool_decide (c_clientUsername c <> routeUsername \/ c_clientPassword c <> routePassword))
          | Err _ => Ret (bool_decide (c_clientUsername c <> "" \/ c_clientPassword c <> ""))
          | Panic why => Panic why
          | NoFuel => NoFuel
          end
      end
  else Ret false.

(** The MongoDB client of the request: for the client's own credentials, the route's, or a new one for the route. *)
Definition choose_client (route : RouteRef) (targetDatabase : string) : CM MongoRef :=
  do! config := deref_route route in
  fun st =>
    cbind (clift id (use_passthrough targetDatabase config (s_c st))) (fun useCredentialPassthrough =>
      do! _ := modify (upd_c (set_route route targetDatabase useCredentialPassthrough)) in
      if (useCredentialPassthrough : bool) then getOrCreateCredentialClient route
      else
        match rc_MongoClient config with
        | None => wrap_failure "failed to create MongoDB client: " (createLazyMongoClient route targetDatabase)
        | Some client => cret client
        end) st.

(** After a connection error the route's client is dropped, to be made anew by the next request. *)
Definition drop_broken_client (route : RouteRef) (r : result error Message) (st : cstate) : cstate :=
  match r with
  | Fail err => if isConnectionError err then upd_route route (set_MongoClient None) st else st
  | _ => st
  end.

(** [tags = append(tags, "connection_type:credential_passthrough")] and its metric. *)
Definition passthrough_metrics (databaseName : string) (tags : list string) (st : cstate) : list string * cstate :=
  if c_isUsingCredentialPassthrough (s_c st) then
    match s_metrics st with
    | None => (tags, st)
    | Some _ =>
        (tags ++ ["connection_type:credential_passthrough"],
         emit_c [Incr "credential_passthrough_operation"
                   ["database:" +:+ databaseName; "username:" +:+ c_clientUsername (s_c st)]] st)
    end
  else (tags, st).

(** Through the pool, or directly when there is none or the client's own credentials are used. *)
Definition through_client (route : RouteRef) (op : Operation) (msg : Message) (databaseName : string) (mongoClient : MongoRef)
    (tags : list string) : CM Message := fun st =>
  let '(r, st) :=
    match s_pool st, c_isUsingCredentialPassthrough (s_c st) with
    | Some _, false => roundTripWithPool op msg databaseName mongoClient tags st
    | _, _ =>
        let '(tags, st) := passthrough_metrics databaseName tags st in
        client_RoundTrip (Some mongoClient) msg tags st
    end in
  (r, drop_broken_client route r st).

Definition roundTrip (op : Operation) (msg : Message) (isMaster : bool) (tags : list string) : CM Message :=
  do! databaseName := extract_database op in
  if is_handshake op isMaster then
    do! topology := authenticate op in
    fun st => clift id (handshake_answer op isMaster topology (s_x st)) st
  else fun st =>
    match s_router st with
    | None => (Fail (errors_New ("mongo client not found for address: " +:+ c_address (s_c st))), st)
    | Some _ =>
        cbind (get_route databaseName (fun e =>
          if decide (databaseName = "admin") then "admin database is not configured but admin command was attempted: " +:+ e
          else "database " +:+ databaseName +:+ " is not supported: " +:+ e)) (fun route =>
          do! mongoClient := choose_client route databaseName in
          through_client route op msg databaseName mongoClient tags) st
    end.

(** ** Messages *)

(** [io.ReadFull(c.conn, buf)] for a buffer of [n] bytes. *)
Definition ReadFull (n : nat) : CM (list byte) := fun st =>
  if (n <=? length (s_in st))%nat then (Ok (take n (s_in st)), set_cin (drop n (s_in st)) st)
  else
    let err := if decide (s_in st <> [] /\ s_end st = io_EOF) then io_ErrUnexpectedEOF else s_end st in
    (Fail err, set_cin [] st).

(** [int32(b0) | int32(b1)<<8 | int32(b2)<<16 | int32(b3)<<24] *)
Definition size_of (sizeBuf : list byte) : Z :=
  match sizeBuf with
  | [b0; b1; b2; b3] =>
      int32 (Z.lor (Z.lor (Z.lor (byte.unsigned b0) (Z.shiftl (byte.unsigned b1) 8)) (Z.shiftl (byte.unsigned b2) 16))
                   (Z.shiftl (byte.unsigned b3) 24))
  | _ => 0
  end.

(** [if int(size) > cap(c.buffer) { c.buffer = make([]byte, 0, size) }] *)
Definition grow_buffer (size : Z) (st : cstate) : cstate :=
  if (c_buffer_cap (s_c st) <? size)%Z then upd_c (set_buffer_cap size) st else st.

(** [c.buffer[:size]] panics on a negative size, [buffer[4:]] on one below four. *)
Definition readWireMessage : CM (list byte) :=
  do! sizeBuf := ReadFull 4 in
  let size := size_of sizeBuf in
  do! _ := modify (grow_buffer size) in
  if (size <? 4)%Z then fun st => (Crash "slice bounds out of range", st)
  else
    do! body := ReadFull (Z.to_nat (size - 4)) in
    cret (sizeBuf ++ body).

(** What [handleMessage] does once a message is decoded; the tags are those of its timing. *)
Definition request_tags (op : Operation) (databaseName : string) : list string :=
  ["request_op_code:" +:+ OpCode_String (om_OpCode (op_methods op)); "is_master:" +:+ fmt_bool (om_IsIsMaster (op_methods op));
   "command:" +:+ fst (om_CommandAndCollection (op_methods op));
   "collection:" +:+ snd (om_CommandAndCollection (op_methods op));
   "unacknowledged:" +:+ fmt_bool (om_Unacknowledged (op_methods op)); "database:" +:+ databaseName].

Definition request_metrics (op : Operation) (wm : list byte) (databaseName : string) : list MetricCall :=
  [Incr "request" ["database:" +:+ databaseName; "operation:" +:+ fst (om_CommandAndCollection (op_methods op))];
   DistributionN "request_size" (Z.of_nat (length wm)) ["database:" +:+ databaseName]] ++
  (if om_IsIsMaster (op_methods op) then [Incr "ismaster_command" []] else []).

(** [if c.metrics != nil { databaseName := c.extractDatabaseName(op); ... }] *)
Definition database_emit (op : Operation) (call : string -> MetricCall) (st : cstate) : cstate :=
  match s_metrics st with
  | None => st
  | Some _ => let '(databaseName, st) := extractDatabaseName op st in emit_c [call databaseName] st
  end.

(** [c.conn.Write(res.Wm)] *)
Definition write_reply (wm : list byte) : CM unit := fun st =>
  match conn_Write wm (s_x st) with
  | (None, x) => (Ok (), add_sent wm (set_cx x st))
  | (Some err, x) => (Fail err, set_cx x st)
  end.

(** From the round trip to the reply; the result comes with the tags at its end. *)
Definition serve_request (op : Operation) (wm : list byte) (tags : list string) (st : cstate)
    : result error unit * list string * cstate :=
  match roundTrip op {| msg_Wm := wm; msg_Op := Some op |} (om_IsIsMaster (op_methods op)) tags st with
  | (Crash why, st) => (Crash why, tags, st)
  | (Fail err, st) =>
      (Fail err, tags, database_emit op (fun db => Incr "error" ["database:" +:+ db; "error_type:round_trip_error"]) st)
  | (Ok res, st) =>
      if om_Unacknowledged (op_methods op) then (Ok (), tags, st)
      else
        match msg_Op res with
        | None => (Crash "nil pointer dereference", tags, st)
        | Some resOp =>
            let tags := tags ++ ["response_op_code:" +:+ OpCode_String (om_OpCode (op_methods resOp))] in
            match write_reply (msg_Wm res) st with
            | (Ok _, st) =>
                (Ok (), tags, database_emit op (fun db =>
                   DistributionN "response_size" (Z.of_nat (length (msg_Wm res))) ["database:" +:+ db]) st)
            | (Fail err, st) => (Fail err, tags, st)
            | (Crash why, st) => (Crash why, tags, st)
            end
        end
  end.

(** The body of [handleMessage], without its deferred timing. *)
Definition handle_body (st : cstate) : result error unit * list string * cstate :=
  match cbind readWireMessage (fun wm => do! op := clift id (Decode wm) in cret (wm, op)) st with
  | (Fail err, st) => (Fail err, [], st)
  | (Crash why, st) => (Crash why, [], st)
  | (Ok (wm, op), st) =>
      let '(databaseName, st) := extractDatabaseName op st in
      let st := emit_c (request_metrics op wm databaseName) st in
      serve_request op wm (request_tags op databaseName) st
  end.

(** The deferred function sees a nil [err] when the body panics. *)
Definition handleMessage : CM unit := fun st =>
  let start := cnow st in
  let '(r, tags, st) := handle_body st in
  let success := match r with Fail _ => false | _ => true end in
  (r, emit_c [Timing "handle_message" (cnow st - start) (tags ++ ["success:" +:+ fmt_bool success])] st).

(** [for { err := c.handleMessage(); if err != nil { ...; return } }]; [fuel] messages at most. *)
Fixpoint process (fuel : nat) (st : cstate) : outcome error * cstate :=
  match fuel with
  | 0 => (NoFuel, st)
  | S fuel =>
      match handleMessage st with
      | (Ok _, st) => process fuel st
      | (Fail err, st) => (Ret err, st)
      | (Crash why, st) => (Panic why, st)
      end
  end.

(** A message takes four bytes at least. *)
Definition processMessages (st : cstate) : outcome error * cstate := process (S (length (s_in st))) st.

(** ** The life of a connection *)

Definition new_connection (address clientID : string) (authEnabled regexCredentialPassthrough : bool)
    (mongodbDefaults : MongoDBClientConfig) : connection :=
  {| c_address := address; c_buffer_cap := 0; c_clientID := clientID; c_intendedDatabase := ""; c_routeConfig := None;
     c_clientUsername := ""; c_clientPassword := ""; c_clientAuthSource := ""; c_authEnabled := authEnabled;
     c_regexCredentialPassthrough := regexCredentialPassthrough; c_mongodbDefaults := mongodbDefaults;
     c_databaseUsed := ""; c_isUsingCredentialPassthrough := false |}.

(** The registration under a placeholder; a refusal is only logged. *)
Definition register_placeholder (st : cstate) : cstate :=
  match s_pool st with
  | None => st
  | Some m => snd (on_pool (RegisterClient (c_clientID (s_c st)) "default" "default" (GetDefaultMode m) (cnow st)) m st)
  end.

(** The deferred function. *)
Definition unregister (st : cstate) : cstate :=
  match s_pool st with
  | None => st
  | Some _ =>
      let st := unregister_from_pool st in
      if decide (c_intendedDatabase (s_c st) <> "" /\ c_intendedDatabase (s_c st) <> "default") then
        emit_c [Gauge "sessions_active" (-1) ["database:" +:+ c_intendedDatabase (s_c st)]] st
      else st
  end.

(** [st] is the shared state the handler starts in; its own fields are set here.
    A panic is recovered after the deferred function has run, and the result is then the empty string. *)
Definition handleConnection (address : string) (authEnabled regexCredentialPassthrough : bool)
    (mongodbDefaults : MongoDBClientConfig) (st : cstate) : string * cstate :=
  let clientID := address +:+ "-" +:+ fmt_d (cnow st) in
  let st := upd_c (fun _ => new_connection address clientID authEnabled regexCredentialPassthrough mongodbDefaults) st in
  let st := register_placeholder st in
  match processMessages st with
  | (Panic _, st) => ("", unregister st)
  | (_, st) => let st := unregister st in (c_databaseUsed (s_c st), st)
  end.

End Connection.
