(* ===== verification/ConnectionFrame.v ===== *)
(** * What a round trip of the handler leaves alone

    The steps of [Connection.roundTrip] change the handler's own fields, the
    metrics, the pool, the routes and the proxy freely, but reach the outside in
    three ways only: connecting a client, asking the forwarder, and one round
    trip on a MongoDB client.  [Frame Q O] says that a relation [Q] on states is
    kept by the first two and [O] by the third; the lemmas give [Q] for every
    step before the exchange and [O] for the whole. *)

From S2P Require Import Prelude GoStrings GoUrl Parsing Wire Command Operations Lru CacheInterface.
From S2P Require Import ClientSettings Router Pool DistributedCache Sessions Caches Mongo RoundTrip Topology.
From S2P Require Import Handshake Forwarder Proxy Connection.
From Stdlib Require Import ZArith Lia Ascii.

(** [frame]: the steps that keep a relation. *)
Create HintDb frame.

Section Frame.
Context `{UC : UnicodeCase, RX : RegexpOther, GQ : GoQuote, WM : Wiremessage, BS : Bsoncore, BM : BsonMarshal, DS : Descriptions}.
Context `{DE : DriverErrors, EV : !ErrorValues, CO : ClientOptionsOps}.
Context {X : Type} `{WD : !World X} `{PN : !PodNet X}.
Context {G : Type} `{GO : GroupOps G} `{JL : Json SessionLocation}.
Context {RC : Type} `{BRC : BoundedCache string RouteRef RC}.
Notation ST := (@cstate DE X G RC).
Implicit Types st : ST.

(** The parts of the state that belong to the client's stream. *)
Definition stream st : list byte * DriverError * list (list byte) := (s_in st, s_end st, s_sent st).

(** Neither the stream nor the outside has changed. *)
Definition inside st st' : Prop := stream st' = stream st /\ s_x st' = s_x st.

Class Frame (msg : Message) (Q O : ST -> ST -> Prop) : Prop := {
  fr_inside st st' : inside st st' -> Q st st';
  fr_trans st1 st2 st3 : Q st1 st2 -> Q st2 st3 -> Q st1 st3;
  fr_connect opts st : Q st (set_cx (snd (mongo_Connect opts (s_x st))) st);
  fr_forward sessionID request clientIP (rf : RequestForwarder G) st :
    Q st (set_cx (snd (ForwardRequest sessionID request clientIP rf (s_x st))) st);
  fr_quiet st st' : Q st st' -> O st st';
  fr_before st1 st2 st3 : Q st1 st2 -> O st2 st3 -> O st1 st3;
  fr_after st1 st2 st3 : O st1 st2 -> Q st2 st3 -> O st1 st3;
  fr_trip client tags st : O st (set_cx (snd (mongo_RoundTrip client msg tags (s_x st))) st)
}.

(** A computation, and an update, keep a relation. *)
Definition keeps (R : ST -> ST -> Prop) {A} (m : CM A) : Prop := forall st, R st (snd (m st)).

(** *** Updates *)

Lemma inside_refl st : inside st st.
Proof. done. Qed.
Lemma inside_on_pool {A} (f : Manager -> A * Manager) m st : inside st (snd (on_pool f m st)).
Proof. unfold on_pool. destruct (f _) as [a m']. cbn. by destruct (metrics m'). Qed.
Lemma inside_extract op st : inside st (snd (extractDatabaseName op st)).
Proof. unfold extractDatabaseName. cbn. by case_decide. Qed.
Lemma inside_unregister st : inside st (unregister_from_pool st).
Proof. unfold unregister_from_pool. destruct (s_pool st); [apply inside_on_pool|done]. Qed.
Lemma inside_return conn b st : inside st (return_connection conn b st).
Proof. unfold return_connection. destruct (s_pool st); [apply inside_on_pool|done]. Qed.
Lemma inside_drop route r st : inside st (drop_broken_client route r st).
Proof. unfold drop_broken_client. destruct r; try done. by destruct (isConnectionError e). Qed.
Lemma inside_database_emit op call st : inside st (database_emit op call st).
Proof.
  unfold database_emit. destruct (s_metrics st); [|done]. pose proof (inside_extract op st).
  by destruct (extractDatabaseName op st).
Qed.
Lemma inside_passthrough db tags st : inside st (snd (passthrough_metrics db tags st)).
Proof. unfold passthrough_metrics. destruct (c_isUsingCredentialPassthrough _); [|done]. by destruct (s_metrics st). Qed.

Section kept.
Context (msg : Message) (Q O : ST -> ST -> Prop) {F : Frame msg Q O}.

(** *** Steps that keep [Q] *)

Lemma kept_own {A} (m : CM A) : (forall st, inside st (snd (m st))) -> keeps Q m.
Proof. intros H st. apply fr_inside, H. Qed.

Lemma kept_bind {A B} (m : CM A) (k : A -> CM B) : keeps Q m -> (forall a, keeps Q (k a)) -> keeps Q (cbind m k).
Proof.
  intros Hm Hk st. unfold cbind. specialize (Hm st). destruct (m st) as [[a|e|why] st']; cbn in *; [|done..].
  by eapply fr_trans; [|apply Hk].
Qed.
Lemma kept_wrap {A} prefix (m : CM A) : keeps Q m -> keeps Q (wrap_failure prefix m).
Proof. intros H st. specialize (H st). unfold wrap_failure. by destruct (m st) as [[]]. Qed.
Lemma kept_modify f : (forall st, inside st (f st)) -> keeps Q (modify f).
Proof. intros H. by apply kept_own. Qed.
Lemma kept_ret {A} (a : A) : keeps Q (cret a).
Proof. by apply kept_own. Qed.
Lemma kept_fail {A} text : keeps Q (A := A) (cfail text).
Proof. by apply kept_own. Qed.
Lemma kept_crash {A} : keeps Q (A := A) ccrash.
Proof. by apply kept_own. Qed.
Lemma kept_lift {A} wrap (o : outcome A) : keeps Q (clift wrap o).
Proof. apply kept_own. by destruct o. Qed.
Lemma kept_deref route : keeps Q (deref_route route).
Proof. apply kept_own. intros st. unfold deref_route. by destruct (_ !! _). Qed.
Lemma kept_get_route db wrap : keeps Q (get_route db wrap).
Proof.
  apply kept_own. intros st. unfold get_route, lookup_route. destruct (s_router st) as [r|]; [|done].
  destruct (GetRoute _ _ _) as [[] r']; done.
Qed.
Lemma kept_connect opts wrap : keeps Q (connect opts wrap).
Proof.
  intros st. unfold connect. pose proof (fr_connect opts st). by destruct (mongo_Connect _ _) as [[] x].
Qed.
Lemma kept_extract op : keeps Q (extract_database op).
Proof.
  apply kept_own. intros st. unfold extract_database. pose proof (inside_extract op st). by destruct (extractDatabaseName op st).
Qed.
Lemma kept_register name client : keeps Q (register_client name client).
Proof. by apply kept_modify. Qed.

Hint Resolve kept_ret kept_fail kept_crash kept_lift kept_deref kept_get_route kept_connect kept_extract kept_register : frame.
Hint Extern 2 (keeps Q (modify _)) => apply kept_modify; intros ?; done : frame.
Hint Extern 1 (keeps Q (wrap_failure _ _)) => apply kept_wrap : frame.

Ltac frame_steps :=
  repeat first
    [ lazymatch goal with |- keeps _ _ => fail | |- forall _, _ => intros ? end
    | apply kept_bind; [solve [eauto with frame]|]
    | lazymatch goal with
      | |- keeps _ (fun st => cbind _ _ st) => intros st; refine (kept_bind _ _ _ _ st); [solve [eauto with frame]|]
      end
    | case_decide | case_match ]; eauto with frame.

Lemma kept_lazy route db : keeps Q (createLazyMongoClient route db).
Proof. unfold createLazyMongoClient. frame_steps. Qed.

Lemma kept_cached route : keeps Q (cached_client route).
Proof.
  unfold cached_client. frame_steps. apply kept_own. intros st. destruct (rc_CredentialClients _) as [cache|]; [|done].
  by destruct (Lru.Get _ _ _).
Qed.
Hint Resolve kept_lazy kept_cached : frame.

Lemma kept_create route : keeps Q (createMongoClientWithCredentials route).
Proof. unfold createMongoClientWithCredentials. frame_steps. Qed.
Hint Resolve kept_create : frame.

Lemma kept_credential route : keeps Q (getOrCreateCredentialClient route).
Proof. unfold getOrCreateCredentialClient. frame_steps. Qed.
Hint Resolve kept_credential : frame.

Lemma kept_choose route db : keeps Q (choose_client route db).
Proof. unfold choose_client. frame_steps. Qed.

Lemma kept_forward op : keeps Q (try_forward op).
Proof.
  intros st. unfold try_forward. destruct (s_proxy st ≫= p_requestForwarder) as [rf|]; [|by apply fr_inside].
  case_decide as Hs; [by apply fr_inside|].
  pose proof (fr_forward (match om_TransactionDetails (op_methods op) with Some td => fmt_x (td_LsID td) | None => "" end)
    (om_Encode (op_methods op) (om_RequestID (op_methods op))) (c_address (s_c st)) rf st) as H.
  destruct (ForwardRequest _ _ _ _ _) as [[r rf'] x]. cbn [snd] in H. set (st' := set_cx x (set_cproxy _ st)).
  assert (Q st st') as H' by (eapply fr_trans; [exact H|by apply fr_inside]).
  destruct r as [[response|]|e|why|]; try done. eapply fr_trans; [exact H'|].
  refine (kept_bind _ _ _ _ st'); eauto with frame.
Qed.

Lemma kept_pool {A B} (f : ST -> Manager -> outcome A * Manager) (k : A -> ST -> B) m :
  keeps Q (fun st => let '(r, st) := on_pool (f st) m st in
    match r with Ret a => (Ok (k a st), st) | Err e => (Fail (errors_New e), st) | Panic why => (Crash why, st) | NoFuel => (Crash "", st) end).
Proof.
  apply kept_own. intros st. pose proof (inside_on_pool (f st) m st). by destruct (on_pool _ _ _) as [[]].
Qed.

Lemma kept_register_with_pool db : keeps Q (register_with_pool db).
Proof.
  intros st. unfold register_with_pool. destruct (s_pool st) as [m|]; [|by apply fr_inside].
  exact (kept_pool (fun st => RegisterClient (c_clientID (s_c st)) (if decide (c_clientUsername (s_c st) = "") then "default"
    else c_clientUsername (s_c st)) db (GetDefaultMode m) (cnow st)) (fun _ _ => ()) m st).
Qed.

Lemma kept_registered db : keeps Q (ensure_registered db).
Proof.
  intros st. unfold ensure_registered. destruct (s_pool st) as [m|]; [|by apply fr_inside].
  destruct (GetClient _ _); [|apply kept_register_with_pool]. case_decide; [by apply fr_inside|].
  eapply fr_trans; [apply fr_inside, inside_unregister|apply kept_register_with_pool].
Qed.

Lemma kept_pool_connection db client b id : keeps Q (pool_connection db client b id).
Proof.
  intros st. unfold pool_connection. destruct (s_pool st) as [m|]; [|by apply fr_inside].
  exact (kept_pool (fun st => GetConnection (c_clientID (s_c st)) db (Some client) b id (cnow st) (checkout_time (s_x st)))
    (fun conn st => (conn, s_pool st ≫= fun m => conns m !! conn ≫= pc_MongoClient)) m st).
Qed.

Lemma kept_validate user password db app : keeps Q (validateCredentialsAgainstDatabase user password db app).
Proof.
  unfold validateCredentialsAgainstDatabase. do 2 (apply kept_bind; [eauto with frame|intros ?]).
  intros st. cbn zeta. destruct (_ && _); [by apply fr_inside|].
  refine (kept_bind _ _ _ _ st); [eauto with frame|]. intros [u p]. frame_steps.
Qed.
Hint Resolve kept_choose kept_forward kept_registered kept_pool_connection kept_validate : frame.

Lemma kept_authenticate op : keeps Q (authenticate op).
Proof.
  intros st. unfold authenticate. destruct (negb _); [by apply fr_inside|]. cbn zeta. destruct (decide (appName_of _ = "")); [by apply fr_inside|].
  refine (kept_bind _ _ _ _ st); [eauto with frame|]. intros [[[db user] password] source]. frame_steps.
Qed.
Hint Resolve kept_authenticate : frame.

(** *** Steps that keep [O] *)

Lemma kept_O {A} (m : CM A) : keeps Q m -> keeps O m.
Proof. intros H st. apply fr_quiet, H. Qed.

Lemma kept_before {A B} (m : CM A) (k : A -> CM B) : keeps Q m -> (forall a, keeps O (k a)) -> keeps O (cbind m k).
Proof.
  intros Hm Hk st. unfold cbind. specialize (Hm st). destruct (m st) as [[a|e|why] st']; cbn in *; [|by apply fr_quiet..].
  by eapply fr_before; [|apply Hk].
Qed.

Lemma kept_client_RoundTrip client tags : keeps O (client_RoundTrip client msg tags).
Proof.
  intros st. unfold client_RoundTrip. destruct client as [client|]; [|by apply fr_quiet, fr_inside].
  pose proof (fr_trip client tags st). by destruct (mongo_RoundTrip _ _ _ _).
Qed.

Lemma kept_pooled op conn client tags : keeps O (pooled_exchange op msg conn client tags).
Proof.
  intros st. unfold pooled_exchange. pose proof (kept_client_RoundTrip client tags st) as H.
  destruct (client_RoundTrip client msg tags st) as [[] st']; [|..|done]; (eapply fr_after; [exact H|]); apply fr_inside, inside_return.
Qed.

Lemma kept_with_pool op db client tags : keeps O (roundTripWithPool op msg db client tags).
Proof.
  unfold roundTripWithPool. cbn zeta. apply kept_before; [eauto with frame|]. intros [reply|]; [by apply kept_O, kept_ret|].
  apply kept_before; [eauto with frame|]. intros _. apply kept_before; [eauto with frame|]. intros [conn c]. apply kept_pooled.
Qed.

Lemma kept_through route op db client tags : keeps O (through_client route op msg db client tags).
Proof.
  intros st. unfold through_client.
  assert (O st (snd (let '(tags, st) := passthrough_metrics db tags st in client_RoundTrip (Some client) msg tags st))) as H1.
  { pose proof (inside_passthrough db tags st) as H. destruct (passthrough_metrics db tags st) as [tags' st'].
    eapply fr_before; [by apply fr_inside|apply kept_client_RoundTrip]. }
  pose proof (kept_with_pool op db client tags st) as H2.
  assert (forall p : result DriverError Message * ST, O st (snd p) -> O st (snd (let '(r, st) := p in (r, drop_broken_client route r st)))) as Hd.
  { intros [r st'] H. eapply fr_after; [exact H|]. apply fr_inside, inside_drop. }
  destruct (s_pool st), (c_isUsingCredentialPassthrough (s_c st)); by apply Hd.
Qed.

(** A round trip of the handler: at most one exchange with a MongoDB client, on the request itself. *)
Lemma kept_roundTrip op isMaster tags : keeps O (roundTrip op msg isMaster tags).
Proof.
  unfold roundTrip. apply kept_before; [eauto with frame|]. intros db. destruct (is_handshake op isMaster).
  - apply kept_before; [eauto with frame|]. intros topology st. apply fr_quiet, (kept_lift id _ st).
  - intros st. destruct (s_router st); [|by apply fr_quiet, fr_inside].
    refine (kept_before _ _ _ _ st); [eauto with frame|]. intros route. apply kept_before; [eauto with frame|]. intros client.
    apply kept_through.
Qed.

End kept.

(** *** Relations on the outside alone *)

(** The outside is reached through its operations: [Qx] is kept by all but a round trip on [msg], [Ox] by that. *)
Class OutsideFrame (Qx : X -> X -> Prop) : Prop := {
  of_refl x : Qx x x;
  of_trans x1 x2 x3 : Qx x1 x2 -> Qx x2 x3 -> Qx x1 x3;
  of_connect opts x : Qx x (snd (mongo_Connect opts x));
  of_reply wm x : Qx x (snd (conn_Write wm x));
  of_dial address timeout x : Qx x (snd (net_Dial address timeout x));
  of_keepalive conn interval x : Qx x (net_SetKeepAlive conn interval x);
  of_send conn data x : Qx x (snd (net_Write conn data x));
  of_receive conn deadline n x : Qx x (snd (net_Read conn deadline n x))
}.

Class ExchangeFrame (msg : Message) (Qx Ox : X -> X -> Prop) : Prop := {
  ef_quiet x x' : Qx x x' -> Ox x x';
  ef_before x1 x2 x3 : Qx x1 x2 -> Ox x2 x3 -> Ox x1 x3;
  ef_after x1 x2 x3 : Ox x1 x2 -> Qx x2 x3 -> Ox x1 x3;
  ef_trip client tags x : Ox x (snd (mongo_RoundTrip client msg tags x))
}.

Section outside.
Context (Qx : X -> X -> Prop) {OF : OutsideFrame Qx}.
Implicit Types rf : RequestForwarder G.

Lemma outside_trans x1 x2 x3 : Qx x1 x2 -> Qx x2 x3 -> Qx x1 x3.
Proof. apply of_trans. Qed.

Lemma outside_isHealthy pc x : Qx x (snd (isHealthy pc x)).
Proof.
  unfold isHealthy. destruct (pod_conn pc) as [conn|]; [|apply of_refl].
  pose proof (of_receive conn (Some (net_Now x + Second)%Z) 1 x). by destruct (net_Read _ _ _ _).
Qed.

Lemma outside_healthy key rf x : Qx x (snd (healthy_connection key rf x)).
Proof.
  unfold healthy_connection. destruct (_ !! key) as [pc|]; [|apply of_refl].
  pose proof (outside_isHealthy pc x). by destruct (isHealthy pc x).
Qed.

Lemma outside_create ip port rf x : Qx x (snd (createConnection ip port rf x)).
Proof.
  unfold createConnection. cbn zeta. pose proof (of_dial (pod_key ip port) (rfc_ConnectionTimeout (rf_config rf)) x) as H.
  destruct (net_Dial _ _ x) as [[conn|e|why|] x1]; try done. cbn in *. destruct (rfc_KeepAlive _); [|done].
  by eapply of_trans; [|apply of_keepalive].
Qed.

Lemma outside_getPodConnection ip port rf x : Qx x (snd (getPodConnection ip port rf x)).
Proof.
  unfold getPodConnection. cbn zeta. pose proof (outside_healthy (pod_key ip port) rf x) as H1.
  destruct (healthy_connection _ rf x) as [[pc|] x1]; [done|]. pose proof (outside_healthy (pod_key ip port) rf x1) as H2.
  destruct (healthy_connection _ rf x1) as [[pc|] x2]; [by eapply of_trans|]. pose proof (outside_create ip port rf x2) as H3.
  destruct (createConnection ip port rf x2) as [[] x3]; cbn in *; eauto using outside_trans.
Qed.

Lemma outside_forward sessionID request clientIP rf x : Qx x (snd (ForwardRequest sessionID request clientIP rf x)).
Proof.
  unfold ForwardRequest. destruct (_ && _); [apply of_refl|]. destruct (getSessionLocation _ _ _) as [[[ip port]|] rf1]; [|apply of_refl].
  unfold forwardToPod. pose proof (outside_getPodConnection ip port rf1 x) as H1.
  destruct (getPodConnection ip port rf1 x) as [[[pc|e|why|] rf2] x1]; try done. cbn in H1. destruct (pod_conn pc) as [conn|]; [|done].
  pose proof (of_send conn request x1) as H2. destruct (net_Write conn request x1) as [[[]|e|why|] x2]; cbn in *; eauto using outside_trans.
  pose proof (of_receive conn None responseBuffer x2) as H3.
  destruct (net_Read conn None responseBuffer x2) as [[] x3]; cbn [snd] in *; eauto using outside_trans.
Qed.

#[export] Instance outside_frame msg Ox : ExchangeFrame msg Qx Ox ->
  Frame msg (fun st st' => Qx (s_x st) (s_x st')) (fun st st' => Ox (s_x st) (s_x st')).
Proof.
  intros EF. split; cbn.
  - intros st st' [_ ->]. apply of_refl.
  - intros st1 st2 st3. apply of_trans.
  - intros opts st. apply of_connect.
  - intros. apply outside_forward.
  - intros st st'. apply (ef_quiet (msg := msg)).
  - intros st1 st2 st3. apply (ef_before (msg := msg)).
  - intros st1 st2 st3. apply (ef_after (msg := msg)).
  - intros. apply ef_trip.
Qed.

End outside.

End Frame.
