(* ===== verification/ConnectionFacts.v ===== *)
(** * Properties of the connection handler

    Framing and termination of the message loop, what a message may do to the
    client's stream, and authentication. *)

From S2P Require Import Prelude GoStrings GoUrl Parsing Wire Command Operations Lru CacheInterface.
From S2P Require Import ClientSettings Router Pool DistributedCache Sessions Caches Mongo RoundTrip Topology.
From S2P Require Import Handshake Forwarder Proxy Connection ConnectionFrame.
From Stdlib Require Import ZArith Lia Ascii.

Section Facts.
Context `{UC : UnicodeCase, RX : RegexpOther, GQ : GoQuote, WM : Wiremessage, BS : Bsoncore, BM : BsonMarshal, DS : Descriptions}.
Context `{DE : DriverErrors, EV : !ErrorValues, CO : ClientOptionsOps}.
Context {X : Type} `{WD : !World X} `{PN : !PodNet X}.
Context {G : Type} `{GO : GroupOps G} `{JL : Json SessionLocation}.
Context {RC : Type} `{BRC : BoundedCache string RouteRef RC}.
Notation ST := (@cstate DE X G RC).
Implicit Types st : ST.

(** ** The client's stream *)

Lemma quiet_extract op st : stream (snd (extractDatabaseName op st)) = stream st.
Proof. apply inside_extract. Qed.
Lemma quiet_database_emit op call st : stream (database_emit op call st) = stream st.
Proof. apply inside_database_emit. Qed.

(** A round trip neither reads from the client nor writes to it. *)
Definition same_stream st st' : Prop := stream st' = stream st.

#[local] Instance stream_frame msg : Frame msg same_stream same_stream.
Proof. split; unfold same_stream; try done; [by intros st st' []|intros st1 st2 st3 H1 H2; by rewrite H2, H1..]. Qed.

Lemma off_roundTrip op msg isMaster tags st : stream (snd (roundTrip op msg isMaster tags st)) = stream st.
Proof. apply (kept_roundTrip msg same_stream same_stream). Qed.

(** ** Framing *)

Lemma length_four {A} (l : list A) : length l = 4 -> exists a b c d, l = [a; b; c; d].
Proof. intros H. do 4 (destruct l as [|? l]; [done|]). destruct l; [by eauto|done]. Qed.

Lemma ReadFull_ok n st bs st' :
  ReadFull n st = (Ok bs, st') <-> n <= length (s_in st) /\ bs = take n (s_in st) /\ st' = set_cin (drop n (s_in st)) st.
Proof.
  unfold ReadFull. destruct (Nat.leb_spec n (length (s_in st))); split; [by intros [= <- <-]|by intros (_ & -> & ->)|done|lia].
Qed.

(** The message at the front of the bytes: its first four are its length. *)
Definition framed (m : list byte) : Prop := 4 <= length m /\ size_of (take 4 m) = Z.of_nat (length m).

Lemma ReadFull_app (bs rest : list byte) n st :
  s_in st = bs ++ rest -> length bs = n -> ReadFull n st = (Ok bs, set_cin rest st).
Proof.
  intros Hin Hn. apply ReadFull_ok. rewrite Hin, length_app. subst n.
  rewrite take_app_length, drop_app_length. split_and!; [lia|done..].
Qed.

Lemma grow_stream size st : stream (grow_buffer size st) = stream st.
Proof. unfold grow_buffer. by destruct (_ <? _)%Z. Qed.

(** Reading once the length is in. *)
Lemma read_header b rest st :
  s_in st = b ++ rest -> length b = 4 ->
  readWireMessage st =
    (let st' := grow_buffer (size_of b) (set_cin rest st) in
     if (size_of b <? 4)%Z then (Crash "slice bounds out of range", st')
     else cbind (ReadFull (Z.to_nat (size_of b - 4))) (fun body => cret (b ++ body)) st').
Proof.
  intros Hin Hb. unfold readWireMessage, cbind at 1. rewrite (ReadFull_app b rest) by done. cbn zeta.
  unfold cbind at 1, modify. by destruct (size_of b <? 4)%Z.
Qed.

Lemma read_framed m rest st :
  framed m -> s_in st = m ++ rest ->
  exists st', readWireMessage st = (Ok m, st') /\ stream st' = (rest, s_end st, s_sent st).
Proof.
  intros [H4 Hsize] Hin. rewrite (read_header (take 4 m) (drop 4 m ++ rest));
    [|by rewrite app_assoc, take_drop|rewrite length_take; lia].
  cbn zeta. rewrite Hsize. destruct (Z.ltb_spec (Z.of_nat (length m)) 4); [lia|].
  set (st1 := grow_buffer _ _). pose proof (grow_stream (Z.of_nat (length m)) (set_cin (drop 4 m ++ rest) st)) as Hs.
  injection Hs as H1 H2 H3. unfold cbind. rewrite (ReadFull_app (drop 4 m) rest); [|exact H1|rewrite length_drop; lia].
  eexists. unfold cret. rewrite take_drop. split; [done|]. unfold stream. cbn. fold st1 in H2, H3. by rewrite H2, H3.
Qed.

Lemma read_ok st m st' :
  readWireMessage st = (Ok m, st') -> framed m /\ s_in st = m ++ s_in st' /\ stream st' = (s_in st', s_end st, s_sent st).
Proof.
  destruct (decide (4 <= length (s_in st))) as [H4|H4].
  2: { unfold readWireMessage, cbind at 1, ReadFull at 1. by destruct (Nat.leb_spec 4 (length (s_in st))). }
  assert (length (take 4 (s_in st)) = 4) as L4 by (rewrite length_take; lia).
  rewrite (read_header (take 4 (s_in st)) (drop 4 (s_in st))) by (rewrite ?take_drop; done). cbn zeta.
  destruct (Z.ltb_spec (size_of (take 4 (s_in st))) 4) as [|Hsz]; [done|].
  set (st2 := grow_buffer _ _). pose proof (grow_stream (size_of (take 4 (s_in st))) (set_cin (drop 4 (s_in st)) st)) as Hs.
  injection Hs as Hin2 He2 Hsent2. fold st2 in Hin2, He2, Hsent2. cbn in Hin2, He2, Hsent2. unfold cbind.
  destruct (ReadFull _ st2) as [[body|e|why] st3] eqn:E2; try done.
  apply ReadFull_ok in E2 as (Hn & -> & ->). unfold cret. intros [= <- <-]. rewrite Hin2 in *.
  set (n := Z.to_nat (size_of (take 4 (s_in st)) - 4)) in *.
  assert (length (take n (drop 4 (s_in st))) = n) as Ln by (rewrite length_take; lia).
  split_and!.
  - split; rewrite length_app, L4, Ln; [lia|]. rewrite take_app_le by lia. rewrite take_take, Nat.min_id. unfold n. lia.
  - cbn. rewrite <- app_assoc, take_drop. by rewrite take_drop.
  - unfold stream. cbn. by rewrite He2, Hsent2.
Qed.

Lemma read_failed st e st' : readWireMessage st = (Fail e, st') -> s_end st' = s_end st /\ s_sent st' = s_sent st.
Proof.
  destruct (decide (4 <= length (s_in st))) as [H4|H4].
  2: { unfold readWireMessage, cbind at 1, ReadFull at 1. destruct (Nat.leb_spec 4 (length (s_in st))); [lia|]. by intros [= _ <-]. }
  rewrite (read_header (take 4 (s_in st)) (drop 4 (s_in st))) by (rewrite ?take_drop, ?length_take; done || lia). cbn zeta.
  destruct (_ <? 4)%Z; [done|]. pose proof (grow_stream (size_of (take 4 (s_in st))) (set_cin (drop 4 (s_in st)) st)) as Hs.
  injection Hs as _ He Hsent. unfold cbind, ReadFull. destruct (_ <=? _); [done|]. by intros [= _ <-].
Qed.

(** C10.
    Framing: the handler takes a message off the client's stream exactly when
    the stream starts with one, that is with bytes whose first four give their
    number, at least four; it then returns those bytes and no others, and the
    next read starts right after them. *)
Theorem readWireMessage_frames st m rest :
  (framed m /\ s_in st = m ++ rest) <-> exists st', readWireMessage st = (Ok m, st') /\ s_in st' = rest.
Proof.
  split.
  - intros [Hf Hin]. destruct (read_framed m rest st Hf Hin) as (st' & H & [= Hr _ _]). eauto.
  - intros (st' & H & <-). apply read_ok in H. tauto.
Qed.

(** C29.
    Four bytes are enough to make the handler fail or to make it reserve memory:
    a length below four (a negative one included) is a panic, and a larger one
    makes the buffer that large, up to two gigabytes, before any other byte is
    looked at and whoever the client is. *)
Theorem readWireMessage_length_field st (b : list byte) :
  length b = 4 -> s_in st = b ->
  ((size_of b < 4)%Z -> exists st', readWireMessage st = (Crash "slice bounds out of range", st')) /\
  ((c_buffer_cap (s_c st) <= size_of b)%Z -> c_buffer_cap (s_c (snd (readWireMessage st))) = size_of b).
Proof.
  intros Hb Hin. rewrite (read_header b []) by (rewrite ?app_nil_r; done). cbn zeta.
  split.
  - intros Hlt. destruct (Z.ltb_spec (size_of b) 4); [|lia]. by eexists.
  - intros Hcap. assert (c_buffer_cap (s_c (grow_buffer (size_of b) (set_cin [] st))) = size_of b) as H2.
    { unfold grow_buffer. cbn. destruct (Z.ltb_spec (c_buffer_cap (s_c st)) (size_of b)); cbn; lia. }
    destruct (size_of b <? 4)%Z; [done|]. unfold cbind, ReadFull. by destruct (_ <=? _).
Qed.

(** ** The message loop *)

(** What serving a request does to the stream. *)
Lemma serve_request_stream op wm tags st :
  let '(r, _, st') := serve_request op wm tags st in
  s_in st' = s_in st /\ s_end st' = s_end st /\
  (s_sent st' = s_sent st /\ (r = Ok () -> om_Unacknowledged (op_methods op) = true) \/
   exists reply, s_sent st' = s_sent st ++ [reply] /\ r = Ok () /\ om_Unacknowledged (op_methods op) = false).
Proof.
  unfold serve_request. pose proof (off_roundTrip op {| msg_Wm := wm; msg_Op := Some op |} (om_IsIsMaster (op_methods op)) tags st) as H.
  destruct (roundTrip op _ _ tags st) as [[res|e|why] st1]; cbn in H; unfold stream in H; injection H as H1 H2 H3.
  - destruct (om_Unacknowledged (op_methods op)); [by split_and!; [..|left]|].
    destruct (msg_Op res) as [resOp|]; [|by split_and!; [..|left]].
    unfold write_reply. destruct (conn_Write (msg_Wm res) (s_x st1)) as [[err|] x]; [by split_and!; [..|left]|].
    set (st2 := add_sent _ _). pose proof (quiet_database_emit op (fun db =>
      DistributionN "response_size" (Z.of_nat (length (msg_Wm res))) ["database:" +:+ db]) st2) as Hq.
    unfold stream in Hq. injection Hq as Q1 Q2 Q3. rewrite Q1, Q2, Q3. cbn. split_and!; [done..|]. right. exists (msg_Wm res). by rewrite H3.
  - pose proof (quiet_database_emit op (fun db => Incr "error" ["database:" +:+ db; "error_type:round_trip_error"]) st1) as Hq.
    unfold stream in Hq. injection Hq as Q1 Q2 Q3. rewrite Q1, Q2, Q3. split_and!; [done..|]. by left.
  - by split_and!; [..|left].
Qed.

Lemma handleMessage_stream st :
  let '(r, st') := handleMessage st in
  (forall e, r = Fail e -> s_sent st' = s_sent st) /\
  (r = Ok () -> exists m op, framed m /\ s_in st = m ++ s_in st' /\ Decode m = Ret op /\
     if om_Unacknowledged (op_methods op) then s_sent st' = s_sent st else exists reply, s_sent st' = s_sent st ++ [reply]).
Proof.
  unfold handleMessage, handle_body. destruct (readWireMessage st) as [[wm|e|why] st1] eqn:E; unfold cbind; rewrite E.
  - apply read_ok in E as (Hf & Hin & Hs). unfold stream in Hs. injection Hs as He Hsent.
    unfold clift, cret. destruct (Decode wm) as [op|e|why|] eqn:Ed; [|by split_and!..].
    pose proof (quiet_extract op st1) as Hq. destruct (extractDatabaseName op st1) as [db st2]. cbn in Hq.
    unfold stream in Hq. injection Hq as Q1 Q2 Q3.
    set (st3 := emit_c (request_metrics op wm db) st2). pose proof (serve_request_stream op wm (request_tags op db) st3) as H.
    destruct (serve_request op wm (request_tags op db) st3) as [[r tags] st4]. destruct H as (H1 & H2 & H3).
    cbn in *. split_and!.
    + intros e ->. destruct H3 as [[-> _] | (reply & _ & [=] & _)]. by rewrite Q3, Hsent.
    + intros ->. exists wm, op. rewrite H1, Q1. split_and!; [done..|].
      destruct H3 as [[-> ->] | (reply & -> & _ & ->)]; [|done|]; rewrite Q3, Hsent; eauto.
  - apply read_failed in E as [H1 H2]. by split_and!.
  - done.
Qed.

(** A handled message, with the operation it is. *)
Definition handled (x : list byte * Operation) : Prop := framed (fst x) /\ Decode (fst x) = Ret (snd x).
Definition acknowledged (l : list (list byte * Operation)) : list (list byte * Operation) :=
  filter (fun x => om_Unacknowledged (op_methods (snd x)) = false) l.

Lemma process_spec fuel st :
  length (s_in st) < fuel ->
  let '(r, st') := process fuel st in
  r <> NoFuel /\
  (forall err, r = Ret err -> exists l rest replies, s_in st = concat l.*1 ++ rest /\ Forall handled l /\
     s_sent st' = s_sent st ++ replies /\ length replies = length (acknowledged l)).
Proof.
  revert st. induction fuel as [|fuel IH]; intros st Hlen; [lia|]. cbn [process].
  pose proof (handleMessage_stream st) as H. destruct (handleMessage st) as [[[]|err|why] st1]; destruct H as [Hfail Hok].
  - destruct (Hok eq_refl) as (m & op & Hf & Hin & Hd & Hsent). rewrite Hin, length_app in Hlen. destruct Hf as [H4 Hsz].
    specialize (IH st1 ltac:(lia)). destruct (process fuel st1) as [r st']. destruct IH as [IH1 IH2]. split; [done|].
    intros err Hr. destruct (IH2 err Hr) as (l & rest & replies & E & Hl & Hs & Hn).
    exists ((m, op) :: l), rest. unfold acknowledged. cbn. rewrite Hin, E, <- app_assoc.
    destruct (om_Unacknowledged (op_methods op)) eqn:Eu.
    + exists replies. rewrite decide_False by done. rewrite Hs, Hsent. split_and!; [done|by constructor|done|done].
    + destruct Hsent as [reply Hsent]. exists (reply :: replies). rewrite decide_True by done. rewrite Hs, Hsent, <- app_assoc.
      split_and!; [done|by constructor|done|]. cbn. by rewrite Hn.
  - split; [done|]. intros err' [= <-]. exists [], (s_in st), []. rewrite (Hfail err eq_refl), app_nil_r. by split_and!.
  - done.
Qed.


(** ** Authentication *)

Lemma cbind_ok {A B} (m : CM A) (k : A -> CM B) st b st' :
  cbind m k st = (Ok b, st') -> exists a st1, m st = (Ok a, st1) /\ k a st1 = (Ok b, st').
Proof. unfold cbind. destruct (m st) as [[a|e|why] st1]; [|done..]. eauto. Qed.

Lemma clift_ok {A} wrap (o : outcome A) st a st' : clift wrap o st = (Ok a, st') -> o = Ret a /\ st' = st.
Proof. destruct o; cbn; [|done..]. by intros [= <- <-]. Qed.

Lemma deref_ok route st config st' : deref_route route st = (Ok config, st') -> s_routes st !! route = Some config /\ st' = st.
Proof. unfold deref_route. destruct (s_routes st !! route); [|done]. by intros [= <- <-]. Qed.

Lemma wrap_ok {A} prefix (m : CM A) st a st' : wrap_failure prefix m st = (Ok a, st') -> m st = (Ok a, st').
Proof. unfold wrap_failure. by destruct (m st) as [[]]. Qed.

(** A lookup changes nothing but the router's cache. *)
Lemma get_route_ok db wrap st route st' :
  get_route db wrap st = (Ok route, st') ->
  exists r r', s_router st = Some r /\ GetRoute db (cnow st) r = (Ret route, r') /\ st' = set_crouter (Some r') st.
Proof.
  unfold get_route, lookup_route. destruct (s_router st) as [r|]; [|done].
  destruct (GetRoute db (cnow st) r) as [o r'] eqn:E. intros [-> ->]%clift_ok. eauto.
Qed.

Section with_laws.
Context `{BL : !BoundedCacheLaws string RouteRef RC}.

Lemma get_route_resolves db wrap st r route st' :
  s_router st = Some r -> coherent r -> get_route db wrap st = (Ok route, st') ->
  resolve r (NormalizeDatabaseName db) = Some route /\
  exists r', st' = set_crouter (Some r') st /\ coherent r' /\ forall k, resolve r' k = resolve r k.
Proof.
  intros Hr Hc (r0 & r' & Hr0 & Hg & ->)%get_route_ok. rewrite Hr in Hr0. injection Hr0 as <-.
  destruct (GetRoute_coherent r db (cnow st) Hc) as (H1 & H2 & H3). rewrite Hg in H1, H2, H3. cbn in *. split; [|by eauto].
  unfold answer in H1. destruct (resolve r (NormalizeDatabaseName db)) as [route'|]; [by injection H1 as ->|done].
Qed.

Lemma validate_ok user password db app st r route config u st' :
  s_router st = Some r -> coherent r -> resolve r (NormalizeDatabaseName db) = Some route -> s_routes st !! route = Some config ->
  validateCredentialsAgainstDatabase user password db app st = (Ok u, st') ->
  (isWildcardOrRegexMatch db config = true \/
   extractCredentialsFromConnectionString (rc_ConnectionString config) = Ret (user, password)) /\
  c_clientUsername (s_c st') = user /\ c_clientPassword (s_c st') = password.
Proof.
  intros Hr Hc Hres Hcfg (route' & st1 & Hg & H)%cbind_ok.
  destruct (get_route_resolves _ _ _ _ _ _ Hr Hc Hg) as (Hres' & r' & -> & _). rewrite Hres in Hres'. injection Hres' as <-.
  apply cbind_ok in H as (config' & st1 & Hd & H). apply deref_ok in Hd as [Hd ->]. cbn in Hd. rewrite Hcfg in Hd. injection Hd as <-.
  cbn zeta in H. destruct (_ && _) eqn:Ew.
  { injection H as _ <-. apply andb_true_iff in Ew as [_ Ew]. by split_and!; [left|..]. }
  apply cbind_ok in H as ([ru rp] & st1 & [He ->]%clift_ok & H). case_decide as Hne; [done|]. case_decide; [done|].
  injection H as _ <-. assert (user = ru /\ password = rp) as [-> ->] by (split; apply dec_stable; tauto).
  by split_and!; [right|..].
Qed.

Lemma authenticate_ok op st r topology st' :
  s_router st = Some r -> coherent r -> c_authEnabled (s_c st) = true -> c_clientUsername (s_c st) = "" ->
  authenticate op st = (Ok topology, st') ->
  exists db user password source route config,
    parseAppNameCredentials (appName_of (om_String (op_methods op))) = Ret (db, user, password, source) /\
    resolve r (NormalizeDatabaseName db) = Some route /\ s_routes st !! route = Some config /\
    (rc_DatabaseName config = db -> isWildcardOrRegexMatch db config = true \/
       extractCredentialsFromConnectionString (rc_ConnectionString config) = Ret (user, password)) /\
    c_clientUsername (s_c st') = user /\ c_clientPassword (s_c st') = password.
Proof.
  intros Hr Hc Ha Hu. unfold authenticate. rewrite Ha, bool_decide_true by done. cbn [negb andb]. cbn zeta. case_decide as Happ; [done|].
  intros ([[[db user] password] source] & st1 & [Hp ->]%clift_ok & H)%cbind_ok.
  apply cbind_ok in H as (route & st1 & Hg & H).
  destruct (get_route_resolves _ _ _ _ _ _ Hr Hc Hg) as (Hres & r' & -> & Hc' & Hsame).
  apply cbind_ok in H as (config & st1 & Hd & H). apply deref_ok in Hd as [Hd ->]. cbn in Hd.
  destruct (rc_DatabaseConfig config) as [dbConfig|]; [|done]. apply cbind_ok in H as ([] & st1 & H & Hret).
  injection Hret as _ <-. exists db, user, password, source, route, config. split_and!; [done..| | |].
  all: case_decide as Hn; [apply wrap_ok, (validate_ok _ _ _ _ _ r' route config) in H; [|done|done|by rewrite Hsame|done]; tauto|].
  - done.
  - by injection H as <-.
  - by injection H as <-.
Qed.

Lemma off_star db config : rc_DatabaseName config = db -> Contains db "*" = false -> isWildcardOrRegexMatch db config = false.
Proof.
  intros Hn Hs. unfold isWildcardOrRegexMatch. rewrite Hn, Hs. rewrite decide_False by (intros ->; by vm_compute in Hs).
  by rewrite decide_False by tauto.
Qed.

(** C21.
    With authentication on, a handshake on a connection that has no user yet is
    answered only if its application name carries a database, a user and a
    password and the database has a route; if that route is configured under
    exactly that name, and the name has no [*], the user and the password are
    those of the route's connection string.  They become the connection's. *)
Theorem handshake_authenticated op msg isMaster tags st r reply st' :
  s_router st = Some r -> coherent r ->
  is_handshake op isMaster = true -> c_authEnabled (s_c st) = true -> c_clientUsername (s_c st) = "" ->
  roundTrip op msg isMaster tags st = (Ok reply, st') ->
  exists db user password source route config,
    parseAppNameCredentials (appName_of (om_String (op_methods op))) = Ret (db, user, password, source) /\
    resolve r (NormalizeDatabaseName db) = Some route /\ s_routes st !! route = Some config /\
    (rc_DatabaseName config = db -> Contains db "*" = false ->
       extractCredentialsFromConnectionString (rc_ConnectionString config) = Ret (user, password)) /\
    c_clientUsername (s_c st') = user /\ c_clientPassword (s_c st') = password.
Proof.
  intros Hr Hc Hh Ha Hu (db0 & st1 & Hx & H)%cbind_ok. rewrite Hh in H.
  apply cbind_ok in H as (topology & st2 & Hauth & [_ ->]%clift_ok).
  assert (exists used intended log, st1 = upd_c (set_databases used intended) (set_cmetrics log st)) as (used & intended & log & ->).
  { unfold extract_database, extractDatabaseName in Hx. cbn zeta in Hx. injection Hx as _ <-. do 2 eexists. case_decide; [by eexists|].
    exists (s_metrics st). by destruct st. }
  destruct (authenticate_ok op (upd_c (set_databases used intended) (set_cmetrics log st)) r topology st2) as (db & user & password & source & route & config & H1 & H2 & H3 & H4 & H5 & H6);
    [exact Hr|exact Hc|exact Ha|exact Hu|exact Hauth|].
  exists db, user, password, source, route, config. split_and!; [done..| |done|done].
  intros Hn Hs. destruct (H4 Hn) as [Hw|]; [|done]. by rewrite off_star in Hw.
Qed.

End with_laws.

End Facts.
