(* ===== verification/ConnectionRouting.v ===== *)
(** * Which client serves a request

    How an ordinary request is routed: what authentication and the choice of a
    MongoDB client have to do with it. *)

From S2P Require Import Prelude GoStrings GoUrl Parsing Wire Command Operations Lru CacheInterface.
From S2P Require Import ClientSettings Router Pool DistributedCache Sessions Caches Mongo RoundTrip Topology.
From S2P Require Import Handshake Forwarder Proxy Connection ConnectionFrame ConnectionFacts.
From Stdlib Require Import ZArith Lia Ascii.

(** [commute]: the steps that do not look at a field. *)
Create HintDb commute.

Section Routing.
Context `{UC : UnicodeCase, RX : RegexpOther, GQ : GoQuote, WM : Wiremessage, BS : Bsoncore, BM : BsonMarshal, DS : Descriptions}.
Context `{DE : DriverErrors, EV : !ErrorValues, CO : ClientOptionsOps}.
Context {X : Type} `{WD : !World X} `{PN : !PodNet X}.
Context {G : Type} `{GO : GroupOps G} `{JL : Json SessionLocation}.
Context {RC : Type} `{BRC : BoundedCache string RouteRef RC}.
Notation ST := (@cstate DE X G RC).
Implicit Types st : ST.

(** ** The authentication switch *)

Definition set_authEnabled (b : bool) (c : connection) : connection :=
  {| c_address := c_address c; c_buffer_cap := c_buffer_cap c; c_clientID := c_clientID c;
     c_intendedDatabase := c_intendedDatabase c; c_routeConfig := c_routeConfig c; c_clientUsername := c_clientUsername c;
     c_clientPassword := c_clientPassword c; c_clientAuthSource := c_clientAuthSource c; c_authEnabled := b;
     c_regexCredentialPassthrough := c_regexCredentialPassthrough c; c_mongodbDefaults := c_mongodbDefaults c;
     c_databaseUsed := c_databaseUsed c; c_isUsingCredentialPassthrough := c_isUsingCredentialPassthrough c |}.

Section switch.
Variable b : bool.
Let F : ST -> ST := upd_c (set_authEnabled b).

Definition commutes {A} (m : CM A) : Prop := forall st, m (F st) = (fst (m st), F (snd (m st))).

Lemma com_bind {A B} (m : CM A) (k : A -> CM B) : commutes m -> (forall a, commutes (k a)) -> commutes (cbind m k).
Proof.
  intros Hm Hk st. unfold cbind. rewrite Hm. destruct (m st) as [[a|e|why] st']; cbn; [apply Hk|done..].
Qed.
Lemma com_ret {A} (a : A) : commutes (cret a).
Proof. done. Qed.
Lemma com_fail {A} text : commutes (A := A) (cfail text).
Proof. done. Qed.
Lemma com_lift {A} wrap (o : outcome A) : commutes (clift wrap o).
Proof. by destruct o. Qed.
Lemma com_modify g : (forall st, g (F st) = F (g st)) -> commutes (modify g).
Proof. intros H st. unfold modify. by rewrite H. Qed.
Lemma com_wrap {A} prefix (m : CM A) : commutes m -> commutes (wrap_failure prefix m).
Proof. intros H st. unfold wrap_failure. rewrite H. by destruct (m st) as [[]]. Qed.
Lemma com_deref route : commutes (deref_route route).
Proof. intros st. unfold deref_route. cbn. by destruct (_ !! _). Qed.
Lemma com_get_route db wrap : commutes (get_route db wrap).
Proof.
  intros st. unfold get_route, lookup_route, cnow. cbn. destruct (s_router st) as [r|]; [|done].
  destruct (GetRoute _ _ _) as [[]]; done.
Qed.
Lemma com_connect opts wrap : commutes (connect opts wrap).
Proof. intros st. unfold connect. cbn. by destruct (mongo_Connect _ _) as [[]]. Qed.
Lemma com_RoundTrip client msg tags : commutes (client_RoundTrip client msg tags).
Proof. intros st. unfold client_RoundTrip. cbn. destruct client; [|done]. by destruct (mongo_RoundTrip _ _ _ _). Qed.
Lemma com_pool {A} (f : Manager -> A * Manager) m st : on_pool f m (F st) = (fst (on_pool f m st), F (snd (on_pool f m st))).
Proof. unfold on_pool. cbn. destruct (f _) as [a m']. cbn. by destruct (metrics m'). Qed.
Lemma com_extract op st : extractDatabaseName op (F st) = (fst (extractDatabaseName op st), F (snd (extractDatabaseName op st))).
Proof. unfold extractDatabaseName. cbn. by case_decide. Qed.
Lemma com_extract_database op : commutes (extract_database op).
Proof. intros st. unfold extract_database. rewrite com_extract. by destruct (extractDatabaseName op st). Qed.
Lemma com_register name client : commutes (register_client name client).
Proof. by apply com_modify. Qed.

Hint Resolve com_ret com_fail com_lift com_deref com_get_route com_connect com_RoundTrip com_extract_database com_register : commute.
Hint Extern 2 (commutes (modify _)) => apply com_modify; intros ?; done : commute.
Hint Extern 1 (commutes (wrap_failure _ _)) => apply com_wrap : commute.

Ltac com_steps :=
  repeat first
    [ lazymatch goal with |- commutes _ => fail | |- forall _, _ => intros ? end
    | apply com_bind; [solve [eauto with commute]|] | case_decide | case_match ]; eauto with commute.

Lemma com_lazy route db : commutes (createLazyMongoClient route db).
Proof.
  unfold createLazyMongoClient. com_steps. intros st. refine (com_bind _ _ _ _ st); com_steps.
Qed.

Lemma com_cached route : commutes (cached_client route).
Proof.
  unfold cached_client. apply com_bind; [eauto with commute|]. intros _. apply com_bind; [eauto with commute|]. intros config st.
  destruct (rc_CredentialClients config) as [cache|]; [|done]. unfold cnow. cbn. by destruct (Lru.Get _ _ _).
Qed.
Hint Resolve com_lazy com_cached : commute.

Lemma com_create route : commutes (createMongoClientWithCredentials route).
Proof.
  unfold createMongoClientWithCredentials. com_steps. intros st. refine (com_bind _ _ _ _ st); com_steps.
Qed.
Hint Resolve com_create : commute.

Lemma com_credential route : commutes (getOrCreateCredentialClient route).
Proof. unfold getOrCreateCredentialClient. com_steps. Qed.
Hint Resolve com_credential : commute.

Lemma com_choose route db : commutes (choose_client route db).
Proof.
  unfold choose_client. apply com_bind; [eauto with commute|]. intros config st.
  refine (com_bind _ _ _ _ st); com_steps.
Qed.

Lemma com_forward op : commutes (try_forward op).
Proof.
  intros st. unfold try_forward. cbn [s_proxy s_c s_x F upd_c]. destruct (s_proxy st ≫= p_requestForwarder) as [rf|]; [|done].
  cbn zeta. case_decide; [done|]. cbn [c_address set_authEnabled]. destruct (ForwardRequest _ _ _ _ _) as [[r rf'] x].
  destruct r as [[response|]|e|why|]; try done. by destruct (Decode response).
Qed.

Lemma com_register_with_pool db : commutes (register_with_pool db).
Proof.
  intros st. unfold register_with_pool. cbn [s_pool F upd_c]. destruct (s_pool st) as [m|]; [|done]. cbn zeta.
  rewrite com_pool. unfold cnow. cbn [F upd_c s_c s_x c_clientID c_clientUsername set_authEnabled].
  by destruct (on_pool _ m st) as [[] st'].
Qed.

Lemma com_unregister st : unregister_from_pool (F st) = F (unregister_from_pool st).
Proof. unfold unregister_from_pool. cbn [s_pool F upd_c]. destruct (s_pool st); [|done]. by rewrite com_pool. Qed.

Lemma com_registered db : commutes (ensure_registered db).
Proof.
  intros st. unfold ensure_registered. cbn [s_pool F upd_c s_c c_clientID set_authEnabled]. destruct (s_pool st) as [m|]; [|done].
  destruct (GetClient _ m); [|apply com_register_with_pool]. case_decide; [done|].
  fold (F st). rewrite com_unregister. apply com_register_with_pool.
Qed.

Lemma com_pool_connection db client istxn id : commutes (pool_connection db client istxn id).
Proof.
  intros st. unfold pool_connection. cbn [s_pool F upd_c]. destruct (s_pool st) as [m|]; [|done].
  fold (F st). rewrite com_pool. unfold cnow. cbn [F upd_c s_c s_x c_clientID set_authEnabled].
  by destruct (on_pool _ m st) as [[] st'].
Qed.

Lemma com_return conn isEnd st : return_connection conn isEnd (F st) = F (return_connection conn isEnd st).
Proof. unfold return_connection. cbn [s_pool F upd_c]. destruct (s_pool st); [|done]. fold (F st). by rewrite com_pool. Qed.

Lemma com_pooled op msg conn client tags : commutes (pooled_exchange op msg conn client tags).
Proof.
  intros st. unfold pooled_exchange. rewrite com_RoundTrip. destruct (client_RoundTrip client msg tags st) as [[] st']; cbn [fst snd];
    [by rewrite com_return..|done].
Qed.
Hint Resolve com_choose com_forward com_registered com_pool_connection com_pooled : commute.

Lemma com_with_pool op msg db client tags : commutes (roundTripWithPool op msg db client tags).
Proof. unfold roundTripWithPool. cbn zeta. com_steps. Qed.

Lemma com_drop route r st : drop_broken_client route r (F st) = F (drop_broken_client route r st).
Proof. unfold drop_broken_client. destruct r; try done. by destruct (isConnectionError e). Qed.

Lemma com_passthrough db tags st :
  passthrough_metrics db tags (F st) = (fst (passthrough_metrics db tags st), F (snd (passthrough_metrics db tags st))).
Proof. unfold passthrough_metrics. cbn. destruct (c_isUsingCredentialPassthrough _); [|done]. by destruct (s_metrics st). Qed.

Lemma com_through route op msg db client tags : commutes (through_client route op msg db client tags).
Proof.
  intros st. unfold through_client. change (s_pool (F st)) with (s_pool st).
  change (c_isUsingCredentialPassthrough (s_c (F st))) with (c_isUsingCredentialPassthrough (s_c st)).
  rewrite com_with_pool, com_passthrough.
  destruct (s_pool st), (c_isUsingCredentialPassthrough (s_c st)), (passthrough_metrics db tags st) as [tags' st'];
    cbn [fst snd]; try rewrite com_RoundTrip;
    [destruct (client_RoundTrip _ _ _ _)|destruct (roundTripWithPool _ _ _ _ _ _)|destruct (client_RoundTrip _ _ _ _)..];
    cbn [fst snd]; by rewrite com_drop.
Qed.
Hint Resolve com_through : commute.

Lemma com_roundTrip op msg isMaster tags : is_handshake op isMaster = false -> commutes (roundTrip op msg isMaster tags).
Proof.
  intros Hh. unfold roundTrip. apply com_bind; [eauto with commute|]. intros db. rewrite Hh. intros st.
  change (s_router (F st)) with (s_router st). destruct (s_router st); [|done]. refine (com_bind _ _ _ _ st); com_steps.
Qed.

End switch.

(** C22.
    Authentication guards handshakes only: an ordinary request gets the same
    answer, and leaves everything the same, whether authentication is on or off,
    also on a connection whose client never gave credentials. *)
Theorem auth_ignored_outside_handshake op msg isMaster tags st b :
  is_handshake op isMaster = false ->
  roundTrip op msg isMaster tags (upd_c (set_authEnabled b) st) =
    (let '(r, st') := roundTrip op msg isMaster tags st in (r, upd_c (set_authEnabled b) st')).
Proof. intros H. rewrite (com_roundTrip b op msg isMaster tags H st). by destruct (roundTrip op msg isMaster tags st). Qed.

(** ** The pool's client *)

Lemma GetConnection_client cid db c1 c2 istxn id now elapsed m :
  is_Some (pools m !! db) ->
  GetConnection cid db c1 istxn id now elapsed m = GetConnection cid db c2 istxn id now elapsed m.
Proof.
  intros [p Hp]. unfold GetConnection. destruct (activeClients m !! cid) as [cl|]; [|done].
  unfold GetPool. cbn. by rewrite Hp.
Qed.

(** The databases that have a pool. *)
Definition has_pool (db : string) st : Prop := exists m, s_pool st = Some m /\ is_Some (pools m !! db).

(** An operation of the manager that drops no pool. *)
Definition keeps_pools (f : Manager -> Manager) : Prop := forall db m, is_Some (pools m !! db) -> is_Some (pools (f m) !! db).

Lemma keeps_Return_own ref now : keeps_pools (Return_own ref now).
Proof.
  intros db m Hm. unfold Return_own, Return. destruct (conns m !! ref) as [c|] eqn:E; [|done].
  rewrite decide_False by (intros H; by apply H). cbn. by rewrite lookup_alter_is_Some.
Qed.

Lemma keeps_Unregister cid now : keeps_pools (UnregisterClient cid now).
Proof.
  intros db m Hm. unfold UnregisterClient. destruct (activeClients m !! cid) as [cl|]; [|done]. cbn.
  unfold return_held. destruct (cl_AssignedConn cl), (cl_TransactionConn cl); repeat first [done | apply keeps_Return_own].
Qed.

Lemma keeps_Register cid user db mode now : keeps_pools (fun m => snd (RegisterClient cid user db mode now m)).
Proof. intros db' m Hm. unfold RegisterClient. destruct (activeClients m !! cid); [done|]. by destruct (_ && _). Qed.

Lemma on_pool_pools {A} (f : Manager -> A * Manager) m st db :
  is_Some (pools m !! db) -> keeps_pools (fun m => snd (f m)) -> has_pool db (snd (on_pool f m st)).
Proof.
  intros Hm Hf. unfold on_pool. set (m0 := Pool.set_metrics _ m). specialize (Hf db m0 Hm). cbn beta in Hf. destruct (f m0) as [a m']. cbn in *.
  exists m'. split; [|done]. by destruct (metrics m').
Qed.

Lemma registered_has_pool db0 db st : has_pool db st -> has_pool db (snd (ensure_registered db0 st)).
Proof.
  assert (forall st, has_pool db st -> has_pool db (snd (register_with_pool db0 st))) as Hr.
  { intros st' (m & E & Hm). unfold register_with_pool. rewrite E. cbn zeta.
    pose proof (on_pool_pools (RegisterClient (c_clientID (s_c st')) (if decide (c_clientUsername (s_c st') = "") then "default"
       else c_clientUsername (s_c st')) db0 (GetDefaultMode m) (cnow st')) m st' db Hm (keeps_Register _ _ _ _ _)) as H.
    by destruct (on_pool _ m st') as [[] st'']. }
  intros H. pose proof H as (m & E & Hm). unfold ensure_registered. rewrite E. destruct (GetClient _ m); [|by apply Hr].
  case_decide; [done|]. apply Hr. unfold unregister_from_pool. rewrite E. apply on_pool_pools; [done|]. apply keeps_Unregister.
Qed.

Lemma forward_has_pool db op st : has_pool db st -> has_pool db (snd (try_forward op st)).
Proof.
  intros (m & E & Hm). exists m. split; [|done]. unfold try_forward. destruct (s_proxy st ≫= p_requestForwarder) as [rf|]; [|done].
  case_decide; [done|]. destruct (ForwardRequest _ _ _ _ _) as [[r rf'] x]. destruct r as [[response|]|e|why|]; try done.
  by destruct (Decode response).
Qed.

Lemma pool_connection_client db c1 c2 istxn id st :
  has_pool db st -> pool_connection db c1 istxn id st = pool_connection db c2 istxn id st.
Proof.
  intros (m & E & Hm). unfold pool_connection, on_pool. rewrite E.
  by rewrite (GetConnection_client _ db (Some c1) (Some c2)).
Qed.

(** C38.
    A pool serves with the MongoDB client it was made with: once the database
    has a pool, a request through it has the same outcome and the same effects
    whichever client was chosen for it.  So a client made anew after a
    connection error is never used by the pool, which stays with the broken one. *)
Theorem pool_keeps_first_client op msg db c1 c2 tags st :
  has_pool (if decide (db = "") then "default" else db) st ->
  roundTripWithPool op msg db c1 tags st = roundTripWithPool op msg db c2 tags st.
Proof.
  intros Hp. unfold roundTripWithPool. cbn zeta. set (adb := if decide (db = "") then "default" else db) in *.
  unfold cbind. pose proof (forward_has_pool adb op st Hp) as Hf.
  destruct (try_forward op st) as [[[reply|]|e|why] st1]; [done| |done|done]. cbn [snd] in Hf.
  pose proof (registered_has_pool adb adb st1 Hf) as Hr.
  destruct (ensure_registered adb st1) as [[[]|e|why] st2]; [|done..]. by rewrite (pool_connection_client adb c1 c2).
Qed.

(** ** Clients of pattern routes *)

(** A route that is not configured under the database's own name (a pattern or
    the catch-all) accepts any user and password, and when the client's own
    credentials are not passed on, its requests are then served by the route's
    client, with the route's credentials. *)
Theorem pattern_route_unchecked op st r r' db user password source route config dbConfig client :
  c_authEnabled (s_c st) = true -> c_clientUsername (s_c st) = "" -> c_regexCredentialPassthrough (s_c st) = false ->
  parseAppNameCredentials (appName_of (om_String (op_methods op))) = Ret (db, user, password, source) ->
  s_router st = Some r -> GetRoute db (cnow st) r = (Ret route, r') -> s_routes st !! route = Some config ->
  rc_DatabaseName config <> db -> rc_DatabaseConfig config = Some dbConfig -> rc_MongoClient config = Some client ->
  exists st', authenticate op st = (Ok (default Sharded (cc_Topology dbConfig)), st') /\
    c_clientUsername (s_c st') = user /\ c_clientPassword (s_c st') = password /\
    fst (choose_client route db st') = Ok client.
Proof.
  intros Ha Hu Hx Hp Hr Hg Hc Hn Hcfg Hcl. unfold authenticate. rewrite Ha, bool_decide_true by done. cbn [negb andb]. cbn zeta.
  rewrite decide_False by (intros E; by rewrite E in Hp). unfold cbind at 1, clift at 1. rewrite Hp.
  unfold cbind at 1, get_route, lookup_route. rewrite Hr, Hg. unfold clift.
  unfold cbind at 1, deref_route. cbn [s_routes set_crouter]. rewrite Hc, Hcfg. rewrite decide_False by done.
  eexists. split; [done|]. split; [done|]. split; [done|].
  unfold choose_client, cbind at 1, deref_route. cbn. rewrite Hc. cbn. unfold use_passthrough. cbn. rewrite Hx. cbn. by rewrite Hcl.
Qed.

(** ** Forwarded requests *)

(** The reply of another pod never reaches the client: when a request was
    forwarded, the message handed back to be written to the client has no
    bytes, and the call counts as a success. *)
Theorem forwarded_reply_lost op msg db client tags st reply st1 :
  try_forward op st = (Ok (Some reply), st1) ->
  roundTripWithPool op msg db client tags st = (Ok reply, st1) /\ msg_Wm reply = [].
Proof.
  intros H. split; [unfold roundTripWithPool, cbind; by rewrite H|].
  unfold try_forward in H. destruct (s_proxy st ≫= p_requestForwarder) as [rf|]; [|done]. cbn zeta in H. case_decide; [done|].
  destruct (ForwardRequest _ _ _ _ _) as [[r rf'] x]. destruct r as [[response|]|e|why|]; try done.
  apply cbind_ok in H as (op' & st' & _ & H). by injection H as <- _.
Qed.

(** ** Clients with the client's own credentials *)

Definition cached_for (c : connection) (route : RouteRef) (client : MongoRef) st : Prop :=
  exists config cache, s_routes st !! route = Some config /\ rc_CredentialClients config = Some cache /\
    fst (Lru.Get (credential_key c) (cnow st) cache) = Some client.

(** The clients made for the clients' own credentials are kept by user and
    password alone: once one is kept for a route, every connection with that
    user and password gets it, whatever its database and authentication
    source, and no other is made. *)
Theorem credential_client_ignores_database route client st c :
  s_c st = c -> cached_for c route client st ->
  forall database source,
    let st0 := upd_c (fun c => set_credentials (c_clientUsername c) (c_clientPassword c) source (set_databases database database c)) st in
    exists st', getOrCreateCredentialClient route st0 = (Ok client, st') /\ s_x st' = s_x st /\
      s_proxy st' = s_proxy st.
Proof.
  intros <- (config & cache & Hr & Hc & Hg) database source. cbn zeta. set (st0 := upd_c _ st).
  unfold getOrCreateCredentialClient, cbind at 1, cached_client, cbind at 1, modify. set (st1 := upd_route route _ st0).
  assert (s_routes st1 !! route = Some config) as H1.
  { unfold st1. cbn. rewrite lookup_alter_eq, Hr. cbn. unfold InitCredentialClientsCache. by rewrite Hc. }
  unfold cbind at 1, deref_route. rewrite H1, Hc.
  change (credential_key (s_c st1)) with (credential_key (s_c st)). change (cnow st1) with (cnow st).
  destruct (Lru.Get (credential_key (s_c st)) (cnow st) cache) as [found cache']. cbn in Hg. subst found. by eexists.
Qed.

End Routing.
