(* ===== verification/System.v ===== *)
(** * The handler on top of the MongoDB clients

    [Connection.v] leaves the MongoDB clients to the class [World].  Here that
    class is implemented by the clients of [Mongo.v] and [RoundTrip.v]: a client
    reference is an index of a table of clients, a round trip runs
    [RoundTrip.RoundTrip] on it, and connecting runs
    [ConnectWithDistributedCache] (through [ConnectWithSessionManager], without
    a shared cache of its own).  All clients share one session manager, one
    shared cache and one metrics object: they are kept once and lent to a client
    while it works.  What remains outside is the driver [W] and the sockets. *)

From S2P Require Import Prelude GoStrings GoUrl Parsing Wire Command Operations Lru CacheInterface.
From S2P Require Import ClientSettings Router Pool DistributedCache Sessions Caches Mongo RoundTrip.
From S2P Require Import RoundTripFacts RoundTripTransactions Topology Handshake Forwarder Proxy Connection.
From S2P Require Import ConnectionFrame ConnectionFacts.
From Stdlib Require Import ZArith Lia Ascii.

(** What the handler needs of the outside besides the driver's own calls:
    [mongo.Connect], the options' connection string, the client's socket. *)
Class Outside (W : Type) `{EV : ErrorValues} `{CO : ClientOptionsOps} := {
  driver_Connect : ClientOptions -> W -> option DriverError * W;
  GetURI : ClientOptions -> string;
  options_ApplyURI : string -> ClientOptions;
  socket_Write : list byte -> W -> option DriverError * W;
  pool_wait : W -> Z;
  fresh_ObjectID : W -> list byte;
  error_EOF : DriverError;
  error_UnexpectedEOF : DriverError
}.

Section System.
Context `{UC : UnicodeCase, RX : RegexpOther, GQ : GoQuote, WM : Wiremessage, BS : Bsoncore, BM : BsonMarshal, DS : Descriptions}.
Context `{DE : DriverErrors, EV : !ErrorValues, CO : ClientOptionsOps}.
Context {W : Type} `{DR : !Driver W} `{OU : !Outside W} `{PW : !PodNet W}.
Context {G : Type} `{GO : GroupOps G}.
Context `{JS : Json SessionData, JT : Json TransactionData, JC : Json CursorData, PF : PointerFormat, JL : Json SessionLocation}.
Notation client := (Mongo DriverError (Lru.Cache string cursorInfo) (Lru.Cache string (option ServerRef)) G).

(** [sy_trace] are the calls the round trips have made on the driver. *)
Record system := {
  sy_w : W;
  sy_clients : gmap MongoRef client;
  sy_sessions : SessionManager G;
  sy_dc : option (DistributedCache G);
  sy_metrics : option (list MetricCall);
  sy_trace : list event
}.

Definition set_w (w : W) (x : system) : system :=
  {| sy_w := w; sy_clients := sy_clients x; sy_sessions := sy_sessions x; sy_dc := sy_dc x; sy_metrics := sy_metrics x;
     sy_trace := sy_trace x |}.

(** The client with the shared objects as they are now. *)
Definition lent (m : client) (x : system) : client :=
  set_mg_metrics (match mg_metrics m with Some _ => sy_metrics x | None => None end)
    (set_mg_sessions (sy_sessions x) (sy_dc x) m).

(** The system after a client has worked. *)
Definition returned (ref : MongoRef) (m : client) (w : W) (tr : list event) (x : system) : system :=
  {| sy_w := w; sy_clients := <[ref := m]> (sy_clients x); sy_sessions := mg_sessions m; sy_dc := mg_dc m;
     sy_metrics := match mg_metrics m with Some log => Some log | None => sy_metrics x end;
     sy_trace := sy_trace x ++ tr |}.

Definition system_RoundTrip (ref : MongoRef) (msg : Message) (tags : list string) (x : system) : result DriverError Message * system :=
  match sy_clients x !! ref with
  | None => (Crash "nil pointer dereference", x)
  | Some m =>
      let '(r, st) := RoundTrip msg tags (lent m x) (sy_w x) in
      (r, returned ref (rt_m st) (rt_w st) (rt_trace st) x)
  end.

(** [mongo.ConnectWithSessionManager(log, metrics, opts, false, globalSessionManager)] *)
Definition system_Connect (opts : ClientOptions) (x : system) : result DriverError MongoRef * system :=
  let '(err, w) := driver_Connect opts (sy_w x) in
  let x := set_w w x in
  match ConnectWithSessionManager (GetURI opts) err None (sy_metrics x) (Lru.New maxCursors cursorExpiry)
          (Lru.New maxTransactions transactionExpiry) (Some (sy_sessions x)) with
  | Ok m =>
      let ref := fresh (dom (sy_clients x)) in
      (Ok ref, {| sy_w := w; sy_clients := <[ref := m]> (sy_clients x); sy_sessions := sy_sessions x; sy_dc := sy_dc x;
                  sy_metrics := sy_metrics x; sy_trace := sy_trace x |})
  | Fail e => (Fail e, x)
  | Crash why => (Crash why, x)
  end.

Definition system_Write (wm : list byte) (x : system) : option DriverError * system :=
  let '(err, w) := socket_Write wm (sy_w x) in (err, set_w w x).

(** A call that reaches the driver's world but none of its connections. *)
Definition on_w {A} (f : W -> A * W) (x : system) : A * system :=
  let '(a, w) := f (sy_w x) in (a, set_w w x).

#[export] Instance system_net : PodNet system := {|
  net_Dial address timeout := on_w (net_Dial address timeout);
  net_SetKeepAlive conn interval x := set_w (net_SetKeepAlive conn interval (sy_w x)) x;
  net_Write conn data := on_w (net_Write conn data);
  net_Read conn deadline n := on_w (net_Read conn deadline n);
  net_Now x := time_Now (sy_w x)
|}.

#[export] Instance system_world : World system := {|
  mongo_RoundTrip := system_RoundTrip;
  mongo_Connect := system_Connect;
  ApplyURI := options_ApplyURI;
  conn_Write := system_Write;
  checkout_time x := pool_wait (sy_w x);
  NewObjectID x := fresh_ObjectID (sy_w x);
  io_EOF := error_EOF;
  io_ErrUnexpectedEOF := error_UnexpectedEOF
|}.

Context {RC : Type} `{BRC : BoundedCache string RouteRef RC}.
Notation ST := (@cstate DE system G RC).
Implicit Types st : ST.

Definition driver_trace st : list event := sy_trace (s_x st).
Definition driver_sessions st : SessionManager G := sy_sessions (s_x st).

End System.
