(* ===== verification/SystemFacts.v ===== *)
(** * Properties of the whole proxy

    What the handler's message loop does to the outside, message by message, and
    with the clients of [System.v] outside: what reaches MongoDB of what a client
    sends, and that a transaction keeps its connection across the requests of a
    whole connection. *)

From S2P Require Import Prelude GoStrings GoUrl Parsing Wire Command Operations Lru CacheInterface.
From S2P Require Import ClientSettings Router Pool DistributedCache Sessions Caches Mongo RoundTrip.
From S2P Require Import RoundTripFacts RoundTripTransactions Topology Handshake Forwarder Proxy Connection.
From S2P Require Import ConnectionFrame ConnectionFacts System.
From Stdlib Require Import ZArith Lia Ascii.

(** ** The message loop and the outside *)

Section Loop.
Context `{UC : UnicodeCase, RX : RegexpOther, GQ : GoQuote, WM : Wiremessage, BS : Bsoncore, BM : BsonMarshal, DS : Descriptions}.
Context `{DE : DriverErrors, EV : !ErrorValues, CO : ClientOptionsOps}.
Context {X : Type} `{WD : !World X} `{PN : !PodNet X}.
Context {G : Type} `{GO : GroupOps G} `{JL : Json SessionLocation}.
Context {RC : Type} `{BRC : BoundedCache string RouteRef RC}.
Notation ST := (@cstate DE X G RC).
Implicit Types st : ST.

Lemma read_outside st : s_x (snd (readWireMessage st)) = s_x st.
Proof.
  unfold readWireMessage, cbind, modify, ReadFull, cret. repeat (case_match; simplify_eq/=; try done); unfold grow_buffer; by case_match.
Qed.

(** A stream has one division into messages. *)
Lemma framed_unique m m' (rest rest' : list byte) : framed m -> framed m' -> m ++ rest = m' ++ rest' -> m = m' /\ rest = rest'.
Proof.
  intros [H4 Hs] [H4' Hs'] E. apply app_inj_1; [|done]. assert (take 4 m = take 4 m') as Et.
  { rewrite <- (take_app_le m rest 4), <- (take_app_le m' rest' 4) by lia. by rewrite E. }
  rewrite Et in Hs. lia.
Qed.

Lemma messages_prefix (ms : list (list byte)) l rest :
  Forall framed ms -> concat ms = concat l.*1 ++ rest -> Forall handled l -> l.*1 `prefix_of` ms.
Proof.
  intros Hms. revert l. induction Hms as [|m ms Hm _ IH]; intros [|[m' op] l] E Hl; cbn in *; try (apply prefix_nil).
  - apply Forall_cons in Hl as [[[H4 _] _] _]. cbn in H4. destruct m'; [cbn in H4; lia|done].
  - apply Forall_cons in Hl as [[Hf _] Hl]. rewrite <- app_assoc in E. destruct (framed_unique _ _ _ _ Hm Hf E) as [-> E'].
    by apply prefix_cons, IH.
Qed.

(** [Qx] holds of every call but round trips; [Ox] of the round trip on a message of the client. *)
Context (Qx : X -> X -> Prop) (Ox : list byte * Operation -> X -> X -> Prop) {OF : OutsideFrame Qx}.
Context {EF : forall wm op, ExchangeFrame {| msg_Wm := wm; msg_Op := Some op |} Qx (Ox (wm, op))}.

Lemma serve_request_outside op wm tags st : Ox (wm, op) (s_x st) (s_x (snd (serve_request op wm tags st))).
Proof.
  unfold serve_request. set (msg := {| msg_Wm := wm; msg_Op := Some op |}).
  pose proof (kept_roundTrip msg _ _ op (om_IsIsMaster (op_methods op)) tags st) as H. cbn beta in H.
  destruct (roundTrip op msg _ tags st) as [[res|e|why] st1]; cbn [snd] in H |- *; [|by rewrite (proj2 (inside_database_emit _ _ _))|done].
  destruct (om_Unacknowledged _); [done|]. destruct (msg_Op res); [|done].
  unfold write_reply. pose proof (of_reply (msg_Wm res) (s_x st1)) as Hw.
  destruct (conn_Write (msg_Wm res) (s_x st1)) as [[e|] x]; cbn [snd] in *; rewrite ?(proj2 (inside_database_emit _ _ _));
    by apply (ef_after (msg := msg) _ (s_x st1)).
Qed.

(** A message either reaches no client, or is a whole message of the stream and reaches one. *)
Lemma handleMessage_outside st :
  let '(r, st') := handleMessage st in
  s_x st' = s_x st /\ r <> Ok () \/
  exists m op, handled (m, op) /\ (exists rest, s_in st = m ++ rest /\ (r = Ok () -> s_in st' = rest)) /\ Ox (m, op) (s_x st) (s_x st').
Proof.
  unfold handleMessage, handle_body. pose proof (read_outside st) as Hx.
  destruct (readWireMessage st) as [[wm|e|why] st1] eqn:E; unfold cbind; rewrite E; cbn [snd] in Hx; [|by left..].
  apply read_ok in E as (Hf & Hin & _). unfold clift, cret. destruct (Decode wm) as [op|e|why|] eqn:Ed; [|by left..].
  pose proof (inside_extract op st1) as [Hs2 Hx2]. destruct (extractDatabaseName op st1) as [db st2]. cbn [snd] in *.
  set (st3 := emit_c (request_metrics op wm db) st2).
  pose proof (serve_request_outside op wm (request_tags op db) st3) as H.
  pose proof (serve_request_stream op wm (request_tags op db) st3) as Hs.
  destruct (serve_request op wm (request_tags op db) st3) as [[r tags] st4]. destruct Hs as (H1 & _ & _). right. exists wm, op.
  unfold stream in Hs2. injection Hs2 as Hin2 _ _. cbn in *. rewrite Hx2, Hx in H. split_and!; [done| |done]. exists (s_in st1). split; [done|].
  intros _. by rewrite H1.
Qed.

(** The outside across a sequence of messages. *)
Inductive served : list (list byte * Operation) -> X -> X -> Prop :=
| served_nil x : served [] x x
| served_cons mo l x1 x2 x3 : Ox mo x1 x2 -> served l x2 x3 -> served (mo :: l) x1 x3.

Lemma process_outside fuel st :
  exists l rest, s_in st = concat l.*1 ++ rest /\ Forall handled l /\ served l (s_x st) (s_x (snd (process fuel st))).
Proof.
  revert st. induction fuel as [|fuel IH]; intros st; [by exists [], (s_in st); split_and!; [..|constructor]|].
  cbn [process]. pose proof (handleMessage_outside st) as H.
  destruct (handleMessage st) as [r st1]. destruct H as [[Hx Hr] | (m & op & Hh & (rest & Hin & Hrest) & HO)].
  - exists [], (s_in st). destruct r as [[]|e|why]; [done|cbn; rewrite Hx; split_and!; by try constructor..].
  - assert (served [(m, op)] (s_x st) (s_x st1)) as H1 by (econstructor; [exact HO|constructor]).
    destruct r as [[]|e|why]; [|exists [(m, op)], rest; cbn; rewrite app_nil_r; split_and!; [done|by apply Forall_singleton|done]..].
    destruct (IH st1) as (l & rest' & E & Hl & Hs). exists ((m, op) :: l), rest'. rewrite (Hrest eq_refl) in E. cbn.
    rewrite Hin, E, app_assoc. split_and!; [done|by constructor|]. by econstructor.
Qed.

End Loop.

(** ** With the MongoDB clients *)

Section EndToEnd.
Context `{UC : UnicodeCase, RX : RegexpOther, GQ : GoQuote, WM : Wiremessage, BS : Bsoncore, BM : BsonMarshal, DS : Descriptions}.
Context `{DE : DriverErrors, EV : !ErrorValues, CO : ClientOptionsOps}.
Context {W : Type} `{DR : !Driver W} `{OU : !Outside W} `{PW : !PodNet W}.
Context {G : Type} `{GO : GroupOps G}.
Context `{JS : Json SessionData, JT : Json TransactionData, JC : Json CursorData, PF : PointerFormat, JL : Json SessionLocation}.
Context {RC : Type} `{BRC : BoundedCache string RouteRef RC}.
Notation SY := (@system DE W G).
Notation ST := (@cstate DE SY G RC).
Notation command op := (fst (om_CommandAndCollection (op_methods op))).
Implicit Types (x : SY) (st : ST).

(** The driver has not been called for a request and the sessions are as they were. *)
Definition idle x x' : Prop := sy_trace x' = sy_trace x /\ sy_sessions x' = sy_sessions x.

Lemma idle_on_w {A} (f : W -> A * W) x : idle x (snd (on_w f x)).
Proof. unfold on_w. by destruct (f (sy_w x)). Qed.

#[local] Instance idle_frame : OutsideFrame (X := SY) idle.
Proof.
  split; try done; try (intros; apply idle_on_w).
  - intros x1 x2 x3 [H1 H2] [H3 H4]. split; congruence.
  - intros opts x. cbn. unfold system_Connect. destruct (driver_Connect opts (sy_w x)) as [err w].
    by destruct (ConnectWithSessionManager _ _ _ _ _ _ _).
Qed.

(** A message of the client, with the calls it has made on the driver: at most
    four writes, of the client's bytes; at most four connections opened, and
    each of them closed again unless the message is part of a transaction. *)
Definition carried (mo : list byte * Operation) (tr : list event) : Prop :=
  length (writes tr) <= 4 /\ Forall (fun cw => snd cw = fst mo) (writes tr) /\ length (opens tr) <= 4 /\
  (om_TransactionDetails (op_methods (snd mo)) = None -> closes tr = rev (opens tr)).

Lemma closes_closing cs : closes (map EClose cs) = cs.
Proof. induction cs as [|c cs IH]; [done|]. cbn. by f_equal. Qed.

Lemma RoundTrip_carried wm op tags m w :
  carried (wm, op) (rt_trace (snd (RoundTrip {| msg_Wm := wm; msg_Op := Some op |} tags m w))).
Proof.
  destruct (RoundTrip_bounded {| msg_Wm := wm; msg_Op := Some op |} tags m w) as (_ & H1 & H2 & H3).
  split_and!; [done..|]. cbn [snd]. intros Htd.
  destruct (plain_connections_closed {| msg_Wm := wm; msg_Op := Some op |} tags m w) as (pre & -> & Hc); [by intros op' [= <-]|].
  destruct (closes_only (rev (opens pre))) as (_ & Ho & _). by rewrite opens_app, closes_app, Hc, Ho, closes_closing, app_nil_r.
Qed.

Definition carrying (mo : list byte * Operation) x x' : Prop :=
  exists tr, sy_trace x' = sy_trace x ++ tr /\ carried mo tr.

Lemma carried_nil mo : carried mo [].
Proof. split_and!; [cbn; lia|done|cbn; lia|done]. Qed.

#[local] Instance carrying_frame wm op : ExchangeFrame {| msg_Wm := wm; msg_Op := Some op |} idle (carrying (wm, op)).
Proof.
  split.
  - intros x x' [H _]. exists []. rewrite H, app_nil_r. split; [done|apply carried_nil].
  - intros x1 x2 x3 [H _] (tr & E & Hc). exists tr. by rewrite E, H.
  - intros x1 x2 x3 (tr & E & Hc) [H _]. exists tr. by rewrite H, E.
  - intros ref tags x. cbn. unfold system_RoundTrip. destruct (sy_clients x !! ref) as [m|].
    + pose proof (RoundTrip_carried wm op tags (lent m x) (sy_w x)) as H. destruct (RoundTrip _ _ _ _) as [r st]. by eexists.
    + exists []. rewrite app_nil_r. split; [done|apply carried_nil].
Qed.

Lemma served_carried l x x' : served carrying l x x' -> exists trs, Forall2 carried l trs /\ sy_trace x' = sy_trace x ++ concat trs.
Proof.
  induction 1 as [x|mo l x1 x2 x3 (tr & H & Hc) _ (trs & IH1 & IH2)]; [exists []; by rewrite app_nil_r|].
  exists (tr :: trs). rewrite IH2, H, <- app_assoc. split; [by constructor|done].
Qed.

(** C11.
    What reaches MongoDB of a connection: the client's stream starts with a
    sequence of whole, decodable messages, and the calls its handler makes on
    the driver are those of these messages, in their order.  The calls of a
    message write the bytes of the message, unchanged, and nothing else, at most
    four times, on at most four new connections; and unless the message is part
    of a transaction every connection opened for it is closed. *)
Theorem connection_carries_client_bytes st :
  exists l rest trs, s_in st = concat l.*1 ++ rest /\ Forall handled l /\ Forall2 carried l trs /\
    driver_trace (snd (processMessages st)) = driver_trace st ++ concat trs.
Proof.
  destruct (process_outside idle carrying (S (length (s_in st))) st) as (l & rest & Hin & Hl & Hs).
  exists l, rest. unfold driver_trace. destruct (served_carried _ _ _ Hs) as (trs & H & E). by exists trs.
Qed.

(** *** A transaction across the requests of a connection *)

(** Session [id] has a transaction in progress on connection [c] of server [srv]. *)
Definition transacting (id : string) (srv : ServerRef) (c : DriverConnRef) (sm : SessionManager G) : Prop :=
  exists ref s, local_session id sm = Some (ref, s) /\ in_transaction s srv c.

(** A request of session [id] that neither starts nor ends a transaction. *)
Definition continues (id : string) (op : Operation) : Prop :=
  exists td, om_TransactionDetails (op_methods op) = Some td /\ b64_EncodeToString (td_LsID td) = id /\
    td_IsStartTransaction td = false /\ ~ ends_transaction (command op) /\ command op <> "endSessions".

(** Each message either continues the transaction or carries no transaction details. *)
Definition unfinished (id : string) (op : Operation) : Prop :=
  om_TransactionDetails (op_methods op) = None \/ continues id op.

Section pinned.
Context (id : string) (srv : ServerRef) (c : DriverConnRef).

Definition pinning (mo : list byte * Operation) x x' : Prop :=
  unfinished id (snd mo) -> transacting id srv c (sy_sessions x) ->
  transacting id srv c (sy_sessions x') /\
  exists tr, sy_trace x' = sy_trace x ++ tr /\ (continues id (snd mo) -> Forall (on_conn srv c (fst mo)) tr).

Lemma RoundTrip_pinning wm op tags m w :
  unfinished id op -> transacting id srv c (mg_sessions m) ->
  let st := snd (RoundTrip {| msg_Wm := wm; msg_Op := Some op |} tags m w) in
  transacting id srv c (mg_sessions (rt_m st)) /\ (continues id op -> Forall (on_conn srv c wm) (rt_trace st)).
Proof.
  intros Hop (ref & s & Hs & Hin). cbn zeta. destruct (mg_client m) eqn:Ec.
  2: { unfold RoundTrip. rewrite Ec. split; [by exists ref, s|done]. }
  destruct Hop as [Htd | (td & Htd & <- & Hns & Hne & Hes)].
  - split; [|intros (td & Htd' & _); congruence].
    rewrite plain_request_keeps_sessions by (by intros op' [= <-]). by exists ref, s.
  - destruct (pinned_request {| msg_Wm := wm; msg_Op := Some op |} op td ref s srv c tags m w Ec eq_refl Htd Hns Hne Hes Hs Hin)
      as (H & s' & H1 & _ & H2). split; [by exists ref, s'|done].
Qed.

#[local] Instance pinning_frame wm op : ExchangeFrame {| msg_Wm := wm; msg_Op := Some op |} idle (pinning (wm, op)).
Proof.
  split.
  - intros x x' [Ht Hs] Hop H. rewrite Hs. split; [done|]. exists []. by rewrite app_nil_r.
  - intros x1 x2 x3 [Ht Hs] HO Hop H. rewrite <- Hs in H. rewrite <- Ht. by apply HO.
  - intros x1 x2 x3 HO [Ht Hs] Hop H. rewrite Hs, Ht. by apply HO.
  - intros ref tags x Hop H. cbn. unfold system_RoundTrip. destruct (sy_clients x !! ref) as [m|].
    + destruct (RoundTrip_pinning wm op tags (lent m x) (sy_w x) Hop H) as [H1 H2].
      destruct (RoundTrip _ _ _ _) as [r st]. split; [done|]. by eexists.
    + split; [done|]. exists []. by rewrite app_nil_r.
Qed.

Lemma served_pinned l x x' :
  served pinning l x x' -> Forall (unfinished id) l.*2 -> transacting id srv c (sy_sessions x) ->
  transacting id srv c (sy_sessions x') /\
  exists trs, Forall2 (fun mo tr => continues id (snd mo) -> Forall (on_conn srv c (fst mo)) tr) l trs /\
    sy_trace x' = sy_trace x ++ concat trs.
Proof.
  induction 1 as [x|mo l x1 x2 x3 HO _ IH]; intros Hl H; [split; [done|exists []; by rewrite app_nil_r]|].
  apply Forall_cons in Hl as [Hmo Hl]. destruct (HO Hmo H) as (H2 & tr & Ht & Hc). destruct (IH Hl H2) as (H3 & trs & IH1 & IH2).
  split; [done|]. exists (tr :: trs). rewrite IH2, Ht, <- app_assoc. split; [by constructor|done].
Qed.

(** C6.
    A transaction in progress stays on its connection for as long as a client
    goes on with it: if, among the messages the client sends, those that carry
    transaction details are requests of the transaction's session that neither
    start nor end one, then whatever the driver answers and however often a
    request is retried, the calls for these requests are all on the pinned
    connection and server, with the client's own bytes, none of them opens or
    closes a connection, and when the connection's loop ends the transaction is
    still in progress there. *)
Theorem connection_keeps_transaction st :
  (forall l rest, s_in st = concat l.*1 ++ rest -> Forall handled l -> Forall (unfinished id) l.*2) ->
  transacting id srv c (driver_sessions st) ->
  let st' := snd (processMessages st) in
  transacting id srv c (driver_sessions st') /\
  exists l rest trs, s_in st = concat l.*1 ++ rest /\ Forall handled l /\
    Forall2 (fun mo tr => continues id (snd mo) -> Forall (on_conn srv c (fst mo)) tr) l trs /\
    driver_trace st' = driver_trace st ++ concat trs.
Proof.
  intros Hall H. cbn zeta. destruct (process_outside idle pinning (S (length (s_in st))) st) as (l & rest & Hin & Hl & Hs).
  destruct (served_pinned _ _ _ Hs (Hall _ _ Hin Hl) H) as (H' & trs & H1 & H2). split; [done|]. by exists l, rest, trs.
Qed.

End pinned.

End EndToEnd.
