(* ===== verification/SystemWitnesses.v ===== *)
(** * Runs of the whole proxy

    The theorems on the handler with its MongoDB clients, applied to a
    connection in the middle of a transaction, with the driver of
    [RoundTripWitnesses.v]. *)

From S2P Require Import Prelude GoStrings GoUrl Parsing Wire Command Operations WireRef Lru CacheInterface.
From S2P Require Import ClientSettings Router Pool DistributedCache Sessions Caches Mongo RoundTrip.
From S2P Require Import RoundTripFacts RoundTripTransactions RoundTripWitnesses Topology Handshake Forwarder Proxy.
From S2P Require Import Connection ConnectionFrame ConnectionFacts ConnectionWitnesses System SystemFacts.
From Stdlib Require Import ZArith Lia Ascii.

Section Witnesses.

#[local] Existing Instance ascii_case.
#[local] Existing Instance no_other_regexp.
#[local] Existing Instance sample_errors.
#[local] Existing Instance sample_error_values.
#[local] Existing Instance plain_descriptions.
#[local] Existing Instance decimal_pointers.
#[local] Existing Instance no_session_json.
#[local] Existing Instance no_transaction_json.
#[local] Existing Instance no_cursor_json.
#[local] Existing Instance remote_json.
#[local] Existing Instance plain_quote.
#[local] Existing Instance one_marshal.
#[local] Existing Instance string_options.
#[local] Existing Instance scripted.

#[local] Instance script_net : PodNet script := {|
  net_Dial _ _ x := (Ret 1, x); net_SetKeepAlive _ _ x := x; net_Write _ _ x := (Ret (), x);
  net_Read _ _ _ x := (Ret ok_reply, x); net_Now := w_clock
|}.

#[local] Instance script_outside : Outside script := {|
  driver_Connect _ w := (None, w);
  GetURI opts := opts;
  options_ApplyURI uri := uri;
  socket_Write _ w := (None, w);
  pool_wait _ := 0%Z;
  fresh_ObjectID _ := [];
  error_EOF := SText "EOF";
  error_UnexpectedEOF := SText "unexpected EOF"
|}.

Notation group := (gmap string (list byte)).
Notation proxy := (@system sample_errors script group).
Notation state := (@cstate sample_errors proxy group (Lru.Cache string nat)).

(** Client 21 of route [app], in the middle of the transaction of session [01 02]; the first write fails. *)
Definition proxy_outside : proxy :=
  {| sy_w := next_w (stormy "connection reset by peer") 20 1; sy_clients := {[ 21 := busy_client ]}; sy_sessions := mg_sessions busy_client;
     sy_dc := mg_dc busy_client; sy_metrics := Some []; sy_trace := [] |}.

(** The client sends a request inside the transaction and one outside it. *)
Definition sent_messages : list (list byte) := [msg_Wm next_request; msg_Wm plain_request].

Definition in_the_middle : state :=
  {| s_c := fresh_connection false false; s_metrics := Some []; s_pool := None; s_router := Some two_routes;
     s_routes := two_configs; s_proxy := Some (NewProxy None); s_in := concat sent_messages; s_end := SText "EOF"; s_sent := [];
     s_x := proxy_outside |}.

Definition session_id : string := b64_EncodeToString [Byte.x01; Byte.x02].

Lemma sent_unfinished l rest :
  concat sent_messages = concat l.*1 ++ rest -> Forall handled l -> Forall (unfinished session_id) l.*2.
Proof.
  intros E Hl. assert (Forall framed sent_messages) as Hf by (repeat constructor; vm_compute; repeat constructor).
  pose proof (messages_prefix _ _ _ Hf E Hl) as Hp. clear E Hf.
  assert (Forall (fun m => match Decode m with Ret op => unfinished session_id op | _ => True end) sent_messages) as Hu.
  { apply Forall_cons; split; [|apply Forall_singleton].
    - destruct (Decode _) as [op| | |] eqn:Ed; [|done..]. vm_compute in Ed. injection Ed as <-.
      right. exists (details next_request). split_and!; [by vm_compute..|intros [H|H]; by vm_compute in H|by vm_compute].
    - destruct (Decode _) as [op| | |] eqn:Ed; [|done..]. vm_compute in Ed. injection Ed as <-. left. by vm_compute. }
  destruct Hp as [k Hk]. rewrite Hk in Hu. apply Forall_app in Hu as [Hu _]. clear Hk. induction l as [|[m op] l IH]; [done|].
  apply Forall_cons in Hl as [[_ Hd] Hl]. cbn in *. apply Forall_cons in Hu as [Hm Hu]. rewrite Hd in Hm. constructor; auto.
Qed.

Lemma connection_keeps_transaction_witness :
  transacting session_id 7 10 (driver_sessions (snd (processMessages in_the_middle))) /\
  writes (driver_trace (snd (processMessages in_the_middle))) =
    [(10, msg_Wm next_request); (10, msg_Wm next_request); (20, msg_Wm plain_request)].
Proof.
  split; [|by vm_compute]. apply (connection_keeps_transaction session_id 7 10 in_the_middle).
  - exact sent_unfinished.
  - exists 0, (session_in busy_client). split; vm_compute; repeat split.
Defined.

End Witnesses.
