(* ===== verification/Config.v ===== *)
(** * Configuration ([src/config/config.go], [src/config/proxies.go])

    What is read from the configuration file, the checks on the database names
    and the routes that are made of them.  A decoded file is a value of type
    [any], Go's [interface{}] with the dynamic types the program tests for; a
    table is the list of its entries, and a loop over a Go map goes through the
    entries in the order of the list.  The TOML library is the parameter
    [decoded] of [LoadConfig]; [time.ParseDuration] is class [GoDuration]. *)

From S2P Require Import Prelude GoStrings GoUrl Parsing Lru CacheInterface Wire Command Operations.
From S2P Require Import ClientSettings Router Pool Connection.
From Stdlib Require Import ZArith Lia QArith_base.
Local Close Scope Q_scope.

Inductive any :=
| AString (s : string)
| AInt64 (z : Z)
| AInt (z : Z)
| ABool (b : bool)
| AFloat64 (q : Q)
| AArray (l : list any)
| ATable (t : list (string * any)).

Notation table := (list (string * any)) (only parsing).

(** The type assertions. *)
Definition as_string (v : any) : option string := match v with AString s => Some s | _ => None end.
Definition as_int64 (v : any) : option Z := match v with AInt64 z => Some z | _ => None end.
Definition as_int (v : any) : option Z := match v with AInt z => Some z | _ => None end.
Definition as_bool (v : any) : option bool := match v with ABool b => Some b | _ => None end.
Definition as_array (v : any) : option (list any) := match v with AArray l => Some l | _ => None end.
Definition as_table (v : any) : option table := match v with ATable t => Some t | _ => None end.

(** What the TOML library makes of a file: its integers are [int64]. *)
Fixpoint from_toml (v : any) : Prop :=
  match v with
  | AInt _ => False
  | AArray l => (fix all (l : list any) : Prop := match l with [] => True | v :: l => from_toml v /\ all l end) l
  | ATable t => (fix all (t : table) : Prop := match t with [] => True | (_, v) :: t => from_toml v /\ all t end) t
  | _ => True
  end.

Fixpoint entry (key : string) (t : table) : option any :=
  match t with
  | [] => None
  | (k, v) :: t => if decide (k = key) then Some v else entry key t
  end.

(** [if x, ok := t[key].(T); ok { field = x }] *)
Definition field {A} (as_T : any -> option A) (t : table) (key : string) (old : A) : A :=
  default old (entry key t ≫= as_T).

Class GoDuration := { ParseDuration : string -> option Z }.

(** [if x, ok := t[key].(string); ok { if duration, err := time.ParseDuration(x); err == nil { field = duration } }] *)
Definition duration_field `{GoDuration} (t : table) (key : string) (old : Z) : Z :=
  default old ((entry key t ≫= as_string) ≫= ParseDuration).

(** ** The structures *)

Record Database := {
  db_ConnectionString : string;
  db_Host : string;
  db_Port : Z;
  db_DBName : string;
  db_User : string;
  db_Password : string;
  db_AuthDB : string;
  db_PoolMode : string;
  db_PoolSize : Z;
  db_Label : string;
  db_MongoDBConfig : MongoDBClientConfig
}.

Record MetricsConfig := {
  mt_Enabled : bool;
  mt_ListenAddr : string;
  mt_ListenPort : Z
}.

Record SharedCacheConfig := {
  sc_Enabled : bool;
  sc_ListenAddr : string;
  sc_ListenPort : Z;
  sc_CacheSizeBytes : string;
  sc_SessionExpiry : string;
  sc_TransactionExpiry : string;
  sc_CursorExpiry : string;
  sc_Debug : bool;
  sc_LabelSelector : string;
  sc_PeerURLs : list string
}.

Record MongobouncerConfig := {
  mb_ListenAddr : string;
  mb_ListenPort : Z;
  mb_LogLevel : string;
  mb_LogFile : string;
  mb_PoolMode : string;
  mb_MaxClientConn : Z;
  mb_Metrics : MetricsConfig;
  mb_AuthEnabled : bool;
  mb_RegexCredentialPassthrough : bool;
  mb_SharedCache : SharedCacheConfig;
  mb_Network : string;
  mb_Unlink : bool;
  mb_MongoDBConfig : MongoDBClientConfig;
  mb_Ping : bool
}.

Record TOMLConfig := {
  tc_Mongobouncer : MongobouncerConfig;
  tc_Databases : table
}.

Record Config := {
  cfg_tomlConfig : TOMLConfig;
  cfg_metrics : bool;
  cfg_network : string;
  cfg_unlink : bool;
  cfg_ping : bool
}.

Definition zero_client_config : MongoDBClientConfig :=
  {| cc_MaxPoolSize := 0; cc_MinPoolSize := 0; cc_MaxConnIdleTime := 0; cc_ServerSelectionTimeout := 0; cc_ConnectTimeout := 0;
     cc_SocketTimeout := 0; cc_HeartbeatInterval := 0; cc_RetryWrites := None; cc_Topology := None |}.

(** The values [LoadConfig] starts from. *)
Definition default_config : TOMLConfig := {|
  tc_Mongobouncer := {|
    mb_ListenAddr := "0.0.0.0"; mb_ListenPort := 27017; mb_LogLevel := "info"; mb_LogFile := ""; mb_PoolMode := "session";
    mb_MaxClientConn := 100;
    mb_Metrics := {| mt_Enabled := true; mt_ListenAddr := "0.0.0.0"; mt_ListenPort := 9090 |};
    mb_AuthEnabled := true; mb_RegexCredentialPassthrough := true;
    mb_SharedCache := {| sc_Enabled := false; sc_ListenAddr := "0.0.0.0"; sc_ListenPort := 8080; sc_CacheSizeBytes := "64Mi";
                         sc_SessionExpiry := "30m"; sc_TransactionExpiry := "2m"; sc_CursorExpiry := "24h"; sc_Debug := false;
                         sc_LabelSelector := ""; sc_PeerURLs := [] |};
    mb_Network := "tcp4"; mb_Unlink := false; mb_MongoDBConfig := zero_client_config; mb_Ping := false |};
  tc_Databases := []
|}.

Section Config.
Context `{UC : UnicodeCase, RX : RegexpOther, GD : GoDuration}.

(** ** Reading the file *)

(** [if x, ok := t["metrics"].(map[string]interface{}); ok { ... }] *)
Definition parse_metrics (mb : table) (old : MetricsConfig) : MetricsConfig :=
  match entry "metrics" mb ≫= as_table with
  | None => old
  | Some m => {| mt_Enabled := field as_bool m "enabled" (mt_Enabled old);
                 mt_ListenAddr := field as_string m "listen_addr" (mt_ListenAddr old);
                 mt_ListenPort := field as_int m "listen_port" (mt_ListenPort old) |}
  end.

(** An element that is not a string leaves an empty one. *)
Definition parse_peer_urls (t : table) (old : list string) : list string :=
  match entry "peer_urls" t ≫= as_array with
  | None => old
  | Some urls => map (fun url => default "" (as_string url)) urls
  end.

Definition parse_shared_cache (mb : table) (old : SharedCacheConfig) : SharedCacheConfig :=
  match entry "shared_cache" mb ≫= as_table with
  | None => old
  | Some t =>
      {| sc_Enabled := field as_bool t "enabled" (sc_Enabled old);
         sc_ListenAddr := field as_string t "listen_addr" (sc_ListenAddr old);
         sc_ListenPort := field as_int t "listen_port" (sc_ListenPort old);
         sc_CacheSizeBytes := field as_string t "cache_size_bytes" (sc_CacheSizeBytes old);
         sc_SessionExpiry := field as_string t "session_expiry" (sc_SessionExpiry old);
         sc_TransactionExpiry := field as_string t "transaction_expiry" (sc_TransactionExpiry old);
         sc_CursorExpiry := field as_string t "cursor_expiry" (sc_CursorExpiry old);
         sc_Debug := field as_bool t "debug" (sc_Debug old);
         sc_LabelSelector := sc_LabelSelector old;
         sc_PeerURLs := parse_peer_urls t (sc_PeerURLs old) |}
  end.

(** The client settings of a table; [topology] is what its topology name stands for. *)
Definition parse_client_config (t : table) (topology : option TopologyKind) (old : MongoDBClientConfig) : MongoDBClientConfig :=
  {| cc_MaxPoolSize := field as_int64 t "max_pool_size" (cc_MaxPoolSize old);
     cc_MinPoolSize := field as_int64 t "min_pool_size" (cc_MinPoolSize old);
     cc_MaxConnIdleTime := duration_field t "max_conn_idle_time" (cc_MaxConnIdleTime old);
     cc_ServerSelectionTimeout := duration_field t "server_selection_timeout" (cc_ServerSelectionTimeout old);
     cc_ConnectTimeout := duration_field t "connect_timeout" (cc_ConnectTimeout old);
     cc_SocketTimeout := duration_field t "socket_timeout" (cc_SocketTimeout old);
     cc_HeartbeatInterval := duration_field t "heartbeat_interval" (cc_HeartbeatInterval old);
     cc_RetryWrites := match entry "retry_writes" t ≫= as_bool with Some b => Some b | None => cc_RetryWrites old end;
     cc_Topology := match topology with Some k => Some k | None => cc_Topology old end |}.

(** [if topology, ok := t["topology"].(string); ok { topology, err := util.GetTopology(topology); ... }] *)
Definition parse_topology (t : table) : outcome (option TopologyKind) :=
  match entry "topology" t ≫= as_string with
  | None => Ret None
  | Some name => let? kind := GetTopology name in Ret (Some kind)
  end.

Definition parse_mongobouncer (mb : table) (topology : option TopologyKind) (old : MongobouncerConfig) : MongobouncerConfig :=
  {| mb_ListenAddr := field as_string mb "listen_addr" (mb_ListenAddr old);
     mb_ListenPort := field as_int64 mb "listen_port" (mb_ListenPort old);
     mb_LogLevel := field as_string mb "log_level" (mb_LogLevel old);
     mb_LogFile := field as_string mb "logfile" (mb_LogFile old);
     mb_PoolMode := field as_string mb "pool_mode" (mb_PoolMode old);
     mb_MaxClientConn := field as_int64 mb "max_client_conn" (mb_MaxClientConn old);
     mb_Metrics := parse_metrics mb (mb_Metrics old);
     mb_AuthEnabled := field as_bool mb "auth_enabled" (mb_AuthEnabled old);
     mb_RegexCredentialPassthrough := field as_bool mb "regex_credential_passthrough" (mb_RegexCredentialPassthrough old);
     mb_SharedCache := parse_shared_cache mb (mb_SharedCache old);
     mb_Network := field as_string mb "network" (mb_Network old);
     mb_Unlink := field as_bool mb "unlink" (mb_Unlink old);
     mb_MongoDBConfig := parse_client_config mb topology (mb_MongoDBConfig old);
     mb_Ping := field as_bool mb "ping" (mb_Ping old) |}.

Definition parseRawConfig (rawConfig : table) (config : TOMLConfig) : outcome TOMLConfig :=
  let? mongobouncer :=
    match entry "mongobouncer" rawConfig ≫= as_table with
    | None => Ret (tc_Mongobouncer config)
    | Some mb =>
        let? topology := parse_topology mb in
        Ret (parse_mongobouncer mb topology (tc_Mongobouncer config))
    end in
  Ret {| tc_Mongobouncer := mongobouncer; tc_Databases := field as_table rawConfig "databases" (tc_Databases config) |}.

(** ** The database names *)

Definition sanitizeURI (uri : string) : string :=
  if Contains uri "@" then
    match Split uri "@" with
    | [part0; _] =>
        if Contains part0 "://" then
          match Split part0 "://" with
          | _ :: userInfo :: _ =>
              if Contains userInfo ":" then Replace1 uri userInfo (default "" (head (Split userInfo ":")) +:+ ":***") else uri
          | _ => uri
          end
        else uri
    | _ => uri
    end
  else uri.

(** The connection string a database's entry is compared by. *)
Definition validated_string (v : any) : string :=
  match v with
  | AString s => s
  | ATable t =>
      match entry "connection_string" t ≫= as_string with
      | Some (String _ _ as connStr) => connStr
      | _ =>
          let host := field as_string t "host" "localhost" in
          let port := field as_int64 t "port" 27017%Z in
          let user := field as_string t "user" "" in
          let password := field as_string t "password" "" in
          let uri :=
            if decide (user <> "" /\ password <> "") then
              "mongodb://" +:+ user +:+ ":" +:+ password +:+ "@" +:+ host +:+ ":" +:+ fmt_d port
            else "mongodb://" +:+ host +:+ ":" +:+ fmt_d port in
          match field as_string t "dbname" "" with
          | "" => uri
          | dbname => uri +:+ "/" +:+ dbname
          end
      end
  | _ => ""
  end.

(** [regexp.MatchString("^"+regex+"$", name)], an error being no match. *)
Definition pattern_matches (pattern name : string) : bool :=
  default false (MatchString ("^" +:+ ReplaceAll pattern "*" ".*" +:+ "$") name).

Definition matchesPattern (dbName pattern : string) : bool := pattern_matches pattern dbName.

Definition testNames : list string :=
  ["test"; "prod"; "staging"; "dev"; "test_db"; "prod_db"; "staging_db"; "dev_db";
   "app_test"; "app_prod"; "app_staging"; "app_dev"; "test_app"; "prod_app"; "staging_app"; "dev_app";
   "myapp_test"; "myapp_prod"; "myapp_staging"; "myapp_dev"].

Definition patternsConflict (pattern1 pattern2 : string) : bool :=
  let matches1 := length (List.filter (pattern_matches pattern1) testNames) in
  let matches2 := length (List.filter (pattern_matches pattern2) testNames) in
  (0 <? matches1)%nat && (0 <? matches2)%nat && (matches1 =? matches2)%nat.

(** The maps of the loop, an entry being its name and connection string. *)
Record seen := {
  seen_exact : list (string * string);
  seen_wildcard : list (string * string);
  seen_prefix : list (string * string);
  seen_suffix : list (string * string);
  seen_contains : list (string * string)
}.

Definition no_seen : seen :=
  {| seen_exact := []; seen_wildcard := []; seen_prefix := []; seen_suffix := []; seen_contains := [] |}.

(** [m[name] = connectionString] *)
Definition put (name uri : string) (m : list (string * string)) : list (string * string) :=
  (name, uri) :: filter (fun e => fst e <> name) m.

Definition conflict_error (name pattern uri patternUri : string) : string :=
  "conflicting database patterns detected: '" +:+ name +:+ "' and '" +:+ pattern +:+
  "' may match the same databases but point to different connections (" +:+ sanitizeURI uri +:+ " vs " +:+
  sanitizeURI patternUri +:+ ")".

(** [for pattern, patternConnStr := range m { if patternsConflict(...) { return ... } }] *)
Fixpoint check_conflicts (name uri : string) (m : list (string * string)) : outcome unit :=
  match m with
  | [] => Ret ()
  | (pattern, patternUri) :: m =>
      if patternsConflict name pattern then Err (conflict_error name pattern uri patternUri)
      else check_conflicts name uri m
  end.

Definition validate_pattern (name uri : string) (s : seen) : outcome seen :=
  let? _ := check_conflicts name uri (seen_prefix s) in
  let? _ := check_conflicts name uri (seen_suffix s) in
  let? _ := check_conflicts name uri (seen_contains s) in
  Ret (if HasPrefix name "*" && HasSuffix name "*" then
         {| seen_exact := seen_exact s; seen_wildcard := seen_wildcard s; seen_prefix := seen_prefix s;
            seen_suffix := seen_suffix s; seen_contains := put name uri (seen_contains s) |}
       else if HasPrefix name "*" then
         {| seen_exact := seen_exact s; seen_wildcard := seen_wildcard s; seen_prefix := seen_prefix s;
            seen_suffix := put name uri (seen_suffix s); seen_contains := seen_contains s |}
       else if HasSuffix name "*" then
         {| seen_exact := seen_exact s; seen_wildcard := seen_wildcard s; seen_prefix := put name uri (seen_prefix s);
            seen_suffix := seen_suffix s; seen_contains := seen_contains s |}
       else
         {| seen_exact := seen_exact s; seen_wildcard := seen_wildcard s; seen_prefix := seen_prefix s;
            seen_suffix := seen_suffix s; seen_contains := put name uri (seen_contains s) |}).

(** The first entry under a name. *)
Definition existing (name : string) (m : list (string * string)) : option string :=
  snd <$> list_find (fun e => fst e = name) m ≫= fun '(_, e) => Some e.

Definition validate_entry (dbName : string) (v : any) (s : seen) : outcome seen :=
  let name := NormalizeDatabaseName dbName in
  let uri := validated_string v in
  if decide (name = "*") then
    match existing "*" (seen_wildcard s) with
    | Some old =>
        Err ("conflicting wildcard routes detected: both routes point to different connections (" +:+ sanitizeURI old +:+
             " vs " +:+ sanitizeURI uri +:+ "). Only one wildcard route (*) is allowed")
    | None => Ret {| seen_exact := seen_exact s; seen_wildcard := [("*", uri)]; seen_prefix := seen_prefix s;
                     seen_suffix := seen_suffix s; seen_contains := seen_contains s |}
    end
  else if Contains name "*" then validate_pattern name uri s
  else
    match existing name (seen_exact s) with
    | Some old =>
        Err ("duplicate database configuration detected: database '" +:+ name +:+
             "' is configured multiple times with different connections (" +:+ sanitizeURI old +:+ " vs " +:+
             sanitizeURI uri +:+ ")")
    | None => Ret {| seen_exact := put name uri (seen_exact s); seen_wildcard := seen_wildcard s;
                     seen_prefix := seen_prefix s; seen_suffix := seen_suffix s; seen_contains := seen_contains s |}
    end.

Fixpoint validate_all (databases : table) (s : seen) : outcome seen :=
  match databases with
  | [] => Ret s
  | (dbName, v) :: databases => let? s := validate_entry dbName v s in validate_all databases s
  end.

Definition validateDatabaseNames (databases : table) : outcome unit :=
  match databases with
  | [] => Err "no databases configured - MongoBouncer cannot run without database configuration"
  | _ => let? _ := validate_all databases no_seen in Ret ()
  end.

(** [found] says whether the file exists and [decoded] is what the TOML library makes of it; creating the
    logger and the metrics client is outside: [logger] is the error of the one, [metrics] whether the other succeeds. *)
Definition LoadConfig (configPath : string) (found : bool) (decoded : outcome table) (verbose : bool)
    (logger : option string) (metrics : bool) : outcome Config :=
  let? config :=
    if decide (configPath = "") then Ret default_config
    else if negb found then Err ("config file not found: " +:+ configPath)
    else
      match decoded with
      | Err e => Err ("failed to parse config file: " +:+ e)
      | Ret raw =>
          match parseRawConfig raw default_config with
          | Err e => Err ("failed to process config: " +:+ e)
          | other => other
          end
      | Panic why => Panic why
      | NoFuel => NoFuel
      end in
  let mb := tc_Mongobouncer config in
  let mb :=
    if verbose then
      {| mb_ListenAddr := mb_ListenAddr mb; mb_ListenPort := mb_ListenPort mb; mb_LogLevel := "debug"; mb_LogFile := mb_LogFile mb;
         mb_PoolMode := mb_PoolMode mb; mb_MaxClientConn := mb_MaxClientConn mb; mb_Metrics := mb_Metrics mb;
         mb_AuthEnabled := mb_AuthEnabled mb; mb_RegexCredentialPassthrough := mb_RegexCredentialPassthrough mb;
         mb_SharedCache := mb_SharedCache mb; mb_Network := mb_Network mb; mb_Unlink := mb_Unlink mb;
         mb_MongoDBConfig := mb_MongoDBConfig mb; mb_Ping := mb_Ping mb |}
    else mb in
  match logger with
  | Some e => Err ("failed to create logger: " +:+ e)
  | None =>
      match validateDatabaseNames (tc_Databases config) with
      | Err e => Err ("database configuration validation failed: " +:+ e)
      | Panic why => Panic why
      | NoFuel => NoFuel
      | Ret _ =>
          Ret {| cfg_tomlConfig := {| tc_Mongobouncer := mb; tc_Databases := tc_Databases config |};
                 cfg_metrics := mt_Enabled (mb_Metrics mb) && metrics; cfg_network := mb_Network mb; cfg_unlink := mb_Unlink mb;
                 cfg_ping := mb_Ping mb |}
      end
  end.

(** The parts of a configuration other packages ask for. *)
Definition Network (c : Config) : string := cfg_network c.
Definition Unlink (c : Config) : bool := cfg_unlink c.
Definition Ping (c : Config) : bool := cfg_ping c.
Definition GetMainConfig (c : Config) : MongobouncerConfig := tc_Mongobouncer (cfg_tomlConfig c).
Definition GetAuthEnabled (c : Config) : bool := mb_AuthEnabled (GetMainConfig c).
Definition GetRegexCredentialPassthrough (c : Config) : bool := mb_RegexCredentialPassthrough (GetMainConfig c).
Definition GetSharedCacheConfig (c : Config) : SharedCacheConfig := mb_SharedCache (GetMainConfig c).

(** The address of the metrics server. *)
Definition GetMetricsAddress (c : Config) : string :=
  let m := mb_Metrics (tc_Mongobouncer (cfg_tomlConfig c)) in mt_ListenAddr m +:+ ":" +:+ fmt_d (mt_ListenPort m).

(** ** The databases *)

(** The host, port and name of a table without a connection string; empty and non-positive values are skipped. *)
Definition built_string (t : table) : string :=
  let host := match entry "host" t ≫= as_string with Some (String _ _ as h) => h | _ => "localhost" end in
  let port := match entry "port" t ≫= as_int64 with Some p => if (0 <? p)%Z then p else 27017%Z | None => 27017%Z end in
  match entry "dbname" t ≫= as_string with
  | Some (String _ _ as dbname) => "mongodb://" +:+ host +:+ ":" +:+ fmt_d port +:+ "/" +:+ dbname
  | _ => "mongodb://" +:+ host +:+ ":" +:+ fmt_d port
  end.

(** [logger.Fatal] ends the program. *)
Definition database_of_table (t : table) : outcome Database :=
  let? topology :=
    match parse_topology t with
    | Err e => Panic ("Error verifying topology: " +:+ e)
    | other => other
    end in
  Ret {| db_ConnectionString :=
           match entry "connection_string" t ≫= as_string with
           | Some (String _ _ as connStr) => connStr
           | _ => built_string t
           end;
         db_Host := field as_string t "host" ""; db_Port := field as_int64 t "port" 0%Z;
         db_DBName := field as_string t "dbname" ""; db_User := field as_string t "user" "";
         db_Password := field as_string t "password" ""; db_AuthDB := field as_string t "auth_db" "";
         db_PoolMode := field as_string t "pool_mode" ""; db_PoolSize := field as_int64 t "pool_size" 0%Z;
         db_Label := field as_string t "label" ""; db_MongoDBConfig := parse_client_config t topology zero_client_config |}.

(** An entry that is neither a string nor a table is skipped. *)
Fixpoint GetDatabases (databases : table) (result : gmap string Database) : outcome (gmap string Database) :=
  match databases with
  | [] => Ret result
  | (name, v) :: databases =>
      let normalizedName := NormalizeDatabaseName name in
      match v with
      | AString s => Panic ("invalid database configuration for '" +:+ normalizedName +:+
                            "': simple string format is no longer supported. Please use structured format with " +:+
                            "'connection_string' field. Example: " +:+ normalizedName +:+ " = { connection_string = " +:+
                            quote +:+ s +:+ quote +:+ " }")
      | ATable t => let? db := database_of_table t in GetDatabases databases (<[normalizedName := db]> result)
      | _ => GetDatabases databases result
      end
  end.

(** ** The routes *)

(** The route of a database; [client] is what connecting it at start-up gave. *)
Definition route_of (dbName : string) (dbConfig : Database) (client : option MongoRef) : RouteConfig :=
  {| rc_DatabaseName := dbName; rc_MongoClient := client;
     rc_ConnectionString :=
       (if decide (db_ConnectionString dbConfig <> "") then db_ConnectionString dbConfig
        else "mongodb://" +:+ db_Host dbConfig +:+ ":" +:+ fmt_d (db_Port dbConfig) +:+ "/" +:+ db_DBName dbConfig);
     rc_PoolMode := ""; rc_MaxConnections := 0; rc_Label := dbName; rc_DatabaseConfig := Some (db_MongoDBConfig dbConfig);
     rc_CredentialClients := None |}.

Section Routes.
Context {C : Type} `{BC : BoundedCache string RouteRef C}.

(** The loop of [Proxies] over the databases: route [n] is the [n]-th database. *)
Fixpoint add_routes (databases : list (string * Database)) (connected : string -> option MongoRef) (next : RouteRef)
    (heap : gmap RouteRef RouteConfig) (r : DatabaseRouter C) : gmap RouteRef RouteConfig * DatabaseRouter C :=
  match databases with
  | [] => (heap, r)
  | (dbName, dbConfig) :: databases =>
      add_routes databases connected (S next) (<[next := route_of dbName dbConfig (connected dbName)]> heap)
        (AddRoute dbName next r)
  end.
End Routes.

(** The pool manager of [Proxies]. *)
Definition proxies_manager (metrics : option (list MetricCall)) (mb : MongobouncerConfig) : Manager :=
  let max := cc_MaxPoolSize (mb_MongoDBConfig mb) in
  let min := cc_MinPoolSize (mb_MongoDBConfig mb) in
  NewManager metrics (mb_PoolMode mb) (if (min =? 0)%Z then 3%Z else min) (if (max =? 0)%Z then 20%Z else max)
    (mb_MaxClientConn mb).

(** [listenAddress := fmt.Sprintf("%s:%d", ...)] *)
Definition listen_address (mb : MongobouncerConfig) : string := mb_ListenAddr mb +:+ ":" +:+ fmt_d (mb_ListenPort mb).

End Config.
