(* ===== verification/ConfigFacts.v ===== *)
(** * Properties of the configuration

    When a set of database names is accepted, what of the file has no effect,
    and how the databases become routes. *)

From S2P Require Import Prelude GoStrings GoUrl Parsing Lru CacheInterface Wire Command Operations.
From S2P Require Import ClientSettings Router Pool Connection Config.
From Stdlib Require Import ZArith Lia Ascii.

Section Facts.
Context `{UC : UnicodeCase, RX : RegexpOther, GD : GoDuration}.

(** ** The check on the names *)

(** A name with a [*] that is not the catch-all. *)
Definition is_pattern (name : string) : bool := negb (bool_decide (name = "*")) && Contains name "*".

(** Two names that may not be configured together. *)
Definition clash (a b : string) : bool :=
  if is_pattern a && is_pattern b then patternsConflict a b
  else if is_pattern a || is_pattern b then false
  else bool_decide (a = b).

Lemma patternsConflict_sym a b : patternsConflict a b = patternsConflict b a.
Proof.
  unfold patternsConflict. rewrite (Nat.eqb_sym (length _)). by rewrite (andb_comm (0 <? length (List.filter (pattern_matches a) _))%nat).
Qed.

Lemma clash_sym a b : clash a b = clash b a.
Proof.
  unfold clash. rewrite (andb_comm (is_pattern a)), (orb_comm (is_pattern a)), patternsConflict_sym.
  destruct (is_pattern b && is_pattern a); [done|]. destruct (is_pattern b || is_pattern a); [done|].
  apply bool_decide_ext. naive_solver.
Qed.

(** No two names of a list clash. *)
Fixpoint no_clash (names : list string) : Prop :=
  match names with
  | [] => True
  | name :: names => Forall (fun other => clash name other = false) names /\ no_clash names
  end.

Lemma no_clash_perm l l' : l ≡ₚ l' -> no_clash l -> no_clash l'.
Proof.
  induction 1 as [|x l l' Hp IH|x y l|l1 l2 l3 _ IH1 _ IH2]; cbn; [done| | |by auto].
  - intros [Hf Hn]. split; [by rewrite <- Hp|auto].
  - rewrite !Forall_cons. rewrite (clash_sym y x). tauto.
Qed.

(** *** The loop *)

Definition keys (m : list (string * string)) : list string := m.*1.
Definition patterns_seen (s : seen) : list string := keys (seen_prefix s) ++ keys (seen_suffix s) ++ keys (seen_contains s).
Definition others_seen (s : seen) : list string := keys (seen_wildcard s) ++ keys (seen_exact s).

Lemma elem_of_put n name uri m : n ∈ keys (put name uri m) <-> n = name \/ n ∈ keys m.
Proof.
  unfold put, keys. cbn. rewrite elem_of_cons, !list_elem_of_fmap. split.
  - intros [->|(e & -> & He)]; [by left|]. apply list_elem_of_filter in He as [_ He]. right. eauto.
  - intros [->|(e & -> & He)]; [by left|]. destruct (decide (fst e = name)) as [<-|Hn]; [by left|].
    right. exists e. by rewrite list_elem_of_filter.
Qed.

Lemma existing_spec name m : existing name m = None <-> name ∉ keys m.
Proof.
  unfold existing, keys. rewrite list_elem_of_fmap. destruct (list_find _ m) as [[i e]|] eqn:E; cbn.
  - apply list_find_Some in E as (He & Hn & _). split; [done|]. intros H. destruct H. exists e. split; [done|].
    by eapply list_elem_of_lookup_2.
  - split; [|done]. intros _ (e & -> & He). apply list_find_None in E. rewrite Forall_forall in E. by apply (E e He).
Qed.

Lemma check_conflicts_spec name uri m :
  check_conflicts name uri m = Ret () <-> Forall (fun p => patternsConflict name p = false) (keys m).
Proof.
  induction m as [|[p u] m IH]; cbn; [by split|]. rewrite Forall_cons. destruct (patternsConflict name p); [naive_solver|].
  rewrite IH. naive_solver.
Qed.

Lemma check_conflicts_cases name uri m : (exists e, check_conflicts name uri m = Err e) \/ check_conflicts name uri m = Ret ().
Proof. induction m as [|[p u] m IH]; cbn; [by right|]. destruct (patternsConflict name p); eauto. Qed.

(** What one entry does: it is accepted if it clashes with nothing before it, and is then remembered. *)
Definition seen_wf (s : seen) : Prop :=
  Forall (fun n => is_pattern n = true) (patterns_seen s) /\ Forall (fun n => is_pattern n = false) (others_seen s) /\
  Forall (fun n => n = "*") (keys (seen_wildcard s)) /\ "*" ∉ keys (seen_exact s).

Definition clashes (name : string) (s : seen) : Prop :=
  Exists (fun other => clash name other = true) (patterns_seen s ++ others_seen s).

Lemma validate_pattern_spec name uri s :
  (forall s', validate_pattern name uri s = Ret s' ->
     Forall (fun p => patternsConflict name p = false) (patterns_seen s) /\
     (forall n, n ∈ patterns_seen s' <-> n = name \/ n ∈ patterns_seen s) /\
     seen_exact s' = seen_exact s /\ seen_wildcard s' = seen_wildcard s) /\
  (Forall (fun p => patternsConflict name p = false) (patterns_seen s) -> exists s', validate_pattern name uri s = Ret s').
Proof.
  unfold validate_pattern, patterns_seen. split.
  - intros s' H.
    destruct (check_conflicts_cases name uri (seen_prefix s)) as [[e E]|E1]; [rewrite E in H; cbn in H; done|].
    destruct (check_conflicts_cases name uri (seen_suffix s)) as [[e E]|E2]; [rewrite E1, E in H; cbn in H; done|].
    destruct (check_conflicts_cases name uri (seen_contains s)) as [[e E]|E3]; [rewrite E1, E2, E in H; cbn in H; done|].
    rewrite E1, E2, E3 in H. cbn [obind] in H. split; [by rewrite !Forall_app, <- !(check_conflicts_spec name uri)|].
    revert H. destruct (HasPrefix name "*"), (HasSuffix name "*"); cbn [andb]; intros [= <-];
      cbn [seen_prefix seen_suffix seen_contains seen_exact seen_wildcard]; (split; [|done]); intros n;
      rewrite !elem_of_app, !elem_of_put; tauto.
  - rewrite !Forall_app, <- !(check_conflicts_spec name uri). intros (-> & -> & ->). cbn. eauto.
Qed.

Lemma clash_pattern name s :
  seen_wf s -> is_pattern name = true ->
  (Forall (fun p => patternsConflict name p = false) (patterns_seen s) <-> ~ clashes name s).
Proof.
  intros (Hp & Ho & _) Hn. unfold clashes. rewrite Exists_app, !Exists_exists, Forall_forall. rewrite Forall_forall in Hp, Ho.
  assert (forall p, p ∈ patterns_seen s -> clash name p = patternsConflict name p) as E.
  { intros p H. unfold clash. by rewrite Hn, (Hp p H). }
  split.
  - intros H [(p & H1 & H2) | (p & H1 & H2)]; [by rewrite E, H in H2|]. unfold clash in H2. by rewrite Hn, (Ho p H1) in H2.
  - intros H p H1. rewrite <- E by done. apply not_true_iff_false. intros H2. apply H. left. eauto.
Qed.

Lemma clash_other name s :
  seen_wf s -> is_pattern name = false -> (name ∉ others_seen s <-> ~ clashes name s).
Proof.
  intros (Hp & Ho & _) Hn. unfold clashes. rewrite Exists_app, !Exists_exists. rewrite Forall_forall in Hp, Ho.
  assert (forall p, p ∈ others_seen s -> clash name p = bool_decide (name = p)) as E.
  { intros p H. unfold clash. by rewrite Hn, (Ho p H). }
  split.
  - intros H [(p & H1 & H2) | (p & H1 & H2)]; [unfold clash in H2; by rewrite Hn, (Hp p H1) in H2|].
    rewrite E in H2 by done. apply bool_decide_eq_true in H2. by subst.
  - intros H H1. apply H. right. exists name. rewrite E by done. by rewrite bool_decide_true.
Qed.

Lemma validate_entry_spec dbName v s :
  seen_wf s ->
  (forall s', validate_entry dbName v s = Ret s' ->
     ~ clashes (NormalizeDatabaseName dbName) s /\ seen_wf s' /\
     (forall n, n ∈ patterns_seen s' ++ others_seen s' <-> n = NormalizeDatabaseName dbName \/ n ∈ patterns_seen s ++ others_seen s)) /\
  (~ clashes (NormalizeDatabaseName dbName) s -> exists s', validate_entry dbName v s = Ret s').
Proof.
  intros Hwf. pose proof Hwf as (Hp & Ho & Hw & He). unfold validate_entry. set (name := NormalizeDatabaseName dbName).
  destruct (decide (name = "*")) as [Hs|Hs].
  { assert (is_pattern name = false) as Hn by (unfold is_pattern; by rewrite bool_decide_true).
    assert (existing "*" (seen_wildcard s) = None <-> ~ clashes name s) as Hc.
    { rewrite <- clash_other, existing_spec by done. unfold others_seen. rewrite elem_of_app, Hs. tauto. }
    destruct (existing "*" (seen_wildcard s)) eqn:E.
    - split; [done|]. intros H. by apply Hc in H.
    - split; [|by eauto]. intros s' [= <-]. split; [by apply Hc|]. apply existing_spec in E.
      assert (keys (seen_wildcard s) = []) as Ek.
      { destruct (keys (seen_wildcard s)) as [|k l]; [done|]. apply Forall_cons in Hw as [-> _]. set_solver. }
      unfold seen_wf, patterns_seen, others_seen in *. rewrite Ek in Ho. cbn in *. split.
      + split_and!; [done|constructor; [by rewrite Hs in Hn|done]|by constructor|done].
      + intros n. rewrite Ek, Hs. set_solver. }
  destruct (Contains name "*") eqn:Ec.
  { assert (is_pattern name = true) as Hn by (unfold is_pattern; by rewrite bool_decide_false, Ec).
    destruct (validate_pattern_spec name (validated_string v) s) as [H1 H2]. rewrite (clash_pattern name s) in H2 by done.
    split; [|exact H2]. intros s' H. destruct (H1 s' H) as (Hf & Hin & He' & Hw'). split; [by apply (clash_pattern name s)|].
    unfold seen_wf, others_seen in *. rewrite He', Hw'. split.
    - split_and!; [|done..]. apply Forall_forall. intros n [-> | Hm]%Hin; [done|]. by rewrite Forall_forall in Hp; apply Hp.
    - intros n. rewrite !elem_of_app. rewrite Hin. tauto. }
  assert (is_pattern name = false) as Hn by (unfold is_pattern; by rewrite Ec, andb_false_r).
  assert (existing name (seen_exact s) = None <-> ~ clashes name s) as Hc.
  { rewrite <- clash_other, existing_spec by done. unfold others_seen. rewrite elem_of_app. split; [|tauto].
    intros H [Hk|]; [|done]. rewrite Forall_forall in Hw. by apply Hw in Hk. }
  destruct (existing name (seen_exact s)) eqn:E.
  - split; [done|]. intros H. by apply Hc in H.
  - split; [|by eauto]. intros s' [= <-]. split; [by apply Hc|].
    unfold seen_wf, patterns_seen, others_seen in *. cbn [seen_prefix seen_suffix seen_contains seen_exact seen_wildcard].
    rewrite Forall_app in Ho. destruct Ho as [Ho1 Ho2]. split.
    + split_and!; [done| |done|rewrite elem_of_put; naive_solver]. apply Forall_app. split; [done|]. apply Forall_forall.
      intros n [-> | Hm]%elem_of_put; [done|]. rewrite Forall_forall in Ho2. by apply Ho2.
    + intros n. rewrite !elem_of_app, elem_of_put. tauto.
Qed.

Lemma validate_all_spec l s :
  seen_wf s ->
  (exists s', validate_all l s = Ret s') <->
  no_clash (NormalizeDatabaseName <$> l.*1) /\
  Forall (fun name => ~ clashes name s) (NormalizeDatabaseName <$> l.*1).
Proof.
  revert s. induction l as [|[dbName v] l IH]; intros s Hs; cbn [validate_all fmap list_fmap no_clash fst].
  { split; [intros _; split; [done|constructor]|eauto]. }
  destruct (validate_entry_spec dbName v s Hs) as [H1 H2]. set (name := NormalizeDatabaseName dbName) in *.
  rewrite Forall_cons. split.
  - intros [s' H]. destruct (validate_entry dbName v s) as [s1|e|why|] eqn:E; try done. cbn in H.
    destruct (H1 s1 eq_refl) as (Hc & Hs1 & Hin). destruct (proj1 (IH s1 Hs1)) as [Hn Hf]; [eauto|].
    rewrite Forall_forall in Hf. split_and!; [|done|done|]; apply Forall_forall; intros n Hm; specialize (Hf n Hm).
    + apply not_true_iff_false. intros Hcl. apply Hf. unfold clashes. apply Exists_exists. exists name. rewrite Hin, clash_sym. auto.
    + intros Hcl. apply Hf. unfold clashes in *. apply Exists_exists in Hcl as (o & Ho & Hcl). apply Exists_exists. exists o.
      rewrite Hin. auto.
  - intros [[Hf Hn] [Hc Hall]]. destruct (H2 Hc) as [s1 E]. rewrite E. cbn. destruct (H1 s1 E) as (_ & Hs1 & Hin).
    apply IH; [done|]. split; [done|]. rewrite Forall_forall in Hf, Hall. apply Forall_forall. intros n Hm Hcl.
    unfold clashes in Hcl. apply Exists_exists in Hcl as (o & [-> | Ho]%Hin & Hcl).
    + by rewrite clash_sym, Hf in Hcl.
    + apply (Hall n Hm). apply Exists_exists. eauto.
Qed.

Lemma validate_iff l : validateDatabaseNames l = Ret () <-> l <> [] /\ no_clash (NormalizeDatabaseName <$> l.*1).
Proof.
  assert (seen_wf no_seen) as H0 by (split_and!; try constructor; set_solver).
  destruct (validate_all_spec l no_seen H0) as [H1 H2]. unfold validateDatabaseNames. destruct l as [|e l]; [naive_solver|].
  set (l' := e :: l) in *. assert (Forall (fun name => ~ clashes name no_seen) (NormalizeDatabaseName <$> l'.*1)) as Hf.
  { apply Forall_forall. intros n _ H. by inversion H. }
  split.
  - intros H. split; [done|]. apply H1. destruct (validate_all l' no_seen); [by eauto|done..].
  - intros [_ Hn]. destruct (H2 (conj Hn Hf)) as [s' ->]. done.
Qed.

(** C20.
    The check accepts a non-empty set of databases exactly if no two names
    clash: no name twice (upper and lower case being the same), and no two
    patterns that the heuristic takes to overlap.  So although the code goes
    through Go maps, whether a configuration is accepted does not depend on the
    order the maps are iterated in. *)
Theorem validateDatabaseNames_spec (databases databases' : list (string * any)) :
  databases ≡ₚ databases' ->
  (validateDatabaseNames databases = Ret () <-> databases <> [] /\ no_clash (NormalizeDatabaseName <$> databases.*1)) /\
  (validateDatabaseNames databases = Ret () <-> validateDatabaseNames databases' = Ret ()).
Proof.
  intros Hp. split; [apply validate_iff|]. rewrite !validate_iff.
  assert (forall l l' : list (string * any), l ≡ₚ l' -> l <> [] /\ no_clash (NormalizeDatabaseName <$> l.*1) ->
    l' <> [] /\ no_clash (NormalizeDatabaseName <$> l'.*1)) as H.
  { intros l l' E [H1 H2]. split; [intros ->; by apply Permutation_nil_r in E|]. eapply no_clash_perm; [|exact H2]. by rewrite E. }
  split; apply H; [done|by symmetry].
Qed.

(** ** What has no effect *)

Lemma from_toml_entry t key v : from_toml (ATable t) -> entry key t = Some v -> from_toml v.
Proof.
  induction t as [|[k w] t IH]; cbn [entry]; [done|]. intros [Hw Ht]. case_decide; [by intros [= <-]|]. by apply IH.
Qed.

Lemma no_int_field t key old : from_toml (ATable t) -> field as_int t key old = old.
Proof.
  intros Ht. unfold field. destruct (entry key t) as [v|] eqn:E; [|done]. apply (from_toml_entry _ _ _ Ht) in E.
  by destruct v.
Qed.

Lemma from_toml_table t key t' : from_toml (ATable t) -> (entry key t ≫= as_table) = Some t' -> from_toml (ATable t').
Proof.
  intros Ht. destruct (entry key t) as [v|] eqn:E; [|done]. apply (from_toml_entry _ _ _ Ht) in E. cbn.
  destruct v; cbn; try done. by intros [= <-].
Qed.

Lemma mongobouncer_ports mb topology :
  from_toml (ATable mb) ->
  let c := parse_mongobouncer mb topology (tc_Mongobouncer default_config) in
  mt_ListenPort (mb_Metrics c) = 9090%Z /\ sc_ListenPort (mb_SharedCache c) = 8080%Z /\ sc_LabelSelector (mb_SharedCache c) = "".
Proof.
  intros Hmb. cbn [parse_mongobouncer mb_Metrics mb_SharedCache]. unfold parse_metrics, parse_shared_cache.
  destruct (entry "metrics" mb ≫= as_table) as [m|] eqn:Em, (entry "shared_cache" mb ≫= as_table) as [t|] eqn:Et;
    cbn [mt_ListenPort sc_ListenPort sc_LabelSelector]; rewrite ?no_int_field by (by eapply from_toml_table); done.
Qed.

Lemma LoadConfig_mongobouncer path found raw verbose logger metrics c :
  LoadConfig path found (Ret raw) verbose logger metrics = Ret c ->
  exists config, (config = default_config \/ parseRawConfig raw default_config = Ret config) /\
    mb_Metrics (tc_Mongobouncer (cfg_tomlConfig c)) = mb_Metrics (tc_Mongobouncer config) /\
    mb_SharedCache (tc_Mongobouncer (cfg_tomlConfig c)) = mb_SharedCache (tc_Mongobouncer config).
Proof.
  unfold LoadConfig. intros H. set (parsed := if decide (path = "") then Ret default_config else _) in H.
  assert (forall config, parsed = Ret config -> config = default_config \/ parseRawConfig raw default_config = Ret config) as Hp.
  { unfold parsed. intros config. case_decide; [intros [= <-]; by left|]. destruct (negb found); [done|].
    destruct (parseRawConfig raw default_config) as [config'|e|why|]; try done. intros [= <-]. by right. }
  destruct parsed as [config|e|why|]; try done. exists config. split; [by apply Hp|]. cbn [obind] in H.
  destruct logger; [done|]. destruct (validateDatabaseNames (tc_Databases config)); try done. injection H as <-. cbn. by destruct verbose.
Qed.

(** The ports of the metrics server and of the shared cache cannot be
    configured: the file's integers are [int64] values, the code only looks for
    [int], and whatever the file says the ports stay 9090 and 8080.  The label
    selector for peers is never read at all. *)
Theorem listen_ports_ignored path found raw verbose logger metrics c :
  from_toml (ATable raw) -> LoadConfig path found (Ret raw) verbose logger metrics = Ret c ->
  let mb := tc_Mongobouncer (cfg_tomlConfig c) in
  mt_ListenPort (mb_Metrics mb) = 9090%Z /\ sc_ListenPort (mb_SharedCache mb) = 8080%Z /\ sc_LabelSelector (mb_SharedCache mb) = "".
Proof.
  intros Hraw H. destruct (LoadConfig_mongobouncer _ _ _ _ _ _ _ H) as (config & Hc & E1 & E2). cbn zeta. rewrite E1, E2.
  destruct Hc as [->|Hc]; [done|]. unfold parseRawConfig in Hc.
  destruct (entry "mongobouncer" raw ≫= as_table) as [mb|] eqn:Emb; [|by injection Hc as <-].
  destruct (parse_topology mb) as [topology|e|why|]; try done. cbn in Hc. injection Hc as <-.
  apply mongobouncer_ports. by eapply from_toml_table.
Qed.

(** The user and password of a database that is given by host and port have no
    effect: two tables that agree on everything but these two entries make the
    same connection string, one without credentials, although the check on the
    names reads the same entries as a connection string with credentials. *)
Theorem structured_credentials_dropped t t' db db' :
  (forall key, key <> "user" -> key <> "password" -> entry key t = entry key t') ->
  (entry "connection_string" t ≫= as_string) = None ->
  database_of_table t = Ret db -> database_of_table t' = Ret db' ->
  db_ConnectionString db = db_ConnectionString db' /\ db_ConnectionString db = built_string t.
Proof.
  intros Hk Hc H H'. unfold database_of_table in *.
  destruct (parse_topology t) as [k|e|why|]; try done. destruct (parse_topology t') as [k'|e|why|]; try done.
  cbn [obind] in *. injection H as <-. injection H' as <-. cbn [db_ConnectionString].
  rewrite <- (Hk "connection_string") by done. rewrite Hc. split; [|done].
  unfold built_string. by rewrite (Hk "host"), (Hk "port"), (Hk "dbname").
Qed.

(** A database given as a bare connection string passes the check on the names
    and then stops the program: whatever the other entries are, reading the
    databases ends in a panic. *)
Theorem string_database_panics databases name uri result :
  (name, AString uri) ∈ databases ->
  (exists why, GetDatabases databases result = Panic why) /\
  validateDatabaseNames [(name, AString uri)] = Ret ().
Proof.
  intros Hin. split; [|apply validate_iff; split; [done|]; by split; constructor].
  revert result. induction databases as [|[n v] l IH]; intros result; [set_solver|]. apply elem_of_cons in Hin as [[= <- <-]|Hin].
  { cbn. by eexists. }
  specialize (IH Hin). cbn [GetDatabases]. destruct v; try (by apply IH); try (by eexists).
  destruct (database_of_table t) as [db|e|why|] eqn:E; cbn [obind]; [by apply IH| | by eexists|].
  all: unfold database_of_table in E; unfold parse_topology, GetTopology in E; repeat case_match; done.
Qed.

(** ** The routes *)

Section Routes.
Context {C : Type} `{BC : BoundedCache string RouteRef C}.

Lemma AddRoute_routes name n (r : DatabaseRouter C) k :
  routes (AddRoute name n r) !! k =
    if decide (Contains (NormalizeDatabaseName name) "*" = false /\ NormalizeDatabaseName name = k) then Some n else routes r !! k.
Proof.
  unfold AddRoute. set (nm := NormalizeDatabaseName name). destruct (decide (nm = "*")) as [E|E]; cbn.
  { rewrite decide_False; [done|]. rewrite E. intros [H _]. by vm_compute in H. }
  destruct (Contains nm "*") eqn:Ec; cbn; [by rewrite decide_False by naive_solver|].
  destruct (decide (nm = k)) as [<-|Hn].
  - rewrite decide_True by done. apply lookup_insert_eq.
  - rewrite decide_False by tauto. by apply lookup_insert_ne.
Qed.

Lemma add_routes_other dbs connected next heap (r : DatabaseRouter C) name n :
  name ∉ (NormalizeDatabaseName <$> dbs.*1) -> routes r !! name = Some n -> n < next ->
  let '(heap', r') := add_routes dbs connected next heap r in routes r' !! name = Some n /\ heap' !! n = heap !! n.
Proof.
  revert next heap r. induction dbs as [|[d cfg] dbs IH]; intros next heap r Hn Hr Hlt; [done|]. cbn [add_routes]. cbn in Hn.
  apply not_elem_of_cons in Hn as [Hd Hn].
  specialize (IH (S next) (<[next := route_of d cfg (connected d)]> heap) (AddRoute d next r) Hn).
  rewrite AddRoute_routes in IH. rewrite decide_False in IH by naive_solver. specialize (IH Hr ltac:(lia)).
  destruct (add_routes dbs connected (S next) _ _) as [heap' r']. destruct IH as [IH1 IH2]. split; [done|].
  rewrite IH2. apply lookup_insert_ne. lia.
Qed.

(** Every database configured by name has its own route: after start-up the
    router resolves the name to a route that carries the database's own
    connection string and settings, whatever patterns are configured beside it
    and in whatever order the databases come. *)
Theorem configured_database_routed dbs connected next heap (r : DatabaseRouter C) name cfg :
  NoDup (NormalizeDatabaseName <$> dbs.*1) -> (name, cfg) ∈ dbs -> Contains (NormalizeDatabaseName name) "*" = false ->
  let '(heap', r') := add_routes dbs connected next heap r in
  exists n, routes r' !! NormalizeDatabaseName name = Some n /\ resolve r' (NormalizeDatabaseName name) = Some n /\
    heap' !! n = Some (route_of name cfg (connected name)).
Proof.
  revert next heap r. induction dbs as [|[d dcfg] dbs IH]; intros next heap r Hd Hin Hs; [set_solver|].
  cbn [add_routes]. cbn in Hd. apply NoDup_cons in Hd as [Hn Hd]. apply elem_of_cons in Hin as [[= <- <-]|Hin]; [|by apply IH].
  pose proof (add_routes_other dbs connected (S next) (<[next := route_of name cfg (connected name)]> heap) (AddRoute name next r)
    (NormalizeDatabaseName name) next Hn) as H.
  rewrite AddRoute_routes, decide_True in H by done. specialize (H eq_refl ltac:(lia)).
  destruct (add_routes dbs connected (S next) _ _) as [heap' r']. destruct H as [H1 H2].
  exists next. rewrite H2, lookup_insert_eq. split_and!; [done| |done]. unfold resolve. by rewrite H1.
Qed.

End Routes.

End Facts.

(** ** Examples *)

Section Examples.

#[local] Existing Instance ascii_case.
#[local] Existing Instance no_other_regexp.
#[local] Instance no_durations : GoDuration := {| ParseDuration _ := None |}.

Definition plain_database (uri : string) : Database :=
  {| db_ConnectionString := uri; db_Host := ""; db_Port := 0; db_DBName := ""; db_User := ""; db_Password := ""; db_AuthDB := "";
     db_PoolMode := ""; db_PoolSize := 0; db_Label := ""; db_MongoDBConfig := zero_client_config |}.

(** The check for overlapping patterns is unrelated to overlap: it refuses
    [test*] beside [prod*], which have no name in common, and accepts [orders*]
    beside [orders_eu*], which do.  For the latter the route of [orders_eu1]
    depends on the order in which the databases come out of a Go map. *)
Theorem overlap_check_unrelated :
  patternsConflict "test*" "prod*" = true /\
  (forall name, matchesPattern name "test*" && matchesPattern name "prod*" = false) /\
  validateDatabaseNames [("orders*", ATable []); ("orders_eu*", ATable [])] = Ret () /\
  let a := ("orders*", plain_database "mongodb://a") in
  let b := ("orders_eu*", plain_database "mongodb://b") in
  let route dbs := let '(heap, r) := add_routes dbs (fun _ => None) 0 ∅ NewDatabaseRouter in
                   resolve r "orders_eu1" ≫= fun n => rc_ConnectionString <$> heap !! n in
  route [a; b] = Some "mongodb://a" /\ route [b; a] = Some "mongodb://b".
Proof.
  split_and!; [by vm_compute| |by vm_compute..].
  intros name. unfold matchesPattern, pattern_matches, MatchString.
  assert (exists ts, parse_anchored ("^" +:+ ReplaceAll "test*" "*" ".*" +:+ "$") = Some (RLit "t" :: ts)) as [ts1 ->]
    by (eexists; vm_compute; reflexivity).
  assert (exists ts, parse_anchored ("^" +:+ ReplaceAll "prod*" "*" ".*" +:+ "$") = Some (RLit "p" :: ts)) as [ts2 ->]
    by (eexists; vm_compute; reflexivity).
  cbn [default rmatch]. destruct name as [|c name]; [done|]. destruct (decide ("t"%char = c)) as [<-|Hn].
  - by rewrite (bool_decide_false ("p"%char = _)), andb_false_r.
  - by rewrite (bool_decide_false ("t"%char = _)).
Qed.

Lemma validateDatabaseNames_spec_witness :
  validateDatabaseNames [("app", ATable []); ("logs_*", ATable [])] = Ret () <->
  validateDatabaseNames [("logs_*", ATable []); ("app", ATable [])] = Ret ().
Proof. apply validateDatabaseNames_spec. constructor. Defined.

Definition sample_file : list (string * any) :=
  [("mongobouncer", ATable [("metrics", ATable [("listen_port", AInt64 9191)])]);
   ("databases", ATable [("app", ATable [("connection_string", AString "mongodb://db1")])])].

Definition sample_config : Config :=
  match LoadConfig "c.toml" true (Ret sample_file) false None true with
  | Ret c => c
  | _ => {| cfg_tomlConfig := default_config; cfg_metrics := false; cfg_network := ""; cfg_unlink := false; cfg_ping := false |}
  end.

Lemma listen_ports_ignored_witness : GetMetricsAddress sample_config = "0.0.0.0:9090".
Proof.
  pose proof (listen_ports_ignored "c.toml" true sample_file false None true sample_config) as H.
  discharge H. unfold GetMetricsAddress. rewrite (proj1 H). by vm_compute.
Defined.

Definition by_host (user password : string) : list (string * any) :=
  [("host", AString "db1"); ("port", AInt64 27018); ("user", AString user); ("password", AString password)].
Definition database_by_host (user password : string) : Database :=
  match database_of_table (by_host user password) with Ret db => db | _ => plain_database "" end.

Lemma structured_credentials_dropped_witness :
  db_ConnectionString (database_by_host "bob" "pw") = "mongodb://db1:27018" /\
  validated_string (ATable (by_host "bob" "pw")) = "mongodb://bob:pw@db1:27018".
Proof.
  split; [|by vm_compute].
  rewrite (proj2 (structured_credentials_dropped (by_host "bob" "pw") (by_host "" "") (database_by_host "bob" "pw") (database_by_host "" "")
    ltac:(intros key Hu Hp; cbn; repeat case_decide; congruence) eq_refl eq_refl eq_refl)). by vm_compute.
Defined.

Lemma string_database_panics_witness : exists why, GetDatabases [("app", AString "mongodb://db1")] ∅ = Panic why.
Proof. apply (string_database_panics [("app", AString "mongodb://db1")] "app" "mongodb://db1" ∅). by left. Defined.

Lemma configured_database_routed_witness :
  let '(heap, r) := add_routes [("a*", plain_database "mongodb://a"); ("app", plain_database "mongodb://b")] (fun _ => None) 0 ∅ NewDatabaseRouter in
  exists n, routes r !! "app" = Some n /\ resolve r "app" = Some n /\ heap !! n = Some (route_of "app" (plain_database "mongodb://b") None).
Proof.
  apply (configured_database_routed [("a*", plain_database "mongodb://a"); ("app", plain_database "mongodb://b")] (fun _ => None) 0 ∅
    NewDatabaseRouter "app" (plain_database "mongodb://b")); [|by right; left|by vm_compute].
  vm_compute. repeat constructor; set_solver.
Defined.

End Examples.
