(* ===== verification/Startup.v ===== *)
(** * Start-up and shutdown ([src/config/proxies.go], [src/mongobouncer.go], [src/config/config.go])

    How a configuration becomes a running proxy: the shared cache, the one
    session manager, a MongoDB client and a route for each database, the pool
    manager and the proxy, which gets the clients to close; then the program
    around it: its flags, its logger and its signals.  A quantity in Kubernetes
    notation is class [Quantities]; the order in which Go goes over the map of
    databases is [range]. *)

From S2P Require Import Prelude GoStrings GoUrl Parsing Wire Command Operations Lru CacheInterface.
From S2P Require Import ClientSettings Router Pool DistributedCache Sessions Caches Mongo RoundTrip.
From S2P Require Import Topology Handshake Forwarder CacheNode Proxy Listener Connection System Config ConfigFacts.
From Stdlib Require Import ZArith Lia Ascii.

(** [resource.ParseQuantity(s)] and [Value()]; [None] is an error. *)
Class Quantities := { ParseQuantity : string -> option Z }.

(** [resource.MustParse("64Mi").Value()] *)
Definition Mi64 : Z := 64 * 1024 * 1024.

Section Startup.
Context `{UC : UnicodeCase, RX : RegexpOther, GD : GoDuration, QU : Quantities}.
Context `{DE : DriverErrors, EV : !ErrorValues, CO : ClientOptionsOps}.
Context {W : Type} `{OU : !Outside W}.
Context {G : Type} `{GC : !Groupcache W G}.
Notation RC := (Lru.Cache string RouteRef).
Notation SY := (@system DE W G).
Context (range : gmap string Database -> list (string * Database)).

(** ** The shared cache *)

Definition no_forwarding : RequestForwarderConfig :=
  {| rfc_MaxConnections := 0; rfc_ConnectionTimeout := 0; rfc_KeepAlive := false; rfc_KeepAliveInterval := 0 |}.

(** A duration or a size that does not parse is replaced; nothing sets [RequestForwarding]. *)
Definition distributedCacheConfig (sc : SharedCacheConfig) : DistributedCacheConfig :=
  {| dcc_Enabled := sc_Enabled sc; dcc_ListenAddr := sc_ListenAddr sc; dcc_ListenPort := sc_ListenPort sc;
     dcc_CacheSizeBytes := default Mi64 (ParseQuantity (sc_CacheSizeBytes sc));
     dcc_SessionExpiry := default (30 * Minute)%Z (ParseDuration (sc_SessionExpiry sc));
     dcc_TransactionExpiry := default (2 * Minute)%Z (ParseDuration (sc_TransactionExpiry sc));
     dcc_CursorExpiry := default (24 * (60 * Minute))%Z (ParseDuration (sc_CursorExpiry sc));
     dcc_Debug := sc_Debug sc; dcc_LabelSelector := sc_LabelSelector sc; dcc_PeerURLs := sc_PeerURLs sc;
     dcc_RequestForwarding := no_forwarding |}.

Definition start_cache (sc : SharedCacheConfig) (w : W) : outcome (option (cache_node G) * W) :=
  if sc_Enabled sc then
    let '(node, w) := NewDistributedCache (distributedCacheConfig sc) w in
    match Start node with
    | Some err => Err err
    | None => Ret (Some node, w)
    end
  else Ret (None, w).

Definition global_sessions (node : option (cache_node G)) : SessionManager G :=
  match node with
  | Some n => if IsEnabled (cn_dc n) then NewSessionManagerWithDistributedCache (Some (cn_dc n)) else NewSessionManager
  | None => NewSessionManager
  end.

(** ** The databases *)

(** [c.ApplyMongoDBClientSettings(opts, dbName, &dbConfig)] *)
Definition config_ApplyMongoDBClientSettings (c : Config) (opts : ClientOptions) (dbName : string) (dbConfig : option Database)
    : ClientOptions :=
  ApplyMongoDBClientSettings opts dbName (mb_MongoDBConfig (tc_Mongobouncer (cfg_tomlConfig c))) (db_MongoDBConfig <$> dbConfig).

Definition database_uri (dbConfig : Database) : string :=
  if decide (db_ConnectionString dbConfig <> "") then db_ConnectionString dbConfig
  else "mongodb://" +:+ db_Host dbConfig +:+ ":" +:+ fmt_d (db_Port dbConfig) +:+ "/" +:+ db_DBName dbConfig.

(** [mongo.ConnectWithDistributedCache(log, c.metrics, opts, false, globalSessionManager, distributedCache)]; an
    error is only logged, and the client stays nil. *)
Definition startup_connect (opts : ClientOptions) (dc : option (DistributedCache G)) (x : SY) : option MongoRef * SY :=
  let '(err, w) := driver_Connect opts (sy_w x) in
  let x := set_w w x in
  match ConnectWithDistributedCache (GetURI opts) err None (sy_metrics x) (Lru.New maxCursors cursorExpiry)
          (Lru.New maxTransactions transactionExpiry) (Some (sy_sessions x)) dc with
  | Ok m =>
      let ref := fresh (dom (sy_clients x)) in
      (Some ref, {| sy_w := w; sy_clients := <[ref := m]> (sy_clients x); sy_sessions := sy_sessions x; sy_dc := sy_dc x;
                    sy_metrics := sy_metrics x; sy_trace := sy_trace x |})
  | _ => (None, x)
  end.

(** [for dbName, dbConfig := range databases { ... }] *)
Fixpoint start_databases (c : Config) (databases : list (string * Database)) (dc : option (DistributedCache G)) (next : RouteRef)
    (heap : gmap RouteRef RouteConfig) (r : DatabaseRouter RC) (x : SY) : gmap RouteRef RouteConfig * DatabaseRouter RC * SY :=
  match databases with
  | [] => (heap, r, x)
  | (dbName, dbConfig) :: databases =>
      let opts := config_ApplyMongoDBClientSettings c (options_ApplyURI (database_uri dbConfig)) dbName (Some dbConfig) in
      let '(client, x) := startup_connect opts dc x in
      start_databases c databases dc (S next) (<[next := route_of dbName dbConfig client]> heap) (AddRoute dbName next r) x
  end.

(** ** The proxy *)

(** What [Proxies] builds: the one proxy, what it hands to its connections, and the state outside them. *)
Record started := {
  st_proxy : Proxy G;
  st_router : DatabaseRouter RC;
  st_routes : gmap RouteRef RouteConfig;
  st_pool : Manager;
  st_network : string;
  st_address : string;
  st_unlink : bool;
  st_authEnabled : bool;
  st_regexCredentialPassthrough : bool;
  st_mongodbDefaults : MongoDBClientConfig;
  st_outside : SY
}.

Definition forwarder_of (node : option (cache_node G)) : option (RequestForwarder G) :=
  match node with
  | Some n => if IsRequestForwardingEnabled n then GetRequestForwarder n else None
  | None => None
  end.

(** [Proxies] returns one proxy; [logger.Fatal] in [GetDatabases] is a panic. *)
Definition Proxies (c : Config) (w : W) : outcome started :=
  let mb := tc_Mongobouncer (cfg_tomlConfig c) in
  let metrics := if cfg_metrics c then Some [] else None in
  let? (node, w) := start_cache (GetSharedCacheConfig c) w in
  let? databases := GetDatabases (tc_Databases (cfg_tomlConfig c)) ∅ in
  let dc := cn_dc <$> node in
  let x := {| sy_w := w; sy_clients := ∅; sy_sessions := global_sessions node; sy_dc := dc; sy_metrics := metrics; sy_trace := [] |} in
  let '(heap, r, x) := start_databases c (range databases) dc 0 ∅ NewDatabaseRouter x in
  let p := RegisterStartupMongoClients heap r (NewProxy (forwarder_of node)) in
  Ret {| st_proxy := p; st_router := r; st_routes := heap; st_pool := proxies_manager metrics mb; st_network := cfg_network c;
         st_address := listen_address mb; st_unlink := cfg_unlink c; st_authEnabled := mb_AuthEnabled mb;
         st_regexCredentialPassthrough := mb_RegexCredentialPassthrough mb; st_mongodbDefaults := mb_MongoDBConfig mb;
         st_outside := x |}.

(** ** The databases that are served *)

Implicit Types (x : SY) (r : DatabaseRouter RC).

(** Connecting at start-up: the new client, if there is one, is in the table and shares the session manager. *)
Lemma startup_connect_spec opts dc x :
  let '(client, x') := startup_connect opts dc x in
  sy_sessions x' = sy_sessions x /\ sy_clients x ⊆ sy_clients x' /\
  forall ref, client = Some ref -> exists m, sy_clients x' !! ref = Some m /\ mg_sessions m = sy_sessions x /\ mg_client m = true.
Proof.
  unfold startup_connect. destruct (driver_Connect opts (sy_w x)) as [err w].
  unfold ConnectWithDistributedCache. destruct err as [e|]; [by split_and!|]. cbn. split_and!; [done| |].
  - apply insert_subseteq, not_elem_of_dom, is_fresh.
  - intros ref [= <-]. eexists. by rewrite lookup_insert_eq.
Qed.

(** The loop makes the routes of [add_routes], for some result of each connection attempt. *)
Lemma start_databases_routes c dbs dc next heap r x :
  NoDup dbs.*1 ->
  exists connected, fst (start_databases c dbs dc next heap r x) = add_routes dbs connected next heap r /\
    let x' := snd (start_databases c dbs dc next heap r x) in
    sy_sessions x' = sy_sessions x /\ sy_clients x ⊆ sy_clients x' /\
    forall name ref, name ∈ dbs.*1 -> connected name = Some ref ->
      exists m, sy_clients x' !! ref = Some m /\ mg_sessions m = sy_sessions x /\ mg_client m = true.
Proof.
  revert next heap r x. induction dbs as [|[name db] dbs IH]; intros next heap r x Hd.
  { exists (fun _ => None). by split_and!. }
  cbn in Hd. apply NoDup_cons in Hd as [Hn Hd]. cbn [start_databases].
  pose proof (startup_connect_spec (config_ApplyMongoDBClientSettings c (options_ApplyURI (database_uri db)) name (Some db)) dc x) as Hc.
  destruct (startup_connect _ dc x) as [client x1]. destruct Hc as (Hs1 & Hm1 & Hc).
  destruct (IH (S next) (<[next := route_of name db client]> heap) (AddRoute name next r) x1 Hd) as (connected & E & Hs2 & Hm2 & H2).
  exists (fun k => if decide (k = name) then client else connected k). cbn [add_routes]. rewrite decide_True by done. split_and!.
  - rewrite E. clear -Hn. generalize (<[next := route_of name db client]> heap) (AddRoute name next r) (S next).
    induction dbs as [|[k d] dbs IH]; intros h r' n; [done|]. cbn in Hn. apply not_elem_of_cons in Hn as [Hk Hn]. cbn.
    rewrite decide_False by done. by apply IH.
  - by rewrite Hs2.
  - by etrans.
  - intros k ref Hk Hr. cbn in Hr. case_decide as Hkn.
    + destruct (Hc ref Hr) as (m & Hm & Hms). exists m. split; [by eapply lookup_weaken|done].
    + cbn in Hk. apply elem_of_cons in Hk as [->|Hk]; [done|]. rewrite <- Hs1. by apply H2 with k.
Qed.

(** *** What the file's databases become *)

Lemma GetDatabases_other l result m k :
  GetDatabases l result = Ret m -> k ∉ (NormalizeDatabaseName <$> l.*1) -> m !! k = result !! k.
Proof.
  revert result. induction l as [|[name v] l IH]; intros result; cbn [GetDatabases]; [by intros [= ->]|].
  cbn. rewrite not_elem_of_cons. intros H [Hk Hn].
  destruct v; try (by apply IH); try done. destruct (database_of_table t) as [db| | |]; try done. cbn in H.
  rewrite (IH _ H Hn). by apply lookup_insert_ne.
Qed.

(** The names that clash with an exact name are the same name. *)
Lemma exact_clash a b : Contains a "*" = false -> clash a b = bool_decide (a = b).
Proof.
  intros H. unfold clash, is_pattern. rewrite H, andb_false_r. cbn. destruct (negb (bool_decide (b = "*")) && Contains b "*") eqn:E; [|done].
  symmetry. apply bool_decide_false. intros ->. apply andb_true_iff in E as [_ E]. congruence.
Qed.

Lemma GetDatabases_exact l result m name t db :
  GetDatabases l result = Ret m -> no_clash (NormalizeDatabaseName <$> l.*1) -> (name, ATable t) ∈ l ->
  database_of_table t = Ret db -> Contains (NormalizeDatabaseName name) "*" = false ->
  m !! NormalizeDatabaseName name = Some db.
Proof.
  revert result. induction l as [|[k v] l IH]; intros result; [set_solver|]. cbn [GetDatabases]. cbn. intros H [Hc Hn] Hin Hdb Hs.
  apply elem_of_cons in Hin as [[= <- <-]|Hin].
  - rewrite Hdb in H. cbn in H. rewrite (GetDatabases_other _ _ _ _ H); [apply lookup_insert_eq|].
    intros Hin. rewrite Forall_forall in Hc. specialize (Hc _ Hin). rewrite exact_clash, bool_decide_true in Hc by done. done.
  - destruct v; try (by apply (IH result)); try done. destruct (database_of_table t0) as [db0| | |]; try done. by apply (IH _ H).
Qed.

Lemma GetDatabases_keys l result m k :
  GetDatabases l result = Ret m -> k ∈ dom m -> k ∈ dom result \/ k ∈ (NormalizeDatabaseName <$> l.*1).
Proof.
  intros H Hk. destruct (decide (k ∈ NormalizeDatabaseName <$> l.*1)) as [|Hn]; [by right|left].
  apply elem_of_dom. rewrite <- (GetDatabases_other _ _ _ _ H Hn). by apply elem_of_dom.
Qed.

(** *** The clients the proxy is to close *)

Definition starred (r : DatabaseRouter RC) : Prop := Forall (fun pr => Contains (route_key pr) "*" = true) (patternRoutes r).

Lemma starred_AddRoute name n r : starred r -> starred (AddRoute name n r).
Proof.
  intros H. unfold starred, AddRoute. case_decide; [done|]. destruct (Contains (NormalizeDatabaseName name) "*") eqn:E; [|done].
  cbn. apply Forall_app_2; [done|]. apply Forall_singleton.
  assert (forall s t, Contains (s +:+ "*" +:+ t) "*" = true) as Hc by (intros s t; apply Contains_spec; eauto).
  unfold make_pattern_route, route_key. repeat case_match; simplify_eq/=; try done.
  all: first [exact (Hc _ "") | exact (Hc "" _) | exact (Hc "" (_ +:+ _)) | idtac].
Qed.

Lemma starred_routes dbs connected next heap r : starred r -> starred (snd (add_routes dbs connected next heap r)).
Proof.
  revert next heap r. induction dbs as [|[name db] dbs IH]; intros next heap r H; [done|]. cbn. by apply IH, starred_AddRoute.
Qed.

(** An exact name is listed with its own route. *)
Lemma GetAllRoutes_exact r k : starred r -> Contains k "*" = false -> GetAllRoutes r !! k = routes r !! k.
Proof.
  intros Hs Hk. unfold GetAllRoutes.
  assert (forall l (m : gmap string RouteRef), Forall (fun pr => Contains (route_key pr) "*" = true) l ->
    fold_left (fun result pr => <[route_key pr := pr_RouteConfig pr]> result) l m !! k = m !! k) as Hf.
  { intros l. induction l as [|pr l IH]; intros m Hl; [done|]. apply Forall_cons in Hl as [Hp Hl]. cbn. rewrite IH by done.
    apply lookup_insert_ne. intros E. rewrite E in Hp. congruence. }
  destruct (wildcardRoute r); [|by apply Hf]. rewrite lookup_insert_ne; [by apply Hf|]. intros <-. by vm_compute in Hk.
Qed.

(** A proxy without clients registers, under each name, the client of the name's route. *)
Lemma RegisterStartup_lookup (heap : gmap RouteRef RouteConfig) r (p : Proxy G) k :
  p_mongoClients p = ∅ ->
  p_mongoClients (RegisterStartupMongoClients heap r p) !! k =
    Some <$> (GetAllRoutes r !! k ≫= fun n => heap !! n ≫= rc_MongoClient).
Proof.
  intros Hp. unfold RegisterStartupMongoClients. cbn. rewrite Hp.
  apply (map_fold_weak_ind (fun (acc : gmap string (option MongoRef)) (m : gmap string RouteRef) =>
    acc !! k = Some <$> (m !! k ≫= fun n => heap !! n ≫= rc_MongoClient))); [by rewrite !lookup_empty|].
  intros name n m acc Hn IH. destruct (decide (name = k)) as [->|Hne].
  - rewrite lookup_insert_eq. rewrite Hn in IH. cbn in *. destruct (heap !! n ≫= rc_MongoClient) as [client|]; [apply lookup_insert_eq|done].
  - rewrite (lookup_insert_ne m) by done. destruct (heap !! n ≫= rc_MongoClient) as [client|]; [|done]. by rewrite lookup_insert_ne.
Qed.

Lemma LoadConfig_valid path found decoded verbose logger metrics c :
  LoadConfig path found decoded verbose logger metrics = Ret c ->
  no_clash (NormalizeDatabaseName <$> (tc_Databases (cfg_tomlConfig c)).*1).
Proof.
  unfold LoadConfig. intros H. match type of H with obind ?o _ = _ => destruct o as [config| | |] end; try done. cbn [obind] in H.
  destruct logger; [done|]. destruct (validateDatabaseNames (tc_Databases config)) as [[]| | |] eqn:E; try done.
  injection H as <-. by apply validate_iff in E as [_ E].
Qed.

(** The route of a database, and its client. *)
Definition serves (s : started) (name : string) (db : Database) : Prop :=
  exists n client, resolve (st_router s) name = Some n /\ st_routes s !! n = Some (route_of name db client) /\
    forall ref, client = Some ref ->
      p_mongoClients (st_proxy s) !! name = Some (Some ref) /\
      exists m, sy_clients (st_outside s) !! ref = Some m /\ mg_sessions m = sy_sessions (st_outside s) /\ mg_client m = true.

(** C14.
    From the file to the routes: if a configuration is accepted and start-up
    succeeds, then every database the file configures by name is served: its
    name resolves to a route with the database's own connection string and
    settings, whatever patterns stand beside it and in whatever order the
    databases come; and if its client could be made at start-up, the client
    works, shares the proxy's session manager, and is one that stopping the
    proxy closes. *)
Theorem configured_database_served path found decoded verbose logger metrics c w s name t db :
  (forall m, range m ≡ₚ map_to_list m) ->
  LoadConfig path found decoded verbose logger metrics = Ret c -> Proxies c w = Ret s ->
  Forall (fun e => isASCII (fst e) = true) (tc_Databases (cfg_tomlConfig c)) ->
  (name, ATable t) ∈ tc_Databases (cfg_tomlConfig c) -> database_of_table t = Ret db ->
  Contains (NormalizeDatabaseName name) "*" = false ->
  serves s (NormalizeDatabaseName name) db.
Proof.
  intros Hrange Hc%LoadConfig_valid Hp Hascii Hin Hdb Hs. unfold Proxies in Hp.
  destruct (start_cache _ w) as [[node w1]| | |]; try done. cbn [obind] in Hp.
  destruct (GetDatabases _ ∅) as [dbs| | |] eqn:Eg; try done. cbn [obind] in Hp.
  pose proof (GetDatabases_exact _ _ _ _ _ _ Eg Hc Hin Hdb Hs) as Hlook. set (k := NormalizeDatabaseName name) in *.
  assert (NoDup (range dbs).*1) as Hnd by (rewrite Hrange; apply NoDup_fst_map_to_list).
  assert ((k, db) ∈ range dbs) as Hk by (rewrite Hrange; by apply elem_of_map_to_list).
  assert (forall j, j ∈ (range dbs).*1 -> NormalizeDatabaseName j = j) as Hnorm.
  { intros j Hj. assert (j ∈ dom dbs) as Hj'.
    { apply list_elem_of_fmap in Hj as ([j' d] & -> & Hj). rewrite Hrange in Hj. apply elem_of_map_to_list in Hj. by apply elem_of_dom. }
    apply (GetDatabases_keys _ _ _ _ Eg) in Hj' as [?|Hj']; [set_solver|].
    apply list_elem_of_fmap in Hj' as (raw & -> & Hraw). apply list_elem_of_fmap in Hraw as (e & -> & He).
    rewrite Forall_forall in Hascii. by apply ToLower_idem_ascii, Hascii. }
  set (x := {| sy_w := w1 |}) in Hp.
  destruct (start_databases_routes c (range dbs) (cn_dc <$> node) 0 ∅ NewDatabaseRouter x Hnd) as (connected & E & Hs2 & _ & Hcl).
  destruct (start_databases _ _ _ _ _ _ x) as [[heap r] x']. cbn [fst snd] in *. injection Hp as <-.
  unfold serves. cbn [st_router st_routes st_proxy st_outside].
  assert (NoDup (NormalizeDatabaseName <$> (range dbs).*1)) as Hnd'.
  { rewrite (list_fmap_ext _ id (range dbs).*1); [by rewrite list_fmap_id|]. intros i j Hj. by apply Hnorm, (list_elem_of_lookup_2 _ i). }
  assert (NormalizeDatabaseName k = k) as Hkk by (apply Hnorm, list_elem_of_fmap; by exists (k, db)).
  pose proof (configured_database_routed (range dbs) connected 0 ∅ NewDatabaseRouter k db Hnd' Hk ltac:(by rewrite Hkk)) as Hroute.
  pose proof (starred_routes (range dbs) connected 0 ∅ NewDatabaseRouter ltac:(constructor)) as Hstar.
  rewrite <- E in Hroute, Hstar. rewrite Hkk in Hroute. destruct Hroute as (n & Hr0 & Hr & Hn). exists n, (connected k). split_and!; [done..|].
  intros ref Href. split.
  - rewrite RegisterStartup_lookup by done. rewrite GetAllRoutes_exact by done. cbn in Hr0, Hn. rewrite Hr0. cbn. rewrite Hn. cbn.
    by rewrite Href.
  - rewrite Hs2. apply Hcl with k; [|done]. apply list_elem_of_fmap. by exists (k, db).
Qed.

(** ** A connection of the proxy *)

(** [handleConnection(log, p.metrics, p.address, c, ...)] for a client that sends [input]. *)
Definition serve_client `{WM : Wiremessage, BS : Bsoncore, BM : BsonMarshal, DS : Descriptions, GQ : GoQuote}
    `{DR : !Driver W, PW : !PodNet W, GO : GroupOps G}
    `{JS : Json SessionData, JT : Json TransactionData, JC : Json CursorData, PF : PointerFormat, JL : Json SessionLocation}
    (s : started) (input : list byte) : string * @cstate DE SY G RC :=
  handleConnection (st_address s) (st_authEnabled s) (st_regexCredentialPassthrough s) (st_mongodbDefaults s)
    {| s_c := new_connection "" "" false false (st_mongodbDefaults s); s_metrics := sy_metrics (st_outside s);
       s_pool := Some (st_pool s); s_router := Some (st_router s); s_routes := st_routes s; s_proxy := Some (st_proxy s);
       s_in := input; s_end := error_EOF; s_sent := []; s_x := st_outside s |}.

End Startup.

(** ** The program *)

(** [zapcore.Level] *)
Inductive level := DebugLevel | InfoLevel | WarnLevel | ErrorLevel.

(** [config.Build()] of zap, on the level and the output paths; [Some] is an error. *)
Class ZapBuild := { zap_Build : level -> list string -> option string }.

Definition logger_level `{UnicodeCase} (name : string) : level :=
  let name := ToLower name in
  if decide (name = "debug") then DebugLevel
  else if decide (name = "info") then InfoLevel
  else if decide (name = "warn" \/ name = "warning") then WarnLevel
  else if decide (name = "error") then ErrorLevel
  else InfoLevel.

(** The level and the output a logger is built with, or why it is not. *)
Definition CreateLogger `{UnicodeCase, ZapBuild} (name logFile : string) : outcome (level * list string) :=
  let paths := if decide (logFile <> "") then [logFile] else ["stdout"] in
  match zap_Build (logger_level name) paths with
  | Some err => Err err
  | None => Ret (logger_level name, paths)
  end.

(** The lines [printUsage] writes. *)
Definition printUsage (program : string) : list string :=
  ["Usage: " +:+ program +:+ " [OPTIONS]"; ""; "OPTIONS:"; "  --config string"; "        Path to TOML configuration file";
   "  --verbose"; "        Enable verbose (debug) logging"; "  --help"; "        Show this help message"; ""; "CONFIGURATION:";
   "  All other configuration options should be specified in the TOML configuration file.";
   "  See examples/mongobouncer.example.toml for a complete configuration example."; ""; "EXAMPLES:";
   "  " +:+ program +:+ " --config /path/to/mongobouncer.toml"; "  " +:+ program +:+ " --config mongobouncer.toml -verbose"; ""].

(** Where [main] gets to: the usage text, an exit with a status, or [run] on a configuration. *)
Inductive main_step := PrintUsage (lines : list string) | Exit (status : Z) | RunProxies (c : Config).

Definition main `{UnicodeCase, ZapBuild} (program : string) (help : bool) (loaded : outcome Config) : main_step :=
  if help then PrintUsage (printUsage program)
  else
    match CreateLogger "info" "" with
    | Err _ | Panic _ | NoFuel => Exit 1
    | Ret _ =>
        match loaded with
        | Ret c => RunProxies c
        | Err _ => Exit 1
        | Panic _ | NoFuel => Exit 2
        end
    end.

(** [run] waits for every proxy's [Run]; the process then exits with status 0, errors of [Run] being only logged. *)
Definition exited {G} (proxies : list (listener G)) : option Z :=
  if decide (Forall (fun l => is_Some (Run_result l)) proxies) then Some 0%Z else None.

(** *** Signals *)

Inductive os_signal := Interrupt | SIGTERM.

#[export] Instance os_signal_eq : EqDecision os_signal.
Proof. solve_decision. Defined.

(** What the signal goroutine does: start a shutdown, call kill, or schedule a warning. *)
Inductive signal_call := GoShutdown | DoKill | WarnLater.

(** [for sig := range c], [shutdownAttempted] being a variable of the loop. *)
Fixpoint shutdownOnSignal (shutdownAttempted : bool) (signals : list os_signal) : list signal_call :=
  match signals with
  | [] => []
  | sig :: signals =>
      if negb shutdownAttempted then
        GoShutdown :: (match sig with Interrupt => [WarnLater] | SIGTERM => [] end) ++ shutdownOnSignal true signals
      else
        (match sig with Interrupt => [DoKill] | SIGTERM => [] end) ++ shutdownOnSignal true signals
  end.

(** What a call is for each proxy. *)
Definition call_actions (call : signal_call) : list action :=
  match call with GoShutdown => [CallShutdown] | DoKill => [CallKill] | WarnLater => [] end.

Lemma signal_kills signals :
  shutdownOnSignal true signals = map (fun _ => DoKill) (filter (fun s => s = Interrupt) signals).
Proof. induction signals as [|[] signals IH]; [done|..]; cbn; by rewrite IH. Qed.

(** Once the calls of a proxy include a kill it stays killed. *)
Lemma killed_stays {G} network umask acts (s s' : listener G) :
  run network umask acts s = Some s' -> killing s = true \/ CallKill ∈ acts -> killing s' = true.
Proof.
  revert s. induction acts as [|a acts IH]; intros s; cbn; [intros [= <-] [?|?]; [done|set_solver]|].
  destruct (fire network umask a s) as [s1|] eqn:E; [|done]. cbn. intros Hr Hk. apply (IH s1 Hr).
  destruct (decide (a = CallKill)) as [->|Hne].
  { left. cbn in E. injection E as <-. apply Kill_channels. }
  destruct Hk as [Hk|Hk]; [left|right; apply elem_of_cons in Hk as [Hk|Hk]; congruence].
  destruct (fire_keeps_kill network umask a s s1 E) as [H|H]; congruence.
Qed.

(** C26.
    Signals: the first one starts a graceful shutdown, once; after it every
    interrupt kills, and a terminate signal does nothing.  So a proxy that has
    been given the calls of an interrupt after another signal is killed: there
    is a step that no client can hold up until it has ended. *)
Theorem interrupt_kills {G} network umask (p : Proxy G) (first : os_signal) (later : list os_signal) acts s :
  (p_kill p = true -> p_quit p = true) -> run network umask acts (start umask p) = Some s ->
  concat (call_actions <$> shutdownOnSignal false (first :: later)) ⊆ acts ->
  shutdownOnSignal false (first :: later) =
    GoShutdown :: (if decide (first = Interrupt) then [WarnLater] else []) ++
      map (fun _ => DoKill) (filter (fun sig => sig = Interrupt) later) /\
  (Interrupt ∈ later -> killing s = true /\
     (ended s \/ exists act s', forced act s = true /\ fire network umask act s = Some s')).
Proof.
  intros Hp Hr Hsub.
  assert (shutdownOnSignal false (first :: later) = GoShutdown :: (if decide (first = Interrupt) then [WarnLater] else []) ++
      map (fun _ => DoKill) (filter (fun sig => sig = Interrupt) later)) as E.
  { cbn. rewrite signal_kills. by destruct first. }
  split; [done|]. intros Hi. assert (killing s = true) as Hk.
  { apply (killed_stays network umask acts _ _ Hr). right. apply Hsub. rewrite E. apply list_elem_of_In, in_concat.
    exists [CallKill]. rewrite <- !list_elem_of_In. split; [|by left]. apply list_elem_of_fmap. exists DoKill. split; [done|]. right. apply elem_of_app. right.
    apply list_elem_of_fmap. exists Interrupt. split; [done|]. by apply list_elem_of_filter. }
  split; [done|]. apply kill_progress; [|done]. by eapply inv_run; [apply inv_start|].
Qed.
