(* ===== verification/StartupWitnesses.v ===== *)
(** * From a configuration file to MongoDB

    The start-up theorems applied to a small configuration, and a run of the
    whole program: the file is read, the proxy built, a client connects and its
    request reaches the driver. *)

From S2P Require Import Prelude GoStrings GoUrl Parsing Wire Command Operations WireRef Lru CacheInterface.
From S2P Require Import ClientSettings Router Pool DistributedCache Sessions Caches Mongo RoundTrip RoundTripFacts.
From S2P Require Import RoundTripWitnesses Topology Handshake Forwarder CacheNode Proxy Listener Connection.
From S2P Require Import ConnectionWitnesses System SystemWitnesses Config ConfigFacts Startup.
From Stdlib Require Import ZArith Lia Ascii.

Section Witnesses.

#[local] Existing Instance ascii_case.
#[local] Existing Instance no_other_regexp.
#[local] Existing Instance sample_errors.
#[local] Existing Instance sample_error_values.
#[local] Existing Instance plain_descriptions.
#[local] Existing Instance decimal_pointers.
#[local] Existing Instance no_session_json.
#[local] Existing Instance no_transaction_json.
#[local] Existing Instance no_cursor_json.
#[local] Existing Instance remote_json.
#[local] Existing Instance plain_quote.
#[local] Existing Instance one_marshal.
#[local] Existing Instance string_options.
#[local] Existing Instance scripted.
#[local] Existing Instance script_net.
#[local] Existing Instance script_outside.
#[local] Existing Instance no_durations.
#[local] Instance no_quantities : Quantities := {| ParseQuantity _ := None |}.

Notation group := (gmap string (list byte)).

(** A daemon that never fails, and no cluster around it. *)
#[local] Instance lone_daemon : Groupcache script group := {|
  groupcache_ListenAndServe _ w := (Ret 0, w);
  daemon_SetPeers _ _ w := (Ret (), w);
  daemon_NewGroup _ _ _ w := (Ret ∅, w);
  daemon_Shutdown _ w := w;
  kubeclient_New _ w := (Err "no cluster", w);
  kubegroup_UpdatePeers _ _ _ _ _ w := (Err "no cluster", w);
  discovery_Close _ w := w;
  group_Name _ := "";
  group_UsedBytes _ := (0, 0)%Z
|}.

(** One database by name beside a pattern that matches it too. *)
Definition app_table : list (string * any) := [("connection_string", AString "mongodb://db1:27017/app")].
Definition config_file : list (string * any) :=
  [("mongobouncer", ATable [("auth_enabled", ABool false); ("shared_cache", ATable [("enabled", ABool true)])]);
   ("databases", ATable [("a*", ATable [("connection_string", AString "mongodb://other")]); ("App", ATable app_table)])].

Definition loaded : outcome Config := LoadConfig "c.toml" true (Ret config_file) false None true.
Definition the_config : Config :=
  match loaded with
  | Ret c => c
  | _ => {| cfg_tomlConfig := default_config; cfg_metrics := false; cfg_network := ""; cfg_unlink := false; cfg_ping := false |}
  end.
Definition the_app : Database := match database_of_table app_table with Ret db => db | _ => plain_database "" end.

Lemma configured_database_served_witness :
  exists s, Proxies map_to_list the_config calm = Ret s /\ serves s "app" the_app.
Proof.
  destruct (Proxies map_to_list the_config calm) as [s|e|why|] eqn:E.
  2-4: assert (match Proxies map_to_list the_config calm with Ret _ => true | _ => false end = true) as H by (vm_compute; reflexivity);
    rewrite E in H; discriminate H.
  exists s. split; [reflexivity|].
  apply (configured_database_served map_to_list "c.toml" true (Ret config_file) false None true the_config calm s "App" app_table the_app).
  - intros m. reflexivity.
  - vm_compute. reflexivity.
  - exact E.
  - repeat constructor.
  - right. left.
  - vm_compute. reflexivity.
  - vm_compute. reflexivity.
Defined.

(** The request of a client of database [app], from the file to the driver and back. *)
Definition whole_run : option (list (nat * list byte) * list (list byte)) :=
  match Proxies map_to_list the_config calm with
  | Ret s =>
      let '(_, st) := serve_client s (msg_Wm plain_request) in
      Some (writes (sy_trace (s_x st)), s_sent st)
  | _ => None
  end.

Example request_reaches_mongodb : whole_run = Some ([(10, msg_Wm plain_request)], [ok_reply]).
Proof. vm_compute. reflexivity. Qed.

Lemma interrupt_kills_witness :
  exists s, run "tcp4" 18 [CallShutdown; CallKill] (start 18 fresh_proxy) = Some s /\ killing s = true.
Proof.
  destruct (run "tcp4" 18 [CallShutdown; CallKill] (start 18 fresh_proxy)) as [s|] eqn:E; [|vm_compute in E; discriminate E].
  exists s. split; [reflexivity|].
  apply (interrupt_kills "tcp4" 18 fresh_proxy SIGTERM [Interrupt] [CallShutdown; CallKill] s); [done|exact E|set_solver|by left].
Defined.

End Witnesses.
