(* ===== verification/Metrics.v ===== *)
(** * Metrics ([src/util/metrics.go], [src/util/batched_metrics.go])

    What becomes of the calls the program makes on its metrics object: the
    batches of [BatchedMetricsClient], the translation to Prometheus by
    [MetricsClient], and the goroutine behind the count of open connections.
    The Prometheus objects are a log of the calls made on them; their values
    are exact numbers where the code has [float64], and the sample rate, which
    is always 1 and never used, is left out. *)

From S2P Require Import Prelude GoStrings ClientSettings Pool.
From Stdlib Require Import ZArith Lia QArith_base.
Local Close Scope Q_scope.

(** ** Tags *)

(** The value of the first tag with a prefix: [for _, tag := range tags { if strings.HasPrefix(tag, p) { return tag[len(p):] } }]. *)
Fixpoint parse_tag (prefix fallback : string) (tags : list string) : string :=
  match tags with
  | [] => fallback
  | tag :: tags => if HasPrefix tag prefix then str_drop (String.length prefix) tag else parse_tag prefix fallback tags
  end.

Definition parseSuccessTag (tags : list string) : string := parse_tag "success:" "true" tags.
Definition parseErrorTag (tags : list string) : string := parse_tag "error_type:" "unknown" tags.
Definition parseDatabaseTag (tags : list string) : string := parse_tag "database:" "default" tags.
Definition parseStateTag (tags : list string) : string := parse_tag "state:" "unknown" tags.
Definition parseUserTag (tags : list string) : string := parse_tag "user:" "default" tags.

(** The last database and the last operation, a tag with the first prefix not being looked at for the second. *)
Definition parseRequestTags (tags : list string) : string * string :=
  fold_left (fun '(database, operation) tag =>
    if HasPrefix tag "database:" then (str_drop 9 tag, operation)
    else if HasPrefix tag "operation:" then (database, str_drop 10 tag)
    else (database, operation)) tags ("default", "unknown").

Definition parseTagsToLabels (tags : list string) : list string :=
  match tags with
  | [] => ["default"]
  | _ => map (fun tag => match Index tag ":" with Some idx => str_drop (S idx) tag | None => tag end) tags
  end.

(** ** Prometheus *)

(** A call on a vector, [v.WithLabelValues(labels...).F(...)], by the variable that holds it. *)
Inductive prom_call :=
| PInc (metric : string) (labels : list string)
| PSet (metric : string) (labels : list string) (value : Q)
| PAdd (metric : string) (labels : list string) (value : Q)
| PObserve (metric : string) (labels : list string) (value : Q).

(** [duration.Seconds()] *)
Definition Seconds (nanoseconds : Z) : Q := Qdiv (inject_Z nanoseconds) (inject_Z 1000000000).

Definition MC_Timing (name : string) (duration : Z) (tags : list string) : list prom_call :=
  let database := parseDatabaseTag tags in
  if decide (name = "handle_message") then [PObserve "messageHandleDuration" [parseSuccessTag tags] (Seconds duration)]
  else if decide (name = "round_trip") then [PObserve "roundTripDuration" [database] (Seconds duration)]
  else if decide (name = "server_selection") then [PObserve "serverSelectionDuration" [database] (Seconds duration)]
  else if decide (name = "checkout_connection") then [PObserve "checkoutConnectionDuration" [database] (Seconds duration)]
  else if decide (name = "client_wait") then [PObserve "clientWaitTime" [database] (Seconds duration)]
  else [].

Definition MC_Incr (name : string) (tags : list string) : list prom_call :=
  let database := parseDatabaseTag tags in
  if decide (name = "connection_opened") then [PInc "connectionOpenedTotal" []]
  else if decide (name = "connection_closed") then [PInc "connectionClosedTotal" []]
  else if decide (name = "request") then let '(database, operation) := parseRequestTags tags in [PInc "requestsTotal" [database; operation]]
  else if decide (name = "error") then [PInc "errorsTotal" [database; parseErrorTag tags]]
  else if decide (name = "ismaster_command") then [PInc "ismasterCommandsTotal" []]
  else if decide (name = "server_selection") then [PInc "serverSelectionTotal" [database]]
  else if decide (name = "cursor_opened") then [PInc "cursorsOpenedTotal" [database]]
  else if decide (name = "cursor_closed") then [PInc "cursorsClosedTotal" [database]]
  else if decide (name = "transaction_committed") then [PInc "transactionsCommittedTotal" [database]]
  else if decide (name = "transaction_aborted") then [PInc "transactionsAbortedTotal" [database]]
  else [PInc "poolEventCounters" [name]].

Definition MC_Gauge (name : string) (value : Q) (tags : list string) : list prom_call :=
  let database := parseDatabaseTag tags in
  if decide (name = "open_connections") then [PSet "openConnections" ["client"] value]
  else if decide (name = "cursors") then [PSet "cursorsActive" [database] value]
  else if decide (name = "transactions") then [PSet "transactionsActive" [database] value]
  else if decide (name = "sessions_active") then [PAdd "sessionsActive" [database] value]
  else if decide (name = "max_client_connections") then [PSet "maxClientConnections" [] value]
  else if decide (name = "pool_active_connections") then [PSet "poolActiveConnections" [database] value]
  else if decide (name = "pool_total_connections") then [PSet "poolTotalConnections" [database] value]
  else if decide (name = "pool_max_connections") then [PSet "poolMaxConnections" [database] value]
  else if decide (name = "pool_utilization_ratio") then [PSet "poolUtilizationRatio" [database] value]
  else if decide (name = "pool_checkout_total") then [PSet "poolCheckoutTotal" [database] value]
  else if decide (name = "pool_checkin_total") then [PSet "poolCheckinTotal" [database] value]
  else if decide (name = "pool_checkout_failures_total") then [PSet "poolCheckoutFailuresTotal" [database] value]
  else [].

Definition MC_Distribution (name : string) (value : Q) (tags : list string) : list prom_call :=
  let database := parseDatabaseTag tags in
  if decide (name = "request_size") then [PObserve "requestSizeBytes" [database] value]
  else if decide (name = "response_size") then [PObserve "responseSizeBytes" [database] value]
  else if decide (name = "pool_checkout_duration") then [PObserve "poolConnectionCheckoutDuration" [database] value]
  else [].

(** A call on the metrics interface. *)
Definition client_call (c : MetricCall) : list prom_call :=
  match c with
  | Incr name tags => MC_Incr name tags
  | Gauge name value tags => MC_Gauge name (inject_Z value) tags
  | GaugeQ name value tags => MC_Gauge name value tags
  | Distribution name nanoseconds tags => MC_Distribution name (Seconds nanoseconds) tags
  | DistributionN name value tags => MC_Distribution name (inject_Z value) tags
  | Timing name nanoseconds tags => MC_Timing name nanoseconds tags
  end.

(** ** Batches *)

Inductive kind := KTiming | KCounter | KGauge | KDistribution.
#[export] Instance kind_eq_decision : EqDecision kind.
Proof. solve_decision. Defined.

Definition kind_of (c : MetricCall) : kind :=
  match c with
  | Timing _ _ _ => KTiming
  | Incr _ _ => KCounter
  | Gauge _ _ _ | GaugeQ _ _ _ => KGauge
  | Distribution _ _ _ | DistributionN _ _ _ => KDistribution
  end.

(** [bm_client] are the calls made on the client below, [bm_closed] whether that was closed; the flush loop runs until it sees
    the context cancelled. *)
Record BatchedMetricsClient := {
  bm_client : list MetricCall;
  bm_closed : bool;
  bm_batchSize : Z;
  bm_timingBatch : list MetricCall;
  bm_counterBatch : list MetricCall;
  bm_gaugeBatch : list MetricCall;
  bm_distributionBatch : list MetricCall;
  bm_cancelled : bool;
  bm_looping : bool
}.

(** [make] of a slice with a negative capacity panics. *)
Definition NewBatchedMetricsClient (batchSize : Z) : option BatchedMetricsClient :=
  if (batchSize <? 0)%Z then None
  else Some {| bm_client := []; bm_closed := false; bm_batchSize := batchSize; bm_timingBatch := []; bm_counterBatch := [];
               bm_gaugeBatch := []; bm_distributionBatch := []; bm_cancelled := false; bm_looping := true |}.

Definition batch (k : kind) (b : BatchedMetricsClient) : list MetricCall :=
  match k with
  | KTiming => bm_timingBatch b
  | KCounter => bm_counterBatch b
  | KGauge => bm_gaugeBatch b
  | KDistribution => bm_distributionBatch b
  end.

Definition set_batch (k : kind) (l : list MetricCall) (b : BatchedMetricsClient) : BatchedMetricsClient :=
  {| bm_client := bm_client b; bm_closed := bm_closed b; bm_batchSize := bm_batchSize b;
     bm_timingBatch := if decide (k = KTiming) then l else bm_timingBatch b;
     bm_counterBatch := if decide (k = KCounter) then l else bm_counterBatch b;
     bm_gaugeBatch := if decide (k = KGauge) then l else bm_gaugeBatch b;
     bm_distributionBatch := if decide (k = KDistribution) then l else bm_distributionBatch b;
     bm_cancelled := bm_cancelled b; bm_looping := bm_looping b |}.
Definition deliver (l : list MetricCall) (b : BatchedMetricsClient) : BatchedMetricsClient :=
  {| bm_client := bm_client b ++ l; bm_closed := bm_closed b; bm_batchSize := bm_batchSize b;
     bm_timingBatch := bm_timingBatch b; bm_counterBatch := bm_counterBatch b; bm_gaugeBatch := bm_gaugeBatch b;
     bm_distributionBatch := bm_distributionBatch b; bm_cancelled := bm_cancelled b; bm_looping := bm_looping b |}.
Definition set_loop (closed cancelled looping : bool) (b : BatchedMetricsClient) : BatchedMetricsClient :=
  {| bm_client := bm_client b; bm_closed := closed; bm_batchSize := bm_batchSize b;
     bm_timingBatch := bm_timingBatch b; bm_counterBatch := bm_counterBatch b; bm_gaugeBatch := bm_gaugeBatch b;
     bm_distributionBatch := bm_distributionBatch b; bm_cancelled := cancelled; bm_looping := looping |}.

(** [flushTimingBatch] and its three likes. *)
Definition flush_batch (k : kind) (b : BatchedMetricsClient) : BatchedMetricsClient :=
  match batch k b with
  | [] => b
  | l => set_batch k [] (deliver l b)
  end.

Definition flushAllBatches (b : BatchedMetricsClient) : BatchedMetricsClient :=
  flush_batch KDistribution (flush_batch KGauge (flush_batch KCounter (flush_batch KTiming b))).

(** [Timing], [Incr], [Gauge] and [Distribution] *)
Definition record_metric (c : MetricCall) (b : BatchedMetricsClient) : BatchedMetricsClient :=
  let k := kind_of c in
  let b := set_batch k (batch k b ++ [c]) b in
  if (bm_batchSize b <=? Z.of_nat (length (batch k b)))%Z then flush_batch k b else b.

Definition Flush (b : BatchedMetricsClient) : BatchedMetricsClient := flushAllBatches b.

(** [bmc.cancel()] *)
Definition cancel (b : BatchedMetricsClient) : BatchedMetricsClient := set_loop (bm_closed b) true (bm_looping b) b.

(** The two cases of the flush loop's [select]: a tick, which it may still take after the cancellation, and the end. *)
Definition flush_tick (b : BatchedMetricsClient) : BatchedMetricsClient := if bm_looping b then Flush b else b.
Definition flush_exit (b : BatchedMetricsClient) : BatchedMetricsClient :=
  if bm_cancelled b then set_loop (bm_closed b) (bm_cancelled b) false b else b.

(** Both return when the loop has ended; a [Shutdown] whose context ends first is [cancel] alone. *)
Definition BM_Close (b : BatchedMetricsClient) : BatchedMetricsClient :=
  let b := Flush (flush_exit (cancel b)) in set_loop true (bm_cancelled b) (bm_looping b) b.
Definition BM_Shutdown (b : BatchedMetricsClient) : BatchedMetricsClient := flush_exit (cancel b).

Inductive batch_op := BRecord (c : MetricCall) | BFlush | BTick | BCancel | BExit | BClose | BShutdown.

Definition run_batch_op (o : batch_op) (b : BatchedMetricsClient) : BatchedMetricsClient :=
  match o with
  | BRecord c => record_metric c b
  | BFlush => Flush b
  | BTick => flush_tick b
  | BCancel => cancel b
  | BExit => flush_exit b
  | BClose => BM_Close b
  | BShutdown => BM_Shutdown b
  end.

Definition run_batch (ops : list batch_op) (b : BatchedMetricsClient) : BatchedMetricsClient :=
  fold_left (fun b o => run_batch_op o b) ops b.

(** The calls recorded by a run, of one kind. *)
Definition of_kind (k : kind) (l : list MetricCall) : list MetricCall := filter (fun c => kind_of c = k) l.
Definition recorded (ops : list batch_op) : list MetricCall := omap (fun o => match o with BRecord c => Some c | _ => None end) ops.

(** ** Open connections *)

(** The goroutine of [BackgroundGauge]: its count, what waits in its two channels of capacity 100, the gauge, and the calls the
    callbacks make on the counters. *)
Record gauge_state := {
  gs_count : Z;
  gs_inc : nat;
  gs_dec : nat;
  gs_gauge : Z;
  gs_counters : list prom_call
}.

Definition channelSize : nat := 100.

(** A send on a channel that is full is dropped. *)
Definition send (waiting : nat) : nat := if decide (waiting < channelSize) then S waiting else waiting.

Definition gauge_increment (name : string) (tags : list string) (s : gauge_state) : gauge_state :=
  {| gs_count := gs_count s; gs_inc := send (gs_inc s); gs_dec := gs_dec s; gs_gauge := gs_gauge s;
     gs_counters := gs_counters s ++ MC_Incr name tags |}.
Definition gauge_decrement (name : string) (tags : list string) (s : gauge_state) : gauge_state :=
  {| gs_count := gs_count s; gs_inc := gs_inc s; gs_dec := send (gs_dec s); gs_gauge := gs_gauge s;
     gs_counters := gs_counters s ++ MC_Incr name tags |}.

(** The callbacks, and the three cases of the goroutine's [select], any ready one of which may run. *)
Inductive gauge_step : gauge_state -> gauge_state -> Prop :=
| gst_increment s name tags : gauge_step s (gauge_increment name tags s)
| gst_decrement s name tags : gauge_step s (gauge_decrement name tags s)
| gst_recv_inc s n : gs_inc s = S n ->
    gauge_step s {| gs_count := gs_count s + 1; gs_inc := n; gs_dec := gs_dec s; gs_gauge := gs_gauge s; gs_counters := gs_counters s |}
| gst_recv_dec s n : gs_dec s = S n ->
    gauge_step s {| gs_count := if (0 <? gs_count s)%Z then (gs_count s - 1)%Z else gs_count s; gs_inc := gs_inc s;
                    gs_dec := n; gs_gauge := gs_gauge s; gs_counters := gs_counters s |}
| gst_tick s :
    gauge_step s {| gs_count := gs_count s; gs_inc := gs_inc s; gs_dec := gs_dec s; gs_gauge := gs_count s; gs_counters := gs_counters s |}.

Definition new_gauge : gauge_state := {| gs_count := 0; gs_inc := 0; gs_dec := 0; gs_gauge := 0; gs_counters := [] |}.

(** ** Properties *)

Lemma of_kind_app k l l' : of_kind k (l ++ l') = of_kind k l ++ of_kind k l'.
Proof. apply filter_app. Qed.

(** Each batch holds calls of its own kind. *)
Definition sorted_batches (b : BatchedMetricsClient) : Prop := forall k, Forall (fun c => kind_of c = k) (batch k b).

Lemma of_kind_batch k k' b : sorted_batches b -> of_kind k (batch k' b) = if decide (k = k') then batch k' b else [].
Proof.
  intros Hb. specialize (Hb k'). unfold of_kind. induction Hb as [|c l Hc Hl IH]; [by case_decide|].
  rewrite filter_cons, IH, Hc. repeat case_decide; congruence.
Qed.

Lemma batch_set k k' l b : batch k (set_batch k' l b) = if decide (k = k') then l else batch k b.
Proof. destruct k, k'; reflexivity. Qed.
Lemma batch_deliver k l b : batch k (deliver l b) = batch k b.
Proof. by destruct k. Qed.

(** What has gone through, for one kind: the calls below, then the batch. *)
Definition flow (k : kind) (b : BatchedMetricsClient) : list MetricCall := of_kind k (bm_client b) ++ batch k b.

Lemma flush_batch_flow k' b : sorted_batches b -> sorted_batches (flush_batch k' b) /\ forall k, flow k (flush_batch k' b) = flow k b.
Proof.
  intros Hb. unfold flush_batch. destruct (batch k' b) as [|c l] eqn:E; [done|]. split.
  - intros k. rewrite batch_set, batch_deliver. case_decide; [constructor|apply Hb].
  - intros k. unfold flow. rewrite batch_set, batch_deliver. cbn [set_batch bm_client deliver].
    rewrite of_kind_app, <- E, of_kind_batch by done. case_decide; [subst; by rewrite app_nil_r|by rewrite app_nil_r].
Qed.

Lemma flush_all_flow b : sorted_batches b -> sorted_batches (Flush b) /\ forall k, flow k (Flush b) = flow k b.
Proof.
  intros H0. unfold Flush, flushAllBatches.
  destruct (flush_batch_flow KTiming b H0) as [H1 E1]. destruct (flush_batch_flow KCounter _ H1) as [H2 E2].
  destruct (flush_batch_flow KGauge _ H2) as [H3 E3]. destruct (flush_batch_flow KDistribution _ H3) as [H4 E4].
  split; [done|]. intros k. by rewrite E4, E3, E2, E1.
Qed.

Lemma flush_batch_empty k k' b : batch k (flush_batch k' b) = if decide (k = k') then [] else batch k b.
Proof.
  unfold flush_batch. destruct (batch k' b) eqn:E; [case_decide; [by subst|done]|]. by rewrite batch_set, batch_deliver.
Qed.

Lemma flush_all_empty k b : batch k (Flush b) = [].
Proof. unfold Flush, flushAllBatches. rewrite !flush_batch_empty. by destruct k. Qed.

Lemma record_flow c b :
  sorted_batches b -> sorted_batches (record_metric c b) /\
  forall k, flow k (record_metric c b) = flow k b ++ (if decide (kind_of c = k) then [c] else []).
Proof.
  intros Hb. unfold record_metric. set (b1 := set_batch (kind_of c) (batch (kind_of c) b ++ [c]) b).
  assert (sorted_batches b1) as H1.
  { intros k. unfold b1. rewrite batch_set. case_decide; [|apply Hb]. subst. apply Forall_app. split; [apply Hb|by repeat constructor]. }
  assert (forall k, flow k b1 = flow k b ++ (if decide (kind_of c = k) then [c] else [])) as E1.
  { intros k. unfold flow, b1. rewrite batch_set. cbn [set_batch bm_client]. repeat case_decide; try congruence.
    - subst. by rewrite app_assoc.
    - by rewrite app_nil_r. }
  destruct (_ <=? _)%Z; [|done]. destruct (flush_batch_flow (kind_of c) b1 H1) as [H2 E2]. split; [done|]. intros k. by rewrite E2.
Qed.

Lemma batch_set_loop k x y z b : batch k (set_loop x y z b) = batch k b.
Proof. by destruct k. Qed.

Lemma set_loop_flow x y z b : sorted_batches b -> sorted_batches (set_loop x y z b) /\ forall k, flow k (set_loop x y z b) = flow k b.
Proof. intros H. split; intros k; [rewrite batch_set_loop; apply H|unfold flow; by rewrite batch_set_loop]. Qed.

Lemma flush_exit_cases b : flush_exit b = b \/ exists x y z, flush_exit b = set_loop x y z b.
Proof. unfold flush_exit. destruct (bm_cancelled b); eauto. Qed.

(** The operations other than recording change no flow. *)
Lemma run_batch_op_flow o b :
  sorted_batches b -> sorted_batches (run_batch_op o b) /\ forall k, flow k (run_batch_op o b) = flow k b ++ of_kind k (recorded [o]).
Proof.
  intros Hb. set (P := fun b' => sorted_batches b' /\ forall k, flow k b' = flow k b).
  assert (forall b', P b' -> P (Flush b')) as Hf.
  { intros b' [H E]. destruct (flush_all_flow b' H) as [H' E']. split; [done|]. intros k. by rewrite E'. }
  assert (forall x y z b', P b' -> P (set_loop x y z b')) as Hs.
  { intros x y z b' [H E]. destruct (set_loop_flow x y z b' H) as [H' E']. split; [done|]. intros k. by rewrite E'. }
  assert (forall b', P b' -> P (flush_exit b')) as He.
  { intros b' H. destruct (flush_exit_cases b') as [-> | (x & y & z & ->)]; auto. }
  assert (P b) as H0 by done.
  destruct o as [c| | | | | |].
  { destruct (record_flow c b Hb) as [H1 E1]. split; [done|]. intros k. cbn [run_batch_op]. rewrite E1. unfold recorded, of_kind. cbn.
    by case_decide. }
  all: enough (P (run_batch_op _ b)) as [H1 E1] by (split; [exact H1|intros k; rewrite (E1 k); symmetry; apply app_nil_r]);
    cbn [run_batch_op]; unfold flush_tick, cancel, BM_Close, BM_Shutdown; cbn zeta; try destruct (bm_looping b); auto 8.
Qed.

Lemma run_batch_flow ops b :
  sorted_batches b -> sorted_batches (run_batch ops b) /\
  forall k, flow k (run_batch ops b) = flow k b ++ of_kind k (recorded ops).
Proof.
  revert b. induction ops as [|o ops IH]; intros b Hb; cbn [run_batch fold_left]; [split; [done|intros; by rewrite app_nil_r]|].
  destruct (run_batch_op_flow o b Hb) as [H1 E1].
  destruct (IH _ H1) as [H2 E2]. split; [done|]. intros k. unfold run_batch in *. rewrite E2, E1, <- app_assoc, <- of_kind_app.
  f_equal. unfold recorded. by rewrite <- omap_app.
Qed.

Lemma new_batches_empty batchSize b0 k : NewBatchedMetricsClient batchSize = Some b0 -> bm_client b0 = [] /\ batch k b0 = [].
Proof. unfold NewBatchedMetricsClient. destruct (_ <? _)%Z; [done|]. intros [= <-]. by destruct k. Qed.

Lemma new_batches_flow batchSize b0 ops k :
  NewBatchedMetricsClient batchSize = Some b0 -> flow k (run_batch ops b0) = of_kind k (recorded ops).
Proof.
  intros H. assert (sorted_batches b0) as H0 by (intros k'; destruct (new_batches_empty _ _ k' H) as [_ ->]; constructor).
  destruct (run_batch_flow ops b0 H0) as [_ E]. rewrite E. unfold flow. by destruct (new_batches_empty _ _ k H) as [-> ->].
Qed.

Lemma close_empty k b : batch k (BM_Close b) = [].
Proof. unfold BM_Close. cbn zeta. rewrite batch_set_loop. apply flush_all_empty. Qed.

(** C35.
    Batching loses, invents and reorders nothing within a kind of metric: after
    any run of recording, flushing, ticking and stopping, the calls that were
    passed on, followed by those still in the batch, are the calls recorded, in
    order.  Closing leaves no call in a batch and passes every recorded call on;
    shutting down leaves the calls in the batches, and since the flush loop has
    ended no tick passes them on any more. *)
Theorem batches_keep_calls batchSize b0 ops k (H : NewBatchedMetricsClient batchSize = Some b0) :
  let b := run_batch ops b0 in
  of_kind k (bm_client b) ++ batch k b = of_kind k (recorded ops) /\
  batch k (BM_Close b) = [] /\ of_kind k (bm_client (BM_Close b)) = of_kind k (recorded ops) /\
  batch k (BM_Shutdown b) = batch k b /\
  (forall n, run_batch (repeat BTick n) (BM_Shutdown b) = BM_Shutdown b).
Proof.
  cbn zeta. split_and!.
  - apply (new_batches_flow _ _ ops k H).
  - apply close_empty.
  - pose proof (new_batches_flow _ _ (ops ++ [BClose]) k H) as E. unfold run_batch in E. rewrite fold_left_app in E.
    change (flow k (BM_Close (run_batch ops b0)) = of_kind k (recorded (ops ++ [BClose]))) in E.
    unfold flow in E. rewrite close_empty, app_nil_r in E. rewrite E. unfold recorded. rewrite omap_app. cbn. by rewrite app_nil_r.
  - by destruct k.
  - induction n as [|n IH]; [done|]. cbn. exact IH.
Qed.

Lemma batches_keep_calls_witness :
  exists b0, NewBatchedMetricsClient 2 = Some b0 /\
  of_kind KCounter (bm_client (BM_Close (run_batch [BRecord (Incr "request" []); BRecord (Gauge "cursors" 3%Z []); BTick; BRecord (Incr "error" [])] b0))) =
    [Incr "request" []; Incr "error" []].
Proof.
  eexists. split; [reflexivity|]. pose proof (batches_keep_calls 2 _
    [BRecord (Incr "request" []); BRecord (Gauge "cursors" 3%Z []); BTick; BRecord (Incr "error" [])] KCounter eq_refl) as H.
  cbn zeta in H. destruct H as (_ & _ & H & _). etransitivity; [exact H|]. vm_compute. reflexivity.
Defined.

(** The bound of every batch, and that every operation keeps it. *)
Definition bounded_batches (batchSize : Z) (b : BatchedMetricsClient) : Prop :=
  bm_batchSize b = batchSize /\ forall k, (Z.of_nat (length (batch k b)) < Z.max 1 batchSize)%Z.

Lemma flush_batch_bounded batchSize k b : bounded_batches batchSize b -> bounded_batches batchSize (flush_batch k b).
Proof.
  intros [H1 H2]. split; [unfold flush_batch; by destruct (batch k b)|]. intros k0. rewrite flush_batch_empty. case_decide; [cbn; lia|done].
Qed.

Lemma set_loop_bounded batchSize x y z b : bounded_batches batchSize b -> bounded_batches batchSize (set_loop x y z b).
Proof. intros [H1 H2]. split; [done|]. intros k. rewrite batch_set_loop. apply H2. Qed.

Lemma flush_exit_bounded batchSize b : bounded_batches batchSize b -> bounded_batches batchSize (flush_exit b).
Proof. intros H. destruct (flush_exit_cases b) as [-> | (x & y & z & ->)]; auto using set_loop_bounded. Qed.

Lemma record_bounded batchSize c b : bounded_batches batchSize b -> bounded_batches batchSize (record_metric c b).
Proof.
  intros [H1 H2]. unfold record_metric. cbn zeta. set (b1 := set_batch _ _ b).
  assert (forall k, length (batch k b1) <= length (batch k b) + (if decide (k = kind_of c) then 1 else 0)) as Hl.
  { intros k0. unfold b1. rewrite batch_set. case_decide; [subst; rewrite length_app; cbn; lia|lia]. }
  destruct (Z.leb_spec (bm_batchSize b1) (Z.of_nat (length (batch (kind_of c) b1)))) as [Hle|Hlt].
  - split; [unfold flush_batch; by destruct (batch (kind_of c) b1)|]. intros k0. rewrite flush_batch_empty.
    case_decide as Hk; [cbn; lia|]. specialize (Hl k0). rewrite decide_False in Hl by done. specialize (H2 k0). lia.
  - split; [done|]. intros k0. specialize (Hl k0). specialize (H2 k0). case_decide as Hk; [|lia]. subst. cbn in Hlt. lia.
Qed.

Lemma run_batch_op_bounded batchSize o b : bounded_batches batchSize b -> bounded_batches batchSize (run_batch_op o b).
Proof.
  intros H. destruct o; cbn [run_batch_op]; unfold flush_tick, cancel, BM_Close, BM_Shutdown, Flush, flushAllBatches; cbn zeta;
    try destruct (bm_looping b); auto 10 using record_bounded, flush_batch_bounded, set_loop_bounded, flush_exit_bounded.
Qed.

(** A batch never grows past its size: after any run it holds fewer calls than
    the batch size, or none at all when that is zero. *)
Theorem batches_bounded batchSize b0 ops k (H : NewBatchedMetricsClient batchSize = Some b0) :
  (Z.of_nat (length (batch k (run_batch ops b0))) < Z.max 1 batchSize)%Z.
Proof.
  assert (bounded_batches batchSize b0) as H0.
  { split; [|intros k'; destruct (new_batches_empty _ _ k' H) as [_ ->]; cbn; lia].
    revert H. unfold NewBatchedMetricsClient. destruct (_ <? _)%Z; [done|]. by intros [= <-]. }
  enough (bounded_batches batchSize (run_batch ops b0)) as [_ Hb] by apply Hb. clear H. revert b0 H0.
  induction ops as [|o l IH]; cbn; auto using run_batch_op_bounded.
Qed.

Lemma batches_bounded_witness :
  exists b0, NewBatchedMetricsClient 2 = Some b0 /\
  (Z.of_nat (length (batch KCounter (run_batch [BRecord (Incr "request" []); BRecord (Incr "request" []); BRecord (Incr "error" [])] b0))) < 2)%Z.
Proof.
  eexists. split; [reflexivity|].
  exact (batches_bounded 2 _ [BRecord (Incr "request" []); BRecord (Incr "request" []); BRecord (Incr "error" [])] KCounter eq_refl).
Defined.

(** The count of open connections is never negative and at most 100 events of
    each sort wait to be counted; but the count can go wrong for good: a
    connection that opens and closes before the goroutine runs may be received
    in the opposite order, and the gauge then shows a connection that does not
    exist. *)
Theorem background_gauge_drifts :
  (forall s, rtc gauge_step new_gauge s -> (0 <= gs_count s)%Z /\ gs_inc s <= channelSize /\ gs_dec s <= channelSize) /\
  (exists s, rtc gauge_step (gauge_decrement "connection_closed" [] (gauge_increment "connection_opened" [] new_gauge)) s /\
     gs_inc s = 0 /\ gs_dec s = 0 /\ gs_gauge s = 1%Z /\ gs_count s = 1%Z).
Proof.
  split.
  - intros s Hs. remember new_gauge as s0 eqn:E.
    assert ((0 <= gs_count s0)%Z /\ gs_inc s0 <= channelSize /\ gs_dec s0 <= channelSize) as H0 by (subst; cbn; unfold channelSize; lia).
    clear E. induction Hs as [|s1 s2 s3 Hstep _ IH]; [done|]. apply IH. clear IH.
    destruct Hstep; cbn in *; unfold send; try case_decide; try lia. destruct (Z.ltb_spec 0 (gs_count s)); lia.
  - eexists. split; [|split_and!].
    + eapply rtc_l; [by apply gst_recv_dec|]. eapply rtc_l; [by apply gst_recv_inc|]. eapply rtc_l; [apply gst_tick|]. apply rtc_refl.
    + reflexivity.
    + reflexivity.
    + reflexivity.
    + reflexivity.
Qed.
