(* ===== verification/Prometheus.v ===== *)
(** * The Prometheus objects behind the metrics ([src/util/metrics.go])

    The vectors the program declares, their registration when the metrics
    client is made, and what a call on one of them does: [WithLabelValues]
    panics when it is given another number of values than the vector has labels.
    Histograms keep the list of what they observed. *)

From S2P Require Import Prelude GoStrings ClientSettings Pool Metrics.
From Stdlib Require Import ZArith Lia QArith_base.
Local Close Scope Q_scope.

Inductive vector_type := GaugeVec | CounterVec | HistogramVec | PlainGauge.
#[export] Instance vector_type_eq : EqDecision vector_type.
Proof. solve_decision. Defined.

(** A metric: the variable that holds it, its type, its name, its labels and its buckets. *)
Record vector := {
  v_var : string;
  v_type : vector_type;
  v_Name : string;
  v_labels : list string;
  v_Buckets : list Q
}.

Local Notation vec var type name labels buckets :=
  {| v_var := var; v_type := type; v_Name := name; v_labels := labels; v_Buckets := buckets |}.

Definition latency_buckets : list Q :=
  [1 # 1000; 5 # 1000; 1 # 100; 25 # 1000; 5 # 100; 1 # 10; 25 # 100; 5 # 10; inject_Z 1; 25 # 10; inject_Z 5; inject_Z 10; inject_Z 25; inject_Z 50; inject_Z 100; inject_Z 250; inject_Z 500; inject_Z 1000]%Q.
Definition size_buckets : list Q :=
  [inject_Z 100; inject_Z 1000; inject_Z 10000; inject_Z 100000; inject_Z 1000000]%Q.
Definition checkout_buckets : list Q :=
  [1 # 1000; 5 # 1000; 1 # 100; 25 # 1000; 5 # 100; 1 # 10; 25 # 100; 5 # 10; inject_Z 1; 25 # 10; inject_Z 5]%Q.

(** Connections, health and messages. *)
Definition connection_vectors : list vector := [
  vec "openConnections" GaugeVec "mongobouncer_open_connections_total" ["type"] [];
  vec "connectionOpenedTotal" CounterVec "mongobouncer_connections_opened_total" [] [];
  vec "connectionClosedTotal" CounterVec "mongobouncer_connections_closed_total" [] [];
  vec "mongobouncerUp" PlainGauge "mongobouncer_up" [] [];
  vec "messageHandleDuration" HistogramVec "mongobouncer_message_handle_duration_seconds" ["success"] latency_buckets;
  vec "roundTripDuration" HistogramVec "mongobouncer_round_trip_duration_seconds" ["database"] latency_buckets;
  vec "requestSizeBytes" HistogramVec "mongobouncer_request_size_bytes" ["database"] size_buckets;
  vec "responseSizeBytes" HistogramVec "mongobouncer_response_size_bytes" ["database"] size_buckets
].

(** Cursors, transactions and the driver. *)
Definition tracking_vectors : list vector := [
  vec "cursorsActive" GaugeVec "mongobouncer_cursors_active_total" ["database"] [];
  vec "cursorsOpenedTotal" CounterVec "mongobouncer_cursors_opened_total" ["database"] [];
  vec "cursorsClosedTotal" CounterVec "mongobouncer_cursors_closed_total" ["database"] [];
  vec "transactionsActive" GaugeVec "mongobouncer_transactions_active_total" ["database"] [];
  vec "transactionsCommittedTotal" CounterVec "mongobouncer_transactions_committed_total" ["database"] [];
  vec "transactionsAbortedTotal" CounterVec "mongobouncer_transactions_aborted_total" ["database"] [];
  vec "serverSelectionDuration" HistogramVec "mongobouncer_server_selection_duration_seconds" ["database"] latency_buckets;
  vec "checkoutConnectionDuration" HistogramVec "mongobouncer_checkout_connection_duration_seconds" ["database"] latency_buckets
].

(** Pool events, requests, errors and the pools. *)
Definition pool_vectors : list vector := [
  vec "poolEventCounters" CounterVec "mongobouncer_pool_events_total" ["event_type"] [];
  vec "requestsTotal" CounterVec "mongobouncer_requests_total" ["database"; "operation"] [];
  vec "errorsTotal" CounterVec "mongobouncer_errors_total" ["database"; "error_type"] [];
  vec "poolActiveConnections" GaugeVec "mongobouncer_pool_active_connections" ["database"] [];
  vec "poolTotalConnections" GaugeVec "mongobouncer_pool_total_connections" ["database"] [];
  vec "poolMaxConnections" GaugeVec "mongobouncer_pool_max_connections" ["database"] [];
  vec "poolUtilizationRatio" GaugeVec "mongobouncer_pool_utilization_ratio" ["database"] [];
  vec "poolCheckoutTotal" GaugeVec "mongobouncer_pool_checkout_total" ["database"] [];
  vec "poolCheckinTotal" GaugeVec "mongobouncer_pool_checkin_total" ["database"] [];
  vec "poolCheckoutFailuresTotal" GaugeVec "mongobouncer_pool_checkout_failures_total" ["database"] [];
  vec "poolConnectionCheckoutDuration" HistogramVec "mongobouncer_pool_checkout_duration_seconds" ["database"] checkout_buckets
].

(** Sessions and clients. *)
Definition client_vectors : list vector := [
  vec "sessionsActive" GaugeVec "mongobouncer_sessions_active_total" ["database"] [];
  vec "ismasterCommandsTotal" CounterVec "mongobouncer_ismaster_commands_total" [] [];
  vec "serverSelectionTotal" CounterVec "mongobouncer_server_selections_total" ["database"] [];
  vec "maxClientConnections" GaugeVec "mongobouncer_max_client_connections_total" [] [];
  vec "clientWaitTime" HistogramVec "mongobouncer_client_wait_duration_seconds" ["database"] latency_buckets
].

Definition vectors : list vector := connection_vectors ++ tracking_vectors ++ pool_vectors ++ client_vectors.

(** The arguments of [registry.MustRegister]. *)
Definition registration : list string := [
  "openConnections"; "connectionOpenedTotal"; "connectionClosedTotal"; "mongobouncerUp"; "messageHandleDuration";
  "roundTripDuration"; "requestSizeBytes"; "responseSizeBytes"; "cursorsActive"; "cursorsOpenedTotal";
  "cursorsClosedTotal"; "transactionsActive"; "transactionsCommittedTotal"; "transactionsAbortedTotal"; "serverSelectionDuration";
  "checkoutConnectionDuration"; "requestsTotal"; "errorsTotal"; "sessionsActive"; "ismasterCommandsTotal";
  "serverSelectionTotal"; "maxClientConnections"; "clientWaitTime"; "poolEventCounters"; "poolActiveConnections";
  "poolTotalConnections"; "poolMaxConnections"; "poolUtilizationRatio"; "poolCheckoutTotal"; "poolCheckinTotal";
  "poolCheckoutFailuresTotal"; "poolConnectionCheckoutDuration"
].

Definition vector_of (var : string) : option vector := head (filter (fun v => v_var v = var) vectors).

(** ** The client's life *)

(** The registered names, [mongobouncerUp], and whether the HTTP server runs. *)
Record MetricsClient := {
  mc_registry : list string;
  mc_up : Z;
  mc_address : string;
  mc_serving : bool
}.

(** [registry.MustRegister(cs...)] panics on a name that is registered already. *)
Fixpoint MustRegister (vars : list string) (registered : list string) : outcome (list string) :=
  match vars with
  | [] => Ret registered
  | var :: vars =>
      match vector_of var with
      | None => Panic "nil collector"
      | Some v =>
          if decide (v_Name v ∈ registered) then Panic "duplicate metrics collector registration attempted"
          else MustRegister vars (registered ++ [v_Name v])
      end
  end.

Definition NewMetricsClient (metricsAddr : string) : outcome MetricsClient :=
  let? names := MustRegister registration [] in
  Ret {| mc_registry := names; mc_up := 1; mc_address := metricsAddr; mc_serving := true |}.

(** The server stops taking connections whether or not its context ends first. *)
Definition MC_Shutdown (m : MetricsClient) : MetricsClient :=
  {| mc_registry := mc_registry m; mc_up := 0; mc_address := mc_address m; mc_serving := false |}.
Definition MC_Close (m : MetricsClient) : MetricsClient := MC_Shutdown m.
Definition MC_Flush (m : MetricsClient) : MetricsClient := m.

(** The answer to [/health], whatever the state of the proxy: status and body. *)
Definition health_handler : Z * string := (200%Z, "OK").

(** The gauge [BackgroundGauge] updates: that of the vector, or one of its own that no registry knows. *)
Inductive background_gauge := VectorGauge (var : string) (labels : list string) | OwnGauge (name : string).
Definition background_gauge_of (name : string) : background_gauge :=
  if decide (name = "open_connections") then VectorGauge "openConnections" ["client"]
  else OwnGauge ("mongobouncer_" +:+ name +:+ "_total").

(** ** Calls *)

(** Counters and gauges by variable and label values, and what the histograms have observed. *)
Record registry := {
  rg_values : gmap (string * list string) Q;
  rg_observed : gmap (string * list string) (list Q)
}.

Definition prom_metric (p : prom_call) : string :=
  match p with PInc m _ | PSet m _ _ | PAdd m _ _ | PObserve m _ _ => m end.
Definition prom_labels (p : prom_call) : list string :=
  match p with PInc _ l | PSet _ l _ | PAdd _ l _ | PObserve _ l _ => l end.
(** The type of vector that has the method. *)
Definition prom_type (p : prom_call) : vector_type :=
  match p with PInc _ _ => CounterVec | PSet _ _ _ | PAdd _ _ _ => GaugeVec | PObserve _ _ _ => HistogramVec end.

Definition prom_key (p : prom_call) : string * list string := (prom_metric p, prom_labels p).
Definition value (k : string * list string) (r : registry) : Q := default (inject_Z 0) (rg_values r !! k).
Definition set_value (k : string * list string) (q : Q) (r : registry) : registry :=
  {| rg_values := <[k := q]> (rg_values r); rg_observed := rg_observed r |}.

Definition prom_do (p : prom_call) (r : registry) : registry :=
  match p with
  | PInc _ _ => set_value (prom_key p) (Qplus (value (prom_key p) r) (inject_Z 1)) r
  | PSet _ _ q => set_value (prom_key p) q r
  | PAdd _ _ q => set_value (prom_key p) (Qplus (value (prom_key p) r) q) r
  | PObserve _ _ q =>
      {| rg_values := rg_values r;
         rg_observed := <[prom_key p := default [] (rg_observed r !! prom_key p) ++ [q]]> (rg_observed r) |}
  end.

(** [v.WithLabelValues(labels...)] and the method called on it. *)
Definition prom_apply (p : prom_call) (r : registry) : outcome registry :=
  match vector_of (prom_metric p) with
  | None => Panic "undefined"
  | Some v =>
      if decide (v_type v = prom_type p) then
        if decide (length (prom_labels p) = length (v_labels v)) then Ret (prom_do p r)
        else Panic "inconsistent label cardinality"
      else Panic "undefined"
  end.

Fixpoint prom_run (ps : list prom_call) (r : registry) : outcome registry :=
  match ps with
  | [] => Ret r
  | p :: ps => let? r := prom_apply p r in prom_run ps r
  end.

(** ** Properties *)

(** A call on a vector that is declared and registered, with a method it has and as many values as it has labels. *)
Definition well_labelled (p : prom_call) : bool :=
  match vector_of (prom_metric p) with
  | Some v => bool_decide (v_type v = prom_type p) && bool_decide (length (prom_labels p) = length (v_labels v)) &&
              bool_decide (v_var v ∈ registration)
  | None => false
  end.

Lemma client_call_labelled c : Forall (fun p => well_labelled p = true) (client_call c).
Proof.
  destruct c; unfold client_call, MC_Incr, MC_Gauge, MC_Distribution, MC_Timing; cbn zeta;
    repeat case_decide; try destruct (parseRequestTags _); repeat constructor.
Qed.

Lemma prom_apply_labelled p r : well_labelled p = true -> prom_apply p r = Ret (prom_do p r).
Proof.
  unfold well_labelled, prom_apply. destruct (vector_of _) as [v|]; [|done].
  rewrite !andb_true_iff, !bool_decide_eq_true. intros [[H1 H2] _]. by rewrite !decide_True.
Qed.

Lemma prom_run_labelled ps r :
  Forall (fun p => well_labelled p = true) ps -> prom_run ps r = Ret (fold_left (fun r p => prom_do p r) ps r).
Proof.
  intros H. revert r. induction H as [|p ps Hp _ IH]; intros r; [done|]. cbn. rewrite prom_apply_labelled by done. apply IH.
Qed.

Lemma prom_do_counter p r v k :
  well_labelled p = true -> vector_of (fst k) = Some v -> v_type v = CounterVec -> Qle (value k r) (value k (prom_do p r)).
Proof.
  unfold well_labelled. intros Hp Hv Ht. destruct (decide (prom_key p = k)) as [<-|Hk].
  2: { destruct p; unfold prom_do, value, set_value; cbn; rewrite ?lookup_insert_ne by done; apply Qle_refl. }
  cbn in Hv. rewrite Hv in Hp. apply andb_true_iff in Hp as [[Hp _]%andb_true_iff _]. apply bool_decide_eq_true in Hp. rewrite Ht in Hp.
  destruct p; try done. unfold prom_do, value, set_value. cbn. rewrite lookup_insert_eq. cbn.
  rewrite <- (Qplus_0_r (default _ _)) at 1. apply Qplus_le_compat; [apply Qle_refl|]. by vm_compute.
Qed.

